(* ===== verification/_CoqProject ===== *)
-Q . S2P
Prelude.v
GoStrings.v
Go.v
Files.v
Store.v
Static.v
Sha256.v
Api.v
DeepCopy.v
World.v
Images.v
Launch.v
Instances.v
Profiles.v
Template.v
Sample.v
Client.v
Logging.v
Progress.v
Config.v
LoadBalancer.v
Capi.v
LXCCluster.v
LXCMachine.v
Readiness.v
Removal.v
Histories.v
Lifecycle.v
ClusterLifecycle.v
System.v
Simplestreams.v
SimplestreamsCmd.v
Docker.v
DockerImages.v
Kini.v
ImageBuilder.v
Scheme.v
Manager.v
