(* ===== verification/Prelude.v ===== *)
(** * cluster-api-provider-incus: a verification development

    ** The program

    The repository is a Cluster API infrastructure provider for Incus, Canonical
    LXD and MicroCloud, with three command line tools beside it.

    - Two controllers reconcile the objects [LXCCluster] and [LXCMachine]
      (api/v1alpha2, internal/controller). A cluster gets a load balancer for its
      control plane; a machine gets an instance of the Incus server. The
      controllers read Kubernetes objects, call a load balancer [Manager] and
      the Incus client, write down what happened in the status and the
      conditions of the object, and patch it when they return.
    - The client (internal/lxc) connects to the server and launches, starts,
      stops, deletes and lists instances, from launch options which
      internal/instances composes out of internal/static and internal/cloudinit.
    - The load balancers (internal/loadbalancer) are five implementations of one
      interface: haproxy in a container, haproxy in an OCI container, an OVN
      network load balancer, kube-vip and an external one.
    - The tool simplestreams keeps an index of images; kini runs kind against
      Incus with a replacement of the docker command; image-builder makes
      images.

    ** The files, and the code they model

    - Prelude, GoStrings, Go: generic lemmas and tactics; the parts of Go's
      [strings], [strconv] and [errors] the code uses; internal/utils/errors.go;
      and the state, error and panic monad [M St A] with its
      weakest-precondition calculus.
    - Files: [path/filepath] and a disk of which every operation may fail. A file
      is known by its absolute name ([abs]): a relative name is one below the
      working directory.
    - Store: the memory of a Go program: blocks of values behind pointers,
      slices and maps, which may share them; the views of a value through them,
      and what it means that a computation copies a value; internal/ptr.
    - Static: the texts of internal/static/embed, byte for byte.
    - Sha256: crypto/sha256, on 32 bit words with their wrap-around.
    - Api: the types and methods of api/v1alpha2, as records.
    - DeepCopy: api/v1alpha2/zz_generated.deepcopy.go and the types of the
      templates and lists, on the memory of Store.
    - World: the calls to Incus, Kubernetes and the host as the inductive type
      [call], with an unknown environment [Env] that answers them; the log of
      the calls and the [path] through the states of the world that they take;
      and what the theorems say of a computation through its log ([traces],
      [calls_only], [safe]).
    - Images, Launch, Instances: internal/lxc/images*.go, launch_options*.go,
      internal/instances, internal/cloudinit and the profiles of
      internal/static. Profiles: the YAML documents of the profiles and
      internal/static/profiles.go, which reads them.
    - Template: the subset of text/template that the templates of
      internal/loadbalancer use.
    - Sample: an in-memory server that instantiates [Env], for runs of the
      model on concrete inputs.
    - Client, Config: internal/lxc/client*.go and configuration*.go; Logging: the
      progress handler of client_operations.go.
    - Progress: a logic of computations that succeed in time, the class
      [Responsive] of servers that do their part, and launching on them.
    - LoadBalancer: internal/loadbalancer; the record [Manager] is the Go
      interface and the class [ManagerSpec] what it promises to the controllers.
    - Capi: internal/utils/machines.go, pod_cidr.go and the interface [ClusterAPI]
      to the libraries of Cluster API, with a reference instance.
    - LXCCluster, LXCMachine: the controllers, one [Module] each.
    - Readiness: machines and clusters becoming ready on a server that does its
      part, with the class [Balancing] for the calls of the load balancer.
    - Removal: machines and clusters going away on servers that do their part,
      with the classes [Removing] for stopping and deleting instances and
      [Answering] for the API server.
    - Histories: runs of a controller one after the other, for any kind of
      object with a finalizer; Lifecycle: the histories of a machine, over an API
      server with the laws of the class [Kubernetes]; ClusterLifecycle: those of
      a cluster, with the laws of the class [KubernetesClusters]; System: runs of
      both controllers, for any objects, in any order.
    - Simplestreams: internal/exp/simplestreams/index; SimplestreamsCmd:
      cmd/exp/simplestreams/cmd.
    - Docker: cmd/exp/kini/docker, internal/utils/oci_image.go; DockerImages: its
      image tarballs (load, save and image inspect), on the disk of Files.
    - Kini: internal/exp/kini, cmd/exp/kini/kini, cmd/exp/kini/kind and
      cmd/exp/kini/main.go.
    - ImageBuilder: internal/exp/image-builder, cmd/exp/image-builder; the
      actions are in the [Module] [action].
    - Scheme: the registration of the API types, and the scheme of cmd/main.go.
    - Manager: cmd/main.go and SetupWithManager of both controllers.

    A definition has the name of the Go function it models; a part of a
    function that has a definition of its own has a name of its own. A method
    value, an error return, a panic and a mutated object are respectively a
    record field, the outcomes [Ok] and [Err], the outcome [Panic], and the
    object returned next to the outcome. A Go map that is visited is visited in
    an arbitrary order ([MapRange]); a nil map or pointer is [None] where the
    code tells it apart.

    ** What the theorems show

    They hold for every environment: for every server, cluster and host, with
    every pattern of failures.

    - Controllers: no panic, except when the server answers the request for a
      file that is to be rewritten with a directory: the client of Incus then
      has a nil reader, and reading it panics ([panics_only], [directory_at]);
      the finalizer is there before the server is
      changed and leaves only when the instance (or load balancer) is known to
      be gone; a machine gets its provider ID only after its launch and the
      reconfiguration of the load balancer; what becomes of every failure
      (retried, final, requeued); only the machine's instance and the cluster's
      load balancer are changed; the patch is the last call.
    - Over many reconciliations ([no_orphans], [no_orphan_balancers]): an instance
      that was asked for is guarded by the finalizer of its machine, and a load
      balancer by the finalizer of its cluster, until it was seen to be gone, on
      the server and in the project where it was asked for. A [place] is a server
      and a project; the hypothesis is that every secret a run reads selects the
      same place ([credentials]), the log then shows that every call was made
      there ([at_place]) and the evidence counts only there ([instance_gone],
      [lb_gone]). Of the load balancer the hypothesis is, too, that every run
      reads the same specification of it: [switched_balancer_stays] shows what
      is left behind otherwise. For both controllers together ([system_leaves_nothing]) this holds whatever
      they reconcile and in whatever order, because a run for one object is
      shown to leave the finalizers of all others where they are.
    - Progress: on a server that does its part a launch succeeds within a stated
      time, and a cluster with a haproxy and a machine (of the workers, or of
      the control plane) become ready in one reconciliation, the machine of the
      control plane with the load balancer reconfigured for it ([joins]: with
      the configuration that lists it); in one
      reconciliation, too, a machine that is deleted and a cluster without
      machines go away, with their instances and finalizers. These theorems have
      the laws of [Responsive], [Balancing], [Removing] and [Answering] as
      hypotheses, and those about histories the laws of [Kubernetes] and
      [KubernetesClusters]; all have instances they are applied to.
    - Deep copies: a copy reads as the original and shares no memory with it, so
      that later writes to one leave the other alone.
    - Manager: it starts only with both controllers and both checks in place, and
      its scheme knows every type of the API.
    - Profiles: the embedded documents are read without a panic, as the profiles
      of Instances.
    - Load balancers: all five implementations keep [ManagerSpec]; a
      reconfiguration refines its specification, the servers of the
      configuration being exactly the addressed control plane instances of the
      cluster (the text of the file is given for the default template; for a
      custom one it is what text/template gives); creating an OVN load balancer
      at an address that another cluster has fails, and those that it makes
      carry the name of the cluster; that deleting and reconfiguring one does
      not ask whose it is ([deletes_foreign_balancer]); what inspecting does.
    - Client: a launch ends within its deadlines, provisions an instance that it
      creates before it starts it and writes nothing after (an instance that
      was there already is started as it is); an instance is only taken for deleted on the
      word of the server; connections only go to the configured server;
      addresses, images, options and devices are parsed as documented; how
      progress is logged, and that the handler leaves the exit status of a
      command in the metadata it shares.
    - Simplestreams: an import records the hashes of what it stores, keeps the
      index well-formed and the other images in it, leaves the JSON files alone
      when it fails earlier, and opening the index again reads it back; the
      table of [show] has exactly the selected items, and what was imported is
      in it.
    - Docker shim: nodes are listed and inspected by kind as they were run, with
      any number of published ports; removal; when the tag of an image tarball
      can be read; an image that is saved and loaded again is the image that was
      saved. A loaded image is read from its tarball only when it is used, as
      the library does it, and so after the output of a save was truncated.
    - kini: the links to itself are there before PATH names them, a failed setup
      is undone, and the remotes of the user are never overwritten.
    - Image builder: a build ends, and a successful one ran exactly the selected
      stages to their end, in order, with the calls of each in the log; a failed
      export leaves no file behind, and after a successful one the log has the
      compression of the disk and the copy of every other entry of the archive.

    Some theorems state what the code does where that is not what it means to
    do: [OCI_Check_classification], [Inspect_outcome], [copyFile_outcome],
    [cluster_reconcileDelete_outcome], [parseImageTag_ends_iff],
    [docker_load_outcome], [loadedFileName_shared], [in_environment_outcome],
    [switched_balancer_stays], [directory_panics], [deletes_foreign_balancer],
    [self_import_empties] and [docker_save_over_cache].

    ** Fuel

    - [waitForInstanceAddress] polls every second under a deadline of at most 60
      seconds; [poll_fuel] is 61, and [WaitForLaunchInstance_ends] shows that it
      never runs out.
    - The lexer and the parser of templates have one more than the length of
      the text, and of the list of tokens, as fuel: a call consumes at least one
      character, or token. Running out gives [None], as a template out of the
      subset does; the templates of the program are evaluated in full. [blocks] of SHA-256 has the number of words as fuel, and
      needs one unit per sixteen.
    - [wait_agent] polls every second for five minutes; [agent_fuel] is 301, and
      [wait_agent_ends] shows that it never runs out.
    - [mapping], the reader of the YAML fragment, has the number of lines as fuel,
      and takes a line away at every step; running out gives [None], as a text
      out of the fragment does. The documents of the program are evaluated.
    - [parseImageTag_loop] models a loop that may not end; its fuel is
      quantified in the theorem about it. [parseImageTag] gives it one more than
      the number of entries, after which only an error can repeat.

    ** Parameters

    Code that is not in the repository is an argument: [Env] and [EnvTime] (the
    servers, and that time does not run backwards), [ClusterAPI] (conditions,
    finalizers and owners, with their documented laws), [TextTemplate]
    (templates out of the subset), [Printer] (the [%#v] verb and YAML output),
    [YAML], [CliPaths], [Archives], [Codecs] with [CodecLaws], [Disk],
    [References] (image references), [Platform] (architecture, calendar,
    versions), [Process] (environment variables, standard input), [Crane] with
    [BundleLaws] (registries and image tarballs), [Serializer], [Indenter]
    (indented JSON), [ProfileYAML] (YAML documents of the fragment that Profiles
    defines), [OperationAPI] (status codes of Incus), [Schemes] with
    [SchemesSpec], and [KubeTypes] with [KubeCopies] (five types of Kubernetes
    and Cluster API, and that their deep copies copy). Each has an instance in
    the file that uses it, on which the theorems are applied.

    ** What is not modelled

    - What is only wiring of libraries: log messages other than those of the
      progress handler, metrics, the commands and flags given to cobra, pflag and
      klog and the parsing of command lines, kind's own commands; and the
      end-to-end tests. What is left of the sources beside that are imports,
      licenses and the markers that generate manifests.
    - Links and mounts: two absolute names are two files on the disk of Files.
    - Aliasing in the handlers: a reconciliation works on its own copy of the
      object, and changes of it are values that are passed on. Only the deep
      copies, on which this rests, are modelled on the memory of Store.
    - The cache of the manager's client: a read of a machine is answered from
      what is stored ([get_stored]), not from an earlier version of it.
    - Concurrency inside one reconciliation (there is none in the code).
      Reconciliations of different objects run side by side: in [no_orphans] what
      the others do is part of how the environment answers; in
      [system_leaves_nothing] the runs are whole, one after the other. *)

From stdpp Require Export base gmap strings list fin_maps sorting option pretty.
From Stdlib Require Export Ascii ZArith Lia Bool.
Export ListNotations.

#[global] Arguments String.append !_ _ / : simpl nomatch.

#[global] Open Scope string_scope.
#[global] Open Scope list_scope.

(** The append of two strings, in a scope of its own so that [++] stays the
    append of lists. *)
Declare Scope go_scope.
Delimit Scope go_scope with go.
Infix "+s+" := String.append (at level 60, right associativity) : go_scope.
#[global] Open Scope go_scope.

(** ** Tactics *)

(** Case analysis on the innermost scrutinee of a [match] of the goal or of a
    hypothesis, followed by cleaning up. *)
Ltac split_match :=
  match goal with
  | |- context [match ?x with _ => _ end] =>
      lazymatch x with
      | context [match _ with _ => _ end] => fail
      | _ => destruct x eqn:?
      end
  | H : context [match ?x with _ => _ end] |- _ =>
      lazymatch x with
      | context [match _ with _ => _ end] => fail
      | _ => destruct x eqn:?
      end
  end.

(** Closes a decidable, closed goal by evaluation. *)
Ltac compute_done := apply (bool_decide_unpack _); vm_compute; exact I.

(** Case analysis on the lookups of a variable in a literal map. *)
Ltac split_lookups :=
  repeat match goal with
  | |- context [ <[?k := _]> _ !! ?x ] =>
      is_var x; destruct (decide (k = x)) as [<-|];
      [rewrite lookup_insert_eq|rewrite lookup_insert_ne by done]
  | |- context [ {[?k := _]} !! ?x ] =>
      is_var x; destruct (decide (k = x)) as [<-|];
      [rewrite lookup_singleton_eq|rewrite lookup_singleton_ne by done]
  end.

Create HintDb capn.

(** ** Lists *)

Section lists.
Context {A B : Type}.
Implicit Types (l : list A).

Lemma foldl_ind (P : list A → B → Prop) (f : B → A → B) (b : B) l :
  P [] b →
  (∀ l1 x acc, P l1 acc → P (l1 ++ [x]) (f acc x)) →
  P l (foldl f b l).
Proof.
  intros H0 Hs. enough (∀ l1 acc, P l1 acc → P (l1 ++ l) (foldl f acc l)) as Hg.
  { by apply (Hg [] b). }
  induction l as [|x l IH]; intros l1 acc Hacc; simpl; [by rewrite app_nil_r|].
  replace (l1 ++ x :: l) with ((l1 ++ [x]) ++ l) by by rewrite <- app_assoc.
  by apply IH, Hs.
Qed.

Lemma existsb_In (f : A → bool) l : existsb f l = true ↔ ∃ x, x ∈ l ∧ f x = true.
Proof.
  rewrite existsb_exists. split; intros (x & Hx & Hf); exists x; split; auto;
    by apply list_elem_of_In.
Qed.

Lemma forallb_In (f : A → bool) l : forallb f l = true ↔ ∀ x, x ∈ l → f x = true.
Proof.
  rewrite forallb_forall. split; intros H x Hx; apply H; by apply list_elem_of_In.
Qed.

End lists.

(** ** Finite maps with string keys

    [list_to_map] keeps the first occurrence of a key; Go's sequence of
    assignments [m[k] = v] keeps the last one. *)

Section maps.
Context {V : Type}.
Implicit Types (m : gmap string V) (kvs : list (string * V)).

(** [for k, v := range kvs { m[k] = v }] *)
Definition insert_all (m : gmap string V) (kvs : list (string * V)) : gmap string V :=
  foldl (λ acc kv, <[kv.1 := kv.2]> acc) m kvs.

Lemma insert_all_app m kvs kvs' :
  insert_all m (kvs ++ kvs') = insert_all (insert_all m kvs) kvs'.
Proof. apply foldl_app. Qed.

Lemma insert_all_NoDup m kvs :
  NoDup kvs.*1 → insert_all m kvs = list_to_map kvs ∪ m.
Proof.
  revert m. induction kvs as [|[k v] kvs IH]; intros m Hnd; simpl.
  { by rewrite (left_id_L ∅ (∪)). }
  apply NoDup_cons in Hnd as [Hk Hnd]. rewrite IH by done.
  rewrite <- insert_union_l. rewrite insert_union_r; [done|].
  by apply not_elem_of_list_to_map_1.
Qed.

(** Inserting the entries of a map, in any order, is the left-biased union. *)
Lemma insert_all_perm m m' kvs :
  kvs ≡ₚ map_to_list m' → insert_all m kvs = m' ∪ m.
Proof.
  intros Hp. rewrite insert_all_NoDup.
  - rewrite (list_to_map_proper kvs (map_to_list m')); [|by rewrite Hp; apply NoDup_fst_map_to_list|done].
    by rewrite list_to_map_to_list.
  - rewrite Hp. apply NoDup_fst_map_to_list.
Qed.

End maps.

(** ** Iteration over a Go map

    Go does not specify the order in which [range] visits a map: every
    development-wide definition that ranges over a map takes the order from
    an instance of this class, of which only the permutation is known. *)
Class MapRange := {
  range : ∀ {V : Type}, gmap string V → list (string * V);
  range_perm : ∀ {V : Type} (m : gmap string V), range m ≡ₚ map_to_list m
}.

#[export] Hint Resolve range_perm : capn.

Section range.
Context `{MapRange} {V : Type}.
Implicit Types (m : gmap string V).

Lemma elem_of_range m k v : (k, v) ∈ range m ↔ m !! k = Some v.
Proof. rewrite range_perm. apply elem_of_map_to_list. Qed.

Lemma length_range m : length (range m) = size m.
Proof. rewrite range_perm. apply length_map_to_list. Qed.

Lemma range_empty : range (∅ : gmap string V) = [].
Proof. apply Permutation_nil. rewrite range_perm. by rewrite map_to_list_empty. Qed.

Lemma range_singleton k v : range ({[k := v]} : gmap string V) = [(k, v)].
Proof.
  apply Permutation_singleton_r. rewrite range_perm. by rewrite map_to_list_singleton.
Qed.

Lemma NoDup_range_fst m : NoDup (range m).*1.
Proof. rewrite range_perm. apply NoDup_fst_map_to_list. Qed.

End range.

(** The order of the model when it is executed. *)
#[export] Instance MapRange_default : MapRange | 100 := {
  range := λ V m, map_to_list m;
  range_perm := λ V m, reflexivity _
}.
