(* ===== verification/GoStrings.v ===== *)
(** * The fragment of Go's standard library on strings that the provider uses

    Package [strings] ([Contains], [Cut], [CutPrefix], [HasPrefix], [HasSuffix],
    [Join], [ReplaceAll], [Split], [TrimSuffix]), [strconv] ([ParseBool],
    [FormatBool], and the quoting of [%q]) and [slices.Sort] on strings. A Go
    string is a sequence of bytes, as Rocq's [string] is. *)

From S2P Require Import Prelude.

(** The bytes of a string. *)
Abbreviation chars := Stdlib.Strings.String.list_ascii_of_string.

(** ** Prefixes and suffixes *)

Fixpoint string_drop (n : nat) (s : string) : string :=
  match n, s with
  | O, _ => s
  | S n', String _ s' => string_drop n' s'
  | S _, EmptyString => EmptyString
  end.

(** [strings.HasPrefix(s, p)] *)
Definition HasPrefix (s p : string) : bool := String.prefix p s.

#[global] Arguments HasPrefix : simpl never.

(** [strings.CutPrefix(s, p)]: the rest of the string, and whether it was cut. *)
Definition CutPrefix (s p : string) : string * bool :=
  if HasPrefix s p then (string_drop (String.length p) s, true) else (s, false).

(** [strings.HasSuffix(s, p)] *)
Definition HasSuffix (s p : string) : bool :=
  (String.length p <=? String.length s)%nat &&
  String.eqb (string_drop (String.length s - String.length p) s) p.

(** [strings.TrimSuffix(s, p)] *)
Definition TrimSuffix (s p : string) : string :=
  if HasSuffix s p then String.substring 0 (String.length s - String.length p) s else s.

(** ** Searching and splitting *)

(** [strings.Contains(s, sub)] *)
Fixpoint Contains (s sub : string) : bool :=
  HasPrefix s sub ||
  match s with
  | EmptyString => false
  | String _ s' => Contains s' sub
  end.

(** [strings.Cut(s, sep)], as the text around the first separator, if any. *)
Fixpoint cut_at (s sep : string) : option (string * string) :=
  if HasPrefix s sep then Some (EmptyString, string_drop (String.length sep) s)
  else match s with
       | EmptyString => None
       | String c s' =>
           match cut_at s' sep with
           | Some (before, after) => Some (String c before, after)
           | None => None
           end
       end.

(** [strings.Cut(s, sep)]: before, after, found. *)
Definition Cut (s sep : string) : string * string * bool :=
  match cut_at s sep with
  | Some (before, after) => (before, after, true)
  | None => (s, EmptyString, false)
  end.

(** [strings.Split(s, sep)] for a non-empty separator. [skip] counts the bytes
    of a separator still to be passed over, [cur] is the field being read. *)
Fixpoint split_go (sep : string) (skip : nat) (cur s : string) : list string :=
  match s with
  | EmptyString => [cur]
  | String c s' =>
      match skip with
      | S k => split_go sep k cur s'
      | O => if HasPrefix s sep
             then cur :: split_go sep (pred (String.length sep)) EmptyString s'
             else split_go sep O (cur +s+ String c EmptyString) s'
      end
  end.

Definition Split (s sep : string) : list string := split_go sep O EmptyString s.

(** [strings.Join(elems, sep)] *)
Fixpoint Join (elems : list string) (sep : string) : string :=
  match elems with
  | [] => EmptyString
  | [s] => s
  | s :: rest => s +s+ sep +s+ Join rest sep
  end.

(** [strings.ReplaceAll(s, old, new)] for a non-empty [old]. *)
Fixpoint replace_go (old new : string) (skip : nat) (s : string) : string :=
  match s with
  | EmptyString => EmptyString
  | String c s' =>
      match skip with
      | S k => replace_go old new k s'
      | O => if HasPrefix s old
             then new +s+ replace_go old new (pred (String.length old)) s'
             else String c (replace_go old new O s')
      end
  end.

Definition ReplaceAll (s old new : string) : string := replace_go old new O s.

(** [strings.ToLower] on ASCII letters. *)
Definition lower_ascii (c : ascii) : ascii :=
  let n := Ascii.nat_of_ascii c in
  if (65 <=? n)%nat && (n <=? 90)%nat then Ascii.ascii_of_nat (n + 32) else c.

Fixpoint ToLower (s : string) : string :=
  match s with
  | EmptyString => EmptyString
  | String c s' => String (lower_ascii c) (ToLower s')
  end.

(** ** [strconv] *)

(** [strconv.ParseBool]: [None] is the syntax error. *)
Definition ParseBool (s : string) : option bool :=
  if decide (s ∈ ["1"; "t"; "T"; "true"; "TRUE"; "True"]) then Some true
  else if decide (s ∈ ["0"; "f"; "F"; "false"; "FALSE"; "False"]) then Some false
  else None.

(** [strconv.FormatBool], also the verb [%t]. *)
Definition FormatBool (b : bool) : string := if b then "true" else "false".

Definition dquote : ascii := Ascii.ascii_of_nat 34.
Definition backslash : ascii := Ascii.ascii_of_nat 92.
Definition newline : string := String (Ascii.ascii_of_nat 10) EmptyString.
Definition tab : string := String (Ascii.ascii_of_nat 9) EmptyString.

Definition hex_digit (n : nat) : ascii :=
  if (n <? 10)%nat then Ascii.ascii_of_nat (48 + n) else Ascii.ascii_of_nat (87 + n).

(** The escapes of [strconv.Quote] on one byte; a byte of a multi-byte rune is
    printed as it is (the printable runes are). *)
Definition quote_byte (c : ascii) : string :=
  let n := Ascii.nat_of_ascii c in
  let esc d := String backslash (String (Ascii.ascii_of_nat d) EmptyString) in
  if (n =? 34)%nat then esc 34 else if (n =? 92)%nat then esc 92
  else if (n =? 7)%nat then esc 97 else if (n =? 8)%nat then esc 98
  else if (n =? 12)%nat then esc 102 else if (n =? 10)%nat then esc 110
  else if (n =? 13)%nat then esc 114 else if (n =? 9)%nat then esc 116
  else if (n =? 11)%nat then esc 118
  else if (n <? 32)%nat || (n =? 127)%nat
       then esc 120 +s+ String (hex_digit (n / 16)) (String (hex_digit (n mod 16)) EmptyString)
  else String c EmptyString.

Fixpoint quote_body (s : string) : string :=
  match s with
  | EmptyString => EmptyString
  | String c s' => quote_byte c +s+ quote_body s'
  end.

(** The verb [%q] on a string. *)
Definition quote (s : string) : string :=
  String dquote (quote_body s +s+ String dquote EmptyString).

(** The verb [%d] on a non-negative integer. *)
Definition decimal (n : nat) : string := pretty (N.of_nat n).

(** The verb [%v] on a slice of strings. *)
Definition format_slice (l : list string) : string := "[" +s+ Join l " " +s+ "]".

(** [slices.Sort] on strings: the bytewise order. *)
Definition sort_strings (l : list string) : list string := merge_sort String.le l.

(** ** [path/filepath] *)

(** The part of a path after its last slash. *)
Fixpoint after_last_slash (s : string) : string :=
  match cut_at s "/" with
  | None => s
  | Some _ =>
      match s with
      | EmptyString => EmptyString
      | String _ s' => after_last_slash s'
      end
  end.

(** The path without its trailing slashes. *)
Fixpoint trim_slashes (s : string) : string :=
  match s with
  | EmptyString => EmptyString
  | String c s' =>
      match trim_slashes s' with
      | EmptyString => if ascii_dec c "/" then EmptyString else String c EmptyString
      | t => String c t
      end
  end.

(** [filepath.Base] *)
Definition filepath_Base (path : string) : string :=
  match path with
  | EmptyString => "."
  | _ => match after_last_slash (trim_slashes path) with
         | EmptyString => "/"
         | b => b
         end
  end.

Example base_conf : filepath_Base "/var/lib/cloud/seed/nocloud-net/meta-data" = "meta-data".
Proof. reflexivity. Qed.
Example base_root : filepath_Base "//" = "/".
Proof. reflexivity. Qed.
Example base_dir : filepath_Base "a/b/" = "b".
Proof. reflexivity. Qed.

Example split_three : Split "tcp:127.0.0.1:16443" ":" = ["tcp"; "127.0.0.1"; "16443"].
Proof. reflexivity. Qed.
Example split_long : Split "lxc | qemu" " | " = ["lxc"; "qemu"].
Proof. reflexivity. Qed.
Example split_empty : Split "" ":" = [""].
Proof. reflexivity. Qed.
Example replace_two : ReplaceAll "aVERSIONbVERSION" "VERSION" "v1" = "av1bv1".
Proof. reflexivity. Qed.
Example cut_first : Cut "a,b,c" "," = ("a", "b,c", true).
Proof. reflexivity. Qed.

(** ** Lemmas: append, prefixes, suffixes *)

Lemma string_app_assoc (a b c : string) : (a +s+ b) +s+ c = a +s+ (b +s+ c).
Proof. induction a as [|x a IH]; simpl; [done|by rewrite IH]. Qed.

Lemma string_app_nil_r (a : string) : a +s+ "" = a.
Proof. induction a as [|x a IH]; simpl; [done|by rewrite IH]. Qed.

Lemma string_app_length (a b : string) :
  String.length (a +s+ b) = (String.length a + String.length b)%nat.
Proof. induction a as [|x a IH]; simpl; [done|by rewrite IH]. Qed.

Lemma string_drop_app (a b : string) : string_drop (String.length a) (a +s+ b) = b.
Proof. induction a; simpl; auto. Qed.

Lemma string_drop_all (s : string) n : (String.length s <= n)%nat → string_drop n s = "".
Proof. revert s. induction n as [|n IH]; intros [|c s]; simpl; intros; auto with lia. Qed.

Lemma string_app_inj_l (a b c : string) : a +s+ b = a +s+ c → b = c.
Proof. induction a as [|x a IH]; simpl; [done|]. intros [= H]. auto. Qed.

Lemma HasPrefix_app p s : HasPrefix (p +s+ s) p = true.
Proof.
  unfold HasPrefix. induction p as [|c p IH]; simpl; [by destruct s|].
  by destruct (Ascii.ascii_dec c c).
Qed.

Lemma HasPrefix_nil s : HasPrefix s "" = true.
Proof. by destruct s. Qed.

Lemma HasPrefix_spec s p : HasPrefix s p = true → s = p +s+ string_drop (String.length p) s.
Proof.
  unfold HasPrefix. revert s. induction p as [|c p IH]; intros s; simpl; [done|].
  destruct s as [|d s]; simpl; [done|]. destruct (Ascii.ascii_dec c d) as [->|]; [|done].
  intros H. simpl. f_equal. by apply IH.
Qed.

Lemma HasPrefix_app_l s p t : HasPrefix s p = true → HasPrefix (s +s+ t) p = true.
Proof.
  intros H. rewrite (HasPrefix_spec _ _ H), string_app_assoc. apply HasPrefix_app.
Qed.

Lemma CutPrefix_app p s : CutPrefix (p +s+ s) p = (s, true).
Proof. unfold CutPrefix. by rewrite HasPrefix_app, string_drop_app. Qed.

Lemma HasSuffix_app a s : HasSuffix (a +s+ s) s = true.
Proof.
  unfold HasSuffix. rewrite string_app_length, andb_true_iff. split.
  - apply Nat.leb_le. lia.
  - replace (String.length a + String.length s - String.length s)%nat
      with (String.length a) by lia.
    rewrite string_drop_app. apply String.eqb_refl.
Qed.

Lemma HasSuffix_spec s p : HasSuffix s p = true → ∃ a, s = a +s+ p.
Proof.
  unfold HasSuffix. rewrite andb_true_iff. intros [_ H%String.eqb_eq].
  assert (∀ n (t : string), ∃ a, t = a +s+ string_drop n t) as Hd.
  { induction n as [|n IH]; intros t; [by exists ""|].
    destruct t as [|c t]; [by exists ""|]. destruct (IH t) as [a Ha].
    exists (String c a). simpl. by rewrite <- Ha. }
  destruct (Hd (String.length s - String.length p)%nat s) as [a Ha].
  exists a. by rewrite <- H at 1.
Qed.

Lemma HasSuffix_app_r a s p : HasSuffix s p = true → HasSuffix (a +s+ s) p = true.
Proof.
  intros [b ->]%HasSuffix_spec. rewrite <- string_app_assoc. apply HasSuffix_app.
Qed.

(** ** Lemmas: searching *)

Lemma Contains_app_mid a s sub b :
  Contains s sub = true → Contains (a +s+ s +s+ b) sub = true.
Proof.
  intros H. induction a as [|c a IH]; simpl.
  - induction s as [|d s IH]; simpl in *.
    + rewrite orb_false_r in H. destruct b; simpl; apply orb_true_iff; left;
        destruct sub; try done.
    + apply orb_true_iff in H as [H|H]; apply orb_true_iff.
      * left. by apply (HasPrefix_app_l (String d s)).
      * right. by apply IH.
  - by rewrite IH, orb_true_r.
Qed.

Lemma Contains_app_r a s sub : Contains s sub = true → Contains (a +s+ s) sub = true.
Proof.
  intros H. rewrite <- (string_app_nil_r s). by apply Contains_app_mid.
Qed.

Lemma Contains_self s : Contains s s = true.
Proof.
  assert (HasPrefix s s = true) as H by
    (rewrite <- (string_app_nil_r s) at 1; apply HasPrefix_app).
  destruct s; simpl; by rewrite ?H.
Qed.

Lemma Contains_cut s sep :
  Contains s sep = match cut_at s sep with Some _ => true | None => false end.
Proof.
  induction s as [|c s IH]; simpl; destruct (HasPrefix _ sep) eqn:E; simpl; auto.
  rewrite IH. by destruct (cut_at s sep) as [[b a]|].
Qed.

(** [Cut] splits at a separator ... *)
Lemma cut_at_app s sep b a : cut_at s sep = Some (b, a) → s = b +s+ sep +s+ a.
Proof.
  revert b a. induction s as [|c s IH]; intros b a; simpl;
    destruct (HasPrefix _ sep) eqn:E.
  - intros [= <- <-]. simpl. by apply HasPrefix_spec.
  - done.
  - intros [= <- <-]. simpl. by apply (HasPrefix_spec (String c s)).
  - destruct (cut_at s sep) as [[b' a']|]; [|done]. intros [= <- <-].
    simpl. f_equal. by apply IH.
Qed.

(** ... that does not start inside the part before it. *)
Lemma cut_at_none_char c s :
  Contains s (String c "") = false ↔ c ∉ chars s.
Proof.
  induction s as [|d s IH]; simpl.
  - split; [intros _ H; inv H|done].
  - rewrite orb_false_iff, IH, not_elem_of_cons.
    unfold HasPrefix. simpl. destruct (Ascii.ascii_dec c d) as [->|Hne].
    + destruct s; simpl; intuition congruence.
    + simpl; intuition congruence.
Qed.

Lemma cut_at_char b c a :
  c ∉ chars b → cut_at (b +s+ String c a) (String c "") = Some (b, a).
Proof.
  induction b as [|d b IH]; simpl; intros Hn.
  - unfold HasPrefix. simpl. destruct (Ascii.ascii_dec c c); [|done]. by destruct a.
  - apply not_elem_of_cons in Hn as [Hne Hn]. unfold HasPrefix. simpl.
    destruct (Ascii.ascii_dec c d); [done|]. by rewrite IH.
Qed.

Lemma cut_at_char_None c s : c ∉ chars s → cut_at s (String c "") = None.
Proof.
  intros H%cut_at_none_char. rewrite Contains_cut in H.
  by destruct (cut_at s _).
Qed.

(** ** Lemmas: [Split] and [Join] *)

Lemma split_go_char c cur b s :
  c ∉ chars b →
  split_go (String c "") 0 cur (b +s+ String c s) =
    (cur +s+ b) :: split_go (String c "") 0 "" s.
Proof.
  revert cur. induction b as [|d b IH]; simpl; intros cur Hn.
  - unfold HasPrefix. simpl. destruct (Ascii.ascii_dec c c); [|done].
    destruct s; by rewrite string_app_nil_r.
  - apply not_elem_of_cons in Hn as [Hne Hn]. unfold HasPrefix. simpl.
    destruct (Ascii.ascii_dec c d); [done|]. by rewrite IH, string_app_assoc.
Qed.

Lemma split_go_char_end c cur b :
  c ∉ chars b → split_go (String c "") 0 cur b = [cur +s+ b].
Proof.
  revert cur. induction b as [|d b IH]; simpl; intros cur Hn.
  - by rewrite string_app_nil_r.
  - apply not_elem_of_cons in Hn as [Hne Hn]. unfold HasPrefix. simpl.
    destruct (Ascii.ascii_dec c d); [done|]. by rewrite IH, string_app_assoc.
Qed.

(** Splitting what was joined gives the fields back, when no field contains
    the (one byte) separator. *)
Lemma Split_Join c l :
  l ≠ [] → Forall (λ s, c ∉ chars s) l → Split (Join l (String c "")) (String c "") = l.
Proof.
  unfold Split. intros Hne Hl. induction Hl as [|x l Hx Hl IH]; [done|].
  destruct l as [|y l]; simpl.
  - by rewrite split_go_char_end.
  - rewrite split_go_char by done. f_equal. by apply IH.
Qed.

Lemma Split_nonempty s sep : Split s sep ≠ [].
Proof.
  unfold Split. generalize 0%nat "". induction s as [|c s IH]; intros k cur; simpl; [done|].
  destruct k; [|apply IH]. destruct (HasPrefix _ sep); [done|apply IH].
Qed.

(** ** Lemmas: booleans and sorting *)

Lemma ParseBool_FormatBool b : ParseBool (FormatBool b) = Some b.
Proof. by destruct b. Qed.

Lemma sort_strings_perm l : sort_strings l ≡ₚ l.
Proof. apply merge_sort_Permutation. Qed.

Lemma sort_strings_sorted l : StronglySorted String.le (sort_strings l).
Proof. apply (StronglySorted_merge_sort String.le l). Qed.

Lemma sort_strings_unique l l' : l ≡ₚ l' → sort_strings l = sort_strings l'.
Proof.
  intros H. eapply (StronglySorted_unique String.le); auto using sort_strings_sorted.
  by rewrite !sort_strings_perm.
Qed.

#[export] Hint Resolve HasPrefix_app HasSuffix_app HasSuffix_app_r Contains_app_r
  Contains_app_mid Contains_self : capn.

Lemma chars_app a b : chars (a +s+ b) = chars a ++ chars b.
Proof. induction a as [|c a IH]; simpl; [done|by rewrite IH]. Qed.

Lemma substring_length n s :
  (n <= String.length s)%nat → String.length (String.substring 0 n s) = n.
Proof.
  revert n. induction s as [|c s IH]; intros [|n]; simpl; try done; try lia.
  intros H. by rewrite IH by lia.
Qed.

Lemma string_app_inj_len a a' b b' :
  String.length a = String.length a' → a +s+ b = a' +s+ b' → a = a' ∧ b = b'.
Proof.
  revert a'. induction a as [|c a IH]; intros [|c' a'] Hl Heq; simpl in *; try done.
  injection Heq as -> Heq. injection Hl as Hl. destruct (IH _ Hl Heq) as [-> ->]. done.
Qed.

Lemma string_app_inj_r a a' b : a +s+ b = a' +s+ b → a = a'.
Proof.
  intros H. apply (string_app_inj_len _ _ b b) in H as [-> _]; [done|].
  apply (f_equal String.length) in H. rewrite !string_app_length in H. lia.
Qed.

Lemma Cut_char b c a :
  c ∉ chars b → Cut (b +s+ String c a) (String c "") = (b, a, true).
Proof. intros H. unfold Cut. by rewrite cut_at_char. Qed.

Lemma Cut_found s sep : (Cut s sep).2 = Contains s sep.
Proof. unfold Cut. rewrite Contains_cut. by destruct (cut_at s sep) as [[b a]|]. Qed.

(** [free pre sub]: no occurrence of [sub] can start inside [pre], whatever
    follows it. *)
Fixpoint free (pre sub : string) : bool :=
  match pre with
  | EmptyString => true
  | String _ pre' => negb (HasPrefix pre sub || HasPrefix sub pre) && free pre' sub
  end.

Lemma HasPrefix_app_or a s p : HasPrefix (a +s+ s) p = true → HasPrefix a p || HasPrefix p a = true.
Proof.
  unfold HasPrefix. revert p. induction a as [|x a IH]; intros [|y p]; simpl; intros H; try done.
  destruct (ascii_dec y x); [|done]. subst. destruct (ascii_dec x x); [|done]. by apply IH.
Qed.

Lemma Contains_free pre s sub : free pre sub = true → Contains (pre +s+ s) sub = Contains s sub.
Proof.
  induction pre as [|c pre IH]; intros Hf; [done|].
  cbn [free] in Hf. apply andb_true_iff in Hf as [Hn Hf].
  change (Contains (String c (pre +s+ s)) sub = Contains s sub).
  cbn [Contains]. rewrite IH by done.
  destruct (HasPrefix (String c (pre +s+ s)) sub) eqn:Hp; [|done].
  apply (HasPrefix_app_or (String c pre) s) in Hp. by rewrite Hp in Hn.
Qed.
