(* ===== verification/Go.v ===== *)
(** * Go errors, and the monad in which the provider's functions run

    Part 1 models Go's error values as the provider builds and inspects them:
    [errors.New], [fmt.Errorf] with [%w], [errors.Join], and the terminal
    errors of internal/utils/errors.go. Part 2 is the state, error and panic
    monad of the development, with a weakest-precondition calculus. *)

From S2P Require Import Prelude GoStrings.

(** ** Part 1: errors *)

(** An error value. [wrapError] is what [fmt.Errorf] returns for a format with
    the verb [%w]: the formatted text and the wrapped error. [terminalError]
    is the struct of internal/utils/errors.go, which embeds the error. *)
Inductive error : Type :=
| errorString (s : string)
| wrapError (msg : string) (err : error)
| terminalError (err : error)
| joinError (errs : list error).

(** The method [Error()]. *)
Fixpoint Error (e : error) : string :=
  match e with
  | errorString s => s
  | wrapError msg _ => msg
  | terminalError e' => Error e'
  | joinError errs => Join (map Error errs) newline
  end.

(** [fmt.Errorf("pre%w", err)] *)
Definition Errorf_w (pre : string) (e : error) : error := wrapError (pre +s+ Error e) e.

(** TerminalError is used to indicate a non-retriable error. *)
Definition TerminalError (err : error) : error := terminalError err.

(** IsTerminalError is [errors.As(err, &terminalError{})]: the error or one of
    the errors it wraps is a [terminalError]. A [terminalError] has no
    [Unwrap] method; nothing below it needs to be searched, since it matches. *)
Fixpoint IsTerminalError (err : error) : bool :=
  match err with
  | terminalError _ => true
  | wrapError _ e => IsTerminalError e
  | joinError errs => existsb IsTerminalError errs
  | errorString _ => false
  end.

(** [errors.Join(errs...)]: [None] is the nil error. *)
Definition errors_Join (errs : list error) : option error :=
  match errs with
  | [] => None
  | _ => Some (joinError errs)
  end.

Lemma IsTerminalError_Errorf pre e : IsTerminalError (Errorf_w pre e) = IsTerminalError e.
Proof. done. Qed.

Lemma Error_Errorf pre e : Error (Errorf_w pre e) = pre +s+ Error e.
Proof. done. Qed.

(** ** Part 2: the monad *)

(** What running a Go function can lead to. [Err] is a non-nil error result;
    [Panic] a run-time panic (nil dereference, index out of range, write to a
    nil map); [OutOfFuel] is not a behaviour of the program: it marks an
    unfinished loop of the model, and the termination theorems exclude it. *)
Inductive outcome (A : Type) : Type :=
| Ok (a : A)
| Err (e : error)
| Panic (msg : string)
| OutOfFuel.
Arguments Ok {A} a.
Arguments Err {A} e.
Arguments Panic {A} msg.
Arguments OutOfFuel {A}.

(** A computation over the state [S]. The state survives an error: what was
    done before the failure stays done. *)
Definition M (St A : Type) : Type := St → outcome A * St.

Section monad.
Context {St : Type}.

Definition ret {A} (a : A) : M St A := λ s, (Ok a, s).
Definition throw {A} (e : error) : M St A := λ s, (Err e, s).
Definition panic {A} (msg : string) : M St A := λ s, (Panic msg, s).
Definition out_of_fuel {A} : M St A := λ s, (OutOfFuel, s).

Definition bind {A B} (m : M St A) (k : A → M St B) : M St B := λ s,
  match m s with
  | (Ok a, s') => k a s'
  | (Err e, s') => (Err e, s')
  | (Panic msg, s') => (Panic msg, s')
  | (OutOfFuel, s') => (OutOfFuel, s')
  end.

(** The result and the error of a call, as the caller gets them: [if err != nil]. *)
Definition try {A} (m : M St A) : M St (error + A) := λ s,
  match m s with
  | (Ok a, s') => (Ok (inr a), s')
  | (Err e, s') => (Ok (inl e), s')
  | (Panic msg, s') => (Panic msg, s')
  | (OutOfFuel, s') => (OutOfFuel, s')
  end.

(** [if err != nil { return fmt.Errorf("pre%w", err) }] *)
Definition wrap {A} (pre : string) (m : M St A) : M St A := λ s,
  match m s with
  | (Err e, s') => (Err (Errorf_w pre e), s')
  | r => r
  end.

Definition get : M St St := λ s, (Ok s, s).
Definition modify (f : St → St) : M St unit := λ s, (Ok tt, f s).

(** [for _, x := range l { ... }], leaving the function on the first error. *)
Fixpoint for_each {A} (l : list A) (f : A → M St unit) : M St unit :=
  match l with
  | [] => ret tt
  | x :: l' => bind (f x) (λ _, for_each l' f)
  end.

(** [of_result] turns a computed (value, error) pair into a computation. *)
Definition of_result {A} (r : error + A) : M St A :=
  match r with
  | inl e => throw e
  | inr a => ret a
  end.

(** [m], then [after] whatever [m] did: a deferred call whose error is dropped. *)
Definition deferring {A} (after : M St unit) (m : M St A) : M St A :=
  bind (try m) (λ r, bind (try after) (λ _, of_result r)).

End monad.

Declare Scope go_monad_scope.
Delimit Scope go_monad_scope with gom.
Notation "'let!' x ':=' m 'in' k" := (bind m (λ x, k))
  (at level 10, x pattern, m at level 100, k at level 200,
   format "'[v' 'let!'  x  ':='  m  'in' '/' k ']'") : go_monad_scope.
Notation "m ;; k" := (bind m (λ _, k))
  (at level 100, k at level 200, right associativity,
   format "'[v' m ;; '/' k ']'") : go_monad_scope.
#[global] Open Scope go_monad_scope.

(** ** Weakest preconditions

    [wp m Q s]: running [m] from [s] ends in an outcome and a state in [Q]. *)

Section wp.
Context {St : Type}.

Definition wp {A} (m : M St A) (Q : outcome A → St → Prop) (s : St) : Prop :=
  match m s with (o, s') => Q o s' end.

(** The postcondition that carries every abnormal outcome unchanged. *)
Definition bind_post {A B} (k : A → M St B) (Q : outcome B → St → Prop) :
    outcome A → St → Prop := λ o s,
  match o with
  | Ok a => wp (k a) Q s
  | Err e => Q (Err e) s
  | Panic msg => Q (Panic msg) s
  | OutOfFuel => Q OutOfFuel s
  end.

Lemma wp_bind {A B} (m : M St A) (k : A → M St B) Q s :
  wp m (bind_post k Q) s → wp (bind m k) Q s.
Proof. unfold wp, bind. by destruct (m s) as [[] s']. Qed.

Lemma wp_ret {A} (a : A) Q s : Q (Ok a) s → wp (ret a) Q s.
Proof. done. Qed.

Lemma wp_throw {A} e (Q : outcome A → St → Prop) s : Q (Err e) s → wp (throw e) Q s.
Proof. done. Qed.

Lemma wp_try {A} (m : M St A) Q s :
  wp m (λ o s', match o with
                | Ok a => Q (Ok (inr a)) s'
                | Err e => Q (Ok (inl e)) s'
                | Panic msg => Q (Panic msg) s'
                | OutOfFuel => Q OutOfFuel s'
                end) s → wp (try m) Q s.
Proof. unfold wp, try. by destruct (m s) as [[] s']. Qed.

Lemma wp_wrap {A} pre (m : M St A) Q s :
  wp m (λ o s', match o with
                | Err e => Q (Err (Errorf_w pre e)) s'
                | _ => Q o s'
                end) s → wp (wrap pre m) Q s.
Proof. unfold wp, wrap. by destruct (m s) as [[] s']. Qed.

Lemma wp_mono {A} (m : M St A) (Q Q' : outcome A → St → Prop) s :
  wp m Q s → (∀ o s', Q o s' → Q' o s') → wp m Q' s.
Proof. unfold wp. destruct (m s). auto. Qed.

Lemma wp_and {A} (m : M St A) (Q Q' : outcome A → St → Prop) s :
  wp m Q s → wp m Q' s → wp m (λ o s', Q o s' ∧ Q' o s') s.
Proof. unfold wp. destruct (m s). auto. Qed.

Lemma wp_deferring {A} (after : M St unit) (m : M St A) Q s :
  wp m (λ o s', match o with
                | Ok a => wp after (λ o' s'', match o' with
                                              | Ok _ | Err _ => Q (Ok a) s''
                                              | Panic msg => Q (Panic msg) s''
                                              | OutOfFuel => Q OutOfFuel s''
                                              end) s'
                | Err e => wp after (λ o' s'', match o' with
                                               | Ok _ | Err _ => Q (Err e) s''
                                               | Panic msg => Q (Panic msg) s''
                                               | OutOfFuel => Q OutOfFuel s''
                                               end) s'
                | Panic msg => Q (Panic msg) s'
                | OutOfFuel => Q OutOfFuel s'
                end) s →
  wp (deferring after m) Q s.
Proof.
  unfold wp, deferring, bind, try. destruct (m s) as [[a|e|msg|] s']; [| |done|done];
    destruct (after s') as [[]]; done.
Qed.

Lemma wp_of_result {A} (r : error + A) Q s :
  Q (match r with inl e => Err e | inr a => Ok a end) s → wp (of_result r) Q s.
Proof. by destruct r. Qed.

(** Loop rule: an invariant on the state that every iteration keeps, and that
    every abnormal exit establishes for the postcondition. *)
Lemma wp_for_each {A} (I : list A → St → Prop) (l : list A) (f : A → M St unit)
    (Q : outcome unit → St → Prop) s :
  I l s →
  (∀ x l' s, I (x :: l') s →
     wp (f x) (λ o s', match o with Ok _ => I l' s' | _ => Q o s' end) s) →
  (∀ s, I [] s → Q (Ok tt) s) →
  wp (for_each l f) Q s.
Proof.
  intros HI Hstep Hend. revert s HI. induction l as [|x l IH]; intros s HI; simpl.
  - apply wp_ret. auto.
  - apply wp_bind. eapply wp_mono; [by apply Hstep|]. intros [[]|e|msg|] s' Hs'; simpl in *; auto.
Qed.

End wp.

#[global] Arguments wp {_ _} _ _ _ : simpl never.

(** A result of a computation, read back from its run. *)
Lemma wp_run {St A} (m : M St A) Q (s s' : St) o : wp m Q s → m s = (o, s') → Q o s'.
Proof. unfold wp. intros H E. by rewrite E in H. Qed.

(** The run of a computation whose outcome is known. *)
Lemma run_outcome {St A} (m : M St A) (s : St) o : (m s).1 = o → m s = (o, (m s).2).
Proof. intros <-. apply surjective_pairing. Qed.

(** Symbolic execution of the monad: peel the combinators off a [wp] goal. *)
Ltac wp_step :=
  lazymatch goal with
  | |- wp (bind _ _) _ _ => apply wp_bind
  | |- wp (ret _) _ _ => apply wp_ret
  | |- wp (throw _) _ _ => apply wp_throw
  | |- wp (try _) _ _ => apply wp_try
  | |- wp (wrap _ _) _ _ => apply wp_wrap
  | |- wp (of_result _) _ _ => apply wp_of_result
  end; unfold bind_post.

Ltac wp_steps := repeat (wp_step; simpl).
