(* ===== verification/Files.v ===== *)
(** * Paths, archives and the disk

    The part of [path/filepath] and [os] that the command line tools use: paths
    are cleaned as on Unix, and the disk maps absolute cleaned paths to contents,
    so that a relative and an absolute name of a file are names of one file
    (links are left out). Every operation may fail: what fails, and what a failed
    write leaves behind, is up to the [Disk]. *)

From S2P Require Import Prelude GoStrings Go.

(** ** [path/filepath] *)

(** The elements of a cleaned path; [out] holds the elements so far, in reverse. *)
Fixpoint clean_elems (rooted : bool) (out elems : list string) : list string :=
  match elems with
  | [] => rev out
  | e :: elems =>
      if bool_decide (e = "") || bool_decide (e = ".") then clean_elems rooted out elems
      else if decide (e = "..") then
        match out with
        | [] => clean_elems rooted (if rooted then [] else [".."]) elems
        | x :: out' => if decide (x = "..") then clean_elems rooted (".." :: out) elems
                       else clean_elems rooted out' elems
        end
      else clean_elems rooted (e :: out) elems
  end.

(** [filepath.Clean] *)
Definition Clean (path : string) : string :=
  if decide (path = "") then "."
  else
    let rooted := HasPrefix path "/" in
    let body := Join (clean_elems rooted [] (Split path "/")) "/" in
    if rooted then "/" +s+ body else if decide (body = "") then "." else body.

(** [filepath.Join]: leading empty elements are dropped. *)
Fixpoint filepath_Join (elems : list string) : string :=
  match elems with
  | [] => ""
  | e :: rest => if decide (e = "") then filepath_Join rest else Clean (Join elems "/")
  end.

(** [filepath.Dir] *)
Definition filepath_Dir (path : string) : string :=
  Clean (String.substring 0 (String.length path - String.length (after_last_slash path)) path).

(** ** Archives *)

(** A tar header: its name, the size of the body, and the attributes that are
    only copied. *)
Record tar_header := { hd_Name : string; hd_Size : Z; hd_Attrs : string }.
Record tar_entry := { te_Header : tar_header; te_Body : error + string }.

(** The entries of an archive, and how reading it ends: with EOF or an error. *)
Record tar_stream := { ts_Entries : list tar_entry; ts_End : option error }.

(** ** The disk *)

Inductive fsop := OpGetwd | OpMkdirAll | OpMkdirTemp | OpOpen | OpRead | OpStat | OpCreate | OpWrite | OpTruncate | OpClose | OpRemoveAll
| OpCreateTemp | OpRemove | OpSync.

(** A failed operation: its error and, for a write, the contents it may have
    left in the file. *)
Record failure := { fl_error : error; fl_left : option string }.

(** The disk decides which operation fails, by its number in the run; the working
    directory is an absolute path. *)
Class Disk := {
  fault : nat → fsop → string → option failure;
  workdir : string;
  tempdir : nat → string
}.

Record disk := { dk_files : gmap string string; dk_ops : nat }.

(** The errors of [os] for a missing file, recognised by [os.IsNotExist]. *)
Definition NotExist (path : string) : error := errorString ("open " +s+ path +s+ ": no such file or directory").

Definition IsNotExist (err : error) : bool := HasSuffix (Error err) ": no such file or directory".

Section disk.
Context `{Disk}.

(** The file that a path names: relative paths start in the working directory. *)
Definition abs (path : string) : string := if HasPrefix path "/" then Clean path else Clean (workdir +s+ "/" +s+ path).

(** An operation on the file [path]. *)
Definition disk_op {A} (op : fsop) (path : string)
    (k : gmap string string → (error + A) * gmap string string) : M disk A := λ s,
  match fault (dk_ops s) op (abs path) with
  | Some f =>
      (Err (fl_error f),
       {| dk_files := match op, fl_left f with
                      | OpWrite, Some contents => <[abs path := contents]> (dk_files s)
                      | _, _ => dk_files s
                      end;
          dk_ops := S (dk_ops s) |})
  | None =>
      let (r, files) := k (dk_files s) in
      (match r with inl e => Err e | inr a => Ok a end, {| dk_files := files; dk_ops := S (dk_ops s) |})
  end.

Definition os_Getwd : M disk string := disk_op OpGetwd "" (λ fs, (inr workdir, fs)).
Definition os_MkdirAll (path : string) : M disk unit := disk_op OpMkdirAll path (λ fs, (inr tt, fs)).

(** A new directory, whose name was not used before. *)
Definition os_MkdirTemp : M disk string := λ s, disk_op OpMkdirTemp "" (λ fs, (inr (tempdir (dk_ops s)), fs)) s.

(** [os.CreateTemp]: a new, empty file in the directory for temporary files. *)
Definition os_CreateTemp : M disk string := λ s,
  disk_op OpCreateTemp "" (λ fs, (inr (tempdir (dk_ops s)), <[abs (tempdir (dk_ops s)) := ""]> fs)) s.

(** Opening a file checks that it is there; reading it gives the contents it
    has by then. *)
Definition os_Open (path : string) : M disk unit :=
  disk_op OpOpen path (λ fs, (match fs !! abs path with Some _ => inr tt | None => inl (NotExist path) end, fs)).
Definition io_ReadAll (path : string) : M disk string :=
  disk_op OpRead path (λ fs, (inr (default "" (fs !! abs path)), fs)).
Definition os_Stat (path : string) : M disk Z :=
  disk_op OpStat path (λ fs, (match fs !! abs path with
                              | Some c => inr (Z.of_nat (String.length c))
                              | None => inl (NotExist path)
                              end, fs)).
Definition os_ReadFile (path : string) : M disk string := os_Open path ;; io_ReadAll path.

(** Creating a file truncates it. *)
Definition os_Create (path : string) : M disk unit :=
  disk_op OpCreate path (λ fs, (inr tt, <[abs path := ""]> fs)).
Definition write (path contents : string) : M disk unit :=
  disk_op OpWrite path (λ fs, (inr tt, <[abs path := contents]> fs)).
(** [f.Truncate(n)]: the first [n] bytes stay. *)
Definition os_Truncate (path : string) (n : nat) : M disk unit :=
  disk_op OpTruncate path (λ fs, (inr tt, alter (String.substring 0 n) (abs path) fs)).
Definition os_Close (path : string) : M disk unit := disk_op OpClose path (λ fs, (inr tt, fs)).
Definition os_Sync (path : string) : M disk unit := disk_op OpSync path (λ fs, (inr tt, fs)).
Definition os_Remove (path : string) : M disk unit := disk_op OpRemove path (λ fs, (inr tt, delete (abs path) fs)).
(** [io.Copy(destination, source)] on open files. *)
Definition io_Copy (destination source : string) : M disk unit :=
  let! data := io_ReadAll source in write destination data.
Definition os_WriteFile (path contents : string) : M disk unit := os_Create path ;; write path contents.

(** Removing a directory with everything below it. *)
Definition below (dir path : string) : bool := bool_decide (path = abs dir) || HasPrefix path (abs dir +s+ "/").
Definition os_RemoveAll (dir : string) : M disk unit :=
  disk_op OpRemoveAll dir (λ fs, (inr tt, filter (λ kv, below dir kv.1 = false) fs)).

End disk.

(** ** Symbolic execution *)

(** The operation does not change any file. *)
Definition reads (op : fsop) : bool := match op with OpCreate | OpWrite | OpTruncate | OpRemoveAll | OpCreateTemp | OpRemove => false | _ => true end.

Section wp_disk.
Context `{Disk}.

Lemma wp_disk_op {A} op path k (Q : outcome A → disk → Prop) s :
  (∀ f, Q (Err (fl_error f)) {| dk_files := match op, fl_left f with
                                            | OpWrite, Some contents => <[abs path := contents]> (dk_files s)
                                            | _, _ => dk_files s
                                            end;
                                dk_ops := S (dk_ops s) |}) →
  (∀ r files, k (dk_files s) = (r, files) →
     Q (match r with inl e => Err e | inr a => Ok a end) {| dk_files := files; dk_ops := S (dk_ops s) |}) →
  wp (disk_op op path k) Q s.
Proof.
  intros Hf Hk. unfold wp, disk_op. destruct (fault _ _ _) as [f|]; [apply Hf|].
  destruct (k (dk_files s)) as [r files] eqn:E. by apply Hk.
Qed.

(** A disk on which nothing fails. *)
Class Faultless : Prop := { no_fault : ∀ n op path, fault n op path = None }.

Lemma disk_op_runs `{!Faultless} {A} op path (k : gmap string string → (error + A) * gmap string string) s a :
  k (dk_files s) = (inr a, dk_files s) → ∃ s', disk_op op path k s = (Ok a, s') ∧ dk_files s' = dk_files s.
Proof. intros Hk. unfold disk_op. rewrite no_fault, Hk. by eexists. Qed.

(** There, an operation does what it does. *)
Lemma wp_disk_ok `{!Faultless} {A} op path k (Q : outcome A → disk → Prop) s :
  (∀ s', dk_files s' = (k (dk_files s)).2 →
     Q (match (k (dk_files s)).1 with inl e => Err e | inr a => Ok a end) s') →
  wp (disk_op op path k) Q s.
Proof. intros HQ. unfold wp, disk_op. rewrite no_fault. destruct (k (dk_files s)) as [r files]. by apply HQ. Qed.

(** *** The operations, one by one *)

Lemma wp_os_MkdirAll path Q s :
  (∀ o s', dk_files s' = dk_files s → (o = Ok tt ∨ ∃ e, o = Err e) → Q o s') → wp (os_MkdirAll path) Q s.
Proof. intros HQ. apply wp_disk_op; [intros; apply HQ; eauto|]. intros r files [= <- <-]. apply HQ; auto. Qed.

Lemma wp_os_Close path Q s :
  (∀ o s', dk_files s' = dk_files s → (o = Ok tt ∨ ∃ e, o = Err e) → Q o s') → wp (os_Close path) Q s.
Proof. intros HQ. apply wp_disk_op; [intros; apply HQ; eauto|]. intros r files [= <- <-]. apply HQ; auto. Qed.

Lemma wp_os_Open path Q s :
  (∀ e s', dk_files s' = dk_files s → Q (Err e) s') →
  (∀ c s', dk_files s' = dk_files s → dk_files s !! abs path = Some c → Q (Ok tt) s') →
  wp (os_Open path) Q s.
Proof.
  intros HE HQ. apply wp_disk_op; [intros; by apply HE|]. intros r files [= <- <-].
  destruct (dk_files s !! abs path) eqn:E; [eapply HQ; eauto|by apply HE].
Qed.

Lemma wp_io_ReadAll path Q s :
  (∀ e s', dk_files s' = dk_files s → Q (Err e) s') →
  (∀ s', dk_files s' = dk_files s → Q (Ok (default "" (dk_files s !! abs path))) s') →
  wp (io_ReadAll path) Q s.
Proof. intros HE HQ. apply wp_disk_op; [intros; by apply HE|]. intros r files [= <- <-]. by apply HQ. Qed.

Lemma wp_os_Stat path Q s :
  (∀ e s', dk_files s' = dk_files s → Q (Err e) s') →
  (∀ c s', dk_files s' = dk_files s → dk_files s !! abs path = Some c → Q (Ok (Z.of_nat (String.length c))) s') →
  wp (os_Stat path) Q s.
Proof.
  intros HE HQ. apply wp_disk_op; [intros; by apply HE|]. intros r files [= <- <-].
  destruct (dk_files s !! abs path) eqn:E; [eapply HQ; eauto|by apply HE].
Qed.

Lemma wp_os_Create path Q s :
  (∀ e s', dk_files s' = dk_files s → Q (Err e) s') →
  (∀ s', dk_files s' = <[abs path := ""]> (dk_files s) → Q (Ok tt) s') →
  wp (os_Create path) Q s.
Proof. intros HE HQ. apply wp_disk_op; [intros; by apply HE|]. intros r files [= <- <-]. by apply HQ. Qed.

(** A failed write may leave anything in its file, but changes no other. *)
Lemma wp_write path contents Q s :
  (∀ e s', (∀ p, p ≠ abs path → dk_files s' !! p = dk_files s !! p) → Q (Err e) s') →
  (∀ s', dk_files s' = <[abs path := contents]> (dk_files s) → Q (Ok tt) s') →
  wp (write path contents) Q s.
Proof.
  intros HE HQ. apply wp_disk_op; [|intros r files [= <- <-]; by apply HQ]. intros f. apply HE. simpl. intros p Hp.
  destruct (fl_left f); [by rewrite lookup_insert_ne|done].
Qed.

Lemma wp_os_Truncate path n Q s :
  (∀ e s', dk_files s' = dk_files s → Q (Err e) s') →
  (∀ s', dk_files s' = alter (String.substring 0 n) (abs path) (dk_files s) → Q (Ok tt) s') →
  wp (os_Truncate path n) Q s.
Proof. intros HE HQ. apply wp_disk_op; [intros; by apply HE|]. intros r files [= <- <-]. by apply HQ. Qed.

(** Writing a file: on success it has the contents, and in any case no other
    file changes. *)
Lemma wp_os_WriteFile path contents Q s :
  (∀ o s', (∀ p, p ≠ abs path → dk_files s' !! p = dk_files s !! p) →
     (o = Ok tt ∧ dk_files s' !! abs path = Some contents ∨ ∃ e, o = Err e) → Q o s') →
  wp (os_WriteFile path contents) Q s.
Proof.
  intros HQ. apply wp_bind, wp_os_Create; unfold bind_post; [intros e s1 H1; apply HQ; [intros; by rewrite H1|eauto]|].
  intros s1 H1. apply wp_write.
  - intros e s2 H2. apply HQ; [|eauto]. intros p Hp. rewrite H2, H1 by done. by rewrite lookup_insert_ne.
  - intros s2 H2. rewrite H1 in H2. apply HQ.
    + intros p Hp. by rewrite H2, !lookup_insert_ne.
    + left. split; [done|]. by rewrite H2, lookup_insert_eq.
Qed.

(** A reading computation: the files stay as they are. *)
Definition reads_only {A} (m : M disk A) : Prop := ∀ s, dk_files (m s).2 = dk_files s.

Lemma reads_only_ret {A} (a : A) : reads_only (ret a).
Proof. done. Qed.
Lemma reads_only_throw {A} e : reads_only (throw e : M disk A).
Proof. done. Qed.
Lemma reads_only_of_result {A} (r : error + A) : reads_only (of_result r).
Proof. by destruct r. Qed.
Lemma reads_only_bind {A B} (m : M disk A) (k : A → M disk B) :
  reads_only m → (∀ a, reads_only (k a)) → reads_only (bind m k).
Proof.
  intros Hm Hk s. specialize (Hm s). unfold bind. destruct (m s) as [[a|e|msg|] s']; simpl in *; [|done..].
  by rewrite Hk.
Qed.
Lemma reads_only_wrap {A} pre (m : M disk A) : reads_only m → reads_only (wrap pre m).
Proof. intros Hm s. specialize (Hm s). unfold wrap. by destruct (m s) as [[] ?]. Qed.
Lemma reads_only_try {A} (m : M disk A) : reads_only m → reads_only (try m).
Proof. intros Hm s. specialize (Hm s). unfold try. by destruct (m s) as [[] ?]. Qed.
Lemma reads_only_disk_op {A} op path (k : gmap string string → (error + A) * gmap string string) :
  reads op = true → (∀ fs, (k fs).2 = fs) → reads_only (disk_op op path k).
Proof.
  intros Hop Hk s. unfold disk_op. destruct (fault _ _ _) as [f|]; [by destruct op|].
  specialize (Hk (dk_files s)). by destruct (k (dk_files s)).
Qed.

End wp_disk.

#[export] Hint Resolve reads_only_ret reads_only_throw reads_only_of_result : capn.

(** Proves [reads_only m] by following the structure of [m]. *)
Ltac reads_auto :=
  repeat match goal with
  | |- ∀ _, _ => intros ?
  | |- reads_only (bind _ _) => apply reads_only_bind
  | |- reads_only (wrap _ _) => apply reads_only_wrap
  | |- reads_only (try _) => apply reads_only_try
  | |- reads_only (disk_op _ _ _) => apply reads_only_disk_op; [reflexivity|]
  | |- reads_only (match ?x with _ => _ end) => destruct x eqn:?
  | _ => solve [auto with capn | done]
  end.

(** ** Names of cleaned paths *)

Lemma clean_elems_last rooted out l e :
  e ≠ "" → e ≠ "." → e ≠ ".." → ∃ l', clean_elems rooted out (l ++ [e]) = l' ++ [e].
Proof.
  intros H1 H2 H3. revert out. induction l as [|x l IH]; intros out; simpl.
  - rewrite !bool_decide_false, decide_False by done. simpl. by eexists.
  - repeat (case_decide || case_match); eauto.
Qed.

Lemma split_go_no_sep c cur s :
  c ∉ chars cur → Forall (λ x, c ∉ chars x) (split_go (String c "") 0 cur s).
Proof.
  revert cur. induction s as [|d s IH]; intros cur Hc; simpl; [by repeat constructor|].
  destruct (HasPrefix (String d s) (String c "")) eqn:Hp; simpl.
  - constructor; [done|]. apply IH. apply not_elem_of_nil.
  - apply IH. rewrite chars_app. apply not_elem_of_app. split; [done|]. simpl. apply not_elem_of_cons.
    split; [|apply not_elem_of_nil]. intros ->. unfold HasPrefix in Hp. simpl in Hp. by destruct (ascii_dec d d), s.
Qed.

Lemma Split_no_sep c s : Forall (λ x, c ∉ chars x) (Split s (String c "")).
Proof. apply split_go_no_sep, not_elem_of_nil. Qed.

(** The last element of a path. *)
Definition named (path e : string) : Prop := ∃ l, Split path "/" = l ++ [e].

Definition plain (e : string) : Prop := e ≠ "" ∧ e ≠ "." ∧ e ≠ "..".

Lemma named_Join l e : Forall (λ x, "/"%char ∉ chars x) (l ++ [e]) → named (Join (l ++ [e]) "/") e.
Proof. intros Hl. exists l. apply Split_Join; [by destruct l|done]. Qed.

Lemma Split_slash s : Split ("/" +s+ s) "/" = "" :: Split s "/".
Proof. by destruct s. Qed.

Lemma clean_elems_Forall (P : string → Prop) rooted out l :
  P ".." → Forall P out → Forall P l → Forall P (clean_elems rooted out l).
Proof.
  intros Hdd. revert out. induction l as [|e l IH]; intros out Ho Hl; simpl; [by apply Forall_rev|].
  apply Forall_cons in Hl as [He Hl].
  assert (∀ x out', out = x :: out' → Forall P out') by (intros x out' ->; by inversion Ho).
  repeat (case_decide || case_match); eauto.
Qed.

(** Cleaning a path keeps its last element, if that is a name. *)
Lemma named_Clean path e : plain e → named path e → named (Clean path) e.
Proof.
  intros (H1 & H2 & H3) [l Hl]. unfold Clean.
  destruct (clean_elems_last (HasPrefix path "/") [] l e H1 H2 H3) as [l' Hl'].
  assert (Forall (λ x, "/"%char ∉ chars x) (l' ++ [e])) as Hno.
  { rewrite <- Hl', <- Hl. apply clean_elems_Forall; [|constructor|apply Split_no_sep].
    apply (bool_decide_unpack _). vm_compute. exact I. }
  rewrite Hl, Hl'. rewrite decide_False.
  2: { intros ->. unfold Split in Hl. simpl in Hl. destruct l as [|? []]; simplify_eq/=. }
  destruct (named_Join l' e Hno) as [l'' Hj]. destruct (HasPrefix path "/").
  - exists ("" :: l''). by rewrite Split_slash, Hj.
  - rewrite decide_False; [by exists l''|]. intros Hj'. rewrite Hj' in Hj.
    unfold Split in Hj. simpl in Hj. destruct l'' as [|? []]; simplify_eq/=.
Qed.

Lemma named_inj path e e' : named path e → named path e' → e = e'.
Proof. intros [l Hl] [l' Hl']. rewrite Hl in Hl'. by apply app_inj_tail in Hl' as []. Qed.

Lemma filepath_Join_cons d elems : d ≠ "" → filepath_Join (d :: elems) = Clean (Join (d :: elems) "/").
Proof. intros. simpl. by rewrite decide_False. Qed.

Lemma split_go_slash p cur b : ∃ l, split_go "/" 0 cur (p +s+ "/" +s+ b) = l ++ split_go "/" 0 "" b.
Proof.
  revert cur. induction p as [|d p IH]; intros cur; simpl.
  - exists [cur]. by destruct b.
  - destruct (HasPrefix _ _); simpl; [destruct (IH "") as [l Hl]; simpl in Hl; exists (cur :: l); by rewrite Hl|apply IH].
Qed.

Lemma named_slash p b e : named b e → named (p +s+ "/" +s+ b) e.
Proof.
  intros [l Hl]. destruct (split_go_slash p "" b) as [l' Hl']. exists (l' ++ l). unfold Split in *.
  by rewrite Hl', Hl, app_assoc.
Qed.

Lemma named_self e : "/"%char ∉ chars e → named e e.
Proof. intros. exists []. unfold Split. by rewrite split_go_char_end. Qed.

Lemma named_Join_last l b e : named b e → named (Join (l ++ [b]) "/") e.
Proof.
  intros Hb. induction l as [|x l IH]; [done|]. destruct l as [|y l]; [by apply (named_slash x)|].
  change (named (x +s+ "/" +s+ Join ((y :: l) ++ [b]) "/") e). by apply named_slash.
Qed.

(** Joining path elements keeps the last element of the last one. *)
Lemma named_filepath_Join l b e : plain e → named b e → named (filepath_Join (l ++ [b])) e.
Proof.
  intros He Hb. induction l as [|x l IH].
  - simpl. case_decide as Hd; [subst|by apply named_Clean].
    destruct Hb as [l Hl]. destruct He as (He & _). unfold Split in Hl. simpl in Hl. destruct l as [|? []]; simplify_eq/=.
  - cbn [app filepath_Join]. case_decide; [done|].
    apply named_Clean; [done|]. by apply (named_Join_last (x :: l)).
Qed.

(** *** The base of a path *)

Lemma after_last_slash_none e : "/"%char ∉ chars e → after_last_slash e = e.
Proof. intros He. destruct e; [done|]. cbn [after_last_slash]. by rewrite cut_at_char_None. Qed.

Lemma after_last_slash_app x e : "/"%char ∉ chars e → after_last_slash (x +s+ String "/" e) = e.
Proof.
  intros He. induction x as [|c x IH].
  - cbn. destruct e; [done|]. by apply after_last_slash_none.
  - change (String c x +s+ String "/" e) with (String c (x +s+ String "/" e)). cbn [after_last_slash].
    destruct (cut_at (String c (x +s+ String "/" e)) "/") as [p|] eqn:Hc; [by rewrite IH|].
    assert (Contains (String c (x +s+ String "/" e)) "/" = false) as Hn%cut_at_none_char by (by rewrite Contains_cut, Hc).
    destruct Hn. cbn. right. rewrite chars_app. apply elem_of_app. right. left.
Qed.

Lemma trim_slashes_none e : "/"%char ∉ chars e → trim_slashes e = e.
Proof.
  induction e as [|c e IH]; intros He; [done|]. cbn in He. apply not_elem_of_cons in He as [Hc He]. simpl.
  rewrite IH by done. destruct e; [|done]. by destruct (ascii_dec c "/").
Qed.

Lemma trim_slashes_app x e : e ≠ "" → trim_slashes e = e → trim_slashes (x +s+ e) = x +s+ e.
Proof.
  intros Hne He. induction x as [|c x IH]; [done|]. simpl. rewrite IH. by destruct x, e.
Qed.

Lemma filepath_Base_slash x e : e ≠ "" → "/"%char ∉ chars e → filepath_Base (x +s+ String "/" e) = e.
Proof.
  intros Hne He. unfold filepath_Base.
  replace (x +s+ String "/" e) with ((x +s+ "/") +s+ e) by (by rewrite string_app_assoc).
  rewrite trim_slashes_app by (done || by apply trim_slashes_none).
  replace ((x +s+ "/") +s+ e) with (x +s+ String "/" e) by (by rewrite string_app_assoc).
  rewrite after_last_slash_app by done. destruct x, e; done.
Qed.

Lemma filepath_Base_self e : e ≠ "" → "/"%char ∉ chars e → filepath_Base e = e.
Proof.
  intros Hne He. unfold filepath_Base. rewrite trim_slashes_none, after_last_slash_none by done. by destruct e.
Qed.

Lemma Join_snoc l e : Join (l ++ [e]) "/" = e ∨ ∃ x, Join (l ++ [e]) "/" = x +s+ String "/" e.
Proof.
  induction l as [|y l IH]; [by left|]. right. destruct l as [|z l]; [by exists y|].
  change (Join ((y :: z :: l) ++ [e]) "/") with (y +s+ "/" +s+ Join ((z :: l) ++ [e]) "/").
  destruct IH as [->|[x ->]]; [by exists y|]. exists (y +s+ "/" +s+ x). by rewrite !string_app_assoc.
Qed.

(** The base of a path of a directory and a name is the name. *)
Lemma filepath_Base_Join dir e :
  plain e → "/"%char ∉ chars e → filepath_Base (filepath_Join [dir; e]) = e.
Proof.
  intros (He & Hd & Hdd) Hs.
  assert (Hclean : ∀ p l, Split p "/" = l ++ [e] → p ≠ "" → filepath_Base (Clean p) = e).
  { intros p l Hl Hp. unfold Clean. rewrite decide_False by done.
    destruct (clean_elems_last (HasPrefix p "/") [] l e He Hd Hdd) as [l' Hl']. rewrite Hl, Hl'.
    destruct (Join_snoc l' e) as [->|[x ->]]; destruct (HasPrefix p "/").
    - by apply (filepath_Base_slash "").
    - rewrite decide_False by done. by apply filepath_Base_self.
    - replace ("/" +s+ x +s+ String "/" e) with (("/" +s+ x) +s+ String "/" e) by (by rewrite string_app_assoc).
      by apply filepath_Base_slash.
    - rewrite decide_False; [by apply filepath_Base_slash|]. by destruct x. }
  destruct (decide (dir = "")) as [->|Hdir].
  - cbn [filepath_Join]. rewrite decide_True, decide_False by done.
    apply (Hclean _ []); [|done]. destruct (named_self e Hs) as [l Hl]. cbn. unfold Split in *. by rewrite split_go_char_end.
  - rewrite filepath_Join_cons by done. destruct (named_Join_last [dir] e e (named_self e Hs)) as [l Hl].
    apply (Hclean _ l); [done|]. simpl. by destruct dir.
Qed.

Lemma substring_all s : String.substring 0 (String.length s) s = s.
Proof. induction s as [|c s IH]; simpl; [done|]. by rewrite IH. Qed.

Lemma named_abs `{Disk} path e : plain e → named path e → named (abs path) e.
Proof. intros He Hn. unfold abs. destruct (HasPrefix path "/"); apply named_Clean; try done. by apply named_slash. Qed.

(** Different names, different files. *)
Lemma abs_named_ne `{Disk} p p' e e' : plain e → plain e' → named p e → named p' e' → e ≠ e' → abs p ≠ abs p'.
Proof.
  intros H1 H2 Hp Hp' Hne Heq. apply Hne. eapply named_inj; [by eapply named_abs|]. rewrite Heq. by apply named_abs.
Qed.

#[global] Arguments Clean : simpl never.
#[global] Arguments abs : simpl never.
#[global] Arguments filepath_Join : simpl never.
#[global] Arguments filepath_Dir : simpl never.
