(* ===== verification/Store.v ===== *)
(** * A store with aliasing: variables, slices and maps of Go

    The other files model an object of the API as a value. In the program it is
    a graph: a struct with pointers, slices and maps that other structs may
    share. This file has the store of such graphs, the operations of Go on it
    ([new], [make], [copy], indexing, ranging over a map), and what it means
    that a piece of the store was copied: the copy reads as the same value, from
    locations that did not exist before. *)

From S2P Require Import Prelude GoStrings Go.

(** ** The store *)

Notation loc := positive (only parsing).

(** The types of the variables that the program allocates, by a code each. *)
Class GoTypes := {
  gotype : Type;
  gotype_eq_dec :: EqDecision gotype;
  values : gotype → Type;
  zero : ∀ t : gotype, values t
}.

(** A slice: an array, the index of its first element, and its length. The
    capacity is of no consequence where nothing is appended. *)
Record slice := { sl_array : loc; sl_off : nat; sl_len : nat }.

Section store.
Context `{U : GoTypes}.

(** What one allocation holds: the elements of an array. A single variable is
    an array of one element; a map is a variable that holds its entries. *)
Definition block : Type := { t : gotype & list (values t) }.
Notation heap := (gmap loc block).

Definition block_as (t : gotype) (b : block) : option (list (values t)) :=
  match decide (projT1 b = t) with
  | left e => Some (eq_rect _ (λ t, list (values t)) (projT2 b) _ e)
  | right _ => None
  end.

Definition contents (t : gotype) (l : loc) (h : heap) : option (list (values t)) :=
  h !! l ≫= block_as t.

Definition put (t : gotype) (l : loc) (vs : list (values t)) (h : heap) : heap := <[l := existT t vs]> h.

Definition alloc (t : gotype) (vs : list (values t)) : M heap loc := λ h,
  let l := fresh (dom h) in (Ok l, put t l vs h).

(** [new(T)] *)
Definition new (t : gotype) : M heap loc := alloc t [zero t].

(** [ptr.To(v)] of internal/ptr: the address of a variable of its own. *)
Definition To (t : gotype) (v : values t) : M heap loc := alloc t [v].

(** [make([]T, n)] *)
Definition make (t : gotype) (n : nat) : M heap slice :=
  let! l := alloc t (replicate n (zero t)) in
  ret {| sl_array := l; sl_off := 0; sl_len := n |}.

(** Reading and writing the element [i] of an array. A pointer to a variable is
    the location of an array of one. *)
Definition load_at (t : gotype) (l : loc) (i : nat) : M heap (values t) := λ h,
  match contents t l h ≫= lookup i with
  | Some v => (Ok v, h)
  | None => (Panic "invalid memory address or nil pointer dereference", h)
  end.

Definition store_at (t : gotype) (l : loc) (i : nat) (v : values t) : M heap unit := λ h,
  match contents t l h with
  | Some vs =>
      if (i <? length vs)%nat then (Ok tt, put t l (<[i := v]> vs) h)
      else (Panic "index out of range", h)
  | None => (Panic "invalid memory address or nil pointer dereference", h)
  end.

Definition load (t : gotype) (l : loc) : M heap (values t) := load_at t l 0.
Definition store (t : gotype) (l : loc) (v : values t) : M heap unit := store_at t l 0 v.

(** [s[i]] and [s[i] = v] *)
Definition index (t : gotype) (s : slice) (i : nat) : M heap (values t) :=
  if (i <? sl_len s)%nat then load_at t (sl_array s) (sl_off s + i) else panic "index out of range".

Definition set_index (t : gotype) (s : slice) (i : nat) (v : values t) : M heap unit :=
  if (i <? sl_len s)%nat then store_at t (sl_array s) (sl_off s + i) v else panic "index out of range".

(** The elements of a slice, in the contents of its array. *)
Definition elements_of {A} (s : slice) (vs : list A) : list A := take (sl_len s) (drop (sl_off s) vs).

(** [copy(dst, src)]: as many elements as both have; the sources are read before
    the destination is written. *)
Definition copy (t : gotype) (dst src : slice) : M heap unit := λ h,
  match contents t (sl_array dst) h, contents t (sl_array src) h with
  | Some ds, Some ss =>
      let n := Nat.min (sl_len dst) (sl_len src) in
      (Ok tt, put t (sl_array dst)
                (take (sl_off dst) ds ++ take n (drop (sl_off src) ss) ++ drop (sl_off dst + n) ds) h)
  | _, _ => (Panic "invalid memory address or nil pointer dereference", h)
  end.

(** *** Basic lemmas *)

Lemma block_as_eq t vs : block_as t (existT t vs) = Some vs.
Proof. unfold block_as. simpl. case_decide as He; [|done]. by rewrite (proof_irrel He eq_refl). Qed.

Lemma contents_put t l vs h : contents t l (put t l vs h) = Some vs.
Proof. unfold contents, put. rewrite lookup_insert_eq. apply block_as_eq. Qed.

Lemma contents_put_ne t t' l l' vs h : l ≠ l' → contents t l' (put t' l vs h) = contents t l' h.
Proof. intros Hl. unfold contents, put. by rewrite lookup_insert_ne. Qed.

Lemma lookup_put_ne t l l' vs (h : heap) : l' ≠ l → put t l vs h !! l' = h !! l'.
Proof. intros Hl. by apply lookup_insert_ne. Qed.

Lemma contents_eq t l h h' : h' !! l = h !! l → contents t l h' = contents t l h.
Proof. unfold contents. by intros ->. Qed.

Lemma contents_is_Some t l h vs : contents t l h = Some vs → is_Some (h !! l).
Proof. unfold contents. destruct (h !! l); [eauto|done]. Qed.

Lemma contents_sub t l h h' vs : h ⊆ h' → contents t l h = Some vs → contents t l h' = Some vs.
Proof.
  intros Hs Hc. destruct (contents_is_Some _ _ _ _ Hc) as [b Hb].
  rewrite <- Hc. apply contents_eq. rewrite Hb. by eapply lookup_weaken.
Qed.

Lemma fresh_None (h : heap) : h !! fresh (dom h) = None.
Proof. apply not_elem_of_dom. apply is_fresh. Qed.

(** ** Views

    What a program can see from a value: a reader of the store that fails on a
    dangling pointer, and returns the locations it visited along with what it
    saw. *)

Definition R (A : Type) : Type := heap → option (A * list loc).

Definition rret {A} (a : A) : R A := λ _, Some (a, []).
Definition rbind {A B} (m : R A) (k : A → R B) : R B := λ h,
  match m h with
  | None => None
  | Some (a, L) => match k a h with None => None | Some (b, L') => Some (b, L ++ L') end
  end.
Definition rblock (t : gotype) (l : loc) : R (list (values t)) := λ h,
  match contents t l h with None => None | Some vs => Some (vs, [l]) end.
Definition rsome {A} (o : option A) : R A := λ _, match o with None => None | Some a => Some (a, []) end.

Fixpoint rmap {A B} (f : A → R B) (l : list A) : R (list B) :=
  match l with
  | [] => rret []
  | x :: l' => rbind (f x) (λ y, rbind (rmap f l') (λ ys, rret (y :: ys)))
  end.

(** A view depends on the locations it visits, and only on them. *)
Class Local {A} (m : R A) := {
  local_dom : ∀ h a L, m h = Some (a, L) → Forall (λ l, is_Some (h !! l)) L;
  local_agree : ∀ h h' a L, m h = Some (a, L) → Forall (λ l, h' !! l = h !! l) L → m h' = Some (a, L)
}.

#[export] Instance Local_rret {A} (a : A) : Local (rret a).
Proof. split; unfold rret; intros; simplify_eq; eauto. Qed.

#[export] Instance Local_rsome {A} (o : option A) : Local (rsome o).
Proof. split; unfold rsome; destruct o; intros; simplify_eq; eauto. Qed.

#[export] Instance Local_rblock t l : Local (rblock t l).
Proof.
  split; unfold rblock.
  - intros h a L. destruct (contents t l h) eqn:E; [|done]. intros [= <- <-].
    constructor; [by eapply contents_is_Some|constructor].
  - intros h h' a L. destruct (contents t l h) eqn:E; [|done]. intros [= <- <-] [Hl _]%Forall_cons.
    by rewrite (contents_eq _ _ _ _ Hl), E.
Qed.

Lemma rbind_Some {A B} (m : R A) (k : A → R B) h b L :
  rbind m k h = Some (b, L) ↔ ∃ a L1 L2, m h = Some (a, L1) ∧ k a h = Some (b, L2) ∧ L = L1 ++ L2.
Proof.
  unfold rbind. destruct (m h) as [[a L1]|]; [|naive_solver].
  destruct (k a h) as [[b' L2]|] eqn:E; naive_solver.
Qed.

Lemma rbind_ok {A B} (m : R A) (k : A → R B) h a b L1 L2 :
  m h = Some (a, L1) → k a h = Some (b, L2) → rbind m k h = Some (b, L1 ++ L2).
Proof. intros H1 H2. apply rbind_Some. eauto 10. Qed.

#[export] Instance Local_rbind {A B} (m : R A) (k : A → R B) :
  Local m → (∀ a, Local (k a)) → Local (rbind m k).
Proof.
  intros Hm Hk. split.
  - intros h b L (a & L1 & L2 & H1 & H2 & ->)%rbind_Some. apply Forall_app. split; [exact (local_dom _ _ _ H1)|exact (local_dom _ _ _ H2)].
  - intros h h' b L (a & L1 & L2 & H1 & H2 & ->)%rbind_Some [Hh1 Hh2]%Forall_app.
    apply rbind_Some. exists a, L1, L2. split_and!; [exact (local_agree _ _ _ _ H1 Hh1)|exact (local_agree _ _ _ _ H2 Hh2)|done].
Qed.

#[export] Instance Local_rmap {A B} (f : A → R B) l : (∀ x, Local (f x)) → Local (rmap f l).
Proof. intros Hf. induction l; simpl; apply _. Qed.

#[export] Instance Local_if {A} (b : bool) (m m' : R A) : Local m → Local m' → Local (if b then m else m').
Proof. by destruct b. Qed.

Lemma local_sub {A} (m : R A) `{!Local m} h h' a L : h ⊆ h' → m h = Some (a, L) → m h' = Some (a, L).
Proof.
  intros Hs Hm. apply (local_agree _ _ _ _ Hm). eapply Forall_impl; [exact (local_dom _ _ _ Hm)|].
  intros l [b Hb]. simpl. rewrite Hb. by eapply lookup_weaken.
Qed.

(** ** Copying *)

(** The store grew, and [L] is a list of different locations that are new. *)
Record grows (h : heap) (L : list loc) (h' : heap) : Prop := {
  grows_sub : h ⊆ h';
  grows_NoDup : NoDup L;
  grows_new : Forall (λ l, h !! l = None) L
}.

(** The computation leaves the store as it is up to new locations, and returns
    something that is viewed as [a] through new locations only, each of them
    visited once: no sharing with what was there, and none inside. *)
Definition yields {A V} (c : M heap A) (view : A → R V) (a : V) (h : heap) : Prop :=
  wp c (λ o h', ∃ x L, o = Ok x ∧ view x h' = Some (a, L) ∧ grows h L h') h.

(** [f] makes a deep copy of whatever can be viewed. *)
Definition copies {A V} (f : A → M heap A) (view : A → R V) : Prop :=
  ∀ h x a L, view x h = Some (a, L) → yields (f x) view a h.

Lemma store_grows_refl h : grows h [] h.
Proof. split; [done|constructor|constructor]. Qed.

Lemma new_not_old (h : heap) (L L' : list loc) l :
  Forall (λ l, is_Some (h !! l)) L → Forall (λ l, h !! l = None) L' → l ∈ L → l ∉ L'.
Proof. intros H1 H2 Hl Hl'. eapply Forall_forall in H1 as [b Hb]; [|done]. eapply Forall_forall in H2; [|done]. congruence. Qed.

Lemma None_sub (h h' : heap) L : h ⊆ h' → Forall (λ l, h' !! l = None) L → Forall (λ l, h !! l = None) L.
Proof. intros Hs Hf. eapply Forall_impl; [exact Hf|]. intros l Hl. exact (lookup_weaken_None _ _ _ Hl Hs). Qed.

Lemma is_Some_sub (h h' : heap) L : h ⊆ h' → Forall (λ l, is_Some (h !! l)) L → Forall (λ l, is_Some (h' !! l)) L.
Proof. intros Hs Hf. eapply Forall_impl; [exact Hf|]. intros l [b Hb]. exists b. by eapply lookup_weaken. Qed.

Lemma grows_app h L h' L' h'' :
  grows h L h' → Forall (λ l, is_Some (h' !! l)) L → grows h' L' h'' → grows h (L ++ L') h''.
Proof.
  intros [Hs Hn Hf] Hd [Hs' Hn' Hf']. split; [by etrans| |].
  - apply NoDup_app. split_and!; [done| |done]. intros l Hl. by eapply new_not_old.
  - apply Forall_app. split; [done|]. by eapply None_sub.
Qed.

Lemma put_sub (h h' : heap) t l vs : h ⊆ h' → h !! l = None → h ⊆ put t l vs h'.
Proof. intros Hs Hl. by apply insert_subseteq_r. Qed.

(** Writing to a location that a view does not visit leaves it alone. *)
Lemma local_put {A} (m : R A) `{!Local m} h t l vs a L :
  m h = Some (a, L) → l ∉ L → m (put t l vs h) = Some (a, L).
Proof.
  intros Hm Hl. apply (local_agree _ _ _ _ Hm). apply Forall_forall. intros l' Hl'.
  apply lookup_insert_ne. by intros ->.
Qed.

Lemma rmap_app {A B} (f : A → R B) xs ys h as1 as2 L1 L2 :
  rmap f xs h = Some (as1, L1) → rmap f ys h = Some (as2, L2) → rmap f (xs ++ ys) h = Some (as1 ++ as2, L1 ++ L2).
Proof.
  revert as1 L1. induction xs as [|x xs IH]; intros as1 L1; simpl; [by intros [= <- <-]|].
  intros (a & La & Lb & Ha & (b & Lc & Ld & Hb & [= <- <-] & ->)%rbind_Some & ->)%rbind_Some Hy.
  apply rbind_Some. exists a, La, (Lc ++ L2). split_and!; [done| |by rewrite app_nil_r, <- app_assoc].
  apply rbind_Some. exists (b ++ as2), (Lc ++ L2), []. split_and!; [by apply IH|done|by rewrite app_nil_r].
Qed.

(** *** Rules for the operations *)

Lemma wp_alloc t vs (Q : outcome loc → heap → Prop) (h : heap) :
  (∀ l, h !! l = None → Q (Ok l) (put t l vs h)) → wp (alloc t vs) Q h.
Proof. intros HQ. unfold wp, alloc. apply HQ, fresh_None. Qed.

(** The pointer of [To] reads as the value, is no pointer that existed, and all
    that existed reads as before. *)
Lemma To_fresh t v h :
  ∃ l h', To t v h = (Ok l, h') ∧ h !! l = None ∧ load t l h' = (Ok v, h') ∧
    ∀ t' l', is_Some (h !! l') → contents t' l' h' = contents t' l' h.
Proof.
  eexists _, _. split; [reflexivity|]. split; [apply fresh_None|]. split.
  - unfold load, load_at. by rewrite contents_put.
  - intros t' l' Hl'. apply contents_put_ne. intros <-. rewrite fresh_None in Hl'. by destruct Hl'.
Qed.

Lemma wp_load_at t l i vs v Q h :
  contents t l h = Some vs → vs !! i = Some v → Q (Ok v) h → wp (load_at t l i) Q h.
Proof. intros Hc Hv HQ. unfold wp, load_at. by rewrite Hc; simpl; rewrite Hv. Qed.

Lemma wp_store_at t l i vs v Q h :
  contents t l h = Some vs → i < length vs → Q (Ok tt) (put t l (<[i := v]> vs) h) → wp (store_at t l i v) Q h.
Proof. intros Hc Hi HQ. unfold wp, store_at. rewrite Hc. apply Nat.ltb_lt in Hi. by rewrite Hi. Qed.

(** *** References, and how the program copies them *)

(** What is seen through a pointer, and through a slice of which the elements
    are seen by [view]; [None] is nil. *)
Definition view_ptr {V} (t : gotype) (view : values t → R V) (p : option loc) : R (option V) :=
  match p with
  | None => rret None
  | Some l => rbind (rblock t l) (λ vs, rbind (rsome (head vs)) (λ v, rbind (view v) (λ a, rret (Some a))))
  end.

Definition view_slice {V} (t : gotype) (view : values t → R V) (s : option slice) : R (option (list V)) :=
  match s with
  | None => rret None
  | Some s =>
      rbind (rblock t (sl_array s)) (λ vs,
        if (sl_off s + sl_len s <=? length vs)%nat
        then rbind (rmap view (elements_of s vs)) (λ xs, rret (Some xs))
        else rsome None)
  end.

#[export] Instance Local_view_ptr {V} t (view : values t → R V) p :
  (∀ v, Local (view v)) → Local (view_ptr t view p).
Proof. destruct p; apply _. Qed.

#[export] Instance Local_view_slice {V} t (view : values t → R V) s :
  (∀ v, Local (view v)) → Local (view_slice t view s).
Proof. destruct s; apply _. Qed.

(** [if in == nil { return nil }; out := new(T); in.DeepCopyInto(out)] *)
Definition copy_pointer (t : gotype) (DeepCopyInto : values t → M heap (values t)) (p : option loc) :
    M heap (option loc) :=
  match p with
  | None => ret None
  | Some l =>
      let! out := new t in
      let! v := load t l in
      let! v' := DeepCopyInto v in
      store t out v' ;;
      ret (Some out)
  end.

(** One round of [for i := range *in { ( *in)[i].DeepCopyInto(&( *out)[i]) }] *)
Definition copy_element (t : gotype) (DeepCopyInto : values t → M heap (values t)) (s out : slice) (i : nat) :
    M heap unit :=
  let! v := index t s i in
  let! v' := DeepCopyInto v in
  set_index t out i v'.

(** [*out = make([]T, len( *in)); for i := range *in { ... }] *)
Definition copy_slice (t : gotype) (DeepCopyInto : values t → M heap (values t)) (s : option slice) :
    M heap (option slice) :=
  match s with
  | None => ret None
  | Some s =>
      let! out := make t (sl_len s) in
      for_each (seq 0 (sl_len s)) (copy_element t DeepCopyInto s out) ;;
      ret (Some out)
  end.

(** [*out = make([]T, len( *in)); copy( *out, *in)] *)
Definition copy_flat_slice (t : gotype) (s : option slice) : M heap (option slice) :=
  match s with
  | None => ret None
  | Some s =>
      let! out := make t (sl_len s) in
      copy t out s ;;
      ret (Some out)
  end.

Section copying.
Context {V : Type} (t : gotype) (view : values t → R V) `{!∀ v, Local (view v)}.
Context (f : values t → M heap (values t)) (Hf : copies f view).

Lemma copy_pointer_copies : copies (copy_pointer t f) (view_ptr t view).
Proof.
  intros h [l|] a L Hv; unfold yields; simpl in *.
  2: { apply wp_ret. injection Hv as <- <-. exists None, []. auto using store_grows_refl. }
  apply rbind_Some in Hv as (vs & L1 & L2 & Hl & Hv & ->). unfold rblock in Hl.
  destruct (contents t l h) as [vs'|] eqn:Hc; [|done]. injection Hl as -> <-.
  apply rbind_Some in Hv as (v & L3 & L4 & Hh & Hv & ->). destruct vs as [|v' vs]; [done|]. injection Hh as -> <-.
  apply rbind_Some in Hv as (b & L5 & L6 & Hb & [= <- <-] & ->).
  assert (∀ l', h !! l' = None → l' ≠ l) as Hne.
  { intros l' Hl' ->. destruct (contents_is_Some _ _ _ _ Hc). congruence. }
  apply wp_bind, wp_alloc. intros out Hout. simpl.
  apply wp_bind. eapply wp_load_at; [rewrite contents_put_ne by auto; exact Hc|done|]. simpl.
  apply wp_bind. eapply wp_mono; [apply (Hf _ _ b L5)|].
  { eapply local_sub; [by apply _|by apply insert_subseteq|exact Hb]. }
  intros o h' (v' & L' & -> & Hv' & [Hs Hnd Hnew]). simpl.
  assert (contents t out h' = Some [zero t]) as Hc' by (eapply contents_sub; [exact Hs|apply contents_put]).
  assert (out ∉ L') as HoutL.
  { intros Hin. eapply Forall_forall in Hnew; [|done]. simpl in Hnew. unfold put in Hnew. by rewrite lookup_insert_eq in Hnew. }
  assert (h ⊆ h') as Hsub by (etrans; [|exact Hs]; by apply insert_subseteq).
  apply wp_bind. eapply wp_store_at; [exact Hc'|simpl; lia|]. simpl. apply wp_ret.
  exists (Some out), (out :: L' ++ []). split_and!; [done| |split].
  - simpl. unfold rbind, rblock, rsome. rewrite contents_put. simpl. rewrite (local_put _ _ _ _ _ _ _ Hv' HoutL). done.
  - by apply put_sub.
  - rewrite app_nil_r. by constructor.
  - rewrite app_nil_r. constructor; [done|]. eapply None_sub; [|exact Hnew]. by apply insert_subseteq.
Qed.

(** The new array of a loop that has copied the elements [outs], which read as
    [xs], with [n] elements to go. *)
Record copying (h0 : heap) (out : loc) (n : nat) (outs : list (values t)) (xs : list V) (L : list loc) (h : heap) :
    Prop := {
  cp_sub : h0 ⊆ h;
  cp_out : h0 !! out = None;
  cp_contents : contents t out h = Some (outs ++ replicate n (zero t));
  cp_view : rmap view outs h = Some (xs, L);
  cp_NoDup : NoDup (out :: L);
  cp_new : Forall (λ l, h0 !! l = None) L
}.

Lemma copying_step h0 out n outs xs L h s i v a La :
  copying h0 out (S n) outs xs L h → view v h0 = Some (a, La) →
  contents t (sl_array s) h0 ≫= lookup (sl_off s + i) = Some v → i < sl_len s →
  i = length outs → sl_len s = i + S n →
  wp (copy_element t f s {| sl_array := out; sl_off := 0; sl_len := sl_len s |} i)
    (λ o h', o = Ok tt ∧ ∃ v' L', copying h0 out n (outs ++ [v']) (xs ++ [a]) (L ++ L') h') h.
Proof.
  intros [Hsub Hout Hc Hview Hnd Hnew] Hv Hin Hi -> Hlen. unfold copy_element, index, set_index. simpl.
  apply Nat.ltb_lt in Hi. rewrite Hi.
  destruct (contents t (sl_array s) h0) as [vs|] eqn:Hs; [|done].
  apply wp_bind. eapply wp_load_at; [by eapply contents_sub|exact Hin|]. simpl.
  apply wp_bind. eapply wp_mono; [apply (Hf _ _ a La); eapply local_sub; [by apply _|exact Hsub|exact Hv]|].
  intros o h' (v' & L' & -> & Hv' & [Hs' Hnd' Hnew']). simpl.
  assert (out ∉ L') as HoutL.
  { intros Hin'. eapply Forall_forall in Hnew'; [|done]. destruct (contents_is_Some _ _ _ _ Hc). simpl in Hnew'. congruence. }
  apply NoDup_cons in Hnd as [HoutL0 Hnd].
  assert (rmap view outs h' = Some (xs, L)) as Hview' by (eapply local_sub; [by apply _|exact Hs'|exact Hview]).
  eapply wp_store_at; [by eapply contents_sub|rewrite length_app; simpl; lia|]. split; [done|].
  exists v', L'. split.
  - apply put_sub; [by etrans|done].
  - done.
  - rewrite contents_put, insert_app_r_alt, Nat.sub_diag by lia. by rewrite <- app_assoc.
  - apply rmap_app; [by apply local_put; [apply _| |]|]. simpl. unfold rbind, rret.
    rewrite (local_put _ _ _ _ _ _ _ Hv' HoutL). by rewrite app_nil_r.
  - apply NoDup_cons. split; [by apply not_elem_of_app|]. apply NoDup_app. split_and!; [done| |done].
    intros l Hl. eapply new_not_old; [exact (local_dom _ _ _ Hview)|exact Hnew'|exact Hl].
  - apply Forall_app. split; [done|]. by eapply None_sub.
Qed.

Lemma copying_loop h0 out s rest : ∀ outs xs ys L Lr h,
  copying h0 out (length rest) outs xs L h → rmap view rest h0 = Some (ys, Lr) →
  (∀ j v, rest !! j = Some v → contents t (sl_array s) h0 ≫= lookup (sl_off s + (length outs + j)) = Some v) →
  sl_len s = length outs + length rest →
  wp (for_each (seq (length outs) (length rest)) (copy_element t f s {| sl_array := out; sl_off := 0; sl_len := sl_len s |}))
    (λ o h', o = Ok tt ∧ ∃ outs' L', length outs' = sl_len s ∧ copying h0 out 0 outs' (xs ++ ys) L' h') h.
Proof.
  induction rest as [|v rest IH]; intros outs xs ys L Lr h Hcp Hr Hin Hlen; simpl in *.
  { apply wp_ret. split; [done|]. injection Hr as <- <-. exists outs, L. rewrite app_nil_r. split; [lia|done]. }
  apply rbind_Some in Hr as (a & La & Lb & Ha & (bs & Lc & Ld & Hb & [= <- <-] & ->)%rbind_Some & ->).
  apply wp_bind. eapply wp_mono; [eapply copying_step with (v := v); eauto; [|lia]|].
  { rewrite <- (Hin 0 v) by done. by rewrite Nat.add_0_r. }
  intros o h' (-> & v' & L' & Hcp'). simpl.
  replace (S (length outs)) with (length (outs ++ [v'])) by (rewrite length_app; simpl; lia).
  replace (xs ++ a :: bs) with ((xs ++ [a]) ++ bs) by by rewrite <- app_assoc.
  eapply IH; [exact Hcp'|exact Hb| |rewrite length_app; simpl; lia].
  intros j w Hj. rewrite length_app. simpl. rewrite <- (Hin (S j) w) by done. do 2 f_equal. lia.
Qed.

(** The new array, at the end of the loop, is a slice that was copied. *)
Lemma copying_done h0 out outs xs L h n :
  copying h0 out 0 outs xs L h → length outs = n →
  view_slice t view (Some {| sl_array := out; sl_off := 0; sl_len := n |}) h = Some (Some xs, out :: L) ∧
  grows h0 (out :: L) h.
Proof.
  intros [Hsub Hout Hc Hview Hnd Hnew] Hn. split; [|split; [done|done|by constructor]].
  simpl in *. rewrite app_nil_r in Hc. unfold rbind, rblock. rewrite Hc. simpl.
  rewrite Hn, Nat.leb_refl. unfold elements_of. simpl. rewrite drop_0, <- Hn, take_ge by lia.
  rewrite Hview. simpl. by rewrite app_nil_r.
Qed.

Lemma elements_of_lookup {A} s (vs : list A) j v :
  elements_of s vs !! j = Some v → vs !! (sl_off s + j) = Some v.
Proof. unfold elements_of. intros [Hj Hl]%lookup_take_Some. by rewrite lookup_drop in Hj. Qed.

Lemma length_elements_of {A} s (vs : list A) : (sl_off s + sl_len s ≤ length vs)%nat → length (elements_of s vs) = sl_len s.
Proof. intros. unfold elements_of. rewrite length_take, length_drop. lia. Qed.

(** What a view of a slice says. *)
Lemma view_slice_Some s h b L :
  view_slice t view (Some s) h = Some (b, L) →
  ∃ vs xs L', contents t (sl_array s) h = Some vs ∧ (sl_off s + sl_len s ≤ length vs)%nat ∧
    rmap view (elements_of s vs) h = Some (xs, L') ∧ b = Some xs.
Proof.
  simpl. intros (vs & L1 & L2 & Hc & Hv & ->)%rbind_Some. unfold rblock in Hc.
  destruct (contents t (sl_array s) h) as [vs'|] eqn:E; [|done]. injection Hc as -> <-.
  destruct (_ <=? _)%nat eqn:Hl; [|done]. apply Nat.leb_le in Hl.
  apply rbind_Some in Hv as (xs & L3 & L4 & Hx & [= <- <-] & ->). eauto 10.
Qed.

Lemma copying_start h out n : h !! out = None → copying h out n [] [] [] (put t out (replicate n (zero t)) h).
Proof.
  intros Hout. split; [by apply insert_subseteq|done|by apply contents_put|done| |constructor].
  apply NoDup_singleton.
Qed.

Lemma copy_slice_copies : copies (copy_slice t f) (view_slice t view).
Proof.
  intros h [s|] a L Hv; unfold yields; simpl in *.
  2: { apply wp_ret. injection Hv as <- <-. exists None, []. auto using store_grows_refl. }
  apply (view_slice_Some s) in Hv as (vs & xs & L' & Hc & Hl & Hx & ->).
  apply wp_bind, wp_bind, wp_alloc. intros out Hout. simpl. apply wp_ret. simpl.
  pose proof (length_elements_of s vs Hl) as Hlen.
  apply wp_bind. eapply wp_mono.
  { pose proof (copying_loop h out s (elements_of s vs) [] [] xs [] L') as Hloop. rewrite Hlen in Hloop.
    apply Hloop; [by apply copying_start|exact Hx| |done].
    intros j v Hj. rewrite Hc. simpl. by apply elements_of_lookup. }
  intros o h' (-> & outs & Lo & Ho & Hcp). simpl. apply wp_ret.
  apply (copying_done _ _ _ _ _ _ _ Hcp) in Ho as [Hv Hg]. eauto 10.
Qed.

End copying.

(** *** Elements without references *)

Lemma rmap_rret {A} (l : list A) h : rmap rret l h = Some (l, []).
Proof. induction l as [|x l IH]; simpl; [done|]. unfold rbind. simpl. by rewrite IH. Qed.

Lemma copies_ret {A} : copies (ret : A → M heap A) rret.
Proof. intros h x a L [= <- <-]. apply wp_ret. exists x, []. auto using store_grows_refl. Qed.

Lemma copy_flat_slice_copies t : copies (copy_flat_slice t) (view_slice t rret).
Proof.
  intros h [s|] a L Hv; unfold yields; simpl in *.
  2: { apply wp_ret. injection Hv as <- <-. exists None, []. auto using store_grows_refl. }
  apply (view_slice_Some t rret s) in Hv as (vs & xs & L' & Hc & Hl & Hx & ->). rewrite rmap_rret in Hx. injection Hx as <- <-.
  apply wp_bind, wp_bind, wp_alloc. intros out Hout. simpl. apply wp_ret. simpl.
  assert (out ≠ sl_array s) as Hne by (intros ->; destruct (contents_is_Some _ _ _ _ Hc); congruence).
  apply wp_bind. unfold wp, copy. rewrite contents_put, contents_put_ne, Hc by done. simpl.
  rewrite Nat.min_id, (drop_ge (replicate _ _)), app_nil_r by by rewrite length_replicate.
  eexists _, _. split; [done|].
  apply (copying_done t rret h out (elements_of s vs) (elements_of s vs) []); [|by apply length_elements_of].
  split; [by do 2 (apply put_sub; [|done])|done|by rewrite contents_put, app_nil_r|apply rmap_rret|apply NoDup_singleton|constructor].
Qed.


(** *** Structs: one field after the other *)

Definition grown (h : heap) (L : list loc) (h' : heap) : Prop :=
  grows h L h' ∧ Forall (λ l, is_Some (h' !! l)) L.

Lemma grown_nil h : grown h [] h.
Proof. split; [apply store_grows_refl|constructor]. Qed.

Lemma grown_app h L h' L' h'' : grown h L h' → grown h' L' h'' → grown h (L ++ L') h''.
Proof.
  intros [Hg Hd] [Hg' Hd']. split; [by eapply grows_app|]. apply Forall_app. split; [|done].
  eapply is_Some_sub; [apply Hg'|done].
Qed.

Lemma wp_copy_field {A V B} (f : A → M heap A) (view : A → R V) (k : A → M heap B) Q h x a L :
  copies f view → (∀ x, Local (view x)) → view x h = Some (a, L) →
  (∀ x' h' L', h ⊆ h' → view x' h' = Some (a, L') → grown h L' h' → wp (k x') Q h') →
  wp (bind (f x) k) Q h.
Proof.
  intros Hf Hl Hx HQ. apply wp_bind. eapply wp_mono; [by eapply Hf|].
  intros o h' (x' & L' & -> & Hx' & Hg). simpl. apply (HQ x' h' L'); [apply Hg|done|].
  split; [done|exact (local_dom _ _ _ Hx')].
Qed.

End store.

Notation heap := (gmap loc block).

Arguments put : simpl never.
Arguments contents : simpl never.

Declare Scope view_scope.
Notation "'let?' x ':=' m 'in' k" := (rbind m (λ x, k))
  (at level 10, x pattern, m at level 100, k at level 200,
   format "'[v' 'let?'  x  ':='  m  'in' '/' k ']'") : view_scope.
#[global] Open Scope view_scope.

(** ** Automation

    [copy_struct] proves that a struct is copied: it takes the view of the
    struct apart, runs the copies of the fields in the order of the program
    with the lemmas of the database [copies], and puts the view together again. *)
Create HintDb copies.

Ltac solve_copies :=
  lazymatch goal with
  | |- copies ret _ => apply copies_ret
  | |- copies (copy_flat_slice _) _ => apply copy_flat_slice_copies
  | |- copies (copy_pointer _ _) (@view_ptr ?U ?V ?t ?view) =>
      apply (@copy_pointer_copies U V t view); [intros ?; apply _|solve_copies]
  | |- copies (copy_slice _ _) (@view_slice ?U ?V ?t ?view) =>
      apply (@copy_slice_copies U V t view); [intros ?; apply _|solve_copies]
  | |- _ => solve [auto with copies nocore]
  end.

Ltac view_inv H :=
  repeat (let a := fresh "a" in let L := fresh "L" in let L' := fresh "L" in let Hx := fresh "Hview" in
          apply rbind_Some in H as (a & L & L' & Hx & H & ->));
  injection H as <- <-.

Ltac lift_views Hs :=
  repeat match goal with
  | H : ?m ?h = Some _ |- _ =>
      match type of Hs with h ⊆ _ => apply (local_sub m _ _ _ _ Hs) in H end
  end.

Ltac copy_field :=
  eapply wp_copy_field; [| |eassumption|]; [solve_copies|intros ?; apply _|];
  let x := fresh "x" in let h := fresh "h" in let L := fresh "L" in let Hs := fresh "Hs" in
  let Hv := fresh "Hview" in let Hg := fresh "Hgrown" in
  intros x h L Hs Hv Hg; lift_views Hs; clear Hs.

Ltac grown_chain := repeat (eapply grown_app; [eassumption|]); apply grown_nil.

Ltac view_done :=
  repeat (eapply rbind_ok; [eassumption|]); reflexivity.

Ltac copy_struct :=
  let h := fresh "h" in let x := fresh "x" in let a := fresh "a" in let L := fresh "L" in let Hv := fresh "Hv" in
  intros h x a L Hv; unfold yields;
  match type of Hv with ?v _ _ = _ => unfold v in Hv end; view_inv Hv;
  match goal with |- wp (?f _) _ _ => unfold f end;
  repeat copy_field; apply wp_ret; do 2 eexists;
  split; [reflexivity|]; split; [match goal with |- ?v _ _ = _ => unfold v end; view_done|eapply proj1; grown_chain].
