(* ===== verification/Static.v ===== *)
(** * Embedded scripts and templates: internal/static/scripts.go

    The files of internal/static/embed that the program embeds as texts, byte
    for byte, and the functions that return them. A literal has a tilde for
    every double quote of the file (no file holds a tilde); [unquote] puts the
    quotes back. *)

From S2P Require Import Prelude GoStrings.

Fixpoint unquote (s : string) : string :=
  match s with
  | EmptyString => EmptyString
  | String c s => String (if Ascii.eqb c "~" then dquote else c) (unquote s)
  end.

(** embed/install-kubeadm.sh *)
Definition installKubeadmScript : string := unquote
"#!/bin/sh -xeu

# Usage:
#  $ /opt/cluster-api/install-kubeadm.sh v1.32.1

set -xeu

KUBERNETES_VERSION=~${KUBERNETES_VERSION:-$1}~            # https://dl.k8s.io/release/stable.txt or https://dl.k8s.io/release/stable-1.32.txt
CNI_PLUGINS_VERSION=~${CNI_PLUGINS_VERSION:-v1.9.0}~      # https://github.com/containernetworking/plugins
CRICTL_VERSION=~${CRICTL_VERSION:-v1.34.0}~               # https://github.com/kubernetes-sigs/cri-tools
CONTAINERD_VERSION=~${CONTAINERD_VERSION:-v2.2.0}~        # https://github.com/containerd/containerd
RUNC_VERSION=~${RUNC_VERSION:-v1.3.3}~                    # https://github.com/opencontainers/runc, must match https://raw.githubusercontent.com/containerd/containerd/${CONTAINERD_VERSION}/script/setup/runc-version

KUBELET_SERVICE='
# Sourced from: https://raw.githubusercontent.com/kubernetes/release/v0.16.2/cmd/krel/templates/latest/kubelet/kubelet.service

[Unit]
Description=kubelet: The Kubernetes Node Agent
Documentation=https://kubernetes.io/docs/
Wants=network-online.target
After=network-online.target

[Service]
ExecStart=/usr/bin/kubelet
Restart=always
StartLimitInterval=0
RestartSec=10

[Install]
WantedBy=multi-user.target
'

KUBELET_SERVICE_KUBEADM_DROPIN_CONFIG='
# Sourced from: https://raw.githubusercontent.com/kubernetes/release/v0.16.2/cmd/krel/templates/latest/kubeadm/10-kubeadm.conf

# Note: This dropin only works with kubeadm and kubelet v1.11+
[Service]
Environment=~KUBELET_KUBECONFIG_ARGS=--bootstrap-kubeconfig=/etc/kubernetes/bootstrap-kubelet.conf --kubeconfig=/etc/kubernetes/kubelet.conf~
Environment=~KUBELET_CONFIG_ARGS=--config=/var/lib/kubelet/config.yaml~
# This is a file that ~kubeadm init~ and ~kubeadm join~ generates at runtime, populating the KUBELET_KUBEADM_ARGS variable dynamically
EnvironmentFile=-/var/lib/kubelet/kubeadm-flags.env
# This is a file that the user can use for overrides of the kubelet args as a last resort. Preferably, the user should use
# the .NodeRegistration.KubeletExtraArgs object in the configuration files instead. KUBELET_EXTRA_ARGS should be sourced from this file.
EnvironmentFile=-/etc/sysconfig/kubelet
ExecStart=
ExecStart=/usr/bin/kubelet $KUBELET_KUBECONFIG_ARGS $KUBELET_CONFIG_ARGS $KUBELET_KUBEADM_ARGS $KUBELET_EXTRA_ARGS
'

CONTAINERD_CONFIG='
version = 3

[plugins.~io.containerd.grpc.v1.cri~]
  stream_server_address = ~127.0.0.1~
  stream_server_port = ~10010~

[plugins.~io.containerd.cri.v1.runtime~]
  enable_selinux = false
  enable_unprivileged_ports = true
  enable_unprivileged_icmp = true
  device_ownership_from_security_context = false
  sandbox_image = ~registry.k8s.io/pause:3.10~

[plugins.~io.containerd.cri.v1.runtime~.cni]
  bin_dirs = [~/opt/cni/bin~]
  conf_dir = ~/etc/cni/net.d~

[plugins.~io.containerd.cri.v1.runtime~.containerd.runtimes.runc]
  runtime_type = ~io.containerd.runc.v2~

[plugins.~io.containerd.cri.v1.runtime~.containerd.runtimes.runc.options]
  SystemdCgroup = true

[plugins.~io.containerd.cri.v1.images~]
  snapshotter = ~overlayfs~
  disable_snapshot_annotations = true

[plugins.~io.containerd.cri.v1.images~.pinned_images]
  sandbox = ~registry.k8s.io/pause:3.10~

[plugins.~io.containerd.cri.v1.images~.registry]
  config_path = ~/etc/containerd/certs.d~
'

CONTAINERD_UNPRIVILEGED_CONFIG='
version = 3

[plugins.~io.containerd.grpc.v1.cri~]
  stream_server_address = ~127.0.0.1~
  stream_server_port = ~10010~

[plugins.~io.containerd.cri.v1.runtime~]
  enable_selinux = false
  enable_unprivileged_ports = true
  enable_unprivileged_icmp = true
  device_ownership_from_security_context = false

  ## unprivileged
  disable_apparmor = true
  disable_hugetlb_controller = true
  restrict_oom_score_adj = true

[plugins.~io.containerd.cri.v1.runtime~.cni]
  bin_dirs = [~/opt/cni/bin~]
  conf_dir = ~/etc/cni/net.d~

[plugins.~io.containerd.cri.v1.runtime~.containerd.runtimes.runc]
  runtime_type = ~io.containerd.runc.v2~

[plugins.~io.containerd.cri.v1.runtime~.containerd.runtimes.runc.options]
  SystemdCgroup = true

[plugins.~io.containerd.cri.v1.images~]
  snapshotter = ~overlayfs~
  disable_snapshot_annotations = true

[plugins.~io.containerd.cri.v1.images~.pinned_images]
  sandbox = ~registry.k8s.io/pause:3.10~

[plugins.~io.containerd.cri.v1.images~.registry]
  config_path = ~/etc/containerd/certs.d~
'

CONTAINERD_SERVICE_UNPRIVILEGED_MODE_DROPIN_CONFIG='
[Service]
ExecStartPre=bash -xe -c ~\
 mkdir -p /etc/containerd && cd /etc/containerd && \
 if stat -c %%u/%%g /proc | grep -q 0/0; then \
  [ -f config.default.toml ] && ln -sf config.default.toml config.toml; \
 else \
  [ -f config.unprivileged.toml ] && ln -sf config.unprivileged.toml config.toml; \
fi~
'

CONTAINERD_SERVICE='
[Unit]
Description=containerd container runtime
Documentation=https://containerd.io
After=network.target local-fs.target

[Service]
#uncomment to enable the experimental sbservice (sandboxed) version of containerd/cri integration
#Environment=~ENABLE_CRI_SANDBOXES=sandboxed~
ExecStartPre=-/sbin/modprobe overlay
ExecStart=/usr/bin/containerd

Type=notify
Delegate=yes
KillMode=process
Restart=always
RestartSec=5
# Having non-zero Limit*s causes performance problems due to accounting overhead
# in the kernel. We recommend using cgroups to do container-local accounting.
LimitNPROC=infinity
LimitCORE=infinity
LimitNOFILE=infinity
# Comment TasksMax if your systemd version does not supports it.
# Only systemd 226 and above support this version.
TasksMax=infinity
OOMScoreAdjust=-999

[Install]
WantedBy=multi-user.target
'

CONTAINERD_CONFIGURE_UNPRIVILEGED_MODE='#!/bin/sh -xeu

set -xeu

ln -sf config.unprivileged.toml /etc/containerd/config.toml
systemctl restart containerd
'

# infer ARCH
ARCH=~$(uname -m)~
if uname -m | grep -q x86_64; then ARCH=amd64; fi
if uname -m | grep -q aarch64; then ARCH=arm64; fi

# sysctl
echo net.ipv4.ip_forward=1 | tee /etc/sysctl.d/99-clusterapi.conf
echo net.ipv6.conf.all.forwarding=1 | tee -a /etc/sysctl.d/99-clusterapi.conf
echo fs.inotify.max_user_instances=8192 | tee -a /etc/sysctl.d/99-clusterapi.conf
echo fs.inotify.max_user_watches=524288 | tee -a /etc/sysctl.d/99-clusterapi.conf
sysctl --system || true

# kernel
if ! systemd-detect-virt --container --quiet 2>/dev/null; then
  modprobe br_netfilter
  echo br_netfilter | tee /etc/modules-load.d/br_netfilter.conf
fi

# apt install requirements
apt update
apt install curl iptables ethtool kmod --no-install-recommends --yes
if [ ~$KUBERNETES_VERSION~ ~<~ ~v1.32~ ]; then
  apt install conntrack --no-install-recommends --yes
fi

# runc
curl -L ~https://github.com/opencontainers/runc/releases/download/${RUNC_VERSION}/runc.${ARCH}~ -o /usr/bin/runc
chmod +x /usr/bin/runc
cp /usr/bin/runc /usr/sbin/runc

# containerd
mkdir -p /etc/containerd
curl -L ~https://github.com/containerd/containerd/releases/download/${CONTAINERD_VERSION}/containerd-static-${CONTAINERD_VERSION#v}-linux-${ARCH}.tar.gz~ | tar -C /usr -xz
if [ ! -f /etc/containerd/config.toml ]; then
  echo ~${CONTAINERD_CONFIG}~ | tee /etc/containerd/config.default.toml
  echo ~${CONTAINERD_UNPRIVILEGED_CONFIG}~ | tee /etc/containerd/config.unprivileged.toml
  ln -sf config.default.toml /etc/containerd/config.toml
fi
mkdir -p /usr/lib/systemd/system/containerd.service.d
if ! systemctl list-unit-files containerd.service &>/dev/null; then
  echo ~${CONTAINERD_SERVICE}~ | tee /usr/lib/systemd/system/containerd.service
  echo ~${CONTAINERD_SERVICE_UNPRIVILEGED_MODE_DROPIN_CONFIG}~ | tee /usr/lib/systemd/system/containerd.service.d/10-unprivileged-mode.conf
fi
systemctl enable containerd.service
systemctl start containerd.service

# containerd unprivileged mode
echo ~${CONTAINERD_CONFIGURE_UNPRIVILEGED_MODE}~ | tee /opt/containerd-configure-unprivileged-mode.sh
chmod +x /opt/containerd-configure-unprivileged-mode.sh

# cni plugins
mkdir -p /opt/cni/bin
curl -L ~https://github.com/containernetworking/plugins/releases/download/${CNI_PLUGINS_VERSION}/cni-plugins-linux-${ARCH}-${CNI_PLUGINS_VERSION}.tgz~ | tar -C /opt/cni/bin -xz

# crictl
curl -L ~https://github.com/kubernetes-sigs/cri-tools/releases/download/${CRICTL_VERSION}/crictl-${CRICTL_VERSION}-linux-${ARCH}.tar.gz~ | tar -C /usr/bin -xz
echo 'runtime-endpoint: unix:///run/containerd/containerd.sock' | tee -a /etc/crictl.yaml

# kubernetes binaries
curl -L --remote-name-all ~https://dl.k8s.io/release/${KUBERNETES_VERSION}/bin/linux/${ARCH}/kubeadm~ -o /usr/bin/kubeadm
curl -L --remote-name-all ~https://dl.k8s.io/release/${KUBERNETES_VERSION}/bin/linux/${ARCH}/kubelet~ -o /usr/bin/kubelet
curl -L --remote-name-all ~https://dl.k8s.io/release/${KUBERNETES_VERSION}/bin/linux/${ARCH}/kubectl~ -o /usr/bin/kubectl
chmod +x /usr/bin/kubeadm /usr/bin/kubelet /usr/bin/kubectl

# kubelet service
mkdir -p /usr/lib/systemd/system/kubelet.service.d
if ! systemctl list-unit-files kubelet.service &>/dev/null; then
  echo ~${KUBELET_SERVICE}~ | tee /usr/lib/systemd/system/kubelet.service
  echo ~${KUBELET_SERVICE_KUBEADM_DROPIN_CONFIG}~ | tee /usr/lib/systemd/system/kubelet.service.d/10-kubeadm.conf
fi
systemctl enable kubelet.service

# pull images
kubeadm config images pull --kubernetes-version ~${KUBERNETES_VERSION}~
".

(** embed/install-haproxy.sh *)
Definition installHaproxyScript : string := unquote
"#!/bin/sh -xeu

# Usage:
#  $ /opt/cluster-api/install-haproxy.sh

set -xeu

apt update
apt install haproxy -y --no-install-recommends
".

(** embed/pull-images.sh *)
Definition pullImagesScript : string := unquote
"#!/bin/sh -xeu

# Usage:
#  $ /opt/cluster-api/pull-images.sh [IMAGE] [IMAGE] ....

set -xeu

for image in ~${@}~; do
  crictl pull ~${image}~
done
".

(** embed/generate-manifest.sh *)
Definition generateManifestScript : string := unquote
"#!/bin/sh -xeu

# Usage:
#  $ /opt/cluster-api-lxc/95-postrun-kubeadm.sh

set -xeu

# manifest
(
  set -x

  date
  containerd --version
  runc --version
  crictl --version
  kubelet --version
  kubeadm version -o yaml
  kubectl version -o yaml --client
  crictl images
  ls -la /etc/containerd/
) 2>&1 | tee /opt/manifest.txt
".

(** embed/cleanup-instance.sh *)
Definition cleanupInstanceScript : string := unquote
"#!/bin/sh -xeu

# Usage:
#  $ /opt/cluster-api-lxc/99-cleanup.sh

set -xeu

apt-get purge -y \
  libx11-data iso-codes vim openssh-client groff-base gnupg polkitd \
  python3-babel python3-pygments python3-launchpadlib python3-markdown-it python3-mdurl

if cat /etc/os-release | grep ID=ubuntu -q; then
  apt-get purge -y ubuntu-pro-client language-pack-en-base
fi

# NOTE(neoaggelos): Ensure VM images built with Incus load the LXD agent at runtime
if [ -f /lib/systemd/system/incus-agent.service ]; then
  if cat /etc/os-release | grep ID=ubuntu -q; then
    apt install lxd-agent-loader -y --no-install-recommends
  else
    # For other distributions, download deb package and install manually
    curl -L https://launchpad.net/ubuntu/+archive/primary/+files/lxd-agent-loader_0.7ubuntu0.1_all.deb -o lxd-agent.deb
    if ! sha256sum lxd-agent.deb | grep -q ce2aa5b188fb286f9c8eae05ad424bb10a161d260f64a57163f0f66f03880752; then
      echo ~*****DANGER!!!!!*****~
      echo ~lxd-agent.deb file sha256sum mismatch, refusing to proceed~
      echo ~*********************~
      exit 1
    fi

    apt install ./lxd-agent.deb -y && rm lxd-agent.deb
  fi

  # limit lxd-agent.service so that it only starts on Canonical LXD
  echo 'SYMLINK==~virtio-ports/com.canonical.lxd~, TAG+=~systemd~, ENV{SYSTEMD_WANTS}+=~lxd-agent.service~' | tee /lib/udev/rules.d/99-lxd-agent.rules
fi

apt-get autoremove -y && apt-get clean && apt-get autoclean
rm -rf \
  /home/ubuntu/.bash_history \
  /home/ubuntu/.cache \
  /home/ubuntu/.config \
  /home/ubuntu/.gnupg \
  /home/ubuntu/.ssh \
  /home/ubuntu/.sudo_as_admin_successful \
  /root/.bash_history \
  /root/.cache \
  /root/.config \
  /root/.gnupg \
  /root/.ssh \
  /root/.sudo_as_admin_successful \
  /tmp/* \
  /usr/share/doc \
  /usr/share/man \
  /var/cache/apt \
  /var/cache/swcatalog \
  /var/lib/apt/lists \
  /var/lib/swcatalog \
  /var/log \
  /var/tmp/*

mkdir -p /var/tmp /var/log /tmp

if which cloud-init; then
  cloud-init clean --machine-id --seed --logs
fi

# NOTE(neoaggelos): to address virtual-machine images not booting up
# [    2.229864] systemd[1]: System cannot boot: Missing /etc/machine-id and /etc is mounted read-only.
# [    2.231808] systemd[1]: Booting up is supported only when:
# [    2.232901] systemd[1]: 1) /etc/machine-id exists and is populated.
# [    2.234297] systemd[1]: 2) /etc/machine-id exists and is empty.
# [    2.235592] systemd[1]: 3) /etc/machine-id is missing and /etc is writable.
touch /etc/machine-id

find /usr/lib/python3* | grep __pycache__ | xargs rm -rf
".

(** embed/validate-kubeadm-image.sh *)
Definition validateKubeadmImageScript : string := unquote
"#!/bin/sh -xeu

# Usage:
#  $ /opt/cluster-api-lxc/validate-kubeadm-image.sh

set -xeu

# container runtime
containerd --version
runc --version
crictl --version

# kubernetes
kubelet --version
kubeadm version -o yaml
kubectl version -o yaml --client

# flanneld binary (if exists)
find /var/lib/containerd | grep flanneld | xargs -t --replace={} bash -c ~{} --version~
".

(** embed/kind-cloud-init.py *)
Definition kindCloudInitScript : string := unquote
"#!/usr/bin/env python3

import json
import subprocess
from pathlib import Path
from time import sleep

HACK_CLOUD_CONFIG_PATH = Path(~/hack/cloud-init.json~)

~~~Install cloud-init and launch cloud-final target on the instance~~~
CLOUD_INIT_SCRIPT = ~~~
if ! cloud-init; then
    apt-get update
    apt-get install --no-install-recommends --yes cloud-init
fi

systemctl start --no-block cloud-final.service
~~~


if __name__ == ~__main__~:
    # wait for instance address before proceeding
    while True:
        print(~Waiting for instance address...~)
        try:
            p = subprocess.run([~ip~, ~addr~, ~show~], capture_output=True, text=True)

            # wait for addresses that are ~scope global~ (ignore link, localhost)
            if any(~scope global~ in line for line in p.stdout.split(~\n~)):
                break
        except subprocess.CalledProcessError:
            print(f~Failed to check instance address {p.returncode=} {p.stdout=} {p.stderr=}~)

        sleep(1)

    # if /hack/cloud-init.json does not exist, install cloud-init
    if not HACK_CLOUD_CONFIG_PATH.exists():
        subprocess.run([~bash~, ~-xe~, ~-c~, CLOUD_INIT_SCRIPT], check=True)
        exit(0)

    # load /hack/cloud-init.json and apply manually
    hack_cloud_config = json.loads(HACK_CLOUD_CONFIG_PATH.read_text())
    for file in hack_cloud_config.get(~write_files~) or []:
        path = Path(file[~path~])
        path.parent.mkdir(parents=True, exist_ok=True)
        path.write_text(file[~content~])

        subprocess.run([~chmod~, file[~permissions~], file[~path~]], check=True)
        subprocess.run([~chown~, file[~owner~], file[~path~]], check=True)

    command = hack_cloud_config.get(~runcmd~) or []
    subprocess.run([~bash~, ~-xe~, ~-s~], check=True, text=True, input=~\n~.join(command))
".

(** embed/meta-data *)
Definition cloudInitMetaDataTemplate : string := unquote
"instance-id: {{ container.name }}
local-hostname: {{ container.name }}
{{ config_get(~user.meta-data~, ~~) }}
".

(** embed/user-data *)
Definition cloudInitUserDataTemplate : string := unquote
"{%- if config_get(~cloud-init.user-data~, properties.default) == properties.default -%}
{{ config_get(~user.user-data~, properties.default) }}
{%- else -%}
{{- config_get(~cloud-init.user-data~, properties.default) }}
{%- endif %}
".

(** embed/cloud-init-launch.service *)
Definition cloudInitLaunchSystemdServiceTemplate : string := unquote
"[Unit]
Description=CAPN cloud-init launcher
After=network-online.target
ConditionPathExists=!/hack/cloud-init.success

[Service]
Type=oneshot
ExecStart=/bin/bash -xe -c 'python3 /hack/cloud-init.py && touch /hack/cloud-init.success'
Restart=on-failure
RestartSec=5s
StartLimitInterval=60
StartLimitBurst=10

# NOTE(neoaggelos): so that logs from cloud-init.py are in order
Environment=PYTHONUNBUFFERED=1

[Install]
WantedBy=multi-user.target
".

(** embed/kind-default-storage.yaml *)
Definition kindDefaultStorageManifestYAML : string := unquote
"apiVersion: v1
kind: Namespace
metadata:
  name: local-path-storage

---
apiVersion: v1
kind: ServiceAccount
metadata:
  name: local-path-provisioner-service-account
  namespace: local-path-storage

---
apiVersion: rbac.authorization.k8s.io/v1
kind: Role
metadata:
  name: local-path-provisioner-role
  namespace: local-path-storage
rules:
  - apiGroups: [~~]
    resources: [~pods~]
    verbs: [~get~, ~list~, ~watch~, ~create~, ~patch~, ~update~, ~delete~]

---
apiVersion: rbac.authorization.k8s.io/v1
kind: ClusterRole
metadata:
  name: local-path-provisioner-role
rules:
  - apiGroups: [~~]
    resources: [~nodes~, ~persistentvolumeclaims~, ~configmaps~, ~pods~, ~pods/log~]
    verbs: [~get~, ~list~, ~watch~]
  - apiGroups: [~~]
    resources: [~persistentvolumes~]
    verbs: [~get~, ~list~, ~watch~, ~create~, ~patch~, ~update~, ~delete~]
  - apiGroups: [~~]
    resources: [~events~]
    verbs: [~create~, ~patch~]
  - apiGroups: [~storage.k8s.io~]
    resources: [~storageclasses~]
    verbs: [~get~, ~list~, ~watch~]

---
apiVersion: rbac.authorization.k8s.io/v1
kind: RoleBinding
metadata:
  name: local-path-provisioner-bind
  namespace: local-path-storage
roleRef:
  apiGroup: rbac.authorization.k8s.io
  kind: Role
  name: local-path-provisioner-role
subjects:
  - kind: ServiceAccount
    name: local-path-provisioner-service-account
    namespace: local-path-storage

---
apiVersion: rbac.authorization.k8s.io/v1
kind: ClusterRoleBinding
metadata:
  name: local-path-provisioner-bind
roleRef:
  apiGroup: rbac.authorization.k8s.io
  kind: ClusterRole
  name: local-path-provisioner-role
subjects:
  - kind: ServiceAccount
    name: local-path-provisioner-service-account
    namespace: local-path-storage

---
apiVersion: apps/v1
kind: Deployment
metadata:
  name: local-path-provisioner
  namespace: local-path-storage
spec:
  replicas: 1
  selector:
    matchLabels:
      app: local-path-provisioner
  template:
    metadata:
      labels:
        app: local-path-provisioner
    spec:
      nodeSelector:
        kubernetes.io/os: linux
      # TODO: Remove the ~master~ taint after kubeadm nodes no longer have it.
      # This can be done once kind no longer supports kubeadm 1.24.
      # https://github.com/kubernetes-sigs/kind/issues/1699
      tolerations:
      - key: node-role.kubernetes.io/control-plane
        operator: Equal
        effect: NoSchedule
      - key: node-role.kubernetes.io/master
        operator: Equal
        effect: NoSchedule
      serviceAccountName: local-path-provisioner-service-account
      containers:
        - name: local-path-provisioner
          image: docker.io/kindest/local-path-provisioner:v20250214-acbabc1a
          imagePullPolicy: IfNotPresent
          command:
            - local-path-provisioner
            - --debug
            - start
            - --helper-image
            - docker.io/kindest/local-path-helper:v20241212-8ac705d0
            - --config
            - /etc/config/config.json
          volumeMounts:
            - name: config-volume
              mountPath: /etc/config/
          env:
            - name: POD_NAMESPACE
              valueFrom:
                fieldRef:
                  fieldPath: metadata.namespace
            - name: CONFIG_MOUNT_PATH
              value: /etc/config/
      volumes:
        - name: config-volume
          configMap:
            name: local-path-config

---
apiVersion: storage.k8s.io/v1
kind: StorageClass
metadata:
  name: standard
  namespace: kube-system
  annotations:
    storageclass.kubernetes.io/is-default-class: ~true~
provisioner: rancher.io/local-path
volumeBindingMode: WaitForFirstConsumer
reclaimPolicy: Delete

---
kind: ConfigMap
apiVersion: v1
metadata:
  name: local-path-config
  namespace: local-path-storage
data:
  config.json: |-
    {
            ~nodePathMap~:[
            {
                    ~node~:~DEFAULT_PATH_FOR_NON_LISTED_NODES~,
                    ~paths~:[~/var/local-path-provisioner~]
            }
            ]
    }
  setup: |-
    #!/bin/sh
    set -eu
    mkdir -m 0777 -p ~$VOL_DIR~
  teardown: |-
    #!/bin/sh
    set -eu
    rm -rf ~$VOL_DIR~
  helperPod.yaml: |-
    apiVersion: v1
    kind: Pod
    metadata:
      name: helper-pod
    spec:
      priorityClassName: system-node-critical
      tolerations:
        - key: node.kubernetes.io/disk-pressure
          operator: Exists
          effect: NoSchedule
      containers:
      - name: helper-pod
        image: docker.io/kindest/local-path-helper:v20241212-8ac705d0
        imagePullPolicy: IfNotPresent
".

(** embed/kube-flannel.yaml *)
Definition kubeFlannelManifestYAML : string := unquote
"# Sourced from: https://github.com/flannel-io/flannel/releases/download/v0.27.3/kube-flannel.yml
# Changes:
# - configmap: make sure kind can properly template .PodSubnet

# kindnetd networking manifest
# would you kindly template this file

apiVersion: v1
kind: Namespace
metadata:
  labels:
    k8s-app: flannel
    pod-security.kubernetes.io/enforce: privileged
  name: kube-flannel
---
apiVersion: v1
kind: ServiceAccount
metadata:
  labels:
    k8s-app: flannel
  name: flannel
  namespace: kube-flannel
---
apiVersion: rbac.authorization.k8s.io/v1
kind: ClusterRole
metadata:
  labels:
    k8s-app: flannel
  name: flannel
rules:
- apiGroups:
  - ~~
  resources:
  - pods
  verbs:
  - get
- apiGroups:
  - ~~
  resources:
  - nodes
  verbs:
  - get
  - list
  - watch
- apiGroups:
  - ~~
  resources:
  - nodes/status
  verbs:
  - patch
---
apiVersion: rbac.authorization.k8s.io/v1
kind: ClusterRoleBinding
metadata:
  labels:
    k8s-app: flannel
  name: flannel
roleRef:
  apiGroup: rbac.authorization.k8s.io
  kind: ClusterRole
  name: flannel
subjects:
- kind: ServiceAccount
  name: flannel
  namespace: kube-flannel
---
apiVersion: v1
data:
  cni-conf.json: |
    {
      ~name~: ~cbr0~,
      ~cniVersion~: ~0.3.1~,
      ~plugins~: [
        {
          ~type~: ~flannel~,
          ~delegate~: {
            ~hairpinMode~: true,
            ~isDefaultGateway~: true
          }
        },
        {
          ~type~: ~portmap~,
          ~capabilities~: {
            ~portMappings~: true
          }
        }
      ]
    }
  net-conf.json: |
    {
      ~Network~: ~{{ ~{{ .PodSubnet }}~ }}~,
      ~EnableNFTables~: false,
      ~Backend~: {
        ~Type~: ~vxlan~
      }
    }
kind: ConfigMap
metadata:
  labels:
    app: flannel
    k8s-app: flannel
    tier: node
  name: kube-flannel-cfg
  namespace: kube-flannel
---
apiVersion: apps/v1
kind: DaemonSet
metadata:
  labels:
    app: flannel
    k8s-app: flannel
    tier: node
  name: kube-flannel-ds
  namespace: kube-flannel
spec:
  selector:
    matchLabels:
      app: flannel
      k8s-app: flannel
  template:
    metadata:
      labels:
        app: flannel
        k8s-app: flannel
        tier: node
    spec:
      affinity:
        nodeAffinity:
          requiredDuringSchedulingIgnoredDuringExecution:
            nodeSelectorTerms:
            - matchExpressions:
              - key: kubernetes.io/os
                operator: In
                values:
                - linux
      containers:
      - args:
        - --ip-masq
        - --kube-subnet-mgr
        command:
        - /opt/bin/flanneld
        env:
        - name: POD_NAME
          valueFrom:
            fieldRef:
              fieldPath: metadata.name
        - name: POD_NAMESPACE
          valueFrom:
            fieldRef:
              fieldPath: metadata.namespace
        - name: EVENT_QUEUE_DEPTH
          value: ~5000~
        - name: CONT_WHEN_CACHE_NOT_READY
          value: ~false~
        image: ghcr.io/flannel-io/flannel:v0.27.3
        name: kube-flannel
        resources:
          requests:
            cpu: 100m
            memory: 50Mi
        securityContext:
          capabilities:
            add:
            - NET_ADMIN
            - NET_RAW
          privileged: false
        volumeMounts:
        - mountPath: /run/flannel
          name: run
        - mountPath: /etc/kube-flannel/
          name: flannel-cfg
        - mountPath: /run/xtables.lock
          name: xtables-lock
      hostNetwork: true
      initContainers:
      - args:
        - -f
        - /flannel
        - /opt/cni/bin/flannel
        command:
        - cp
        image: ghcr.io/flannel-io/flannel-cni-plugin:v1.7.1-flannel1
        name: install-cni-plugin
        volumeMounts:
        - mountPath: /opt/cni/bin
          name: cni-plugin
      - args:
        - -f
        - /etc/kube-flannel/cni-conf.json
        - /etc/cni/net.d/10-flannel.conflist
        command:
        - cp
        image: ghcr.io/flannel-io/flannel:v0.27.3
        name: install-cni
        volumeMounts:
        - mountPath: /etc/cni/net.d
          name: cni
        - mountPath: /etc/kube-flannel/
          name: flannel-cfg
      priorityClassName: system-node-critical
      serviceAccountName: flannel
      tolerations:
      - effect: NoSchedule
        operator: Exists
      volumes:
      - hostPath:
          path: /run/flannel
        name: run
      - hostPath:
          path: /opt/cni/bin
        name: cni-plugin
      - hostPath:
          path: /etc/cni/net.d
        name: cni
      - configMap:
          name: kube-flannel-cfg
        name: flannel-cfg
      - hostPath:
          path: /run/xtables.lock
          type: FileOrCreate
        name: xtables-lock
".

Definition InstallKubeadmScript : string := installKubeadmScript.
Definition InstallHaproxyScript : string := installHaproxyScript.
Definition PullImagesScript : string := pullImagesScript.
Definition GenerateManifestScript : string := generateManifestScript.
Definition CleanupInstanceScript : string := cleanupInstanceScript.
Definition ValidateKubeadmImageScript : string := validateKubeadmImageScript.
Definition KindCloudInitScript : string := kindCloudInitScript.
Definition CloudInitMetaDataTemplate : string := cloudInitMetaDataTemplate.
Definition CloudInitUserDataTemplate : string := cloudInitUserDataTemplate.
Definition CloudInitLaunchSystemdServiceTemplate : string := cloudInitLaunchSystemdServiceTemplate.
Definition KindDefaultStorageManifestYAML : string := kindDefaultStorageManifestYAML.
Definition KubeFlannelManifestYAML : string := kubeFlannelManifestYAML.

#[global] Opaque installKubeadmScript installHaproxyScript pullImagesScript generateManifestScript cleanupInstanceScript validateKubeadmImageScript kindCloudInitScript cloudInitMetaDataTemplate cloudInitUserDataTemplate cloudInitLaunchSystemdServiceTemplate kindDefaultStorageManifestYAML kubeFlannelManifestYAML.
