(* ===== verification/Sha256.v ===== *)
(** * SHA-256, as Go's crypto/sha256 computes it

    The load balancer instance name (api/v1alpha2/lxccluster_types.go) and the
    simplestreams index use [sha256.Sum256] and [encoding/hex]. 32-bit words
    are [Z] with the wrap-around written out. *)

From S2P Require Import Prelude GoStrings.

Section sha256.
Local Open Scope Z_scope.

Definition mask32 : Z := 4294967295.
Definition add32 (a b : Z) : Z := Z.land (a + b) mask32.
Definition rotr (x n : Z) : Z := Z.lor (Z.shiftr x n) (Z.land (Z.shiftl x (32 - n)) mask32).
Definition not32 (x : Z) : Z := Z.lxor x mask32.

(** The first 32 bits of the fractional parts of the cube roots of the first
    64 primes, and of the square roots of the first 8 primes. *)
Definition round_constants : list Z := [
   1116352408; 1899447441; 3049323471; 3921009573; 961987163; 1508970993;
   2453635748; 2870763221; 3624381080; 310598401; 607225278; 1426881987;
   1925078388; 2162078206; 2614888103; 3248222580; 3835390401; 4022224774;
   264347078; 604807628; 770255983; 1249150122; 1555081692; 1996064986;
   2554220882; 2821834349; 2952996808; 3210313671; 3336571891; 3584528711;
   113926993; 338241895; 666307205; 773529912; 1294757372; 1396182291;
   1695183700; 1986661051; 2177026350; 2456956037; 2730485921; 2820302411;
   3259730800; 3345764771; 3516065817; 3600352804; 4094571909; 275423344;
   430227734; 506948616; 659060556; 883997877; 958139571; 1322822218;
   1537002063; 1747873779; 1955562222; 2024104815; 2227730452; 2361852424;
   2428436474; 2756734187; 3204031479; 3329325298].

Definition initial_hash : list Z := [
   1779033703; 3144134277; 1013904242; 2773480762; 1359893119; 2600822924;
   528734635; 1541459225].

(** The message schedule, newest word first. *)
Fixpoint schedule (n : nat) (w : list Z) : list Z :=
  match n with
  | O => w
  | S n' =>
      let w1 := nth 1 w 0 in let w6 := nth 6 w 0 in
      let w14 := nth 14 w 0 in let w15 := nth 15 w 0 in
      let s0 := Z.lxor (Z.lxor (rotr w14 7) (rotr w14 18)) (Z.shiftr w14 3) in
      let s1 := Z.lxor (Z.lxor (rotr w1 17) (rotr w1 19)) (Z.shiftr w1 10) in
      schedule n' (add32 (add32 w15 s0) (add32 w6 s1) :: w)
  end.

Record regs := Regs { ra : Z; rb : Z; rc : Z; rd : Z; re : Z; rf : Z; rg : Z; rh : Z }.

Definition round (r : regs) (kw : Z * Z) : regs :=
  let '(k, w) := kw in
  let '(Regs a b c d e f g h) := r in
  let s1 := Z.lxor (Z.lxor (rotr e 6) (rotr e 11)) (rotr e 25) in
  let ch := Z.lxor (Z.land e f) (Z.land (not32 e) g) in
  let t1 := add32 (add32 h s1) (add32 ch (add32 k w)) in
  let s0 := Z.lxor (Z.lxor (rotr a 2) (rotr a 13)) (rotr a 22) in
  let maj := Z.lxor (Z.lxor (Z.land a b) (Z.land a c)) (Z.land b c) in
  Regs (add32 t1 (add32 s0 maj)) a b c (add32 d t1) e f g.

Definition compress (h : list Z) (block : list Z) : list Z :=
  let w := rev (schedule 48 (rev block)) in
  let n i := nth i h 0 in
  let r := foldl round (Regs (n 0%nat) (n 1%nat) (n 2%nat) (n 3%nat) (n 4%nat) (n 5%nat) (n 6%nat) (n 7%nat))
             (combine round_constants w) in
  [add32 (n 0%nat) (ra r); add32 (n 1%nat) (rb r); add32 (n 2%nat) (rc r); add32 (n 3%nat) (rd r);
   add32 (n 4%nat) (re r); add32 (n 5%nat) (rf r); add32 (n 6%nat) (rg r); add32 (n 7%nat) (rh r)].

(** Big-endian bytes. *)
Fixpoint be_bytes (n : nat) (x : Z) : list Z :=
  match n with
  | O => []
  | S n' => be_bytes n' (Z.shiftr x 8) ++ [Z.land x 255]
  end.

Fixpoint words (bytes : list Z) : list Z :=
  match bytes with
  | a :: b :: c :: d :: rest => (((a * 256 + b) * 256 + c) * 256 + d) :: words rest
  | _ => []
  end.

Definition pad (msg : list Z) : list Z :=
  let len := Z.of_nat (length msg) in
  let zeros := Z.to_nat ((55 - len) mod 64) in
  msg ++ [128] ++ repeat 0 zeros ++ be_bytes 8 (8 * len).

Fixpoint blocks (fuel : nat) (ws : list Z) (h : list Z) : list Z :=
  match fuel, ws with
  | S fuel', _ :: _ => blocks fuel' (drop 16 ws) (compress h (take 16 ws))
  | _, _ => h
  end.

Definition bytes_of_string (s : string) : list Z :=
  map (λ c, Z.of_N (Ascii.N_of_ascii c)) (chars s).

(** [sha256.Sum256]: 32 bytes. One block is consumed per unit of fuel. *)
Definition Sum256 (msg : list Z) : list Z :=
  let ws := words (pad msg) in
  flat_map (be_bytes 4) (blocks (length ws) ws initial_hash).

(** [hex.EncodeToString] *)
Fixpoint hex_encode (bytes : list Z) : string :=
  match bytes with
  | [] => EmptyString
  | b :: rest =>
      String (hex_digit (Z.to_nat (b / 16)))
        (String (hex_digit (Z.to_nat (b mod 16))) (hex_encode rest))
  end.

End sha256.

Lemma be_bytes_length n x : length (be_bytes n x) = n.
Proof. revert x. induction n as [|n IH]; intros x; simpl; [done|]. rewrite length_app, IH. simpl. lia. Qed.

Lemma hex_encode_length bytes : String.length (hex_encode bytes) = (2 * length bytes)%nat.
Proof. induction bytes as [|b bytes IH]; simpl; lia. Qed.

Lemma blocks_length fuel ws h : length h = 8%nat → length (blocks fuel ws h) = 8%nat.
Proof.
  revert ws h. induction fuel as [|fuel IH]; intros [|w ws] h Hh; simpl; auto.
Qed.

(** A digest has 32 bytes. *)
Lemma Sum256_length msg : length (Sum256 msg) = 32%nat.
Proof.
  unfold Sum256. assert (∀ l, length (flat_map (be_bytes 4) l) = (4 * length l)%nat) as Hl.
  { induction l as [|x l IH]; [done|]. cbn [flat_map length]. rewrite length_app, be_bytes_length, IH. lia. }
  rewrite Hl, blocks_length by done. done.
Qed.

Lemma be_bytes_range n x : Forall (λ b, 0 <= b < 256)%Z (be_bytes n x).
Proof.
  revert x. induction n as [|n IH]; intros x; simpl; [constructor|]. apply Forall_app. split; [apply IH|].
  repeat constructor; [apply Z.land_nonneg; right; lia|].
  change 255%Z with (Z.ones 8). rewrite Z.land_ones by lia. apply Z.mod_pos_bound. lia.
Qed.

Lemma Sum256_range msg : Forall (λ b, 0 <= b < 256)%Z (Sum256 msg).
Proof.
  unfold Sum256. induction (blocks _ _ _) as [|x l IH]; [constructor|]. cbn [flat_map]. apply Forall_app. split; [apply be_bytes_range|done].
Qed.

(** Hexadecimal text has no separator of paths in it. *)
Lemma hex_encode_no_slash bytes :
  Forall (λ b, 0 <= b < 256)%Z bytes → "/"%char ∉ chars (hex_encode bytes).
Proof.
  assert (∀ n, (n < 16)%nat → "/"%char ≠ hex_digit n) as Hd.
  { intros n Hn. do 16 (destruct n as [|n]; [vm_compute; discriminate|]). lia. }
  induction 1 as [|b bytes Hb Hbs IH]; simpl; [apply not_elem_of_nil|].
  rewrite !not_elem_of_cons. repeat split; [apply Hd|apply Hd|done].
  - pose proof (Z.div_lt_upper_bound b 16 16). lia.
  - pose proof (Z.mod_pos_bound b 16). lia.
Qed.

(** Test vectors of FIPS 180-4. *)
Example sha256_abc : hex_encode (Sum256 (bytes_of_string "abc")) =
  "ba7816bf8f01cfea414140de5dae2223b00361a396177a9cb410ff61f20015ad".
Proof. vm_compute. reflexivity. Qed.

Example sha256_empty : hex_encode (Sum256 (bytes_of_string "")) =
  "e3b0c44298fc1c149afbf4c8996fb92427ae41e4649b934ca495991b7852b855".
Proof. vm_compute. reflexivity. Qed.

Example sha256_two_blocks :
  hex_encode (Sum256 (bytes_of_string "abcdbcdecdefdefgefghfghighijhijkijkljklmklmnlmnomnopnopq")) =
  "248d6a61d20638b8e5c026930c3e6039a33ce45964ff2167f6ecedd419db06c1".
Proof. vm_compute. reflexivity. Qed.

#[global] Opaque Sum256.
