(* ===== verification/Api.v ===== *)
(** * The API types: api/v1alpha2

    The custom resources of the provider ([LXCCluster], [LXCMachine]) with the
    methods of their Go types, and the fields of the Cluster API and Kubernetes
    objects that the provider reads. *)

From S2P Require Import Prelude GoStrings Go Sha256.

(** ** Fields of Kubernetes and Cluster API objects *)

(** A [types.NamespacedName]. *)
Record NamespacedName := { nn_Namespace : string; nn_Name : string }.

#[export] Instance NamespacedName_eq_dec : EqDecision NamespacedName.
Proof. solve_decision. Defined.

(** [metav1.ObjectMeta]. A deletion timestamp is a time in milliseconds. *)
Record ObjectMeta := {
  om_Name : string;
  om_Namespace : string;
  om_Labels : gmap string string;
  om_Finalizers : list string;
  om_DeletionTimestamp : option Z
}.

(** The key of an object. *)
Definition object_key (m : ObjectMeta) : NamespacedName :=
  {| nn_Namespace := om_Namespace m; nn_Name := om_Name m |}.

Definition mkMeta (name namespace : string) : ObjectMeta :=
  {| om_Name := name; om_Namespace := namespace; om_Labels := ∅;
     om_Finalizers := []; om_DeletionTimestamp := None |}.

Inductive ConditionStatus := ConditionTrue | ConditionFalse | ConditionUnknown.
Inductive ConditionSeverity := SeverityError | SeverityWarning | SeverityInfo | SeverityNone.

#[export] Instance ConditionStatus_eq_dec : EqDecision ConditionStatus.
Proof. solve_decision. Defined.
#[export] Instance ConditionSeverity_eq_dec : EqDecision ConditionSeverity.
Proof. solve_decision. Defined.

(** [clusterv1.Condition], without its transition time. *)
Record Condition := {
  co_Type : string;
  co_Status : ConditionStatus;
  co_Severity : ConditionSeverity;
  co_Reason : string;
  co_Message : string
}.

#[export] Instance Condition_eq_dec : EqDecision Condition.
Proof. solve_decision. Defined.

(** [clusterv1.APIEndpoint] *)
Record APIEndpoint := { ep_Host : string; ep_Port : Z }.

Inductive MachineAddressType := MachineHostName | MachineInternalIP | MachineExternalIP.

(** [clusterv1.MachineAddress] *)
Record MachineAddress := { ma_Type : MachineAddressType; ma_Address : string }.

(** ** Conditions and condition reasons: condition_consts.go *)

Definition LoadBalancerAvailableCondition : string := "LoadBalancerAvailable".
Definition LoadBalancerProvisioningFailedReason : string := "LoadBalancerProvisioningFailed".
Definition LoadBalancerProvisioningAbortedReason : string := "LoadBalancerProvisioningAbortedReason".
Definition InstanceProvisionedCondition : string := "InstanceProvisioned".
Definition WaitingForClusterInfrastructureReason : string := "WaitingForClusterInfrastructure".
Definition WaitingForBootstrapDataReason : string := "WaitingForBootstrapData".
Definition CreatingInstanceReason : string := "CreatingInstance".
Definition InstanceProvisioningFailedReason : string := "InstanceProvisioningFailed".
Definition InstanceProvisioningAbortedReason : string := "InstanceProvisioningAborted".
Definition InstanceDeletedReason : string := "InstanceDeleted".

(** Constants of Cluster API (clusterv1). *)
Definition ReadyCondition : string := "Ready".
Definition DeletingReason : string := "Deleting".
Definition WaitingForControlPlaneAvailableReason : string := "WaitingForControlPlaneAvailable".
Definition ControlPlaneInitializedCondition : string := "ControlPlaneInitialized".
Definition ClusterNameLabel : string := "cluster.x-k8s.io/cluster-name".

(** ** LXCMachine: lxcmachine_types.go *)

Definition MachineFinalizer : string := "lxcmachine.infrastructure.cluster.x-k8s.io".

Record LXCMachineImageSource := {
  im_Name : string;
  im_Fingerprint : string;
  im_Server : string;
  im_Protocol : string
}.

#[export] Instance LXCMachineImageSource_eq_dec : EqDecision LXCMachineImageSource.
Proof. solve_decision. Defined.

Definition zeroImageSource : LXCMachineImageSource :=
  {| im_Name := ""; im_Fingerprint := ""; im_Server := ""; im_Protocol := "" |}.

(** [(s *LXCMachineImageSource) IsZero()], with [None] for a nil receiver. *)
Definition IsZero (s : option LXCMachineImageSource) : bool :=
  match s with
  | None => true
  | Some s => bool_decide (s = zeroImageSource)
  end.

Record LXCMachineSpec := {
  ms_ProviderID : option string;
  ms_InstanceType : string;
  ms_Flavor : string;
  ms_Profiles : list string;
  ms_Devices : list string;
  ms_Config : option (gmap string string);
  ms_Image : LXCMachineImageSource;
  ms_Target : string
}.

Record LXCMachineStatus := {
  mst_Ready : bool;
  mst_LoadBalancerConfigured : bool;
  mst_Addresses : list MachineAddress;
  mst_Conditions : list Condition;
  mst_V1Beta2 : option (list Condition)
}.

Record LXCMachine := {
  lm_Meta : ObjectMeta;
  lm_Spec : LXCMachineSpec;
  lm_Status : LXCMachineStatus
}.

Definition LXCMachine_GetConditions (c : LXCMachine) : list Condition := mst_Conditions (lm_Status c).

Definition LXCMachine_with_status (c : LXCMachine) (st : LXCMachineStatus) : LXCMachine :=
  {| lm_Meta := lm_Meta c; lm_Spec := lm_Spec c; lm_Status := st |}.

Definition LXCMachine_SetConditions (c : LXCMachine) (conditions : list Condition) : LXCMachine :=
  LXCMachine_with_status c
    {| mst_Ready := mst_Ready (lm_Status c);
       mst_LoadBalancerConfigured := mst_LoadBalancerConfigured (lm_Status c);
       mst_Addresses := mst_Addresses (lm_Status c);
       mst_Conditions := conditions;
       mst_V1Beta2 := mst_V1Beta2 (lm_Status c) |}.

Definition LXCMachine_GetV1Beta2Conditions (c : LXCMachine) : list Condition :=
  match mst_V1Beta2 (lm_Status c) with
  | None => []
  | Some conds => conds
  end.

Definition LXCMachine_SetV1Beta2Conditions (c : LXCMachine) (conditions : list Condition) : LXCMachine :=
  LXCMachine_with_status c
    {| mst_Ready := mst_Ready (lm_Status c);
       mst_LoadBalancerConfigured := mst_LoadBalancerConfigured (lm_Status c);
       mst_Addresses := mst_Addresses (lm_Status c);
       mst_Conditions := mst_Conditions (lm_Status c);
       mst_V1Beta2 := Some conditions |}.

Definition GetInstanceName (c : LXCMachine) : string := om_Name (lm_Meta c).

(** GetExpectedProviderID returns the expected providerID that the Kubernetes
    node should have. *)
Definition GetExpectedProviderID (c : LXCMachine) : string := "lxc:///" +s+ GetInstanceName c.

(** ** Device specifications: [Devices.ToMap]

    One "<key>=<value>" argument, into the configuration of its device. *)
Definition toMap_arg (spec arg : string) (dev : gmap string string) : error + gmap string string :=
  match Cut arg "=" with
  | (key, value, true) => inr (<[key := value]> dev)
  | (_, _, false) =>
      inl (errorString ("device argument " +s+ quote arg +s+ " of device spec " +s+ quote spec +s+
             " is not using the expected " +s+ quote "<key>=<value>" +s+ " format"))
  end.

Fixpoint toMap_args (spec : string) (args : list string) (dev : gmap string string) :
    error + gmap string string :=
  match args with
  | [] => inr dev
  | arg :: rest =>
      match toMap_arg spec arg dev with
      | inl e => inl e
      | inr dev' => toMap_args spec rest dev'
      end
  end.

(** The body of the loop: one "<device>,<key>=<value>,..." specification. *)
Definition toMap_spec (spec : string) (m : gmap string (gmap string string)) :
    error + gmap string (gmap string string) :=
  match Cut spec "," with
  | (_, _, false) =>
      inl (errorString ("device spec " +s+ quote spec +s+ " is not using the expected " +s+
             quote "<device>,<key>=<value>,<key2>=<value2>" +s+ " format"))
  | (name, args, true) =>
      match toMap_args spec (Split args ",") (default ∅ (m !! name)) with
      | inl e => inl e
      | inr dev => inr (<[name := dev]> m)
      end
  end.

Fixpoint toMap_specs (d : list string) (m : gmap string (gmap string string)) :
    error + gmap string (gmap string string) :=
  match d with
  | [] => inr m
  | spec :: rest =>
      match toMap_spec spec m with
      | inl e => inl e
      | inr m' => toMap_specs rest m'
      end
  end.

(** ToMap parses a list of "<device>,<key>=<value>,<key2>=<value2>" strings
    into a map of device configs. *)
Definition ToMap (d : list string) : error + gmap string (gmap string string) :=
  match d with
  | [] => inr ∅
  | _ => toMap_specs d ∅
  end.

(** ** LXCCluster: lxccluster_types.go *)

Definition ClusterFinalizer : string := "lxccluster.infrastructure.cluster.x-k8s.io".

Record LXCLoadBalancerMachineSpec := {
  lbs_Flavor : string;
  lbs_Profiles : list string;
  lbs_Image : LXCMachineImageSource;
  lbs_Target : string
}.

Record LXCLoadBalancerInstance := {
  lbi_InstanceSpec : LXCLoadBalancerMachineSpec;
  lbi_CustomHAProxyConfigTemplate : string
}.

Record LXCLoadBalancerOVN := { ovn_NetworkName : string }.

Record LXCLoadBalancerKubeVIP := {
  kv_Image : string;
  kv_Interface : string;
  kv_KubeconfigPath : string;
  kv_ManifestPath : string
}.

Inductive LXCLoadBalancerExternal := ExternalLB.

Record LXCClusterLoadBalancer := {
  lb_LXC : option LXCLoadBalancerInstance;
  lb_OCI : option LXCLoadBalancerInstance;
  lb_OVN : option LXCLoadBalancerOVN;
  lb_KubeVIP : option LXCLoadBalancerKubeVIP;
  lb_External : option LXCLoadBalancerExternal
}.

(** SecretRef is a reference to a secret in the cluster. *)
Record SecretRef := { sr_Name : string }.

Record LXCClusterSpec := {
  cs_ControlPlaneEndpoint : APIEndpoint;
  cs_SecretRef : SecretRef;
  cs_LoadBalancer : LXCClusterLoadBalancer;
  cs_Unprivileged : bool;
  cs_SkipDefaultKubeadmProfile : bool
}.

Record LXCClusterStatus := {
  cst_Ready : bool;
  cst_Conditions : list Condition;
  cst_V1Beta2 : option (list Condition)
}.

Record LXCCluster := {
  lc_Meta : ObjectMeta;
  lc_Spec : LXCClusterSpec;
  lc_Status : LXCClusterStatus
}.

Definition LXCCluster_GetConditions (c : LXCCluster) : list Condition := cst_Conditions (lc_Status c).

Definition LXCCluster_with_status (c : LXCCluster) (st : LXCClusterStatus) : LXCCluster :=
  {| lc_Meta := lc_Meta c; lc_Spec := lc_Spec c; lc_Status := st |}.

Definition LXCCluster_SetConditions (c : LXCCluster) (conditions : list Condition) : LXCCluster :=
  LXCCluster_with_status c
    {| cst_Ready := cst_Ready (lc_Status c); cst_Conditions := conditions;
       cst_V1Beta2 := cst_V1Beta2 (lc_Status c) |}.

Definition LXCCluster_GetV1Beta2Conditions (c : LXCCluster) : list Condition :=
  match cst_V1Beta2 (lc_Status c) with
  | None => []
  | Some conds => conds
  end.

Definition LXCCluster_SetV1Beta2Conditions (c : LXCCluster) (conditions : list Condition) : LXCCluster :=
  LXCCluster_with_status c
    {| cst_Ready := cst_Ready (lc_Status c); cst_Conditions := cst_Conditions (lc_Status c);
       cst_V1Beta2 := Some conditions |}.

(** GetLXCSecretNamespacedName returns the client.ObjectKey for the secret
    containing LXC credentials. *)
Definition GetLXCSecretNamespacedName (c : LXCCluster) : NamespacedName :=
  {| nn_Namespace := om_Namespace (lc_Meta c); nn_Name := sr_Name (cs_SecretRef (lc_Spec c)) |}.

(** The first 5 characters of the hex encoded sha256 sum of the namespace. *)
Definition namespaceHash (namespace : string) : string :=
  let hash := Sum256 (bytes_of_string namespace) in
  String.substring 0 5 (hex_encode (take 3 hash)).

(** GetLoadBalancerInstanceName returns the instance name for the cluster load
    balancer. *)
Definition GetLoadBalancerInstanceName (c : LXCCluster) : string :=
  om_Name (lc_Meta c) +s+ "-" +s+ namespaceHash (om_Namespace (lc_Meta c)) +s+ "-lb".

(** ** Properties of device specifications *)

(** A device and its arguments, written in the documented syntax. *)
Definition render_device (d : string * list (string * string)) : string :=
  d.1 +s+ "," +s+ Join (map (λ kv, kv.1 +s+ "=" +s+ kv.2) d.2) ",".

Definition device_wf (d : string * list (string * string)) : Prop :=
  ","%char ∉ chars d.1 ∧ d.2 ≠ [] ∧
  Forall (λ kv, "="%char ∉ chars kv.1 ∧ ","%char ∉ chars kv.1 ∧ ","%char ∉ chars kv.2) d.2.

(** What a list of devices means: the arguments of a device are assigned one
    after the other, on top of what earlier specifications gave it. *)
Definition devices_meaning (ds : list (string * list (string * string))) :
    gmap string (gmap string string) :=
  foldl (λ m d, <[d.1 := insert_all (default ∅ (m !! d.1)) d.2]> m) ∅ ds.

(** A specification has the documented format: a comma, and an equal sign in
    every argument after the first comma. *)
Definition spec_ok (spec : string) : bool :=
  match Cut spec "," with
  | (_, args, true) => forallb (λ arg, Contains arg "=") (Split args ",")
  | _ => false
  end.

Lemma toMap_args_render spec kvs dev :
  Forall (λ kv, "="%char ∉ chars kv.1) kvs →
  toMap_args spec (map (λ kv, kv.1 +s+ "=" +s+ kv.2) kvs) dev = inr (insert_all dev kvs).
Proof.
  intros Hk. revert dev. induction Hk as [|[k v] kvs Hx _ IH]; intros dev; simpl; [done|].
  unfold toMap_arg. simpl in Hx. rewrite Cut_char by done. apply IH.
Qed.

Lemma toMap_spec_render d m :
  device_wf d →
  toMap_spec (render_device d) m = inr (<[d.1 := insert_all (default ∅ (m !! d.1)) d.2]> m).
Proof.
  intros (Hn & Hne & Hkv). unfold toMap_spec, render_device. simpl.
  rewrite Cut_char by done. rewrite Split_Join.
  - rewrite toMap_args_render; [done|]. eapply Forall_impl; [exact Hkv|]. naive_solver.
  - by destruct d.2.
  - apply Forall_map. eapply Forall_impl; [exact Hkv|]. intros [k v] (Hk1 & Hk2 & Hv). simpl in *.
    rewrite chars_app. simpl. rewrite not_elem_of_app, not_elem_of_cons. naive_solver.
Qed.

Lemma toMap_specs_render ds m :
  Forall device_wf ds →
  toMap_specs (map render_device ds) m =
    inr (foldl (λ m d, <[d.1 := insert_all (default ∅ (m !! d.1)) d.2]> m) m ds).
Proof.
  intros Hds. revert m. induction Hds as [|d ds Hd _ IH]; intros m; simpl; [done|].
  rewrite toMap_spec_render by done. apply IH.
Qed.

Lemma toMap_args_ok spec args dev :
  (∃ dev', toMap_args spec args dev = inr dev') ↔ forallb (λ arg, Contains arg "=") args = true.
Proof.
  revert dev. induction args as [|arg args IH]; intros dev; simpl; [naive_solver|].
  rewrite andb_true_iff, <- Cut_found. unfold toMap_arg.
  destruct (Cut arg "=") as [[k v] []]; simpl.
  - rewrite IH. naive_solver.
  - naive_solver.
Qed.

Lemma toMap_spec_ok spec m : (∃ m', toMap_spec spec m = inr m') ↔ spec_ok spec = true.
Proof.
  unfold toMap_spec, spec_ok. destruct (Cut spec ",") as [[name args] []]; [|naive_solver].
  rewrite <- toMap_args_ok with (spec := spec) (dev := default ∅ (m !! name)).
  destruct (toMap_args _ _ _); naive_solver.
Qed.

Lemma toMap_specs_ok d m : (∃ m', toMap_specs d m = inr m') ↔ forallb spec_ok d = true.
Proof.
  revert m. induction d as [|spec d IH]; intros m; simpl; [naive_solver|].
  rewrite andb_true_iff, <- toMap_spec_ok with (m := m).
  destruct (toMap_spec spec m) as [e|m']; [naive_solver|]. rewrite IH. naive_solver.
Qed.

Lemma ToMap_specs d : ToMap d = toMap_specs d ∅.
Proof. by destruct d. Qed.

(** C28: Parsing device specifications written in the documented format gives
    exactly their meaning, later arguments and later specifications of a
    device overriding earlier ones. *)
Theorem ToMap_render (ds : list (string * list (string * string))) :
  Forall device_wf ds → ToMap (map render_device ds) = inr (devices_meaning ds).
Proof. intros H. rewrite ToMap_specs. by apply toMap_specs_render. Qed.

Lemma ToMap_render_witness :
  ToMap (map render_device [("eth0", [("type", "nic"); ("network", "n1")]); ("eth0", [("network", "n2")])])
  = inr {["eth0" := {["type" := "nic"; "network" := "n2"]}]}.
Proof.
  rewrite ToMap_render; [vm_compute; reflexivity|].
  repeat constructor; simpl; try compute_done; done.
Defined.

(** ToMap fails exactly when some specification does not have the documented
    format. *)
Theorem ToMap_error_iff (d : list string) :
  (∃ e, ToMap d = inl e) ↔ ∃ spec, spec ∈ d ∧ spec_ok spec = false.
Proof.
  rewrite ToMap_specs. pose proof (toMap_specs_ok d ∅) as Hok.
  destruct (toMap_specs d ∅) as [e|m].
  - split; [intros _|naive_solver]. destruct (forallb spec_ok d) eqn:E; [naive_solver|].
    apply not_true_iff_false in E. rewrite forallb_In in E.
    destruct (decide (Exists (λ s, spec_ok s = false) d)) as [H|H].
    + by apply Exists_exists in H.
    + exfalso. apply E. intros x Hx. destruct (spec_ok x) eqn:Ex; [done|].
      exfalso. apply H, Exists_exists. eauto.
  - split; [naive_solver|]. intros (spec & Hin & Hs).
    assert (forallb spec_ok d = true) as Hall by naive_solver.
    rewrite forallb_In in Hall. rewrite Hall in Hs by done. done.
Qed.

(** ** Properties of instance names *)

Lemma namespaceHash_length ns : String.length (namespaceHash ns) = 5%nat.
Proof.
  unfold namespaceHash. apply substring_length. rewrite hex_encode_length, length_take, Sum256_length.
  lia.
Qed.

(** C31: The load balancer instance name fits the 63 characters of an LXC instance
    name exactly when the cluster name has at most 54 characters, however long
    the namespace is. *)
Theorem LoadBalancerInstanceName_bound (c : LXCCluster) :
  (String.length (GetLoadBalancerInstanceName c) <= 63)%nat ↔
  (String.length (om_Name (lc_Meta c)) <= 54)%nat.
Proof.
  unfold GetLoadBalancerInstanceName. rewrite !string_app_length, namespaceHash_length. simpl. lia.
Qed.

(** Two clusters whose load balancer instances have the same name have the
    same name, and namespaces with the same hash: clusters of one namespace
    never share a load balancer instance. *)
Theorem LoadBalancerInstanceName_inj (c c' : LXCCluster) :
  GetLoadBalancerInstanceName c = GetLoadBalancerInstanceName c' →
  om_Name (lc_Meta c) = om_Name (lc_Meta c') ∧
  namespaceHash (om_Namespace (lc_Meta c)) = namespaceHash (om_Namespace (lc_Meta c')).
Proof.
  unfold GetLoadBalancerInstanceName. intros H.
  assert (String.length (om_Name (lc_Meta c)) = String.length (om_Name (lc_Meta c'))) as Hl.
  { apply (f_equal String.length) in H. rewrite !string_app_length, !namespaceHash_length in H. lia. }
  apply string_app_inj_len in H as [Hn H]; [|done]. split; [done|].
  apply string_app_inj_l in H. by apply string_app_inj_r in H.
Qed.

Lemma LoadBalancerInstanceName_inj_witness :
  let c := {| lc_Meta := mkMeta "c1" "default";
              lc_Spec := {| cs_ControlPlaneEndpoint := {| ep_Host := ""; ep_Port := 0 |};
                            cs_SecretRef := {| sr_Name := "" |};
                            cs_LoadBalancer := {| lb_LXC := None; lb_OCI := None; lb_OVN := None;
                                                  lb_KubeVIP := None; lb_External := None |};
                            cs_Unprivileged := false; cs_SkipDefaultKubeadmProfile := false |};
              lc_Status := {| cst_Ready := false; cst_Conditions := []; cst_V1Beta2 := None |} |} in
  let c' := LXCCluster_SetConditions c [] in
  om_Name (lc_Meta c) = om_Name (lc_Meta c') ∧
  namespaceHash (om_Namespace (lc_Meta c)) = namespaceHash (om_Namespace (lc_Meta c')).
Proof. intros c c'. apply (LoadBalancerInstanceName_inj c c'). reflexivity. Defined.
