(* ===== verification/DeepCopy.v ===== *)
(** * Deep copies of the API types: api/v1alpha2/zz_generated.deepcopy.go

    The types of the API once more, this time as the graphs that the program
    has in its store, and the methods [DeepCopyInto], [DeepCopy] and
    [DeepCopyObject] that are generated for them. The controllers rely on them
    wherever an object leaves the cache of the manager's client and where a
    handler changes a part of a specification that it must not write back. *)

From S2P Require Import Prelude GoStrings Go Store Sha256 Api.

(** ** The packages of Kubernetes and Cluster API

    Five types of these packages have generated methods of their own. Their
    fields in the store, what is seen of them, and the blocks they allocate
    that are not strings or maps of strings are parameters. *)
Inductive foreign :=
| MetaObject      (** [metav1.ObjectMeta] *)
| MetaList        (** [metav1.ListMeta] *)
| TemplateMeta    (** [clusterv1.ObjectMeta] *)
| CapiCondition   (** [clusterv1.Condition] *)
| MetaCondition   (** [metav1.Condition] *).

#[export] Instance foreign_eq_dec : EqDecision foreign.
Proof. solve_decision. Defined.

Class KubeTypes := {
  kube : foreign → Type;
  kube_zero : ∀ f, kube f;
  kube_value : foreign → Type;
  kube_block : Type;
  kube_block_zero : kube_block
}.

(** ** The types

    A type is declared once and has two readings: [Stored], with locations for
    its pointers, slices and maps, and [Value], what is seen through them. Nil
    is [None] in both. *)
Inductive mode := Stored | Value.

Definition Ptr (m : mode) (A : Type) : Type := match m with Stored => option loc | Value => option A end.
Definition Slice (m : mode) (A : Type) : Type := match m with Stored => option slice | Value => option (list A) end.
Definition Map (m : mode) : Type := match m with Stored => option loc | Value => option (gmap string string) end.

(** [metav1.TypeMeta] *)
Record TypeMeta := { tm_Kind : string; tm_APIVersion : string }.

Local Set Implicit Arguments.

Section types.
Context {K : KubeTypes}.

Definition Kube (m : mode) (f : foreign) : Type := match m with Stored => kube f | Value => kube_value f end.

Record LXCMachineSpec (m : mode) := {
  ms_ProviderID : Ptr m string;
  ms_InstanceType : string;
  ms_Flavor : string;
  ms_Profiles : Slice m string;
  ms_Devices : Slice m string;
  ms_Config : Map m;
  ms_Image : LXCMachineImageSource;
  ms_Target : string
}.

Record LXCMachineV1Beta2Status (m : mode) := { mv_Conditions : Slice m (Kube m MetaCondition) }.

Record LXCMachineStatus (m : mode) := {
  mst_Ready : bool;
  mst_LoadBalancerConfigured : bool;
  mst_Addresses : Slice m MachineAddress;
  mst_Conditions : Slice m (Kube m CapiCondition);
  mst_V1Beta2 : Ptr m (LXCMachineV1Beta2Status m)
}.

Record LXCMachine (m : mode) := {
  lm_TypeMeta : TypeMeta;
  lm_ObjectMeta : Kube m MetaObject;
  lm_Spec : LXCMachineSpec m;
  lm_Status : LXCMachineStatus m
}.

Record LXCMachineList (m : mode) := {
  lml_TypeMeta : TypeMeta;
  lml_ListMeta : Kube m MetaList;
  lml_Items : Slice m (LXCMachine m)
}.

Record LXCMachineTemplateResource (m : mode) := {
  mtr_ObjectMeta : Kube m TemplateMeta;
  mtr_Spec : LXCMachineSpec m
}.

Record LXCMachineTemplateSpec (m : mode) := { mts_Template : LXCMachineTemplateResource m }.

Record LXCMachineTemplate (m : mode) := {
  mt_TypeMeta : TypeMeta;
  mt_ObjectMeta : Kube m MetaObject;
  mt_Spec : LXCMachineTemplateSpec m
}.

Record LXCMachineTemplateList (m : mode) := {
  mtl_TypeMeta : TypeMeta;
  mtl_ListMeta : Kube m MetaList;
  mtl_Items : Slice m (LXCMachineTemplate m)
}.

Record LXCLoadBalancerMachineSpec (m : mode) := {
  lbs_Flavor : string;
  lbs_Profiles : Slice m string;
  lbs_Image : LXCMachineImageSource;
  lbs_Target : string
}.

Record LXCLoadBalancerInstance (m : mode) := {
  lbi_InstanceSpec : LXCLoadBalancerMachineSpec m;
  lbi_CustomHAProxyConfigTemplate : string
}.

Record LXCClusterLoadBalancer (m : mode) := {
  lb_LXC : Ptr m (LXCLoadBalancerInstance m);
  lb_OCI : Ptr m (LXCLoadBalancerInstance m);
  lb_OVN : Ptr m LXCLoadBalancerOVN;
  lb_KubeVIP : Ptr m LXCLoadBalancerKubeVIP;
  lb_External : Ptr m LXCLoadBalancerExternal
}.

Record LXCClusterSpec (m : mode) := {
  cs_ControlPlaneEndpoint : APIEndpoint;
  cs_SecretRef : SecretRef;
  cs_LoadBalancer : LXCClusterLoadBalancer m;
  cs_Unprivileged : bool;
  cs_SkipDefaultKubeadmProfile : bool
}.

Record LXCClusterV1Beta2Status (m : mode) := { cv_Conditions : Slice m (Kube m MetaCondition) }.

Record LXCClusterStatus (m : mode) := {
  cst_Ready : bool;
  cst_Conditions : Slice m (Kube m CapiCondition);
  cst_V1Beta2 : Ptr m (LXCClusterV1Beta2Status m)
}.

Record LXCCluster (m : mode) := {
  lc_TypeMeta : TypeMeta;
  lc_ObjectMeta : Kube m MetaObject;
  lc_Spec : LXCClusterSpec m;
  lc_Status : LXCClusterStatus m
}.

Record LXCClusterList (m : mode) := {
  lcl_TypeMeta : TypeMeta;
  lcl_ListMeta : Kube m MetaList;
  lcl_Items : Slice m (LXCCluster m)
}.

Record LXCClusterTemplateResource (m : mode) := {
  ctr_ObjectMeta : Kube m TemplateMeta;
  ctr_Spec : LXCClusterSpec m
}.

Record LXCClusterTemplateSpec (m : mode) := { cts_Template : LXCClusterTemplateResource m }.

Record LXCClusterTemplate (m : mode) := {
  ct_TypeMeta : TypeMeta;
  ct_ObjectMeta : Kube m MetaObject;
  ct_Spec : LXCClusterTemplateSpec m
}.

Record LXCClusterTemplateList (m : mode) := {
  ctl_TypeMeta : TypeMeta;
  ctl_ListMeta : Kube m MetaList;
  ctl_Items : Slice m (LXCClusterTemplate m)
}.

(** *** Codes and zero values *)

#[global] Arguments Build_LXCMachineSpec m & _ _ _ _ _ _ _ _.
#[global] Arguments Build_LXCMachineV1Beta2Status m & _.
#[global] Arguments Build_LXCMachineStatus m & _ _ _ _ _.
#[global] Arguments Build_LXCMachine m & _ _ _ _.
#[global] Arguments Build_LXCMachineList m & _ _ _.
#[global] Arguments Build_LXCMachineTemplateResource m & _ _.
#[global] Arguments Build_LXCMachineTemplateSpec m & _.
#[global] Arguments Build_LXCMachineTemplate m & _ _ _.
#[global] Arguments Build_LXCMachineTemplateList m & _ _ _.
#[global] Arguments Build_LXCLoadBalancerMachineSpec m & _ _ _ _.
#[global] Arguments Build_LXCLoadBalancerInstance m & _ _.
#[global] Arguments Build_LXCClusterLoadBalancer m & _ _ _ _ _.
#[global] Arguments Build_LXCClusterSpec m & _ _ _ _ _.
#[global] Arguments Build_LXCClusterV1Beta2Status m & _.
#[global] Arguments Build_LXCClusterStatus m & _ _ _.
#[global] Arguments Build_LXCCluster m & _ _ _ _.
#[global] Arguments Build_LXCClusterList m & _ _ _.
#[global] Arguments Build_LXCClusterTemplateResource m & _ _.
#[global] Arguments Build_LXCClusterTemplateSpec m & _.
#[global] Arguments Build_LXCClusterTemplate m & _ _ _.
#[global] Arguments Build_LXCClusterTemplateList m & _ _ _.

Inductive gocode :=
| TString | TStringMap | TDevices | TMachineAddress
| TKube (f : foreign) | TKubeBlock
| TImageSource | TLBOVN | TLBKubeVIP | TLBExternal | TSecretRef | TMachineSpec
| TMachineV1Beta2Status | TMachineStatus | TMachine | TMachineList | TMachineTemplateResource
| TMachineTemplateSpec | TMachineTemplate | TMachineTemplateList | TLBMachineSpec | TLBInstance
| TClusterLoadBalancer | TClusterSpec | TClusterV1Beta2Status | TClusterStatus | TCluster
| TClusterList | TClusterTemplateResource | TClusterTemplateSpec | TClusterTemplate
| TClusterTemplateList.

#[export] Instance gocode_eq_dec : EqDecision gocode.
Proof. solve_decision. Defined.

Definition go_values (t : gocode) : Type :=
  match t with
  | TString => string
  | TStringMap => gmap string string
  | TDevices => option slice
  | TMachineAddress => MachineAddress
  | TKube f => kube f
  | TKubeBlock => kube_block
  | TImageSource => LXCMachineImageSource
  | TLBOVN => LXCLoadBalancerOVN
  | TLBKubeVIP => LXCLoadBalancerKubeVIP
  | TLBExternal => LXCLoadBalancerExternal
  | TSecretRef => SecretRef
  | TMachineSpec => LXCMachineSpec Stored
  | TMachineV1Beta2Status => LXCMachineV1Beta2Status Stored
  | TMachineStatus => LXCMachineStatus Stored
  | TMachine => LXCMachine Stored
  | TMachineList => LXCMachineList Stored
  | TMachineTemplateResource => LXCMachineTemplateResource Stored
  | TMachineTemplateSpec => LXCMachineTemplateSpec Stored
  | TMachineTemplate => LXCMachineTemplate Stored
  | TMachineTemplateList => LXCMachineTemplateList Stored
  | TLBMachineSpec => LXCLoadBalancerMachineSpec Stored
  | TLBInstance => LXCLoadBalancerInstance Stored
  | TClusterLoadBalancer => LXCClusterLoadBalancer Stored
  | TClusterSpec => LXCClusterSpec Stored
  | TClusterV1Beta2Status => LXCClusterV1Beta2Status Stored
  | TClusterStatus => LXCClusterStatus Stored
  | TCluster => LXCCluster Stored
  | TClusterList => LXCClusterList Stored
  | TClusterTemplateResource => LXCClusterTemplateResource Stored
  | TClusterTemplateSpec => LXCClusterTemplateSpec Stored
  | TClusterTemplate => LXCClusterTemplate Stored
  | TClusterTemplateList => LXCClusterTemplateList Stored
  end.

Definition zeroTypeMeta : TypeMeta := {| tm_Kind := ""; tm_APIVersion := "" |}.
Definition zeroLXCMachineSpec : LXCMachineSpec Stored :=
  {| ms_ProviderID := None; ms_InstanceType := ""; ms_Flavor := ""; ms_Profiles := None;
     ms_Devices := None; ms_Config := None; ms_Image := zeroImageSource; ms_Target := "" |}.
Definition zeroLXCMachineV1Beta2Status : LXCMachineV1Beta2Status Stored :=
  {| mv_Conditions := None |}.
Definition zeroLXCMachineStatus : LXCMachineStatus Stored :=
  {| mst_Ready := false; mst_LoadBalancerConfigured := false; mst_Addresses := None;
     mst_Conditions := None; mst_V1Beta2 := None |}.
Definition zeroLXCMachine : LXCMachine Stored :=
  {| lm_TypeMeta := zeroTypeMeta; lm_ObjectMeta := kube_zero MetaObject; lm_Spec := zeroLXCMachineSpec;
     lm_Status := zeroLXCMachineStatus |}.
Definition zeroLXCMachineList : LXCMachineList Stored :=
  {| lml_TypeMeta := zeroTypeMeta; lml_ListMeta := kube_zero MetaList; lml_Items := None |}.
Definition zeroLXCMachineTemplateResource : LXCMachineTemplateResource Stored :=
  {| mtr_ObjectMeta := kube_zero TemplateMeta; mtr_Spec := zeroLXCMachineSpec |}.
Definition zeroLXCMachineTemplateSpec : LXCMachineTemplateSpec Stored :=
  {| mts_Template := zeroLXCMachineTemplateResource |}.
Definition zeroLXCMachineTemplate : LXCMachineTemplate Stored :=
  {| mt_TypeMeta := zeroTypeMeta; mt_ObjectMeta := kube_zero MetaObject;
     mt_Spec := zeroLXCMachineTemplateSpec |}.
Definition zeroLXCMachineTemplateList : LXCMachineTemplateList Stored :=
  {| mtl_TypeMeta := zeroTypeMeta; mtl_ListMeta := kube_zero MetaList; mtl_Items := None |}.
Definition zeroLXCLoadBalancerMachineSpec : LXCLoadBalancerMachineSpec Stored :=
  {| lbs_Flavor := ""; lbs_Profiles := None; lbs_Image := zeroImageSource; lbs_Target := "" |}.
Definition zeroLXCLoadBalancerInstance : LXCLoadBalancerInstance Stored :=
  {| lbi_InstanceSpec := zeroLXCLoadBalancerMachineSpec; lbi_CustomHAProxyConfigTemplate := "" |}.
Definition zeroLXCClusterLoadBalancer : LXCClusterLoadBalancer Stored :=
  {| lb_LXC := None; lb_OCI := None; lb_OVN := None; lb_KubeVIP := None; lb_External := None |}.
Definition zeroLXCClusterSpec : LXCClusterSpec Stored :=
  {| cs_ControlPlaneEndpoint := {| ep_Host := ""; ep_Port := 0 |}; cs_SecretRef := {| sr_Name := "" |};
     cs_LoadBalancer := zeroLXCClusterLoadBalancer; cs_Unprivileged := false;
     cs_SkipDefaultKubeadmProfile := false |}.
Definition zeroLXCClusterV1Beta2Status : LXCClusterV1Beta2Status Stored :=
  {| cv_Conditions := None |}.
Definition zeroLXCClusterStatus : LXCClusterStatus Stored :=
  {| cst_Ready := false; cst_Conditions := None; cst_V1Beta2 := None |}.
Definition zeroLXCCluster : LXCCluster Stored :=
  {| lc_TypeMeta := zeroTypeMeta; lc_ObjectMeta := kube_zero MetaObject; lc_Spec := zeroLXCClusterSpec;
     lc_Status := zeroLXCClusterStatus |}.
Definition zeroLXCClusterList : LXCClusterList Stored :=
  {| lcl_TypeMeta := zeroTypeMeta; lcl_ListMeta := kube_zero MetaList; lcl_Items := None |}.
Definition zeroLXCClusterTemplateResource : LXCClusterTemplateResource Stored :=
  {| ctr_ObjectMeta := kube_zero TemplateMeta; ctr_Spec := zeroLXCClusterSpec |}.
Definition zeroLXCClusterTemplateSpec : LXCClusterTemplateSpec Stored :=
  {| cts_Template := zeroLXCClusterTemplateResource |}.
Definition zeroLXCClusterTemplate : LXCClusterTemplate Stored :=
  {| ct_TypeMeta := zeroTypeMeta; ct_ObjectMeta := kube_zero MetaObject;
     ct_Spec := zeroLXCClusterTemplateSpec |}.
Definition zeroLXCClusterTemplateList : LXCClusterTemplateList Stored :=
  {| ctl_TypeMeta := zeroTypeMeta; ctl_ListMeta := kube_zero MetaList; ctl_Items := None |}.

Definition go_zero (t : gocode) : go_values t :=
  match t with
  | TString => ""
  | TStringMap => ∅
  | TDevices => None
  | TMachineAddress => {| ma_Type := MachineHostName; ma_Address := "" |}
  | TKube f => kube_zero f
  | TKubeBlock => kube_block_zero
  | TImageSource => zeroImageSource
  | TLBOVN => {| ovn_NetworkName := "" |}
  | TLBKubeVIP => {| kv_Image := ""; kv_Interface := ""; kv_KubeconfigPath := ""; kv_ManifestPath := "" |}
  | TLBExternal => ExternalLB
  | TSecretRef => {| sr_Name := "" |}
  | TMachineSpec => zeroLXCMachineSpec
  | TMachineV1Beta2Status => zeroLXCMachineV1Beta2Status
  | TMachineStatus => zeroLXCMachineStatus
  | TMachine => zeroLXCMachine
  | TMachineList => zeroLXCMachineList
  | TMachineTemplateResource => zeroLXCMachineTemplateResource
  | TMachineTemplateSpec => zeroLXCMachineTemplateSpec
  | TMachineTemplate => zeroLXCMachineTemplate
  | TMachineTemplateList => zeroLXCMachineTemplateList
  | TLBMachineSpec => zeroLXCLoadBalancerMachineSpec
  | TLBInstance => zeroLXCLoadBalancerInstance
  | TClusterLoadBalancer => zeroLXCClusterLoadBalancer
  | TClusterSpec => zeroLXCClusterSpec
  | TClusterV1Beta2Status => zeroLXCClusterV1Beta2Status
  | TClusterStatus => zeroLXCClusterStatus
  | TCluster => zeroLXCCluster
  | TClusterList => zeroLXCClusterList
  | TClusterTemplateResource => zeroLXCClusterTemplateResource
  | TClusterTemplateSpec => zeroLXCClusterTemplateSpec
  | TClusterTemplate => zeroLXCClusterTemplate
  | TClusterTemplateList => zeroLXCClusterTemplateList
  end.

#[export] Instance ApiTypes : GoTypes :=
  {| gotype := gocode; values := go_values; zero := go_zero |}.

End types.

Local Unset Implicit Arguments.

(** What is assumed of the generated methods of these packages: they are deep
    copies, "copying the receiver, writing into out". *)
Class KubeCopies `{K : KubeTypes} := {
  kube_view : ∀ f, kube f → R (kube_value f);
  kube_local :: ∀ f x, Local (kube_view f x);
  kube_DeepCopyInto : ∀ f, kube f → M heap (kube f);
  kube_copies : ∀ f, copies (kube_DeepCopyInto f) (kube_view f)
}.

#[export] Hint Extern 0 (copies (kube_DeepCopyInto _) _) => apply kube_copies : copies.

Section deepcopy.
Context `{MapRange} `{KC : KubeCopies}.

(** ** What is seen of an object *)

Definition view_LXCMachineSpec (x : LXCMachineSpec Stored) : R (LXCMachineSpec Value) :=
  let? providerID := view_ptr TString rret (ms_ProviderID x) in
  let? profiles := view_slice TString rret (ms_Profiles x) in
  let? devices := view_slice TString rret (ms_Devices x) in
  let? config := view_ptr TStringMap rret (ms_Config x) in
  rret ({| ms_ProviderID := providerID; ms_InstanceType := ms_InstanceType x; ms_Flavor := ms_Flavor x;
     ms_Profiles := profiles; ms_Devices := devices; ms_Config := config; ms_Image := ms_Image x;
     ms_Target := ms_Target x |} : LXCMachineSpec Value).

Definition view_LXCMachineV1Beta2Status (x : LXCMachineV1Beta2Status Stored) : R (LXCMachineV1Beta2Status Value) :=
  let? conditions := view_slice (TKube MetaCondition) (kube_view MetaCondition) (mv_Conditions x) in
  rret ({| mv_Conditions := conditions |} : LXCMachineV1Beta2Status Value).

Definition view_LXCMachineStatus (x : LXCMachineStatus Stored) : R (LXCMachineStatus Value) :=
  let? addresses := view_slice TMachineAddress rret (mst_Addresses x) in
  let? conditions := view_slice (TKube CapiCondition) (kube_view CapiCondition) (mst_Conditions x) in
  let? v1Beta2 := view_ptr TMachineV1Beta2Status view_LXCMachineV1Beta2Status (mst_V1Beta2 x) in
  rret ({| mst_Ready := mst_Ready x; mst_LoadBalancerConfigured := mst_LoadBalancerConfigured x;
     mst_Addresses := addresses; mst_Conditions := conditions; mst_V1Beta2 := v1Beta2 |} : LXCMachineStatus Value).

Definition view_LXCMachine (x : LXCMachine Stored) : R (LXCMachine Value) :=
  let? objectMeta := kube_view MetaObject (lm_ObjectMeta x) in
  let? spec := view_LXCMachineSpec (lm_Spec x) in
  let? status := view_LXCMachineStatus (lm_Status x) in
  rret ({| lm_TypeMeta := lm_TypeMeta x; lm_ObjectMeta := objectMeta; lm_Spec := spec; lm_Status := status |} : LXCMachine Value).

Definition view_LXCMachineList (x : LXCMachineList Stored) : R (LXCMachineList Value) :=
  let? listMeta := kube_view MetaList (lml_ListMeta x) in
  let? items := view_slice TMachine view_LXCMachine (lml_Items x) in
  rret ({| lml_TypeMeta := lml_TypeMeta x; lml_ListMeta := listMeta; lml_Items := items |} : LXCMachineList Value).

Definition view_LXCMachineTemplateResource (x : LXCMachineTemplateResource Stored) : R (LXCMachineTemplateResource Value) :=
  let? objectMeta := kube_view TemplateMeta (mtr_ObjectMeta x) in
  let? spec := view_LXCMachineSpec (mtr_Spec x) in
  rret ({| mtr_ObjectMeta := objectMeta; mtr_Spec := spec |} : LXCMachineTemplateResource Value).

Definition view_LXCMachineTemplateSpec (x : LXCMachineTemplateSpec Stored) : R (LXCMachineTemplateSpec Value) :=
  let? template := view_LXCMachineTemplateResource (mts_Template x) in
  rret ({| mts_Template := template |} : LXCMachineTemplateSpec Value).

Definition view_LXCMachineTemplate (x : LXCMachineTemplate Stored) : R (LXCMachineTemplate Value) :=
  let? objectMeta := kube_view MetaObject (mt_ObjectMeta x) in
  let? spec := view_LXCMachineTemplateSpec (mt_Spec x) in
  rret ({| mt_TypeMeta := mt_TypeMeta x; mt_ObjectMeta := objectMeta; mt_Spec := spec |} : LXCMachineTemplate Value).

Definition view_LXCMachineTemplateList (x : LXCMachineTemplateList Stored) : R (LXCMachineTemplateList Value) :=
  let? listMeta := kube_view MetaList (mtl_ListMeta x) in
  let? items := view_slice TMachineTemplate view_LXCMachineTemplate (mtl_Items x) in
  rret ({| mtl_TypeMeta := mtl_TypeMeta x; mtl_ListMeta := listMeta; mtl_Items := items |} : LXCMachineTemplateList Value).

Definition view_LXCLoadBalancerMachineSpec (x : LXCLoadBalancerMachineSpec Stored) : R (LXCLoadBalancerMachineSpec Value) :=
  let? profiles := view_slice TString rret (lbs_Profiles x) in
  rret ({| lbs_Flavor := lbs_Flavor x; lbs_Profiles := profiles; lbs_Image := lbs_Image x;
     lbs_Target := lbs_Target x |} : LXCLoadBalancerMachineSpec Value).

Definition view_LXCLoadBalancerInstance (x : LXCLoadBalancerInstance Stored) : R (LXCLoadBalancerInstance Value) :=
  let? instanceSpec := view_LXCLoadBalancerMachineSpec (lbi_InstanceSpec x) in
  rret ({| lbi_InstanceSpec := instanceSpec;
     lbi_CustomHAProxyConfigTemplate := lbi_CustomHAProxyConfigTemplate x |} : LXCLoadBalancerInstance Value).

Definition view_LXCClusterLoadBalancer (x : LXCClusterLoadBalancer Stored) : R (LXCClusterLoadBalancer Value) :=
  let? lxc := view_ptr TLBInstance view_LXCLoadBalancerInstance (lb_LXC x) in
  let? oci := view_ptr TLBInstance view_LXCLoadBalancerInstance (lb_OCI x) in
  let? ovn := view_ptr TLBOVN rret (lb_OVN x) in
  let? kubeVIP := view_ptr TLBKubeVIP rret (lb_KubeVIP x) in
  let? external := view_ptr TLBExternal rret (lb_External x) in
  rret ({| lb_LXC := lxc; lb_OCI := oci; lb_OVN := ovn; lb_KubeVIP := kubeVIP; lb_External := external |} : LXCClusterLoadBalancer Value).

Definition view_LXCClusterSpec (x : LXCClusterSpec Stored) : R (LXCClusterSpec Value) :=
  let? loadBalancer := view_LXCClusterLoadBalancer (cs_LoadBalancer x) in
  rret ({| cs_ControlPlaneEndpoint := cs_ControlPlaneEndpoint x; cs_SecretRef := cs_SecretRef x;
     cs_LoadBalancer := loadBalancer; cs_Unprivileged := cs_Unprivileged x;
     cs_SkipDefaultKubeadmProfile := cs_SkipDefaultKubeadmProfile x |} : LXCClusterSpec Value).

Definition view_LXCClusterV1Beta2Status (x : LXCClusterV1Beta2Status Stored) : R (LXCClusterV1Beta2Status Value) :=
  let? conditions := view_slice (TKube MetaCondition) (kube_view MetaCondition) (cv_Conditions x) in
  rret ({| cv_Conditions := conditions |} : LXCClusterV1Beta2Status Value).

Definition view_LXCClusterStatus (x : LXCClusterStatus Stored) : R (LXCClusterStatus Value) :=
  let? conditions := view_slice (TKube CapiCondition) (kube_view CapiCondition) (cst_Conditions x) in
  let? v1Beta2 := view_ptr TClusterV1Beta2Status view_LXCClusterV1Beta2Status (cst_V1Beta2 x) in
  rret ({| cst_Ready := cst_Ready x; cst_Conditions := conditions; cst_V1Beta2 := v1Beta2 |} : LXCClusterStatus Value).

Definition view_LXCCluster (x : LXCCluster Stored) : R (LXCCluster Value) :=
  let? objectMeta := kube_view MetaObject (lc_ObjectMeta x) in
  let? spec := view_LXCClusterSpec (lc_Spec x) in
  let? status := view_LXCClusterStatus (lc_Status x) in
  rret ({| lc_TypeMeta := lc_TypeMeta x; lc_ObjectMeta := objectMeta; lc_Spec := spec; lc_Status := status |} : LXCCluster Value).

Definition view_LXCClusterList (x : LXCClusterList Stored) : R (LXCClusterList Value) :=
  let? listMeta := kube_view MetaList (lcl_ListMeta x) in
  let? items := view_slice TCluster view_LXCCluster (lcl_Items x) in
  rret ({| lcl_TypeMeta := lcl_TypeMeta x; lcl_ListMeta := listMeta; lcl_Items := items |} : LXCClusterList Value).

Definition view_LXCClusterTemplateResource (x : LXCClusterTemplateResource Stored) : R (LXCClusterTemplateResource Value) :=
  let? objectMeta := kube_view TemplateMeta (ctr_ObjectMeta x) in
  let? spec := view_LXCClusterSpec (ctr_Spec x) in
  rret ({| ctr_ObjectMeta := objectMeta; ctr_Spec := spec |} : LXCClusterTemplateResource Value).

Definition view_LXCClusterTemplateSpec (x : LXCClusterTemplateSpec Stored) : R (LXCClusterTemplateSpec Value) :=
  let? template := view_LXCClusterTemplateResource (cts_Template x) in
  rret ({| cts_Template := template |} : LXCClusterTemplateSpec Value).

Definition view_LXCClusterTemplate (x : LXCClusterTemplate Stored) : R (LXCClusterTemplate Value) :=
  let? objectMeta := kube_view MetaObject (ct_ObjectMeta x) in
  let? spec := view_LXCClusterTemplateSpec (ct_Spec x) in
  rret ({| ct_TypeMeta := ct_TypeMeta x; ct_ObjectMeta := objectMeta; ct_Spec := spec |} : LXCClusterTemplate Value).

Definition view_LXCClusterTemplateList (x : LXCClusterTemplateList Stored) : R (LXCClusterTemplateList Value) :=
  let? listMeta := kube_view MetaList (ctl_ListMeta x) in
  let? items := view_slice TClusterTemplate view_LXCClusterTemplate (ctl_Items x) in
  rret ({| ctl_TypeMeta := ctl_TypeMeta x; ctl_ListMeta := listMeta; ctl_Items := items |} : LXCClusterTemplateList Value).

(** ** DeepCopyInto

    [out] is written in full by [*out = *in], then field by field: the method is
    a function from the fields of [in] to those of [out]. *)

(** [( *out)[key] = val] *)
Definition map_assign (out : loc) (key val : string) : M heap unit :=
  let! m := load TStringMap out in
  store TStringMap out (<[key := val]> m).

(** [*out = make(map[string]string, len( *in)); for key, val := range *in { ( *out)[key] = val }] *)
Definition copy_map (p : option loc) : M heap (option loc) :=
  match p with
  | None => ret None
  | Some l =>
      let! out := new TStringMap in
      let! m := load TStringMap l in
      for_each (range m) (λ kv, map_assign out kv.1 kv.2) ;;
      ret (Some out)
  end.

(** The receiver may be nil, and [out] never is: a nil list becomes an empty one. *)
Definition Devices_DeepCopyInto (in_ : option slice) : M heap (option slice) :=
  let! out := make TString (match in_ with None => 0 | Some s => sl_len s end) in
  match in_ with None => ret tt | Some s => copy TString out s end ;;
  ret (Some out).

Definition LXCMachineImageSource_DeepCopyInto (in_ : LXCMachineImageSource) : M heap LXCMachineImageSource := ret in_.
Definition LXCLoadBalancerOVN_DeepCopyInto (in_ : LXCLoadBalancerOVN) : M heap LXCLoadBalancerOVN := ret in_.
Definition LXCLoadBalancerKubeVIP_DeepCopyInto (in_ : LXCLoadBalancerKubeVIP) : M heap LXCLoadBalancerKubeVIP := ret in_.
Definition LXCLoadBalancerExternal_DeepCopyInto (in_ : LXCLoadBalancerExternal) : M heap LXCLoadBalancerExternal := ret in_.
Definition SecretRef_DeepCopyInto (in_ : SecretRef) : M heap SecretRef := ret in_.

Definition LXCMachineSpec_DeepCopyInto (in_ : LXCMachineSpec Stored) : M heap (LXCMachineSpec Stored) :=
  let! providerID := copy_pointer TString ret (ms_ProviderID in_) in
  let! profiles := copy_flat_slice TString (ms_Profiles in_) in
  let! devices := copy_flat_slice TString (ms_Devices in_) in
  let! config := copy_map (ms_Config in_) in
  ret ({| ms_ProviderID := providerID; ms_InstanceType := ms_InstanceType in_; ms_Flavor := ms_Flavor in_;
     ms_Profiles := profiles; ms_Devices := devices; ms_Config := config; ms_Image := ms_Image in_;
     ms_Target := ms_Target in_ |} : LXCMachineSpec Stored).

Definition LXCMachineV1Beta2Status_DeepCopyInto (in_ : LXCMachineV1Beta2Status Stored) : M heap (LXCMachineV1Beta2Status Stored) :=
  let! conditions := copy_slice (TKube MetaCondition) (kube_DeepCopyInto MetaCondition) (mv_Conditions in_) in
  ret ({| mv_Conditions := conditions |} : LXCMachineV1Beta2Status Stored).

Definition LXCMachineStatus_DeepCopyInto (in_ : LXCMachineStatus Stored) : M heap (LXCMachineStatus Stored) :=
  let! addresses := copy_flat_slice TMachineAddress (mst_Addresses in_) in
  let! conditions := copy_slice (TKube CapiCondition) (kube_DeepCopyInto CapiCondition) (mst_Conditions in_) in
  let! v1Beta2 := copy_pointer TMachineV1Beta2Status LXCMachineV1Beta2Status_DeepCopyInto (mst_V1Beta2 in_) in
  ret ({| mst_Ready := mst_Ready in_; mst_LoadBalancerConfigured := mst_LoadBalancerConfigured in_;
     mst_Addresses := addresses; mst_Conditions := conditions; mst_V1Beta2 := v1Beta2 |} : LXCMachineStatus Stored).

Definition LXCMachine_DeepCopyInto (in_ : LXCMachine Stored) : M heap (LXCMachine Stored) :=
  let! objectMeta := kube_DeepCopyInto MetaObject (lm_ObjectMeta in_) in
  let! spec := LXCMachineSpec_DeepCopyInto (lm_Spec in_) in
  let! status := LXCMachineStatus_DeepCopyInto (lm_Status in_) in
  ret ({| lm_TypeMeta := lm_TypeMeta in_; lm_ObjectMeta := objectMeta; lm_Spec := spec; lm_Status := status |} : LXCMachine Stored).

Definition LXCMachineList_DeepCopyInto (in_ : LXCMachineList Stored) : M heap (LXCMachineList Stored) :=
  let! listMeta := kube_DeepCopyInto MetaList (lml_ListMeta in_) in
  let! items := copy_slice TMachine LXCMachine_DeepCopyInto (lml_Items in_) in
  ret ({| lml_TypeMeta := lml_TypeMeta in_; lml_ListMeta := listMeta; lml_Items := items |} : LXCMachineList Stored).

Definition LXCMachineTemplateResource_DeepCopyInto (in_ : LXCMachineTemplateResource Stored) : M heap (LXCMachineTemplateResource Stored) :=
  let! objectMeta := kube_DeepCopyInto TemplateMeta (mtr_ObjectMeta in_) in
  let! spec := LXCMachineSpec_DeepCopyInto (mtr_Spec in_) in
  ret ({| mtr_ObjectMeta := objectMeta; mtr_Spec := spec |} : LXCMachineTemplateResource Stored).

Definition LXCMachineTemplateSpec_DeepCopyInto (in_ : LXCMachineTemplateSpec Stored) : M heap (LXCMachineTemplateSpec Stored) :=
  let! template := LXCMachineTemplateResource_DeepCopyInto (mts_Template in_) in
  ret ({| mts_Template := template |} : LXCMachineTemplateSpec Stored).

Definition LXCMachineTemplate_DeepCopyInto (in_ : LXCMachineTemplate Stored) : M heap (LXCMachineTemplate Stored) :=
  let! objectMeta := kube_DeepCopyInto MetaObject (mt_ObjectMeta in_) in
  let! spec := LXCMachineTemplateSpec_DeepCopyInto (mt_Spec in_) in
  ret ({| mt_TypeMeta := mt_TypeMeta in_; mt_ObjectMeta := objectMeta; mt_Spec := spec |} : LXCMachineTemplate Stored).

Definition LXCMachineTemplateList_DeepCopyInto (in_ : LXCMachineTemplateList Stored) : M heap (LXCMachineTemplateList Stored) :=
  let! listMeta := kube_DeepCopyInto MetaList (mtl_ListMeta in_) in
  let! items := copy_slice TMachineTemplate LXCMachineTemplate_DeepCopyInto (mtl_Items in_) in
  ret ({| mtl_TypeMeta := mtl_TypeMeta in_; mtl_ListMeta := listMeta; mtl_Items := items |} : LXCMachineTemplateList Stored).

Definition LXCLoadBalancerMachineSpec_DeepCopyInto (in_ : LXCLoadBalancerMachineSpec Stored) : M heap (LXCLoadBalancerMachineSpec Stored) :=
  let! profiles := copy_flat_slice TString (lbs_Profiles in_) in
  ret ({| lbs_Flavor := lbs_Flavor in_; lbs_Profiles := profiles; lbs_Image := lbs_Image in_;
     lbs_Target := lbs_Target in_ |} : LXCLoadBalancerMachineSpec Stored).

Definition LXCLoadBalancerInstance_DeepCopyInto (in_ : LXCLoadBalancerInstance Stored) : M heap (LXCLoadBalancerInstance Stored) :=
  let! instanceSpec := LXCLoadBalancerMachineSpec_DeepCopyInto (lbi_InstanceSpec in_) in
  ret ({| lbi_InstanceSpec := instanceSpec;
     lbi_CustomHAProxyConfigTemplate := lbi_CustomHAProxyConfigTemplate in_ |} : LXCLoadBalancerInstance Stored).

Definition LXCClusterLoadBalancer_DeepCopyInto (in_ : LXCClusterLoadBalancer Stored) : M heap (LXCClusterLoadBalancer Stored) :=
  let! lxc := copy_pointer TLBInstance LXCLoadBalancerInstance_DeepCopyInto (lb_LXC in_) in
  let! oci := copy_pointer TLBInstance LXCLoadBalancerInstance_DeepCopyInto (lb_OCI in_) in
  let! ovn := copy_pointer TLBOVN ret (lb_OVN in_) in
  let! kubeVIP := copy_pointer TLBKubeVIP ret (lb_KubeVIP in_) in
  let! external := copy_pointer TLBExternal ret (lb_External in_) in
  ret ({| lb_LXC := lxc; lb_OCI := oci; lb_OVN := ovn; lb_KubeVIP := kubeVIP; lb_External := external |} : LXCClusterLoadBalancer Stored).

Definition LXCClusterSpec_DeepCopyInto (in_ : LXCClusterSpec Stored) : M heap (LXCClusterSpec Stored) :=
  let! loadBalancer := LXCClusterLoadBalancer_DeepCopyInto (cs_LoadBalancer in_) in
  ret ({| cs_ControlPlaneEndpoint := cs_ControlPlaneEndpoint in_; cs_SecretRef := cs_SecretRef in_;
     cs_LoadBalancer := loadBalancer; cs_Unprivileged := cs_Unprivileged in_;
     cs_SkipDefaultKubeadmProfile := cs_SkipDefaultKubeadmProfile in_ |} : LXCClusterSpec Stored).

Definition LXCClusterV1Beta2Status_DeepCopyInto (in_ : LXCClusterV1Beta2Status Stored) : M heap (LXCClusterV1Beta2Status Stored) :=
  let! conditions := copy_slice (TKube MetaCondition) (kube_DeepCopyInto MetaCondition) (cv_Conditions in_) in
  ret ({| cv_Conditions := conditions |} : LXCClusterV1Beta2Status Stored).

Definition LXCClusterStatus_DeepCopyInto (in_ : LXCClusterStatus Stored) : M heap (LXCClusterStatus Stored) :=
  let! conditions := copy_slice (TKube CapiCondition) (kube_DeepCopyInto CapiCondition) (cst_Conditions in_) in
  let! v1Beta2 := copy_pointer TClusterV1Beta2Status LXCClusterV1Beta2Status_DeepCopyInto (cst_V1Beta2 in_) in
  ret ({| cst_Ready := cst_Ready in_; cst_Conditions := conditions; cst_V1Beta2 := v1Beta2 |} : LXCClusterStatus Stored).

Definition LXCCluster_DeepCopyInto (in_ : LXCCluster Stored) : M heap (LXCCluster Stored) :=
  let! objectMeta := kube_DeepCopyInto MetaObject (lc_ObjectMeta in_) in
  let! spec := LXCClusterSpec_DeepCopyInto (lc_Spec in_) in
  let! status := LXCClusterStatus_DeepCopyInto (lc_Status in_) in
  ret ({| lc_TypeMeta := lc_TypeMeta in_; lc_ObjectMeta := objectMeta; lc_Spec := spec; lc_Status := status |} : LXCCluster Stored).

Definition LXCClusterList_DeepCopyInto (in_ : LXCClusterList Stored) : M heap (LXCClusterList Stored) :=
  let! listMeta := kube_DeepCopyInto MetaList (lcl_ListMeta in_) in
  let! items := copy_slice TCluster LXCCluster_DeepCopyInto (lcl_Items in_) in
  ret ({| lcl_TypeMeta := lcl_TypeMeta in_; lcl_ListMeta := listMeta; lcl_Items := items |} : LXCClusterList Stored).

Definition LXCClusterTemplateResource_DeepCopyInto (in_ : LXCClusterTemplateResource Stored) : M heap (LXCClusterTemplateResource Stored) :=
  let! objectMeta := kube_DeepCopyInto TemplateMeta (ctr_ObjectMeta in_) in
  let! spec := LXCClusterSpec_DeepCopyInto (ctr_Spec in_) in
  ret ({| ctr_ObjectMeta := objectMeta; ctr_Spec := spec |} : LXCClusterTemplateResource Stored).

Definition LXCClusterTemplateSpec_DeepCopyInto (in_ : LXCClusterTemplateSpec Stored) : M heap (LXCClusterTemplateSpec Stored) :=
  let! template := LXCClusterTemplateResource_DeepCopyInto (cts_Template in_) in
  ret ({| cts_Template := template |} : LXCClusterTemplateSpec Stored).

Definition LXCClusterTemplate_DeepCopyInto (in_ : LXCClusterTemplate Stored) : M heap (LXCClusterTemplate Stored) :=
  let! objectMeta := kube_DeepCopyInto MetaObject (ct_ObjectMeta in_) in
  let! spec := LXCClusterTemplateSpec_DeepCopyInto (ct_Spec in_) in
  ret ({| ct_TypeMeta := ct_TypeMeta in_; ct_ObjectMeta := objectMeta; ct_Spec := spec |} : LXCClusterTemplate Stored).

Definition LXCClusterTemplateList_DeepCopyInto (in_ : LXCClusterTemplateList Stored) : M heap (LXCClusterTemplateList Stored) :=
  let! listMeta := kube_DeepCopyInto MetaList (ctl_ListMeta in_) in
  let! items := copy_slice TClusterTemplate LXCClusterTemplate_DeepCopyInto (ctl_Items in_) in
  ret ({| ctl_TypeMeta := ctl_TypeMeta in_; ctl_ListMeta := listMeta; ctl_Items := items |} : LXCClusterTemplateList Stored).

(** ** DeepCopy *)

(** [Devices] is a slice, and not behind a pointer. *)
Definition Devices_DeepCopy (in_ : option slice) : M heap (option slice) :=
  match in_ with
  | None => ret None
  | Some _ =>
      let! out := new TDevices in
      let! v := Devices_DeepCopyInto in_ in
      store TDevices out v ;;
      load TDevices out
  end.

Definition LXCMachineImageSource_DeepCopy : option loc → M heap (option loc) := copy_pointer TImageSource LXCMachineImageSource_DeepCopyInto.
Definition LXCLoadBalancerOVN_DeepCopy : option loc → M heap (option loc) := copy_pointer TLBOVN LXCLoadBalancerOVN_DeepCopyInto.
Definition LXCLoadBalancerKubeVIP_DeepCopy : option loc → M heap (option loc) := copy_pointer TLBKubeVIP LXCLoadBalancerKubeVIP_DeepCopyInto.
Definition LXCLoadBalancerExternal_DeepCopy : option loc → M heap (option loc) := copy_pointer TLBExternal LXCLoadBalancerExternal_DeepCopyInto.
Definition SecretRef_DeepCopy : option loc → M heap (option loc) := copy_pointer TSecretRef SecretRef_DeepCopyInto.
Definition LXCMachineSpec_DeepCopy : option loc → M heap (option loc) := copy_pointer TMachineSpec LXCMachineSpec_DeepCopyInto.
Definition LXCMachineV1Beta2Status_DeepCopy : option loc → M heap (option loc) := copy_pointer TMachineV1Beta2Status LXCMachineV1Beta2Status_DeepCopyInto.
Definition LXCMachineStatus_DeepCopy : option loc → M heap (option loc) := copy_pointer TMachineStatus LXCMachineStatus_DeepCopyInto.
Definition LXCMachine_DeepCopy : option loc → M heap (option loc) := copy_pointer TMachine LXCMachine_DeepCopyInto.
Definition LXCMachineList_DeepCopy : option loc → M heap (option loc) := copy_pointer TMachineList LXCMachineList_DeepCopyInto.
Definition LXCMachineTemplateResource_DeepCopy : option loc → M heap (option loc) := copy_pointer TMachineTemplateResource LXCMachineTemplateResource_DeepCopyInto.
Definition LXCMachineTemplateSpec_DeepCopy : option loc → M heap (option loc) := copy_pointer TMachineTemplateSpec LXCMachineTemplateSpec_DeepCopyInto.
Definition LXCMachineTemplate_DeepCopy : option loc → M heap (option loc) := copy_pointer TMachineTemplate LXCMachineTemplate_DeepCopyInto.
Definition LXCMachineTemplateList_DeepCopy : option loc → M heap (option loc) := copy_pointer TMachineTemplateList LXCMachineTemplateList_DeepCopyInto.
Definition LXCLoadBalancerMachineSpec_DeepCopy : option loc → M heap (option loc) := copy_pointer TLBMachineSpec LXCLoadBalancerMachineSpec_DeepCopyInto.
Definition LXCLoadBalancerInstance_DeepCopy : option loc → M heap (option loc) := copy_pointer TLBInstance LXCLoadBalancerInstance_DeepCopyInto.
Definition LXCClusterLoadBalancer_DeepCopy : option loc → M heap (option loc) := copy_pointer TClusterLoadBalancer LXCClusterLoadBalancer_DeepCopyInto.
Definition LXCClusterSpec_DeepCopy : option loc → M heap (option loc) := copy_pointer TClusterSpec LXCClusterSpec_DeepCopyInto.
Definition LXCClusterV1Beta2Status_DeepCopy : option loc → M heap (option loc) := copy_pointer TClusterV1Beta2Status LXCClusterV1Beta2Status_DeepCopyInto.
Definition LXCClusterStatus_DeepCopy : option loc → M heap (option loc) := copy_pointer TClusterStatus LXCClusterStatus_DeepCopyInto.
Definition LXCCluster_DeepCopy : option loc → M heap (option loc) := copy_pointer TCluster LXCCluster_DeepCopyInto.
Definition LXCClusterList_DeepCopy : option loc → M heap (option loc) := copy_pointer TClusterList LXCClusterList_DeepCopyInto.
Definition LXCClusterTemplateResource_DeepCopy : option loc → M heap (option loc) := copy_pointer TClusterTemplateResource LXCClusterTemplateResource_DeepCopyInto.
Definition LXCClusterTemplateSpec_DeepCopy : option loc → M heap (option loc) := copy_pointer TClusterTemplateSpec LXCClusterTemplateSpec_DeepCopyInto.
Definition LXCClusterTemplate_DeepCopy : option loc → M heap (option loc) := copy_pointer TClusterTemplate LXCClusterTemplate_DeepCopyInto.
Definition LXCClusterTemplateList_DeepCopy : option loc → M heap (option loc) := copy_pointer TClusterTemplateList LXCClusterTemplateList_DeepCopyInto.

(** ** DeepCopyObject

    The interface [runtime.Object], as far as the package implements it: a
    pointer with its type. The nil interface is [None], and is not a nil pointer
    with a type. *)
Inductive Object :=
| OLXCMachine (p : option loc)
| OLXCMachineList (p : option loc)
| OLXCMachineTemplate (p : option loc)
| OLXCMachineTemplateList (p : option loc)
| OLXCCluster (p : option loc)
| OLXCClusterList (p : option loc)
| OLXCClusterTemplate (p : option loc)
| OLXCClusterTemplateList (p : option loc).

Definition LXCMachine_DeepCopyObject (in_ : option loc) : M heap (option Object) :=
  let! c := LXCMachine_DeepCopy in_ in
  match c with Some _ => ret (Some (OLXCMachine c)) | None => ret None end.

Definition LXCMachineList_DeepCopyObject (in_ : option loc) : M heap (option Object) :=
  let! c := LXCMachineList_DeepCopy in_ in
  match c with Some _ => ret (Some (OLXCMachineList c)) | None => ret None end.

Definition LXCMachineTemplate_DeepCopyObject (in_ : option loc) : M heap (option Object) :=
  let! c := LXCMachineTemplate_DeepCopy in_ in
  match c with Some _ => ret (Some (OLXCMachineTemplate c)) | None => ret None end.

Definition LXCMachineTemplateList_DeepCopyObject (in_ : option loc) : M heap (option Object) :=
  let! c := LXCMachineTemplateList_DeepCopy in_ in
  match c with Some _ => ret (Some (OLXCMachineTemplateList c)) | None => ret None end.

Definition LXCCluster_DeepCopyObject (in_ : option loc) : M heap (option Object) :=
  let! c := LXCCluster_DeepCopy in_ in
  match c with Some _ => ret (Some (OLXCCluster c)) | None => ret None end.

Definition LXCClusterList_DeepCopyObject (in_ : option loc) : M heap (option Object) :=
  let! c := LXCClusterList_DeepCopy in_ in
  match c with Some _ => ret (Some (OLXCClusterList c)) | None => ret None end.

Definition LXCClusterTemplate_DeepCopyObject (in_ : option loc) : M heap (option Object) :=
  let! c := LXCClusterTemplate_DeepCopy in_ in
  match c with Some _ => ret (Some (OLXCClusterTemplate c)) | None => ret None end.

Definition LXCClusterTemplateList_DeepCopyObject (in_ : option loc) : M heap (option Object) :=
  let! c := LXCClusterTemplateList_DeepCopy in_ in
  match c with Some _ => ret (Some (OLXCClusterTemplateList c)) | None => ret None end.

(** The call of the method through the interface. *)
Definition DeepCopyObject (in_ : Object) : M heap (option Object) :=
  match in_ with
  | OLXCMachine p => LXCMachine_DeepCopyObject p
  | OLXCMachineList p => LXCMachineList_DeepCopyObject p
  | OLXCMachineTemplate p => LXCMachineTemplate_DeepCopyObject p
  | OLXCMachineTemplateList p => LXCMachineTemplateList_DeepCopyObject p
  | OLXCCluster p => LXCCluster_DeepCopyObject p
  | OLXCClusterList p => LXCClusterList_DeepCopyObject p
  | OLXCClusterTemplate p => LXCClusterTemplate_DeepCopyObject p
  | OLXCClusterTemplateList p => LXCClusterTemplateList_DeepCopyObject p
  end.

(** What is seen of an object. *)
Inductive ObjectValue :=
| VLXCMachine (v : option (LXCMachine Value))
| VLXCMachineList (v : option (LXCMachineList Value))
| VLXCMachineTemplate (v : option (LXCMachineTemplate Value))
| VLXCMachineTemplateList (v : option (LXCMachineTemplateList Value))
| VLXCCluster (v : option (LXCCluster Value))
| VLXCClusterList (v : option (LXCClusterList Value))
| VLXCClusterTemplate (v : option (LXCClusterTemplate Value))
| VLXCClusterTemplateList (v : option (LXCClusterTemplateList Value)).

Definition view_Object (o : Object) : R ObjectValue :=
  match o with
  | OLXCMachine p => let? v := view_ptr TMachine view_LXCMachine p in rret (VLXCMachine v)
  | OLXCMachineList p => let? v := view_ptr TMachineList view_LXCMachineList p in rret (VLXCMachineList v)
  | OLXCMachineTemplate p => let? v := view_ptr TMachineTemplate view_LXCMachineTemplate p in rret (VLXCMachineTemplate v)
  | OLXCMachineTemplateList p => let? v := view_ptr TMachineTemplateList view_LXCMachineTemplateList p in rret (VLXCMachineTemplateList v)
  | OLXCCluster p => let? v := view_ptr TCluster view_LXCCluster p in rret (VLXCCluster v)
  | OLXCClusterList p => let? v := view_ptr TClusterList view_LXCClusterList p in rret (VLXCClusterList v)
  | OLXCClusterTemplate p => let? v := view_ptr TClusterTemplate view_LXCClusterTemplate p in rret (VLXCClusterTemplate v)
  | OLXCClusterTemplateList p => let? v := view_ptr TClusterTemplateList view_LXCClusterTemplateList p in rret (VLXCClusterTemplateList v)
  end.

(** The pointer in an object. *)
Definition object_ptr (o : Object) : option loc :=
  match o with
  | OLXCMachine p | OLXCMachineList p | OLXCMachineTemplate p | OLXCMachineTemplateList p
  | OLXCCluster p | OLXCClusterList p | OLXCClusterTemplate p | OLXCClusterTemplateList p => p
  end.

(** ** Properties *)

#[export] Instance Local_view_LXCMachineSpec x : Local (view_LXCMachineSpec x).
Proof. unfold view_LXCMachineSpec. apply _. Qed.
#[export] Instance Local_view_LXCMachineV1Beta2Status x : Local (view_LXCMachineV1Beta2Status x).
Proof. unfold view_LXCMachineV1Beta2Status. apply _. Qed.
#[export] Instance Local_view_LXCMachineStatus x : Local (view_LXCMachineStatus x).
Proof. unfold view_LXCMachineStatus. apply _. Qed.
#[export] Instance Local_view_LXCMachine x : Local (view_LXCMachine x).
Proof. unfold view_LXCMachine. apply _. Qed.
#[export] Instance Local_view_LXCMachineList x : Local (view_LXCMachineList x).
Proof. unfold view_LXCMachineList. apply _. Qed.
#[export] Instance Local_view_LXCMachineTemplateResource x : Local (view_LXCMachineTemplateResource x).
Proof. unfold view_LXCMachineTemplateResource. apply _. Qed.
#[export] Instance Local_view_LXCMachineTemplateSpec x : Local (view_LXCMachineTemplateSpec x).
Proof. unfold view_LXCMachineTemplateSpec. apply _. Qed.
#[export] Instance Local_view_LXCMachineTemplate x : Local (view_LXCMachineTemplate x).
Proof. unfold view_LXCMachineTemplate. apply _. Qed.
#[export] Instance Local_view_LXCMachineTemplateList x : Local (view_LXCMachineTemplateList x).
Proof. unfold view_LXCMachineTemplateList. apply _. Qed.
#[export] Instance Local_view_LXCLoadBalancerMachineSpec x : Local (view_LXCLoadBalancerMachineSpec x).
Proof. unfold view_LXCLoadBalancerMachineSpec. apply _. Qed.
#[export] Instance Local_view_LXCLoadBalancerInstance x : Local (view_LXCLoadBalancerInstance x).
Proof. unfold view_LXCLoadBalancerInstance. apply _. Qed.
#[export] Instance Local_view_LXCClusterLoadBalancer x : Local (view_LXCClusterLoadBalancer x).
Proof. unfold view_LXCClusterLoadBalancer. apply _. Qed.
#[export] Instance Local_view_LXCClusterSpec x : Local (view_LXCClusterSpec x).
Proof. unfold view_LXCClusterSpec. apply _. Qed.
#[export] Instance Local_view_LXCClusterV1Beta2Status x : Local (view_LXCClusterV1Beta2Status x).
Proof. unfold view_LXCClusterV1Beta2Status. apply _. Qed.
#[export] Instance Local_view_LXCClusterStatus x : Local (view_LXCClusterStatus x).
Proof. unfold view_LXCClusterStatus. apply _. Qed.
#[export] Instance Local_view_LXCCluster x : Local (view_LXCCluster x).
Proof. unfold view_LXCCluster. apply _. Qed.
#[export] Instance Local_view_LXCClusterList x : Local (view_LXCClusterList x).
Proof. unfold view_LXCClusterList. apply _. Qed.
#[export] Instance Local_view_LXCClusterTemplateResource x : Local (view_LXCClusterTemplateResource x).
Proof. unfold view_LXCClusterTemplateResource. apply _. Qed.
#[export] Instance Local_view_LXCClusterTemplateSpec x : Local (view_LXCClusterTemplateSpec x).
Proof. unfold view_LXCClusterTemplateSpec. apply _. Qed.
#[export] Instance Local_view_LXCClusterTemplate x : Local (view_LXCClusterTemplate x).
Proof. unfold view_LXCClusterTemplate. apply _. Qed.
#[export] Instance Local_view_LXCClusterTemplateList x : Local (view_LXCClusterTemplateList x).
Proof. unfold view_LXCClusterTemplateList. apply _. Qed.

#[export] Instance Local_view_Object o : Local (view_Object o).
Proof. destruct o; apply _. Qed.

Lemma copy_map_copies : copies copy_map (view_ptr TStringMap rret).
Proof.
  intros h [l|] a L Hv; unfold yields; simpl in *.
  2: { apply wp_ret. injection Hv as <- <-. exists None, []. auto using store_grows_refl. }
  apply rbind_Some in Hv as (vs & L1 & L2 & Hl & Hv & ->). unfold rblock in Hl.
  destruct (contents (U := ApiTypes) TStringMap l h) as [vs'|] eqn:Hc; [|done]. injection Hl as -> <-.
  apply rbind_Some in Hv as (m & L3 & L4 & Hh & [= <- <-] & ->). destruct vs as [|v' vs]; [done|]. injection Hh as -> <-.
  apply wp_bind, wp_alloc. intros out Hout. simpl.
  assert (out ≠ l) as Hne by (intros ->; destruct (contents_is_Some _ _ _ _ Hc); congruence).
  apply wp_bind. apply (wp_load_at (U := ApiTypes) TStringMap l 0 (m :: vs) m); [by rewrite contents_put_ne|done|]. simpl.
  apply wp_bind.
  apply (wp_for_each (λ rest h', ∃ done_, range m = done_ ++ rest ∧ h' = put (U := ApiTypes) TStringMap out [insert_all ∅ done_] h)).
  - by exists [].
  - intros [k v] rest h' (done_ & Hr & ->). unfold map_assign. apply wp_bind.
    apply (wp_load_at (U := ApiTypes) TStringMap out 0 [insert_all ∅ done_] (insert_all ∅ done_)); [apply contents_put|done|]. simpl.
    eapply (wp_store_at (U := ApiTypes) TStringMap); [apply contents_put|simpl; lia|]. exists (done_ ++ [(k, v)]). rewrite <- app_assoc.
    split; [done|]. unfold put. rewrite insert_insert_eq, insert_all_app. done.
  - intros h' (done_ & Hr & ->). rewrite app_nil_r in Hr. subst done_. simpl. apply wp_ret.
    rewrite (insert_all_perm ∅ m) by apply range_perm. rewrite (right_id_L ∅ (∪)).
    exists (Some out), [out]. split_and!; [done| |split; [by apply insert_subseteq|apply NoDup_singleton|by constructor]].
    simpl. unfold rbind, rblock. rewrite contents_put. done.
Qed.
#[local] Hint Resolve copy_map_copies : copies.

Lemma LXCMachineSpec_copies : copies LXCMachineSpec_DeepCopyInto view_LXCMachineSpec.
Proof. copy_struct. Qed.
#[local] Hint Extern 0 (copies LXCMachineSpec_DeepCopyInto _) => apply LXCMachineSpec_copies : copies.
Lemma LXCMachineV1Beta2Status_copies : copies LXCMachineV1Beta2Status_DeepCopyInto view_LXCMachineV1Beta2Status.
Proof. copy_struct. Qed.
#[local] Hint Extern 0 (copies LXCMachineV1Beta2Status_DeepCopyInto _) => apply LXCMachineV1Beta2Status_copies : copies.
Lemma LXCMachineStatus_copies : copies LXCMachineStatus_DeepCopyInto view_LXCMachineStatus.
Proof. copy_struct. Qed.
#[local] Hint Extern 0 (copies LXCMachineStatus_DeepCopyInto _) => apply LXCMachineStatus_copies : copies.
Lemma LXCMachine_copies : copies LXCMachine_DeepCopyInto view_LXCMachine.
Proof. copy_struct. Qed.
#[local] Hint Extern 0 (copies LXCMachine_DeepCopyInto _) => apply LXCMachine_copies : copies.
Lemma LXCMachineList_copies : copies LXCMachineList_DeepCopyInto view_LXCMachineList.
Proof. copy_struct. Qed.
#[local] Hint Extern 0 (copies LXCMachineList_DeepCopyInto _) => apply LXCMachineList_copies : copies.
Lemma LXCMachineTemplateResource_copies : copies LXCMachineTemplateResource_DeepCopyInto view_LXCMachineTemplateResource.
Proof. copy_struct. Qed.
#[local] Hint Extern 0 (copies LXCMachineTemplateResource_DeepCopyInto _) => apply LXCMachineTemplateResource_copies : copies.
Lemma LXCMachineTemplateSpec_copies : copies LXCMachineTemplateSpec_DeepCopyInto view_LXCMachineTemplateSpec.
Proof. copy_struct. Qed.
#[local] Hint Extern 0 (copies LXCMachineTemplateSpec_DeepCopyInto _) => apply LXCMachineTemplateSpec_copies : copies.
Lemma LXCMachineTemplate_copies : copies LXCMachineTemplate_DeepCopyInto view_LXCMachineTemplate.
Proof. copy_struct. Qed.
#[local] Hint Extern 0 (copies LXCMachineTemplate_DeepCopyInto _) => apply LXCMachineTemplate_copies : copies.
Lemma LXCMachineTemplateList_copies : copies LXCMachineTemplateList_DeepCopyInto view_LXCMachineTemplateList.
Proof. copy_struct. Qed.
#[local] Hint Extern 0 (copies LXCMachineTemplateList_DeepCopyInto _) => apply LXCMachineTemplateList_copies : copies.
Lemma LXCLoadBalancerMachineSpec_copies : copies LXCLoadBalancerMachineSpec_DeepCopyInto view_LXCLoadBalancerMachineSpec.
Proof. copy_struct. Qed.
#[local] Hint Extern 0 (copies LXCLoadBalancerMachineSpec_DeepCopyInto _) => apply LXCLoadBalancerMachineSpec_copies : copies.
Lemma LXCLoadBalancerInstance_copies : copies LXCLoadBalancerInstance_DeepCopyInto view_LXCLoadBalancerInstance.
Proof. copy_struct. Qed.
#[local] Hint Extern 0 (copies LXCLoadBalancerInstance_DeepCopyInto _) => apply LXCLoadBalancerInstance_copies : copies.
Lemma LXCClusterLoadBalancer_copies : copies LXCClusterLoadBalancer_DeepCopyInto view_LXCClusterLoadBalancer.
Proof. copy_struct. Qed.
#[local] Hint Extern 0 (copies LXCClusterLoadBalancer_DeepCopyInto _) => apply LXCClusterLoadBalancer_copies : copies.
Lemma LXCClusterSpec_copies : copies LXCClusterSpec_DeepCopyInto view_LXCClusterSpec.
Proof. copy_struct. Qed.
#[local] Hint Extern 0 (copies LXCClusterSpec_DeepCopyInto _) => apply LXCClusterSpec_copies : copies.
Lemma LXCClusterV1Beta2Status_copies : copies LXCClusterV1Beta2Status_DeepCopyInto view_LXCClusterV1Beta2Status.
Proof. copy_struct. Qed.
#[local] Hint Extern 0 (copies LXCClusterV1Beta2Status_DeepCopyInto _) => apply LXCClusterV1Beta2Status_copies : copies.
Lemma LXCClusterStatus_copies : copies LXCClusterStatus_DeepCopyInto view_LXCClusterStatus.
Proof. copy_struct. Qed.
#[local] Hint Extern 0 (copies LXCClusterStatus_DeepCopyInto _) => apply LXCClusterStatus_copies : copies.
Lemma LXCCluster_copies : copies LXCCluster_DeepCopyInto view_LXCCluster.
Proof. copy_struct. Qed.
#[local] Hint Extern 0 (copies LXCCluster_DeepCopyInto _) => apply LXCCluster_copies : copies.
Lemma LXCClusterList_copies : copies LXCClusterList_DeepCopyInto view_LXCClusterList.
Proof. copy_struct. Qed.
#[local] Hint Extern 0 (copies LXCClusterList_DeepCopyInto _) => apply LXCClusterList_copies : copies.
Lemma LXCClusterTemplateResource_copies : copies LXCClusterTemplateResource_DeepCopyInto view_LXCClusterTemplateResource.
Proof. copy_struct. Qed.
#[local] Hint Extern 0 (copies LXCClusterTemplateResource_DeepCopyInto _) => apply LXCClusterTemplateResource_copies : copies.
Lemma LXCClusterTemplateSpec_copies : copies LXCClusterTemplateSpec_DeepCopyInto view_LXCClusterTemplateSpec.
Proof. copy_struct. Qed.
#[local] Hint Extern 0 (copies LXCClusterTemplateSpec_DeepCopyInto _) => apply LXCClusterTemplateSpec_copies : copies.
Lemma LXCClusterTemplate_copies : copies LXCClusterTemplate_DeepCopyInto view_LXCClusterTemplate.
Proof. copy_struct. Qed.
#[local] Hint Extern 0 (copies LXCClusterTemplate_DeepCopyInto _) => apply LXCClusterTemplate_copies : copies.
Lemma LXCClusterTemplateList_copies : copies LXCClusterTemplateList_DeepCopyInto view_LXCClusterTemplateList.
Proof. copy_struct. Qed.
#[local] Hint Extern 0 (copies LXCClusterTemplateList_DeepCopyInto _) => apply LXCClusterTemplateList_copies : copies.

(** A method [DeepCopyObject] copies what its [DeepCopy] copies. *)
Lemma object_yields {W} (t : gocode) (f : go_values t → M heap (go_values t)) (view : go_values t → R W)
    (mk : option loc → Object) (mkv : option W → ObjectValue) l h a L :
  (∀ x, Local (view x)) → copies f view →
  (∀ p, view_Object (mk p) = rbind (view_ptr (U := ApiTypes) t view p) (λ v, rret (mkv v))) →
  view_Object (mk (Some l)) h = Some (a, L) →
  wp (bind (copy_pointer (U := ApiTypes) t f (Some l)) (λ c, match c with Some _ => ret (Some (mk c)) | None => ret None end))
    (λ r h', ∃ o' L', r = Ok (Some o') ∧ view_Object o' h' = Some (a, L') ∧ grows h L' h') h.
Proof.
  intros Hloc Hf Hmk. rewrite Hmk. intros (v & L1 & L2 & Hx & [= <- <-] & ->)%rbind_Some.
  assert (is_Some v) as [w ->].
  { apply rbind_Some in Hx as (? & ? & ? & _ & Hx & _). apply rbind_Some in Hx as (? & ? & ? & _ & Hx & _).
    apply rbind_Some in Hx as (? & ? & ? & _ & [= <- _] & _). eauto. }
  eapply wp_copy_field; [exact (copy_pointer_copies (U := ApiTypes) t view f Hf)|intros ?; apply _|exact Hx|].
  intros [p|] h' L' Hs Hp [Hg _]; [|done].
  apply wp_ret. eexists _, _. split; [done|]. split; [rewrite Hmk; by eapply rbind_ok|by rewrite app_nil_r].
Qed.

(** The method of the interface, on any of the eight kinds. *)
Lemma DeepCopyObject_yields o h a L :
  view_Object o h = Some (a, L) → is_Some (object_ptr o) →
  wp (DeepCopyObject o)
    (λ r h', ∃ o' L', r = Ok (Some o') ∧ view_Object o' h' = Some (a, L') ∧ grows h L' h') h.
Proof.
  intros Hv [l Hl]. destruct o; simpl in Hl; subst p.
  - by eapply (object_yields TMachine _ view_LXCMachine OLXCMachine); [apply _|apply LXCMachine_copies|..].
  - by eapply (object_yields TMachineList _ view_LXCMachineList OLXCMachineList); [apply _|apply LXCMachineList_copies|..].
  - by eapply (object_yields TMachineTemplate _ view_LXCMachineTemplate OLXCMachineTemplate);
      [apply _|apply LXCMachineTemplate_copies|..].
  - by eapply (object_yields TMachineTemplateList _ view_LXCMachineTemplateList OLXCMachineTemplateList);
      [apply _|apply LXCMachineTemplateList_copies|..].
  - by eapply (object_yields TCluster _ view_LXCCluster OLXCCluster); [apply _|apply LXCCluster_copies|..].
  - by eapply (object_yields TClusterList _ view_LXCClusterList OLXCClusterList); [apply _|apply LXCClusterList_copies|..].
  - by eapply (object_yields TClusterTemplate _ view_LXCClusterTemplate OLXCClusterTemplate);
      [apply _|apply LXCClusterTemplate_copies|..].
  - by eapply (object_yields TClusterTemplateList _ view_LXCClusterTemplateList OLXCClusterTemplateList);
      [apply _|apply LXCClusterTemplateList_copies|..].
Qed.

(** C26: [DeepCopyObject] of any object of the API, whatever it shares with
    other objects and inside itself, succeeds, changes nothing that was in the
    store and returns an object that reads as the same value and is a tree of
    new locations. So from then on the two are independent: whatever is written
    to the locations that existed before leaves the copy as it is, and whatever
    is written to the new ones leaves the original (and every other object that
    was there) as it is. *)
Theorem DeepCopyObject_independent (o : Object) (h : heap) (a : ObjectValue) (L : list loc) :
  view_Object o h = Some (a, L) → is_Some (object_ptr o) →
  ∃ o' h' L', DeepCopyObject o h = (Ok (Some o'), h') ∧ h ⊆ h' ∧ NoDup L' ∧ view_Object o' h' = Some (a, L') ∧
    (∀ h2, (∀ l, h !! l = None → h2 !! l = h' !! l) → view_Object o' h2 = Some (a, L')) ∧
    (∀ h2, (∀ l, is_Some (h !! l) → h2 !! l = h' !! l) →
       ∀ o2 a2 L2, view_Object o2 h = Some (a2, L2) → view_Object o2 h2 = Some (a2, L2)).
Proof.
  intros Hv Hp. pose proof (DeepCopyObject_yields o h a L Hv Hp) as Hw. unfold wp in Hw.
  destruct (DeepCopyObject o h) as [r h'] eqn:Hrun. destruct Hw as (o' & L' & -> & Hv' & [Hs Hnd Hnew]).
  exists o', h', L'. split_and!; [done|done|done|done| |].
  - intros h2 Hh2. apply (local_agree _ _ _ _ Hv'). eapply Forall_impl; [exact Hnew|]. exact Hh2.
  - intros h2 Hh2 o2 a2 L2 Ho2. apply (local_agree _ _ _ _ Ho2).
    eapply Forall_impl; [exact (local_dom _ _ _ Ho2)|]. intros l Hl. rewrite Hh2 by done.
    destruct Hl as [b Hb]. rewrite Hb. by eapply lookup_weaken.
Qed.

(** A nil pointer is copied to the nil interface, not to a nil pointer with a type. *)
Theorem DeepCopyObject_nil (o : Object) (h : heap) : object_ptr o = None → DeepCopyObject o h = (Ok None, h).
Proof. by destruct o; simpl; intros ->. Qed.

(** The list of devices, called through its own method: a nil list stays nil. *)
Lemma Devices_DeepCopy_copies : copies Devices_DeepCopy (view_slice TString rret).
Proof.
  intros h [s|] a L Hv; [|by apply (copy_flat_slice_copies (U := ApiTypes) TString h None a L)].
  apply wp_bind, (wp_alloc (U := ApiTypes) TDevices). intros out Hout. simpl.
  change (Devices_DeepCopyInto (Some s)) with (copy_flat_slice (U := ApiTypes) TString (Some s)).
  apply wp_bind. eapply wp_mono.
  { apply (copy_flat_slice_copies (U := ApiTypes) TString _ (Some s) a L).
    eapply local_sub; [by apply _|by apply (insert_subseteq h)|exact Hv]. }
  intros r h' (v & L' & -> & Hv' & [Hs Hnd Hnew]). simpl.
  assert (contents (U := ApiTypes) TDevices out h' = Some [None]) as Hc
    by (apply (contents_sub (U := ApiTypes) TDevices out _ _ [None] Hs), contents_put).
  assert (out ∉ L') as HoutL.
  { intros Hin. eapply Forall_forall in Hnew; [|done]. simpl in Hnew. unfold put in Hnew. by rewrite lookup_insert_eq in Hnew. }
  assert (h ⊆ h') as Hsub by (etrans; [|exact Hs]; by apply (insert_subseteq h)).
  apply wp_bind. eapply (wp_store_at (U := ApiTypes) TDevices); [exact Hc|simpl; lia|]. simpl.
  eapply (wp_load_at (U := ApiTypes) TDevices); [apply contents_put|done|].
  exists v, L'. split; [done|]. split; [by apply local_put; [apply _|..]|].
  split; [by apply put_sub|done|]. eapply None_sub; [|exact Hnew]. by apply (insert_subseteq h).
Qed.

End deepcopy.

(** ** A store to run the copies on

    [metav1.ObjectMeta] with four of its fields, [clusterv1.ObjectMeta] with its
    labels, and conditions without references. *)
Definition sample_kube (m : mode) (f : foreign) : Type :=
  match f with
  | MetaObject => string * string * Map m * Slice m string
  | MetaList => string
  | TemplateMeta => Map m
  | CapiCondition | MetaCondition => Condition
  end.

Definition sample_condition : Condition :=
  {| co_Type := ""; co_Status := ConditionUnknown; co_Severity := SeverityNone; co_Reason := ""; co_Message := "" |}.

#[export] Instance SampleKube : KubeTypes := {
  kube := sample_kube Stored;
  kube_zero := λ f, match f with
                    | MetaObject => ("", "", None, None)
                    | MetaList => ""
                    | TemplateMeta => None
                    | CapiCondition | MetaCondition => sample_condition
                    end;
  kube_value := sample_kube Value;
  kube_block := unit;
  kube_block_zero := tt
}.

Definition sample_view (f : foreign) : sample_kube Stored f → R (sample_kube Value f) :=
  match f with
  | MetaObject => λ x,
      let? labels := view_ptr TStringMap rret x.1.2 in
      let? finalizers := view_slice TString rret x.2 in
      rret (x.1.1.1, x.1.1.2, labels, finalizers)
  | MetaList => rret
  | TemplateMeta => view_ptr TStringMap rret
  | CapiCondition | MetaCondition => rret
  end.

Definition sample_DeepCopyInto (f : foreign) : sample_kube Stored f → M heap (sample_kube Stored f) :=
  match f with
  | MetaObject => λ x,
      let! labels := copy_map x.1.2 in
      let! finalizers := copy_flat_slice TString x.2 in
      ret (x.1.1.1, x.1.1.2, labels, finalizers)
  | MetaList => ret
  | TemplateMeta => copy_map
  | CapiCondition | MetaCondition => ret
  end.

#[export] Instance Local_sample_view f x : Local (sample_view f x).
Proof. destruct f; apply _. Qed.

Lemma sample_copies f : copies (sample_DeepCopyInto f) (sample_view f).
Proof.
  destruct f; [|apply copies_ret|apply copy_map_copies|apply copies_ret|apply copies_ret].
  intros h x a L Hv. unfold yields. simpl in Hv. view_inv Hv. simpl.
  eapply wp_copy_field; [apply copy_map_copies|intros ?; apply _|eassumption|]. intros p h1 L1 Hs Hp Hg. lift_views Hs.
  eapply wp_copy_field; [apply (copy_flat_slice_copies (U := ApiTypes) TString)|intros ?; apply _|eassumption|].
  intros s h2 L3 Hs2 Hsl Hg2. lift_views Hs2. apply wp_ret. eexists _, _. split; [done|].
  split; [view_done|eapply proj1; grown_chain].
Qed.

#[export] Instance SampleCopies : KubeCopies := {
  kube_view := sample_view;
  kube_local := Local_sample_view;
  kube_DeepCopyInto := sample_DeepCopyInto;
  kube_copies := sample_copies
}.

(** A machine of which the profiles and the devices are overlapping slices of
    one array, and the labels and the configuration are one map. *)
Definition sample_machine : LXCMachine Stored :=
  {| lm_TypeMeta := {| tm_Kind := "LXCMachine"; tm_APIVersion := "v1alpha2" |};
     lm_ObjectMeta := ("m", "ns", Some 3%positive, None) : kube MetaObject;
     lm_Spec := {| ms_ProviderID := Some 1%positive; ms_InstanceType := "container"; ms_Flavor := "";
                   ms_Profiles := Some {| sl_array := 2; sl_off := 0; sl_len := 2 |};
                   ms_Devices := Some {| sl_array := 2; sl_off := 1; sl_len := 2 |};
                   ms_Config := Some 3%positive; ms_Image := zeroImageSource; ms_Target := "" |};
     lm_Status := zeroLXCMachineStatus |}.

Definition sample_heap : heap :=
  put TMachine 4 [sample_machine] (put TStringMap 3 [{["user.k" := "v"]}]
    (put TString 2 ["a"; "b"; "c"] (put TString 1 ["lxc:///m"] ∅))).

Definition sample_value : ObjectValue :=
  VLXCMachine (Some (
    {| lm_TypeMeta := {| tm_Kind := "LXCMachine"; tm_APIVersion := "v1alpha2" |};
       lm_ObjectMeta := ("m", "ns", Some {["user.k" := "v"]}, None) : kube_value MetaObject;
       lm_Spec := {| ms_ProviderID := Some "lxc:///m"; ms_InstanceType := "container"; ms_Flavor := "";
                     ms_Profiles := Some ["a"; "b"]; ms_Devices := Some ["b"; "c"];
                     ms_Config := Some {["user.k" := "v"]}; ms_Image := zeroImageSource; ms_Target := "" |};
       lm_Status := {| mst_Ready := false; mst_LoadBalancerConfigured := false; mst_Addresses := None;
                       mst_Conditions := None; mst_V1Beta2 := None |} |} : LXCMachine Value)).

Lemma DeepCopyObject_independent_witness : ∃ o' h' L',
  DeepCopyObject (OLXCMachine (Some 4%positive)) sample_heap = (Ok (Some o'), h') ∧
  view_Object o' (put TString 2 ["x"] (put TStringMap 3 [∅] h')) = Some (sample_value, L').
Proof.
  destruct (DeepCopyObject_independent (OLXCMachine (Some 4%positive)) sample_heap sample_value [4; 3; 1; 2; 2; 3]%positive)
    as (o' & h' & L' & Hrun & _ & _ & _ & Hcopy & _); [vm_compute; reflexivity|by eexists|].
  exists o', h', L'. split; [exact Hrun|]. apply Hcopy. intros l Hl.
  assert (l ≠ 2%positive ∧ l ≠ 3%positive) as [H2 H3] by (split; intros ->; discriminate Hl).
  by rewrite (lookup_put_ne (U := ApiTypes) TString _ _ _ _ H2), (lookup_put_ne (U := ApiTypes) TStringMap _ _ _ _ H3).
Defined.

(** Evaluated: the copy is at new locations, and nothing in it is shared. *)
Example sample_copy_runs :
  match DeepCopyObject (OLXCMachine (Some 4%positive)) sample_heap with
  | (Ok (Some o'), h') => view_Object o' h'
  | _ => None
  end = Some (sample_value, [5; 6; 7; 8; 9; 10]%positive).
Proof. vm_compute. reflexivity. Qed.
