(* ===== verification/World.v ===== *)
(** * The outside world: calls to Incus, Kubernetes and the host

    Everything the provider reaches through a client library is a [call], an
    inductive type indexed by the type of its answer. How the world answers is
    not known to the program: it is an instance of the class [Env], a function
    [handle] over an abstract [world] with a clock, and the theorems of the
    development hold for every instance. The state of the monad pairs the
    world with the log of the calls made so far and of their answers. *)

From S2P Require Import Prelude GoStrings Go Api Files.

(** ** Data of the Incus API (github.com/lxc/incus/v6/shared/api) *)

Record InstanceStateNetworkAddress := {
  na_Family : string; na_Address : string; na_Netmask : string; na_Scope : string
}.

Record InstanceStateNetwork := {
  nw_Type : string; nw_HostName : string; nw_Addresses : list InstanceStateNetworkAddress
}.

Record InstanceState := {
  is_Status : string; is_Pid : Z; is_Network : gmap string InstanceStateNetwork
}.

Record InstanceFull := {
  if_Name : string;
  if_Type : string;
  if_Config : gmap string string;
  if_Devices : gmap string (gmap string string);
  if_State : option InstanceState
}.

Record InstanceSource := {
  src_Type : string; src_Protocol : string; src_Server : string; src_Alias : string;
  src_Fingerprint : string
}.

Record ImageSource := { isrc_Protocol : string; isrc_Server : string; isrc_Alias : string }.

Record InstancesPost := {
  ip_Name : string;
  ip_Source : InstanceSource;
  ip_Type : string;
  ip_InstanceType : string;
  ip_Config : option (gmap string string);
  ip_Devices : option (gmap string (gmap string string));
  ip_Profiles : list string
}.

Record InstanceFileArgs := {
  fa_Content : string; fa_Type : string; fa_Mode : Z; fa_UID : Z; fa_GID : Z; fa_WriteMode : string
}.

Record InstanceFileResponse := {
  fr_Mode : Z; fr_UID : Z; fr_GID : Z; fr_Type : string
}.

(** The reader [GetInstanceFile] returns for a file: what reading it to the end
    and closing it give. For a directory there is no reader: it is nil. *)
Record Reader := { rd_ReadAll : error + string; rd_Close : option error }.

Record ImageMetadataTemplate := {
  tpl_When : list string; tpl_CreateOnly : bool; tpl_Template : string
}.

Record ImageMetadata := { md_Templates : option (gmap string ImageMetadataTemplate) }.

Record ApiOperation := {
  ao_ID : string; ao_Class : string; ao_Description : string; ao_Resources : gmap string (list string)
}.

(** The handle of an [incus.Operation] is the UUID of the operation. *)
Definition Operation := string.

(** What waiting for an operation gives: the error of [WaitContext], the exit
    code its updates carried (an execution), and what was written to the
    streams handed to it. *)
Record WaitResult := {
  wr_err : option error; wr_return : option Z; wr_stdout : string; wr_stderr : string
}.

Record NetworkLoadBalancerBackend := { be_Name : string; be_TargetPort : string; be_TargetAddress : string }.
Record NetworkLoadBalancerPort := { po_ListenPort : string; po_Protocol : string; po_TargetBackend : list string }.
Record NetworkLoadBalancerPut := {
  nlb_Config : gmap string string;
  nlb_Backends : list NetworkLoadBalancerBackend;
  nlb_Ports : list NetworkLoadBalancerPort
}.

(** The fields of [api.Server] that the provider reads. *)
Record ServerInfo := {
  si_Server : string;
  si_Driver : string;
  si_Architectures : list string;
  si_ServerClustered : bool;
  si_APIExtensions : list string
}.

(** Storage pools, instances and images, as the image builder reads them; times
    are in milliseconds. *)
Record StoragePool := { sp_Name : string; sp_Status : string }.
Record Instance := { in_Type : string; in_LastUsedAt : Z }.
Record ImageAliasesEntry := { ia_Target : string; ia_Type : string }.
Record ApiImage := { im_CreatedAt : Z }.

(** The request for an image of an instance. *)
Record ImagesPost := {
  imp_Properties : gmap string string; imp_Public : bool; imp_ExpiresAt : Z;
  imp_SourceType : string; imp_SourceName : string; imp_Aliases : list string
}.

(** A connection ([incus.InstanceServer]): where it goes, with the project and
    target selected by [UseProject] and [UseTarget]. *)
Record Conn := { cn_Endpoint : string; cn_Project : string; cn_Target : string }.

#[export] Instance Conn_eq_dec : EqDecision Conn.
Proof. solve_decision. Defined.

Record ConnectionArgs := {
  ca_TLSServerCert : string; ca_TLSClientCert : string; ca_TLSClientKey : string;
  ca_InsecureSkipVerify : bool
}.

(** ** Data of the client configuration (incus cliconfig) *)

Record Remote := { rm_Addr : string; rm_Project : string; rm_Protocol : string; rm_Public : bool }.

Record CliConfig := {
  cc_DefaultRemote : string;
  cc_Remotes : gmap string Remote;
  cc_HasClientCertificate : bool;
  cc_ConfigDir : string
}.

(** ** Cluster API and Kubernetes objects *)

Record Cluster := {
  cl_Meta : ObjectMeta;
  cl_InfrastructureRef : option string;
  cl_PodCIDRs : option (option (list string));
  cl_InfrastructureReady : bool;
  cl_Conditions : list Condition
}.

Record Machine := {
  mc_Meta : ObjectMeta;
  mc_Version : option string;
  mc_DataSecretName : option string;
  mc_InfrastructureRefName : string
}.

Record Secret := {
  sec_Name : string; sec_Namespace : string; sec_Labels : gmap string string;
  sec_Data : gmap string string
}.

(** ** The controller manager (controller-runtime) *)

(** Which objects a watch turns into requests, and the library's predicates on
    the events of a watch. *)
Inductive MapFunc :=
| ClusterToInfrastructureMapFunc (kind : string)
| MachineToInfrastructureMapFunc (kind : string)
| ClusterToTypedObjectsMapper (listKind : string)
| LXCClusterToLXCMachinesMap.

Inductive Predicate :=
| ResourceHasFilterLabel (value : string)
| ClusterPausedTransitions
| ClusterPausedTransitionsOrInfrastructureReady.

Record Watch := { wt_Object : string; wt_Map : MapFunc; wt_Predicates : list Predicate }.

(** What [ctrl.NewControllerManagedBy(mgr)...Complete(r)] is given. *)
Record ControllerSpec := {
  ct_For : string; ct_MaxConcurrentReconciles : Z; ct_EventFilter : Predicate; ct_Watches : list Watch
}.

(** The fields of [ctrl.Options] that the program sets; durations are in
    milliseconds. *)
Record ManagerOptions := {
  mo_LeaderElection : bool; mo_LeaderElectionID : string;
  mo_LeaseDuration : Z; mo_RenewDeadline : Z; mo_RetryPeriod : Z; mo_LeaderElectionResourceLock : string;
  mo_HealthProbeBindAddress : string; mo_PprofBindAddress : string;
  mo_DefaultNamespaces : option (list string); mo_SyncPeriod : Z;
  mo_SecretCacheLabel : string; mo_DisableCacheFor : list string; mo_UnstructuredCache : bool;
  mo_WebhookPort : Z; mo_WebhookCertDir : string; mo_WebhookCertName : string; mo_WebhookKeyName : string
}.

(** [rest.Config]: the fields that the program sets. *)
Record RestOptions := { ro_QPS : Z; ro_Burst : Z; ro_UserAgent : string }.

(** ** The calls *)

(** Calls on an [incus.InstanceServer]. *)
Inductive icall : Type → Type :=
| GetServer : icall ServerInfo
| GetInstanceState (name : string) : icall InstanceState
| GetInstanceFull (name : string) : icall InstanceFull
| GetInstancesFull : icall (list InstanceFull)
| GetOperations : icall (list ApiOperation)
| RawOperation (id : string) : icall Operation
| CreateInstance (post : InstancesPost) : icall Operation
| UpdateInstanceState (name action : string) (force : bool) : icall Operation
| DeleteInstance (name : string) : icall Operation
| WaitContext (op : Operation) (deadline : option Z) : icall WaitResult
| GetInstanceMetadata (name : string) : icall ImageMetadata
| UpdateInstanceMetadata (name : string) (md : ImageMetadata) : icall unit
| CreateInstanceTemplateFile (name template contents : string) : icall unit
| CreateInstanceFile (name path : string) (args : InstanceFileArgs) : icall unit
| GetInstanceFile (name path : string) : icall (option Reader * InstanceFileResponse)
| ExecInstance (name : string) (command : list string) (stdin : option string) : icall Operation
| CreateImage (source : ImageSource) : icall Operation
| CreateImageFrom (post : ImagesPost) : icall Operation
| GetStoragePools : icall (list StoragePool)
| GetInstance (name : string) : icall Instance
| GetImageAlias (name : string) : icall ImageAliasesEntry
| GetImage (fingerprint : string) : icall ApiImage
| DeleteImageAlias (name : string) : icall unit
| GetImageFile (fingerprint metaFile : string) : icall Z
| GetNetwork (name : string) : icall (gmap string string)
| GetNetworkLoadBalancer (network address : string) : icall (gmap string string)
| GetNetworkLoadBalancerState (network address : string) : icall string
| CreateNetworkLoadBalancer (network address : string) (config : gmap string string) : icall unit
| UpdateNetworkLoadBalancer (network address : string) (put : NetworkLoadBalancerPut) : icall unit
| DeleteNetworkLoadBalancer (network address : string) : icall unit.

(** Calls on the Kubernetes API server and on Cluster API's helpers over it. *)
Inductive kcall : Type → Type :=
| KGetLXCCluster (key : NamespacedName) : kcall LXCCluster
| KGetLXCMachine (key : NamespacedName) : kcall LXCMachine
| KGetSecret (key : NamespacedName) : kcall Secret
| KGetOwnerCluster (obj : ObjectMeta) : kcall (option Cluster)
| KGetOwnerMachine (obj : ObjectMeta) : kcall (option Machine)
| KGetClusterFromMetadata (obj : ObjectMeta) : kcall (option Cluster)
| KAddOwners (obj : LXCMachine) : kcall unit
| KListMachines (namespace : string) (labels : gmap string string) : kcall (list Machine)
| KEnsureClusterFinalizer (obj : LXCCluster) (finalizer : string) : kcall (bool * LXCCluster)
| KEnsureMachineFinalizer (obj : LXCMachine) (finalizer : string) : kcall (bool * LXCMachine)
| KEnsureClusterPaused (cluster : Cluster) (obj : LXCCluster) : kcall (bool * bool * LXCCluster)
| KEnsureMachinePaused (cluster : Cluster) (obj : LXCMachine) : kcall (bool * bool * LXCMachine)
| KNewClusterPatchHelper (obj : LXCCluster) : kcall unit
| KNewMachinePatchHelper (obj : LXCMachine) : kcall unit
| KPatchCluster (obj : LXCCluster) (owned : list string) : kcall unit
| KPatchMachine (obj : LXCMachine) (owned : list string) : kcall unit.

(** Calls on the host: files, the client configuration, connections, image
    servers. *)
Inductive hcall : Type → Type :=
| OSStat (path : string) : hcall unit
| OSPathIsWritable (path : string) : hcall bool
| OSReadFile (path : string) : hcall string
| OSHome : hcall string
| OSGetenv (name : string) : hcall string
| OSReadStdin : hcall string
| OSGetwd : hcall string
| OSSetenv (name value : string) : hcall unit
| OSSymlink (target link : string) : hcall unit
| OSStatPerm (path : string) : hcall Z
| LoadConfig (path : string) : hcall CliConfig
| SaveConfig (path : string) (config : CliConfig) : hcall unit
| ConnectIncus (url : string) (args : ConnectionArgs) : hcall Conn
| ConnectIncusUnix (socket : string) : hcall Conn
| ConnectSimpleStreams (server : string) : hcall unit
| GetImageAliasType (server imageType alias : string) : hcall unit
| CraneHead (ref : string) (insecure : bool) : hcall unit
| OSCreate (path : string) : hcall unit
| OSWrite (path contents : string) : hcall unit
| OSTruncate (path : string) (size : Z) : hcall unit
| OSClose (path : string) : hcall unit
| OSRemove (path : string) : hcall unit
| OSMkdirTemp : hcall string
| OSRemoveAll (path : string) : hcall unit
| OSRename (old new : string) : hcall unit
| OSWriteFile (path contents : string) : hcall unit
| ExecLookPath (name : string) : hcall string
(** The error of the process and its stderr. *)
| ExecRun (argv env : list string) (deadline : option Z) : hcall (option error * string)
| OSOpen (path : string) : hcall unit
| ReadTarGz (path : string) : hcall tar_stream
(** The tar and gzip writers, by the file they were created on. *)
| TarWriteHeader (path : string) (hdr : tar_header) : hcall unit
| TarWrite (path contents : string) : hcall unit
| TarClose (path : string) : hcall unit
| GzipClose (path : string) : hcall unit
(** The process and the controller manager. *)
| OSReadDir (path : string) : hcall unit
| SetFlag (name value : string) : hcall unit
| GetRestConfig : hcall unit
| GetManagerOptions : hcall unit
| NewManagerWith (rest : RestOptions) (options : ManagerOptions) : hcall unit
| NewTypedObjectsMapper (listKind : string) : hcall unit
| CompleteController (spec : ControllerSpec) : hcall unit
| AddHealthzCheck (name : string) : hcall unit
| AddReadyzCheck (name : string) : hcall unit
| StartManager : hcall unit.

Inductive call : Type → Type :=
| CIncus {A} (conn : Conn) (c : icall A) : call A
| CKube {A} (c : kcall A) : call A
| CHost {A} (c : hcall A) : call A.

(** ** The environment *)

Class Env := {
  world : Type;
  handle : ∀ {A : Type}, call A → world → (error + A) * world;
  (** The clock, in milliseconds, and the passage of time while sleeping. *)
  now : world → Z;
  elapse : Z → world → world
}.

(** What the timeouts of the program rely on: sleeping takes the time it says,
    and no call takes time back. *)
Class EnvTime (E : Env) : Prop := {
  now_elapse : ∀ d w, (0 ≤ d)%Z → now (elapse d w) = (now w + d)%Z;
  now_handle : ∀ A (c : call A) w, (now w ≤ now (handle c w).2)%Z
}.

(** A call and its answer. *)
Definition event : Type := { A : Type & (call A * (error + A))%type }.

Definition answered {A} (c : call A) (r : error + A) : event := existT A (c, r).

Section env.
Context `{E : Env}.

Record state := { st_world : world; st_log : list event }.

Definition after {A} (c : call A) (r : error + A) (w : world) (s : state) : state :=
  {| st_world := w; st_log := st_log s ++ [existT A (c, r)] |}.

(** Perform a call: the world answers and the log grows. *)
Definition perform {A} (c : call A) : M state A := λ s,
  match handle c (st_world s) with
  | (r, w) => (match r with inl e => Err e | inr a => Ok a end, after c r w s)
  end.

Definition incus {A} (conn : Conn) (c : icall A) : M state A := perform (CIncus conn c).
Definition kube {A} (c : kcall A) : M state A := perform (CKube c).
Definition host {A} (c : hcall A) : M state A := perform (CHost c).

(** [time.Sleep], or losing a race against a timer, for [d] milliseconds. *)
Definition sleep (d : Z) : M state unit :=
  modify (λ s, {| st_world := elapse d (st_world s); st_log := st_log s |}).

Definition clock : M state Z := λ s, (Ok (now (st_world s)), s).

(** Symbolic execution of a call: any answer is possible. *)
Lemma wp_perform {A} (c : call A) Q s :
  (∀ r w, handle c (st_world s) = (r, w) →
     Q (match r with inl e => Err e | inr a => Ok a end) (after c r w s)) →
  wp (perform c) Q s.
Proof. intros H. unfold wp, perform. destruct (handle c (st_world s)) eqn:E'. by apply H. Qed.

Lemma wp_clock Q s : Q (Ok (now (st_world s))) s → wp clock Q s.
Proof. done. Qed.

(** ** Paths

    [path s evs s']: from [s] the program got to [s'] by the calls of [evs],
    answered by the environment, and by sleeping. *)
Inductive path : state → list event → state → Prop :=
| path_nil s : path s [] s
| path_call {A} (c : call A) r w s evs s' :
    handle c (st_world s) = (r, w) → path (after c r w s) evs s' → path s (existT A (c, r) :: evs) s'
| path_sleep d s evs s' :
    path {| st_world := elapse d (st_world s); st_log := st_log s |} evs s' → path s evs s'.

Lemma path_app s1 evs s2 evs' s3 : path s1 evs s2 → path s2 evs' s3 → path s1 (evs ++ evs') s3.
Proof. induction 1; simpl; eauto using path. Qed.

Lemma path_app_inv s1 evs evs' s3 : path s1 (evs ++ evs') s3 → ∃ s2, path s1 evs s2 ∧ path s2 evs' s3.
Proof.
  intros Hp. remember (evs ++ evs') as all eqn:Hall. revert evs Hall.
  induction Hp as [s|A c r w s all s' Hh Hp IH|d s all s' Hp IH]; intros evs Hall.
  - symmetry in Hall. apply app_eq_nil in Hall as [-> ->]. exists s. split; apply path_nil.
  - destruct evs as [|ev evs]; simplify_eq/=.
    + exists s. split; [apply path_nil|by eapply path_call].
    + destruct (IH evs eq_refl) as (s2 & H1 & H2). exists s2. split; [by eapply path_call|done].
  - destruct (IH evs Hall) as (s2 & H1 & H2). exists s2. split; [by eapply path_sleep|done].
Qed.

(** The log of the state is the calls of the path. *)
Lemma path_log s evs s' : path s evs s' → st_log s' = st_log s ++ evs.
Proof.
  induction 1 as [s|A c r w s evs s' _ _ IH|d s evs s' _ IH]; [by rewrite app_nil_r| |done].
  rewrite IH. simpl. by rewrite <- app_assoc.
Qed.

(** What every call of the path preserves holds at its end. *)
Lemma path_ind_keeps (I : state → Prop) (P : event → Prop) s evs s' :
  (∀ A (c : call A) r w s, handle c (st_world s) = (r, w) → P (existT A (c, r)) → I s → I (after c r w s)) →
  (∀ d s, I s → I {| st_world := elapse d (st_world s); st_log := st_log s |}) →
  path s evs s' → Forall P evs → I s → I s'.
Proof.
  intros Hc Hd. induction 1 as [s|A c r w s evs s' Hh _ IH|d s evs s' _ IH]; intros Hf Hs; [done| |by apply IH, Hd].
  apply Forall_cons in Hf as [Hp Hf]. apply IH; [done|]. by apply (Hc A c).
Qed.

(** What every answer establishes, and sleeping keeps, holds right after the
    first call of a path. *)
Lemma path_head (Q : event → world → Prop) s ev evs s' :
  (∀ A (c : call A) r w w', handle c w = (r, w') → Q (existT A (c, r)) w') →
  path s (ev :: evs) s' → ∃ s1, path s [ev] s1 ∧ Q ev (st_world s1) ∧ path s1 evs s'.
Proof.
  intros Hc Hp. remember (ev :: evs) as all eqn:Hall. revert Hall.
  induction Hp as [s|A c r w s all s' Hh Hp IH|d s all s' Hp IH]; intros Hall; [done| |].
  - injection Hall as <- <-. exists (after c r w s). split_and!; [by eapply path_call, path_nil|by eapply Hc|done].
  - destruct (IH Hall) as (s1 & H1 & H2 & H3). exists s1. split_and!; [by eapply path_sleep|done..].
Qed.

Lemma path_events (P : event → Prop) s evs s' :
  (∀ A (c : call A) r w w', handle c w = (r, w') → P (existT A (c, r))) → path s evs s' → Forall P evs.
Proof. intros Hc. induction 1; eauto using Forall_nil, Forall_cons. Qed.

(** ** Logs

    [grows P s s']: there is a path from [s] to [s'] all of whose calls satisfy
    [P]. *)
Definition grows (P : event → Prop) (s s' : state) : Prop :=
  ∃ evs, path s evs s' ∧ Forall P evs.

Lemma grows_log P s s' : grows P s s' → ∃ evs, st_log s' = st_log s ++ evs ∧ Forall P evs.
Proof. intros (evs & Hp & Hf). exists evs. split; [by apply path_log|done]. Qed.

Lemma grows_refl P s : grows P s s.
Proof. exists []. split; [apply path_nil|done]. Qed.

Lemma grows_trans P s1 s2 s3 : grows P s1 s2 → grows P s2 s3 → grows P s1 s3.
Proof.
  intros (e1 & H1 & F1) (e2 & H2 & F2). exists (e1 ++ e2). split.
  - by eapply path_app.
  - by apply Forall_app.
Qed.

Lemma grows_mono (P Q : event → Prop) s s' :
  (∀ e, P e → Q e) → grows P s s' → grows Q s s'.
Proof. intros H (evs & Hl & Hf). exists evs. split; [done|]. by eapply Forall_impl. Qed.

Lemma grows_after {A} (P : event → Prop) (c : call A) r w s :
  handle c (st_world s) = (r, w) → P (existT A (c, r)) → grows P s (after c r w s).
Proof. intros Hh H. exists [existT A (c, r)]. split; [eapply path_call, path_nil; done|]. by constructor. Qed.

Lemma grows_sleep P d s :
  grows P s {| st_world := elapse d (st_world s); st_log := st_log s |}.
Proof. exists []. split; [|done]. eapply path_sleep, path_nil. Qed.

(** A computation all of whose calls satisfy [P], whatever the answers. *)
Definition calls_only {A} (P : event → Prop) (m : M state A) : Prop :=
  ∀ s, grows P s (m s).2.

Lemma calls_only_ret {A} P (a : A) : calls_only P (ret a).
Proof. intros s. apply grows_refl. Qed.

Lemma calls_only_throw {A} P e : calls_only P (throw (A := A) e).
Proof. intros s. apply grows_refl. Qed.

Lemma calls_only_panic {A} P e : calls_only P (panic (A := A) e).
Proof. intros s. apply grows_refl. Qed.

Lemma calls_only_fuel {A} P : calls_only P (out_of_fuel (A := A)).
Proof. intros s. apply grows_refl. Qed.

Lemma calls_only_of_result {A} P (r : error + A) : calls_only P (of_result r).
Proof. intros s. destruct r; apply grows_refl. Qed.

Lemma calls_only_clock P : calls_only P clock.
Proof. intros s. apply grows_refl. Qed.

Lemma calls_only_sleep P d : calls_only P (sleep d).
Proof. intros s. apply grows_sleep. Qed.

Lemma calls_only_bind {A B} P (m : M state A) (k : A → M state B) :
  calls_only P m → (∀ a, calls_only P (k a)) → calls_only P (bind m k).
Proof.
  intros Hm Hk s. specialize (Hm s). unfold bind. destruct (m s) as [[a|e|msg|] s']; simpl in *; auto.
  eapply grows_trans; [exact Hm|apply Hk].
Qed.

Lemma calls_only_try {A} P (m : M state A) : calls_only P m → calls_only P (try m).
Proof. intros Hm s. specialize (Hm s). unfold try. by destruct (m s) as [[] s']. Qed.

Lemma calls_only_wrap {A} P pre (m : M state A) : calls_only P m → calls_only P (wrap pre m).
Proof. intros Hm s. specialize (Hm s). unfold wrap. by destruct (m s) as [[] s']. Qed.

Lemma calls_only_perform {A} (P : event → Prop) (c : call A) :
  (∀ r, P (existT A (c, r))) → calls_only P (perform c).
Proof.
  intros H s. unfold perform. destruct (handle c (st_world s)) as [r w] eqn:Hh. by apply grows_after.
Qed.

Lemma calls_only_for_each {A} P (l : list A) f :
  (∀ x, calls_only P (f x)) → calls_only P (for_each l f).
Proof.
  intros Hf. induction l as [|x l IH]; simpl; [apply calls_only_ret|]. by apply calls_only_bind.
Qed.

Lemma calls_only_mono {A} (P Q : event → Prop) (m : M state A) :
  (∀ e, P e → Q e) → calls_only P m → calls_only Q m.
Proof. intros H Hm s. by eapply grows_mono. Qed.

Lemma calls_only_and {A} (P Q : event → Prop) (m : M state A) :
  calls_only P m → calls_only Q m → calls_only (λ e, P e ∧ Q e) m.
Proof.
  intros HP HQ s. destruct (HP s) as (e1 & H1 & F1), (HQ s) as (e2 & H2 & F2). exists e1. split; [done|].
  apply path_log in H1. apply path_log in H2. rewrite H1 in H2. apply app_inv_head in H2 as ->.
  by apply Forall_and.
Qed.

(** ** A program logic of logs

    [traces m Q]: whatever the state, running [m] appends events to the log
    that, with the outcome, satisfy [Q]. The world stays abstract, so this is
    what the program does against every server and every timing. *)
Definition traces {A} (m : M state A) (Q : outcome A → list event → Prop) : Prop :=
  ∀ s, ∃ evs, st_log (m s).2 = st_log s ++ evs ∧ Q (m s).1 evs.

Lemma traces_mono {A} (m : M state A) (Q Q' : outcome A → list event → Prop) :
  traces m Q → (∀ o evs, Q o evs → Q' o evs) → traces m Q'.
Proof. intros Hm H s. destruct (Hm s) as (evs & Hl & HQ). eauto. Qed.

Lemma traces_and {A} (m : M state A) (Q Q' : outcome A → list event → Prop) :
  traces m Q → traces m Q' → traces m (λ o evs, Q o evs ∧ Q' o evs).
Proof.
  intros H1 H2 s. destruct (H1 s) as (e1 & L1 & Q1), (H2 s) as (e2 & L2 & Q2).
  exists e1. rewrite L1 in L2. apply app_inv_head in L2 as ->. done.
Qed.

Lemma traces_ret {A} (a : A) (Q : outcome A → list event → Prop) : Q (Ok a) [] → traces (ret a) Q.
Proof. intros H s. exists []. by rewrite app_nil_r. Qed.

Lemma traces_throw {A} e (Q : outcome A → list event → Prop) : Q (Err e) [] → traces (throw e) Q.
Proof. intros H s. exists []. by rewrite app_nil_r. Qed.

Lemma traces_panic {A} msg (Q : outcome A → list event → Prop) : Q (Panic msg) [] → traces (panic msg) Q.
Proof. intros H s. exists []. by rewrite app_nil_r. Qed.

Lemma traces_fuel {A} (Q : outcome A → list event → Prop) : Q OutOfFuel [] → traces out_of_fuel Q.
Proof. intros H s. exists []. by rewrite app_nil_r. Qed.

Lemma traces_of_result {A} (r : error + A) (Q : outcome A → list event → Prop) :
  Q (match r with inl e => Err e | inr a => Ok a end) [] → traces (of_result r) Q.
Proof. intros H s. exists []. rewrite app_nil_r. by destruct r. Qed.

Lemma traces_clock (Q : outcome Z → list event → Prop) : (∀ t, Q (Ok t) []) → traces clock Q.
Proof. intros H s. exists []. rewrite app_nil_r. split; [done|apply H]. Qed.

Lemma traces_sleep d (Q : outcome unit → list event → Prop) : Q (Ok tt) [] → traces (sleep d) Q.
Proof. intros H s. exists []. by rewrite app_nil_r. Qed.

Lemma traces_bind {A B} (m : M state A) (k : A → M state B) (Q : outcome B → list event → Prop) :
  traces m (λ o evs,
    match o with
    | Ok a => traces (k a) (λ o' evs', Q o' (evs ++ evs'))
    | Err e => Q (Err e) evs
    | Panic msg => Q (Panic msg) evs
    | OutOfFuel => Q OutOfFuel evs
    end) →
  traces (bind m k) Q.
Proof.
  intros Hm s. destruct (Hm s) as (evs & Hl & HQ). unfold bind.
  destruct (m s) as [[a|e|msg|] s']; simpl in *; [|by eauto..].
  destruct (HQ s') as (evs' & Hl' & HQ'). exists (evs ++ evs').
  by rewrite Hl', Hl, <- app_assoc.
Qed.

Lemma traces_try {A} (m : M state A) (Q : outcome (error + A) → list event → Prop) :
  traces m (λ o evs,
    match o with
    | Ok a => Q (Ok (inr a)) evs
    | Err e => Q (Ok (inl e)) evs
    | Panic msg => Q (Panic msg) evs
    | OutOfFuel => Q OutOfFuel evs
    end) →
  traces (try m) Q.
Proof.
  intros Hm s. destruct (Hm s) as (evs & Hl & HQ). exists evs. unfold try.
  by destruct (m s) as [[] s'].
Qed.

Lemma traces_wrap {A} pre (m : M state A) (Q : outcome A → list event → Prop) :
  traces m (λ o evs, match o with Err e => Q (Err (Errorf_w pre e)) evs | _ => Q o evs end) →
  traces (wrap pre m) Q.
Proof.
  intros Hm s. destruct (Hm s) as (evs & Hl & HQ). exists evs. unfold wrap.
  by destruct (m s) as [[] s'].
Qed.

Lemma traces_perform {A} (c : call A) (Q : outcome A → list event → Prop) :
  (∀ r, Q (match r with inl e => Err e | inr a => Ok a end) [existT A (c, r)]) →
  traces (perform c) Q.
Proof.
  intros H s. unfold perform. destruct (handle c (st_world s)) as [r w]. exists [existT A (c, r)].
  split; [done|apply H].
Qed.

(** Loops: a property of the events so far, per list of the work left. *)
Lemma traces_for_each {A} (I : list A → list event → Prop) (l : list A) f
    (Q : outcome unit → list event → Prop) :
  I l [] →
  (∀ x l' evs, I (x :: l') evs →
     traces (f x) (λ o evs', match o with Ok _ => I l' (evs ++ evs') | _ => Q o (evs ++ evs') end)) →
  (∀ evs, I [] evs → Q (Ok tt) evs) →
  traces (for_each l f) Q.
Proof.
  intros H0 Hs He.
  enough (∀ l evs, I l evs → traces (for_each l f) (λ o evs', Q o (evs ++ evs'))) as Hg
    by (eapply traces_mono; [by apply (Hg l [])|done]).
  clear l H0. induction l as [|x l IH]; intros evs HI; simpl.
  - apply traces_ret. rewrite app_nil_r. auto.
  - apply traces_bind. eapply traces_mono; [by apply Hs|]. intros [[]|e|msg|] evs' H'; try done.
    eapply traces_mono; [by apply IH|]. intros o ev'' Hq. by rewrite app_assoc.
Qed.

(** The events of a run are the calls of a path. *)
Lemma traces_path {A} (m : M state A) Q s :
  calls_only (λ _, True) m → traces m Q → ∃ evs, path s evs (m s).2 ∧ Q (m s).1 evs.
Proof.
  intros Hc Hm. destruct (Hc s) as (evs & Hp & _), (Hm s) as (evs' & Hl & HQ). exists evs. split; [done|].
  apply path_log in Hp. rewrite Hl in Hp. by apply app_inv_head in Hp as <-.
Qed.

Lemma traces_calls_only {A} (P : event → Prop) (m : M state A) :
  calls_only P m → traces m (λ _ evs, Forall P evs).
Proof. intros Hm s. destruct (grows_log _ _ _ (Hm s)) as (evs & Hl & Hf). eauto. Qed.

(** A run, read through its log. *)
Lemma traces_run {A} (m : M state A) (Q : outcome A → list event → Prop) s o s' :
  traces m Q → m s = (o, s') → ∃ evs, st_log s' = st_log s ++ evs ∧ Q o evs.
Proof. intros Hm E'. destruct (Hm s) as (evs & Hl & HQ). rewrite E' in *. eauto. Qed.

(** [ran m o evs]: some run of [m] has the outcome [o] and the events [evs]. *)
Definition ran {A} (m : M state A) (o : outcome A) (evs : list event) : Prop :=
  ∃ s s', m s = (o, s') ∧ st_log s' = st_log s ++ evs.

Lemma ran_traces {A} (m : M state A) (Q : outcome A → list event → Prop) o evs :
  traces m Q → ran m o evs → Q o evs.
Proof.
  intros Hm (s & s' & Hr & Hl). destruct (traces_run m Q s o s' Hm Hr) as (evs' & Hl' & HQ).
  rewrite Hl in Hl'. by apply app_inv_head in Hl' as ->.
Qed.

Lemma traces_ran {A} P (m : M state A) : calls_only P m → traces m (λ o evs, ran m o evs ∧ Forall P evs).
Proof.
  intros Hm s. destruct (grows_log _ _ _ (Hm s)) as (evs & Hl & Hf). exists evs. split; [done|]. split; [|done].
  exists s, (m s).2. split; [apply surjective_pairing|done].
Qed.

(** What holds of every outcome, without a look at the events. *)
Lemma traces_outcome {A} (m : M state A) (R : outcome A → Prop) s :
  traces m (λ o _, R o) → wp m (λ o _, R o) s.
Proof. intros Hm. destruct (Hm s) as (evs & _ & HR). unfold wp. by destruct (m s). Qed.

(** ** Safe computations

    [safe I m]: from a state in [I], [m] returns a result or an error (it does
    not panic and its loops end) in a state in [I] again. [ends I m] is the same
    but for panics, which are allowed. *)
Definition safe_or (D : Prop) {A} (I : state → Prop) (m : M state A) : Prop :=
  ∀ s, I s → match m s with
             | (Ok _, s') | (Err _, s') => I s'
             | (Panic _, _) => D
             | (OutOfFuel, _) => False
             end.

Notation safe := (safe_or False).
Notation ends := (safe_or True).

(** What a state invariant must be closed under to survive calls. *)
Class Stable (I : state → Prop) : Prop :=
  stable : ∀ A (c : call A) r w s, handle c (st_world s) = (r, w) → I s → I (after c r w s).

#[export] Instance Stable_True : Stable (λ _, True).
Proof. done. Qed.

Lemma wp_safe_or {A} D I (m : M state A) s :
  safe_or D I m → I s → wp m (λ o s', match o with Ok _ | Err _ => I s' | Panic _ => D | OutOfFuel => False end) s.
Proof. intros Hm Hs. specialize (Hm s Hs). unfold wp. by destruct (m s) as [[] s']. Qed.

Lemma wp_safe {A} I (m : M state A) s :
  safe I m → I s → wp m (λ o s', match o with Ok _ | Err _ => I s' | _ => False end) s.
Proof. intros Hm Hs. eapply wp_mono; [by apply (wp_safe_or False I)|]. by intros []. Qed.

Lemma safe_or_mono {A} (D D' : Prop) I (m : M state A) : (D → D') → safe_or D I m → safe_or D' I m.
Proof. intros HD Hm s Hs. specialize (Hm s Hs). destruct (m s) as [[] s']; auto. Qed.

Lemma safe_safe_or {A} D I (m : M state A) : safe I m → safe_or D I m.
Proof. by apply safe_or_mono. Qed.

(** [gives R m]: [m] ends, and its result, if it has one, satisfies [R]. *)
Definition gives_or (D : Prop) {A} (R : A → Prop) (m : M state A) : Prop :=
  ∀ s, match m s with
       | (Ok a, _) => R a
       | (Err _, _) => True
       | (Panic _, _) => D
       | (OutOfFuel, _) => False
       end.

Notation gives := (gives_or False).

Lemma gives_throw {A} D (R : A → Prop) e : gives_or D R (throw e).
Proof. done. Qed.

Lemma gives_bind {A B} D (R : B → Prop) (m : M state A) (k : A → M state B) :
  safe_or D (λ _, True) m → (∀ a, gives_or D R (k a)) → gives_or D R (bind m k).
Proof.
  intros Hm Hk s. specialize (Hm s I). unfold bind. destruct (m s) as [[a|e|msg|] s']; try done. apply Hk.
Qed.

(** *** Panics

    [panics_only D m]: whenever [m] panics, one of its calls was answered as
    [D] says. *)
Definition panics_only (D : event → Prop) {A} (m : M state A) : Prop :=
  traces m (λ o evs, match o with Panic _ => Exists D evs | _ => True end).

(** How a computation ends that may panic on an answer of [D] only. *)
Definition ended (D : event → Prop) {A} (o : outcome A) (evs : list event) : Prop :=
  match o with Ok _ | Err _ => True | Panic _ => Exists D evs | OutOfFuel => False end.

Lemma panics_only_bind {A B} D (m : M state A) (k : A → M state B) :
  panics_only D m → (∀ a, panics_only D (k a)) → panics_only D (bind m k).
Proof.
  intros Hm Hk. apply traces_bind. eapply traces_mono; [exact Hm|]. intros [a|e|msg|] evs Hd; try done.
  eapply traces_mono; [apply Hk|]. intros [b|e|msg|] evs' Hd'; try done. apply Exists_app. by right.
Qed.

Lemma panics_only_mono {A} (D D' : event → Prop) (m : M state A) :
  (∀ e, D e → D' e) → panics_only D m → panics_only D' m.
Proof. intros HD Hm. eapply traces_mono; [exact Hm|]. intros [] evs He; try done. by eapply Exists_impl. Qed.

Lemma panics_only_safe {A} D P (m : M state A) : calls_only P m → safe (λ _, True) m → panics_only D m.
Proof.
  intros Hc Hm s. destruct (grows_log _ _ _ (Hc s)) as (evs & Hl & _). exists evs. split; [done|].
  specialize (Hm s I). by destruct (m s) as [[] s'].
Qed.

Lemma panics_only_try {A} D (m : M state A) : panics_only D m → panics_only D (try m).
Proof. intros Hm. apply traces_try. eapply traces_mono; [exact Hm|]. by intros []. Qed.

Lemma panics_only_wrap {A} D pre (m : M state A) : panics_only D m → panics_only D (wrap pre m).
Proof. intros Hm. apply traces_wrap. eapply traces_mono; [exact Hm|]. by intros []. Qed.

Lemma panics_only_for_each {A} D (l : list A) f : (∀ x, panics_only D (f x)) → panics_only D (for_each l f).
Proof. intros Hf. induction l as [|x l IH]; simpl; [by apply traces_ret|]. by apply panics_only_bind. Qed.

Lemma panics_only_perform {A} D (c : call A) : panics_only D (perform c).
Proof. apply traces_perform. by intros []. Qed.

Lemma panics_only_ret {A} D (a : A) : panics_only D (ret a).
Proof. by apply traces_ret. Qed.

Lemma panics_only_throw {A} D e : panics_only D (throw (A := A) e).
Proof. by apply traces_throw. Qed.

Lemma panics_only_of_result {A} D (r : error + A) : panics_only D (of_result r).
Proof. apply traces_of_result. by destruct r. Qed.

Lemma panics_only_clock D : panics_only D clock.
Proof. by apply traces_clock. Qed.

Lemma panics_only_sleep D d : panics_only D (sleep d).
Proof. by apply traces_sleep. Qed.

Lemma panics_only_fuel {A} D : panics_only D (out_of_fuel (A := A)).
Proof. by apply traces_fuel. Qed.

Lemma traces_gives {A} D (R : A → Prop) (m : M state A) :
  panics_only D m → gives_or True R m →
  traces m (λ o evs, match o with Ok a => R a | _ => ended D o evs end).
Proof.
  intros Hp Hm s. destruct (Hp s) as (evs & Hl & Hd). exists evs. split; [done|].
  specialize (Hm s). by destruct (m s) as [[] s'].
Qed.

Lemma traces_ends {A} D (m : M state A) : panics_only D m → ends (λ _, True) m → traces m (ended D).
Proof.
  intros Hp Hm s. destruct (Hp s) as (evs & Hl & Hd). exists evs. split; [done|].
  specialize (Hm s I). by destruct (m s) as [[] s'].
Qed.

(** A safe computation, seen through its outcome. *)
Lemma traces_safe {A} P (m : M state A) :
  calls_only P m → safe (λ _, True) m →
  traces m (λ o evs, match o with Ok _ | Err _ => True | _ => False end).
Proof.
  intros Hc Hm s. destruct (grows_log _ _ _ (Hc s)) as (evs & Hl & _). exists evs. split; [done|].
  specialize (Hm s I). by destruct (m s) as [[] s'].
Qed.

Lemma safe_ret {A} D I (a : A) : safe_or D I (ret a).
Proof. by intros s Hs. Qed.
Lemma safe_throw {A} D I e : safe_or D I (throw (A := A) e).
Proof. by intros s Hs. Qed.
Lemma safe_of_result {A} D I (r : error + A) : safe_or D I (of_result r).
Proof. intros s Hs. by destruct r. Qed.
Lemma safe_clock D I : safe_or D I clock.
Proof. by intros s Hs. Qed.
Lemma ends_panic {A} I msg : ends I (panic (A := A) msg).
Proof. by intros s Hs. Qed.

Lemma safe_perform {A} D I `{!Stable I} (c : call A) : safe_or D I (perform c).
Proof.
  intros s Hs. unfold perform. destruct (handle c (st_world s)) as [r w] eqn:Eh.
  destruct r; by eapply stable.
Qed.

Lemma safe_bind {A B} D I (m : M state A) (k : A → M state B) :
  safe_or D I m → (∀ a, safe_or D I (k a)) → safe_or D I (bind m k).
Proof.
  intros Hm Hk s Hs. specialize (Hm s Hs). unfold bind.
  destruct (m s) as [[a|e|msg|] s']; [by apply Hk|done..].
Qed.

Lemma safe_try {A} D I (m : M state A) : safe_or D I m → safe_or D I (try m).
Proof. intros Hm s Hs. specialize (Hm s Hs). unfold try. by destruct (m s) as [[] s']. Qed.

Lemma safe_wrap {A} D I pre (m : M state A) : safe_or D I m → safe_or D I (wrap pre m).
Proof. intros Hm s Hs. specialize (Hm s Hs). unfold wrap. by destruct (m s) as [[] s']. Qed.

Lemma safe_for_each {A} D I (l : list A) f : (∀ x, safe_or D I (f x)) → safe_or D I (for_each l f).
Proof.
  intros Hf. induction l as [|x l IH]; simpl; [apply safe_ret|]. by apply safe_bind.
Qed.

End env.

Notation safe := (safe_or False).
Notation ends := (safe_or True).
Notation gives := (gives_or False).

#[global] Arguments state {E}.
#[export] Hint Resolve grows_refl grows_after grows_sleep : capn.
#[export] Hint Extern 1 (safe_or _ _ (incus _ _)) => apply safe_perform : capn.
#[export] Hint Extern 1 (safe_or _ _ (kube _)) => apply safe_perform : capn.
#[export] Hint Extern 1 (safe_or _ _ (host _)) => apply safe_perform : capn.
#[export] Hint Resolve safe_ret safe_throw safe_of_result safe_clock ends_panic : capn.
#[export] Hint Resolve panics_only_ret panics_only_throw panics_only_of_result panics_only_clock panics_only_sleep
  panics_only_fuel : capn.
#[export] Hint Resolve calls_only_ret calls_only_throw calls_only_panic calls_only_fuel
  calls_only_of_result calls_only_clock calls_only_sleep : capn.

(** An environment that answers every call with one error, and whose clock only
    runs while the program sleeps. *)
Definition failing_env (e : error) : Env :=
  {| world := Z; handle := λ A c w, (inl e, w); now := λ w, w; elapse := λ d w, (w + d)%Z |}.

Definition failing_state (e : error) : @state (failing_env e) := @Build_state (failing_env e) 0%Z [].

(** ** Kinds of events *)

(** Calls that cannot change anything on the Incus server. *)
Definition icall_reads {A} (c : icall A) : bool :=
  match c with
  | GetServer | GetInstanceState _ | GetInstanceFull _ | GetInstancesFull | GetOperations
  | RawOperation _ | WaitContext _ _ | GetInstanceMetadata _ | GetInstanceFile _ _
  | GetNetwork _ | GetNetworkLoadBalancer _ _ | GetNetworkLoadBalancerState _ _
  | GetStoragePools | GetInstance _ | GetImageAlias _ | GetImage _ | GetImageFile _ _ => true
  | _ => false
  end.

(** The event is not an Incus call that could change the server. *)
Definition no_incus_write (e : event) : Prop :=
  match projT2 e with
  | (CIncus _ c, _) => icall_reads c = true
  | _ => True
  end.

(** The path is a directory: the call has no reader for it. *)
Definition is_directory (e : event) : Prop :=
  match e with
  | existT A (CIncus _ (GetInstanceFile _ _), inr (None, _)) => True
  | _ => False
  end.

(** The event is not an Incus call. *)
Definition no_incus (e : event) : Prop :=
  match projT2 e with
  | (CIncus _ _, _) => False
  | _ => True
  end.

Lemma no_incus_no_write e : no_incus e → no_incus_write e.
Proof. unfold no_incus, no_incus_write. by destruct (projT2 e) as [[] r]. Qed.

(** Proves [calls_only P m] by following the structure of [m]. *)
Ltac calls_step :=
  match goal with
  | |- ∀ _, _ => intros ?
  | |- calls_only _ (bind _ _) => apply calls_only_bind
  | |- calls_only _ (try _) => apply calls_only_try
  | |- calls_only _ (wrap _ _) => apply calls_only_wrap
  | |- calls_only _ (for_each _ _) => apply calls_only_for_each
  | |- calls_only _ (incus _ _) => apply calls_only_perform
  | |- calls_only _ (kube _) => apply calls_only_perform
  | |- calls_only _ (host _) => apply calls_only_perform
  | |- calls_only _ (perform _) => apply calls_only_perform
  | |- calls_only _ (match ?x with _ => _ end) => destruct x eqn:?
  | _ => solve [auto with capn | done]
  end.

Ltac calls_auto := repeat calls_step.

(** Proves [safe I m] by following the structure of [m]. *)
Ltac safe_step :=
  match goal with
  | |- ∀ _, _ => intros ?
  | |- safe_or _ _ (bind _ _) => apply safe_bind
  | |- safe_or _ _ (try _) => apply safe_try
  | |- safe_or _ _ (wrap _ _) => apply safe_wrap
  | |- safe_or _ _ (for_each _ _) => apply safe_for_each
  | |- safe_or _ _ (incus _ _) => apply safe_perform
  | |- safe_or _ _ (kube _) => apply safe_perform
  | |- safe_or _ _ (host _) => apply safe_perform
  | |- safe_or _ _ (perform _) => apply safe_perform
  | |- safe_or _ _ (match ?x with _ => _ end) => destruct x eqn:?
  | _ => solve [auto with capn typeclass_instances | done]
  end.

Ltac safe_auto := repeat safe_step.

(** Proves [panics_only D m] by following the structure of [m]. *)
Ltac panics_step :=
  match goal with
  | |- ∀ _, _ => intros ?
  | |- panics_only _ (bind _ _) => apply panics_only_bind
  | |- panics_only _ (try _) => apply panics_only_try
  | |- panics_only _ (wrap _ _) => apply panics_only_wrap
  | |- panics_only _ (for_each _ _) => apply panics_only_for_each
  | |- panics_only _ (incus _ _) => apply panics_only_perform
  | |- panics_only _ (kube _) => apply panics_only_perform
  | |- panics_only _ (host _) => apply panics_only_perform
  | |- panics_only _ (perform _) => apply panics_only_perform
  | |- panics_only _ (match ?x with _ => _ end) => destruct x eqn:?
  | _ => solve [auto with capn | done]
  end.

Ltac panics_auto := repeat panics_step.

(** Symbolic execution in the logic of logs. *)
Ltac tr_step :=
  lazymatch goal with
  | |- traces (bind _ _) _ => apply traces_bind
  | |- traces (ret _) _ => apply traces_ret
  | |- traces (throw _) _ => apply traces_throw
  | |- traces (panic _) _ => apply traces_panic
  | |- traces out_of_fuel _ => apply traces_fuel
  | |- traces (try _) _ => apply traces_try
  | |- traces (wrap _ _) _ => apply traces_wrap
  | |- traces (of_result _) _ => apply traces_of_result
  | |- traces clock _ => apply traces_clock; intros ?
  | |- traces (sleep _) _ => apply traces_sleep
  | |- traces (incus _ _) _ => apply traces_perform; intros [?|?]
  | |- traces (kube _) _ => apply traces_perform; intros [?|?]
  | |- traces (host _) _ => apply traces_perform; intros [?|?]
  | |- traces (perform _) _ => apply traces_perform; intros [?|?]
  | |- traces (match ?x with _ => _ end) _ => destruct x eqn:?
  end; cbn beta iota zeta.

Ltac tr_steps := repeat tr_step.
