(* ===== verification/Images.v ===== *)
(** * Image sources: internal/lxc/consts.go, images.go, images_parse.go, images_sources.go *)

From S2P Require Import Prelude GoStrings Go Api World.

(** ** Constants: consts.go *)

Definition DefaultSimplestreamsServer : string := "https://d14dnvi2l3tc5t.cloudfront.net".
Definition DefaultStagingSimplestreamsServer : string := "https://djapqxqu5n2qu.cloudfront.net".
Definition DefaultIncusSimplestreamsServer : string := "https://images.linuxcontainers.org".
Definition DefaultLXDSimplestreamsServer : string := "https://images.lxd.canonical.com".
Definition DefaultLXDUbuntuSimplestreamsServer : string := "https://cloud-images.ubuntu.com/releases/".
Definition DockerHubServer : string := "https://docker.io".
Definition Container : string := "container".
Definition VirtualMachine : string := "virtual-machine".
Definition Incus : string := "incus".
Definition LXD : string := "lxd".
Definition OCI : string := "oci".
Definition Simplestreams : string := "simplestreams".

(** Timeouts, in milliseconds. *)
Definition instanceCreateTimeout : Z := 180000.
Definition instanceStartTimeout : Z := 60000.
Definition instanceStopTimeout : Z := 30000.
Definition instanceDeleteTimeout : Z := 30000.

(** ** Images: images.go *)

(** Image is an image source for instances. *)
Record Image := {
  img_Fingerprint : string; img_Protocol : string; img_Server : string; img_Alias : string
}.

#[export] Instance Image_eq_dec : EqDecision Image.
Proof. solve_decision. Defined.

(** The implementations of the interface [ImageFamily]: an [Image], or a
    description with an image for each server. *)
Inductive ImageFamily :=
| OfImage (i : Image)
| imageFamily (Description : string) (Sources : gmap string Image).

(** The methods [For(serverName)]. *)
Definition For (f : ImageFamily) (serverName : string) : error + Image :=
  match f with
  | OfImage i => inr i
  | imageFamily Description Sources =>
      match Sources !! serverName with
      | None => inl (TerminalError (errorString ("no source for " +s+ quote Description +s+
                  " images for server " +s+ quote serverName)))
      | Some img => inr img
      end
  end.

Definition Image_ImageSource (i : Image) : ImageSource :=
  {| isrc_Protocol := img_Protocol i; isrc_Server := img_Server i; isrc_Alias := img_Alias i |}.

Definition Image_InstanceSource (i : Image) : InstanceSource :=
  {| src_Type := "image"; src_Protocol := img_Protocol i; src_Server := img_Server i;
     src_Alias := img_Alias i; src_Fingerprint := img_Fingerprint i |}.

(** ** Well-known images: images_sources.go *)

Definition mkImage (protocol server alias : string) : Image :=
  {| img_Fingerprint := ""; img_Protocol := protocol; img_Server := server; img_Alias := alias |}.

Definition UbuntuImage (version : string) : ImageFamily :=
  imageFamily "ubuntu"
    {[ Incus := mkImage Simplestreams DefaultIncusSimplestreamsServer ("ubuntu/" +s+ version +s+ "/cloud");
       LXD := mkImage Simplestreams DefaultLXDUbuntuSimplestreamsServer version ]}.

Definition DebianImage (version : string) : ImageFamily :=
  imageFamily "debian"
    {[ Incus := mkImage Simplestreams DefaultIncusSimplestreamsServer ("debian/" +s+ version +s+ "/cloud");
       LXD := mkImage Simplestreams DefaultLXDSimplestreamsServer ("debian/" +s+ version +s+ "/cloud") ]}.

Definition DefaultImage (image : string) : ImageFamily :=
  imageFamily "images"
    {[ Incus := mkImage Simplestreams DefaultIncusSimplestreamsServer image;
       LXD := mkImage Simplestreams DefaultLXDSimplestreamsServer image ]}.

Definition CapnImage (image : string) : Image :=
  mkImage Simplestreams DefaultSimplestreamsServer image.

Definition CapnStagingImage (image : string) : Image :=
  mkImage Simplestreams DefaultStagingSimplestreamsServer image.

Definition KindestNodeImage (version : string) : Image :=
  mkImage OCI DockerHubServer ("kindest/node:" +s+ version).

(** ** Parsing image names: images_parse.go *)

Definition wellKnownImages : gmap string (string → ImageFamily) :=
  {[ "ubuntu" := UbuntuImage;
     "debian" := DebianImage;
     "images" := DefaultImage;
     "capi" := λ i, OfImage (CapnImage i);
     "capi-stg" := λ i, OfImage (CapnStagingImage i);
     "kind" := λ i, OfImage (KindestNodeImage i) ]}.

Section parse.
Context `{MapRange}.

(** [ParseImage]: [inr None] is the result (nil, false, nil), [inr (Some f)]
    the result (f, true, nil). *)
Definition ParseImage (imageName : string) : error + option ImageFamily :=
  match Split imageName ":" with
  | [prefix; image] =>
      match wellKnownImages !! prefix with
      | Some f => inr (Some (f image))
      | None =>
          inl (errorString ("unknown image prefix " +s+ quote prefix +s+ ", must be one of " +s+
                 format_slice (map fst (range wellKnownImages))))
      end
  | _ => inr None
  end.

End parse.

(** ** Checking that an image exists: [Image.Check] *)

Section check.
Context `{E : Env}.

Definition check_simplestreams (i : Image) (instanceType : string) : M state unit :=
  wrap ("failed to connect to simplestreams server " +s+ quote (img_Server i) +s+ ": ")
    (host (ConnectSimpleStreams (img_Server i))) ;;
  let! r := try (host (GetImageAliasType (img_Server i) instanceType (img_Alias i))) in
  match r with
  | inl err => throw (TerminalError (Errorf_w ("no image with alias " +s+ quote (img_Alias i) +s+
                 " found on the simplestreams server " +s+ quote (img_Server i) +s+ ": ") err))
  | inr _ => ret tt
  end.

(** The image reference and whether the registry is insecure (plain HTTP). *)
Definition oci_reference (i : Image) : option (string * bool) :=
  match CutPrefix (img_Server i) "https://" with
  | (server, true) => Some (server +s+ "/" +s+ img_Alias i, false)
  | (_, false) =>
      match CutPrefix (img_Server i) "http://" with
      | (server, true) => Some (server +s+ "/" +s+ img_Alias i, true)
      | (_, false) => None
      end
  end.

Definition check_oci (i : Image) : M state unit :=
  match oci_reference i with
  | None => throw (TerminalError (errorString ("server " +s+ quote (img_Server i) +s+
              " is not an HTTP or HTTPS server")))
  | Some (imageRef, insecure) =>
      let! r := try (host (CraneHead imageRef insecure)) in
      match r with
      | inr _ => ret tt
      | inl e =>
          let err := Errorf_w ("HEAD request for image " +s+ quote imageRef +s+ " failed: ") e in
          if Contains (Error err) "unexpected status code 4"
          then throw err
          else throw (TerminalError (Errorf_w "fatal error: " err))
      end
  end.

(** Check runs a local check that the image is available on the upstream
    server. *)
Definition Image_Check (i : Image) (instanceType : string) : M state unit :=
  if decide (img_Protocol i = Simplestreams) then check_simplestreams i instanceType
  else if decide (img_Protocol i = OCI) then check_oci i
  else throw (errorString ("check not supported for protocol " +s+ quote (img_Protocol i))).

End check.

(** ** Properties *)

Section parse_properties.
Context `{MapRange}.

Lemma ParseImage_prefix prefix image :
  ":"%char ∉ chars prefix → ":"%char ∉ chars image →
  ParseImage (prefix +s+ ":" +s+ image) =
    match wellKnownImages !! prefix with
    | Some f => inr (Some (f image))
    | None => inl (errorString ("unknown image prefix " +s+ quote prefix +s+ ", must be one of " +s+
                     format_slice (map fst (range wellKnownImages))))
    end.
Proof.
  intros Hp Hi. unfold ParseImage.
  assert (Split (prefix +s+ ":" +s+ image) ":" = [prefix; image]) as ->; [|done].
  apply (Split_Join ":"%char [prefix; image]); [done|by repeat constructor].
Qed.

(** What the documentation of [LXCMachineImageSource.Name] promises for the
    well-known prefixes on each server. *)
Definition documented_image (prefix server image : string) : option Image :=
  if decide (prefix = "capi") then Some (mkImage Simplestreams "https://d14dnvi2l3tc5t.cloudfront.net" image)
  else if decide (prefix = "capi-stg") then Some (mkImage Simplestreams "https://djapqxqu5n2qu.cloudfront.net" image)
  else if decide (prefix = "kind") then Some (mkImage OCI "https://docker.io" ("kindest/node:" +s+ image))
  else if decide (server = Incus) then
    if decide (prefix = "ubuntu") then Some (mkImage Simplestreams "https://images.linuxcontainers.org" ("ubuntu/" +s+ image +s+ "/cloud"))
    else if decide (prefix = "debian") then Some (mkImage Simplestreams "https://images.linuxcontainers.org" ("debian/" +s+ image +s+ "/cloud"))
    else if decide (prefix = "images") then Some (mkImage Simplestreams "https://images.linuxcontainers.org" image)
    else None
  else if decide (server = LXD) then
    if decide (prefix = "ubuntu") then Some (mkImage Simplestreams "https://cloud-images.ubuntu.com/releases/" image)
    else if decide (prefix = "debian") then Some (mkImage Simplestreams "https://images.lxd.canonical.com" ("debian/" +s+ image +s+ "/cloud"))
    else if decide (prefix = "images") then Some (mkImage Simplestreams "https://images.lxd.canonical.com" image)
    else None
  else None.

(** C30: A name of the form PREFIX:IMAGE resolves on a server to the documented
    image source, and is refused when the prefix is unknown or has no source
    for that server; the failure for a missing source is terminal. *)
Theorem ParseImage_documented (prefix server image : string) :
  ":"%char ∉ chars prefix → ":"%char ∉ chars image →
  match ParseImage (prefix +s+ ":" +s+ image) with
  | inr (Some f) =>
      match For f server with
      | inr img => documented_image prefix server image = Some img
      | inl e => documented_image prefix server image = None ∧ IsTerminalError e = true
      end
  | inr None => False
  | inl e => documented_image prefix server image = None
  end.
Proof.
  intros Hp Hi. rewrite ParseImage_prefix by done. unfold wellKnownImages.
  split_lookups; simpl; try done; unfold documented_image; split_lookups; simpl.
  all: repeat match goal with
  | |- context [decide (?x = ?y)] => rewrite (decide_False (P := x = y)) by congruence
  end; try done.
  by repeat case_decide.
Qed.

End parse_properties.

Lemma ParseImage_documented_witness :
  match ParseImage "debian:12" with
  | inr (Some f) => For f "lxd" = inr (mkImage Simplestreams "https://images.lxd.canonical.com" "debian/12/cloud")
  | _ => False
  end.
Proof.
  assert (":"%char ∉ chars "debian") as H1 by compute_done.
  assert (":"%char ∉ chars "12") as H2 by compute_done.
  pose proof (ParseImage_documented "debian" "lxd" "12" H1 H2) as Hw.
  change ("debian" +s+ ":" +s+ "12") with "debian:12" in Hw.
  destruct (ParseImage "debian:12") as [e|[f|]]; [discriminate Hw| |destruct Hw].
  destruct (For f "lxd") as [e|img]; [destruct Hw as [Hw _]; discriminate Hw|].
  vm_compute in Hw. injection Hw as <-. reflexivity.
Defined.

(** ** What a failed check means *)

Section check_properties.
Context `{E : Env}.

(** Checking an OCI image ends for every answer of the registry. When the
    registry refuses the request, the error is terminal exactly when its text
    does not report a status of the 400 class: an image that does not exist
    (404) is retried, while a failure of the registry or of the network is
    final. A server that is neither HTTP nor HTTPS is refused without a
    request. *)
Theorem OCI_Check_classification (i : Image) (instanceType : string) (s : state) :
  img_Protocol i = OCI →
  match oci_reference i with
  | None => ∃ e, Image_Check i instanceType s = (Err e, s) ∧ IsTerminalError e = true
  | Some (ref, insecure) =>
      match handle (CHost (CraneHead ref insecure)) (st_world s) with
      | (inr _, _) => (Image_Check i instanceType s).1 = Ok tt
      | (inl cause, _) =>
          IsTerminalError cause = false →
          ∃ e, (Image_Check i instanceType s).1 = Err e ∧
               IsTerminalError e =
                 negb (Contains ("HEAD request for image " +s+ quote ref +s+ " failed: " +s+ Error cause)
                         "unexpected status code 4")
      end
  end.
Proof.
  intros Hp. unfold Image_Check, check_oci. rewrite Hp. cbn [decide].
  rewrite decide_False by done. rewrite decide_True by done.
  destruct (oci_reference i) as [[ref insecure]|]; [|by eexists].
  unfold bind, try, host, perform. destruct (handle _ (st_world s)) as [[cause|u] w]; [|done].
  intros Hc. cbn beta iota. rewrite Error_Errorf, !string_app_assoc.
  destruct (Contains _ _); simpl; eauto.
Qed.

End check_properties.

(** A missing image (status 404) is reported with a retriable error, and a
    registry that fails (status 503) with a terminal one. *)
Lemma OCI_Check_classification_witness :
  let check := λ cause, (Image_Check (E := failing_env (errorString cause)) (KindestNodeImage "v1.99.0") Container
                           (failing_state (errorString cause))).1 in
  (∃ e, check "unexpected status code 404 Not Found" = Err e ∧ IsTerminalError e = false) ∧
  (∃ e, check "unexpected status code 503 Service Unavailable" = Err e ∧ IsTerminalError e = true).
Proof.
  intros check. split.
  - destruct (OCI_Check_classification (E := failing_env (errorString "unexpected status code 404 Not Found"))
      (KindestNodeImage "v1.99.0") Container (failing_state _) eq_refl eq_refl) as (e & He & Ht).
    exists e. split; [exact He|]. rewrite Ht. vm_compute. reflexivity.
  - destruct (OCI_Check_classification (E := failing_env (errorString "unexpected status code 503 Service Unavailable"))
      (KindestNodeImage "v1.99.0") Container (failing_state _) eq_refl eq_refl) as (e & He & Ht).
    exists e. split; [exact He|]. rewrite Ht. vm_compute. reflexivity.
Defined.
