(* ===== verification/Launch.v ===== *)
(** * Launch options: internal/lxc/launch_options.go, launch_options_files.go,
      launch_options_complete.go *)

From S2P Require Import Prelude GoStrings Go Api World Images.

(** ** Files to create on an instance: launch_options_files.go *)

(** The implementations of [instanceFileCreator]. *)
Inductive instanceFileCreator :=
| createFile (Path Contents : string)
| createDirectory (Path : string)
| createSymlink (Path Target : string)
| appendTextToFile (Path Contents : string).

Definition ifc_path (f : instanceFileCreator) : string :=
  match f with
  | createFile p _ | createDirectory p | createSymlink p _ | appendTextToFile p _ => p
  end.

Definition ifc_action (f : instanceFileCreator) : string :=
  match f with
  | createFile p _ => "CreateInstanceFile(" +s+ quote p +s+ ")"
  | createDirectory p => "CreateDirectory(" +s+ quote p +s+ ")"
  | createSymlink p t => "CreateSymlink(" +s+ quote p +s+ " => " +s+ quote t +s+ ")"
  | appendTextToFile p _ => "AppendToFile(" +s+ quote p +s+ ")"
  end.

(** Modes are 0644 = 420 and 0755 = 493. *)
Definition ifc_args (f : instanceFileCreator) : InstanceFileArgs :=
  match f with
  | createFile _ c => {| fa_Content := c; fa_Type := ""; fa_Mode := 420; fa_UID := 0; fa_GID := 0; fa_WriteMode := "" |}
  | createDirectory _ => {| fa_Content := ""; fa_Type := "directory"; fa_Mode := 493; fa_UID := 0; fa_GID := 0; fa_WriteMode := "" |}
  | createSymlink _ t => {| fa_Content := t; fa_Type := "symlink"; fa_Mode := 420; fa_UID := 0; fa_GID := 0; fa_WriteMode := "" |}
  | appendTextToFile _ c => {| fa_Content := c; fa_Type := "file"; fa_Mode := 0; fa_UID := 0; fa_GID := 0; fa_WriteMode := "append" |}
  end.

(** ** The options: launch_options.go

    A map field of the struct is an [option]: [None] is the nil map. *)

Record LaunchOptions := {
  lo_instanceTemplates : option (gmap string string);
  lo_createFiles : list instanceFileCreator;
  lo_replacements : option (gmap string (gmap string string));
  lo_devices : option (gmap string (gmap string string));
  lo_config : option (gmap string string);
  lo_profiles : list string;
  lo_image : option ImageFamily;
  lo_flavor : string;
  lo_instanceType : string;
  lo_unixSocket : bool
}.

(** [&LaunchOptions{}] *)
Definition emptyLaunchOptions : LaunchOptions :=
  {| lo_instanceTemplates := None; lo_createFiles := []; lo_replacements := None; lo_devices := None;
     lo_config := None; lo_profiles := []; lo_image := None; lo_flavor := ""; lo_instanceType := "";
     lo_unixSocket := false |}.

(** [if m == nil { m = maps.Clone(new) } else { maps.Copy(m, new) }] *)
Definition clone_or_copy {V} (m new : option (gmap string V)) : option (gmap string V) :=
  match m with
  | None => new
  | Some m => Some (default ∅ new ∪ m)
  end.

Definition WithInstanceTemplates (new : option (gmap string string)) (o : LaunchOptions) : LaunchOptions :=
  {| lo_instanceTemplates := clone_or_copy (lo_instanceTemplates o) new;
     lo_createFiles := lo_createFiles o; lo_replacements := lo_replacements o; lo_devices := lo_devices o;
     lo_config := lo_config o; lo_profiles := lo_profiles o; lo_image := lo_image o; lo_flavor := lo_flavor o;
     lo_instanceType := lo_instanceType o; lo_unixSocket := lo_unixSocket o |}.

Definition with_files (files : list instanceFileCreator) (o : LaunchOptions) : LaunchOptions :=
  {| lo_instanceTemplates := lo_instanceTemplates o; lo_createFiles := lo_createFiles o ++ files;
     lo_replacements := lo_replacements o; lo_devices := lo_devices o;
     lo_config := lo_config o; lo_profiles := lo_profiles o; lo_image := lo_image o; lo_flavor := lo_flavor o;
     lo_instanceType := lo_instanceType o; lo_unixSocket := lo_unixSocket o |}.

Section files.
Context `{MapRange}.

Definition WithCreateFiles (new : gmap string string) : LaunchOptions → LaunchOptions :=
  with_files (map (λ kv, createFile kv.1 kv.2) (range new)).

Definition WithAppendToFiles (new : gmap string string) : LaunchOptions → LaunchOptions :=
  with_files (map (λ kv, appendTextToFile kv.1 kv.2) (range new)).

Definition WithSymlinks (new : gmap string string) : LaunchOptions → LaunchOptions :=
  with_files (map (λ kv, createSymlink kv.1 kv.2) (range new)).

End files.

Definition WithDirectories (new : list string) : LaunchOptions → LaunchOptions :=
  with_files (map createDirectory new).

Definition WithReplacements (new : option (gmap string (gmap string string))) (o : LaunchOptions) : LaunchOptions :=
  {| lo_instanceTemplates := lo_instanceTemplates o; lo_createFiles := lo_createFiles o;
     lo_replacements := clone_or_copy (lo_replacements o) new; lo_devices := lo_devices o;
     lo_config := lo_config o; lo_profiles := lo_profiles o; lo_image := lo_image o; lo_flavor := lo_flavor o;
     lo_instanceType := lo_instanceType o; lo_unixSocket := lo_unixSocket o |}.

Definition WithDevices (new : option (gmap string (gmap string string))) (o : LaunchOptions) : LaunchOptions :=
  {| lo_instanceTemplates := lo_instanceTemplates o; lo_createFiles := lo_createFiles o;
     lo_replacements := lo_replacements o; lo_devices := clone_or_copy (lo_devices o) new;
     lo_config := lo_config o; lo_profiles := lo_profiles o; lo_image := lo_image o; lo_flavor := lo_flavor o;
     lo_instanceType := lo_instanceType o; lo_unixSocket := lo_unixSocket o |}.

Definition LO_WithConfig (new : option (gmap string string)) (o : LaunchOptions) : LaunchOptions :=
  {| lo_instanceTemplates := lo_instanceTemplates o; lo_createFiles := lo_createFiles o;
     lo_replacements := lo_replacements o; lo_devices := lo_devices o;
     lo_config := clone_or_copy (lo_config o) new; lo_profiles := lo_profiles o; lo_image := lo_image o;
     lo_flavor := lo_flavor o; lo_instanceType := lo_instanceType o; lo_unixSocket := lo_unixSocket o |}.

Definition WithProfiles (new : list string) (o : LaunchOptions) : LaunchOptions :=
  {| lo_instanceTemplates := lo_instanceTemplates o; lo_createFiles := lo_createFiles o;
     lo_replacements := lo_replacements o; lo_devices := lo_devices o;
     lo_config := lo_config o; lo_profiles := lo_profiles o ++ new; lo_image := lo_image o;
     lo_flavor := lo_flavor o; lo_instanceType := lo_instanceType o; lo_unixSocket := lo_unixSocket o |}.

Definition set_image (image : option ImageFamily) (o : LaunchOptions) : LaunchOptions :=
  {| lo_instanceTemplates := lo_instanceTemplates o; lo_createFiles := lo_createFiles o;
     lo_replacements := lo_replacements o; lo_devices := lo_devices o;
     lo_config := lo_config o; lo_profiles := lo_profiles o; lo_image := image;
     lo_flavor := lo_flavor o; lo_instanceType := lo_instanceType o; lo_unixSocket := lo_unixSocket o |}.

(** WithImage sets the instance image. WithImage is a no-op if an Image
    without an Alias or Fingerprint is passed. *)
Definition WithImage (image : option ImageFamily) (o : LaunchOptions) : LaunchOptions :=
  match image with
  | Some (OfImage i) =>
      if (0 <? String.length (img_Alias i))%nat || (0 <? String.length (img_Fingerprint i))%nat
      then set_image image o else o
  | _ => set_image image o
  end.

Definition WithFlavor (v : string) (o : LaunchOptions) : LaunchOptions :=
  {| lo_instanceTemplates := lo_instanceTemplates o; lo_createFiles := lo_createFiles o;
     lo_replacements := lo_replacements o; lo_devices := lo_devices o;
     lo_config := lo_config o; lo_profiles := lo_profiles o; lo_image := lo_image o;
     lo_flavor := v; lo_instanceType := lo_instanceType o; lo_unixSocket := lo_unixSocket o |}.

Definition WithInstanceType (v : string) (o : LaunchOptions) : LaunchOptions :=
  {| lo_instanceTemplates := lo_instanceTemplates o; lo_createFiles := lo_createFiles o;
     lo_replacements := lo_replacements o; lo_devices := lo_devices o;
     lo_config := lo_config o; lo_profiles := lo_profiles o; lo_image := lo_image o;
     lo_flavor := lo_flavor o; lo_instanceType := v; lo_unixSocket := lo_unixSocket o |}.

Definition WithUnixSocket (v : bool) (o : LaunchOptions) : LaunchOptions :=
  {| lo_instanceTemplates := lo_instanceTemplates o; lo_createFiles := lo_createFiles o;
     lo_replacements := lo_replacements o; lo_devices := lo_devices o;
     lo_config := lo_config o; lo_profiles := lo_profiles o; lo_image := lo_image o;
     lo_flavor := lo_flavor o; lo_instanceType := lo_instanceType o; lo_unixSocket := v |}.

(** ** Completing the options: launch_options_complete.go *)

(** [GetDefaultUnixSocketPathFor] of configuration_default.go. *)
Definition GetDefaultUnixSocketPathFor (serverName : string) : error + string :=
  match ({[ LXD := "/var/snap/lxd/common/lxd/unix.socket"; Incus := "/var/lib/incus/unix.socket" ]}
          : gmap string string) !! serverName with
  | None => inl (TerminalError (errorString ("unknown default unix socket path for server " +s+ quote serverName)))
  | Some path => inr path
  end.

(** If the OCI image is specified as [IMG[:TAG]@sha256:HASH], replace with
    [IMG@sha256:HASH]. *)
Definition strip_tag (image : Image) : Image :=
  if decide (img_Protocol image = OCI) then
    match Cut (img_Alias image) "@" with
    | (imageWithoutHash, hash, true) =>
        match Cut imageWithoutHash ":" with
        | (imageWithoutTag, _, _) =>
            {| img_Fingerprint := img_Fingerprint image; img_Protocol := img_Protocol image;
               img_Server := img_Server image; img_Alias := imageWithoutTag +s+ "@" +s+ hash |}
        end
    | (_, _, false) => image
    end
  else image.

Definition unix_socket_device (path : string) : gmap string (gmap string string) :=
  {[ "00-unix-socket" :=
       {[ "type" := "disk"; "source" := path; "path" := "/run-unix.socket"; "shift" := "true" ]} ]}.

Section complete.
Context `{MapRange}.

(** Virtual machine instances do not support unixSocket, createFiles or
    replacements. *)
Definition check_virtual_machine (o : LaunchOptions) : option error :=
  if decide (lo_instanceType o = VirtualMachine) then
    if lo_unixSocket o then
      Some (TerminalError (errorString "mounting unix socket not supported for virtual-machine instances"))
    else if (0 <? length (lo_createFiles o))%nat then
      Some (TerminalError (errorString ("operations not supported for virtual-machine instances: " +s+
              format_slice (map ifc_action (lo_createFiles o)))))
    else if (0 <? size (default ∅ (lo_replacements o)))%nat then
      Some (TerminalError (errorString ("replacements not supported for virtual-machine instances: " +s+
              format_slice (map fst (range (default ∅ (lo_replacements o)))))))
    else None
  else None.

(** Complete launch options and verify. *)
Definition complete (serverName : string) (o : LaunchOptions) : error + LaunchOptions :=
  match check_virtual_machine o with
  | Some e => inl e
  | None =>
      match lo_image o with
      | None => inl (TerminalError (errorString "cannot launch instance without image"))
      | Some family =>
          match For family serverName with
          | inl err => inl (Errorf_w "unsupported instance image: " err)
          | inr image =>
              let o := set_image (Some (OfImage (strip_tag image))) o in
              if lo_unixSocket o then
                match GetDefaultUnixSocketPathFor serverName with
                | inl err => inl (Errorf_w "failed to get unix socket path: " err)
                | inr path => inr (WithDevices (Some (unix_socket_device path)) o)
                end
              else inr o
          end
      end
  end.

End complete.

(** ** Properties *)

(** A map option read as a map: a nil map has no keys. *)
Definition lookup_opt {V} (m : option (gmap string V)) (k : string) : option V :=
  default ∅ m !! k.

Lemma lookup_clone_or_copy {V} (m new : option (gmap string V)) k :
  lookup_opt (clone_or_copy m new) k =
    match lookup_opt new k with Some v => Some v | None => lookup_opt m k end.
Proof.
  unfold lookup_opt, clone_or_copy. destruct m as [m|]; simpl.
  - rewrite lookup_union. by destruct (default ∅ new !! k), (m !! k).
  - rewrite lookup_empty. by destruct (default ∅ new !! k).
Qed.

Lemma clone_or_copy_idemp {V} (m new : option (gmap string V)) :
  clone_or_copy (clone_or_copy m new) new = clone_or_copy m new.
Proof.
  destruct m as [m|], new as [new|]; simpl; try done; f_equal.
  - by rewrite (assoc_L (∪)), (idemp_L (∪)).
  - by rewrite !(left_id_L ∅ (∪)).
  - by rewrite (idemp_L (∪)).
Qed.

Lemma Cut_before_free b c a s :
  Cut s (String c "") = (b, a, true) → c ∉ chars b.
Proof.
  unfold Cut. revert b a. induction s as [|d s IH]; intros b a; simpl; unfold HasPrefix; simpl; [done|].
  destruct (ascii_dec c d) as [->|Hne].
  - assert (String.prefix "" s = true) as -> by by destruct s. intros [= <- <-]. apply not_elem_of_nil.
  - destruct (cut_at s (String c "")) as [[b' a']|] eqn:Ec; [|done]. intros [= <- <-]. simpl.
    apply not_elem_of_cons. split; [done|]. by apply (IH b' a').
Qed.

Lemma Cut_fst_free c s : c ∉ chars (Cut s (String c "")).1.1.
Proof.
  destruct (Cut s (String c "")) as [[b a] []] eqn:Ec; simpl.
  - by eapply Cut_before_free.
  - unfold Cut in Ec. destruct (cut_at s _) as [[? ?]|] eqn:Ea; [done|]. injection Ec as <- _.
    apply cut_at_none_char. rewrite Contains_cut. by rewrite Ea.
Qed.

Lemma Cut_free c s : c ∉ chars s → Cut s (String c "") = (s, "", false).
Proof. intros Hn. unfold Cut. by rewrite cut_at_char_None. Qed.

Lemma chars_prefix_free (c d : ascii) s :
  c ∉ chars s → c ∉ chars (Cut s (String d "")).1.1.
Proof.
  intros Hc. destruct (Cut s (String d "")) as [[b a] []] eqn:Ec; simpl;
    unfold Cut in Ec; destruct (cut_at s _) as [[? ?]|] eqn:Ea; simplify_eq; [|done].
  rewrite (cut_at_app _ _ _ _ Ea), !chars_app, !not_elem_of_app in Hc. tauto.
Qed.

Lemma strip_tag_idemp i : strip_tag (strip_tag i) = strip_tag i.
Proof.
  unfold strip_tag. destruct (decide (img_Protocol i = OCI)) as [Hp|Hp]; [|by rewrite decide_False].
  destruct (Cut (img_Alias i) "@") as [[w h] []] eqn:E1; [|by rewrite decide_True, E1].
  destruct (Cut w ":") as [[t x] y] eqn:E2. simpl. rewrite decide_True by done.
  assert ("@"%char ∉ chars t) as Ht1.
  { pose proof (chars_prefix_free "@" ":" w (Cut_before_free _ _ _ _ E1)) as Hf. by rewrite E2 in Hf. }
  assert (":"%char ∉ chars t) as Ht2.
  { pose proof (Cut_fst_free ":" w) as Hf. by rewrite E2 in Hf. }
  rewrite (Cut_char t "@" h) by done. by rewrite Cut_free by done.
Qed.

Section complete_properties.
Context `{MapRange}.

Lemma complete_inv srv o o' :
  complete srv o = inr o' →
  ∃ family image, check_virtual_machine o = None ∧ lo_image o = Some family ∧
    For family srv = inr image ∧
    lo_image o' = Some (OfImage (strip_tag image)) ∧
    lo_instanceType o' = lo_instanceType o ∧ lo_createFiles o' = lo_createFiles o ∧
    lo_replacements o' = lo_replacements o ∧ lo_unixSocket o' = lo_unixSocket o ∧
    lo_instanceTemplates o' = lo_instanceTemplates o ∧ lo_config o' = lo_config o ∧
    lo_profiles o' = lo_profiles o ∧ lo_flavor o' = lo_flavor o.
Proof.
  unfold complete. intros Hc. repeat (split_match; try done); simplify_eq/=; eauto 20.
Qed.

(** Completing launch options is idempotent: completing what was completed
    changes nothing. A second attempt at launching an instance therefore sends
    the same request as the first. *)
Theorem complete_idempotent (srv : string) (o o' : LaunchOptions) :
  complete srv o = inr o' → complete srv o' = inr o'.
Proof.
  unfold complete. intros Hc.
  repeat (split_match; try done); simplify_eq/=;
    repeat match goal with
    | H : context [lo_unixSocket (set_image _ ?o)] |- _ => change (lo_unixSocket (set_image _ o)) with (lo_unixSocket o) in H
    end; simplify_eq/=.
  all: try (unfold check_virtual_machine in *; simpl in *; congruence).
  all: rewrite ?strip_tag_idemp; try done.
  all: unfold WithDevices, set_image; simpl; by rewrite clone_or_copy_idemp.
Qed.

(** Every failure to complete launch options is terminal: retrying a launch
    with the same options could not succeed. *)
Theorem complete_error_terminal (srv : string) (o : LaunchOptions) (e : error) :
  complete srv o = inl e → IsTerminalError e = true.
Proof.
  unfold complete, check_virtual_machine, GetDefaultUnixSocketPathFor. intros Hc.
  repeat (split_match; try done); simplify_eq/=; try done.
  all: match goal with H : For ?f _ = inl _ |- _ => destruct f; simpl in H end;
    repeat (split_match; try done); by simplify_eq/=.
Qed.

End complete_properties.

(** A kind node with a tag and a digest in its image name, and the unix socket. *)
Definition launch_example : LaunchOptions :=
  WithUnixSocket true (WithInstanceType Container
    (WithImage (Some (OfImage (mkImage OCI DockerHubServer "kindest/node:v1.33.0@sha256:abcd"))) emptyLaunchOptions)).

Lemma complete_idempotent_witness :
  ∃ o, complete Incus launch_example = inr o ∧ complete Incus o = inr o ∧
       lo_image o = Some (OfImage (mkImage OCI DockerHubServer "kindest/node@sha256:abcd")).
Proof.
  eexists. split; [reflexivity|]. split; [|vm_compute; reflexivity].
  apply (complete_idempotent Incus launch_example). reflexivity.
Defined.

Lemma complete_error_terminal_witness :
  ∃ e, complete Incus emptyLaunchOptions = inl e ∧ IsTerminalError e = true.
Proof.
  eexists. split; [reflexivity|]. eapply (complete_error_terminal Incus emptyLaunchOptions). reflexivity.
Defined.
