(* ===== verification/Instances.v ===== *)
(** * Launch options of nodes and load balancers: internal/instances,
      internal/static, internal/cloudinit *)

From S2P Require Import Prelude GoStrings Go Api World Images Launch Static.

(** ** Profiles: internal/static/profiles.go and the embedded YAML documents *)

(** The fields of [api.ProfilePut] that are used. *)
Record ProfilePut := { pp_Config : gmap string string; pp_Devices : gmap string (gmap string string) }.

Definition kernel_modules : string :=
  "ip_vs,ip_vs_rr,ip_vs_wrr,ip_vs_sh,ip_tables,ip6_tables,iptable_raw,netlink_diag,nf_nat,overlay,br_netfilter,xt_socket".

Definition raw_lxc : string :=
  "lxc.apparmor.profile=unconfined" +s+ newline +s+
  "lxc.mount.auto=proc:rw sys:rw cgroup:rw" +s+ newline +s+
  "lxc.cgroup.devices.allow=a" +s+ newline +s+
  "lxc.cap.drop=" +s+ newline.

Definition host_boot_device : gmap string string :=
  {[ "path" := "/usr/lib/ostree-boot"; "readonly" := "true"; "source" := "/boot"; "type" := "disk" ]}.

Definition dev_kmsg_device : gmap string string :=
  {[ "path" := "/dev/kmsg"; "source" := "/dev/kmsg"; "type" := "unix-char" ]}.

Definition disabled_service (path : string) : gmap string string :=
  {[ "type" := "disk"; "source" := "/dev/null"; "path" := path ]}.

(** embed/kubeadm.yaml *)
Definition defaultKubeadm : ProfilePut :=
  {| pp_Config := {[ "linux.kernel_modules" := kernel_modules; "raw.lxc" := raw_lxc;
                     "security.nesting" := "true"; "security.privileged" := "true" ]};
     pp_Devices := {[ "kubelet-dev-kmsg" := dev_kmsg_device; "kubeadm-host-boot" := host_boot_device ]} |}.

(** embed/unprivileged.yaml *)
Definition defaultKubeadmUnprivileged : ProfilePut :=
  {| pp_Config := {[ "linux.kernel_modules" := kernel_modules ]};
     pp_Devices := {[ "kubeadm-host-boot" := host_boot_device ]} |}.

(** embed/unprivileged-lxd.yaml *)
Definition defaultLXDKubeadmUnprivileged : ProfilePut :=
  {| pp_Config := {[ "linux.kernel_modules" := kernel_modules; "security.nesting" := "true" ]};
     pp_Devices := {[ "kubeadm-host-boot" := host_boot_device;
                      "00-disable-snapd" := disabled_service "/usr/lib/systemd/system/snapd.service";
                      "00-disable-apparmor" := disabled_service "/usr/lib/systemd/system/apparmor.service" ]} |}.

(** embed/kind.yaml *)
Definition defaultKind : ProfilePut :=
  {| pp_Config := {[ "linux.kernel_modules" := kernel_modules; "raw.lxc" := raw_lxc;
                     "security.privileged" := "true"; "oci.entrypoint" := "/init /sbin/init" ]};
     pp_Devices := {[ "kubelet-dev-kmsg" := dev_kmsg_device; "kubeadm-host-boot" := host_boot_device ]} |}.

(** embed/unprivileged-kind.yaml *)
Definition defaultKindUnprivileged : ProfilePut :=
  {| pp_Config := {[ "linux.kernel_modules" := kernel_modules; "oci.entrypoint" := "/init /sbin/init" ]};
     pp_Devices := {[ "kubeadm-host-boot" := host_boot_device ]} |}.

Definition DefaultKubeadmProfile (privileged : bool) (serverName : string) : ProfilePut :=
  if privileged then defaultKubeadm
  else if decide (serverName = LXD) then defaultLXDKubeadmUnprivileged
  else defaultKubeadmUnprivileged.

Definition DefaultKindProfile (privileged : bool) : ProfilePut :=
  if privileged then defaultKind else defaultKindUnprivileged.

(** ** Cloud-init: internal/cloudinit/cloudinit.go *)

Record File := { fi_Path : string; fi_Owner : string; fi_Permissions : string; fi_Content : string }.

(** A slice of the struct is [None] when nil. *)
Record CloudConfig := { cf_WriteFiles : option (list File); cf_RunCommands : option (list string) }.

(** The YAML library: [yaml.UnmarshalStrict] with unknown fields disallowed. *)
Class YAML := { UnmarshalStrict : string → error + CloudConfig }.

Definition line (s : string) : string := s +s+ newline.

(** Parse a cloud-init YAML manifest. The replacer is a text and what replaces
    it, on a manifest marked as a jinja template. *)
Definition cloudinit_Parse `{YAML} (raw : string) (replacer : option (string * string)) : error + CloudConfig :=
  let (raw, isJinja) := CutPrefix raw (line "## template: jinja") in
  let raw := match replacer with
             | Some (old, new) => if isJinja then ReplaceAll raw old new else raw
             | None => raw
             end in
  match CutPrefix raw (line "#cloud-config") with
  | (_, false) => inl (errorString "missing required header #cloud-config")
  | (raw, true) =>
      match UnmarshalStrict raw with
      | inl err => inl (Errorf_w "failed parsing cloud-config YAML: " err)
      | inr config => inr config
      end
  end.

(** *** [json.Marshal] of a cloud config *)

Definition json_char (c : ascii) : string :=
  let n := nat_of_ascii c in
  if Ascii.eqb c dquote then String backslash (String dquote "")
  else if Ascii.eqb c backslash then String backslash (String backslash "")
  else if (n =? 8)%nat then String backslash "b"
  else if (n =? 9)%nat then String backslash "t"
  else if (n =? 10)%nat then String backslash "n"
  else if (n =? 12)%nat then String backslash "f"
  else if (n =? 13)%nat then String backslash "r"
  else if (n <? 32)%nat || existsb (Ascii.eqb c) ["<"%char; ">"%char; "&"%char]
       then String backslash ("u00" +s+ String (hex_digit (n / 16)) (String (hex_digit (n mod 16)) ""))
  else String c "".

(** The line and paragraph separators U+2028 and U+2029 (bytes E2 80 A8 and
    E2 80 A9) are escaped; other bytes from 128 on are kept: what the YAML
    library returns is valid UTF-8. *)
Fixpoint json_body (s : string) : string :=
  match s with
  | EmptyString => ""
  | String c1 s1 =>
      match s1 with
      | String c2 (String c3 s3) =>
          if (nat_of_ascii c1 =? 226)%nat && (nat_of_ascii c2 =? 128)%nat &&
             ((nat_of_ascii c3 =? 168)%nat || (nat_of_ascii c3 =? 169)%nat)
          then String backslash "u202" +s+ String (hex_digit (nat_of_ascii c3 mod 16)) "" +s+ json_body s3
          else json_char c1 +s+ json_body s1
      | _ => json_char c1 +s+ json_body s1
      end
  end.

Definition json_string (s : string) : string := String dquote (json_body s +s+ String dquote "").

Definition json_list {A} (f : A → string) (l : option (list A)) : string :=
  match l with
  | None => "null"
  | Some l => "[" +s+ Join (map f l) "," +s+ "]"
  end.

Definition json_object (fields : list (string * string)) : string :=
  "{" +s+ Join (map (λ kv, json_string kv.1 +s+ ":" +s+ kv.2) fields) "," +s+ "}".

Definition json_file (f : File) : string :=
  json_object [("path", json_string (fi_Path f)); ("owner", json_string (fi_Owner f));
               ("permissions", json_string (fi_Permissions f)); ("content", json_string (fi_Content f))].

Definition json_Marshal (c : CloudConfig) : string :=
  json_object [("write_files", json_list json_file (cf_WriteFiles c));
               ("runcmd", json_list json_string (cf_RunCommands c))].

(** ** Load balancer instances: internal/instances/haproxy.go *)

Section options.
Context `{MapRange} `{YAML}.

Definition HaproxyLXCLaunchOptions : LaunchOptions :=
  WithImage (Some (OfImage (mkImage Simplestreams DefaultSimplestreamsServer "haproxy")))
    (WithInstanceType Container emptyLaunchOptions).

Definition HaproxyOCILaunchOptions : LaunchOptions :=
  let o := WithInstanceType Container emptyLaunchOptions in
  let o := WithImage (Some (OfImage (mkImage OCI "https://ghcr.io"
             "lxc/cluster-api-provider-incus/haproxy:v20230606-42a2262b"))) o in
  let o := WithSymlinks {[ "/init" := "/usr/sbin/haproxy" ]} o in
  let o := LO_WithConfig (Some {[ "oci.entrypoint" := "/init -W -db -f /usr/local/etc/haproxy/haproxy.cfg" ]}) o in
  WithCreateFiles {[ "/etc/environment" := "" ]} o.

(** ** Kubeadm nodes: internal/instances/kubeadm.go *)

Record KubeadmLaunchOptionsInput := {
  kin_KubernetesVersion : string;
  kin_InstanceType : string;
  kin_Privileged : bool;
  kin_SkipProfile : bool;
  kin_SkipInstallKubeadmScript : bool;
  kin_ServerName : string;
  kin_CloudInit : string
}.

Definition KubeadmLaunchOptions (i : KubeadmLaunchOptionsInput) : LaunchOptions :=
  let opts := WithInstanceType (kin_InstanceType i) emptyLaunchOptions in
  let opts := WithImage (Some (OfImage (CapnImage ("kubeadm/" +s+ kin_KubernetesVersion i)))) opts in
  let opts := if negb (kin_SkipInstallKubeadmScript i)
              then WithInstanceTemplates (Some {[ "/opt/cluster-api/install-kubeadm.sh" := InstallKubeadmScript ]}) opts
              else opts in
  let opts := if (0 <? String.length (kin_CloudInit i))%nat
              then LO_WithConfig (Some {[ "cloud-init.user-data" := kin_CloudInit i ]}) opts
              else opts in
  if bool_decide (kin_InstanceType i = Container) && negb (kin_SkipProfile i)
  then let profile := DefaultKubeadmProfile (kin_Privileged i) (kin_ServerName i) in
       WithDevices (Some (pp_Devices profile)) (LO_WithConfig (Some (pp_Config profile)) opts)
  else opts.

(** ** Kind nodes: internal/instances/kind.go *)

Record KindLaunchOptionsInput := {
  din_KubernetesVersion : string;
  din_Privileged : bool;
  din_SkipProfile : bool;
  din_PodNetworkCIDR : string;
  din_CloudInit : string;
  din_CloudInitAptInstall : bool
}.

(** The cloud-init seed of a kind node. *)
Definition kind_cloud_init (cloudInit : string) (opts : LaunchOptions) : LaunchOptions :=
  let opts := LO_WithConfig (Some {[ "cloud-init.user-data" := cloudInit ]}) opts in
  let opts := WithInstanceTemplates (Some
    {[ "/var/lib/cloud/seed/nocloud-net/meta-data" := CloudInitMetaDataTemplate;
       "/var/lib/cloud/seed/nocloud-net/user-data" := CloudInitUserDataTemplate;
       "/etc/systemd/system/cloud-init-launch.service" := CloudInitLaunchSystemdServiceTemplate;
       "/hack/cloud-init.py" := KindCloudInitScript ]}) opts in
  WithSymlinks {[ "/etc/systemd/system/multi-user.target.wants/cloud-init-launch.service" :=
                    "/etc/systemd/system/cloud-init-launch.service" ]} opts.

(** Manual cloud-init: the cloud config as JSON, embedded in the instance. *)
Definition kind_manual_cloud_init (cloudInit : string) (opts : LaunchOptions) : error + LaunchOptions :=
  match cloudinit_Parse cloudInit (Some ("{{ v1.local_hostname }}", "{{ container.name }}")) with
  | inl err => inl (TerminalError (Errorf_w
      "failed to parse instance cloud-config, please report this bug to https://github.com/lxc/cluster-api-provider-incus/issues: " err))
  | inr cloudConfig =>
      inr (WithInstanceTemplates (Some {[ "/hack/cloud-init.json" := json_Marshal cloudConfig ]}) opts)
  end.

Definition KindLaunchOptions (i : KindLaunchOptionsInput) : error + LaunchOptions :=
  let opts := WithInstanceType Container emptyLaunchOptions in
  let opts := WithImage (Some (OfImage (KindestNodeImage (din_KubernetesVersion i)))) opts in
  let opts := WithReplacements (Some {[ "/usr/local/bin/entrypoint" :=
    {[ ">/etc/resolv.conf" := ">/etc/local-resolv.conf";
       "${KIND_EXPERIMENTAL_CONTAINERD_SNAPSHOTTER:-}" := "${KIND_EXPERIMENTAL_CONTAINERD_SNAPSHOTTER:-overlayfs}" ]} ]}) opts in
  let opts := WithSymlinks {[ "/init" := "/usr/local/bin/entrypoint" ]} opts in
  let with_cloud_init :=
    if (0 <? String.length (din_CloudInit i))%nat then
      let opts := kind_cloud_init (din_CloudInit i) opts in
      if negb (din_CloudInitAptInstall i) then kind_manual_cloud_init (din_CloudInit i) opts else inr opts
    else inr opts in
  match with_cloud_init with
  | inl err => inl err
  | inr opts =>
      let opts := if (0 <? String.length (din_PodNetworkCIDR i))%nat
                  then WithReplacements (Some {[ "/kind/manifests/default-cni.yaml" :=
                         {[ "{{ .PodSubnet }}" := din_PodNetworkCIDR i ]} ]}) opts
                  else opts in
      if negb (din_SkipProfile i)
      then let profile := DefaultKindProfile (din_Privileged i) in
           inr (WithDevices (Some (pp_Devices profile)) (LO_WithConfig (Some (pp_Config profile)) opts))
      else inr opts
  end.

End options.

(** ** Properties *)

(** Privileged settings of a container configuration. *)
Definition privileged_config (config : option (gmap string string)) : bool :=
  bool_decide (lookup_opt config "security.privileged" = Some "true") ||
  bool_decide (is_Some (lookup_opt config "raw.lxc")).

Section options_properties.
Context `{MapRange} `{YAML}.

(** The options of a kubeadm node or of a kind node make the container
    privileged exactly when privileged nodes were asked for, with the default
    profile applied (which is for containers only); without it nothing in the
    options is privileged. *)
Theorem node_options_privileged (i : KubeadmLaunchOptionsInput) (d : KindLaunchOptionsInput) :
  privileged_config (lo_config (KubeadmLaunchOptions i)) =
    (bool_decide (kin_InstanceType i = Container) && negb (kin_SkipProfile i) && kin_Privileged i) ∧
  match KindLaunchOptions d with
  | inr o => privileged_config (lo_config o) = (negb (din_SkipProfile d) && din_Privileged d)
  | inl e => IsTerminalError e = true
  end.
Proof.
  split.
  - unfold KubeadmLaunchOptions, DefaultKubeadmProfile.
    destruct (bool_decide _), (kin_SkipProfile i), (kin_SkipInstallKubeadmScript i),
      (0 <? String.length (kin_CloudInit i))%nat, (kin_Privileged i); try case_decide;
      unfold privileged_config, lookup_opt; simpl; try done;
      repeat (rewrite ?lookup_union, ?lookup_insert_ne, ?lookup_singleton_ne by done; simpl); done.
  - unfold KindLaunchOptions, kind_manual_cloud_init.
    destruct (0 <? String.length (din_CloudInit d))%nat, (din_CloudInitAptInstall d); simpl;
      [|destruct (cloudinit_Parse _ _); [done|]|..];
      destruct (din_SkipProfile d), (din_Privileged d), (0 <? String.length (din_PodNetworkCIDR d))%nat; simpl;
      unfold privileged_config, lookup_opt; simpl; try done.
    all: repeat (rewrite ?lookup_union, ?lookup_insert_ne, ?lookup_singleton_ne by done; simpl); done.
Qed.

End options_properties.
