(* ===== verification/Profiles.v ===== *)
(** * The embedded profiles: internal/static/profiles.go

    The profiles that nodes are launched with are YAML documents that the
    program embeds and reads when it starts. Instances has the profiles as
    values; this file has the documents, byte for byte, the function that reads
    them, and that what is read are the profiles of Instances. The YAML library
    is a parameter. What is assumed of it is that it reads block mappings of
    plain, quoted and literal scalars as YAML defines them: [profile_of] is a
    reader of just that fragment, and refuses every other text. *)

From S2P Require Import Prelude GoStrings Go Static Instances.

(** ** The documents *)

(** embed/kubeadm.yaml *)
Definition defaultKubeadmYAML : string := unquote
"description: Profile for cluster-api-provider-incus privileged nodes
config:
  linux.kernel_modules: ip_vs,ip_vs_rr,ip_vs_wrr,ip_vs_sh,ip_tables,ip6_tables,iptable_raw,netlink_diag,nf_nat,overlay,br_netfilter,xt_socket
  raw.lxc: |
    lxc.apparmor.profile=unconfined
    lxc.mount.auto=proc:rw sys:rw cgroup:rw
    lxc.cgroup.devices.allow=a
    lxc.cap.drop=
  security.nesting: ~true~
  security.privileged: ~true~
devices:
  kubelet-dev-kmsg:
    path: /dev/kmsg
    source: /dev/kmsg
    type: unix-char
  kubeadm-host-boot:
    path: /usr/lib/ostree-boot
    readonly: ~true~
    source: /boot
    type: disk
".

(** embed/unprivileged.yaml *)
Definition defaultKubeadmUnprivilegedYAML : string := unquote
"description: Profile for cluster-api-provider-incus unprivileged nodes
config:
  linux.kernel_modules: ip_vs,ip_vs_rr,ip_vs_wrr,ip_vs_sh,ip_tables,ip6_tables,iptable_raw,netlink_diag,nf_nat,overlay,br_netfilter,xt_socket
devices:
  kubeadm-host-boot:
    path: /usr/lib/ostree-boot
    readonly: ~true~
    source: /boot
    type: disk
".

(** embed/unprivileged-lxd.yaml *)
Definition defaultLXDKubeadmUnprivilegedYAML : string := unquote
"description: Profile for cluster-api-provider-incus unprivileged nodes (LXD)
config:
  linux.kernel_modules: ip_vs,ip_vs_rr,ip_vs_wrr,ip_vs_sh,ip_tables,ip6_tables,iptable_raw,netlink_diag,nf_nat,overlay,br_netfilter,xt_socket
  security.nesting: ~true~
devices:
  kubeadm-host-boot:
    path: /usr/lib/ostree-boot
    readonly: ~true~
    source: /boot
    type: disk
  00-disable-snapd:
    type: disk
    source: /dev/null
    path: /usr/lib/systemd/system/snapd.service
  00-disable-apparmor:
    type: disk
    source: /dev/null
    path: /usr/lib/systemd/system/apparmor.service
".

(** embed/kind.yaml *)
Definition defaultKindYAML : string := unquote
"description: Profile for cluster-api-provider-incus kind nodes
config:
  linux.kernel_modules: ip_vs,ip_vs_rr,ip_vs_wrr,ip_vs_sh,ip_tables,ip6_tables,iptable_raw,netlink_diag,nf_nat,overlay,br_netfilter,xt_socket
  raw.lxc: |
    lxc.apparmor.profile=unconfined
    lxc.mount.auto=proc:rw sys:rw cgroup:rw
    lxc.cgroup.devices.allow=a
    lxc.cap.drop=
  security.privileged: ~true~
  oci.entrypoint: /init /sbin/init
devices:
  kubelet-dev-kmsg:
    path: /dev/kmsg
    source: /dev/kmsg
    type: unix-char
  kubeadm-host-boot:
    path: /usr/lib/ostree-boot
    readonly: ~true~
    source: /boot
    type: disk
".

(** embed/unprivileged-kind.yaml *)
Definition defaultKindUnprivilegedYAML : string := unquote
"description: Profile for cluster-api-provider-incus unprivileged kind nodes
config:
  linux.kernel_modules: ip_vs,ip_vs_rr,ip_vs_wrr,ip_vs_sh,ip_tables,ip6_tables,iptable_raw,netlink_diag,nf_nat,overlay,br_netfilter,xt_socket
  oci.entrypoint: /init /sbin/init
devices:
  kubeadm-host-boot:
    path: /usr/lib/ostree-boot
    readonly: ~true~
    source: /boot
    type: disk
".

(** ** A fragment of YAML *)

(** A node: a scalar, or a mapping with its entries in order. *)
Inductive yaml := YScalar (s : string) | YMap (entries : list (string * yaml)).

Section characters.
Local Open Scope nat_scope.

Definition in_range (lo hi : ascii) (c : ascii) : bool :=
  (nat_of_ascii lo <=? nat_of_ascii c) && (nat_of_ascii c <=? nat_of_ascii hi).

Definition is_letter (c : ascii) : bool := in_range "a" "z" c || in_range "A" "Z" c.
Definition is_digit (c : ascii) : bool := in_range "0" "9" c.
Definition is_printable (c : ascii) : bool := in_range " " "}" c.

(** The characters of plain scalars in the fragment: none of them has a meaning
    in YAML, wherever it stands after the first character. *)
Definition is_plain (c : ascii) : bool :=
  is_letter c || is_digit c || existsb (Ascii.eqb c) [" "; "."; "_"; "/"; ","; "("; ")"; "-"]%char.

(** A letter that no number and no date of YAML has. *)
Definition is_wordy (c : ascii) : bool := in_range "g" "s" c && negb (Ascii.eqb c "o").
End characters.

(** The words that YAML takes for a boolean or a null, in lower case. *)
Definition reserved : list string := ["y"; "n"; "yes"; "no"; "on"; "off"; "true"; "false"; "null"].

(** A plain scalar that is a string by the rules of YAML. *)
Definition plain (s : string) : bool :=
  forallb is_plain (chars s) && negb (HasSuffix s " ") && negb (bool_decide (ToLower s ∈ reserved)) &&
  match s with
  | EmptyString => false
  | String c _ => is_letter c || Ascii.eqb c "/" || (is_digit c && existsb is_wordy (chars s))
  end.

(** The text of a double-quoted scalar without escapes. *)
Definition quoted_text (s : string) : option string :=
  let q := String dquote EmptyString in
  match CutPrefix s q with
  | (_, false) => None
  | (s, true) =>
      let t := TrimSuffix s q in
      if HasSuffix s q && forallb (λ c, is_printable c && negb (Ascii.eqb c dquote) && negb (Ascii.eqb c backslash)) (chars t)
      then Some t else None
  end.

Definition scalar (s : string) : option string := if plain s then Some s else quoted_text s.

(** The lines of a document, each with its indentation. *)
Fixpoint indented (n : nat) (s : string) : nat * string :=
  match s with
  | String c s' => if Ascii.eqb c " " then indented (S n) s' else (n, s)
  | EmptyString => (n, EmptyString)
  end.

Definition document_lines (b : string) : option (list (nat * string)) :=
  if HasSuffix b newline then
    let ls := indented 0 <$> Split (TrimSuffix b newline) newline in
    if forallb (λ l, negb (String.eqb l.2 EmptyString) && forallb is_printable (chars l.2)) ls then Some ls else None
  else None.

(** The lines deeper than [n] at the head of a document, and the others. *)
Fixpoint deeper (n : nat) (ls : list (nat * string)) : list (nat * string) * list (nat * string) :=
  match ls with
  | (i, t) :: ls' => if (n <? i)%nat then let (xs, ys) := deeper n ls' in ((i, t) :: xs, ys) else ([], ls)
  | [] => ([], [])
  end.

Fixpoint spaces (n : nat) : string := match n with O => EmptyString | S n => String " " (spaces n) end.

(** The literal scalar that the lines make: they keep what they are indented
    beyond the first one. *)
Definition literal (ls : list (nat * string)) : option string :=
  match ls with
  | (m, _) :: _ =>
      if forallb (λ l, (m <=? l.1)%nat) ls
      then Some (String.concat EmptyString ((λ l, line (spaces (l.1 - m) +s+ l.2)) <$> ls)) else None
  | [] => None
  end.

(** The entries of a block mapping at indentation [n], and the lines after it.
    Each step takes a line away, so as many steps as lines are enough. *)
Fixpoint mapping (fuel n : nat) (ls : list (nat * string)) : option (list (string * yaml) * list (nat * string)) :=
  match fuel, ls with
  | _, [] => Some ([], [])
  | O, _ => None
  | S fuel, (i, t) :: ls' =>
      if (i <? n)%nat then Some ([], ls)
      else if (n <? i)%nat then None
      else
        x ← (if HasSuffix t ":" then
               let (sub, rest) := deeper n ls' in
               match sub with
               | (m, _) :: _ => y ← mapping fuel m sub; match y with
                                                         | (entries, []) => Some (TrimSuffix t ":", YMap entries, rest)
                                                         | _ => None
                                                         end
               | [] => None
               end
             else match Cut t ": " with
                  | (key, value, true) =>
                      if decide (value = "|") then let (sub, rest) := deeper n ls' in v ← literal sub; Some (key, YScalar v, rest)
                      else v ← scalar value; Some (key, YScalar v, ls')
                  | _ => None
                  end);
        match x with
        | (key, v, rest) =>
            y ← mapping fuel n rest;
            if plain key && negb (bool_decide (key ∈ y.1.*1)) then Some ((key, v) :: y.1, y.2) else None
        end
  end.

Definition document (b : string) : option (list (string * yaml)) :=
  ls ← document_lines b;
  match mapping (length ls) 0 ls with Some (entries, []) => Some entries | _ => None end.

(** The document as a profile. *)
Definition yaml_string (y : yaml) : option string := match y with YScalar s => Some s | YMap _ => None end.

Definition yaml_map {A} (f : yaml → option A) (y : yaml) : option (gmap string A) :=
  match y with
  | YMap entries => list_to_map <$> mapM (λ e, (e.1,.) <$> f e.2) entries
  | YScalar _ => None
  end.

Fixpoint profile_fields (entries : list (string * yaml)) (p : ProfilePut) : option ProfilePut :=
  match entries with
  | [] => Some p
  | (key, v) :: entries =>
      if decide (key = "description") then _ ← yaml_string v; profile_fields entries p
      else if decide (key = "config") then
        c ← yaml_map yaml_string v; profile_fields entries {| pp_Config := c; pp_Devices := pp_Devices p |}
      else if decide (key = "devices") then
        d ← yaml_map (yaml_map yaml_string) v; profile_fields entries {| pp_Config := pp_Config p; pp_Devices := d |}
      else None
  end.

Definition profile_of (b : string) : option ProfilePut :=
  entries ← document b; profile_fields entries {| pp_Config := ∅; pp_Devices := ∅ |}.

(** ** The YAML library: sigs.k8s.io/yaml, on profiles *)

Class ProfileYAML := {
  Unmarshal : string → error + ProfilePut;
  Unmarshal_fragment : ∀ b p, profile_of b = Some p → Unmarshal b = inr p
}.

(** ** internal/static/profiles.go *)

(** The variables of the package. *)
Record profiles := {
  v_defaultKubeadm : ProfilePut;
  v_defaultKubeadmUnprivileged : ProfilePut;
  v_defaultLXDKubeadmUnprivileged : ProfilePut;
  v_defaultKind : ProfilePut;
  v_defaultKindUnprivileged : ProfilePut
}.

Section static.
Context `{ProfileYAML}.

Definition mustParseProfile (b : string) : M profiles ProfilePut :=
  match Unmarshal b with
  | inl err => panic (Error err)
  | inr profile => ret profile
  end.

Definition init : M profiles unit :=
  let! a := mustParseProfile defaultKubeadmYAML in
  modify (λ v, {| v_defaultKubeadm := a; v_defaultKubeadmUnprivileged := v_defaultKubeadmUnprivileged v;
                  v_defaultLXDKubeadmUnprivileged := v_defaultLXDKubeadmUnprivileged v;
                  v_defaultKind := v_defaultKind v; v_defaultKindUnprivileged := v_defaultKindUnprivileged v |}) ;;
  let! b := mustParseProfile defaultKubeadmUnprivilegedYAML in
  modify (λ v, {| v_defaultKubeadm := v_defaultKubeadm v; v_defaultKubeadmUnprivileged := b;
                  v_defaultLXDKubeadmUnprivileged := v_defaultLXDKubeadmUnprivileged v;
                  v_defaultKind := v_defaultKind v; v_defaultKindUnprivileged := v_defaultKindUnprivileged v |}) ;;
  let! c := mustParseProfile defaultLXDKubeadmUnprivilegedYAML in
  modify (λ v, {| v_defaultKubeadm := v_defaultKubeadm v; v_defaultKubeadmUnprivileged := v_defaultKubeadmUnprivileged v;
                  v_defaultLXDKubeadmUnprivileged := c;
                  v_defaultKind := v_defaultKind v; v_defaultKindUnprivileged := v_defaultKindUnprivileged v |}) ;;
  let! d := mustParseProfile defaultKindYAML in
  modify (λ v, {| v_defaultKubeadm := v_defaultKubeadm v; v_defaultKubeadmUnprivileged := v_defaultKubeadmUnprivileged v;
                  v_defaultLXDKubeadmUnprivileged := v_defaultLXDKubeadmUnprivileged v;
                  v_defaultKind := d; v_defaultKindUnprivileged := v_defaultKindUnprivileged v |}) ;;
  let! e := mustParseProfile defaultKindUnprivilegedYAML in
  modify (λ v, {| v_defaultKubeadm := v_defaultKubeadm v; v_defaultKubeadmUnprivileged := v_defaultKubeadmUnprivileged v;
                  v_defaultLXDKubeadmUnprivileged := v_defaultLXDKubeadmUnprivileged v;
                  v_defaultKind := v_defaultKind v; v_defaultKindUnprivileged := e |}).

(** A document of the fragment is read as its profile, and nothing else changes. *)
Lemma mustParseProfile_fragment b p v : profile_of b = Some p → mustParseProfile b v = (Ok p, v).
Proof. intros Hp. unfold mustParseProfile. by rewrite (Unmarshal_fragment b p Hp). Qed.

(** C27: The program starts: none of the embedded documents makes it panic, and the
    package variables then hold the profiles that nodes are launched with. *)
Theorem init_profiles (v : profiles) :
  init v = (Ok tt, {| v_defaultKubeadm := defaultKubeadm; v_defaultKubeadmUnprivileged := defaultKubeadmUnprivileged;
                      v_defaultLXDKubeadmUnprivileged := defaultLXDKubeadmUnprivileged;
                      v_defaultKind := defaultKind; v_defaultKindUnprivileged := defaultKindUnprivileged |}).
Proof.
  unfold init, bind.
  rewrite (mustParseProfile_fragment _ defaultKubeadm) by (vm_compute; reflexivity). simpl.
  rewrite (mustParseProfile_fragment _ defaultKubeadmUnprivileged) by (vm_compute; reflexivity). simpl.
  rewrite (mustParseProfile_fragment _ defaultLXDKubeadmUnprivileged) by (vm_compute; reflexivity). simpl.
  rewrite (mustParseProfile_fragment _ defaultKind) by (vm_compute; reflexivity). simpl.
  by rewrite (mustParseProfile_fragment _ defaultKindUnprivileged) by (vm_compute; reflexivity).
Qed.

End static.

(** A library that reads the fragment and nothing else. *)
Definition fragment_yaml : ProfileYAML.
Proof.
  refine {| Unmarshal b := match profile_of b with Some p => inr p | None => inl (errorString "not in the fragment") end |}.
  intros b p Hp. by rewrite Hp.
Defined.

(** With it the program starts as the theorem says. *)
Lemma init_profiles_witness :
  ∃ v, @init fragment_yaml v = (Ok tt, v) ∧ v_defaultKubeadm v = defaultKubeadm ∧ v_defaultKind v = defaultKind.
Proof. eexists. split; [apply (@init_profiles fragment_yaml)|split; reflexivity]. Defined.

(** The fragment is refused outside its rules: a value that YAML reads as a
    boolean, a line that continues a scalar, and a repeated key. *)
Example fragment_refuses :
  profile_of (line "config:" +s+ line "  security.nesting: true") = None ∧
  profile_of (line "description: a" +s+ line "  b") = None ∧
  profile_of (line "description: a" +s+ line "description: b") = None.
Proof. vm_compute. done. Qed.
