(* ===== verification/Template.v ===== *)
(** * Go's text/template, for the subset the provider's templates use

    The templates of internal/loadbalancer are texts with actions: fields of
    the data and of variables, calls of functions, [if], [range $k, $v := ...]
    over a map and [end], with the trim markers. [parse] and [execute] follow the
    documentation of text/template for these; they give [None] on anything
    else (an action out of the subset, a field that does not exist), and leave
    the meaning of such a template open. *)

From S2P Require Import Prelude GoStrings.

(** ** Values *)

Inductive value :=
| VString (s : string)
| VInt (n : Z)
| VBool (b : bool)
| VStruct (fields : list (string * value))
| VMap (entries : list (string * value)).

(** How an action prints its value. *)
Definition print_value (v : value) : option string :=
  match v with
  | VString s => Some s
  | VInt n => Some (pretty n)
  | VBool b => Some (FormatBool b)
  | _ => None
  end.

(** The truth of a condition: the value is not empty. *)
Definition truth (v : value) : bool :=
  match v with
  | VString s => negb (String.eqb s "")
  | VInt n => negb (n =? 0)%Z
  | VBool b => b
  | VStruct _ => true
  | VMap [] => false
  | VMap _ => true
  end.

Fixpoint assoc (k : string) (l : list (string * value)) : option value :=
  match l with
  | [] => None
  | (k', v) :: l' => if String.eqb k k' then Some v else assoc k l'
  end.

(** ** Lexing: text and actions *)

Inductive token := TText (s : string) | TAction (words : list string).

Definition is_space (c : ascii) : bool :=
  existsb (Ascii.eqb c) [" "%char; Ascii.ascii_of_nat 9; Ascii.ascii_of_nat 10; Ascii.ascii_of_nat 13].

Fixpoint trim_left (s : string) : string :=
  match s with
  | String c s' => if is_space c then trim_left s' else s
  | EmptyString => EmptyString
  end.

(** Trims the space at the end of a text. *)
Fixpoint trim_right (s : string) : string :=
  match s with
  | EmptyString => EmptyString
  | String c s' =>
      match trim_right s' with
      | EmptyString => if is_space c then EmptyString else String c EmptyString
      | t => String c t
      end
  end.

(** The words of an action, separated by space. *)
Fixpoint words_go (cur s : string) : list string :=
  match s with
  | EmptyString => if String.eqb cur "" then [] else [cur]
  | String c s' =>
      if is_space c then (if String.eqb cur "" then words_go "" s' else cur :: words_go "" s')
      else words_go (cur +s+ String c "") s'
  end.

Definition words (s : string) : list string := words_go "" s.

(** One action, without its braces: does it trim on the left and on the right,
    and its words. A trim marker is a minus next to the brace, separated from
    the action by space. *)
Definition lex_action (s : string) : bool * bool * list string :=
  let (l, s) := match s with
                | String "-" (String c s') => if is_space c then (true, s') else (false, s)
                | _ => (false, s)
                end in
  let ws := words s in
  match reverse ws with
  | last :: rest => if String.eqb last "-" then (l, true, reverse rest) else (l, false, ws)
  | [] => (l, false, ws)
  end.

(** [trim] says whether the action before this text trims what follows it. *)
Fixpoint lex (fuel : nat) (trim : bool) (s : string) : option (list token) :=
  match fuel with
  | O => None
  | S fuel =>
      match Cut s "{{" with
      | (text, _, false) => Some [TText (if trim then trim_left text else text)]
      | (text, rest, true) =>
          match Cut rest "}}" with
          | (_, _, false) => None
          | (action, rest, true) =>
              match lex_action action with
              | (l, r, ws) =>
                  let text := if trim then trim_left text else text in
                  let text := if l then trim_right text else text in
                  match lex fuel r rest with
                  | None => None
                  | Some ts => Some (TText text :: TAction ws :: ts)
                  end
              end
          end
      end
  end.

(** ** Parsing *)

(** An operand: a chain of fields from the dot, from the data ([$]) or from a
    variable. *)
Inductive root := Dot | Data | Var (name : string).
Record operand := { op_root : root; op_fields : list string }.

Inductive node :=
| Text (s : string)
| Emit (o : operand)
| Call (f : string) (args : list operand)
| If (o : operand) (body : list node)
| Range (k v : string) (o : operand) (body : list node).

Definition parse_operand (w : string) : option operand :=
  match Split w "." with
  | "" :: f :: fs => if String.eqb f "" then None else Some {| op_root := Dot; op_fields := f :: fs |}
  | "$" :: fs => Some {| op_root := Data; op_fields := fs |}
  | String "$" name :: fs => Some {| op_root := Var name; op_fields := fs |}
  | _ => None
  end.

(** The variable of a range clause: a dollar, the name, a comma after the key. *)
Definition parse_var (w : string) : option string :=
  match w with
  | String "$" name => if String.eqb name "" then None else Some name
  | _ => None
  end.

(** What an action is. *)
Inductive clause :=
| CEmit (n : node)
| CIf (o : operand)
| CRange (k v : string) (o : operand)
| CEnd.

Definition is_operand (w : string) : bool := HasPrefix w "." || HasPrefix w "$".

Definition parse_clause (ws : list string) : option clause :=
  match ws with
  | ["end"] => Some CEnd
  | ["if"; w] => CIf <$> parse_operand w
  | ["range"; k; v; ":="; w] =>
      match parse_var (TrimSuffix k ","), parse_var v, parse_operand w with
      | Some k', Some v', Some o => if HasSuffix k "," then Some (CRange k' v' o) else None
      | _, _, _ => None
      end
  | [w] => (λ o, CEmit (Emit o)) <$> parse_operand w
  | f :: args => if is_operand f then None
                 else (λ os, CEmit (Call f os)) <$> mapM parse_operand args
  | [] => None
  end.

(** The nodes up to the end of the list or of the block, and the tokens left. *)
Fixpoint parse_nodes (fuel : nat) (inside : bool) (ts : list token) : option (list node * list token) :=
  match fuel with
  | O => None
  | S fuel =>
      match ts with
      | [] => if inside then None else Some ([], [])
      | TText s :: ts' =>
          match parse_nodes fuel inside ts' with
          | Some (ns, rest) => Some (Text s :: ns, rest)
          | None => None
          end
      | TAction ws :: ts' =>
          match parse_clause ws with
          | None => None
          | Some CEnd => if inside then Some ([], ts') else None
          | Some (CEmit n) =>
              match parse_nodes fuel inside ts' with
              | Some (ns, rest) => Some (n :: ns, rest)
              | None => None
              end
          | Some (CIf o) =>
              match parse_nodes fuel true ts' with
              | Some (body, rest) =>
                  match parse_nodes fuel inside rest with
                  | Some (ns, rest') => Some (If o body :: ns, rest')
                  | None => None
                  end
              | None => None
              end
          | Some (CRange k v o) =>
              match parse_nodes fuel true ts' with
              | Some (body, rest) =>
                  match parse_nodes fuel inside rest with
                  | Some (ns, rest') => Some (Range k v o body :: ns, rest')
                  | None => None
                  end
              | None => None
              end
          end
      end
  end.

(** [template.Parse]. The fuel is more than the number of tokens: a token
    takes at least one character of the text. *)
Definition parse (text : string) : option (list node) :=
  match lex (S (String.length text)) false text with
  | None => None
  | Some ts =>
      match parse_nodes (S (length ts)) false ts with
      | Some (ns, []) => Some ns
      | _ => None
      end
  end.

(** ** Execution *)

Record scope := { sc_dot : value; sc_data : value; sc_vars : list (string * value) }.

Fixpoint get_fields (fs : list string) (v : value) : option value :=
  match fs with
  | [] => Some v
  | f :: fs' =>
      match v with
      | VStruct fields => match assoc f fields with Some v' => get_fields fs' v' | None => None end
      | _ => None
      end
  end.

Definition eval_operand (sc : scope) (o : operand) : option value :=
  match op_root o with
  | Dot => get_fields (op_fields o) (sc_dot sc)
  | Data => get_fields (op_fields o) (sc_data sc)
  | Var x => match assoc x (sc_vars sc) with Some v => get_fields (op_fields o) v | None => None end
  end.

(** The functions a template may call ([template.FuncMap]). *)
Definition FuncMap : Type := string → list value → option value.

Definition append_opt (a b : option string) : option string :=
  match a, b with
  | Some a, Some b => Some (a +s+ b)
  | _, _ => None
  end.

Section execute.
Context (funcs : FuncMap).

Fixpoint exec_node (sc : scope) (n : node) : option string :=
  let exec_nodes := fix exec_nodes (sc : scope) (ns : list node) : option string :=
    match ns with
    | [] => Some ""
    | n :: ns' => append_opt (exec_node sc n) (exec_nodes sc ns')
    end in
  match n with
  | Text s => Some s
  | Emit o => eval_operand sc o ≫= print_value
  | Call f args => (mapM (eval_operand sc) args ≫= funcs f) ≫= print_value
  | If o body =>
      match eval_operand sc o with
      | None => None
      | Some v => if truth v then exec_nodes sc body else Some ""
      end
  | Range k v o body =>
      match eval_operand sc o with
      | Some (VMap entries) =>
          (fix exec_entries (entries : list (string * value)) : option string :=
             match entries with
             | [] => Some ""
             | (key, elem) :: entries' =>
                 append_opt
                   (exec_nodes {| sc_dot := elem; sc_data := sc_data sc;
                                  sc_vars := (v, elem) :: (k, VString key) :: sc_vars sc |} body)
                   (exec_entries entries')
             end) entries
      | _ => None
      end
  end.

Fixpoint exec_nodes (sc : scope) (ns : list node) : option string :=
  match ns with
  | [] => Some ""
  | n :: ns' => append_opt (exec_node sc n) (exec_nodes sc ns')
  end.

(** [t.Execute] on the data. *)
Definition execute (ns : list node) (data : value) : option string :=
  exec_nodes {| sc_dot := data; sc_data := data; sc_vars := [] |} ns.

End execute.

(** The entries of a Go map in the order in which a template visits them:
    sorted by key. *)
Definition sorted_entries {V} (m : gmap string V) : list (string * V) :=
  omap (λ k, (λ v, (k, v)) <$> m !! k) (sort_strings (map fst (map_to_list m))).

(** ** Lemmas *)

Definition concat_strings (l : list string) : string := foldr String.append "" l.

(** A range over the entries of a map writes its body once per entry, in order. *)
Lemma exec_Range {A} funcs sc k v o body (val : A → value) (l : list (string * A)) g :
  eval_operand sc o = Some (VMap (map (λ kv, (kv.1, val kv.2)) l)) →
  (∀ kv, kv ∈ l →
     exec_nodes funcs {| sc_dot := val kv.2; sc_data := sc_data sc;
                         sc_vars := (v, val kv.2) :: (k, VString kv.1) :: sc_vars sc |} body = Some (g kv)) →
  exec_node funcs sc (Range k v o body) = Some (concat_strings (map g l)).
Proof.
  intros He Hb. cbn [exec_node]. rewrite He. clear He.
  induction l as [|kv l IH]; [done|]. cbn [map concat_strings foldr].
  specialize (Hb kv) as Hkv. rewrite IH by (intros; apply Hb; set_solver).
  match goal with |- append_opt ?x _ = _ => change x with
    (exec_nodes funcs {| sc_dot := val kv.2; sc_data := sc_data sc;
                         sc_vars := (v, val kv.2) :: (k, VString kv.1) :: sc_vars sc |} body) end.
  rewrite Hkv by set_solver. done.
Qed.

Section sorted_entries.
Context {V : Type}.
Implicit Types (m : gmap string V).

Lemma elem_of_sorted_entries m k v : (k, v) ∈ sorted_entries m ↔ m !! k = Some v.
Proof.
  unfold sorted_entries. rewrite list_elem_of_omap. setoid_rewrite sort_strings_perm. split.
  - intros (k' & _ & Hk). destruct (m !! k') eqn:Hm; simpl in Hk; congruence.
  - intros Hm. exists k. rewrite Hm. split; [|done]. apply list_elem_of_fmap. exists (k, v).
    by rewrite elem_of_map_to_list.
Qed.

Lemma omap_keys m l :
  (∀ k, k ∈ l → is_Some (m !! k)) → (omap (λ k, (λ v, (k, v)) <$> m !! k) l).*1 = l.
Proof.
  induction l as [|k l IH]; intros Hl; [done|]. simpl.
  destruct (Hl k ltac:(set_solver)) as [v ->]. simpl. f_equal. apply IH. set_solver.
Qed.

Lemma sorted_entries_keys m : (sorted_entries m).*1 = sort_strings (map fst (map_to_list m)).
Proof.
  apply omap_keys. intros k. rewrite sort_strings_perm, list_elem_of_fmap.
  intros ([k' v] & -> & Hk%elem_of_map_to_list). eauto.
Qed.

Lemma sorted_entries_perm m : sorted_entries m ≡ₚ map_to_list m.
Proof.
  apply NoDup_Permutation.
  - apply (NoDup_fmap_1 fst). rewrite sorted_entries_keys, sort_strings_perm. apply NoDup_fst_map_to_list.
  - apply NoDup_map_to_list.
  - intros [k v]. by rewrite elem_of_sorted_entries, elem_of_map_to_list.
Qed.

End sorted_entries.

Example template_example :
  let data := VStruct [("Name", VString "x"); ("On", VBool true);
                       ("M", VMap [("a", VStruct [("N", VInt 1)]); ("b", VStruct [("N", VInt 2)])])] in
  match parse "hi {{ .Name }}{{ if .On -}}  yes {{- end }};{{ range $k, $v := .M }} {{ $k }}={{ $v.N }}/{{ $.Name }}{{ end }}." with
  | Some ns => execute (λ _ _, None) ns data = Some "hi xyes; a=1/x b=2/x."
  | None => False
  end.
Proof. vm_compute. reflexivity. Qed.
