(* ===== verification/Sample.v ===== *)
(** * A sample environment

    A small in-memory server: instances with a state, load balancers and
    Kubernetes objects. It instantiates the class [Env] to run the model on
    concrete inputs, and shows that the assumptions on the environment can
    hold together. It plays no part in the theorems, which hold for every
    environment. *)

From S2P Require Import Prelude GoStrings Go Api World Files.

Record sample_instance := { sm_state : InstanceState; sm_config : gmap string string }.

Record sample_world := {
  sw_now : Z;
  sw_instances : gmap string sample_instance;
  sw_files : list (string * string * InstanceFileArgs);
  sw_balancers : gmap string NetworkLoadBalancerPut;
  sw_lxcCluster : option LXCCluster;
  sw_lxcMachine : option LXCMachine;
  sw_cluster : option Cluster;
  sw_machine : option Machine
}.

Definition sample_empty : sample_world :=
  {| sw_now := 0; sw_instances := ∅; sw_files := []; sw_balancers := ∅;
     sw_lxcCluster := None; sw_lxcMachine := None; sw_cluster := None; sw_machine := None |}.

Definition set_instances (f : gmap string sample_instance → gmap string sample_instance) (w : sample_world) :
    sample_world :=
  {| sw_now := sw_now w; sw_instances := f (sw_instances w); sw_files := sw_files w;
     sw_balancers := sw_balancers w; sw_lxcCluster := sw_lxcCluster w; sw_lxcMachine := sw_lxcMachine w;
     sw_cluster := sw_cluster w; sw_machine := sw_machine w |}.

Definition add_file (name path : string) (args : InstanceFileArgs) (w : sample_world) : sample_world :=
  {| sw_now := sw_now w; sw_instances := sw_instances w; sw_files := sw_files w ++ [(name, path, args)];
     sw_balancers := sw_balancers w; sw_lxcCluster := sw_lxcCluster w; sw_lxcMachine := sw_lxcMachine w;
     sw_cluster := sw_cluster w; sw_machine := sw_machine w |}.

Definition set_balancers (f : gmap string NetworkLoadBalancerPut → gmap string NetworkLoadBalancerPut)
    (w : sample_world) : sample_world :=
  {| sw_now := sw_now w; sw_instances := sw_instances w; sw_files := sw_files w;
     sw_balancers := f (sw_balancers w); sw_lxcCluster := sw_lxcCluster w; sw_lxcMachine := sw_lxcMachine w;
     sw_cluster := sw_cluster w; sw_machine := sw_machine w |}.

Definition stopped_state : InstanceState := {| is_Status := "Stopped"; is_Pid := 0; is_Network := ∅ |}.

Definition running_state (address : string) : InstanceState :=
  {| is_Status := "Running"; is_Pid := 42;
     is_Network :=
       {[ "lo" := {| nw_Type := "loopback"; nw_HostName := "";
                     nw_Addresses := [{| na_Family := "inet"; na_Address := "127.0.0.1"; na_Netmask := "8";
                                         na_Scope := "local" |}] |};
          "eth0" := {| nw_Type := "broadcast"; nw_HostName := "veth0";
                       nw_Addresses := [{| na_Family := "inet"; na_Address := address; na_Netmask := "24";
                                           na_Scope := "global" |}] |} ]} |}.

Definition not_found (what : string) : error := errorString (what +s+ " not found").

Definition done_wait : WaitResult := {| wr_err := None; wr_return := Some 0%Z; wr_stdout := ""; wr_stderr := "" |}.

(** An address per instance: 10.0.0.N for an instance whose name has N letters. *)
Definition address_of (name : string) : string := "10.0.0." +s+ decimal (String.length name).

Definition sample_incus {A} (c : icall A) (w : sample_world) : (error + A) * sample_world :=
  match c in icall A return (error + A) * sample_world with
  | GetServer => (inr {| si_Server := "incus"; si_Driver := "lxc | qemu"; si_Architectures := ["x86_64"];
                         si_ServerClustered := false;
                         si_APIExtensions := ["instance_oci"; "instance_oci_entrypoint"; "network_load_balancer";
                                              "network_load_balancer_health_check"] |}, w)
  | GetInstanceState name =>
      (match sw_instances w !! name with Some i => inr (sm_state i) | None => inl (not_found "Instance") end, w)
  | GetInstanceFull name =>
      (match sw_instances w !! name with
       | Some i => inr {| if_Name := name; if_Type := "container"; if_Config := sm_config i; if_Devices := ∅;
                          if_State := Some (sm_state i) |}
       | None => inl (not_found "Instance") end, w)
  | GetInstancesFull =>
      (inr (map (λ kv, {| if_Name := kv.1; if_Type := "container"; if_Config := sm_config kv.2; if_Devices := ∅;
                          if_State := Some (sm_state kv.2) |}) (map_to_list (sw_instances w))), w)
  | GetOperations => (inr [], w)
  | RawOperation id => (inl (not_found "Operation"), w)
  | CreateInstance post => (inr "create", set_instances <[ip_Name post := {| sm_state := stopped_state; sm_config := default ∅ (ip_Config post) |}]> w)
  | UpdateInstanceState name action force =>
      (inr action,
       set_instances (alter (λ i, {| sm_state := if String.eqb action "start" then running_state (address_of name)
                                                 else stopped_state; sm_config := sm_config i |}) name) w)
  | DeleteInstance name => (inr "delete", set_instances (delete name) w)
  | WaitContext op dl => (inr done_wait, w)
  | GetInstanceMetadata name => (inr {| md_Templates := None |}, w)
  | UpdateInstanceMetadata name md => (inr tt, w)
  | CreateInstanceTemplateFile name t x => (inr tt, w)
  | CreateInstanceFile name path args => (inr tt, add_file name path args w)
  | GetInstanceFile name path =>
      (if String.eqb path "/usr/local/bin/entrypoint" || String.eqb path "/opt/manifest.txt" then
         inr (Some {| rd_ReadAll := inr "#!/bin/bash"; rd_Close := None |},
              {| fr_Mode := 493; fr_UID := 0; fr_GID := 0; fr_Type := "file" |})
       else inl (not_found "File"), w)
  | ExecInstance name command stdin => (inr "exec", w)
  | CreateImage source => (inr "image", w)
  | CreateImageFrom post => (inr "publish", w)
  | GetStoragePools => (inr [{| sp_Name := "default"; sp_Status := "Created" |}], w)
  | GetInstance name =>
      (match sw_instances w !! name with
       | Some i => inr {| in_Type := "container"; in_LastUsedAt := sw_now w |}
       | None => inl (not_found "Instance") end, w)
  | GetImageAlias name => (inr {| ia_Target := "fingerprint"; ia_Type := "container" |}, w)
  | GetImage fingerprint => (inr {| im_CreatedAt := 0 |}, w)
  | DeleteImageAlias name => (inr tt, w)
  | GetImageFile fingerprint file => (inr 4096%Z, w)
  | GetNetwork name => (inr {[ "ovn.ingress_mode" := "" ]}, w)
  | GetNetworkLoadBalancer network address =>
      (match sw_balancers w !! address with Some b => inr (nlb_Config b) | None => inl (not_found "Network load balancer") end, w)
  | GetNetworkLoadBalancerState network address => (inr "{}", w)
  | CreateNetworkLoadBalancer network address config =>
      (inr tt, set_balancers <[address := {| nlb_Config := config; nlb_Backends := []; nlb_Ports := [] |}]> w)
  | UpdateNetworkLoadBalancer network address put => (inr tt, set_balancers <[address := put]> w)
  | DeleteNetworkLoadBalancer network address => (inr tt, set_balancers (delete address) w)
  end.

Definition set_objects (c : option LXCCluster) (m : option LXCMachine) (w : sample_world) : sample_world :=
  {| sw_now := sw_now w; sw_instances := sw_instances w; sw_files := sw_files w; sw_balancers := sw_balancers w;
     sw_lxcCluster := c; sw_lxcMachine := m; sw_cluster := sw_cluster w; sw_machine := sw_machine w |}.

(** The credentials of the cluster, and the bootstrap data of a machine. *)
Definition sample_secret (key : NamespacedName) : Secret :=
  {| sec_Name := nn_Name key; sec_Namespace := nn_Namespace key; sec_Labels := ∅;
     sec_Data := {[ "server" := "https://10.0.0.1:8443"; "project" := "default"; "value" := "#cloud-config" ]} |}.

Definition or_not_found {A} (what : string) (o : option A) : error + A :=
  match o with Some a => inr a | None => inl (not_found what) end.

(** The machine stored under a key. *)
Definition sample_stored (w : sample_world) (key : NamespacedName) : option LXCMachine :=
  match sw_lxcMachine w with
  | Some m => if decide (object_key (lm_Meta m) = key) then Some m else None
  | None => None
  end.

Definition sample_add_finalizer (m : LXCMachine) (finalizer : string) : LXCMachine :=
  {| lm_Meta := {| om_Name := om_Name (lm_Meta m); om_Namespace := om_Namespace (lm_Meta m);
                   om_Labels := om_Labels (lm_Meta m); om_Finalizers := om_Finalizers (lm_Meta m) ++ [finalizer];
                   om_DeletionTimestamp := om_DeletionTimestamp (lm_Meta m) |};
     lm_Spec := lm_Spec m; lm_Status := lm_Status m |}.

(** Storing an object: one that is deleted and has no finalizers goes. *)
Definition sample_store (obj : LXCMachine) (w : sample_world) : (error + unit) * sample_world :=
  match sample_stored w (object_key (lm_Meta obj)) with
  | None => (inl (not_found "LXCMachine"), w)
  | Some _ =>
      (inr tt, set_objects (sw_lxcCluster w)
         (match om_DeletionTimestamp (lm_Meta obj), om_Finalizers (lm_Meta obj) with
          | Some _, [] => None
          | _, _ => Some obj
          end) w)
  end.

Definition sample_ensure (obj : LXCMachine) (finalizer : string) (w : sample_world) :
    (error + bool * LXCMachine) * sample_world :=
  if decide (om_DeletionTimestamp (lm_Meta obj) = None ∧ finalizer ∉ om_Finalizers (lm_Meta obj)) then
    match sample_stored w (object_key (lm_Meta obj)) with
    | None => (inl (not_found "LXCMachine"), w)
    | Some m => (inr (true, sample_add_finalizer obj finalizer),
                 set_objects (sw_lxcCluster w) (Some (sample_add_finalizer m finalizer)) w)
    end
  else (inr (false, obj), w).

(** The same for the cluster. *)
Definition sample_cluster_stored (w : sample_world) (key : NamespacedName) : option LXCCluster :=
  match sw_lxcCluster w with
  | Some c => if decide (object_key (lc_Meta c) = key) then Some c else None
  | None => None
  end.

Definition sample_add_cluster_finalizer (c : LXCCluster) (finalizer : string) : LXCCluster :=
  {| lc_Meta := {| om_Name := om_Name (lc_Meta c); om_Namespace := om_Namespace (lc_Meta c);
                   om_Labels := om_Labels (lc_Meta c); om_Finalizers := om_Finalizers (lc_Meta c) ++ [finalizer];
                   om_DeletionTimestamp := om_DeletionTimestamp (lc_Meta c) |};
     lc_Spec := lc_Spec c; lc_Status := lc_Status c |}.

Definition sample_store_cluster (obj : LXCCluster) (w : sample_world) : (error + unit) * sample_world :=
  match sample_cluster_stored w (object_key (lc_Meta obj)) with
  | None => (inl (not_found "LXCCluster"), w)
  | Some _ =>
      (inr tt, set_objects
         (match om_DeletionTimestamp (lc_Meta obj), om_Finalizers (lc_Meta obj) with
          | Some _, [] => None
          | _, _ => Some obj
          end) (sw_lxcMachine w) w)
  end.

Definition sample_ensure_cluster (obj : LXCCluster) (finalizer : string) (w : sample_world) :
    (error + bool * LXCCluster) * sample_world :=
  if decide (om_DeletionTimestamp (lc_Meta obj) = None ∧ finalizer ∉ om_Finalizers (lc_Meta obj)) then
    match sample_cluster_stored w (object_key (lc_Meta obj)) with
    | None => (inl (not_found "LXCCluster"), w)
    | Some c => (inr (true, sample_add_cluster_finalizer obj finalizer),
                 set_objects (Some (sample_add_cluster_finalizer c finalizer)) (sw_lxcMachine w) w)
    end
  else (inr (false, obj), w).

Definition sample_kube {A} (c : kcall A) (w : sample_world) : (error + A) * sample_world :=
  match c in kcall A return (error + A) * sample_world with
  | KGetLXCCluster key => (or_not_found "LXCCluster" (sample_cluster_stored w key), w)
  | KGetLXCMachine key => (or_not_found "LXCMachine" (sample_stored w key), w)
  | KGetSecret key => (inr (sample_secret key), w)
  | KGetOwnerCluster _ => (inr (sw_cluster w), w)
  | KGetOwnerMachine _ => (inr (sw_machine w), w)
  | KGetClusterFromMetadata _ => (inr (sw_cluster w), w)
  | KAddOwners _ => (inr tt, w)
  | KListMachines _ _ => (inr (match sw_machine w with Some m => [m] | None => [] end), w)
  | KEnsureClusterFinalizer obj finalizer => sample_ensure_cluster obj finalizer w
  | KEnsureMachineFinalizer obj finalizer => sample_ensure obj finalizer w
  | KEnsureClusterPaused _ obj => (inr (false, false, obj), w)
  | KEnsureMachinePaused _ obj => (inr (false, false, obj), w)
  | KNewClusterPatchHelper _ => (inr tt, w)
  | KNewMachinePatchHelper _ => (inr tt, w)
  | KPatchCluster obj _ => sample_store_cluster obj w
  | KPatchMachine obj _ => sample_store obj w
  end.

Definition sample_conn : Conn := {| cn_Endpoint := "https://10.0.0.1:8443"; cn_Project := "default"; cn_Target := "" |}.

Definition sample_host {A} (c : hcall A) (w : sample_world) : (error + A) * sample_world :=
  match c in hcall A return (error + A) * sample_world with
  | OSStat _ => (inr tt, w)
  | OSPathIsWritable _ => (inr true, w)
  | OSReadFile path => (inr ("contents of " +s+ path), w)
  | OSHome => (inr "/root", w)
  | OSGetenv _ => (inr "", w)
  | OSReadStdin => (inr "stdin", w)
  | OSGetwd => (inr "/home/u", w)
  | OSSetenv _ _ | OSSymlink _ _ | SaveConfig _ _ => (inr tt, w)
  | OSStatPerm _ => (inr 420%Z, w)
  | LoadConfig path =>
      (inr {| cc_DefaultRemote := "local";
              cc_Remotes := {[ "local" := {| rm_Addr := "https://10.0.0.1:8443"; rm_Project := "default";
                                             rm_Protocol := "incus"; rm_Public := false |} ]};
              cc_HasClientCertificate := true; cc_ConfigDir := "/root/.config/incus" |}, w)
  | ConnectIncus url _ => (inr {| cn_Endpoint := url; cn_Project := ""; cn_Target := "" |}, w)
  | ConnectIncusUnix socket => (inr {| cn_Endpoint := socket; cn_Project := ""; cn_Target := "" |}, w)
  | ConnectSimpleStreams _ => (inr tt, w)
  | GetImageAliasType _ _ _ => (inr tt, w)
  | CraneHead _ _ => (inr tt, w)
  | OSCreate _ | OSWrite _ _ | OSTruncate _ _ | OSClose _ | OSRemove _ | OSRemoveAll _ | OSRename _ _ | OSWriteFile _ _
  | OSReadDir _ | SetFlag _ _ | GetRestConfig | GetManagerOptions | NewManagerWith _ _ | NewTypedObjectsMapper _
  | CompleteController _ | AddHealthzCheck _ | AddReadyzCheck _ | StartManager => (inr tt, w)
  | OSOpen _ | TarWriteHeader _ _ | TarWrite _ _ | TarClose _ | GzipClose _ => (inr tt, w)
  | OSMkdirTemp => (inr "/tmp/1", w)
  | ExecLookPath name => (inr ("/usr/bin/" +s+ name), w)
  | ExecRun _ _ _ => (inr (None, ""), w)
  | ReadTarGz _ =>
      (inr {| ts_Entries := [{| te_Header := {| hd_Name := "metadata.yaml"; hd_Size := 1; hd_Attrs := "" |}; te_Body := inr "m" |};
                             {| te_Header := {| hd_Name := "rootfs.img"; hd_Size := 1; hd_Attrs := "" |}; te_Body := inr "r" |}];
              ts_End := None |}, w)
  end.

Definition sample_handle {A} (c : call A) (w : sample_world) : (error + A) * sample_world :=
  match c with
  | CIncus _ c => sample_incus c w
  | CKube c => sample_kube c w
  | CHost c => sample_host c w
  end.

Definition sample_env : Env :=
  {| world := sample_world;
     handle := @sample_handle;
     now := sw_now;
     elapse := λ d w, {| sw_now := (sw_now w + d)%Z; sw_instances := sw_instances w; sw_files := sw_files w;
                         sw_balancers := sw_balancers w; sw_lxcCluster := sw_lxcCluster w; sw_lxcMachine := sw_lxcMachine w;
     sw_cluster := sw_cluster w; sw_machine := sw_machine w |} |}.

#[export] Instance sample_env_time : EnvTime sample_env.
Proof.
  split; [done|]. intros A c w. simpl. unfold sample_handle.
  destruct c as [A conn c|A c|A c]; simpl; destruct c; simpl; unfold sample_ensure, sample_store, sample_ensure_cluster, sample_store_cluster;
    repeat (case_match; simplify_eq/=); simpl; try lia.
Qed.

Definition sample_state (w : sample_world) : @state sample_env := @Build_state sample_env w [].
