(* ===== verification/Client.v ===== *)
(** * The Incus client: internal/lxc/client*.go

    Launching, starting, stopping, deleting and listing instances; waiting for
    operations; discovering what the server supports. *)

From S2P Require Import Prelude GoStrings Go Api World Images Launch Sample.

(** ** The client: client.go, client_discovery.go *)

(** The progress handler of the Go struct only observes running operations
    (it logs them) and has no counterpart here. *)
Record Client := { cli_Conn : Conn; cli_serverInfo : ServerInfo }.

Definition GetServerName (c : Client) : string :=
  let srv := si_Server (cli_serverInfo c) in
  if decide (srv = Incus) then srv else if decide (srv = LXD) then srv else "unknown".

Section discovery.
Context `{MapRange}.

(** The extensions that are not supported, in the unspecified order of the set. *)
Definition missingExtensions (c : Client) (extensions : list string) : list string :=
  let missing := filter (λ e, e ∉ si_APIExtensions (cli_serverInfo c)) extensions in
  map fst (range (list_to_map (map (λ e, (e, tt)) missing) : gmap string unit)).

Definition serverSupportsExtensions (c : Client) (extensions : list string) : option error :=
  let missing := missingExtensions c extensions in
  if (0 <? length missing)%nat
  then Some (TerminalError (errorString ("required extensions " +s+ format_slice missing +s+ " are not supported")))
  else None.

Definition SupportsInstanceOCI (c : Client) : option error :=
  serverSupportsExtensions c ["instance_oci"; "instance_oci_entrypoint"].

Definition SupportsNetworkLoadBalancers (c : Client) : option error :=
  serverSupportsExtensions c ["network_load_balancer"; "network_load_balancer_health_check"].

Definition SupportsContainerDiskTmpfs (c : Client) : option error :=
  serverSupportsExtensions c ["container_disk_tmpfs"].

End discovery.

Definition SupportsInstanceKVM (c : Client) : option error :=
  if decide ("qemu" ∈ Split (si_Driver (cli_serverInfo c)) " | ") then None
  else Some (TerminalError (errorString ("server is missing driver qemu, supported drivers are: " +s+
               quote (si_Driver (cli_serverInfo c))))).

Definition SupportsArchitectures (c : Client) : list string := si_Architectures (cli_serverInfo c).

Definition SupportsInstanceTarget (c : Client) : option error :=
  if si_ServerClustered (cli_serverInfo c) then None
  else Some (errorString "server is not part of a cluster").

(** WithTarget returns a copy of the client and a set target host. WithTarget
    will ignore the target argument if server is not clustered. *)
Definition WithTarget (c : Client) (target : string) : Client :=
  match SupportsInstanceTarget c with
  | Some _ => c
  | None =>
      {| cli_Conn := {| cn_Endpoint := cn_Endpoint (cli_Conn c); cn_Project := cn_Project (cli_Conn c);
                        cn_Target := target |};
         cli_serverInfo := cli_serverInfo c |}
  end.

(** ** Host addresses: client_parse_addresses.go *)

(** The addresses of one network that are not skipped. *)
Definition network_addresses (network : InstanceStateNetwork) : list string :=
  if decide (nw_Type network = "loopback") then []
  else if decide (nw_HostName network = "") then []
  else flat_map (λ addr,
         if decide (na_Scope addr ≠ "global") then []
         else if decide (na_Family addr = "inet" ∧ na_Netmask addr = "32") then []
         else if decide (na_Family addr = "inet6" ∧ na_Netmask addr = "128") then []
         else [na_Address addr]) (nw_Addresses network).

(** ** Filters: client_instances_list.go *)

Definition ListInstanceFilter : Type := InstanceFull → bool.

(** [m[k]] on a Go map of strings: the empty string for a missing key. *)
Definition go_index (m : gmap string string) (k : string) : string := default "" (m !! k).

Section instances.
Context `{MapRange}.

(** ParseHostAddresses returns the main IP addresses of the instance; [None]
    is the nil state. *)
Definition ParseHostAddresses (state : option InstanceState) : list string :=
  match state with
  | None => []
  | Some state => sort_strings (flat_map (λ nw, network_addresses nw.2) (range (is_Network state)))
  end.

(** WithConfig filters for instances that have a set of configuration keys. *)
Definition WithConfig (kv : gmap string string) : ListInstanceFilter := λ i,
  forallb (λ e, String.eqb (go_index (if_Config i) e.1) e.2) (range kv).

(** WithConfigKeys filters for instances that have configuration keys set. *)
Definition WithConfigKeys (keys : list string) : ListInstanceFilter := λ i,
  forallb (λ k, bool_decide (is_Some (if_Config i !! k))) keys.

Definition Containers : ListInstanceFilter := λ i, String.eqb (if_Type i) Container.
Definition VirtualMachines : ListInstanceFilter := λ i, String.eqb (if_Type i) VirtualMachine.

Context `{E : Env}.

(** ListInstances returns a list of instances that match the specified
    filters. *)
Definition ListInstances (c : Client) (filters : list ListInstanceFilter) : M state (list InstanceFull) :=
  let! allInstances := wrap "failed to GetInstancesFull: " (incus (cli_Conn c) GetInstancesFull) in
  ret (List.filter (λ i, forallb (λ f : ListInstanceFilter, f i) filters) allInstances).

(** ** Contexts

    A context is its deadline, if it has one. *)
Definition context : Type := option Z.

(** [context.WithTimeout(ctx, d)] *)
Definition WithTimeout (ctx : context) (d : Z) : M state context :=
  let! t := clock in
  ret (Some (match ctx with None => t + d | Some dl => Z.min dl (t + d) end)%Z).

Definition DeadlineExceeded : error := errorString "context deadline exceeded".

(** ** Operations: client_operations.go *)

Definition wait_operation (c : Client) (op : Operation) (ctx : context) : M state WaitResult :=
  let! r := try (incus (cli_Conn c) (WaitContext op ctx)) in
  ret (match r with
       | inl e => {| wr_err := Some e; wr_return := None; wr_stdout := ""; wr_stderr := "" |}
       | inr r => r
       end).

(** The error [WaitForOperation] returns for the result of the wait. *)
Definition operation_error (name : string) (r : WaitResult) : option error :=
  match wr_err r with
  | Some err =>
      if Contains (Error err) "Operation not found" then None
      else Some (Errorf_w ("failed to wait for " +s+ name +s+ " operation: ") err)
  | None => None
  end.

(** [WaitForOperation], keeping what the handlers of the operation saw. *)
Definition WaitForOperation (c : Client) (ctx : context) (name : string) (f : M state Operation) :
    M state WaitResult :=
  let! op := wrap ("failed to " +s+ name +s+ ": ") f in
  let! r := wait_operation c op ctx in
  match operation_error name r with
  | Some err => throw err
  | None => ret r
  end.

(** ** Commands: client_run_command.go *)

(** What a command left: its error, stdout and stderr. The streams are written
    even when the command fails. *)
Record CommandResult := { cr_err : option error; cr_stdout : string; cr_stderr : string }.

Definition command_result (r : WaitResult) : CommandResult :=
  let status := default 0%Z (wr_return r) in
  {| cr_err := match operation_error "ExecInstance" r with
               | Some err => Some err
               | None => if decide (status = 0%Z) then None
                         else Some (errorString ("command failed with exit code " +s+ pretty status))
               end;
     cr_stdout := wr_stdout r; cr_stderr := wr_stderr r |}.

(** RunCommand on a specified instance. *)
Definition RunCommand (c : Client) (ctx : context) (instanceName : string) (command : list string)
    (stdin : option string) : M state CommandResult :=
  let! op := try (wrap "failed to ExecInstance: "
                    (incus (cli_Conn c) (ExecInstance instanceName command stdin))) in
  match op with
  | inl err => ret {| cr_err := Some err; cr_stdout := ""; cr_stderr := "" |}
  | inr op => let! r := wait_operation c op ctx in ret (command_result r)
  end.

(** [if err := c.RunCommand(...); err != nil { return err }] *)
Definition run_command (c : Client) (ctx : context) (instanceName : string) (command : list string) :
    M state unit :=
  let! r := RunCommand c ctx instanceName command None in
  match cr_err r with
  | Some err => throw err
  | None => ret tt
  end.

(** ** Pulling images: client_image_pull.go *)

Definition PullImage (c : Client) (ctx : context) (family : ImageFamily) : M state unit :=
  let! image := wrap "unsupported image: " (of_result (For family (GetServerName c))) in
  WaitForOperation c ctx "PullImage" (incus (cli_Conn c) (CreateImage (Image_ImageSource image))) ;;
  ret tt.

(** ** Finding a running create operation, waiting for addresses:
       client_instances_util.go *)

Definition creates_instance (instancePath : string) (op : ApiOperation) : bool :=
  bool_decide (ao_Class op = "task") && bool_decide (ao_Description op = "Creating instance") &&
  bool_decide (ao_Resources op !! "instances" = Some [instancePath]).

(** [None] is the nil operation: no create operation is active. *)
Definition tryFindInstanceCreateOperation (c : Client) (instanceName : string) :
    M state (option Operation) :=
  let! ops := wrap "failed to GetOperations: " (incus (cli_Conn c) GetOperations) in
  match List.find (creates_instance ("/1.0/instances/" +s+ instanceName)) ops with
  | None => ret None
  | Some op =>
      let! o := wrap ("failed to GetOperation(" +s+ ao_ID op +s+ "): ")
                  (incus (cli_Conn c) (RawOperation (ao_ID op))) in
      ret (Some o)
  end.

(** Poll the instance state every second until it has an address or the
    context is done. The select of the Go code takes whichever of the deadline
    and the one second timer comes first (the deadline on a tie). *)
Fixpoint waitForInstanceAddress (fuel : nat) (c : Client) (ctx : context) (name : string) :
    M state (list string) :=
  match fuel with
  | O => out_of_fuel
  | S fuel =>
      let! st := wrap "failed to GetInstanceState: " (incus (cli_Conn c) (GetInstanceState name)) in
      match ParseHostAddresses (Some st) with
      | (_ :: _) as addrs => ret addrs
      | [] =>
          let! t := clock in
          match ctx with
          | Some deadline =>
              if (deadline <=? t + 1000)%Z then
                sleep (Z.max 0 (deadline - t)) ;;
                throw (Errorf_w "timed out waiting for instance address: " DeadlineExceeded)
              else sleep 1000 ;; waitForInstanceAddress fuel c ctx name
          | None => sleep 1000 ;; waitForInstanceAddress fuel c ctx name
          end
      end
  end.

(** Enough iterations for any start: the start timeout is 60 seconds and every
    iteration but the last sleeps for one. *)
Definition poll_fuel : nat := 61.

(** ** Instances: client_instances.go *)

(** WaitForStartInstance starts an instance, and waits for at least one valid
    host address. *)
Definition WaitForStartInstance (c : Client) (ctx : context) (name : string) : M state (list string) :=
  let! ctx := WithTimeout ctx instanceStartTimeout in
  let! st := wrap "failed to GetInstanceState: " (incus (cli_Conn c) (GetInstanceState name)) in
  (if decide (is_Status st = "Running") then ret tt
   else wrap "failed to start instance: "
          (WaitForOperation c ctx "StartInstance"
             (incus (cli_Conn c) (UpdateInstanceState name "start" false)) ;; ret tt)) ;;
  waitForInstanceAddress poll_fuel c ctx name.

(** The closure that creates the instance, or finds the operation that does. *)
Definition createInstanceOperation (c : Client) (name : string) (opts : LaunchOptions) : M state Operation :=
  let! found := try (tryFindInstanceCreateOperation c name) in
  match found with
  | inr (Some op) => ret op
  | _ =>
      let! opts := wrap "failed to complete launch options: "
                     (of_result (complete (GetServerName c) opts)) in
      match lo_image opts with
      | Some (OfImage image) =>
          incus (cli_Conn c) (CreateInstance
            {| ip_Name := name; ip_Source := Image_InstanceSource image; ip_Type := lo_instanceType opts;
               ip_InstanceType := lo_flavor opts; ip_Config := lo_config opts; ip_Devices := lo_devices opts;
               ip_Profiles := lo_profiles opts |})
      | _ => panic "interface conversion: lxc.ImageFamily is not lxc.Image"
      end
  end.

Definition templateName (path : string) : string := filepath_Base path +s+ ".tpl".

Definition create_template (path : string) : ImageMetadataTemplate :=
  {| tpl_When := ["create"]; tpl_CreateOnly := true; tpl_Template := templateName path |}.

(** The template files of the instance, and their entries in its metadata. *)
Definition createTemplates (c : Client) (name : string) (opts : LaunchOptions) : M state unit :=
  let templates := default ∅ (lo_instanceTemplates opts) in
  if (0 <? size templates)%nat then
    let! metadata := wrap "failed to GetInstanceMetadata: " (incus (cli_Conn c) (GetInstanceMetadata name)) in
    for_each (range templates) (λ kv,
      wrap ("failed to CreateInstanceTemplateFile(" +s+ templateName kv.1 +s+ "): ")
        (incus (cli_Conn c) (CreateInstanceTemplateFile name (templateName kv.1) kv.2))) ;;
    let entries := insert_all (default ∅ (md_Templates metadata))
                     (map (λ kv, (kv.1, create_template kv.1)) (range templates)) in
    wrap "failed to UpdateInstanceMetadata: "
      (incus (cli_Conn c) (UpdateInstanceMetadata name {| md_Templates := Some entries |}))
  else ret tt.

Definition createFiles (c : Client) (name : string) (opts : LaunchOptions) : M state unit :=
  for_each (lo_createFiles opts) (λ file,
    wrap ("failed to " +s+ ifc_action file +s+ ": ")
      (incus (cli_Conn c) (CreateInstanceFile name (ifc_path file) (ifc_args file)))).

(** The new contents of a file, after the replacements in some order. *)
Definition replace_contents (replacer : gmap string string) (contents : string) : string :=
  foldl (λ s kv, ReplaceAll s kv.1 kv.2) contents (range replacer).

Definition replaceInFile (c : Client) (name path : string) (replacer : gmap string string) : M state unit :=
  let pre := "failed to replace text in " +s+ quote path +s+ ": " in
  let! (reader, resp) := wrap (pre +s+ "failed to GetInstanceFile: ")
                            (incus (cli_Conn c) (GetInstanceFile name path)) in
  match reader with
  | None => panic "invalid memory address or nil pointer dereference"
  | Some reader =>
      let! contents := wrap (pre +s+ "failed to read file: ") (of_result (rd_ReadAll reader)) in
      wrap (pre +s+ "failed to close reader: ")
        (match rd_Close reader with Some e => throw e | None => ret tt end) ;;
      let newContents := replace_contents replacer contents in
      if decide (newContents = contents) then ret tt
      else wrap (pre +s+ "failed to CreateInstanceFile: ")
             (incus (cli_Conn c) (CreateInstanceFile name path
                {| fa_Content := newContents; fa_Type := fr_Type resp; fa_Mode := fr_Mode resp;
                   fa_UID := fr_UID resp; fa_GID := fr_GID resp; fa_WriteMode := "overwrite" |}))
  end.

Definition replaceInFiles (c : Client) (name : string) (opts : LaunchOptions) : M state unit :=
  for_each (range (default ∅ (lo_replacements opts))) (λ pr, replaceInFile c name pr.1 pr.2).

(** What a launch does before it starts a new instance. *)
Definition provisionInstance (c : Client) (ctx : context) (name : string) (opts : LaunchOptions) :
    M state unit :=
  WaitForOperation c ctx "CreateInstance" (createInstanceOperation c name opts) ;;
  createTemplates c name opts ;;
  createFiles c name opts ;;
  replaceInFiles c name opts.

(** WaitForLaunchInstance attempts to launch and start the specified instance.
    If an instance with the same name already exists, it starts the instance. *)
Definition WaitForLaunchInstance (c : Client) (ctx : context) (name : string) (opts : LaunchOptions) :
    M state (list string) :=
  let! ctx := WithTimeout ctx instanceCreateTimeout in
  let! existing := try (incus (cli_Conn c) (GetInstanceState name)) in
  match existing with
  | inr _ => WaitForStartInstance c ctx name
  | inl _ =>
      provisionInstance c ctx name opts ;;
      WaitForStartInstance c ctx name
  end.

(** WaitForStopInstance stops an instance and waits for the operation to
    succeed. *)
Definition WaitForStopInstance (c : Client) (ctx : context) (name : string) : M state unit :=
  let! ctx := WithTimeout ctx instanceStopTimeout in
  let! st := wrap "failed to GetInstanceState: " (incus (cli_Conn c) (GetInstanceState name)) in
  if decide (is_Pid st = 0%Z) then ret tt
  else WaitForOperation c ctx "StopInstance"
         (incus (cli_Conn c) (UpdateInstanceState name "stop" true)) ;; ret tt.

(** WaitForDeleteInstance stops and removes an instance. It will not fail if
    the instance does not exist. *)
Definition WaitForDeleteInstance (c : Client) (ctx : context) (name : string) : M state unit :=
  let! ctx := WithTimeout ctx instanceDeleteTimeout in
  let! stopped := try (WaitForStopInstance c ctx name) in
  match stopped with
  | inl err =>
      if Contains (Error err) "Instance not found" then ret tt
      else throw (Errorf_w "failed to stop instance: " err)
  | inr _ =>
      WaitForOperation c ctx "DeleteInstance" (incus (cli_Conn c) (DeleteInstance name)) ;; ret tt
  end.

End instances.

#[global] Arguments ParseHostAddresses : simpl never.

(** ** Properties of addresses and filters *)

Section address_properties.

(** An address the node is reachable at, as the code chooses them: global, not
    a /32 or /128, on a network that is not the loopback and has a host side. *)
Definition host_address (st : InstanceState) (a : string) : Prop :=
  ∃ ifname nw addr, is_Network st !! ifname = Some nw ∧ addr ∈ nw_Addresses nw ∧
    nw_Type nw ≠ "loopback" ∧ nw_HostName nw ≠ "" ∧ na_Scope addr = "global" ∧
    ¬ (na_Family addr = "inet" ∧ na_Netmask addr = "32") ∧
    ¬ (na_Family addr = "inet6" ∧ na_Netmask addr = "128") ∧ a = na_Address addr.

Lemma elem_of_network_addresses nw a :
  a ∈ network_addresses nw ↔
    nw_Type nw ≠ "loopback" ∧ nw_HostName nw ≠ "" ∧
    ∃ addr, addr ∈ nw_Addresses nw ∧ na_Scope addr = "global" ∧
      ¬ (na_Family addr = "inet" ∧ na_Netmask addr = "32") ∧
      ¬ (na_Family addr = "inet6" ∧ na_Netmask addr = "128") ∧ a = na_Address addr.
Proof.
  unfold network_addresses.
  destruct (decide (nw_Type nw = "loopback")); [set_solver|].
  destruct (decide (nw_HostName nw = "")); [set_solver|].
  rewrite list_elem_of_In, in_flat_map. setoid_rewrite <- list_elem_of_In. split.
  - intros (addr & Hin & Ha). split_and!; [done..|]. exists addr. split; [done|].
    repeat case_decide; try set_solver.
  - intros (_ & _ & addr & Hin & Hs & H4 & H6 & ->). exists addr. split; [done|].
    repeat case_decide; try done; set_solver.
Qed.

Lemma ParseHostAddresses_perm (R1 R2 : MapRange) st :
  @ParseHostAddresses R1 st = @ParseHostAddresses R2 st.
Proof.
  destruct st as [st|]; [|done]. apply sort_strings_unique.
  by rewrite (@range_perm R1), (@range_perm R2).
Qed.

Lemma elem_of_ParseHostAddresses `{MapRange} st a :
  a ∈ ParseHostAddresses (Some st) ↔ host_address st a.
Proof.
  unfold ParseHostAddresses, host_address. rewrite sort_strings_perm, list_elem_of_In, in_flat_map.
  setoid_rewrite <- list_elem_of_In. setoid_rewrite elem_of_network_addresses. split.
  - intros ([ifname nw] & Hin%elem_of_range & Ht & Hh & addr & ?). naive_solver.
  - intros (ifname & nw & addr & Hin & ?). exists (ifname, nw). rewrite elem_of_range. naive_solver.
Qed.

(** The host addresses of an instance are exactly its global addresses on
    networks with a host side, in sorted order; the result does not depend on
    the order in which the networks of the state are visited. *)
Theorem ParseHostAddresses_spec (R1 R2 : MapRange) (st : InstanceState) :
  (∀ a, a ∈ @ParseHostAddresses R1 (Some st) ↔ host_address st a) ∧
  StronglySorted String.le (@ParseHostAddresses R1 (Some st)) ∧
  @ParseHostAddresses R1 (Some st) = @ParseHostAddresses R2 (Some st).
Proof.
  split_and!.
  - intros a. apply elem_of_ParseHostAddresses.
  - apply sort_strings_sorted.
  - apply ParseHostAddresses_perm.
Qed.

End address_properties.

(** ** Liveness: launching and starting end *)

Section termination.
Context `{MapRange} `{E : Env} `{!EnvTime E}.

(** The deadline is at most [k] milliseconds away. *)
Definition within (d k : Z) (s : state) : Prop := (d ≤ now (st_world s) + k)%Z.

#[export] Instance Stable_within d k : Stable (within d k).
Proof.
  intros A c r w s Hh Hs. unfold within in *. simpl.
  pose proof (now_handle A c (st_world s)) as Hn. rewrite Hh in Hn. simpl in Hn. lia.
Qed.

Lemma safe_wait_operation D I `{!Stable I} c op ctx : safe_or D I (wait_operation c op ctx).
Proof. unfold wait_operation. safe_auto. Qed.
Hint Resolve safe_wait_operation : capn.

Lemma safe_WaitForOperation D I `{!Stable I} c ctx name f :
  safe_or D I f → safe_or D I (WaitForOperation c ctx name f).
Proof. intros Hf. unfold WaitForOperation. safe_auto. Qed.

(** Whatever completing the options gives, the launch goes on with an [Image]. *)
Lemma complete_image srv opts opts' :
  complete srv opts = inr opts' → ∃ image, lo_image opts' = Some (OfImage image).
Proof. intros (? & ? & _ & _ & _ & ? & _)%complete_inv. eauto. Qed.

Lemma safe_createInstanceOperation D I `{!Stable I} c name opts :
  safe_or D I (createInstanceOperation c name opts).
Proof.
  unfold createInstanceOperation, tryFindInstanceCreateOperation.
  apply safe_bind; [safe_auto|]. intros [e|[op|]]; [|safe_auto|].
  all: destruct (complete (GetServerName c) opts) as [e'|opts'] eqn:Hc; [by intros s Hs|].
  all: destruct (complete_image _ _ _ Hc) as [image Hi].
  all: intros s Hs; unfold bind; simpl; rewrite Hi; by apply safe_perform.
Qed.
Hint Resolve safe_createInstanceOperation safe_WaitForOperation : capn.

Lemma safe_createTemplates D I `{!Stable I} c name opts : safe_or D I (createTemplates c name opts).
Proof. unfold createTemplates. safe_auto. Qed.

Lemma safe_createFiles D I `{!Stable I} c name opts : safe_or D I (createFiles c name opts).
Proof. unfold createFiles. safe_auto. Qed.

Lemma ends_replaceInFiles I `{!Stable I} c name opts : ends I (replaceInFiles c name opts).
Proof. unfold replaceInFiles, replaceInFile. safe_auto. Qed.

(** Options without replacements read no file. *)
Lemma safe_replaceInFiles D I `{!Stable I} c name opts :
  default ∅ (lo_replacements opts) = ∅ → safe_or D I (replaceInFiles c name opts).
Proof. intros Hr. unfold replaceInFiles. rewrite Hr, range_empty. apply safe_ret. Qed.
Hint Resolve safe_createTemplates safe_createFiles ends_replaceInFiles : capn.

Lemma ends_provisionInstance c ctx name opts : ends (λ _, True) (provisionInstance c ctx name opts).
Proof. unfold provisionInstance. safe_auto. Qed.

Lemma safe_provisionInstance c ctx name opts :
  default ∅ (lo_replacements opts) = ∅ → safe (λ _, True) (provisionInstance c ctx name opts).
Proof. intros Hr. unfold provisionInstance. safe_auto. by apply safe_replaceInFiles; [apply _|]. Qed.

(** The polling loop ends: every iteration but the last takes a second, and
    there are at least as many iterations as seconds before the deadline. *)
Lemma waitForInstanceAddress_ends fuel c d name s :
  within d (1000 * Z.of_nat fuel) s → (0 < fuel)%nat →
  wp (waitForInstanceAddress fuel c (Some d) name)
     (λ o _, match o with Ok addrs => addrs ≠ [] | Err _ => True | _ => False end) s.
Proof.
  revert s. induction fuel as [|fuel IH]; intros s Hd Hf; [lia|].
  cbn [waitForInstanceAddress]. do 2 wp_step. apply wp_perform. intros r w Hh. destruct r as [e|st]; [done|].
  pose proof (stable (I := within d (1000 * Z.of_nat (S fuel))) _ _ _ _ _ Hh Hd) as Hd'.
  cbn beta iota. destruct (ParseHostAddresses (Some st)) as [|a addrs] eqn:Hp; [|apply wp_ret; simpl; congruence].
  wp_step. apply wp_clock. case_match; [done|].
  wp_step. unfold sleep. unfold wp at 1, modify. apply IH; unfold within in *; cbn [st_world] in *.
  - rewrite now_elapse by lia. lia.
  - apply Z.leb_gt in H0. destruct fuel; [lia|lia].
Qed.

#[local] Arguments waitForInstanceAddress : simpl never.

Lemma WaitForStartInstance_ends c ctx name s :
  wp (WaitForStartInstance c ctx name)
     (λ o _, match o with Ok addrs => addrs ≠ [] | Err _ => True | _ => False end) s.
Proof.
  unfold WaitForStartInstance, WithTimeout. do 2 wp_step. apply wp_clock. cbn beta iota. wp_step. cbn beta iota.
  set (d := match ctx with None => _ | Some dl => _ end).
  assert (within d 60000 s) as Hd.
  { unfold within, d, instanceStartTimeout. destruct ctx; lia. }
  clearbody d. wp_step. wp_step. apply wp_perform. intros [e|st] w Hh; [done|].
  pose proof (stable (I := within d 60000) _ _ _ _ _ Hh Hd) as Hd'. wp_step.
  eapply wp_mono; [eapply (wp_safe (within d 60000)); [|done]; safe_auto|].
  intros [[]|e|msg|] s' Hs'; simpl in *; try done.
  eapply wp_mono; [apply waitForInstanceAddress_ends; [|unfold poll_fuel; lia]|done].
  unfold within, poll_fuel in *. lia.
Qed.

(** When provisioning may panic, so may the launch; nothing else in it does. *)
Lemma WaitForLaunchInstance_wp D c ctx name opts s :
  (∀ ctx, safe_or D (λ _, True) (provisionInstance c ctx name opts)) →
  wp (WaitForLaunchInstance c ctx name opts)
     (λ o _, match o with Ok addrs => addrs ≠ [] | Err _ => True | Panic _ => D | OutOfFuel => False end) s.
Proof.
  intros Hprov. unfold WaitForLaunchInstance, WithTimeout. do 2 wp_step. apply wp_clock. cbn beta iota.
  assert (Hstart : ∀ ctx s, wp (WaitForStartInstance c ctx name)
    (λ o _, match o with Ok addrs => addrs ≠ [] | Err _ => True | Panic _ => D | OutOfFuel => False end) s).
  { intros ctx' s'. eapply wp_mono; [apply WaitForStartInstance_ends|]. by intros []. }
  do 3 wp_step. apply wp_perform. intros [e|st] w _; [|apply Hstart].
  wp_step. eapply wp_mono; [apply (wp_safe_or D (λ _, True)); [apply Hprov|done]|].
  intros [?|?|?|] s1 H1; [apply Hstart|done..].
Qed.

Lemma safe_RunCommand D I `{!Stable I} c ctx name command stdin : safe_or D I (RunCommand c ctx name command stdin).
Proof. unfold RunCommand, wait_operation. safe_auto. Qed.

Lemma safe_WaitForStopInstance D I `{!Stable I} c ctx name : safe_or D I (WaitForStopInstance c ctx name).
Proof. unfold WaitForStopInstance, WithTimeout. safe_auto. Qed.

Lemma safe_WaitForDeleteInstance D I `{!Stable I} c ctx name : safe_or D I (WaitForDeleteInstance c ctx name).
Proof. unfold WaitForDeleteInstance, WithTimeout. safe_auto; by apply safe_WaitForStopInstance. Qed.

Lemma safe_WaitForLaunchInstance c ctx name opts :
  default ∅ (lo_replacements opts) = ∅ → safe (λ _, True) (WaitForLaunchInstance c ctx name opts).
Proof.
  intros Hr s _. pose proof (WaitForLaunchInstance_wp False c ctx name opts s (λ ctx, safe_provisionInstance c ctx name opts Hr)) as Hw.
  unfold wp in Hw. by destruct (WaitForLaunchInstance c ctx name opts s) as [[] s'].
Qed.

Lemma gives_WaitForLaunchInstance c ctx name opts : gives_or True (λ addrs, addrs ≠ []) (WaitForLaunchInstance c ctx name opts).
Proof.
  intros s. pose proof (WaitForLaunchInstance_wp True c ctx name opts s (λ ctx, ends_provisionInstance c ctx name opts)) as Hw.
  unfold wp in Hw. by destruct (WaitForLaunchInstance c ctx name opts s) as [[] s'].
Qed.

Lemma ends_WaitForLaunchInstance c ctx name opts : ends (λ _, True) (WaitForLaunchInstance c ctx name opts).
Proof.
  intros s _. pose proof (gives_WaitForLaunchInstance c ctx name opts s) as Hg.
  by destruct (WaitForLaunchInstance c ctx name opts s) as [[] s'].
Qed.

(** *** Panics: only on a directory in place of a file *)

Definition directory_at (conn : Conn) (name : string) (paths : list string) (e : event) : Prop :=
  match e with
  | existT A (CIncus conn' (GetInstanceFile name' path), inr (None, _)) => conn' = conn ∧ name' = name ∧ path ∈ paths
  | _ => False
  end.

Lemma directory_at_is conn name paths e : directory_at conn name paths e → is_directory e.
Proof. destruct e as [A [[B conn' []|B c|B c] r]]; simpl; try done. by destruct r as [?|[[] ?]]. Qed.

(** The files that the options have replacements for. *)
Definition replaced_paths (opts : LaunchOptions) : list string := (range (default ∅ (lo_replacements opts))).*1.

Lemma panics_replaceInFiles c name opts :
  panics_only (directory_at (cli_Conn c) name (replaced_paths opts)) (replaceInFiles c name opts).
Proof.
  unfold replaceInFiles, replaced_paths.
  assert (Hin : ∀ pr, pr ∈ range (default ∅ (lo_replacements opts)) → pr.1 ∈ (range (default ∅ (lo_replacements opts))).*1)
    by (intros pr Hpr; apply list_elem_of_fmap; by exists pr).
  revert Hin. generalize ((range (default ∅ (lo_replacements opts))).*1). intros paths.
  induction (range (default ∅ (lo_replacements opts))) as [|pr l IH]; intros Hin; simpl; [apply panics_only_ret|].
  apply panics_only_bind; [|intros _; apply IH; intros pr' Hpr'; apply Hin; by right].
  unfold replaceInFile, panics_only. do 3 tr_step; [done|]. destruct p as [[reader|] resp]; cbn beta iota.
  - lazymatch goal with |- traces ?m _ => assert (Hp : panics_only (λ _, False) m) by panics_auto end.
    eapply traces_mono; [exact Hp|].
    intros [] evs Hd; try done. exfalso. by apply Exists_exists in Hd as (? & _ & ?).
  - tr_step. apply Exists_cons_hd. simpl. split_and!; [done..|]. apply Hin. by left.
Qed.

Lemma panics_WaitForStartInstance D c ctx name : panics_only D (WaitForStartInstance c ctx name).
Proof.
  assert (Ha : ∀ fuel ctx, panics_only D (waitForInstanceAddress fuel c ctx name)).
  { induction fuel as [|fuel IH]; intros ctx'; unfold waitForInstanceAddress; fold waitForInstanceAddress;
      panics_auto. }
  unfold WaitForStartInstance, WithTimeout, WaitForOperation, wait_operation. panics_auto.
Qed.
Hint Resolve panics_WaitForStartInstance panics_replaceInFiles : capn.

Lemma panics_WaitForLaunchInstance c ctx name opts :
  panics_only (directory_at (cli_Conn c) name (replaced_paths opts)) (WaitForLaunchInstance c ctx name opts).
Proof.
  assert (Hc : ∀ D, panics_only D (createInstanceOperation c name opts)).
  { intros D. unfold createInstanceOperation, tryFindInstanceCreateOperation. apply panics_only_bind; [panics_auto|].
    assert (Hgo : panics_only D (let! o := wrap "failed to complete launch options: " (of_result (complete (GetServerName c) opts)) in
      match lo_image o with
      | Some (OfImage image) => incus (cli_Conn c) (CreateInstance
            {| ip_Name := name; ip_Source := Image_InstanceSource image; ip_Type := lo_instanceType o;
               ip_InstanceType := lo_flavor o; ip_Config := lo_config o; ip_Devices := lo_devices o;
               ip_Profiles := lo_profiles o |})
      | _ => panic "interface conversion: lxc.ImageFamily is not lxc.Image"
      end)).
    { destruct (complete (GetServerName c) opts) as [e'|opts'] eqn:Hco; [by apply traces_bind, traces_wrap, traces_of_result|].
      destruct (complete_image _ _ _ Hco) as [image Hi].
      apply traces_bind, traces_wrap, traces_of_result. rewrite Hi. apply traces_perform. by intros []. }
    intros [e|[op|]]; [exact Hgo|panics_auto|exact Hgo]. }
  unfold WaitForLaunchInstance, WithTimeout, provisionInstance, createTemplates, createFiles, WaitForOperation, wait_operation.
  panics_auto.
Qed.

(** C7: Launching an instance ends, whatever the server answers, without polling
    past the start timeout; on success there is at least one host address. It
    panics in one case only: the server has a directory, for which it returns no
    reader, at a path that the options have text replacements for. *)
Theorem WaitForLaunchInstance_ends (c : Client) (ctx : context) (name : string) (opts : LaunchOptions)
    (s : state) :
  ∃ evs, st_log (WaitForLaunchInstance c ctx name opts s).2 = st_log s ++ evs ∧
    match (WaitForLaunchInstance c ctx name opts s).1 with
    | Ok addrs => addrs ≠ []
    | Err _ => True
    | Panic _ => Exists (directory_at (cli_Conn c) name (replaced_paths opts)) evs
    | OutOfFuel => False
    end.
Proof.
  destruct (traces_gives _ _ _ (panics_WaitForLaunchInstance c ctx name opts) (gives_WaitForLaunchInstance c ctx name opts) s)
    as (evs & Hl & Ho). exists evs. split; [done|]. by destruct (_ s).1.
Qed.

End termination.

#[export] Hint Resolve safe_wait_operation safe_WaitForOperation safe_RunCommand safe_WaitForStopInstance
  safe_WaitForDeleteInstance safe_WaitForLaunchInstance ends_WaitForLaunchInstance : capn.

(** ** What the operations do to the server *)

(** The instance a call may change. *)
Definition icall_instance {A} (c : icall A) : option string :=
  match c with
  | CreateInstance post => Some (ip_Name post)
  | UpdateInstanceState name _ _ | DeleteInstance name | UpdateInstanceMetadata name _
  | CreateInstanceTemplateFile name _ _ | CreateInstanceFile name _ _ | ExecInstance name _ _ => Some name
  | _ => None
  end.

(** The event is a call on this connection that changes nothing but, possibly,
    this instance. *)
Definition confined (conn : Conn) (name : string) (e : event) : Prop :=
  match projT2 e with
  | (CIncus conn' c, _) => conn' = conn ∧ (icall_reads c = true ∨ icall_instance c = Some name)
  | _ => False
  end.

(** Requests to start an instance, and requests that provision one. *)
Definition is_start {A} (c : icall A) : bool :=
  match c with UpdateInstanceState _ _ _ => true | _ => false end.

Definition is_provision {A} (c : icall A) : bool :=
  match c with
  | CreateInstance _ | UpdateInstanceMetadata _ _ | CreateInstanceTemplateFile _ _ _
  | CreateInstanceFile _ _ _ => true
  | _ => false
  end.

Definition is_create {A} (c : icall A) : bool :=
  match c with CreateInstance _ | CreateNetworkLoadBalancer _ _ _ => true | _ => false end.

(** The request that creates an instance from these options. *)
Definition launch_post `{MapRange} (serverName name : string) (opts : LaunchOptions) (post : InstancesPost) : Prop :=
  ∃ opts', complete serverName opts = inr opts' ∧ ip_Name post = name ∧ ip_Type post = lo_instanceType opts' ∧
    ip_InstanceType post = lo_flavor opts' ∧ ip_Config post = lo_config opts' ∧
    ip_Devices post = lo_devices opts' ∧ ip_Profiles post = lo_profiles opts'.

Definition incus_event (P : ∀ A, icall A → bool) (e : event) : Prop :=
  match projT2 e with
  | (CIncus _ c, _) => P _ c = true
  | _ => False
  end.

Definition not_start (e : event) : Prop := incus_event (λ A c, negb (is_start c)) e.
Definition not_provision (e : event) : Prop := incus_event (λ A c, negb (is_provision c)) e.
Definition not_create (e : event) : Prop := incus_event (λ A c, negb (is_create c)) e.

(** The server accepted the call with this answer. *)
Definition accepted {A} (conn : Conn) (c : icall A) (a : A) : event := existT A (CIncus conn c, inr a).

Section traces.
Context `{MapRange} `{E : Env}.

Section calls.
Context (P : event → Prop) (c : Client).
Hypothesis Hreads : ∀ A (call : icall A) r, icall_reads call = true → P (existT A (CIncus (cli_Conn c) call, r)).

Lemma calls_wait_operation op ctx : calls_only P (wait_operation c op ctx).
Proof. unfold wait_operation. calls_auto. Qed.
Hint Resolve calls_wait_operation : capn.

Lemma calls_WaitForOperation ctx name f :
  calls_only P f → calls_only P (WaitForOperation c ctx name f).
Proof. intros Hf. unfold WaitForOperation. calls_auto. Qed.

Lemma calls_waitForInstanceAddress fuel ctx name : calls_only P (waitForInstanceAddress fuel c ctx name).
Proof. induction fuel; cbn [waitForInstanceAddress]; calls_auto. Qed.
Hint Resolve calls_waitForInstanceAddress : capn.

Lemma calls_WaitForStartInstance ctx name :
  (∀ r, P (existT _ (CIncus (cli_Conn c) (UpdateInstanceState name "start" false), r))) →
  calls_only P (WaitForStartInstance c ctx name).
Proof.
  intros Hs. unfold WaitForStartInstance, WithTimeout. calls_auto.
  apply calls_WaitForOperation. calls_auto.
Qed.

Lemma calls_createInstanceOperation name opts :
  (∀ post r, launch_post (GetServerName c) name opts post →
     P (existT _ (CIncus (cli_Conn c) (CreateInstance post), r))) →
  calls_only P (createInstanceOperation c name opts).
Proof.
  intros Hc. unfold createInstanceOperation, tryFindInstanceCreateOperation.
  apply calls_only_bind; [calls_auto|]. intros [e|[op|]]; [|calls_auto|];
    (destruct (complete (GetServerName c) opts) as [e'|opts'] eqn:Hco; [intros s; apply grows_refl|]);
    destruct (complete_image _ _ _ Hco) as [image Hi];
    intros s; unfold bind; simpl; rewrite Hi; apply calls_only_perform; intros r; apply Hc; by exists opts'.
Qed.

Lemma calls_createTemplates name opts :
  (∀ t x r, P (existT _ (CIncus (cli_Conn c) (CreateInstanceTemplateFile name t x), r))) →
  (∀ md r, P (existT _ (CIncus (cli_Conn c) (UpdateInstanceMetadata name md), r))) →
  calls_only P (createTemplates c name opts).
Proof. intros Ht Hm. unfold createTemplates. calls_auto. Qed.

Lemma calls_createFiles name opts :
  (∀ p x r, P (existT _ (CIncus (cli_Conn c) (CreateInstanceFile name p x), r))) →
  calls_only P (createFiles c name opts).
Proof. intros Ht. unfold createFiles. calls_auto. Qed.

Lemma calls_replaceInFiles name opts :
  (∀ p x r, P (existT _ (CIncus (cli_Conn c) (CreateInstanceFile name p x), r))) →
  calls_only P (replaceInFiles c name opts).
Proof. intros Ht. unfold replaceInFiles, replaceInFile. calls_auto. Qed.

Lemma calls_WaitForLaunchInstance ctx name opts :
  (∀ post r, launch_post (GetServerName c) name opts post →
     P (existT _ (CIncus (cli_Conn c) (CreateInstance post), r))) →
  (∀ A (call : icall A) r, icall_instance call = Some name → is_create call = false →
     is_provision call = true ∨ is_start call = true →
     P (existT A (CIncus (cli_Conn c) call, r))) →
  calls_only P (WaitForLaunchInstance c ctx name opts).
Proof.
  intros Hpost Hw. unfold WaitForLaunchInstance, WithTimeout.
  apply calls_only_bind; [calls_auto|]. intros ctx'.
  apply calls_only_bind; [calls_auto|]. intros [e|st]; [|apply calls_WaitForStartInstance; auto].
  unfold provisionInstance. repeat (apply calls_only_bind; [|intros _]).
  - by apply calls_WaitForOperation, calls_createInstanceOperation.
  - apply calls_createTemplates; auto.
  - apply calls_createFiles; auto.
  - apply calls_replaceInFiles; auto.
  - apply calls_WaitForStartInstance; auto.
Qed.

Lemma calls_WaitForStopInstance ctx name :
  (∀ r, P (existT _ (CIncus (cli_Conn c) (UpdateInstanceState name "stop" true), r))) →
  calls_only P (WaitForStopInstance c ctx name).
Proof.
  intros Hs. unfold WaitForStopInstance, WithTimeout. calls_auto.
  apply calls_WaitForOperation. calls_auto.
Qed.

Lemma calls_WaitForDeleteInstance ctx name :
  (∀ r, P (existT _ (CIncus (cli_Conn c) (UpdateInstanceState name "stop" true), r))) →
  (∀ r, P (existT _ (CIncus (cli_Conn c) (DeleteInstance name), r))) →
  calls_only P (WaitForDeleteInstance c ctx name).
Proof.
  intros Hs Hd. unfold WaitForDeleteInstance, WithTimeout. calls_auto.
  - by apply calls_WaitForStopInstance.
  - apply calls_WaitForOperation. calls_auto.
Qed.

End calls.

Lemma confined_reads c name A (call : icall A) r :
  icall_reads call = true → confined (cli_Conn c) name (existT A (CIncus (cli_Conn c) call, r)).
Proof. unfold confined. simpl. auto. Qed.
Hint Resolve confined_reads : capn.

(** Launching, starting, stopping and deleting the instance [name] only
    talk to the server over the connection of the client (its project and
    target), and change nothing there but the instance [name]. *)
Theorem instance_operations_confined (c : Client) (ctx : context) (name : string) (opts : LaunchOptions) :
  calls_only (confined (cli_Conn c) name) (WaitForLaunchInstance c ctx name opts) ∧
  calls_only (confined (cli_Conn c) name) (WaitForStartInstance c ctx name) ∧
  calls_only (confined (cli_Conn c) name) (WaitForStopInstance c ctx name) ∧
  calls_only (confined (cli_Conn c) name) (WaitForDeleteInstance c ctx name).
Proof.
  split_and!; [apply calls_WaitForLaunchInstance|apply calls_WaitForStartInstance
    |apply calls_WaitForStopInstance|apply calls_WaitForDeleteInstance];
    unfold confined; simpl; auto. intros post r (o & _ & -> & _). auto.
Qed.

(** The result of waiting for an operation, from the answer of the server. *)
Definition wait_result (r : error + WaitResult) : WaitResult :=
  match r with
  | inl e => {| wr_err := Some e; wr_return := None; wr_stdout := ""; wr_stderr := "" |}
  | inr r => r
  end.

(** The wait ended well: no error, or the operation is not known any more. *)
Definition wait_done (r : error + WaitResult) : bool :=
  match wr_err (wait_result r) with
  | Some err => Contains (Error err) "Operation not found"
  | None => true
  end.

Lemma traces_WaitForOperation c ctx name f (Q : outcome WaitResult → list event → Prop) :
  traces f (λ o evs,
    match o with
    | Ok op => ∀ r,
        let evs' := evs ++ [existT _ (CIncus (cli_Conn c) (WaitContext op ctx), r)] in
        if wait_done r then Q (Ok (wait_result r)) evs'
        else ∀ err, wr_err (wait_result r) = Some err →
               Q (Err (Errorf_w ("failed to wait for " +s+ name +s+ " operation: ") err)) evs'
    | Err e => Q (Err (Errorf_w ("failed to " +s+ name +s+ ": ") e)) evs
    | Panic msg => Q (Panic msg) evs
    | OutOfFuel => Q OutOfFuel evs
    end) →
  traces (WaitForOperation c ctx name f) Q.
Proof.
  intros Hf. unfold WaitForOperation, wait_operation. do 2 tr_step. eapply traces_mono; [exact Hf|].
  intros [op|e|msg|] evs; [|done..]. intros Hw.
  do 4 tr_step; tr_step; cbn beta iota delta [wr_err].
  - specialize (Hw (inl e)). unfold wait_done in Hw. cbn beta iota zeta delta [wait_result wr_err] in Hw.
    unfold operation_error. cbn beta iota delta [wr_err].
    destruct (Contains _ _); tr_step; cbn [app]; by apply Hw.
  - specialize (Hw (inr w)). unfold wait_done in Hw. cbn beta iota zeta delta [wait_result] in Hw.
    unfold operation_error.
    destruct (wr_err w) as [err|] eqn:He; [|by tr_step].
    destruct (Contains _ _); tr_step; cbn [app]; by apply Hw.
Qed.

(** The error an event shows about the instance: of a call on it, or of an
    operation waited for. *)
Definition event_error (conn : Conn) (name : string) (e : event) : option error :=
  match e with
  | existT A (CIncus conn' (GetInstanceState n), inl err) => if decide (conn' = conn ∧ n = name) then Some err else None
  | existT A (CIncus conn' (UpdateInstanceState n _ _), inl err) => if decide (conn' = conn ∧ n = name) then Some err else None
  | existT A (CIncus conn' (WaitContext _ _), r) =>
      if decide (conn' = conn) then match r with inr r => wr_err r | inl err => Some err end else None
  | _ => None
  end.

Definition reported_missing (conn : Conn) (name : string) (evs : list event) : Prop :=
  ∃ ev err, ev ∈ evs ∧ event_error conn name ev = Some err ∧ Contains (Error err) "Instance not found" = true.

Definition deleted (conn : Conn) (name : string) (evs : list event) : Prop :=
  ∃ op dl r, accepted conn (DeleteInstance name) op ∈ evs ∧
    existT _ (CIncus conn (WaitContext op dl), r) ∈ evs ∧ wait_done r = true.

Lemma reported_missing_app_l conn name evs evs' : reported_missing conn name evs → reported_missing conn name (evs ++ evs').
Proof. intros (ev & err & ? & ?). exists ev, err. by rewrite elem_of_app; auto. Qed.

Lemma reported_missing_last conn name evs ev err pre :
  event_error conn name ev = Some err → free pre "Instance not found" = true →
  Contains (Error (Errorf_w pre err)) "Instance not found" = true → reported_missing conn name (evs ++ [ev]).
Proof.
  intros He Hf Hc. rewrite Error_Errorf, Contains_free in Hc by done. exists ev, err.
  split_and!; [|done..]. set_solver.
Qed.

(** Stopping only fails with an instance that is not found when the server said so. *)
Lemma traces_WaitForStopInstance_missing c ctx name :
  traces (WaitForStopInstance c ctx name) (λ o evs,
    match o with
    | Err err => Contains (Error err) "Instance not found" = true → reported_missing (cli_Conn c) name evs
    | _ => True
    end).
Proof.
  unfold WaitForStopInstance, WithTimeout. do 2 tr_step; do 2 tr_step.
  do 3 tr_step; [by eapply (reported_missing_last _ _ []); [simpl; by rewrite decide_True by done|..]|].
  tr_step; [by tr_step|]. tr_step. apply traces_WaitForOperation. tr_step.
  - by eapply (reported_missing_last _ _ [_]); [simpl; by rewrite decide_True by done|..].
  - intros r. destruct (wait_done r) eqn:Hr; [by tr_step|]. intros err Herr.
    eapply (reported_missing_last _ _ [_; _]); [|done].
    unfold event_error. rewrite decide_True by done. by destruct r; simpl in *.
Qed.

Lemma traces_WaitForDeleteInstance c ctx name :
  traces (WaitForDeleteInstance c ctx name) (λ o evs,
    match o with Ok _ => reported_missing (cli_Conn c) name evs ∨ deleted (cli_Conn c) name evs | _ => True end).
Proof.
  unfold WaitForDeleteInstance, WithTimeout. do 2 tr_step; do 2 tr_step. do 2 tr_step.
  eapply traces_mono; [apply traces_WaitForStopInstance_missing|].
  intros [[]|err|msg|] evs Hm; [|tr_step; tr_step; cbn [app]; rewrite ?app_nil_r; auto|done..].
  tr_step. apply traces_WaitForOperation. tr_step; [done|].
  intros r. destruct (wait_done r) eqn:Hr; [|done]. tr_step. right. eexists o, _, r.
  unfold accepted. rewrite !elem_of_app, !elem_of_cons. naive_solver.
Qed.

(** C25: Deleting an instance returns without an error only when the server
    reported that the instance does not exist, or accepted to delete it and
    the operation was waited for to its end. *)
Theorem WaitForDeleteInstance_evidence (c : Client) (ctx : context) (name : string) (s s' : state) :
  WaitForDeleteInstance c ctx name s = (Ok tt, s') →
  ∃ evs, st_log s' = st_log s ++ evs ∧ (reported_missing (cli_Conn c) name evs ∨ deleted (cli_Conn c) name evs).
Proof.
  apply (traces_run _ (λ o evs, match o with Ok _ => reported_missing (cli_Conn c) name evs ∨ deleted (cli_Conn c) name evs
                                | _ => True end)).
  apply traces_WaitForDeleteInstance.
Qed.

(** Deleting an instance that the server reports missing succeeds, after
    that one question and without any request to change the server. *)
Theorem WaitForDeleteInstance_missing (c : Client) (ctx : context) (name : string) (s : state)
    (e : error) (w : world) :
  handle (CIncus (cli_Conn c) (GetInstanceState name)) (st_world s) = (inl e, w) →
  Contains (Error e) "Instance not found" = true →
  WaitForDeleteInstance c ctx name s =
    (Ok tt, after (CIncus (cli_Conn c) (GetInstanceState name)) (inl e) w s).
Proof.
  intros Hh Hc. unfold WaitForDeleteInstance, WaitForStopInstance, WithTimeout, bind, try, clock, incus.
  simpl. unfold wrap, perform. rewrite Hh.
  rewrite Error_Errorf. rewrite Contains_app_r by done. done.
Qed.

(** *** The phases of a launch *)

Definition files_created (conn : Conn) (name : string) (opts : LaunchOptions) (evs : list event) : Prop :=
  ∀ file, file ∈ lo_createFiles opts →
    accepted conn (CreateInstanceFile name (ifc_path file) (ifc_args file)) tt ∈ evs.

Definition templates_created (conn : Conn) (name : string) (opts : LaunchOptions) (evs : list event) : Prop :=
  ∀ path contents, lookup_opt (lo_instanceTemplates opts) path = Some contents →
    accepted conn (CreateInstanceTemplateFile name (templateName path) contents) tt ∈ evs ∧
    ∃ entries, accepted conn (UpdateInstanceMetadata name {| md_Templates := Some entries |}) tt ∈ evs ∧
               entries !! path = Some (create_template path).

(** Every file with replacements was read to its end, and written back with the
    replaced text unless nothing was replaced. *)
Definition file_replaced (conn : Conn) (name path : string) (replacer : gmap string string) (evs : list event) : Prop :=
  ∃ reader resp contents, accepted conn (GetInstanceFile name path) (Some reader, resp) ∈ evs ∧
    rd_ReadAll reader = inr contents ∧
    (replace_contents replacer contents = contents ∨
     accepted conn (CreateInstanceFile name path
       {| fa_Content := replace_contents replacer contents; fa_Type := fr_Type resp; fa_Mode := fr_Mode resp;
          fa_UID := fr_UID resp; fa_GID := fr_GID resp; fa_WriteMode := "overwrite" |}) tt ∈ evs).

Definition texts_replaced (conn : Conn) (name : string) (opts : LaunchOptions) (evs : list event) : Prop :=
  ∀ path replacer, lookup_opt (lo_replacements opts) path = Some replacer → file_replaced conn name path replacer evs.

Lemma file_replaced_app conn name path replacer evs evs' :
  file_replaced conn name path replacer evs → file_replaced conn name path replacer (evs ++ evs').
Proof.
  intros (reader & resp & contents & Hr & Ha & Hc). exists reader, resp, contents. rewrite !elem_of_app. tauto.
Qed.

Lemma file_replaced_app_r conn name path replacer evs evs' :
  file_replaced conn name path replacer evs' → file_replaced conn name path replacer (evs ++ evs').
Proof.
  intros (reader & resp & contents & Hr & Ha & Hc). exists reader, resp, contents. rewrite !elem_of_app. tauto.
Qed.

Lemma traces_replaceInFile c name path replacer :
  traces (replaceInFile c name path replacer) (λ o evs,
    match o with Ok _ => file_replaced (cli_Conn c) name path replacer evs | _ => True end).
Proof.
  unfold replaceInFile. do 3 tr_step; [done|]. destruct p as [[reader|] resp]; cbn beta iota; [|by tr_step].
  do 3 tr_step. destruct (rd_ReadAll reader) as [e|contents] eqn:Hr; [done|]. cbn beta iota. tr_step.
  destruct (rd_Close reader) as [e|]; [by do 2 tr_step|]. do 2 tr_step.
  case_decide as Heq; [tr_step|do 2 tr_step; [done|destruct u]]; exists reader, resp, contents; unfold accepted;
    rewrite ?elem_of_app, ?elem_of_cons; auto 10.
Qed.

Lemma traces_replaceInFiles c name opts :
  traces (replaceInFiles c name opts) (λ o evs,
    match o with Ok _ => texts_replaced (cli_Conn c) name opts evs | _ => True end).
Proof.
  unfold replaceInFiles, texts_replaced, lookup_opt.
  apply (traces_for_each (λ rest evs, ∀ path replacer, (path, replacer) ∈ range (default ∅ (lo_replacements opts)) →
    (path, replacer) ∈ rest ∨ file_replaced (cli_Conn c) name path replacer evs)).
  - auto.
  - intros [p1 r1] rest evs HI. simpl. eapply traces_mono; [apply traces_replaceInFile|].
    intros [[]|?|?|] evs' Hf; try done. intros path replacer Hin.
    destruct (HI path replacer Hin) as [[Heq|?]%elem_of_cons|Hd]; [right|by left|right; by apply file_replaced_app].
    injection Heq as -> ->. by apply file_replaced_app_r.
  - intros evs HI path replacer Hp. destruct (HI path replacer) as [?%not_elem_of_nil|]; [|done..]. by apply elem_of_range.
Qed.

(** An operation that creates the instance was started, or found running, and
    waited for. *)
Definition creation_waited (conn : Conn) (name : string) (evs : list event) : Prop :=
  ∃ op dl r, existT _ (CIncus conn (WaitContext op dl), r) ∈ evs ∧ wait_done r = true ∧
    ((∃ post, ip_Name post = name ∧ accepted conn (CreateInstance post) op ∈ evs) ∨
     (∃ id, accepted conn (RawOperation id) op ∈ evs)).

Lemma traces_createInstanceOperation c name opts :
  traces (createInstanceOperation c name opts) (λ o evs,
    match o with
    | Ok op => (∃ post, ip_Name post = name ∧ accepted (cli_Conn c) (CreateInstance post) op ∈ evs) ∨
               (∃ id, accepted (cli_Conn c) (RawOperation id) op ∈ evs)
    | _ => True
    end).
Proof.
  unfold createInstanceOperation, tryFindInstanceCreateOperation.
  assert (∀ evs, traces
    (let! opts := wrap "failed to complete launch options: " (of_result (complete (GetServerName c) opts)) in
      match lo_image opts with
      | Some (OfImage image) =>
          incus (cli_Conn c) (CreateInstance
            {| ip_Name := name; ip_Source := Image_InstanceSource image; ip_Type := lo_instanceType opts;
               ip_InstanceType := lo_flavor opts; ip_Config := lo_config opts; ip_Devices := lo_devices opts;
               ip_Profiles := lo_profiles opts |})
      | _ => panic "interface conversion: lxc.ImageFamily is not lxc.Image"
      end) (λ o evs', match o with
    | Ok op => (∃ post, ip_Name post = name ∧ accepted (cli_Conn c) (CreateInstance post) op ∈ evs ++ evs') ∨
               (∃ id, accepted (cli_Conn c) (RawOperation id) op ∈ evs ++ evs')
    | _ => True
    end)) as Hcreate.
  { intros evs. do 3 tr_step. destruct (complete _ _) as [e|o]; [done|].
    destruct (lo_image o) as [[image|d f]|]; [|by tr_step..]. tr_step; [done|].
    left. eexists. split; [|apply elem_of_app; right; apply list_elem_of_singleton; reflexivity]. done. }
  do 4 tr_step; tr_step; [apply Hcreate|].
  tr_step; [|tr_step; apply Hcreate]. do 2 tr_step; tr_step; [apply Hcreate|]. tr_step. tr_step.
  right. eexists. unfold accepted. rewrite !elem_of_app, !elem_of_cons. eauto 10.
Qed.

(** A loop of one call per element: after it, every call was accepted. *)
Lemma traces_for_each_accepted {A} (c : Client) (l : list A) pre (call : A → icall unit) :
  traces (for_each l (λ x, wrap (pre x) (incus (cli_Conn c) (call x)))) (λ o evs,
    match o with
    | Ok _ => ∀ x, x ∈ l → accepted (cli_Conn c) (call x) tt ∈ evs
    | _ => True
    end).
Proof.
  apply (traces_for_each (λ rest evs, ∀ x, x ∈ l → x ∈ rest ∨ accepted (cli_Conn c) (call x) tt ∈ evs)).
  - auto.
  - intros x rest evs HI. do 2 tr_step; [done|]. destruct u. intros y Hy.
    destruct (HI y Hy) as [[->|?]%elem_of_cons|?]; [right| |right].
    + apply elem_of_app. right. by apply list_elem_of_singleton.
    + by left.
    + apply elem_of_app. by left.
  - intros evs HI x Hx. by destruct (HI x Hx) as [?%not_elem_of_nil|].
Qed.

Lemma traces_createFiles c name opts :
  traces (createFiles c name opts) (λ o evs,
    match o with Ok _ => files_created (cli_Conn c) name opts evs | _ => True end).
Proof. apply traces_for_each_accepted. Qed.

Lemma traces_createTemplates c name opts :
  traces (createTemplates c name opts) (λ o evs,
    match o with Ok _ => templates_created (cli_Conn c) name opts evs | _ => True end).
Proof.
  unfold createTemplates, templates_created, lookup_opt.
  set (templates := default ∅ (lo_instanceTemplates opts)).
  destruct (0 <? size templates)%nat eqn:Hsz; [|tr_step; intros path contents Hp].
  2: { apply Nat.ltb_ge in Hsz. assert (size templates = 0)%nat as Hz by lia.
       apply map_size_empty_inv in Hz. by rewrite Hz, lookup_empty in Hp. }
  do 3 tr_step; [done|]. tr_step. eapply traces_mono; [apply traces_for_each_accepted|].
  intros [[]|?|?|] evs Hevs; try done. do 2 tr_step; [done|]. destruct u. intros path contents Hp.
  apply elem_of_range in Hp. pose proof (Hevs _ Hp) as Ha. simpl in Ha. split; [set_solver|].
  eexists. split; [by rewrite !elem_of_app, !elem_of_cons; auto|].
  rewrite insert_all_NoDup by (rewrite <- list_fmap_compose; apply NoDup_range_fst).
  apply lookup_union_Some_l, elem_of_list_to_map_1.
  - rewrite <- list_fmap_compose. apply NoDup_range_fst.
  - apply list_elem_of_fmap. by exists (path, contents).
Qed.

Lemma not_start_reads c A (call : icall A) r :
  icall_reads call = true → not_start (existT A (CIncus (cli_Conn c) call, r)).
Proof. unfold not_start, incus_event. simpl. by destruct call. Qed.

Lemma not_provision_reads c A (call : icall A) r :
  icall_reads call = true → not_provision (existT A (CIncus (cli_Conn c) call, r)).
Proof. unfold not_provision, incus_event. simpl. by destruct call. Qed.

Lemma traces_start c ctx name :
  traces (WaitForStartInstance c ctx name) (λ _ evs, Forall not_provision evs).
Proof. apply traces_calls_only, calls_WaitForStartInstance; [apply not_provision_reads|done]. Qed.

(** What a launch has provisioned before it asks the server to start. *)
Definition provisioned (conn : Conn) (name : string) (opts : LaunchOptions) (evs : list event) : Prop :=
  creation_waited conn name evs ∧ templates_created conn name opts evs ∧ files_created conn name opts evs ∧
  texts_replaced conn name opts evs.

Lemma provisioned_cons conn name opts ev evs :
  provisioned conn name opts evs → provisioned conn name opts (ev :: evs).
Proof.
  unfold provisioned, creation_waited, templates_created, files_created.
  intros ((op & dl & r & Hw & Hd & Hop) & Ht & Hf & Hr). split_and!.
  - exists op, dl, r. rewrite elem_of_cons. split_and!; [by right|done|].
    destruct Hop as [(post & ? & ?)|(id & ?)]; [left; exists post|right; exists id]; rewrite elem_of_cons; tauto.
  - intros path contents Hp. destruct (Ht path contents Hp) as (? & entries & ? & ?).
    rewrite elem_of_cons. split; [tauto|]. exists entries. rewrite elem_of_cons. tauto.
  - intros file Hin. rewrite elem_of_cons. right. by apply Hf.
  - intros path replacer Hp. apply (file_replaced_app_r _ _ _ _ [ev]). by apply Hr.
Qed.

Lemma traces_provision c ctx name opts :
  traces (provisionInstance c ctx name opts)
    (λ o evs, Forall not_start evs ∧
       match o with Ok _ => provisioned (cli_Conn c) name opts evs | _ => True end).
Proof.
  unfold provisionInstance. apply traces_and.
  { apply traces_calls_only. repeat (apply calls_only_bind; [|intros _]).
    - by apply calls_WaitForOperation, calls_createInstanceOperation; try apply not_start_reads.
    - by apply calls_createTemplates; try apply not_start_reads.
    - by apply calls_createFiles; try apply not_start_reads.
    - by apply calls_replaceInFiles; try apply not_start_reads. }
  tr_step. apply traces_WaitForOperation.
  eapply traces_mono; [apply traces_createInstanceOperation|].
  intros [op|?|?|] evs1 H1; try done. intros r. destruct (wait_done r) eqn:Hr; [|done].
  cbn beta iota zeta. tr_step. eapply traces_mono; [apply traces_createTemplates|]. intros [?|?|?|] evs2 H2; try done.
  tr_step. eapply traces_mono; [apply traces_createFiles|]. intros [?|?|?|] evs3 H3; try done.
  eapply traces_mono; [apply traces_replaceInFiles|].
  intros [?|?|?|] evs4 H4; try done. split_and!.
  - exists op, ctx, r. rewrite !elem_of_app, !elem_of_cons.
    split_and!; [tauto|done|]. destruct H1 as [(post & ? & ?)|(id & ?)]; [left; exists post|right; exists id];
      rewrite !elem_of_app; tauto.
  - intros path contents Hp. destruct (H2 path contents Hp) as (? & entries & ? & ?).
    rewrite !elem_of_app. split; [tauto|]. exists entries. rewrite !elem_of_app. tauto.
  - intros file Hf. rewrite !elem_of_app. specialize (H3 file Hf). tauto.
  - intros path replacer Hp. do 3 apply file_replaced_app_r. by apply H4.
Qed.


End traces.

(** ** Runs on the sample server *)

Definition sample_client : Client :=
  {| cli_Conn := sample_conn;
     cli_serverInfo := {| si_Server := "incus"; si_Driver := "lxc | qemu"; si_Architectures := ["x86_64"];
                          si_ServerClustered := false;
                          si_APIExtensions := ["instance_oci"; "instance_oci_entrypoint"] |} |}.

(** A container with one file to write. *)
Definition sample_options : LaunchOptions :=
  WithCreateFiles {[ "/etc/hostname" := "n1" ]}
    (WithImage (Some (OfImage (KindestNodeImage "v1.33.0"))) (WithInstanceType Container emptyLaunchOptions)).

Definition sample_launch : outcome (list string) * @state sample_env :=
  WaitForLaunchInstance (E := sample_env) sample_client None "n1" sample_options (sample_state sample_empty).

Lemma WaitForLaunchInstance_ends_witness :
  sample_launch.1 = Ok ["10.0.0.2"] ∧ ["10.0.0.2"] ≠ [].
Proof.
  split; [vm_compute; reflexivity|].
  destruct (WaitForLaunchInstance_ends (E := sample_env) sample_client None "n1" sample_options
                (sample_state sample_empty)) as (evs & _ & Hw).
  fold sample_launch in Hw. replace sample_launch.1 with (Ok ["10.0.0.2"]) in Hw by (vm_compute; reflexivity).
  exact Hw.
Defined.

(** The same server, but with a directory at every path that is asked for. *)
Definition directory_env : Env :=
  {| world := sample_world;
     handle := λ A c, match c in call A return sample_world → (error + A) * sample_world with
       | CIncus conn c' => match c' in icall A return sample_world → (error + A) * sample_world with
           | GetInstanceFile _ _ => λ w, (inr (None, {| fr_Mode := 493; fr_UID := 0; fr_GID := 0; fr_Type := "directory" |}), w)
           | c' => sample_handle (CIncus conn c')
           end
       | c' => sample_handle c'
       end;
     now := @now sample_env; elapse := @elapse sample_env |}.

(** A launch with replacements panics there. *)
Example directory_panics :
  (WaitForLaunchInstance (E := directory_env) sample_client None "n1"
     (WithReplacements (Some {[ "/etc" := {[ "a" := "b" ]} ]}) sample_options) (@Build_state directory_env sample_empty [])).1 =
  Panic "invalid memory address or nil pointer dereference".
Proof. vm_compute. reflexivity. Qed.


Definition sample_running : sample_world := set_instances <["n1" := {| sm_state := running_state "10.0.0.2"; sm_config := ∅ |}]> sample_empty.

Lemma WaitForDeleteInstance_evidence_witness :
  ∃ evs, reported_missing sample_conn "n1" evs ∨ deleted sample_conn "n1" evs.
Proof.
  destruct (WaitForDeleteInstance_evidence (E := sample_env) sample_client None "n1" (sample_state sample_running)
    (WaitForDeleteInstance (E := sample_env) sample_client None "n1" (sample_state sample_running)).2
    (run_outcome _ _ _ ltac:(vm_compute; reflexivity))) as (evs & _ & H).
  exists evs. exact H.
Defined.

Lemma WaitForDeleteInstance_missing_witness :
  (WaitForDeleteInstance (E := sample_env) sample_client None "n1" (sample_state sample_empty)).1 = Ok tt.
Proof.
  rewrite (WaitForDeleteInstance_missing (E := sample_env) sample_client None "n1" (sample_state sample_empty)
             (not_found "Instance") sample_empty); [reflexivity|reflexivity|vm_compute; reflexivity].
Defined.
