(* ===== verification/Logging.v ===== *)
(** * Progress of operations: loggingProgressHandler of
      internal/lxc/client_operations.go

    The handler that reports on an operation of the server when the client has
    no handler of its own. It keeps a counter, so that one in five messages is
    shown at a low verbosity, and it removes entries from the metadata of the
    operation, a map that it shares with whoever waits for the operation. *)

From S2P Require Import Prelude GoStrings Go.

(** Status codes and the values of the metadata are those of the Incus API. *)
Class OperationAPI := {
  StatusCode : Type;
  StatusCode_eq_dec :: EqDecision StatusCode;
  Failure : StatusCode;
  IsFinal : StatusCode → bool;
  MetadataValue : Type
}.

Section logging.
Context `{OperationAPI}.

(** An operation as a handler sees it. Its metadata is a map, shared: it is in
    the state. *)
Record APIOperation := { o_ID : string; o_Status : string; o_StatusCode : StatusCode; o_Err : string }.

(** One call of the logger, with the values it was given. *)
Inductive severity := LogError (err : string) | LogInfo (level : Z).
Record entry := {
  en_severity : severity; en_message : string;
  en_name : string; en_uuid : string; en_metadata : gmap string MetadataValue; en_status : string
}.

(** The variable [idx] of the closure, the metadata of the operation, and what
    was logged. *)
Record hstate := { hs_idx : Z; hs_Metadata : gmap string MetadataValue; hs_log : list entry }.

(** [x] as an int, 64 bits wide. *)
Definition as_int (x : Z) : Z := ((x + 2 ^ 63) mod 2 ^ 64 - 2 ^ 63)%Z.

(** The state in which a handler starts: the counter is 0. *)
Definition new_handler (metadata : gmap string MetadataValue) : hstate :=
  {| hs_idx := 0; hs_Metadata := metadata; hs_log := [] |}.

(** [enabled] is whether the logger of the context shows messages of a level. *)
Definition loggingProgressHandler (enabled : Z → bool) (name : string) (o : APIOperation) (s : hstate) : hstate :=
  let metadata :=
    match hs_Metadata s !! "command" with
    | Some _ => if enabled 5%Z then hs_Metadata s else delete "fds" (delete "environment" (hs_Metadata s))
    | None => hs_Metadata s
    end in
  let log idx sev msg :=
    {| hs_idx := idx; hs_Metadata := metadata;
       hs_log := hs_log s ++ [{| en_severity := sev; en_message := msg; en_name := name; en_uuid := o_ID o;
                                 en_metadata := metadata; en_status := o_Status o |}] |} in
  if decide (o_StatusCode o = Failure) then log (hs_idx s) (LogError (o_Err o)) "Operation failed"
  else if IsFinal (o_StatusCode o) then log (hs_idx s) (LogInfo 2) "Operation completed"
  else
    let level := if decide (Z.rem (hs_idx s) 5 = 0)%Z then 2%Z else 4%Z in
    log (as_int (hs_idx s + 1)) (LogInfo level) "Operation in progress".

(** The handler on the updates of an operation, in order. *)
Definition handle_updates (enabled : Z → bool) (name : string) (os : list APIOperation) (s : hstate) : hstate :=
  fold_left (λ s o, loggingProgressHandler enabled name o s) os s.

Definition in_progress (o : APIOperation) : Prop := o_StatusCode o ≠ Failure ∧ IsFinal (o_StatusCode o) = false.
#[global] Instance in_progress_dec o : Decision (in_progress o).
Proof. unfold in_progress. apply _. Defined.

(** How many of the updates were in progress. *)
Definition progress_count (os : list APIOperation) : nat := length (filter in_progress os).

(** What is logged for an update after [n] updates in progress. *)
Definition expected_entry (n : nat) (o : APIOperation) : severity * string :=
  if decide (o_StatusCode o = Failure) then (LogError (o_Err o), "Operation failed")
  else if IsFinal (o_StatusCode o) then (LogInfo 2, "Operation completed")
  else (LogInfo (if decide (n `mod` 5 = 0)%nat then 2 else 4), "Operation in progress").

Lemma as_int_small x : (0 <= x < 2 ^ 63)%Z → as_int x = x.
Proof. intros Hx. unfold as_int. rewrite Z.mod_small; lia. Qed.

Lemma progress_count_snoc os o : progress_count (os ++ [o]) = (progress_count os + if decide (in_progress o) then 1 else 0)%nat.
Proof. unfold progress_count. rewrite filter_app, length_app. f_equal. rewrite filter_cons. by case_decide. Qed.

Lemma progress_count_le os : (progress_count os <= length os)%nat.
Proof. apply length_filter. Qed.

(** One update: the entry is the expected one, and the counter counts. *)
Lemma handler_step enabled name o s (n : nat) :
  hs_idx s = Z.of_nat n → (Z.of_nat n + 1 < 2 ^ 63)%Z →
  ∃ e, hs_log (loggingProgressHandler enabled name o s) = hs_log s ++ [e] ∧
    (en_severity e, en_message e) = expected_entry n o ∧ en_uuid e = o_ID o ∧
    hs_idx (loggingProgressHandler enabled name o s) = Z.of_nat (n + if decide (in_progress o) then 1 else 0).
Proof.
  intros Hn Hb. unfold loggingProgressHandler, expected_entry.
  destruct (decide (o_StatusCode o = Failure)) as [Hf|Hf].
  { eexists. split; [reflexivity|]. split; [reflexivity|]. split; [done|]. simpl. rewrite decide_False by (by intros [? _]). lia. }
  destruct (IsFinal _) eqn:Hfin.
  { eexists. split; [reflexivity|]. split; [reflexivity|]. split; [done|]. simpl.
    rewrite decide_False by (intros [_ ?]; congruence). lia. }
  eexists. split; [reflexivity|]. split; [|split; [done|]].
  - cbn [en_severity en_message]. rewrite Hn, Z.rem_mod_nonneg by lia. change 5%Z with (Z.of_nat 5).
    rewrite <- (Nat2Z.inj_mod n 5). repeat case_decide; (done || lia).
  - simpl. rewrite as_int_small, decide_True by (done || lia). lia.
Qed.

Lemma handler_log enabled name os metadata :
  (Z.of_nat (length os) < 2 ^ 63)%Z →
  let s := handle_updates enabled name os (new_handler metadata) in
  hs_idx s = Z.of_nat (progress_count os) ∧ length (hs_log s) = length os ∧
  ∀ pre o post, os = pre ++ o :: post → ∃ e, hs_log s !! length pre = Some e ∧
    (en_severity e, en_message e) = expected_entry (progress_count pre) o ∧ en_uuid e = o_ID o.
Proof.
  induction os as [|o os IH] using rev_ind; intros Hb.
  { split; [done|]. split; [done|]. by intros []. }
  rewrite length_app in Hb. simpl in Hb. destruct IH as (Hidx & Hlen & Hes); [lia|].
  unfold handle_updates. rewrite fold_left_app. simpl. fold (handle_updates enabled name os (new_handler metadata)).
  set (s := handle_updates _ _ _ _) in *. assert (Hc := progress_count_le os).
  destruct (handler_step enabled name o s _ Hidx) as (e & Hlog & Hsev & Hid & Hidx'); [lia|].
  rewrite Hlog, progress_count_snoc. split; [done|]. split; [rewrite !length_app; simpl; lia|].
  intros pre o' post Heq. destruct post as [|o2 post _] using rev_ind.
  - apply app_inj_tail in Heq as [-> ->]. exists e.
    rewrite <- Hlen, lookup_app_r, Nat.sub_diag by lia. done.
  - rewrite app_comm_cons, app_assoc in Heq. apply app_inj_tail in Heq as [Heq ->].
    destruct (Hes _ _ _ Heq) as (e' & Hl & He). exists e'. split; [|done]. by apply lookup_app_l_Some.
Qed.

(** The handler removes no other entry from the metadata that it shares. *)
Lemma handler_keeps_metadata enabled name os s key :
  key ≠ "environment" → key ≠ "fds" → hs_Metadata (handle_updates enabled name os s) !! key = hs_Metadata s !! key.
Proof.
  intros He Hf. unfold handle_updates. revert s. induction os as [|o os IH]; intros s; [done|]. simpl. rewrite IH.
  unfold loggingProgressHandler.
  assert (Hm : (match hs_Metadata s !! "command" with
                | Some _ => if enabled 5%Z then hs_Metadata s else delete "fds" (delete "environment" (hs_Metadata s))
                | None => hs_Metadata s
                end) !! key = hs_Metadata s !! key).
  { destruct (_ !! "command"); [|done]. destruct (enabled 5%Z); [done|]. by rewrite !lookup_delete_ne. }
  repeat case_match; exact Hm.
Qed.

(** Every update of an operation is logged, in order: a failed one as an error
    with the error of the operation, a final one at level 2, and one in progress
    at level 2 when it is the first, sixth, eleventh ... of those in progress and
    at level 4 otherwise. And the exit status of a command, which RunCommand
    reads from the same metadata once the operation is over, is left there. *)
Theorem progress_is_logged (enabled : Z → bool) (name : string) (os : list APIOperation) (metadata : gmap string MetadataValue) :
  (Z.of_nat (length os) < 2 ^ 63)%Z →
  let s := handle_updates enabled name os (new_handler metadata) in
  length (hs_log s) = length os ∧
  (∀ pre o post, os = pre ++ o :: post → ∃ e, hs_log s !! length pre = Some e ∧
     (en_severity e, en_message e) = expected_entry (progress_count pre) o ∧ en_uuid e = o_ID o) ∧
  hs_Metadata s !! "return" = metadata !! "return".
Proof.
  intros Hb. destruct (handler_log enabled name os metadata Hb) as (_ & Hlen & Hes).
  split; [done|]. split; [done|]. by apply handler_keeps_metadata.
Qed.

End logging.

(** ** Seven updates in progress and the last one *)

Definition sample_api : OperationAPI :=
  {| StatusCode := Z; Failure := 400%Z; IsFinal := λ c, (200 <=? c)%Z; MetadataValue := string |}.

Definition sample_updates : list (@APIOperation sample_api) :=
  replicate 7 (@Build_APIOperation sample_api "op" "Running" 103%Z "") ++ [@Build_APIOperation sample_api "op" "Success" 200%Z ""].

Lemma progress_is_logged_witness :
  let s := @handle_updates sample_api (λ v, (v <=? 4)%Z) "ExecInstance" sample_updates
             (@new_handler sample_api {[ "command" := "ls"; "environment" := "PATH=/bin"; "return" := "0" ]}) in
  en_severity <$> hs_log s = [LogInfo 2; LogInfo 4; LogInfo 4; LogInfo 4; LogInfo 4; LogInfo 2; LogInfo 4; LogInfo 2] ∧
  hs_Metadata s !! "environment" = None ∧ hs_Metadata s !! "return" = Some "0".
Proof.
  split; [reflexivity|]. split; [reflexivity|].
  destruct (@progress_is_logged sample_api (λ v, (v <=? 4)%Z) "ExecInstance" sample_updates
              {[ "command" := "ls"; "environment" := "PATH=/bin"; "return" := "0" ]}) as (_ & _ & Hret); [reflexivity|].
  exact (eq_trans Hret eq_refl).
Defined.
