(* ===== verification/Progress.v ===== *)
(** * Launching succeeds on a server that does its part

    The other theorems about launching say what holds when it returns. Here is
    the converse: a description of a server that answers (the class
    [Responsive]: an abstract state machine of instances with the time that
    calls, operations and booting take), and the theorem that a launch on such
    a server succeeds, from any phase of the instance, within a stated time. *)

From S2P Require Import Prelude GoStrings Go Api World Images Launch Instances Sample Client.

(** ** Running in time

    [timely m s k Q]: from [s], [m] returns a result within [k] milliseconds,
    which with the state it leaves satisfies [Q]. *)
Section timely.
Context `{E : Env} `{!EnvTime E}.

Definition elapsed (s s' : state) (k : Z) : Prop :=
  (now (st_world s) ≤ now (st_world s') ≤ now (st_world s) + k)%Z.

Definition timely {A} (m : M state A) (s : state) (k : Z) (Q : A → state → Prop) : Prop :=
  wp m (λ o s', match o with
                | Ok a => elapsed s s' k ∧ Q a s'
                | _ => False
                end) s.

Lemma timely_ret {A} (a : A) s (Q : A → state → Prop) : Q a s → timely (ret a) s 0 Q.
Proof. intros HQ. apply wp_ret. split; [unfold elapsed; lia|done]. Qed.

Lemma timely_mono {A} (m : M state A) s k k' (Q Q' : A → state → Prop) :
  timely m s k Q → (k ≤ k')%Z → (∀ a s', Q a s' → Q' a s') → timely m s k' Q'.
Proof. intros Hm Hk HQ. eapply wp_mono; [exact Hm|]. intros [a|e|msg|] s'; [|done..]. intros [? ?]. split; [unfold elapsed in *; lia|auto]. Qed.

Lemma timely_bind {A B} (m : M state A) (f : A → M state B) s k1 k2 (Q1 : A → state → Prop) Q :
  timely m s k1 Q1 →
  (∀ a s', elapsed s s' k1 → Q1 a s' → timely (f a) s' k2 Q) →
  timely (bind m f) s (k1 + k2) Q.
Proof.
  intros Hm Hf. unfold timely. apply wp_bind. unfold bind_post. eapply wp_mono; [exact Hm|].
  intros [a|e|msg|] s'; [|done..]. intros [Ht HQ]. eapply wp_mono; [by apply (Hf a s')|].
  intros [b|e|msg|] s''; [|done..]. intros [Ht' ?]. split; [unfold elapsed in *; lia|done].
Qed.

Lemma timely_wrap {A} pre (m : M state A) s k Q : timely m s k Q → timely (wrap pre m) s k Q.
Proof. intros Hm. unfold timely. apply wp_wrap. eapply wp_mono; [exact Hm|]. by intros []. Qed.

Lemma timely_try {A} (m : M state A) s k Q : timely m s k Q → timely (try m) s k (λ r s', ∃ a, r = inr a ∧ Q a s').
Proof. intros Hm. unfold timely. apply wp_try. eapply wp_mono; [exact Hm|]. intros [] ?; naive_solver. Qed.

(** What holds of the final world anyway. *)
Lemma timely_and {A} (m : M state A) s k (Q : A → state → Prop) (P : world → Prop) :
  timely m s k Q → P (st_world (m s).2) → timely m s k (λ a s', Q a s' ∧ P (st_world s')).
Proof. unfold timely, wp. destruct (m s) as [[] s']; simpl; tauto. Qed.

Lemma timely_run {A} (m : M state A) s k (Q : A → state → Prop) :
  timely m s k Q → ∃ a s', m s = (Ok a, s') ∧ Q a s' ∧ (now (st_world s') ≤ now (st_world s) + k)%Z.
Proof. unfold timely, wp. destruct (m s) as [[a|e|msg|] s']; try done. intros [[_ ?] ?]. by exists a, s'. Qed.

Lemma timely_of_result {A} (a : A) s (Q : A → state → Prop) : Q a s → timely (of_result (inr a)) s 0 Q.
Proof. apply timely_ret. Qed.

Lemma timely_perform {A} (c : call A) s k (Q : A → state → Prop) a w :
  handle c (st_world s) = (inr a, w) → (now w ≤ now (st_world s) + k)%Z → Q a (after c (inr a) w s) →
  timely (perform c) s k Q.
Proof.
  intros Hh Ht HQ. unfold timely, wp, perform. pose proof (now_handle _ c (st_world s)) as Hn. rewrite Hh in *.
  split; [|done]. unfold elapsed. simpl in *. lia.
Qed.

(** A loop whose body keeps [I] and takes at most [k]. *)
Lemma timely_for_each {A} (I : state → Prop) (l : list A) f s k :
  (∀ x s, x ∈ l → I s → timely (f x) s k (λ _, I)) → I s →
  timely (for_each l f) s (k * Z.of_nat (length l)) (λ _, I).
Proof.
  revert s. induction l as [|x l IH]; intros s Hf HI; simpl.
  - eapply timely_mono; [by apply (timely_ret _ _ (λ _, I))|lia|done].
  - eapply timely_mono.
    + eapply timely_bind; [apply Hf; [left|done]|]. intros u s' Ht HI'. apply (IH s'); [|done].
      intros y s0 Hy. apply Hf. by right.
    + lia.
    + done.
Qed.

(** The context is not over within the next [k] milliseconds. *)
Definition leaves (ctx : context) (s : state) (k : Z) : Prop :=
  match ctx with None => True | Some d => (now (st_world s) + k < d)%Z end.

Lemma timely_WithTimeout ctx t s :
  timely (WithTimeout ctx t) s 0 (λ ctx' s', s' = s ∧ ∃ d, ctx' = Some d ∧ (d ≤ now (st_world s) + t)%Z ∧
    ∀ k, (k < t)%Z → leaves ctx s k → leaves ctx' s k).
Proof.
  unfold timely, WithTimeout. wp_step. apply wp_clock. simpl. apply wp_ret. split; [unfold elapsed; lia|]. split; [done|].
  eexists. split; [done|]. destruct ctx as [d|]; unfold leaves; split; intros; lia.
Qed.

(** An operation that is started within [k], and completes within [k'] of that. *)
Lemma timely_waited c d n f s k k' (P : Operation → world → Prop) (Q : world → Prop) :
  timely f s k (λ op s', P op (st_world s')) →
  (∀ op w, (now w ≤ now (st_world s) + k)%Z → P op w →
     ∃ r w', handle (CIncus (cli_Conn c) (WaitContext op (Some d))) w = (inr r, w') ∧ wr_err r = None ∧ Q w' ∧
       (now w' ≤ now w + k')%Z) →
  timely (WaitForOperation c (Some d) n f) s (k + k') (λ _ s', Q (st_world s')).
Proof.
  intros Hf Hw. unfold WaitForOperation. eapply timely_bind; [by apply timely_wrap|]. intros op s1 [_ Ht1] Hp.
  destruct (Hw op (st_world s1) Ht1 Hp) as (r & w & Hh & He & HQ & Ht). replace k' with (k' + 0)%Z by lia.
  eapply (timely_bind _ _ _ _ _ (λ r' s', r' = r ∧ st_world s' = w)).
  - unfold wait_operation. replace k' with (k' + 0)%Z by lia.
    eapply timely_bind; [by eapply timely_try, (timely_perform _ _ _ (λ a s', a = r ∧ st_world s' = w))|].
    intros a s' _ (r' & -> & -> & <-). by apply timely_ret.
  - intros r' s' _ [-> <-]. unfold operation_error. rewrite He. by apply timely_ret.
Qed.

End timely.

(** ** A server that does its part *)

(** The phases of an instance: a running one has its address from the time
    [ready] on. *)
Inductive phase := Absent | Stopped | Running (ready : Z).

Inductive effect := Creates (name : string) | Starts (name : string).

(** What an operation is over for. *)
Definition effect_done (bootTime t : Z) (phase_of : string → phase) (e : effect) : Prop :=
  match e with
  | Creates n => phase_of n = Stopped
  | Starts n => ∃ ready, phase_of n = Running ready ∧ (ready ≤ t + bootTime)%Z
  end.

(** The calls that work on an instance that is not started. *)
Definition works_stopped {A} (n : string) (c : icall A) : Prop :=
  match c with
  | GetInstanceMetadata m | UpdateInstanceMetadata m _ | CreateInstanceTemplateFile m _ _
  | CreateInstanceFile m _ _ => m = n
  | _ => False
  end.

Class Responsive `{MapRange} (E : Env) (conn : Conn) := {
  phase_of : world → string → phase;
  (** the operation is pending, and has this effect *)
  pending : world → Operation → effect → Prop;
  (** the files of the image *)
  has_file : string → Prop;
  latency : Z;
  operationTime : Z;
  bootTime : Z;
  times_nonneg : (0 ≤ latency ∧ 0 ≤ operationTime ∧ 0 ≤ bootTime)%Z;
  phase_elapse : ∀ d w n, phase_of (elapse d w) n = phase_of w n;
  state_absent : ∀ w n, phase_of w n = Absent →
    ∃ e w', handle (CIncus conn (GetInstanceState n)) w = (inl e, w') ∧
      phase_of w' n = Absent ∧ (now w' ≤ now w + latency)%Z;
  state_present : ∀ w n, phase_of w n ≠ Absent →
    ∃ st w', handle (CIncus conn (GetInstanceState n)) w = (inr st, w') ∧
      phase_of w' n = phase_of w n ∧ (now w' ≤ now w + latency)%Z ∧
      (is_Status st = "Running" ↔ phase_of w n ≠ Stopped) ∧
      ∀ ready, phase_of w n = Running ready → (ready ≤ now w)%Z → ParseHostAddresses (Some st) ≠ [];
  operations_listed : ∀ w n, phase_of w n = Absent →
    ∃ r w', handle (CIncus conn GetOperations) w = (r, w') ∧ phase_of w' n = Absent ∧ (now w' ≤ now w + latency)%Z;
  operation_found : ∀ w n ops w' op,
    handle (CIncus conn GetOperations) w = (inr ops, w') →
    List.find (creates_instance ("/1.0/instances/" +s+ n)) ops = Some op →
    ∃ r w'', handle (CIncus conn (RawOperation (ao_ID op))) w' = (r, w'') ∧ (now w'' ≤ now w' + latency)%Z ∧
      match r with inr o => pending w'' o (Creates n) | inl _ => phase_of w'' n = Absent end;
  create_accepted : ∀ w post, phase_of w (ip_Name post) = Absent →
    ∃ op w', handle (CIncus conn (CreateInstance post)) w = (inr op, w') ∧
      pending w' op (Creates (ip_Name post)) ∧ (now w' ≤ now w + latency)%Z;
  start_accepted : ∀ w n, phase_of w n = Stopped →
    ∃ op w', handle (CIncus conn (UpdateInstanceState n "start" false)) w = (inr op, w') ∧
      pending w' op (Starts n) ∧ (now w' ≤ now w + latency)%Z;
  operation_completes : ∀ w op e deadline, pending w op e → (now w + operationTime ≤ deadline)%Z →
    ∃ r w', handle (CIncus conn (WaitContext op (Some deadline))) w = (inr r, w') ∧ wr_err r = None ∧
      effect_done bootTime (now w') (phase_of w') e ∧ (now w' ≤ now w + operationTime)%Z;
  stopped_works : ∀ A (c : icall A) w n, phase_of w n = Stopped → works_stopped n c →
    ∃ a w', handle (CIncus conn c) w = (inr a, w') ∧ phase_of w' n = Stopped ∧ (now w' ≤ now w + latency)%Z;
  stopped_files : ∀ w n path, phase_of w n = Stopped → has_file path →
    ∃ contents reader resp w', handle (CIncus conn (GetInstanceFile n path)) w = (inr (Some reader, resp), w') ∧
      rd_ReadAll reader = inr contents ∧ rd_Close reader = None ∧
      phase_of w' n = Stopped ∧ (now w' ≤ now w + latency)%Z
}.

Section launch.
Context `{MapRange} `{E : Env} `{!EnvTime E} (c : Client) `{R : !Responsive E (cli_Conn c)}.

Definition in_phase (n : string) (p : phase) (s : state) : Prop := phase_of (st_world s) n = p.

(** *** Waiting for an address *)

(** The loop ends in time when the address is there well before the deadline. *)
Lemma timely_address fuel d n s ready :
  within d (1000 * Z.of_nat fuel) s → (0 < fuel)%nat →
  in_phase n (Running ready) s → (ready + latency + 1000 < d)%Z →
  timely (waitForInstanceAddress fuel c (Some d) n) s (Z.max latency (ready - now (st_world s) + 2 * latency + 1000))
    (λ addrs s', addrs ≠ [] ∧ in_phase n (Running ready) s').
Proof.
  pose proof times_nonneg as (Hl & _ & _).
  revert s. induction fuel as [|fuel IH]; intros s Hd Hf Hp Hr; [lia|]. cbn [waitForInstanceAddress].
  destruct (state_present (st_world s) n) as (st & w & Hh & Hp' & Ht & _ & Haddr); [by rewrite Hp|].
  pose proof (stable (I := within d (1000 * Z.of_nat (S fuel))) _ _ _ _ _ Hh Hd) as Hd'.
  unfold timely. do 2 wp_step. unfold wp at 1, incus, perform. rewrite Hh.
  pose proof (now_handle _ (CIncus (cli_Conn c) (GetInstanceState n)) (st_world s)) as Hn. rewrite Hh in Hn.
  cbn [snd] in Hn. unfold elapsed. destruct (ParseHostAddresses (Some st)) as [|addr addrs] eqn:Ha.
  2: { apply wp_ret. simpl. split_and!; [lia|lia|done|]. unfold in_phase. simpl. by rewrite Hp'. }
  assert (Hlate : (now (st_world s) < ready)%Z) by (apply Z.nle_gt; intros Hle; by apply (Haddr ready)).
  unfold within in Hd'. cbn [st_world after] in Hd'.
  wp_step. apply wp_clock. simpl. rewrite (proj2 (Z.leb_gt _ _)) by lia.
  wp_step. unfold sleep. unfold wp at 1, modify. cbn [st_world st_log after].
  set (log := st_log s ++ _). set (s1 := {| st_world := elapse 1000 w; st_log := log |}).
  assert (Hn1 : now (st_world s1) = (now w + 1000)%Z) by (simpl; rewrite now_elapse; lia).
  eapply wp_mono.
  { apply (IH s1); [unfold within; lia|destruct fuel; lia| |done].
    unfold in_phase. simpl. by rewrite phase_elapse, Hp'. }
  intros [addrs|e|msg|] s2; [|done..]. intros [Ht2 HQ]. unfold elapsed in Ht2. split; [lia|done].
Qed.

(** *** Starting *)

Definition startTime : Z := (4 * latency + operationTime + bootTime + 1000)%Z.

(** The phases from which an instance starts: not absent, and not further from
    its address than booting takes. *)
Definition startable (n : string) (s : state) : Prop :=
  in_phase n Stopped s ∨ ∃ ready, in_phase n (Running ready) s ∧ (ready ≤ now (st_world s) + bootTime)%Z.

Definition started (n : string) (s : state) : Prop := ∃ ready, in_phase n (Running ready) s.

Lemma timely_operation d n f s k e :
  timely f s k (λ op s', pending (st_world s') op e) → (now (st_world s) + k + operationTime ≤ d)%Z →
  timely (WaitForOperation c (Some d) n f) s (k + operationTime)
    (λ _ s', effect_done bootTime (now (st_world s')) (phase_of (st_world s')) e).
Proof.
  intros Hf Hd. apply (timely_waited c d n f s k operationTime (λ op w, pending w op e)
    (λ w, effect_done bootTime (now w) (phase_of w) e)); [done|].
  intros op w Hw Hp. apply operation_completes; [done|lia].
Qed.

Lemma timely_start ctx n s :
  startable n s → (startTime < instanceStartTimeout)%Z → leaves ctx s startTime →
  timely (WaitForStartInstance c ctx n) s startTime (λ addrs s', addrs ≠ [] ∧ started n s').
Proof.
  intros Hs Hst Hctx. pose proof times_nonneg as (Hl & Ho & Hb). unfold WaitForStartInstance, startTime, instanceStartTimeout in *.
  replace (4 * latency + operationTime + bootTime + 1000)%Z
    with (0 + (latency + ((latency + operationTime) + (bootTime + 2 * latency + 1000))))%Z by lia.
  eapply timely_bind; [apply timely_WithTimeout|]. intros ctx' s' _ (-> & d & -> & Hd & Hleaves).
  apply (Hleaves (4 * latency + operationTime + bootTime + 1000)%Z) in Hctx; [|lia]. simpl in Hctx. clear Hleaves.
  destruct (state_present (st_world s) n) as (st & w & Hh & Hp & Ht & Hrun & _).
  { destruct Hs as [Hs|(ready & Hs & _)]; unfold in_phase in Hs; by rewrite Hs. }
  eapply (timely_bind _ _ _ _ _ (λ st' s', st' = st ∧ st_world s' = w)); [apply timely_wrap; by eapply timely_perform|].
  intros st' s1 [Ht1 Ht1'] [-> Hw]. subst w. clear Hh.
  eapply (timely_bind _ _ _ _ _ (λ _ s2, ∃ ready, in_phase n (Running ready) s2 ∧ (ready ≤ now (st_world s2) + bootTime)%Z)).
  - case_decide as Hr.
    + destruct Hs as [Hs|(ready & Hs & Hready)]; [by apply Hrun in Hr|].
      eapply timely_mono; [apply (timely_ret tt s1 (λ _ s2, s2 = s1)); done|lia|]. intros ? ? ->. exists ready.
      split; [unfold in_phase; by rewrite Hp|lia].
    + assert (Hstop : phase_of (st_world s1) n = Stopped).
      { rewrite Hp. destruct Hs as [Hs|(ready & Hs & _)]; [done|]. destruct Hr. apply Hrun. by rewrite Hs. }
      destruct (start_accepted _ _ Hstop) as (op & w & Hh & Hpend & Ht2).
      apply timely_wrap. replace (latency + operationTime)%Z with (latency + operationTime + 0)%Z by lia.
      eapply timely_bind; [eapply timely_operation; [by eapply timely_perform|lia]|].
      intros r s2 _ Hdone. by apply timely_ret.
  - intros _ s2 [Ht2 Ht2'] (ready & Hp2 & Hready). eapply timely_mono; [apply (timely_address _ _ _ _ ready)|lia|].
    + unfold within, poll_fuel. lia.
    + unfold poll_fuel. lia.
    + done.
    + lia.
    + intros addrs s3 [? ?]. split; [done|by exists ready].
Qed.

(** *** Provisioning *)

Lemma timely_find n s :
  in_phase n Absent s →
  timely (try (tryFindInstanceCreateOperation c n)) s (2 * latency) (λ r s',
    match r with inr (Some op) => pending (st_world s') op (Creates n) | _ => in_phase n Absent s' end).
Proof.
  intros Hs. pose proof times_nonneg as (Hl & _ & _). unfold timely, tryFindInstanceCreateOperation. do 3 wp_step.
  apply wp_perform. intros r w Hh. destruct (operations_listed _ _ Hs) as (r' & w' & Hh' & Hp & Ht).
  rewrite Hh in Hh'. injection Hh' as <- <-.
  pose proof (now_handle _ (CIncus (cli_Conn c) GetOperations) (st_world s)) as Hn. rewrite Hh in Hn. unfold elapsed.
  destruct r as [e|ops]; simpl in *; [split; [lia|done]|].
  destruct (List.find _ ops) as [op|] eqn:Hfind; [|apply wp_ret; simpl; split; [lia|done]].
  destruct (operation_found _ _ _ _ _ Hh Hfind) as (r' & w' & Hh' & Ht' & Hr).
  pose proof (now_handle _ (CIncus (cli_Conn c) (RawOperation (ao_ID op))) w) as Hn'. rewrite Hh' in Hn'. simpl in Hn'.
  do 2 wp_step. unfold wp, incus, perform. simpl. rewrite Hh'. destruct r' as [e|o]; simpl; (split; [lia|done]).
Qed.

Lemma timely_create n opts opts' s :
  in_phase n Absent s → complete (GetServerName c) opts = inr opts' →
  timely (createInstanceOperation c n opts) s (3 * latency) (λ op s', pending (st_world s') op (Creates n)).
Proof.
  intros Hs Hc. pose proof times_nonneg as (Hl & _ & _). unfold createInstanceOperation.
  replace (3 * latency)%Z with (2 * latency + latency)%Z by lia.
  eapply timely_bind; [by apply timely_find|]. intros r s1 _ Hr.
  assert (Hnew : in_phase n Absent s1 → timely (let! opts := wrap "failed to complete launch options: "
    (of_result (complete (GetServerName c) opts)) in
    match lo_image opts with
    | Some (OfImage image) => incus (cli_Conn c) (CreateInstance
        {| ip_Name := n; ip_Source := Image_InstanceSource image; ip_Type := lo_instanceType opts;
           ip_InstanceType := lo_flavor opts; ip_Config := lo_config opts; ip_Devices := lo_devices opts;
           ip_Profiles := lo_profiles opts |})
    | _ => panic "interface conversion: lxc.ImageFamily is not lxc.Image"
    end) s1 latency (λ op s', pending (st_world s') op (Creates n))).
  { intros Ha. rewrite Hc. replace latency with (0 + latency)%Z by lia.
    eapply timely_bind; [by apply timely_wrap, (timely_of_result _ _ (λ o s', o = opts' ∧ s' = s1))|].
    intros o s2 _ [-> ->]. destruct (complete_image _ _ _ Hc) as [image Hi]. rewrite Hi.
    destruct (create_accepted (st_world s1) {| ip_Name := n; ip_Source := Image_InstanceSource image;
      ip_Type := lo_instanceType opts'; ip_InstanceType := lo_flavor opts'; ip_Config := lo_config opts';
      ip_Devices := lo_devices opts'; ip_Profiles := lo_profiles opts' |} Ha) as (op & w & Hh & Hp & Ht).
    by eapply timely_perform. }
  destruct r as [e|[op|]]; [by apply Hnew| |by apply Hnew]. eapply timely_mono; [by apply (timely_ret _ _ (λ op s', pending (st_world s') op (Creates n)))|lia|done].
Qed.

Lemma timely_work {A} n (call : icall A) s :
  works_stopped n call → in_phase n Stopped s →
  timely (incus (cli_Conn c) call) s latency (λ _, in_phase n Stopped).
Proof. intros Hw Hs. destruct (stopped_works _ _ _ _ Hs Hw) as (a & w & Hh & Hp & Ht). by eapply timely_perform. Qed.

Definition templatesTime (opts : LaunchOptions) : Z :=
  (2 * latency + latency * Z.of_nat (length (range (default ∅ (lo_instanceTemplates opts)))))%Z.

Lemma timely_templates n opts s :
  in_phase n Stopped s → timely (createTemplates c n opts) s (templatesTime opts) (λ _, in_phase n Stopped).
Proof.
  intros Hs. pose proof times_nonneg as (Hl & _ & _). unfold createTemplates, templatesTime.
  case_match; [|eapply timely_mono; [by apply (timely_ret _ _ (λ _, in_phase n Stopped))|lia|done]].
  set (k := (latency * _)%Z). replace (2 * latency + k)%Z with (latency + (k + latency))%Z by lia.
  eapply timely_bind; [by apply timely_wrap, timely_work|]. intros md s1 _ Hs1.
  eapply timely_bind; [apply timely_for_each; [|exact Hs1]|].
  { intros kv s2 _ Hs2. by apply timely_wrap, timely_work. }
  intros u s2 _ Hs2. by apply timely_wrap, timely_work.
Qed.

Definition filesTime (opts : LaunchOptions) : Z := (latency * Z.of_nat (length (lo_createFiles opts)))%Z.

Lemma timely_files n opts s :
  in_phase n Stopped s → timely (createFiles c n opts) s (filesTime opts) (λ _, in_phase n Stopped).
Proof. intros Hs. apply timely_for_each; [|done]. intros file s1 _ Hs1. by apply timely_wrap, timely_work. Qed.

Definition replacements (opts : LaunchOptions) : list (string * gmap string string) := range (default ∅ (lo_replacements opts)).

Definition replacementsTime (opts : LaunchOptions) : Z := (2 * latency * Z.of_nat (length (replacements opts)))%Z.

Lemma timely_replace n path replacer s :
  has_file path → in_phase n Stopped s →
  timely (replaceInFile c n path replacer) s (2 * latency) (λ _, in_phase n Stopped).
Proof.
  intros Hf Hs. pose proof times_nonneg as (Hl & _ & _). unfold replaceInFile.
  replace (2 * latency)%Z with (latency + (0 + (0 + latency)))%Z by lia.
  destruct (stopped_files _ _ _ Hs Hf) as (contents & reader & resp & w & Hh & Hread & Hclose & Hp & Ht).
  eapply (timely_bind _ _ _ _ _ (λ r s', r = (Some reader, resp) ∧ in_phase n Stopped s'));
    [apply timely_wrap; by eapply timely_perform|].
  intros r s1 _ [-> Hs1]. cbn beta iota. rewrite Hread, Hclose.
  eapply timely_bind; [by apply timely_wrap, (timely_of_result _ _ (λ x s', x = contents ∧ in_phase n Stopped s'))|].
  intros x s2 _ [-> Hs2]. eapply timely_bind; [by apply timely_wrap, (timely_ret _ _ (λ _, in_phase n Stopped))|].
  intros ? s3 _ Hs3. case_decide; [eapply timely_mono; [by apply (timely_ret _ _ (λ _, in_phase n Stopped))|lia|done]|].
  by apply timely_wrap, timely_work.
Qed.

Definition provisionTime (opts : LaunchOptions) : Z :=
  (3 * latency + operationTime + templatesTime opts + filesTime opts + replacementsTime opts)%Z.

Lemma timely_provision d n opts opts' s :
  in_phase n Absent s → complete (GetServerName c) opts = inr opts' →
  Forall (λ kv, has_file kv.1) (replacements opts) → (now (st_world s) + 3 * latency + operationTime ≤ d)%Z →
  timely (provisionInstance c (Some d) n opts) s (provisionTime opts) (λ _, in_phase n Stopped).
Proof.
  intros Hs Hc Hf Hd. unfold provisionInstance, provisionTime.
  replace (3 * latency + operationTime + templatesTime opts + filesTime opts + replacementsTime opts)%Z
    with ((3 * latency + operationTime) + (templatesTime opts + (filesTime opts + replacementsTime opts)))%Z by lia.
  eapply timely_bind; [apply timely_operation; [by eapply timely_create|lia]|]. intros r s1 _ Hs1.
  eapply timely_bind; [apply (timely_templates n); exact Hs1|]. intros ? s2 _ Hs2.
  eapply timely_bind; [by apply (timely_files n)|]. intros ? s3 _ Hs3.
  apply timely_for_each; [|done]. intros kv s4 Hin Hs4. apply timely_replace; [|done].
  by eapply Forall_forall in Hf.
Qed.

(** *** Launching *)

Definition launchTime (opts : LaunchOptions) : Z := (latency + provisionTime opts + startTime)%Z.

(** The instance is absent, or it can be started. *)
Definition launchable (n : string) (s : state) : Prop := in_phase n Absent s ∨ startable n s.

Lemma timely_launch ctx n opts opts' s :
  launchable n s → complete (GetServerName c) opts = inr opts' → Forall (λ kv, has_file kv.1) (replacements opts) →
  (launchTime opts < instanceCreateTimeout)%Z → (startTime < instanceStartTimeout)%Z → leaves ctx s (launchTime opts) →
  timely (WaitForLaunchInstance c ctx n opts) s (launchTime opts) (λ addrs s', addrs ≠ [] ∧ started n s').
Proof.
  intros Hs Hc Hf Hlt Hst Hctx. pose proof times_nonneg as (Hl & Ho & Hb). unfold WaitForLaunchInstance.
  assert (Hpt : (3 * latency + operationTime ≤ provisionTime opts)%Z)
    by (unfold provisionTime, templatesTime, filesTime, replacementsTime; lia).
  assert (Hst0 : (0 ≤ startTime)%Z) by (unfold startTime; lia).
  replace (launchTime opts) with (0 + (latency + (provisionTime opts + startTime)))%Z by (unfold launchTime; lia).
  eapply timely_bind; [apply timely_WithTimeout|]. intros ctx' s' _ (-> & d & -> & Hd & Hleaves).
  apply (Hleaves (launchTime opts)) in Hctx; [|done]. simpl in Hctx. unfold launchTime in Hctx. clear Hleaves.
  destruct Hs as [Hs|Hs].
  - destruct (state_absent _ _ Hs) as (e & w & Hh & Hp & Ht).
    eapply (timely_bind _ _ _ _ _ (λ r s', r = inl e ∧ st_world s' = w)).
    { unfold timely. wp_step. apply wp_perform. intros r w' Hh'. rewrite Hh in Hh'. injection Hh' as <- <-. simpl.
      pose proof (now_handle _ (CIncus (cli_Conn c) (GetInstanceState n)) (st_world s)) as Hn. rewrite Hh in Hn.
      unfold elapsed. simpl in *. split; [lia|done]. }
    intros r s1 [Ht1 Ht1'] [-> <-]. eapply timely_bind; [eapply timely_provision; [exact Hp|exact Hc|exact Hf|lia]|].
    intros ? s2 [Ht2 Ht2'] Hs2. apply timely_start; [by left|done|]. simpl. lia.
  - destruct (state_present (st_world s) n) as (st & w & Hh & Hp & Ht & _).
    { destruct Hs as [Hs|(ready & Hs & _)]; unfold in_phase in Hs; by rewrite Hs. }
    eapply (timely_bind _ _ _ _ _ (λ r s', r = inr st ∧ st_world s' = w)).
    { eapply timely_mono; [by eapply timely_try, (timely_perform _ _ _ (λ a s', a = st ∧ st_world s' = w))|lia|].
      naive_solver. }
    intros r s1 [Ht1 Ht1'] [-> <-]. eapply timely_mono; [apply timely_start|lia|done]; [|done|simpl; lia].
    destruct Hs as [Hs|(ready & Hs & Hr)]; [left|right; exists ready]; unfold in_phase; rewrite Hp; [done|]. split; [done|lia].
Qed.

Lemma timely_launch_run ctx n opts opts' s :
  launchable n s → complete (GetServerName c) opts = inr opts' → Forall (λ kv, has_file kv.1) (replacements opts) →
  (launchTime opts < instanceCreateTimeout)%Z → (startTime < instanceStartTimeout)%Z → leaves ctx s (launchTime opts) →
  ∃ addrs s', WaitForLaunchInstance c ctx n opts s = (Ok addrs, s') ∧ addrs ≠ [] ∧ started n s' ∧
    (now (st_world s') ≤ now (st_world s) + launchTime opts)%Z.
Proof.
  intros Hs Hc Hf Hlt Hst Hctx. pose proof (timely_launch ctx n opts opts' s Hs Hc Hf Hlt Hst Hctx) as Ht.
  unfold timely, wp in Ht. destruct (WaitForLaunchInstance c ctx n opts s) as [[addrs|e|msg|] s']; try done.
  destruct Ht as ([_ Ht] & Ha & Hst'). by exists addrs, s'.
Qed.

(** Launching an instance succeeds on a server that does its part: whether
    the instance does not exist yet, is stopped or is booting, when its options
    can be completed and calls, operations and booting fit in the timeouts,
    the launch returns its addresses, at least one, the instance is started,
    and no more than the stated time has passed. *)
Theorem WaitForLaunchInstance_succeeds (ctx : context) (n : string) (opts opts' : LaunchOptions) (s : state) :
  launchable n s → complete (GetServerName c) opts = inr opts' → Forall (λ kv, has_file kv.1) (replacements opts) →
  (launchTime opts < instanceCreateTimeout)%Z → (startTime < instanceStartTimeout)%Z → leaves ctx s (launchTime opts) →
  ∃ addrs s', WaitForLaunchInstance c ctx n opts s = (Ok addrs, s') ∧ addrs ≠ [] ∧ started n s' ∧
    (now (st_world s') ≤ now (st_world s) + launchTime opts)%Z.
Proof. apply timely_launch_run. Qed.

End launch.

(** ** A server where instances boot for three seconds *)

Record booting_world := {
  bw_now : nat;
  bw_instances : gmap string (option nat);
  bw_configs : gmap string (gmap string string)
}.

Definition booting_with (f : gmap string (option nat) → gmap string (option nat)) (w : booting_world) : booting_world :=
  {| bw_now := bw_now w; bw_instances := f (bw_instances w); bw_configs := bw_configs w |}.

Definition booting_lookup (w : booting_world) (n : string) : option (option nat) := bw_instances w !! n.

Definition booting_state (w : booting_world) (ready : option nat) : InstanceState :=
  match ready with
  | None => stopped_state
  | Some ready => if bool_decide (ready ≤ bw_now w)%nat then running_state "10.0.0.2"
                  else {| is_Status := "Running"; is_Pid := 42; is_Network := ∅ |}
  end.

(** Creating an instance stores its configuration. *)
Definition booting_create (post : InstancesPost) (w : booting_world) : booting_world :=
  {| bw_now := bw_now w; bw_instances := <[ip_Name post := None]> (bw_instances w);
     bw_configs := <[ip_Name post := default ∅ (ip_Config post)]> (bw_configs w) |}.

Definition booting_full (w : booting_world) (n : string) (ready : option nat) : InstanceFull :=
  {| if_Name := n; if_Type := "container"; if_Config := default ∅ (bw_configs w !! n); if_Devices := ∅;
     if_State := Some (booting_state w ready) |}.

Definition booting_incus {A} (c : icall A) (w : booting_world) : (error + A) * booting_world :=
  match c in icall A return (error + A) * booting_world with
  | GetInstanceState n =>
      (match booting_lookup w n with
       | None => inl (not_found "Instance")
       | Some ready => inr (booting_state w ready)
       end, w)
  | GetOperations => (inr [], w)
  | CreateInstance post => (inr "create", booting_create post w)
  | UpdateInstanceState n action _ =>
      (inr action, booting_with <[n := if decide (action = "stop") then None else Some (bw_now w + 3000)%nat]> w)
  | DeleteInstance n => (inr "delete", booting_with (delete n) w)
  | DeleteNetworkLoadBalancer _ _ => (inl (not_found "Network load balancer"), w)
  | WaitContext _ _ => (inr done_wait, w)
  | GetInstanceMetadata _ => (inr {| md_Templates := None |}, w)
  | UpdateInstanceMetadata _ _ => (inr tt, w)
  | CreateInstanceTemplateFile _ _ _ => (inr tt, w)
  | CreateInstanceFile _ _ _ => (inr tt, w)
  | GetInstanceFile _ _ =>
      (inr (Some {| rd_ReadAll := inr "contents"; rd_Close := None |},
            {| fr_Mode := 493; fr_UID := 0; fr_GID := 0; fr_Type := "file" |}), w)
  | GetInstancesFull => (inr (map (λ kv, booting_full w kv.1 kv.2) (map_to_list (bw_instances w))), w)
  | ExecInstance _ _ _ => (inr "exec", w)
  | _ => (inl (errorString "not supported"), w)
  end.

Definition booting_kube {A} (c : kcall A) (w : booting_world) : (error + A) * booting_world :=
  match c in kcall A return (error + A) * booting_world with
  | KGetSecret key => (inr (sample_secret key), w)
  | KNewMachinePatchHelper _ | KNewClusterPatchHelper _ => (inr tt, w)
  | KPatchMachine _ _ | KPatchCluster _ _ => (inr tt, w)
  | KListMachines _ _ => (inr [], w)
  | _ => (inl (errorString "not supported"), w)
  end.

Definition booting_handle {A} (c : call A) (w : booting_world) : (error + A) * booting_world :=
  match c with
  | CIncus _ c => booting_incus c w
  | CKube c => booting_kube c w
  | CHost _ => (inl (errorString "not supported"), w)
  end.

Definition booting_env : Env :=
  {| world := booting_world; handle := @booting_handle; now := λ w, Z.of_nat (bw_now w);
     elapse := λ d w, {| bw_now := (bw_now w + Z.to_nat d)%nat; bw_instances := bw_instances w;
                           bw_configs := bw_configs w |} |}.

#[export] Instance booting_time : EnvTime booting_env.
Proof.
  split; [intros d w Hd; simpl; lia|]. intros A c w. simpl. unfold booting_handle.
  destruct c as [A conn c|A c|A c]; [destruct c|destruct c|]; simpl; lia.
Qed.

Definition booting_phase (w : booting_world) (n : string) : phase :=
  match booting_lookup w n with
  | None => Absent
  | Some None => Stopped
  | Some (Some ready) => Running (Z.of_nat ready)
  end.

Lemma booting_addresses : ParseHostAddresses (Some (running_state "10.0.0.2")) ≠ [].
Proof. vm_compute. discriminate. Qed.

#[local] Instance booting_responsive : Responsive booting_env sample_conn.
Proof.
  refine {| phase_of := (booting_phase : @world booting_env → _); latency := 0; operationTime := 0; bootTime := 3000;
            has_file := λ _, True;
            pending := (λ w op e, match e with
                        | Creates n => booting_phase w n = Stopped
                        | Starts n => ∃ ready, booting_phase w n = Running ready ∧ (ready ≤ Z.of_nat (bw_now w) + 3000)%Z
                        end) : @world booting_env → _ |}; try done.
  - intros w n. simpl. unfold booting_phase. destruct (booting_lookup w n) as [[]|] eqn:Hn; try done.
    intros _. eexists _, w. rewrite Hn. split_and!; [done|done|lia].
  - intros w n. simpl. unfold booting_phase. destruct (booting_lookup w n) as [[r|]|] eqn:Hn; try done; intros _.
    + eexists _, w. rewrite Hn. split_and!; [done|done|lia| |].
      * simpl. case_bool_decide; done.
      * intros ready [= <-] Hr. simpl. rewrite bool_decide_true by lia. apply booting_addresses.
    + eexists _, w. rewrite Hn. split_and!; [done|done|lia|by split|done].
  - intros w n Hp. eexists _, w. split_and!; [done|done|simpl; lia].
  - intros w n ops w' op [= <- <-]. done.
  - intros w post Hp. eexists _, _. split_and!; [done| |simpl; lia]. unfold booting_phase, booting_lookup. simpl. by rewrite lookup_insert_eq.
  - intros w n Hp. eexists _, _. split_and!; [done| |simpl; lia]. exists (Z.of_nat (bw_now w + 3000)%nat).
    unfold booting_phase, booting_lookup. simpl. rewrite lookup_insert_eq. split; [done|lia].
  - intros w op e d Hp Hd. eexists _, w. split_and!; [done|done| |simpl; lia]. by destruct e.
  - intros A c w n Hp Hw. destruct c; simpl in Hw; try done; eexists _, w; (split_and!; [done|done|simpl; lia]).
  - intros w n path Hp _. eexists _, _, _, w. split_and!; [done|done|done|done|simpl; lia].
Defined.

(** The instance is created, started, and polled until it has booted. *)
Lemma WaitForLaunchInstance_succeeds_witness :
  ∃ addrs s', WaitForLaunchInstance sample_client None "n1" sample_options
    (@Build_state booting_env {| bw_now := 5; bw_instances := ∅; bw_configs := ∅ |} []) = (Ok addrs, s') ∧ addrs ≠ [].
Proof.
  destruct (WaitForLaunchInstance_succeeds sample_client None "n1" sample_options
    (match complete (GetServerName sample_client) sample_options with inr o => o | inl _ => sample_options end)
    (@Build_state booting_env {| bw_now := 5; bw_instances := ∅; bw_configs := ∅ |} [])) as (addrs & s' & Hr & Ha & _).
  - left. reflexivity.
  - vm_compute. reflexivity.
  - apply Forall_true. intros. exact I.
  - vm_compute. reflexivity.
  - vm_compute. reflexivity.
  - exact I.
  - exists addrs, s'. split; [exact Hr|exact Ha].
Defined.
