(* ===== verification/Config.v ===== *)
(** * Client configuration: internal/lxc/configuration.go,
      configuration_default.go, and New of client.go *)

From S2P Require Import Prelude GoStrings Go Api World Images Launch Sample Client.

Record Configuration := {
  cfg_ServerURL : string;
  cfg_ClientCrt : string;
  cfg_ClientKey : string;
  cfg_ServerCrt : string;
  cfg_InsecureSkipVerify : bool;
  cfg_Project : string
}.

(** ** Kubernetes secrets *)

Definition ConfigurationFromKubernetesSecret (secret : Secret) : Configuration :=
  let data := go_index (sec_Data secret) in
  {| cfg_ServerURL := data "server";
     cfg_Project := data "project";
     cfg_ClientCrt := data "client-crt";
     cfg_ClientKey := data "client-key";
     cfg_ServerCrt := data "server-crt";
     cfg_InsecureSkipVerify := default false (ParseBool (data "insecure-skip-verify")) |}.

Definition ToSecret (o : Configuration) (name namespace : string) : Secret :=
  {| sec_Name := name; sec_Namespace := namespace;
     sec_Labels := {[ "clusterctl.cluster.x-k8s.io/move" := "true" ]};
     sec_Data := {[ "server" := cfg_ServerURL o; "project" := cfg_Project o; "client-crt" := cfg_ClientCrt o;
                    "client-key" := cfg_ClientKey o; "server-crt" := cfg_ServerCrt o;
                    "insecure-skip-verify" := FormatBool (cfg_InsecureSkipVerify o) ]} |}.

(** ** The local configuration *)

(** Paths of the client configuration, from the incus cliconfig library. *)
Class CliPaths := {
  ServerCertPath : CliConfig → string → string;
  ConfigPath : CliConfig → string → string
}.

Section config.
Context `{CliPaths} `{E : Env}.

(** The files that exist, and then the empty path. *)
Fixpoint existing_files (files : list string) : M state (list string) :=
  match files with
  | [] => ret []
  | file :: rest =>
      let! st := try (host (OSStat file)) in
      let! found := existing_files rest in
      ret (match st with inr _ => file :: found | inl _ => found end)
  end.

Definition getDefaultConfigFiles : M state (list string) :=
  let! env := try (host OSHome) in
  let home := match env with inr home => home | inl _ => "" end in
  let! files := existing_files [home +s+ "/.config/incus/config.yml";
                                home +s+ "/snap/lxd/common/config/config.yml"] in
  ret (files ++ [""]).

(** The configuration a file gives, or why it gives none: the body of the loop
    of ConfigurationFromLocal. *)
Definition configuration_from_file (configFile forceRemoteName : string) (requireHTTPS : bool) :
    M state Configuration :=
  let pre := "failed to load credentials from " +s+ quote configFile +s+ ": " in
  let! config := wrap pre (host (LoadConfig configFile)) in
  let remoteName := if decide (forceRemoteName = "") then cc_DefaultRemote config else forceRemoteName in
  match cc_Remotes config !! remoteName with
  | None => throw (errorString (pre +s+ "remote " +s+ quote remoteName +s+ " not found"))
  | Some remote =>
      if requireHTTPS && negb (HasPrefix (rm_Addr remote) "https://") then
        throw (errorString (pre +s+ "remote address " +s+ quote (rm_Addr remote) +s+ " must use HTTPS"))
      else if HasPrefix (rm_Addr remote) "unix://" || HasPrefix (rm_Addr remote) "http://" then
        ret {| cfg_ServerURL := rm_Addr remote; cfg_Project := rm_Project remote; cfg_ClientCrt := "";
               cfg_ClientKey := ""; cfg_ServerCrt := ""; cfg_InsecureSkipVerify := false |}
      else if negb (cc_HasClientCertificate config) then
        throw (errorString (pre +s+ "no client certificate"))
      else
        let read := λ what path,
          let! r := try (host (OSReadFile path)) in
          match r with
          | inl err => throw (errorString (pre +s+ "cannot read " +s+ what +s+ " for remote " +s+
                                quote remoteName +s+ ": " +s+ Error err))
          | inr contents => ret contents
          end in
        let! serverCrt := read "server certificate" (ServerCertPath config remoteName) in
        let! clientCrt := read "client certificate" (ConfigPath config "client.crt") in
        let! clientKey := read "client key" (ConfigPath config "client.key") in
        ret {| cfg_ServerURL := rm_Addr remote; cfg_ServerCrt := serverCrt; cfg_ClientCrt := clientCrt;
               cfg_ClientKey := clientKey; cfg_Project := rm_Project remote; cfg_InsecureSkipVerify := false |}
  end.

Definition zeroConfiguration : Configuration :=
  {| cfg_ServerURL := ""; cfg_ClientCrt := ""; cfg_ClientKey := ""; cfg_ServerCrt := "";
     cfg_InsecureSkipVerify := false; cfg_Project := "" |}.

Fixpoint try_config_files (files : list string) (errs : list error) (forceRemoteName : string)
    (requireHTTPS : bool) : M state (Configuration * string) :=
  match files with
  | [] => match errors_Join errs with
          | Some err => throw err
          | None => ret (zeroConfiguration, "")
          end
  | configFile :: rest =>
      let! r := try (configuration_from_file configFile forceRemoteName requireHTTPS) in
      match r with
      | inr config => ret (config, configFile)
      | inl err => try_config_files rest (errs ++ [err]) forceRemoteName requireHTTPS
      end
  end.

(** ConfigurationFromLocal attempts to load client options from the local node
    configuration file, in well-known locations; it returns the configuration
    and the path of the config file. *)
Definition ConfigurationFromLocal (configFile forceRemoteName : string) (requireHTTPS : bool) :
    M state (Configuration * string) :=
  let! tryConfigFiles := (if decide (configFile = "") then getDefaultConfigFiles else ret [configFile]) in
  try_config_files tryConfigFiles [] forceRemoteName requireHTTPS.

(** ** The default unix socket *)

Definition default_sockets : list string :=
  ["/var/lib/incus/unix.socket"; "/run/incus/unix.socket"; "/var/snap/lxd/common/lxd/unix.socket";
   "/run-unix.socket"].

Fixpoint find_socket (files : list string) (errs : list error) : M state string :=
  match files with
  | [] => match errors_Join errs with
          | Some err => throw err
          | None => ret ""
          end
  | file :: rest =>
      let! st := try (host (OSStat file)) in
      match st with
      | inl err => find_socket rest (errs ++ [Errorf_w ("failed to stat " +s+ quote file +s+ ": ") err])
      | inr _ =>
          let! r := try (host (OSPathIsWritable file)) in
          let writable := match r with inr b => b | inl _ => false end in
          if negb writable then find_socket rest (errs ++ [errorString (quote file +s+ " is not writeable")])
          else ret file
      end
  end.

Definition findDefaultUnixSocketPath : M state string := find_socket default_sockets [].

(** ** New: client.go *)

Definition connect (config : Configuration) : M state Conn :=
  if HasPrefix (cfg_ServerURL config) "https://" then
    wrap "failed to initialize client over HTTPS: "
      (host (ConnectIncus (cfg_ServerURL config)
         {| ca_TLSServerCert := if cfg_InsecureSkipVerify config then "" else cfg_ServerCrt config;
            ca_TLSClientCert := cfg_ClientCrt config; ca_TLSClientKey := cfg_ClientKey config;
            ca_InsecureSkipVerify := cfg_InsecureSkipVerify config |}))
  else if HasPrefix (cfg_ServerURL config) "unix://" then
    let (socket, ok) := CutPrefix (cfg_ServerURL config) "unix://" in
    let! socket := (if ok && bool_decide (socket = "")
                    then wrap "failed to detect default local unix socket path: " findDefaultUnixSocketPath
                    else ret socket) in
    wrap "failed to initialize client over unix socket: " (host (ConnectIncusUnix socket))
  else throw (errorString ("server " +s+ quote (cfg_ServerURL config) +s+ " is not unix:// or https://")).

Definition UseProject (conn : Conn) (project : string) : Conn :=
  {| cn_Endpoint := cn_Endpoint conn; cn_Project := project; cn_Target := cn_Target conn |}.

Definition New (config : Configuration) : M state Client :=
  let! client := connect config in
  let client := if decide (cfg_Project config = "") then client else UseProject client (cfg_Project config) in
  let! server := wrap "failed to retrieve server information: " (incus client GetServer) in
  ret {| cli_Conn := client; cli_serverInfo := server |}.

End config.

(** ** Properties *)

(** A configuration written to a Kubernetes secret is read back unchanged. *)
Theorem Configuration_secret_roundtrip (o : Configuration) (name namespace : string) :
  ConfigurationFromKubernetesSecret (ToSecret o name namespace) = o.
Proof.
  unfold ConfigurationFromKubernetesSecret, ToSecret, go_index. simpl.
  repeat (rewrite lookup_insert_ne by done). rewrite !lookup_insert_eq.
  repeat (first [rewrite lookup_insert_eq | rewrite lookup_insert_ne by done | rewrite lookup_singleton_eq]).
  simpl. rewrite ParseBool_FormatBool. by destruct o.
Qed.

Section config_properties.
Context `{CliPaths} `{E : Env}.

(** The call to the host was answered with this result. *)
Definition host_accepted {A} (c : hcall A) (a : A) : event := existT A (CHost c, inr a).

Lemma safe_find_socket I `{!Stable I} files errs : safe I (find_socket files errs).
Proof. revert errs. induction files; intros errs; cbn [find_socket]; safe_auto. Qed.

Lemma calls_find_socket (P : event → Prop) files errs :
  (∀ A (call : hcall A) r, P (existT A (CHost call, r))) → calls_only P (find_socket files errs).
Proof. intros Hh. revert errs. induction files; intros errs; cbn [find_socket]; calls_auto. Qed.

(** Connecting is safe and changes nothing on the server. *)
Lemma safe_New I `{!Stable I} config : safe I (New config).
Proof. unfold New, connect, findDefaultUnixSocketPath. safe_auto; apply safe_find_socket; done. Qed.

Lemma calls_New_within (P : event → Prop) config :
  (∀ A (call : hcall A) r, P (existT A (CHost call, r))) →
  (∀ conn r, P (existT _ (CIncus conn GetServer, r))) →
  calls_only P (New config).
Proof.
  intros Hh Hs. unfold New, connect, findDefaultUnixSocketPath. calls_auto; by apply calls_find_socket.
Qed.

Lemma calls_New config : calls_only no_incus_write (New config).
Proof. by apply calls_New_within. Qed.

(** The socket was refused: it does not exist or is not writable. *)
Definition socket_unusable (evs : list event) (file : string) : Prop :=
  (∃ e, answered (CHost (OSStat file)) (inl e) ∈ evs) ∨
  (∃ r, answered (CHost (OSPathIsWritable file)) r ∈ evs ∧ r ≠ inr true).

Definition socket_chosen (files : list string) (file : string) (evs : list event) : Prop :=
  ∃ pre post, files = pre ++ file :: post ∧
    host_accepted (OSStat file) tt ∈ evs ∧ host_accepted (OSPathIsWritable file) true ∈ evs ∧
    ∀ g, g ∈ pre → socket_unusable evs g.

Lemma socket_chosen_skip f files file evs1 evs2 :
  socket_unusable evs1 f → socket_chosen files file evs2 → socket_chosen (f :: files) file (evs1 ++ evs2).
Proof.
  intros Hf (pre & post & -> & H1 & H2 & Hpre). exists (f :: pre), post.
  rewrite !elem_of_app. split_and!; [done|by right|by right|].
  intros g [->|Hg]%elem_of_cons; unfold socket_unusable in *; setoid_rewrite elem_of_app; [naive_solver|].
  destruct (Hpre g Hg) as [(e & ?)|(r & ? & ?)]; [left; exists e|right; exists r]; tauto.
Qed.

Lemma traces_find_socket files errs :
  files ≠ [] ∨ errs ≠ [] →
  traces (find_socket files errs) (λ o evs,
    match o with
    | Ok file => socket_chosen files file evs
    | Err _ => True
    | _ => False
    end).
Proof.
  revert errs. induction files as [|f files IH]; intros errs Hne; cbn [find_socket].
  { destruct errs; [destruct Hne; congruence|]. cbn [errors_Join]. by tr_steps. }
  assert (Hskip : ∀ evs err, socket_unusable evs f →
    traces (find_socket files (errs ++ [err])) (λ o evs',
      match o with Ok file => socket_chosen (f :: files) file (evs ++ evs') | Err _ => True | _ => False end)).
  { intros evs err Hu. eapply traces_mono; [apply IH; right; by destruct errs|].
    intros [file|?|?|] evs' Hc; try done. by apply socket_chosen_skip. }
  do 2 tr_step. tr_step.
  - apply Hskip. left. exists e. by apply list_elem_of_singleton.
  - do 2 tr_step. tr_step.
    + eapply traces_mono; [apply (Hskip [answered (CHost (OSStat f)) (inr u);
        answered (CHost (OSPathIsWritable f)) (inl e)])|by intros []; rewrite <- ?app_assoc].
      right. exists (inl e). rewrite !elem_of_cons. naive_solver.
    + destruct b; cbn [negb].
      * tr_step. destruct u. exists [], files. unfold host_accepted. cbn [app].
        rewrite !elem_of_cons. split_and!; [done|tauto|tauto|]. intros g Hg. by apply elem_of_nil in Hg.
      * eapply traces_mono; [apply (Hskip [answered (CHost (OSStat f)) (inr u);
          answered (CHost (OSPathIsWritable f)) (inr false)])|by intros []; rewrite <- ?app_assoc].
        right. exists (inr false). rewrite !elem_of_cons. naive_solver.
Qed.

(** How a connection was made for a configuration. *)
Definition connected (config : Configuration) (conn : Conn) (evs : list event) : Prop :=
  (HasPrefix (cfg_ServerURL config) "https://" = true ∧
   evs = [host_accepted (ConnectIncus (cfg_ServerURL config)
            {| ca_TLSServerCert := if cfg_InsecureSkipVerify config then "" else cfg_ServerCrt config;
               ca_TLSClientCert := cfg_ClientCrt config; ca_TLSClientKey := cfg_ClientKey config;
               ca_InsecureSkipVerify := cfg_InsecureSkipVerify config |}) conn]) ∨
  (∃ socket, cfg_ServerURL config = "unix://" +s+ socket ∧ socket ≠ "" ∧
             evs = [host_accepted (ConnectIncusUnix socket) conn]) ∨
  (cfg_ServerURL config = "unix://" ∧
   ∃ socket evs', socket_chosen default_sockets socket evs' ∧
                  evs = evs' ++ [host_accepted (ConnectIncusUnix socket) conn]).

Lemma traces_connect config :
  traces (connect config) (λ o evs,
    match o with
    | Ok conn => connected config conn evs
    | Err _ => True
    | _ => False
    end).
Proof.
  unfold connect, connected. destruct (HasPrefix _ "https://") eqn:Hs; [tr_steps; auto|].
  destruct (HasPrefix _ "unix://") eqn:Hu; [|by tr_steps].
  unfold CutPrefix. rewrite Hu. apply HasPrefix_spec in Hu.
  set (socket := string_drop _ _) in *. tr_step. case_bool_decide as Hsock; cbn [andb].
  - tr_step. eapply traces_mono; [by apply traces_find_socket; left|].
    intros [file|?|?|] evs Hc; try done. tr_steps; [done|]. right. right.
    split; [by rewrite Hu, Hsock|]. by exists file, evs.
  - tr_steps; [done|]. right. left. by exists socket.
Qed.

(** C29: A client is only made of an answered connection to the configured
    server and of the server's own description: over HTTPS with the pinned
    server certificate unless verification is switched off, over the given unix
    socket, or over the first default socket that exists and is writable; the
    configured project is the one every later call uses. *)
Theorem New_connects (config : Configuration) (s s' : state) (c : Client) :
  New config s = (Ok c, s') →
  ∃ conn evs, st_log s' = st_log s ++ evs ++ [accepted (cli_Conn c) GetServer (cli_serverInfo c)] ∧
    connected config conn evs ∧
    cli_Conn c = (if decide (cfg_Project config = "") then conn else UseProject conn (cfg_Project config)).
Proof.
  intros Hrun. enough (traces (New config) (λ o evs, match o with
    | Ok c => ∃ conn evs', evs = evs' ++ [accepted (cli_Conn c) GetServer (cli_serverInfo c)] ∧
        connected config conn evs' ∧
        cli_Conn c = (if decide (cfg_Project config = "") then conn else UseProject conn (cfg_Project config))
    | _ => True end)) as Htr.
  { destruct (traces_run _ _ _ _ _ Htr Hrun) as (evs & Hl & conn & evs' & -> & ?). by exists conn, evs'. }
  unfold New. tr_step. eapply traces_mono; [apply traces_connect|].
  intros [conn|?|?|] evs Hc; try done. tr_steps; try done; by exists conn, evs.
Qed.

(** *** Where a run works

    A place is a server and a project on it. The credentials that a run of a
    controller reads (the first secret it reads), and the connection that the
    host opens for it, say at which place it is to work. *)
Definition place : Type := string * string.

Definition place_of (conn : Conn) : place := (cn_Endpoint conn, cn_Project conn).

Definition selected (config : Configuration) (conn : Conn) : Conn :=
  if decide (cfg_Project config = "") then conn else UseProject conn (cfg_Project config).

Definition secret_of (e : event) : option Secret :=
  match e with existT A (CKube (KGetSecret _), inr secret) => Some secret | _ => None end.

Definition connection_of (e : event) : option Conn :=
  match e with
  | existT A (CHost (ConnectIncus _ _), inr conn) => Some conn
  | existT A (CHost (ConnectIncusUnix _), inr conn) => Some conn
  | _ => None
  end.

Definition credentials (p : place) (evs : list event) : Prop :=
  match omap secret_of evs, omap connection_of evs with
  | secret :: _, conn :: _ => place_of (selected (ConfigurationFromKubernetesSecret secret) conn) = p
  | _, _ => True
  end.

#[export] Instance credentials_dec p evs : Decision (credentials p evs).
Proof. unfold credentials. destruct (omap secret_of evs), (omap connection_of evs); apply _. Defined.

(** A call to the Incus server goes to this place. *)
Definition at_place (p : place) (e : event) : Prop :=
  match projT2 e with (CIncus conn _, _) => place_of conn = p | _ => True end.

(** The first connection of these calls is at the place, for the configuration. *)
Definition opened (config : Configuration) (p : place) (evs : list event) : Prop :=
  match head (omap connection_of evs) with Some conn => place_of (selected config conn) = p | None => True end.

(** The secret is the first one; so it is what decides. *)
Lemma credentials_opened p pre key secret evs rest :
  omap secret_of pre = [] → omap connection_of pre = [] →
  credentials p (pre ++ answered (CKube (KGetSecret key)) (inr secret) :: evs ++ rest) →
  opened (ConfigurationFromKubernetesSecret secret) p evs.
Proof.
  intros Hs Hc. unfold credentials, opened. rewrite !omap_app, Hs, Hc. simpl. rewrite omap_app.
  by destruct (omap connection_of evs).
Qed.

(** Calls that open no connection, and go to no server. *)
Definition local_only (e : event) : Prop := connection_of e = None ∧ ∀ p, at_place p e.

Lemma local_connections evs : Forall local_only evs → omap connection_of evs = [].
Proof. induction 1 as [|e evs [He _] _ IH]; [done|]. simpl. by rewrite He. Qed.

Lemma local_place p evs : Forall local_only evs → Forall (at_place p) evs.
Proof. intros Hf. eapply Forall_impl; [exact Hf|]. by intros e [_ He]. Qed.

Lemma local_find_socket files errs : traces (find_socket files errs) (λ _, Forall local_only).
Proof. apply traces_calls_only. revert errs. induction files; intros errs; cbn [find_socket]; calls_auto. Qed.

Lemma traces_connect_place config :
  traces (connect config) (λ o evs,
    match o with
    | Ok conn => ∃ evs' e, evs = evs' ++ [e] ∧ Forall local_only evs' ∧ connection_of e = Some conn ∧ ∀ p, at_place p e
    | _ => Forall local_only evs
    end).
Proof.
  assert (Hconn : ∀ evs pre (c : hcall Conn), Forall local_only evs →
    (∀ conn, connection_of (answered (CHost c) (inr conn)) = Some conn) → (∀ e, connection_of (answered (CHost c) (inl e)) = None) →
    traces (wrap pre (host c)) (λ o evs', match o with
      | Ok conn => ∃ evs0 e, evs ++ evs' = evs0 ++ [e] ∧ Forall local_only evs0 ∧ connection_of e = Some conn ∧ ∀ p, at_place p e
      | _ => Forall local_only (evs ++ evs') end)).
  { intros evs pre c Hl Hok Herr. do 2 tr_step.
    - apply Forall_app. split; [done|]. apply Forall_singleton. split; [apply Herr|done].
    - exists evs. eexists. split_and!; [done|done|apply Hok|done]. }
  unfold connect. destruct (HasPrefix _ "https://"); [by apply (Hconn [])|].
  destruct (HasPrefix _ "unix://"); [|by tr_steps; apply Forall_nil].
  destruct (CutPrefix _ _) as [socket ok]. tr_step. destruct (ok && bool_decide (socket = "")).
  - tr_step. eapply traces_mono; [apply local_find_socket|]. intros [file|?|?|] evs Hl; try done. by apply Hconn.
  - tr_step. by apply (Hconn []).
Qed.

(** A new client works on the connection that was opened for it, in the project
    of its configuration. *)
Lemma traces_New_place config :
  traces (New config) (λ o evs, ∀ p, opened config p evs →
    Forall (at_place p) evs ∧ match o with Ok c => place_of (cli_Conn c) = p | _ => True end).
Proof.
  unfold New. tr_step. eapply traces_mono; [apply traces_connect_place|].
  assert (Hlocal : ∀ evs, Forall local_only evs → ∀ p, opened config p evs → Forall (at_place p) evs ∧ True)
    by (intros; split; [by apply local_place|done]).
  intros [conn|?|?|] evs Hc; [|by apply Hlocal..]. destruct Hc as (evs' & e & -> & Hl & He & Hat).
  assert (Hall : ∀ r p, opened config p ((evs' ++ [e]) ++ [answered (CIncus (selected config conn) GetServer) r]) →
    place_of (selected config conn) = p ∧
    Forall (at_place p) ((evs' ++ [e]) ++ [answered (CIncus (selected config conn) GetServer) r])).
  { intros r p. unfold opened. rewrite !omap_app, local_connections by done. simpl. rewrite He. simpl. intros Hp.
    split; [done|]. rewrite !Forall_app, !Forall_singleton. split_and!; [by apply local_place|apply Hat|done]. }
  do 3 tr_step; [intros p Hp; destruct (Hall _ _ Hp); by split|]. tr_step. intros p Hp. destruct (Hall _ _ Hp). by split.
Qed.

(** The credentials of a remote were read from the client configuration. *)
Definition credentials_read (remoteName path : string) (config : Configuration) (evs : list event) : Prop :=
  ∃ cli name,
    HasPrefix (cfg_ServerURL config) "https://" = true ∧
    (remoteName ≠ "" → name = remoteName) ∧
    host_accepted (LoadConfig path) cli ∈ evs ∧
    host_accepted (OSReadFile (ServerCertPath cli name)) (cfg_ServerCrt config) ∈ evs ∧
    host_accepted (OSReadFile (ConfigPath cli "client.crt")) (cfg_ClientCrt config) ∈ evs ∧
    host_accepted (OSReadFile (ConfigPath cli "client.key")) (cfg_ClientKey config) ∈ evs.

Lemma credentials_read_app remoteName path config evs1 evs2 :
  credentials_read remoteName path config evs2 → credentials_read remoteName path config (evs1 ++ evs2).
Proof. intros (cli & name & ?). exists cli, name. rewrite !elem_of_app. tauto. Qed.

Lemma https_not_other addr :
  HasPrefix addr "https://" = true → HasPrefix addr "unix://" || HasPrefix addr "http://" = false.
Proof.
  intros Hp%HasPrefix_spec. rewrite Hp. unfold HasPrefix. simpl. done.
Qed.

Lemma traces_configuration_from_file path remoteName :
  traces (configuration_from_file path remoteName true) (λ o evs,
    match o with Ok config => credentials_read remoteName path config evs | _ => True end).
Proof.
  unfold configuration_from_file. do 3 tr_step; [done|].
  set (name := if decide _ then _ else _).
  destruct (cc_Remotes c !! name) as [remote|]; [|by tr_step].
  destruct (HasPrefix (rm_Addr remote) "https://") eqn:Hh; cbn [andb negb]; [|by tr_step].
  rewrite https_not_other by done. cbn beta iota. tr_steps; try done.
  exists c, name. unfold host_accepted. cbn [app]. rewrite !elem_of_cons. split_and!; [done| |tauto..].
  intros Hr. unfold name. by rewrite decide_False.
Qed.

Lemma traces_try_config_files files errs remoteName :
  files ≠ [] ∨ errs ≠ [] →
  traces (try_config_files files errs remoteName true) (λ o evs,
    match o with Ok (config, path) => credentials_read remoteName path config evs | _ => True end).
Proof.
  revert errs. induction files as [|f files IH]; intros errs Hne; cbn [try_config_files].
  { destruct errs; [destruct Hne; congruence|]. cbn [errors_Join]. by tr_steps. }
  do 2 tr_step. eapply traces_mono; [apply traces_configuration_from_file|].
  intros [config|err|?|] evs Hc; try done; [tr_step; by rewrite app_nil_r|].
  eapply traces_mono; [apply IH; right; by destruct errs|].
  intros [[config path]|?|?|] evs' Hc'; try done. by apply credentials_read_app.
Qed.

(** When HTTPS is required, a local configuration is only accepted with an
    HTTPS address, and with the server certificate, client certificate and
    client key read from the files of the client configuration. *)
Theorem ConfigurationFromLocal_https (configFile remoteName : string) (s s' : state)
    (config : Configuration) (path : string) :
  ConfigurationFromLocal configFile remoteName true s = (Ok (config, path), s') →
  ∃ evs, st_log s' = st_log s ++ evs ∧ credentials_read remoteName path config evs.
Proof.
  apply (traces_run _ (λ o evs, match o with Ok (config, path) => credentials_read remoteName path config evs
                                | _ => True end)).
  unfold ConfigurationFromLocal, getDefaultConfigFiles. tr_step.
  assert (Hall : ∀ evs files, files ≠ [] → traces (try_config_files files [] remoteName true) (λ o evs',
    match o with Ok (config, path) => credentials_read remoteName path config (evs ++ evs') | _ => True end)).
  { intros evs files Hne. eapply traces_mono; [by apply traces_try_config_files; left|].
    intros [[config' path']|?|?|] evs' Hc; try done. by apply credentials_read_app. }
  case_decide; [|tr_step; by apply Hall].
  unfold existing_files. tr_steps; by apply Hall.
Qed.

(** Setting up the client changes nothing on the server. *)
Lemma calls_ConfigurationFromLocal file remote https : calls_only no_incus_write (ConfigurationFromLocal file remote https).
Proof.
  unfold ConfigurationFromLocal, getDefaultConfigFiles.
  assert (∀ files errs, calls_only no_incus_write (try_config_files files errs remote https)) as Hf.
  { induction files as [|f files IH]; intros errs; cbn [try_config_files]; calls_auto.
    unfold configuration_from_file. calls_auto. }
  assert (∀ files, calls_only no_incus_write (existing_files files)) as He.
  { induction files as [|f files IH]; cbn [existing_files]; calls_auto. }
  calls_auto.
Qed.

Lemma safe_ConfigurationFromLocal file remote https : safe (λ _, True) (ConfigurationFromLocal file remote https).
Proof.
  unfold ConfigurationFromLocal, getDefaultConfigFiles.
  assert (∀ files errs, safe (λ _, True) (try_config_files files errs remote https)) as Hf.
  { induction files as [|f files IH]; intros errs; cbn [try_config_files]; safe_auto.
    unfold configuration_from_file. safe_auto. }
  assert (∀ files, safe (λ _, True) (existing_files files)) as He.
  { induction files as [|f files IH]; cbn [existing_files]; safe_auto. }
  safe_auto.
Qed.

End config_properties.

(** ** Runs on the sample server *)

#[local] Instance sample_paths : CliPaths :=
  {| ServerCertPath := λ c remote, cc_ConfigDir c +s+ "/servercerts/" +s+ remote +s+ ".crt";
     ConfigPath := λ c file, cc_ConfigDir c +s+ "/" +s+ file |}.

Definition sample_configuration : Configuration :=
  {| cfg_ServerURL := "unix://"; cfg_ClientCrt := ""; cfg_ClientKey := ""; cfg_ServerCrt := "";
     cfg_InsecureSkipVerify := false; cfg_Project := "capn" |}.

Lemma New_connects_witness :
  ∃ c conn evs, (New (E := sample_env) sample_configuration (sample_state sample_empty)).1 = Ok c ∧
    connected sample_configuration conn evs ∧ cli_Conn c = UseProject conn "capn".
Proof.
  destruct (New (E := sample_env) sample_configuration (sample_state sample_empty)) as [o s'] eqn:Hrun.
  assert (∃ c, o = Ok c) as [c ->].
  { apply (f_equal fst) in Hrun. vm_compute in Hrun. by eexists. }
  destruct (New_connects (E := sample_env) _ _ _ _ Hrun) as (conn & evs & _ & Hc & Hp).
  exists c, conn, evs. split_and!; [reflexivity|exact Hc|exact Hp].
Defined.

Lemma ConfigurationFromLocal_https_witness :
  ∃ config path evs, credentials_read "" path config evs ∧ cfg_ServerURL config = "https://10.0.0.1:8443".
Proof.
  destruct (ConfigurationFromLocal (E := sample_env) "" "" true (sample_state sample_empty)) as [o s'] eqn:Hrun.
  destruct o as [[config path]|e|msg|]; [|apply (f_equal fst) in Hrun; vm_compute in Hrun; discriminate Hrun..].
  destruct (ConfigurationFromLocal_https (E := sample_env) _ _ _ _ _ _ Hrun) as (evs & _ & Hc).
  exists config, path, evs. split; [exact Hc|].
  apply (f_equal fst) in Hrun. vm_compute in Hrun. injection Hrun as <- <-. reflexivity.
Defined.
