(* ===== verification/LoadBalancer.v ===== *)
(** * Load balancers: internal/loadbalancer

    The [Manager] interface and its five implementations, the configuration
    they are given from the running control plane instances, and the templates
    they render. *)

From S2P Require Import Prelude GoStrings Go Api World Images Launch Instances Template Sample Client.

(** ** The haproxy configuration: config.go *)

(** backendServer defines a loadbalancer backend. *)
Record backendServer := { bs_Address : string; bs_Weight : Z }.

(** configData is supplied to the loadbalancer config template. *)
Record configData := {
  cd_FrontendControlPlanePort : string;
  cd_BackendControlPlanePort : string;
  cd_BackendServers : gmap string backendServer;
  cd_IPv6 : bool
}.

(** DefaultHaproxyTemplate is the loadbalancer config template. *)
Definition DefaultHaproxyTemplate : string :=
"# generated by kind
global
  log /dev/log local0
  log /dev/log local1 notice
  daemon
  # limit memory usage to approximately 18 MB
  # (see https://github.com/kubernetes-sigs/kind/pull/3115)
  maxconn 100000

# NOTE(neoaggelos): resolvers entry is removed, we instead configure the instance addresses on the backends

defaults
  log global
  mode tcp
  option dontlognull
  # TODO: tune these
  timeout connect 5000
  timeout client 50000
  timeout server 50000
  # allow to boot despite dns don't resolve backends
  default-server init-addr none

frontend stats
  mode http
  bind *:8404
  stats enable
  stats uri /stats
  stats refresh 1s
  stats admin if TRUE

frontend control-plane
  bind *:{{ .FrontendControlPlanePort }}
  {{ if .IPv6 -}}
  bind :::{{ .FrontendControlPlanePort }};
  {{- end }}
  default_backend kube-apiservers

backend kube-apiservers
  option httpchk GET /healthz
  {{range $server, $backend := .BackendServers}}
  server {{ $server }} {{ JoinHostPort $backend.Address $.BackendControlPlanePort }} weight {{ $backend.Weight }} check check-ssl verify none
  {{- end}}
".

(** The templates out of the modelled subset of text/template. *)
Class TextTemplate := { render_other : string → value → error + string }.

(** [net.JoinHostPort]: an address with a colon goes into brackets. *)
Definition JoinHostPort (host port : string) : string :=
  if Contains host ":" then "[" +s+ host +s+ "]:" +s+ port else host +s+ ":" +s+ port.

Definition haproxy_funcs : FuncMap := λ f args,
  match f, args with
  | "JoinHostPort", [VString host; VString port] => Some (VString (JoinHostPort host port))
  | _, _ => None
  end.

Definition backend_value (b : backendServer) : value :=
  VStruct [("Address", VString (bs_Address b)); ("Weight", VInt (bs_Weight b))].

Definition config_value (d : configData) : value :=
  VStruct [("FrontendControlPlanePort", VString (cd_FrontendControlPlanePort d));
           ("BackendControlPlanePort", VString (cd_BackendControlPlanePort d));
           ("BackendServers", VMap (map (λ kv, (kv.1, backend_value kv.2)) (sorted_entries (cd_BackendServers d))));
           ("IPv6", VBool (cd_IPv6 d))].

(** Parse and execute a template on some data. *)
Definition render_template `{TextTemplate} (funcs : FuncMap) (text : string) (data : value) : error + string :=
  match parse text with
  | Some ns =>
      match execute funcs ns data with
      | Some out => inr out
      | None => render_other text data
      end
  | None => render_other text data
  end.

(** renderHaproxyConfiguration generates the loadbalancer config from the
    template and the data. *)
Definition renderHaproxyConfiguration `{TextTemplate} (data : configData) (configTemplate : string) : error + string :=
  render_template haproxy_funcs configTemplate (config_value data).

(** ** The kube-vip manifest: kube_vip.go *)

(** The template, with a tilde for every double quote. *)
Definition kubevip_text : string :=
"# generated by capn
apiVersion: v1
kind: Pod
metadata:
  name: kube-vip
  namespace: kube-system
spec:
  containers:
  - args:
    - manager
    env:
    - name: vip_arp
      value: ~true~
    - name: port
      value: ~6443~
    - name: vip_interface
      value: ~{{ .Interface }}~
    - name: vip_cidr
      value: ~32~
    - name: cp_enable
      value: ~true~
    - name: cp_namespace
      value: kube-system
    - name: vip_ddns
      value: ~false~
    - name: svc_enable
      value: ~true~
    - name: svc_leasename
      value: plndr-svcs-lock
    - name: svc_election
      value: ~true~
    - name: vip_leaderelection
      value: ~true~
    - name: vip_leasename
      value: plndr-cp-lock
    - name: vip_leaseduration
      value: ~15~
    - name: vip_renewdeadline
      value: ~10~
    - name: vip_retryperiod
      value: ~2~
    - name: address
      value: ~{{ .Address }}~
    - name: prometheus_server
      value: :2112
    image: ~{{ .Image }}~
    imagePullPolicy: IfNotPresent
    name: kube-vip
    resources: {}
    securityContext:
      capabilities:
        add:
        - NET_ADMIN
        - NET_RAW
    volumeMounts:
    - mountPath: /etc/kubernetes/admin.conf
      name: kubeconfig
  hostNetwork: true
  hostAliases:
  - ip: 127.0.0.1
    hostnames: [kubernetes]
  volumes:
  - hostPath:
      path: {{ .KubeconfigPath }}
    name: kubeconfig
status: {}
".

(** DefaultKubeVIPTemplate is the KubeVIP config template. *)
Definition DefaultKubeVIPTemplate : string := ReplaceAll kubevip_text "~" (String dquote "").

Record kubeVIPTemplateInput := {
  kt_Interface : string; kt_Address : string; kt_Image : string; kt_KubeconfigPath : string
}.

Definition kubevip_value (i : kubeVIPTemplateInput) : value :=
  VStruct [("Interface", VString (kt_Interface i)); ("Address", VString (kt_Address i));
           ("Image", VString (kt_Image i)); ("KubeconfigPath", VString (kt_KubeconfigPath i))].

Definition renderKubeVIPConfiguration `{TextTemplate} (input : kubeVIPTemplateInput) : error + string :=
  render_template (λ _ _, None) DefaultKubeVIPTemplate (kubevip_value input).

(** ** Printing of API objects

    The objects that [Inspect] prints, and the libraries that print them:
    fmt's [%#v] and [yaml.Marshal]. *)
Inductive object :=
| ObjInstance (i : InstanceFull)
| ObjNetwork (config : gmap string string)
| ObjLoadBalancer (config : gmap string string)
| ObjLoadBalancerState (st : string)
| ObjServer (info : ServerInfo).

Class Printer := {
  GoSyntax : object → string;
  yaml_Marshal : object → error + string
}.

(** ** The configuration from the running instances: util.go *)

Definition loadBalancerReconfigureTimeout : Z := 30000.

Section loadbalancer.
Context `{MapRange} `{TextTemplate} `{Printer}.

Definition cluster_config (clusterName clusterNamespace role : string) : gmap string string :=
  {[ "user.cluster-name" := clusterName; "user.cluster-namespace" := clusterNamespace; "user.cluster-role" := role ]}.

Definition filterClusterControlPlaneInstances (clusterName clusterNamespace : string) : ListInstanceFilter :=
  WithConfig (cluster_config clusterName clusterNamespace "control-plane").

(** The backends for a list of instances: the first address of every instance
    that has one. *)
Definition add_backend (servers : gmap string backendServer) (i : InstanceFull) : gmap string backendServer :=
  match ParseHostAddresses (if_State i) with
  | address :: _ => <[if_Name i := {| bs_Address := address; bs_Weight := 100 |}]> servers
  | [] => servers
  end.

Definition config_of_instances (instances : list InstanceFull) : configData :=
  {| cd_FrontendControlPlanePort := "6443";
     cd_BackendControlPlanePort := "6443";
     cd_BackendServers := foldl add_backend ∅ instances;
     cd_IPv6 := false |}.

Context `{E : Env}.

Definition getLoadBalancerConfiguration (c : Client) (filters : list ListInstanceFilter) : M state configData :=
  let! instances := wrap "failed to retrieve cluster control plane instances: " (ListInstances c filters) in
  ret (config_of_instances instances).

Definition GenerateHaproxyLoadBalancerConfiguration (c : Client) (filters : list ListInstanceFilter) : M state string :=
  let! config := wrap "failed to retrieve load balancer config: " (getLoadBalancerConfiguration c filters) in
  of_result (renderHaproxyConfiguration config DefaultHaproxyTemplate).

(** ** The interface: manager.go *)

(** Manager can be used to interact with the cluster load balancer. *)
Record Manager := {
  Create : context → M state (list string);
  Delete : context → M state unit;
  Reconfigure : context → M state unit;
  ControlPlaneInstanceTemplates : bool → error + option (gmap string string);
  Inspect : context → M state (gmap string string)
}.

(** What [Inspect] records of an object that was read, or of the failure. *)
Definition addInfo (name : string) (obj : error + object) (result : gmap string string) : gmap string string :=
  match obj with
  | inl err => <[name +s+ ".err" := Error (Errorf_w ("failed to get " +s+ name +s+ ": ") err)]> result
  | inr obj =>
      let result := <[name +s+ ".txt" := GoSyntax obj +s+ newline]> result in
      match yaml_Marshal obj with
      | inl err => <[name +s+ ".err" := Error (Errorf_w "failed to marshal yaml: " err)]> result
      | inr b => <[name +s+ ".yaml" := b]> result
      end
  end.

Definition addInfoFor (name : string) (getter : M state object) (result : gmap string string) :
    M state (gmap string string) :=
  let! obj := try getter in ret (addInfo name obj result).

(** The output of diagnostic commands, by item name. *)
Fixpoint inspect_commands (c : Client) (ctx : context) (instance : string) (items : list (string * list string))
    (result : gmap string string) : M state (gmap string string) :=
  match items with
  | [] => ret result
  | (name, command) :: items =>
      let! r := RunCommand c ctx instance command None in
      let result := match cr_err r with
                    | Some err => <[name +s+ ".error" := Error (Errorf_w ("failed to RunCommand " +s+
                                     format_slice command +s+ " on " +s+ instance +s+ ": ") err)]> result
                    | None => result
                    end in
      inspect_commands c ctx instance items (<[name := cr_stdout r +s+ newline +s+ cr_stderr r +s+ newline]> result)
  end.

(** The arguments with which a haproxy configuration is written. *)
Definition haproxy_file (cfg : string) : InstanceFileArgs :=
  {| fa_Content := cfg; fa_Type := "file"; fa_Mode := 288; fa_UID := 0; fa_GID := 0; fa_WriteMode := "overwrite" |}.

(** The image of an instance specification. *)
Definition spec_image (i : LXCMachineImageSource) : option ImageFamily :=
  Some (OfImage {| img_Fingerprint := im_Fingerprint i; img_Protocol := im_Protocol i;
                   img_Server := im_Server i; img_Alias := im_Name i |}).

(** ** managerLXC, managerOCI: manager_lxc.go, manager_oci.go *)

Record managerInstance := {
  mi_lxcClient : Client;
  mi_clusterName : string;
  mi_clusterNamespace : string;
  mi_name : string;
  mi_spec : LXCLoadBalancerMachineSpec;
  mi_customHAProxyConfigTemplate : string
}.

Definition lb_options (l : managerInstance) (launchOpts : LaunchOptions) : LaunchOptions :=
  let o := WithProfiles (lbs_Profiles (mi_spec l)) launchOpts in
  let o := WithFlavor (lbs_Flavor (mi_spec l)) o in
  let o := LO_WithConfig (Some (cluster_config (mi_clusterName l) (mi_clusterNamespace l) "loadbalancer")) o in
  WithImage (spec_image (lbs_Image (mi_spec l))) o.

Definition lb_launch (l : managerInstance) (ctx : context) (launchOpts : LaunchOptions) : M state (list string) :=
  wrap "failed to create load balancer instance: "
    (WaitForLaunchInstance (WithTarget (mi_lxcClient l) (lbs_Target (mi_spec l))) ctx (mi_name l)
       (lb_options l launchOpts)).

Definition managerLXC_Create (l : managerInstance) (ctx : context) : M state (list string) :=
  lb_launch l ctx HaproxyLXCLaunchOptions.

Definition managerLXC_Delete (l : managerInstance) (ctx : context) : M state unit :=
  wrap "failed to delete load balancer instance: " (WaitForDeleteInstance (mi_lxcClient l) ctx (mi_name l)).

(** The configuration of the load balancer, rendered. *)
Definition lb_render (l : managerInstance) : M state string :=
  let! config := wrap "failed to build load balancer configuration: "
                   (getLoadBalancerConfiguration (mi_lxcClient l)
                      [filterClusterControlPlaneInstances (mi_clusterName l) (mi_clusterNamespace l)]) in
  let haproxyTemplate := if decide (mi_customHAProxyConfigTemplate l = "") then DefaultHaproxyTemplate
                         else mi_customHAProxyConfigTemplate l in
  wrap "failed to render load balancer config: " (of_result (renderHaproxyConfiguration config haproxyTemplate)).

Definition managerLXC_Reconfigure (l : managerInstance) (ctx : context) : M state unit :=
  let! ctx := WithTimeout ctx loadBalancerReconfigureTimeout in
  let! haproxyCfg := lb_render l in
  wrap "failed to write haproxy config: "
    (incus (cli_Conn (mi_lxcClient l))
       (CreateInstanceFile (mi_name l) "/etc/haproxy/haproxy.cfg" (haproxy_file haproxyCfg))) ;;
  wrap "failed to reload haproxy service: "
    (run_command (mi_lxcClient l) ctx (mi_name l) ["systemctl"; "reload"; "haproxy.service"]).

Definition inspect_instance (l : managerInstance) : M state (gmap string string) :=
  addInfoFor "Instance"
    (let! i := incus (cli_Conn (mi_lxcClient l)) (GetInstanceFull (mi_name l)) in ret (ObjInstance i)) ∅.

Definition managerLXC_Inspect (l : managerInstance) (ctx : context) : M state (gmap string string) :=
  let! result := inspect_instance l in
  inspect_commands (mi_lxcClient l) ctx (mi_name l)
    [("ip-a.txt", ["ip"; "a"]);
     ("ip-r.txt", ["ip"; "r"]);
     ("ss-plnt.txt", ["ss"; "-plnt"]);
     ("haproxy.service", ["systemctl"; "status"; "--no-pager"; "-l"; "haproxy.service"]);
     ("haproxy.log", ["journalctl"; "--no-pager"; "-u"; "haproxy.service"]);
     ("haproxy.cfg", ["cat"; "/etc/haproxy/haproxy.cfg"])] result.

Definition managerLXC (l : managerInstance) : Manager :=
  {| Create := managerLXC_Create l; Delete := managerLXC_Delete l; Reconfigure := managerLXC_Reconfigure l;
     ControlPlaneInstanceTemplates := λ _, inr None; Inspect := managerLXC_Inspect l |}.

Definition managerOCI_Create (l : managerInstance) (ctx : context) : M state (list string) :=
  match SupportsInstanceOCI (mi_lxcClient l) with
  | Some err => throw (Errorf_w "server does not support OCI containers: " err)
  | None => lb_launch l ctx HaproxyOCILaunchOptions
  end.

Definition managerOCI_Delete (l : managerInstance) (ctx : context) : M state unit :=
  wrap "failed to delete load balancer instance: " (WaitForDeleteInstance (mi_lxcClient l) ctx (mi_name l)).

Definition managerOCI_Reconfigure (l : managerInstance) (ctx : context) : M state unit :=
  let! ctx := WithTimeout ctx loadBalancerReconfigureTimeout in
  let! haproxyCfg := lb_render l in
  wrap "failed to write haproxy config: "
    (incus (cli_Conn (mi_lxcClient l))
       (CreateInstanceFile (mi_name l) "/usr/local/etc/haproxy/haproxy.cfg" (haproxy_file haproxyCfg))) ;;
  wrap "failed to send SIGUSR2 to haproxy pids: "
    (run_command (mi_lxcClient l) ctx (mi_name l) ["kill"; "--signal"; "SIGUSR2"; "1"]).

Definition managerOCI_Inspect (l : managerInstance) (ctx : context) : M state (gmap string string) :=
  let! result := inspect_instance l in
  let! file := try (incus (cli_Conn (mi_lxcClient l))
                      (GetInstanceFile (mi_name l) "/usr/local/etc/haproxy/haproxy.cfg")) in
  ret (<["haproxy.cfg" :=
         match file with
         | inl err => Error (Errorf_w "failed to GetInstanceFile: " err)
         | inr (None, _) => "failed to GetInstanceFile: %!w(<nil>)"
         | inr (Some reader, _) =>
             match rd_ReadAll reader with
             | inl err => Error (Errorf_w "failed to read haproxy.cfg: " err)
             | inr b => b
             end
         end]> result).

Definition managerOCI (l : managerInstance) : Manager :=
  {| Create := managerOCI_Create l; Delete := managerOCI_Delete l; Reconfigure := managerOCI_Reconfigure l;
     ControlPlaneInstanceTemplates := λ _, inr None; Inspect := managerOCI_Inspect l |}.

(** ** managerOVN: manager_ovn.go *)

Record managerOVNData := {
  mo_lxcClient : Client;
  mo_clusterName : string;
  mo_clusterNamespace : string;
  mo_networkName : string;
  mo_listenAddress : string
}.

Definition ovn_owner (l : managerOVNData) : gmap string string :=
  {[ "user.cluster-name" := mo_clusterName l; "user.cluster-namespace" := mo_clusterNamespace l ]}.

Definition managerOVN_Create (l : managerOVNData) (ctx : context) : M state (list string) :=
  let conn := cli_Conn (mo_lxcClient l) in
  if decide (mo_networkName l = "") then
    throw (TerminalError (errorString
      "network load balancer cannot be provisioned as .spec.loadBalancer.ovn.networkName is not specified"))
  else
  match SupportsNetworkLoadBalancers (mo_lxcClient l) with
  | Some err => throw (Errorf_w "server does not support network load balancers: " err)
  | None =>
      let! network := try (incus conn (GetNetwork (mo_networkName l))) in
      match network with
      | inl err => throw (TerminalError (Errorf_w ("failed to check network " +s+ quote (mo_networkName l) +s+ ": ") err))
      | inr _ =>
          let! lb := try (incus conn (GetNetworkLoadBalancer (mo_networkName l) (mo_listenAddress l))) in
          match lb with
          | inr config =>
              if decide (go_index config "user.cluster-name" ≠ mo_clusterName l ∨
                         go_index config "user.cluster-namespace" ≠ mo_clusterNamespace l)
              then throw (TerminalError (errorString ("conflict: a LoadBalancer with IP " +s+ mo_listenAddress l +s+
                     " already exists without the required keys user.cluster-name=" +s+ mo_clusterName l +s+
                     " and user.cluster-namespace=" +s+ mo_clusterNamespace l)))
              else ret [mo_listenAddress l]
          | inl err =>
              if negb (Contains (Error err) "Network load balancer not found")
              then throw (Errorf_w "failed to GetNetworkLoadBalancer: " err)
              else
                wrap "failed to CreateNetworkLoadBalancer: "
                  (incus conn (CreateNetworkLoadBalancer (mo_networkName l) (mo_listenAddress l) (ovn_owner l))) ;;
                ret [mo_listenAddress l]
          end
      end
  end.

Definition managerOVN_Delete (l : managerOVNData) (ctx : context) : M state unit :=
  let! r := try (incus (cli_Conn (mo_lxcClient l))
                   (DeleteNetworkLoadBalancer (mo_networkName l) (mo_listenAddress l))) in
  match r with
  | inl err => if negb (Contains (Error err) "not found")
               then throw (Errorf_w "failed to DeleteNetworkLoadBalancer: " err) else ret tt
  | inr _ => ret tt
  end.

Definition ovn_config (l : managerOVNData) (config : configData) : NetworkLoadBalancerPut :=
  let servers := range (cd_BackendServers config) in
  {| nlb_Config :=
       {[ "user.cluster-name" := mo_clusterName l; "user.cluster-namespace" := mo_clusterNamespace l;
          "healthcheck" := "true"; "healthcheck.interval" := "5"; "healthcheck.timeout" := "5";
          "healthcheck.failure_count" := "3"; "healthcheck.success_count" := "2" ]};
     nlb_Backends := map (λ kv, {| be_Name := kv.1; be_TargetPort := cd_BackendControlPlanePort config;
                                   be_TargetAddress := bs_Address kv.2 |}) servers;
     nlb_Ports := [{| po_ListenPort := cd_FrontendControlPlanePort config; po_Protocol := "tcp";
                      po_TargetBackend := map fst servers |}] |}.

Definition managerOVN_Reconfigure (l : managerOVNData) (ctx : context) : M state unit :=
  let! ctx := WithTimeout ctx loadBalancerReconfigureTimeout in
  let! config := wrap "failed to build load balancer configuration: "
                   (getLoadBalancerConfiguration (mo_lxcClient l)
                      [filterClusterControlPlaneInstances (mo_clusterName l) (mo_clusterNamespace l)]) in
  wrap "failed to UpdateNetworkLoadBalancer: "
    (incus (cli_Conn (mo_lxcClient l))
       (UpdateNetworkLoadBalancer (mo_networkName l) (mo_listenAddress l) (ovn_config l config))).

(** The first getter reads a field of the network before it looks at the error;
    on an error the network is nil. *)
Definition managerOVN_Inspect (l : managerOVNData) (ctx : context) : M state (gmap string string) :=
  let conn := cli_Conn (mo_lxcClient l) in
  let! network := try (incus conn (GetNetwork (mo_networkName l))) in
  match network with
  | inl _ => panic "invalid memory address or nil pointer dereference"
  | inr network =>
      let uplinkNetwork := go_index network "network" in
      let result := addInfo "Network" (inr (ObjNetwork network)) ∅ in
      let! result := addInfoFor "UplinkNetwork"
                       (let! network := incus conn (GetNetwork uplinkNetwork) in ret (ObjNetwork network)) result in
      let! result := addInfoFor "NetworkLoadBalancer"
                       (let! lb := incus conn (GetNetworkLoadBalancer (mo_networkName l) (mo_listenAddress l)) in
                        ret (ObjLoadBalancer lb)) result in
      addInfoFor "NetworkLoadBalancerState"
        (let! st := incus conn (GetNetworkLoadBalancerState (mo_networkName l) (mo_listenAddress l)) in
         ret (ObjLoadBalancerState st)) result
  end.

Definition managerOVN (l : managerOVNData) : Manager :=
  {| Create := managerOVN_Create l; Delete := managerOVN_Delete l; Reconfigure := managerOVN_Reconfigure l;
     ControlPlaneInstanceTemplates := λ _, inr None; Inspect := managerOVN_Inspect l |}.

(** ** managerExternal: manager_external.go *)

Definition managerExternal_Create (address : string) (ctx : context) : M state (list string) :=
  if decide (address = "")
  then throw (TerminalError (errorString "using external load balancer but no address is configured"))
  else ret [address].

Definition managerExternal (address : string) : Manager :=
  {| Create := managerExternal_Create address; Delete := λ _, ret tt; Reconfigure := λ _, ret tt;
     ControlPlaneInstanceTemplates := λ _, inr None; Inspect := λ _, ret {[ "address" := address ]} |}.

(** ** managerKubeVIP: manager_kube_vip.go *)

Record managerKubeVIPData := {
  mk_lxcClient : Client;
  mk_clusterName : string;
  mk_clusterNamespace : string;
  mk_address : string;
  mk_interfaceName : string;
  mk_kubeconfigPath : string;
  mk_manifestPath : string;
  mk_image : string
}.

Definition managerKubeVIP_Create (l : managerKubeVIPData) (ctx : context) : M state (list string) :=
  if decide (mk_address l = "")
  then throw (TerminalError (errorString "using KubeVIP load balancer but no address is configured"))
  else ret [mk_address l].

Definition getManifestPath (l : managerKubeVIPData) : string :=
  if (0 <? String.length (mk_manifestPath l))%nat then mk_manifestPath l
  else "/etc/kubernetes/manifests/kube-vip.yaml".

Definition getImage (l : managerKubeVIPData) : string :=
  if (0 <? String.length (mk_image l))%nat then mk_image l else "ghcr.io/kube-vip/kube-vip:v0.6.4".

Definition getKubeconfigPath (l : managerKubeVIPData) (controlPlaneInitialized : bool) : string :=
  if negb (String.length (mk_kubeconfigPath l) =? 0)%nat then mk_kubeconfigPath l
  else if negb controlPlaneInitialized then "/etc/kubernetes/super-admin.conf"
  else "/etc/kubernetes/admin.conf".

Definition managerKubeVIP_Templates (l : managerKubeVIPData) (controlPlaneInitialized : bool) :
    error + option (gmap string string) :=
  match renderKubeVIPConfiguration
          {| kt_Interface := mk_interfaceName l; kt_Address := mk_address l; kt_Image := getImage l;
             kt_KubeconfigPath := getKubeconfigPath l controlPlaneInitialized |} with
  | inl err => inl (TerminalError (Errorf_w "failed to generate KubeVIP config file: " err))
  | inr b => inr (Some {[ getManifestPath l := b ]})
  end.

Fixpoint inspect_instances (l : managerKubeVIPData) (ctx : context) (instances : list InstanceFull)
    (result : gmap string string) : M state (gmap string string) :=
  match instances with
  | [] => ret result
  | i :: instances =>
      let! result := inspect_commands (mk_lxcClient l) ctx (if_Name i)
        [(if_Name i +s+ "/ip-a.txt", ["ip"; "a"]);
         (if_Name i +s+ "/ip-r.txt", ["ip"; "r"]);
         (if_Name i +s+ "/kube-vip.yaml", ["cat"; getManifestPath l])] result in
      inspect_instances l ctx instances result
  end.

Definition managerKubeVIP_Inspect (l : managerKubeVIPData) (ctx : context) : M state (gmap string string) :=
  let! instances := try (ListInstances (mk_lxcClient l)
                           [WithConfig (cluster_config (mk_clusterName l) (mk_clusterNamespace l) "control-plane")]) in
  match instances with
  | inl err => ret {[ "instances.err" := Error err ]}
  | inr instances => inspect_instances l ctx instances ∅
  end.

Definition managerKubeVIP (l : managerKubeVIPData) : Manager :=
  {| Create := managerKubeVIP_Create l; Delete := λ _, ret tt; Reconfigure := λ _, ret tt;
     ControlPlaneInstanceTemplates := managerKubeVIP_Templates l; Inspect := managerKubeVIP_Inspect l |}.

(** ** ManagerForCluster *)

Definition instance_manager (cluster : Cluster) (lxcCluster : LXCCluster) (lxcClient : Client)
    (lb : LXCLoadBalancerInstance) : managerInstance :=
  {| mi_lxcClient := lxcClient; mi_clusterName := om_Name (cl_Meta cluster);
     mi_clusterNamespace := om_Namespace (cl_Meta cluster);
     mi_name := GetLoadBalancerInstanceName lxcCluster;
     mi_spec := lbi_InstanceSpec lb;
     mi_customHAProxyConfigTemplate := lbi_CustomHAProxyConfigTemplate lb |}.

(** ManagerForCluster returns the proper Manager based on the lxcCluster spec. *)
Definition ManagerForCluster (cluster : Cluster) (lxcCluster : LXCCluster) (lxcClient : Client) : Manager :=
  let lb := cs_LoadBalancer (lc_Spec lxcCluster) in
  let host := ep_Host (cs_ControlPlaneEndpoint (lc_Spec lxcCluster)) in
  match lb_LXC lb, lb_OCI lb, lb_OVN lb, lb_External lb, lb_KubeVIP lb with
  | Some l, _, _, _, _ => managerLXC (instance_manager cluster lxcCluster lxcClient l)
  | None, Some l, _, _, _ => managerOCI (instance_manager cluster lxcCluster lxcClient l)
  | None, None, Some l, _, _ =>
      managerOVN {| mo_lxcClient := lxcClient; mo_clusterName := om_Name (cl_Meta cluster);
                    mo_clusterNamespace := om_Namespace (cl_Meta cluster);
                    mo_networkName := ovn_NetworkName l; mo_listenAddress := host |}
  | None, None, None, Some _, _ => managerExternal host
  | None, None, None, None, Some l =>
      managerKubeVIP {| mk_lxcClient := lxcClient; mk_clusterName := om_Name (cl_Meta cluster);
                        mk_clusterNamespace := om_Namespace (cl_Meta cluster);
                        mk_address := host; mk_interfaceName := kv_Interface l; mk_image := kv_Image l;
                        mk_kubeconfigPath := kv_KubeconfigPath l; mk_manifestPath := kv_ManifestPath l |}
  | None, None, None, None, None => managerExternal host
  end.

End loadbalancer.

(** ** Rendering the default templates *)

(** The line of a backend server. *)
Definition server_line (port : string) (kv : string * backendServer) : string :=
  newline +s+ "  server " +s+ kv.1 +s+ " " +s+ JoinHostPort (bs_Address kv.2) port +s+
  " weight " +s+ pretty (bs_Weight kv.2) +s+ " check check-ssl verify none".

(** The default template, parsed. *)
Definition haproxy_nodes : list node := Eval vm_compute in default [] (parse DefaultHaproxyTemplate).

Lemma parse_DefaultHaproxyTemplate : parse DefaultHaproxyTemplate = Some haproxy_nodes.
Proof. vm_compute. reflexivity. Qed.

Definition kubevip_nodes : list node := Eval vm_compute in default [] (parse DefaultKubeVIPTemplate).

Lemma parse_DefaultKubeVIPTemplate : parse DefaultKubeVIPTemplate = Some kubevip_nodes.
Proof. vm_compute. reflexivity. Qed.

(** The text of the default configuration before the servers. *)
Definition haproxy_head (frontend : string) (ipv6 : bool) : string :=
  match haproxy_nodes with
  | Text a :: Emit _ :: Text b :: If _ [Text c; Emit _; Text d] :: Text e :: _ =>
      a +s+ frontend +s+ b +s+ (if ipv6 then c +s+ frontend +s+ d else "") +s+ e
  | _ => ""
  end.


Lemma exec_nodes_cons funcs sc n ns :
  exec_nodes funcs sc (n :: ns) = append_opt (exec_node funcs sc n) (exec_nodes funcs sc ns).
Proof. done. Qed.

Lemma render_default `{TextTemplate} (d : configData) :
  renderHaproxyConfiguration d DefaultHaproxyTemplate =
    inr (haproxy_head (cd_FrontendControlPlanePort d) (cd_IPv6 d) +s+
         concat_strings (map (server_line (cd_BackendControlPlanePort d)) (sorted_entries (cd_BackendServers d))) +s+
         newline).
Proof.
  unfold renderHaproxyConfiguration, render_template. rewrite parse_DefaultHaproxyTemplate.
  unfold execute, haproxy_nodes. rewrite !exec_nodes_cons.
  erewrite (exec_Range haproxy_funcs _ "server" "backend" _ _ backend_value (sorted_entries (cd_BackendServers d))
             (server_line (cd_BackendControlPlanePort d))).
  2: reflexivity.
  2: { intros [k b] Hk. unfold server_line. cbn. by rewrite ?string_app_nil_r, ?string_app_assoc. }
  unfold haproxy_head, haproxy_nodes. destruct d as [fp bp servers []]; cbn -[String.append];
    rewrite ?string_app_nil_r, !string_app_assoc; reflexivity.
Qed.

(** ** The backends a load balancer should have

    What the load balancer of a cluster promises: one backend for every
    control plane instance of the cluster that has an address, with the first
    of its addresses. *)

Definition control_plane_of (clusterName clusterNamespace : string) (i : InstanceFull) : Prop :=
  go_index (if_Config i) "user.cluster-name" = clusterName ∧
  go_index (if_Config i) "user.cluster-namespace" = clusterNamespace ∧
  go_index (if_Config i) "user.cluster-role" = "control-plane".

Definition cluster_backend `{MapRange} (clusterName clusterNamespace : string) (all : list InstanceFull)
    (name address : string) : Prop :=
  ∃ i rest, i ∈ all ∧ if_Name i = name ∧ control_plane_of clusterName clusterNamespace i ∧
            ParseHostAddresses (if_State i) = address :: rest.

Section backends.
Context `{MapRange}.

Lemma filter_control_plane clusterName clusterNamespace i :
  filterClusterControlPlaneInstances clusterName clusterNamespace i = true ↔
  control_plane_of clusterName clusterNamespace i.
Proof.
  unfold filterClusterControlPlaneInstances, WithConfig, cluster_config, control_plane_of.
  rewrite forallb_In. split.
  - intros Hf. split_and!; apply String.eqb_eq.
    + apply (Hf ("user.cluster-name", clusterName)), elem_of_range. by simplify_map_eq.
    + apply (Hf ("user.cluster-namespace", clusterNamespace)), elem_of_range. by simplify_map_eq.
    + apply (Hf ("user.cluster-role", "control-plane")), elem_of_range. by simplify_map_eq.
  - intros (H1 & H2 & H3) [k v] Hk%elem_of_range. apply String.eqb_eq. simpl.
    apply lookup_insert_Some in Hk as [[<- <-]|[_ Hk]]; [done|].
    apply lookup_insert_Some in Hk as [[<- <-]|[_ Hk]]; [done|].
    by apply lookup_singleton_Some in Hk as [<- <-].
Qed.

Lemma lookup_backends l n b :
  NoDup (map if_Name l) →
  cd_BackendServers (config_of_instances l) !! n = Some b ↔
  ∃ i rest, i ∈ l ∧ if_Name i = n ∧ ParseHostAddresses (if_State i) = bs_Address b :: rest ∧ bs_Weight b = 100%Z.
Proof.
  unfold config_of_instances. simpl. revert n b.
  apply (foldl_ind (λ l acc, ∀ n b, NoDup (map if_Name l) → acc !! n = Some b ↔
    ∃ i rest, i ∈ l ∧ if_Name i = n ∧ ParseHostAddresses (if_State i) = bs_Address b :: rest ∧ bs_Weight b = 100%Z)).
  { intros n b _. rewrite lookup_empty. split; [done|]. intros (i & ? & ?%elem_of_nil & _). done. }
  intros l1 x acc IH n b Hnd. rewrite map_app in Hnd. apply NoDup_app in Hnd as (Hnd & Hx & _).
  unfold add_backend. destruct (ParseHostAddresses (if_State x)) as [|a rest] eqn:Hp.
  - rewrite IH by done. split; intros (i & r & Hi & ?).
    + exists i, r. split; [set_solver|done].
    + apply elem_of_app in Hi as [Hi| ->%list_elem_of_singleton]; [by exists i, r|]. naive_solver congruence.
  - rewrite lookup_insert_Some, IH by done. split.
    + intros [[<- <-]|[Hne (i & r & Hi & ?)]]; [exists x, rest|exists i, r]; split; [set_solver|done|set_solver|done].
    + intros (i & r & Hi & Hn & Hr & Hw). apply elem_of_app in Hi as [Hi| ->%list_elem_of_singleton].
      * right. split; [|by exists i, r]. intros Heq. apply (Hx n).
        { rewrite <- Hn. by apply list_elem_of_fmap_2. } rewrite <- Heq. set_solver.
      * left. split; [done|]. rewrite Hp in Hr. destruct b; simpl in *; congruence.
Qed.

(** The backends of the configuration the program builds are the promised ones. *)
Lemma backends_refine clusterName clusterNamespace all n b :
  NoDup (map if_Name all) →
  cd_BackendServers (config_of_instances
    (List.filter (λ i, forallb (λ f : ListInstanceFilter, f i)
                         [filterClusterControlPlaneInstances clusterName clusterNamespace]) all)) !! n = Some b ↔
  bs_Weight b = 100%Z ∧ cluster_backend clusterName clusterNamespace all n (bs_Address b).
Proof.
  intros Hnd. rewrite lookup_backends.
  - unfold cluster_backend. simpl. split.
    + intros (i & rest & Hi & Hn & Hp & Hw). apply list_elem_of_In, filter_In in Hi as [Hi Hf].
      rewrite andb_true_r in Hf. apply filter_control_plane in Hf. split; [done|].
      exists i, rest. split_and!; [by apply list_elem_of_In|done..].
    + intros (Hw & i & rest & Hi & Hn & Hf & Hp). exists i, rest. split_and!; [|done..].
      apply list_elem_of_In, filter_In. split; [by apply list_elem_of_In|].
      rewrite andb_true_r. by apply filter_control_plane.
  - clear n b. induction all as [|i all IH]; [done|]. simpl in *. apply NoDup_cons in Hnd as [Hi Hnd].
    destruct (_ && _); [|by apply IH]. simpl. apply NoDup_cons. split; [|by apply IH].
    intros Hin. apply Hi. apply list_elem_of_fmap in Hin as (j & -> & Hj).
    apply list_elem_of_fmap_2. apply list_elem_of_In in Hj. apply filter_In in Hj as [Hj _].
    by apply list_elem_of_In.
Qed.

End backends.

(** ** What reconfiguring tells the load balancer *)

(** The servers that realise the promised backends. *)
Definition servers_for `{MapRange} (clusterName clusterNamespace : string) (all : list InstanceFull)
    (servers : gmap string backendServer) : Prop :=
  NoDup (map if_Name all) →
  ∀ n b, servers !! n = Some b ↔
         bs_Weight b = 100%Z ∧ cluster_backend clusterName clusterNamespace all n (bs_Address b).

(** The default haproxy configuration for some servers. *)
Definition haproxy_text (servers : gmap string backendServer) : string :=
  haproxy_head "6443" false +s+ concat_strings (map (server_line "6443") (sorted_entries servers)) +s+ newline.

(** What the template of a load balancer is rendered with. *)
Definition haproxy_data (servers : gmap string backendServer) : configData :=
  {| cd_FrontendControlPlanePort := "6443"; cd_BackendControlPlanePort := "6443";
     cd_BackendServers := servers; cd_IPv6 := false |}.

(** The reconfiguration of a haproxy load balancer: list the instances, write
    the file, run the command that reloads it and wait for the command. The
    file is the template of the cluster, or the default one, rendered with the
    promised backends as its servers. *)
Definition haproxy_reconfigured `{MapRange} `{TextTemplate} (l : managerInstance) (path : string) (reload : list string)
    (evs : list event) : Prop :=
  let conn := cli_Conn (mi_lxcClient l) in
  ∃ all servers cfg op dl r,
    evs = [accepted conn GetInstancesFull all;
           accepted conn (CreateInstanceFile (mi_name l) path (haproxy_file cfg)) tt;
           accepted conn (ExecInstance (mi_name l) reload None) op;
           existT _ (CIncus conn (WaitContext op dl), r)] ∧
    wait_done r = true ∧ servers_for (mi_clusterName l) (mi_clusterNamespace l) all servers ∧
    if decide (mi_customHAProxyConfigTemplate l = "") then cfg = haproxy_text servers
    else renderHaproxyConfiguration (haproxy_data servers) (mi_customHAProxyConfigTemplate l) = inr cfg.

Section reconfigure.
Context `{MapRange} `{TextTemplate} `{Printer} `{E : Env}.

Lemma traces_getLoadBalancerConfiguration c clusterName clusterNamespace :
  traces (getLoadBalancerConfiguration c [filterClusterControlPlaneInstances clusterName clusterNamespace])
    (λ o evs, match o with
              | Ok config => ∃ all servers, evs = [accepted (cli_Conn c) GetInstancesFull all] ∧
                  config = {| cd_FrontendControlPlanePort := "6443"; cd_BackendControlPlanePort := "6443";
                              cd_BackendServers := servers; cd_IPv6 := false |} ∧
                  servers_for clusterName clusterNamespace all servers
              | _ => True
              end).
Proof.
  unfold getLoadBalancerConfiguration, ListInstances. tr_steps; [done|].
  eexists _, _. split_and!; [done|done|]. intros Hnd n b. by apply backends_refine.
Qed.

Lemma traces_run_command c ctx name command :
  traces (run_command c ctx name command)
    (λ o evs, match o with
              | Ok _ => ∃ op r, evs = [accepted (cli_Conn c) (ExecInstance name command None) op;
                                       existT _ (CIncus (cli_Conn c) (WaitContext op ctx), r)] ∧ wait_done r = true
              | _ => True
              end).
Proof.
  unfold run_command, RunCommand, wait_operation.
  tr_steps; try done; unfold command_result, operation_error in *; simpl in *.
  all: eexists _, _; split; [reflexivity|]; unfold wait_done; simpl;
    repeat (split_match; try done).
Qed.

Lemma traces_reconfigure (l : managerInstance) ctx path reload pre1 pre2 :
  traces (let! ctx := WithTimeout ctx loadBalancerReconfigureTimeout in
          let! haproxyCfg := lb_render l in
          wrap pre1 (incus (cli_Conn (mi_lxcClient l)) (CreateInstanceFile (mi_name l) path (haproxy_file haproxyCfg))) ;;
          wrap pre2 (run_command (mi_lxcClient l) ctx (mi_name l) reload))
    (λ o evs, match o with Ok _ => haproxy_reconfigured l path reload evs | _ => True end).
Proof.
  unfold WithTimeout, lb_render. tr_steps.
  eapply traces_mono; [apply traces_getLoadBalancerConfiguration|].
  intros [config|?|?|] evs Hc; try done. destruct Hc as (all & servers & -> & -> & Hs).
  do 2 tr_step. set (text := if decide _ then _ else _).
  destruct (renderHaproxyConfiguration _ text) as [e|cfg] eqn:Hr; [done|].
  tr_steps; [done|]. eapply traces_mono; [apply traces_run_command|].
  intros [[]|?|?|] evs Hrc; try done. destruct Hrc as (op & r & -> & Hw), u.
  eexists all, servers, cfg, op, _, r. split_and!; [done|done|done|]. unfold text in Hr.
  case_decide; [rewrite render_default in Hr; by simplify_eq|exact Hr].
Qed.

(** C10: When reconfiguring a haproxy load balancer succeeds, the program has
    listed the instances, written one configuration file, asked haproxy to
    reload it and waited for that, in this order and with nothing in between.
    The file is the rendering of the custom template of the cluster, or of the
    default one, whose text is then given in full; and, where the server lists no
    name twice, the servers it is rendered with are exactly the control plane
    instances of the cluster that have an address. *)
Theorem haproxy_Reconfigure_refines (l : managerInstance) (ctx : context) (s s' : state) :
  (managerLXC_Reconfigure l ctx s = (Ok tt, s') →
   ∃ evs, st_log s' = st_log s ++ evs ∧
     haproxy_reconfigured l "/etc/haproxy/haproxy.cfg" ["systemctl"; "reload"; "haproxy.service"] evs) ∧
  (managerOCI_Reconfigure l ctx s = (Ok tt, s') →
   ∃ evs, st_log s' = st_log s ++ evs ∧
     haproxy_reconfigured l "/usr/local/etc/haproxy/haproxy.cfg" ["kill"; "--signal"; "SIGUSR2"; "1"] evs).
Proof.
  split; intros Hrun; exact (traces_run _ _ _ _ _ (traces_reconfigure l ctx _ _ _ _) Hrun).
Qed.

Lemma ovn_config_spec (l : managerOVNData) all servers :
  servers_for (mo_clusterName l) (mo_clusterNamespace l) all servers →
  let put := ovn_config l {| cd_FrontendControlPlanePort := "6443"; cd_BackendControlPlanePort := "6443";
                             cd_BackendServers := servers; cd_IPv6 := false |} in
  ovn_owner l ⊆ nlb_Config put ∧
  nlb_Ports put = [{| po_ListenPort := "6443"; po_Protocol := "tcp";
                      po_TargetBackend := map be_Name (nlb_Backends put) |}] ∧
  (NoDup (map if_Name all) → ∀ n a,
     cluster_backend (mo_clusterName l) (mo_clusterNamespace l) all n a →
     {| be_Name := n; be_TargetPort := "6443"; be_TargetAddress := a |} ∈ nlb_Backends put) ∧
  (NoDup (map if_Name all) → ∀ b, b ∈ nlb_Backends put →
     be_TargetPort b = "6443" ∧
     cluster_backend (mo_clusterName l) (mo_clusterNamespace l) all (be_Name b) (be_TargetAddress b)).
Proof.
  intros Hs put. split_and!.
  - apply map_subseteq_spec. intros k v. unfold ovn_owner, put. simpl. intros Hk.
    apply lookup_insert_Some in Hk as [[<- <-]|[? Hk]]; [by simplify_map_eq|].
    apply lookup_singleton_Some in Hk as [<- <-]. by simplify_map_eq.
  - unfold put. simpl. by rewrite map_map.
  - intros Hnd n a Hb. unfold put. simpl. apply list_elem_of_fmap.
    exists (n, {| bs_Address := a; bs_Weight := 100 |}). split; [done|].
    by apply elem_of_range, Hs.
  - intros Hnd b Hb. unfold put in Hb. simpl in Hb. apply list_elem_of_fmap in Hb as ([n srv] & -> & Hin).
    simpl. split; [done|]. apply elem_of_range, (Hs Hnd) in Hin. tauto.
Qed.

(** C23: When reconfiguring an OVN load balancer succeeds, it was updated once,
    with the owner keys of the cluster, with exactly the promised backends and
    with one TCP port 6443 whose targets are the names of these backends. *)
Theorem managerOVN_Reconfigure_refines (l : managerOVNData) (ctx : context) (s s' : state) :
  managerOVN_Reconfigure l ctx s = (Ok tt, s') →
  let conn := cli_Conn (mo_lxcClient l) in
  ∃ all put, st_log s' = st_log s ++
      [accepted conn GetInstancesFull all;
       accepted conn (UpdateNetworkLoadBalancer (mo_networkName l) (mo_listenAddress l) put) tt] ∧
    ovn_owner l ⊆ nlb_Config put ∧
    nlb_Ports put = [{| po_ListenPort := "6443"; po_Protocol := "tcp";
                        po_TargetBackend := map be_Name (nlb_Backends put) |}] ∧
    (NoDup (map if_Name all) → ∀ n a,
       cluster_backend (mo_clusterName l) (mo_clusterNamespace l) all n a →
       {| be_Name := n; be_TargetPort := "6443"; be_TargetAddress := a |} ∈ nlb_Backends put) ∧
    (NoDup (map if_Name all) → ∀ b, b ∈ nlb_Backends put →
       be_TargetPort b = "6443" ∧
       cluster_backend (mo_clusterName l) (mo_clusterNamespace l) all (be_Name b) (be_TargetAddress b)).
Proof.
  intros Hrun conn. enough (traces (managerOVN_Reconfigure l ctx) (λ o evs,
    match o with
    | Ok _ => ∃ all servers,
        evs = [accepted conn GetInstancesFull all;
               accepted conn (UpdateNetworkLoadBalancer (mo_networkName l) (mo_listenAddress l)
                 (ovn_config l {| cd_FrontendControlPlanePort := "6443"; cd_BackendControlPlanePort := "6443";
                                  cd_BackendServers := servers; cd_IPv6 := false |})) tt] ∧
        servers_for (mo_clusterName l) (mo_clusterNamespace l) all servers
    | _ => True
    end)) as Htr.
  { destruct (traces_run _ _ _ _ _ Htr Hrun) as (evs & Hl & all & servers & -> & Hs).
    eexists all, _. split; [exact Hl|]. by apply ovn_config_spec. }
  unfold managerOVN_Reconfigure, WithTimeout. tr_steps.
  eapply traces_mono; [apply traces_getLoadBalancerConfiguration|].
  intros [config|?|?|] evs Hc; try done. destruct Hc as (all & servers & -> & -> & Hs).
  tr_steps; [done|]. destruct u. by exists all, servers.
Qed.

End reconfigure.

(** ** The contract of the interface

    What the controllers may rely on, whichever manager they were given. *)

(** The event is a call to the server and project of the client that changes
    nothing but the load balancer: its instance, or the network load balancer
    that listens on its address. *)
Definition lb_footprint (c : Client) (name network address : string) (e : event) : Prop :=
  match projT2 e with
  | (CIncus conn call, _) =>
      cn_Endpoint conn = cn_Endpoint (cli_Conn c) ∧ cn_Project conn = cn_Project (cli_Conn c) ∧
      (icall_reads call = true ∨ icall_instance call = Some name ∨
       match call with
       | CreateNetworkLoadBalancer n a _ | UpdateNetworkLoadBalancer n a _ | DeleteNetworkLoadBalancer n a =>
           n = network ∧ a = address
       | _ => False
       end)
  | _ => False
  end.

Section contract.
Context `{E : Env}.

Class ManagerSpec (footprint : event → Prop) (m : Manager) : Prop := {
  (** Creating ends, and gives at least one address. *)
  Create_ends : ∀ ctx s,
    wp (Create m ctx) (λ o _, match o with Ok addrs => addrs ≠ [] | Err _ => True | _ => False end) s;
  Delete_safe : ∀ ctx, safe (λ _, True) (Delete m ctx);
  Reconfigure_safe : ∀ ctx, safe (λ _, True) (Reconfigure m ctx);
  Create_calls : ∀ ctx, calls_only footprint (Create m ctx);
  Delete_calls : ∀ ctx, calls_only footprint (Delete m ctx);
  Reconfigure_calls : ∀ ctx, calls_only footprint (Reconfigure m ctx);
  (** Reconfiguring and deleting create no instance. *)
  Delete_creates_nothing : ∀ ctx, calls_only not_create (Delete m ctx);
  Reconfigure_creates_nothing : ∀ ctx, calls_only not_create (Reconfigure m ctx)
}.

End contract.

Section contract_instances.
Context `{MapRange} `{TextTemplate} `{Printer} `{E : Env} `{!EnvTime E}.

Lemma safe_run_command D I `{!Stable I} c ctx name command : safe_or D I (run_command c ctx name command).
Proof. unfold run_command. safe_auto. Qed.

Lemma safe_getLoadBalancerConfiguration D I `{!Stable I} c filters : safe_or D I (getLoadBalancerConfiguration c filters).
Proof. unfold getLoadBalancerConfiguration, ListInstances. safe_auto. Qed.
Hint Resolve safe_run_command safe_getLoadBalancerConfiguration : capn.

Lemma lb_options_replacements l o : lo_replacements (lb_options l o) = lo_replacements o.
Proof. unfold lb_options, WithImage. by repeat case_match. Qed.

(** Load balancers are launched without text replacements: no file is read. *)
Lemma lb_launch_ends l ctx o s :
  lo_replacements o = None →
  wp (lb_launch l ctx o) (λ o _, match o with Ok addrs => addrs ≠ [] | Err _ => True | _ => False end) s.
Proof.
  intros Hr. unfold lb_launch. wp_step. eapply wp_mono; [apply (WaitForLaunchInstance_wp False); intros; apply safe_provisionInstance|].
  - by rewrite lb_options_replacements, Hr.
  - by intros [].
Qed.

Section footprint.
Context (c : Client) (name network address : string).
Let P : event → Prop := lb_footprint c name network address.

Lemma footprint_reads target A (call : icall A) r :
  icall_reads call = true → P (existT A (CIncus (cli_Conn (WithTarget c target)) call, r)).
Proof. unfold P, lb_footprint, WithTarget. simpl. destruct (SupportsInstanceTarget c); simpl; auto. Qed.

Lemma footprint_reads_same A (call : icall A) r :
  icall_reads call = true → P (existT A (CIncus (cli_Conn c) call, r)).
Proof. unfold P, lb_footprint. simpl. auto. Qed.

Lemma footprint_instance target A (call : icall A) r :
  icall_instance call = Some name → P (existT A (CIncus (cli_Conn (WithTarget c target)) call, r)).
Proof. unfold P, lb_footprint, WithTarget. simpl. destruct (SupportsInstanceTarget c); simpl; auto. Qed.

Lemma footprint_instance_same A (call : icall A) r :
  icall_instance call = Some name → P (existT A (CIncus (cli_Conn c) call, r)).
Proof. unfold P, lb_footprint. simpl. auto. Qed.

Lemma calls_lb_delete ctx : calls_only P (WaitForDeleteInstance c ctx name).
Proof.
  apply calls_WaitForDeleteInstance; [apply footprint_reads_same|intros; by apply footprint_instance_same..].
Qed.

Lemma calls_lb_launch l ctx o :
  mi_lxcClient l = c → mi_name l = name → calls_only P (lb_launch l ctx o).
Proof.
  intros Hc Hn. unfold lb_launch. rewrite Hc, Hn. apply calls_only_wrap, calls_WaitForLaunchInstance.
  - apply footprint_reads.
  - intros post r (o' & _ & Hname & _). apply footprint_instance. simpl. by rewrite Hname.
  - intros. by apply footprint_instance.
Qed.

Lemma calls_lb_render l : mi_lxcClient l = c → calls_only P (lb_render l).
Proof.
  intros Hc. unfold lb_render, getLoadBalancerConfiguration, ListInstances. rewrite Hc. calls_auto.
  by apply footprint_reads_same.
Qed.

Lemma calls_lb_command ctx command : calls_only P (run_command c ctx name command).
Proof.
  unfold run_command, RunCommand, wait_operation.
  calls_auto; try (by apply footprint_reads_same); by apply footprint_instance_same.
Qed.

End footprint.

Lemma not_create_reads A conn (call : icall A) r :
  icall_reads call = true → not_create (existT A (CIncus conn call, r)).
Proof. by destruct call. Qed.

Lemma not_create_delete c ctx name : calls_only not_create (WaitForDeleteInstance c ctx name).
Proof. apply calls_WaitForDeleteInstance; [intros; by apply not_create_reads|done..]. Qed.

Lemma not_create_render l : calls_only not_create (lb_render l).
Proof. unfold lb_render, getLoadBalancerConfiguration, ListInstances. calls_auto. Qed.

Lemma not_create_command c ctx name command : calls_only not_create (run_command c ctx name command).
Proof. unfold run_command, RunCommand, wait_operation. calls_auto. Qed.
Hint Resolve not_create_delete not_create_render not_create_command : capn.

#[export] Instance managerLXC_spec network address (l : managerInstance) :
  ManagerSpec (lb_footprint (mi_lxcClient l) (mi_name l) network address) (managerLXC l).
Proof.
  split; simpl; intros ctx; unfold managerLXC_Create, managerLXC_Delete, managerLXC_Reconfigure, WithTimeout.
  - intros s. apply lb_launch_ends. reflexivity.
  - safe_auto.
  - unfold lb_render. safe_auto.
  - by apply calls_lb_launch.
  - apply calls_only_wrap, calls_lb_delete.
  - calls_auto; try by apply calls_lb_render. 2: apply calls_lb_command. by apply footprint_instance_same.
  - calls_auto.
  - calls_auto.
Qed.

#[export] Instance managerOCI_spec network address (l : managerInstance) :
  ManagerSpec (lb_footprint (mi_lxcClient l) (mi_name l) network address) (managerOCI l).
Proof.
  split; simpl; intros ctx; unfold managerOCI_Create, managerOCI_Delete, managerOCI_Reconfigure, WithTimeout.
  - intros s. destruct (SupportsInstanceOCI _); [done|apply lb_launch_ends; reflexivity].
  - safe_auto.
  - unfold lb_render. safe_auto.
  - destruct (SupportsInstanceOCI _); [calls_auto|by apply calls_lb_launch].
  - apply calls_only_wrap, calls_lb_delete.
  - calls_auto; try by apply calls_lb_render. 2: apply calls_lb_command. by apply footprint_instance_same.
  - calls_auto.
  - calls_auto.
Qed.

#[export] Instance managerOVN_spec name (l : managerOVNData) :
  ManagerSpec (lb_footprint (mo_lxcClient l) name (mo_networkName l) (mo_listenAddress l)) (managerOVN l).
Proof.
  split; simpl; intros ctx; unfold managerOVN_Create, managerOVN_Delete, managerOVN_Reconfigure, WithTimeout,
    getLoadBalancerConfiguration, ListInstances.
  - intros s. apply (traces_outcome _ (λ o, match o with Ok addrs => addrs ≠ [] | Err _ => True | _ => False end)).
    tr_steps; done.
  - safe_auto.
  - safe_auto.
  - calls_auto; unfold lb_footprint; simpl; auto 10.
  - calls_auto; unfold lb_footprint; simpl; auto 10.
  - calls_auto; unfold lb_footprint; simpl; auto 10.
  - calls_auto.
  - calls_auto.
Qed.

#[export] Instance managerExternal_spec P address : ManagerSpec P (managerExternal address).
Proof.
  split; simpl; intros ctx; unfold managerExternal_Create.
  - intros s. case_decide; [done|]. by apply wp_ret.
  - safe_auto.
  - safe_auto.
  - calls_auto.
  - calls_auto.
  - calls_auto.
  - calls_auto.
  - calls_auto.
Qed.

#[export] Instance managerKubeVIP_spec P l : ManagerSpec P (managerKubeVIP l).
Proof.
  split; simpl; intros ctx; unfold managerKubeVIP_Create.
  - intros s. case_decide; [done|]. by apply wp_ret.
  - safe_auto.
  - safe_auto.
  - calls_auto.
  - calls_auto.
  - calls_auto.
  - calls_auto.
  - calls_auto.
Qed.

(** What the load balancer of a cluster may change on the server. *)
Definition cluster_lb_footprint (lxcCluster : LXCCluster) (c : Client) : event → Prop :=
  lb_footprint c (GetLoadBalancerInstanceName lxcCluster)
    (match lb_OVN (cs_LoadBalancer (lc_Spec lxcCluster)) with Some o => ovn_NetworkName o | None => "" end)
    (ep_Host (cs_ControlPlaneEndpoint (lc_Spec lxcCluster))).

#[export] Instance ManagerForCluster_spec cluster lxcCluster c :
  ManagerSpec (cluster_lb_footprint lxcCluster c) (ManagerForCluster cluster lxcCluster c).
Proof.
  unfold cluster_lb_footprint, ManagerForCluster.
  destruct (lb_LXC _) as [l|]; [apply (managerLXC_spec _ _ (instance_manager cluster lxcCluster c l))|].
  destruct (lb_OCI _) as [l|]; [apply (managerOCI_spec _ _ (instance_manager cluster lxcCluster c l))|].
  destruct (lb_OVN _) as [l|].
  { apply (managerOVN_spec _ {| mo_lxcClient := c; mo_clusterName := _; mo_clusterNamespace := _;
       mo_networkName := ovn_NetworkName l;
       mo_listenAddress := ep_Host (cs_ControlPlaneEndpoint (lc_Spec lxcCluster)) |}). }
  destruct (lb_External _); [apply _|]. destruct (lb_KubeVIP _); apply _.
Qed.

End contract_instances.

(** *** Whose load balancer it is

    A network load balancer has the name and namespace of its cluster in its
    configuration. *)
Definition owner_keys (clusterName clusterNamespace : string) (config : gmap string string) : Prop :=
  config !! "user.cluster-name" = Some clusterName ∧ config !! "user.cluster-namespace" = Some clusterNamespace.

(** What is written over a network load balancer has the keys of the cluster. *)
Definition writes_owner (clusterName clusterNamespace : string) (e : event) : Prop :=
  match (projT2 e).1 with
  | CIncus _ (CreateNetworkLoadBalancer _ _ config) => owner_keys clusterName clusterNamespace config
  | CIncus _ (UpdateNetworkLoadBalancer _ _ put) => owner_keys clusterName clusterNamespace (nlb_Config put)
  | _ => True
  end.

(** A network load balancer is made; the server has none at the address. *)
Definition makes_balancer (e : event) : bool :=
  match (projT2 e).1 with CIncus _ (CreateNetworkLoadBalancer _ _ _) => true | _ => false end.

Definition no_balancer_at (network address : string) (e : event) : Prop :=
  match e with
  | existT A (CIncus _ (GetNetworkLoadBalancer n a), inl err) =>
      n = network ∧ a = address ∧ Contains (Error err) "Network load balancer not found" = true
  | _ => False
  end.

Section ownership.
Context `{MapRange} `{TextTemplate} `{Printer} `{E : Env}.

Lemma lb_launch_writes P l ctx o :
  (∀ A conn (call : icall A) r, icall_reads call = true ∨ is_Some (icall_instance call) → P (existT A (CIncus conn call, r))) →
  calls_only P (lb_launch l ctx o).
Proof.
  intros HP. unfold lb_launch. apply calls_only_wrap, calls_WaitForLaunchInstance.
  - auto.
  - intros post r _. apply HP. right. by eexists.
  - intros A call r Hi _ _. apply HP. right. by eexists.
Qed.

Lemma lb_writes_owner name namespace A conn (call : icall A) r :
  icall_reads call = true ∨ is_Some (icall_instance call) → writes_owner name namespace (existT A (CIncus conn call, r)).
Proof. by destruct call; intros [?|[? ?]]. Qed.

Lemma lb_makes_no_balancer A conn (call : icall A) r :
  icall_reads call = true ∨ is_Some (icall_instance call) → makes_balancer (existT A (CIncus conn call, r)) = false.
Proof. by destruct call; intros [?|[? ?]]. Qed.

(** What Create and Reconfigure write has the keys of the cluster. *)
Lemma ManagerForCluster_owner cluster lxcCluster c ctx :
  let owner := writes_owner (om_Name (cl_Meta cluster)) (om_Namespace (cl_Meta cluster)) in
  calls_only owner (Create (ManagerForCluster cluster lxcCluster c) ctx) ∧
  calls_only owner (Reconfigure (ManagerForCluster cluster lxcCluster c) ctx).
Proof.
  intros owner. unfold ManagerForCluster.
  assert (Hrender : ∀ l, calls_only owner (lb_render l)) by
    (intros l; unfold lb_render, getLoadBalancerConfiguration, ListInstances; calls_auto).
  assert (Hcommand : ∀ c ctx name command, calls_only owner (run_command c ctx name command)) by
    (intros; unfold run_command, RunCommand, wait_operation; calls_auto).
  destruct (lb_LXC _) as [l|].
  { simpl. unfold managerLXC_Create, managerLXC_Reconfigure, WithTimeout.
    split; [apply lb_launch_writes, lb_writes_owner|calls_auto]. }
  destruct (lb_OCI _) as [l|].
  { simpl. unfold managerOCI_Create, managerOCI_Reconfigure, WithTimeout.
    split; [destruct (SupportsInstanceOCI _); [calls_auto|apply lb_launch_writes, lb_writes_owner]|calls_auto]. }
  destruct (lb_OVN _) as [l|].
  { simpl. unfold managerOVN_Create, managerOVN_Reconfigure, WithTimeout, getLoadBalancerConfiguration, ListInstances.
    split; calls_auto; simpl; unfold owner, writes_owner, owner_keys; simpl; by simplify_map_eq. }
  destruct (lb_External _); [|destruct (lb_KubeVIP _)]; simpl;
    unfold managerExternal_Create, managerKubeVIP_Create; split; calls_auto.
Qed.

(** Create makes a network load balancer only where the server has none. *)
Lemma ManagerForCluster_makes cluster lxcCluster c ctx :
  traces (Create (ManagerForCluster cluster lxcCluster c) ctx) (λ _ evs,
    Exists (λ e, makes_balancer e = true) evs →
    ∃ o, lb_OVN (cs_LoadBalancer (lc_Spec lxcCluster)) = Some o ∧
      Exists (no_balancer_at (ovn_NetworkName o) (ep_Host (cs_ControlPlaneEndpoint (lc_Spec lxcCluster)))) evs).
Proof.
  assert (Hnone : ∀ A (m : M state A) Q, calls_only (λ e, makes_balancer e = false) m →
    traces m (λ _ evs, Exists (λ e, makes_balancer e = true) evs → Q evs)).
  { intros A m Q Hm. eapply traces_mono; [by apply traces_calls_only|]. intros o evs Hf (e & Hin & He)%Exists_exists.
    eapply Forall_forall in Hf; [|done]. simpl in Hf. congruence. }
  unfold ManagerForCluster.
  destruct (lb_LXC _) as [l|]; [apply Hnone, lb_launch_writes, lb_makes_no_balancer|].
  destruct (lb_OCI _) as [l|].
  { simpl. unfold managerOCI_Create. apply Hnone.
    destruct (SupportsInstanceOCI _); [calls_auto|apply lb_launch_writes, lb_makes_no_balancer]. }
  destruct (lb_OVN _) as [l|].
  { simpl. unfold managerOVN_Create. tr_steps; intros Hm;
      repeat (apply Exists_app in Hm as [Hm|Hm] || apply Exists_cons in Hm as [Hm|Hm]); try done; try (by inversion Hm);
      exists l; (split; [done|]); rewrite ?Exists_app, !Exists_cons; simpl;
      match goal with Hn : negb (Contains _ _) = false |- _ => apply negb_false_iff in Hn end; naive_solver. }
  destruct (lb_External _); [|destruct (lb_KubeVIP _)]; simpl;
    unfold managerExternal_Create, managerKubeVIP_Create; apply Hnone; calls_auto.
Qed.

End ownership.

(** C12: Every kind of load balancer keeps the contract of the interface: its
    operations end without a panic, a successful Create gives at least one
    address, they change nothing on the server but the instance with the name
    of the load balancer, or the network load balancer on the network and at the
    address of the specification, always in the project of the client, and only
    Create creates something. What Create and Reconfigure write over a network
    load balancer carries the name and namespace of the cluster, and Create
    makes one only where the server reported that there is none. (Reconfigure
    and Delete do not look whose load balancer is at the address:
    [deletes_foreign_balancer].) *)
Theorem ManagerForCluster_contract `{MapRange} `{TextTemplate} `{Printer} `{E : Env} `{!EnvTime E}
    (cluster : Cluster) (lxcCluster : LXCCluster) (c : Client) :
  ManagerSpec (cluster_lb_footprint lxcCluster c) (ManagerForCluster cluster lxcCluster c) ∧
  (∀ ctx, calls_only (writes_owner (om_Name (cl_Meta cluster)) (om_Namespace (cl_Meta cluster)))
            (Create (ManagerForCluster cluster lxcCluster c) ctx)) ∧
  (∀ ctx, calls_only (writes_owner (om_Name (cl_Meta cluster)) (om_Namespace (cl_Meta cluster)))
            (Reconfigure (ManagerForCluster cluster lxcCluster c) ctx)) ∧
  ∀ ctx, traces (Create (ManagerForCluster cluster lxcCluster c) ctx) (λ _ evs,
    Exists (λ e, makes_balancer e = true) evs →
    ∃ o, lb_OVN (cs_LoadBalancer (lc_Spec lxcCluster)) = Some o ∧
      Exists (no_balancer_at (ovn_NetworkName o) (ep_Host (cs_ControlPlaneEndpoint (lc_Spec lxcCluster)))) evs).
Proof.
  split_and!; [apply _|intros ctx; apply ManagerForCluster_owner..|intros ctx; apply ManagerForCluster_makes].
Qed.

(** An OVN load balancer that listens on the address but belongs to another
    cluster is never taken over: creating fails with a terminal error and
    without a request to change the server. *)
Theorem managerOVN_Create_conflict `{MapRange} `{E : Env} (l : managerOVNData) (ctx : context) (s : state)
    (network config : gmap string string) (w w' : world) :
  mo_networkName l ≠ "" →
  SupportsNetworkLoadBalancers (mo_lxcClient l) = None →
  handle (CIncus (cli_Conn (mo_lxcClient l)) (GetNetwork (mo_networkName l))) (st_world s) = (inr network, w) →
  handle (CIncus (cli_Conn (mo_lxcClient l)) (GetNetworkLoadBalancer (mo_networkName l) (mo_listenAddress l))) w =
    (inr config, w') →
  (config !! "user.cluster-name", config !! "user.cluster-namespace") ≠
    (Some (mo_clusterName l), Some (mo_clusterNamespace l)) →
  mo_clusterName l ≠ "" → mo_clusterNamespace l ≠ "" →
  ∃ e s', managerOVN_Create l ctx s = (Err e, s') ∧ IsTerminalError e = true ∧ grows no_incus_write s s'.
Proof.
  intros Hnet Hsup Hn Hlb Hne Hname Hns. unfold managerOVN_Create. rewrite decide_False, Hsup by done.
  unfold bind, try, incus, perform. rewrite Hn. simpl. rewrite Hlb. simpl.
  rewrite decide_True.
  - eexists _, _. split; [reflexivity|]. split; [done|].
    eapply grows_trans; [by eapply grows_after|by eapply grows_after].
  - unfold go_index. destruct (config !! "user.cluster-name") as [n|], (config !! "user.cluster-namespace") as [ns|];
      simpl; try (by left; congruence); try (by right; congruence).
    destruct (decide (n = mo_clusterName l)); [right; congruence|by left].
Qed.

(** ** Inspecting a load balancer *)

(** The command only shows something. *)
Definition diagnostic (command : list string) : bool :=
  match command with
  | "systemctl" :: "status" :: _ => true
  | name :: _ => bool_decide (name ∈ ["ip"; "ss"; "journalctl"; "cat"])
  | [] => false
  end.

(** The event reads from the server, or runs a diagnostic command there. *)
Definition inspection (conn : Conn) (e : event) : Prop :=
  match projT2 e with
  | (CIncus conn' call, _) =>
      conn' = conn ∧ match call with ExecInstance _ command _ => diagnostic command = true | call => icall_reads call = true end
  | _ => False
  end.

(** The cluster uses an OVN load balancer. *)
Definition uses_ovn (lxcCluster : LXCCluster) : option LXCLoadBalancerOVN :=
  let lb := cs_LoadBalancer (lc_Spec lxcCluster) in
  match lb_LXC lb, lb_OCI lb with None, None => lb_OVN lb | _, _ => None end.

Section inspect.
Context `{MapRange} `{TextTemplate} `{Printer} `{E : Env}.

Definition returns {A} (m : M state A) : Prop := ∀ s, ∃ a s', m s = (Ok a, s').

Lemma returns_ret {A} (a : A) : returns (ret a).
Proof. by intros s; eexists _, _. Qed.

Lemma returns_bind {A B} (m : M state A) (k : A → M state B) :
  returns m → (∀ a, returns (k a)) → returns (bind m k).
Proof. intros Hm Hk s. destruct (Hm s) as (a & s1 & Heq). unfold bind. rewrite Heq. apply Hk. Qed.

Lemma returns_try {A} (m : M state A) : safe (λ _, True) m → returns (try m).
Proof.
  intros Hm s. specialize (Hm s I). unfold wp in Hm. unfold try. destruct (m s) as [[] s']; simpl in *; try done; eauto.
Qed.

Lemma returns_addInfoFor name getter result : safe (λ _, True) getter → returns (addInfoFor name getter result).
Proof. intros. apply returns_bind; [by apply returns_try|]. intros. apply returns_ret. Qed.

Lemma returns_RunCommand c ctx name command stdin : returns (RunCommand c ctx name command stdin).
Proof.
  apply returns_bind; [apply returns_try; safe_auto|]. intros [|op]; [apply returns_ret|].
  apply returns_bind; [|intros; apply returns_ret].
  apply returns_bind; [apply returns_try; safe_auto|intros; apply returns_ret].
Qed.

Lemma returns_inspect_commands c ctx name items result : returns (inspect_commands c ctx name items result).
Proof.
  revert result. induction items as [|[n command] items IH]; intros result; [apply returns_ret|].
  apply returns_bind; [apply returns_RunCommand|]. intros r. apply IH.
Qed.

Lemma returns_inspect_instances l ctx insts result : returns (inspect_instances l ctx insts result).
Proof.
  revert result. induction insts as [|i insts IH]; intros result; [apply returns_ret|].
  apply returns_bind; [apply returns_inspect_commands|]. intros r. apply IH.
Qed.

Lemma calls_RunCommand_inspection c ctx name command stdin :
  diagnostic command = true → calls_only (inspection (cli_Conn c)) (RunCommand c ctx name command stdin).
Proof. intros. unfold RunCommand, wait_operation. calls_auto. Qed.

Lemma calls_inspect_commands c ctx name items result :
  forallb (λ i, diagnostic i.2) items = true →
  calls_only (inspection (cli_Conn c)) (inspect_commands c ctx name items result).
Proof.
  revert result. induction items as [|[n command] items IH]; intros result Hi; simpl in Hi |- *; [calls_auto|].
  apply andb_true_iff in Hi as [? ?]. apply calls_only_bind; [by apply calls_RunCommand_inspection|].
  intros. by apply IH.
Qed.

Lemma calls_inspect_instances l ctx insts result :
  calls_only (inspection (cli_Conn (mk_lxcClient l))) (inspect_instances l ctx insts result).
Proof.
  revert result. induction insts as [|i insts IH]; intros result; [apply calls_only_ret|].
  apply calls_only_bind; [by apply calls_inspect_commands|]. intros. apply IH.
Qed.

Lemma calls_managerKubeVIP_Inspect l ctx :
  calls_only (inspection (cli_Conn (mk_lxcClient l))) (managerKubeVIP_Inspect l ctx).
Proof.
  apply calls_only_bind; [apply calls_only_try; unfold ListInstances; calls_auto|].
  intros [|]; [apply calls_only_ret|apply calls_inspect_instances].
Qed.

Lemma managerOVN_Inspect_panics l ctx s :
  match handle (CIncus (cli_Conn (mo_lxcClient l)) (GetNetwork (mo_networkName l))) (st_world s) with
  | (inl _, _) => ∃ msg s', managerOVN_Inspect l ctx s = (Panic msg, s')
  | (inr _, _) => ∃ result s', managerOVN_Inspect l ctx s = (Ok result, s')
  end.
Proof.
  destruct (handle _ _) as [[err|network] w] eqn:Hh; unfold managerOVN_Inspect, bind at 1, try, incus at 1, perform at 1;
    rewrite Hh; simpl; [by eexists _, _|].
  apply returns_bind; [apply returns_addInfoFor; safe_auto|]. intros ?.
  apply returns_bind; [apply returns_addInfoFor; safe_auto|]. intros ?.
  apply returns_addInfoFor; safe_auto.
Qed.

(** C24: Inspecting the load balancer of a cluster reads from the server and runs
    diagnostic commands, and nothing else, over the connection of the client.
    It always returns a report, but for an OVN load balancer whose network
    cannot be read: then the program panics. *)
Theorem Inspect_outcome (cluster : Cluster) (lxcCluster : LXCCluster) (c : Client) (ctx : context) (s : state) :
  let m := ManagerForCluster cluster lxcCluster c in
  calls_only (inspection (cli_Conn c)) (Inspect m ctx) ∧
  match uses_ovn lxcCluster with
  | Some ovn =>
      match handle (CIncus (cli_Conn c) (GetNetwork (ovn_NetworkName ovn))) (st_world s) with
      | (inl _, _) => ∃ msg s', Inspect m ctx s = (Panic msg, s')
      | (inr _, _) => ∃ result s', Inspect m ctx s = (Ok result, s')
      end
  | None => ∃ result s', Inspect m ctx s = (Ok result, s')
  end.
Proof.
  unfold ManagerForCluster, uses_ovn.
  destruct (lb_LXC _) as [l|]; [|destruct (lb_OCI _) as [l|]; [|destruct (lb_OVN _) as [l|]]]; simpl.
  - split.
    + apply calls_only_bind; [unfold inspect_instance, addInfoFor; calls_auto|]. intros. by apply calls_inspect_commands.
    + apply returns_bind; [apply returns_addInfoFor; safe_auto|]. intros ?. apply returns_inspect_commands.
  - split.
    + unfold managerOCI_Inspect, inspect_instance, addInfoFor. calls_auto.
    + apply returns_bind; [apply returns_addInfoFor; safe_auto|]. intros ?.
      apply returns_bind; [apply returns_try; safe_auto|]. intros ?. apply returns_ret.
  - split; [unfold managerOVN_Inspect, addInfoFor; calls_auto|].
    exact (managerOVN_Inspect_panics
      {| mo_lxcClient := c; mo_clusterName := om_Name (cl_Meta cluster);
         mo_clusterNamespace := om_Namespace (cl_Meta cluster); mo_networkName := ovn_NetworkName l;
         mo_listenAddress := ep_Host (cs_ControlPlaneEndpoint (lc_Spec lxcCluster)) |} ctx s).
  - destruct (lb_External _) as [[]|]; [split; [apply calls_only_ret|apply returns_ret]|].
    destruct (lb_KubeVIP _) as [l|]; [|split; [apply calls_only_ret|apply returns_ret]]. split.
    + apply (calls_managerKubeVIP_Inspect {| mk_lxcClient := c |}).
    + apply returns_bind; [apply returns_try; unfold ListInstances; safe_auto|].
      intros [|]; [apply returns_ret|apply returns_inspect_instances].
Qed.

End inspect.

(** ** Runs on the sample server *)

#[local] Instance sample_templates : TextTemplate := {| render_other := λ _ _, inl (errorString "template") |}.
#[local] Instance sample_printer : Printer :=
  {| GoSyntax := λ _, "&api"; yaml_Marshal := λ _, inr "name: x" |}.
#[local] Existing Instance sample_env.

(** A cluster with one control plane instance, and its load balancer. *)
Definition sample_cluster_world : sample_world :=
  set_instances (λ _, {[ "cp-1" := {| sm_state := running_state "10.0.0.4";
                                      sm_config := cluster_config "c1" "default" "control-plane" |};
                         "w-1" := {| sm_state := running_state "10.0.0.3";
                                     sm_config := cluster_config "c1" "default" "worker" |} ]}) sample_empty.

Definition sample_managerInstance : managerInstance :=
  {| mi_lxcClient := sample_client; mi_clusterName := "c1"; mi_clusterNamespace := "default"; mi_name := "c1-lb";
     mi_spec := {| lbs_Flavor := ""; lbs_Profiles := []; lbs_Image := zeroImageSource; lbs_Target := "" |};
     mi_customHAProxyConfigTemplate := "" |}.

Lemma haproxy_Reconfigure_refines_witness :
  ∃ evs, evs ≠ [] ∧ haproxy_reconfigured sample_managerInstance "/etc/haproxy/haproxy.cfg"
           ["systemctl"; "reload"; "haproxy.service"] evs.
Proof.
  destruct (haproxy_Reconfigure_refines sample_managerInstance None (sample_state sample_cluster_world)
    (managerLXC_Reconfigure sample_managerInstance None (sample_state sample_cluster_world)).2) as [H _].
  destruct H as (evs & _ & Hr); [apply run_outcome; vm_compute; reflexivity|]. exists evs. split; [|exact Hr].
  destruct Hr as (? & ? & ? & ? & ? & ? & -> & _). discriminate.
Defined.

(** The file written there has the control plane instance and nothing else. *)
Example sample_haproxy_file :
  match sw_files (st_world (managerLXC_Reconfigure sample_managerInstance None (sample_state sample_cluster_world)).2) with
  | [(name, path, args)] =>
      name = "c1-lb" ∧ path = "/etc/haproxy/haproxy.cfg" ∧
      HasSuffix (fa_Content args)
        ("  option httpchk GET /healthz" +s+ newline +s+ "  " +s+ newline +s+
         "  server cp-1 10.0.0.4:6443 weight 100 check check-ssl verify none" +s+ newline) = true
  | _ => False
  end.
Proof. vm_compute. auto. Qed.

Definition sample_managerOVN : managerOVNData :=
  {| mo_lxcClient := {| cli_Conn := sample_conn;
                        cli_serverInfo := {| si_Server := "incus"; si_Driver := "lxc"; si_Architectures := [];
                          si_ServerClustered := false;
                          si_APIExtensions := ["network_load_balancer"; "network_load_balancer_health_check"] |} |};
     mo_clusterName := "c1"; mo_clusterNamespace := "default"; mo_networkName := "ovn0";
     mo_listenAddress := "10.100.0.1" |}.

Lemma managerOVN_Reconfigure_refines_witness :
  ∃ put, nlb_Ports put = [{| po_ListenPort := "6443"; po_Protocol := "tcp";
                             po_TargetBackend := map be_Name (nlb_Backends put) |}].
Proof.
  destruct (managerOVN_Reconfigure_refines sample_managerOVN None (sample_state sample_cluster_world)
    (managerOVN_Reconfigure sample_managerOVN None (sample_state sample_cluster_world)).2
    (run_outcome _ _ _ ltac:(vm_compute; reflexivity))) as (all & put & _ & _ & Hp & _).
  exists put. exact Hp.
Defined.

(** The address is taken by the load balancer of another cluster. *)
Definition foreign_balancer : NetworkLoadBalancerPut :=
  {| nlb_Config := {[ "user.cluster-name" := "other" ]}; nlb_Backends := []; nlb_Ports := [] |}.

Definition taken_world : sample_world := set_balancers <["10.100.0.1" := foreign_balancer]> sample_cluster_world.

Lemma managerOVN_Create_conflict_witness :
  ∃ e s', managerOVN_Create sample_managerOVN None (sample_state taken_world) = (Err e, s') ∧
          IsTerminalError e = true ∧ grows no_incus_write (sample_state taken_world) s'.
Proof.
  apply (managerOVN_Create_conflict sample_managerOVN None (sample_state taken_world)
           {[ "ovn.ingress_mode" := "" ]} {[ "user.cluster-name" := "other" ]} taken_world taken_world);
    [discriminate|vm_compute; reflexivity|reflexivity|reflexivity|vm_compute; discriminate|discriminate|discriminate].
Defined.

(** Whose load balancer is at the address is only looked at by Create. Here it is
    not the cluster's: Create fails for good, and when the cluster is deleted
    then, the load balancer is deleted with it. *)
Example deletes_foreign_balancer :
  let created := managerOVN_Create sample_managerOVN None (sample_state taken_world) in
  let deleted := managerOVN_Delete sample_managerOVN None created.2 in
  match created.1 with Err e => IsTerminalError e = true | _ => False end ∧
  sw_balancers (st_world created.2) !! "10.100.0.1" = Some foreign_balancer ∧
  deleted.1 = Ok tt ∧ sw_balancers (st_world deleted.2) !! "10.100.0.1" = None.
Proof. vm_compute. auto. Qed.

Definition sample_lxcCluster : LXCCluster :=
  {| lc_Meta := {| om_Name := "c1"; om_Namespace := "default"; om_Labels := ∅;
                   om_Finalizers := [ClusterFinalizer]; om_DeletionTimestamp := None |};
     lc_Spec := {| cs_ControlPlaneEndpoint := {| ep_Host := ""; ep_Port := 0 |}; cs_SecretRef := {| sr_Name := "incus-secret" |};
                   cs_LoadBalancer := {| lb_LXC := Some {| lbi_InstanceSpec := mi_spec sample_managerInstance;
                                                           lbi_CustomHAProxyConfigTemplate := "" |};
                                         lb_OCI := None; lb_OVN := None; lb_KubeVIP := None; lb_External := None |};
                   cs_Unprivileged := false; cs_SkipDefaultKubeadmProfile := false |};
     lc_Status := {| cst_Ready := false; cst_Conditions := []; cst_V1Beta2 := None |} |}.

Definition sample_cluster : Cluster :=
  {| cl_Meta := mkMeta "c1" "default"; cl_InfrastructureRef := Some "c1"; cl_PodCIDRs := None;
     cl_InfrastructureReady := false; cl_Conditions := [] |}.

Lemma ManagerForCluster_contract_witness :
  ManagerSpec (cluster_lb_footprint sample_lxcCluster sample_client)
    (ManagerForCluster sample_cluster sample_lxcCluster sample_client).
Proof. apply (ManagerForCluster_contract sample_cluster sample_lxcCluster sample_client). Defined.
