(* ===== verification/Capi.v ===== *)
(** * Cluster API and controller-runtime, as the controllers use them

    The helpers of Cluster API (conditions, finalizers, machine roles) and of
    apimachinery are libraries: they are the operations of the class
    [ClusterAPI], with what their documentation promises as laws. *)

From S2P Require Import Prelude GoStrings Go Api World Client.

(** [ctrl.Result]; the delay is in milliseconds. *)
Record Result := { RequeueAfter : Z }.
Definition noResult : Result := {| RequeueAfter := 0 |}.

Class ClusterAPI := {
  (** [util.IsControlPlaneMachine] *)
  IsControlPlaneMachine : Machine → bool;
  (** [apierrors.IsNotFound] *)
  IsNotFound : error → bool;
  (** [controllerutil.RemoveFinalizer], on the finalizers of an object *)
  RemoveFinalizer : list string → string → list string;
  (** [conditions.Get], [conditions.Set] and [conditions.SetSummary] with
      [WithConditions] and [WithStepCounterIf], on the conditions of an object *)
  getCondition : list Condition → string → option Condition;
  setCondition : list Condition → Condition → list Condition;
  SetSummary : list string → bool → list Condition → list Condition;
  RemoveFinalizer_spec : ∀ l f g, g ∈ RemoveFinalizer l f ↔ g ∈ l ∧ g ≠ f;
  get_setCondition : ∀ conds c t,
    getCondition (setCondition conds c) t = if decide (t = co_Type c) then Some c else getCondition conds t;
  get_SetSummary : ∀ owned counter conds t,
    t ≠ ReadyCondition → getCondition (SetSummary owned counter conds) t = getCondition conds t
}.

Section conditions.
Context `{ClusterAPI}.

(** [conditions.IsTrue] *)
Definition IsTrue (conds : list Condition) (t : string) : bool :=
  match getCondition conds t with
  | Some c => bool_decide (co_Status c = ConditionTrue)
  | None => false
  end.

Definition TrueCondition (t : string) : Condition :=
  {| co_Type := t; co_Status := ConditionTrue; co_Severity := SeverityNone; co_Reason := ""; co_Message := "" |}.

Definition FalseCondition (t reason : string) (severity : ConditionSeverity) (message : string) : Condition :=
  {| co_Type := t; co_Status := ConditionFalse; co_Severity := severity; co_Reason := reason; co_Message := message |}.

(** Some condition of one of these types has severity Error. *)
Definition has_error (types : list string) (conds : list Condition) : bool :=
  existsb (λ c, bool_decide (co_Type c ∈ types) && bool_decide (co_Severity c = SeverityError)) conds.

End conditions.

(** ** Machines of a cluster: internal/utils/machines.go *)

Section machines.
Context `{E : Env}.

Definition machine_key (m : Machine) : string := om_Namespace (mc_Meta m) +s+ "/" +s+ om_Name (mc_Meta m).

(** GetMachinesForCluster returns a list of machines that can be filtered or
    not; the collection is a map by namespace and name. *)
Definition GetMachinesForCluster (cluster : NamespacedName) (filters : list (Machine → bool)) :
    M state (gmap string Machine) :=
  let! ml := wrap "failed to list machines: "
               (kube (KListMachines (nn_Namespace cluster) {[ ClusterNameLabel := nn_Name cluster ]})) in
  let machines := list_to_map (map (λ m, (machine_key m, m)) (reverse ml)) : gmap string Machine in
  ret (filter (λ km, forallb (λ f : Machine → bool, f km.2) filters = true) machines).

End machines.

(** ** Pod network: internal/utils/pod_cidr.go *)

Definition ClusterFirstPodNetworkCIDR (c : Cluster) : string :=
  match cl_PodCIDRs c with
  | Some (Some (cidr :: _)) => cidr
  | _ => ""
  end.

(** ** A reference implementation of the library, to run the model *)

Definition ref_get (conds : list Condition) (t : string) : option Condition :=
  List.find (λ c, bool_decide (co_Type c = t)) conds.

Definition ref_set (conds : list Condition) (c : Condition) : list Condition :=
  c :: List.filter (λ c', negb (bool_decide (co_Type c' = co_Type c))) conds.

Lemma ref_get_set conds c t :
  ref_get (ref_set conds c) t = if decide (t = co_Type c) then Some c else ref_get conds t.
Proof.
  unfold ref_get, ref_set. simpl. case_bool_decide as Hc; [by rewrite decide_True|].
  rewrite decide_False by done. induction conds as [|d conds IH]; [done|]. simpl.
  case_bool_decide as Hd; simpl; [rewrite IH; case_bool_decide; [congruence|done]|].
  by rewrite IH.
Qed.

Definition reference_capi : ClusterAPI.
Proof.
  refine {| IsControlPlaneMachine := λ m, bool_decide (is_Some (om_Labels (mc_Meta m) !! "cluster.x-k8s.io/control-plane"));
            IsNotFound := λ e, Contains (Error e) "not found";
            RemoveFinalizer := λ l f, filter (λ g, g ≠ f) l;
            getCondition := ref_get;
            setCondition := ref_set;
            SetSummary := λ owned counter conds,
              ref_set conds (if existsb (λ c, bool_decide (co_Type c ∈ owned) && bool_decide (co_Status c = ConditionFalse)) conds
                             then FalseCondition ReadyCondition "NotReady" SeverityInfo ""
                             else TrueCondition ReadyCondition) |}.
  - intros l f g. rewrite list_elem_of_filter. tauto.
  - apply ref_get_set.
  - intros owned counter conds t Ht. rewrite ref_get_set, decide_False; [done|].
    by destruct (existsb _ _).
Defined.
