(* ===== verification/LXCCluster.v ===== *)
(** * The LXCCluster controller: internal/controller/lxccluster

    A handler gets the object it reconciles and gives it back as it left it,
    with the error it returns: the object is patched in either case. *)

From S2P Require Import Prelude GoStrings Go Api World Images Launch Instances Template Sample Client Config LoadBalancer Capi.

Module LXCClusterController.

(** ** Updates of the object *)

Definition set_conditions (f : list Condition → list Condition) (c : LXCCluster) : LXCCluster :=
  LXCCluster_SetConditions c (f (LXCCluster_GetConditions c)).

Definition set_endpoint (ep : APIEndpoint) (c : LXCCluster) : LXCCluster :=
  {| lc_Meta := lc_Meta c;
     lc_Spec := {| cs_ControlPlaneEndpoint := ep; cs_SecretRef := cs_SecretRef (lc_Spec c);
                   cs_LoadBalancer := cs_LoadBalancer (lc_Spec c); cs_Unprivileged := cs_Unprivileged (lc_Spec c);
                   cs_SkipDefaultKubeadmProfile := cs_SkipDefaultKubeadmProfile (lc_Spec c) |};
     lc_Status := lc_Status c |}.

Definition set_ready (ready : bool) (c : LXCCluster) : LXCCluster :=
  LXCCluster_with_status c
    {| cst_Ready := ready; cst_Conditions := cst_Conditions (lc_Status c); cst_V1Beta2 := cst_V1Beta2 (lc_Status c) |}.

Definition set_finalizers (fs : list string) (c : LXCCluster) : LXCCluster :=
  {| lc_Meta := {| om_Name := om_Name (lc_Meta c); om_Namespace := om_Namespace (lc_Meta c);
                   om_Labels := om_Labels (lc_Meta c); om_Finalizers := fs;
                   om_DeletionTimestamp := om_DeletionTimestamp (lc_Meta c) |};
     lc_Spec := lc_Spec c; lc_Status := lc_Status c |}.

Definition is_deleted (m : ObjectMeta) : bool :=
  match om_DeletionTimestamp m with Some _ => true | None => false end.

Definition key_of (m : ObjectMeta) : NamespacedName := {| nn_Namespace := om_Namespace m; nn_Name := om_Name m |}.

Section controller.
Context `{MapRange} `{TextTemplate} `{Printer} `{CliPaths} `{ClusterAPI} `{E : Env}.

Definition MarkTrue (c : LXCCluster) (t : string) : LXCCluster :=
  set_conditions (λ conds, setCondition conds (TrueCondition t)) c.

Definition MarkFalse (c : LXCCluster) (t reason : string) (severity : ConditionSeverity) (message : string) : LXCCluster :=
  set_conditions (λ conds, setCondition conds (FalseCondition t reason severity message)) c.

(** ** patchLXCCluster: controller_util.go

    The summary is set on the object that is patched, and stays in it. *)
Definition infraConditions : list string := [LoadBalancerAvailableCondition].

Definition summarize (c : LXCCluster) : LXCCluster :=
  let hasInfraConditionError := has_error infraConditions (LXCCluster_GetConditions c) in
  set_conditions (SetSummary infraConditions (negb (is_deleted (lc_Meta c)) && negb hasInfraConditionError)) c.

Definition patchLXCCluster (c : LXCCluster) : M state unit :=
  kube (KPatchCluster (summarize c) (infraConditions ++ [ReadyCondition])).

(** ** reconcileNormal: controller_normal.go *)

(** Surface the control plane endpoint. *)
Definition surface_endpoint (ep : APIEndpoint) (lbIP : string) : APIEndpoint :=
  {| ep_Host := if decide (ep_Host ep = "") then lbIP else ep_Host ep;
     ep_Port := if decide (ep_Port ep = 0%Z) then 6443%Z else ep_Port ep |}.

Definition reconcileNormal (ctx : context) (cluster : Cluster) (lxcCluster : LXCCluster) (lxcClient : Client) :
    M state (LXCCluster * option error) :=
  let! created := try (Create (ManagerForCluster cluster lxcCluster lxcClient) ctx) in
  match created with
  | inl err =>
      if IsTerminalError err then
        ret (MarkFalse lxcCluster LoadBalancerAvailableCondition LoadBalancerProvisioningAbortedReason SeverityError
               ("The cluster load balancer could not be provisioned. The error was: " +s+ Error err), None)
      else
        ret (MarkFalse lxcCluster LoadBalancerAvailableCondition LoadBalancerProvisioningFailedReason SeverityWarning
               (Error err), Some err)
  | inr lbIPs =>
      let ep := cs_ControlPlaneEndpoint (lc_Spec lxcCluster) in
      let! ep := (if decide (ep_Host ep = "") then
                    match lbIPs with
                    | ip :: _ => ret (surface_endpoint ep ip)
                    | [] => panic "index out of range [0] with length 0"
                    end
                  else ret (surface_endpoint ep "")) in
      ret (MarkTrue (set_ready true (set_endpoint ep lxcCluster)) LoadBalancerAvailableCondition, None)
  end.

(** ** reconcileDelete: controller_delete.go *)

Definition reconcileDelete (ctx : context) (cluster : Cluster) (lxcCluster : LXCCluster) (lxcClient : Client) :
    M state (LXCCluster * (error + Result)) :=
  let! helper := try (kube (KNewClusterPatchHelper lxcCluster)) in
  match helper with
  | inl err => ret (lxcCluster, inl err)
  | inr _ =>
      let lxcCluster := MarkFalse lxcCluster LoadBalancerAvailableCondition DeletingReason SeverityInfo "" in
      let! patched := try (patchLXCCluster lxcCluster) in
      match patched with
      | inl err => ret (summarize lxcCluster, inl (Errorf_w "failed to patch LXCCluster: " err))
      | inr _ =>
          let lxcCluster := summarize lxcCluster in
          let! deleted := try (Delete (ManagerForCluster cluster lxcCluster lxcClient) ctx) in
          match deleted with
          | inl err => ret (lxcCluster, inl (Errorf_w "failed to delete the load balancer instance: " err))
          | inr _ =>
              let! machines := try (GetMachinesForCluster (key_of (cl_Meta cluster)) []) in
              let remaining := match machines with inr ms => (0 <? size ms)%nat | inl _ => false end in
              if remaining then ret (lxcCluster, inr {| RequeueAfter := 5000 |})
              else ret (set_finalizers (RemoveFinalizer (om_Finalizers (lc_Meta lxcCluster)) ClusterFinalizer) lxcCluster,
                        inr noResult)
          end
      end
  end.

(** ** Reconcile: controller.go *)

(** The deferred patch after a handler: its error is only returned when the
    handler returned none. *)
Definition finish (lxcCluster : LXCCluster) (result : error + Result) : M state Result :=
  let! patched := try (patchLXCCluster lxcCluster) in
  match result, patched with
  | inl err, _ => throw err
  | inr _, inl err => throw err
  | inr res, inr _ => ret res
  end.

(** From the patch helper on. *)
Definition reconcile_patched (ctx : context) (cluster : Cluster) (lxcCluster : LXCCluster) (lxcClient : Client) :
    M state Result :=
  kube (KNewClusterPatchHelper lxcCluster) ;;
  if is_deleted (lc_Meta lxcCluster) then
    let! r := reconcileDelete ctx cluster lxcCluster lxcClient in
    finish r.1 r.2
  else
    let! r := reconcileNormal ctx cluster lxcCluster lxcClient in
    finish r.1 (match r.2 with Some err => inl err | None => inr noResult end).

(** From the finalizer on. *)
Definition reconcile_ensured (ctx : context) (cluster : Cluster) (lxcCluster : LXCCluster) (lxcClient : Client) :
    M state Result :=
  let! ensured := kube (KEnsureClusterFinalizer lxcCluster ClusterFinalizer) in
  let (finalizerAdded, lxcCluster) := ensured : bool * LXCCluster in
  if finalizerAdded then ret noResult
  else
    let! paused := kube (KEnsureClusterPaused cluster lxcCluster) in
    let '(isPaused, conditionChanged, lxcCluster) := paused : bool * bool * LXCCluster in
    if isPaused || conditionChanged then ret noResult
    else reconcile_patched ctx cluster lxcCluster lxcClient.

Definition Reconcile (ctx : context) (req : NamespacedName) : M state Result :=
  let! got := try (kube (KGetLXCCluster req)) in
  match got with
  | inl err => if IsNotFound err then ret noResult else throw err
  | inr lxcCluster =>
      let! owner := kube (KGetOwnerCluster (lc_Meta lxcCluster)) in
      match owner with
      | None => ret noResult
      | Some cluster =>
          let! lxcSecret := wrap "failed to fetch LXC credentials: "
                              (kube (KGetSecret (GetLXCSecretNamespacedName lxcCluster))) in
          let! lxcClient := wrap "failed to create incus client: "
                              (New (ConfigurationFromKubernetesSecret lxcSecret)) in
          reconcile_ensured ctx cluster lxcCluster lxcClient
      end
  end.

End controller.

(** ** Properties *)

Section properties.
Context `{MapRange} `{TextTemplate} `{Printer} `{CliPaths} `{ClusterAPI} `{E : Env}.

Definition condition_of (c : LXCCluster) (t : string) : option Condition :=
  getCondition (LXCCluster_GetConditions c) t.

Lemma conditions_set f c : LXCCluster_GetConditions (set_conditions f c) = f (LXCCluster_GetConditions c).
Proof. done. Qed.

Lemma condition_MarkFalse c t reason severity message :
  condition_of (MarkFalse c t reason severity message) t = Some (FalseCondition t reason severity message).
Proof. unfold condition_of, MarkFalse. rewrite conditions_set. by rewrite get_setCondition, decide_True. Qed.

Lemma condition_MarkTrue c t : condition_of (MarkTrue c t) t = Some (TrueCondition t).
Proof. unfold condition_of, MarkTrue. rewrite conditions_set. by rewrite get_setCondition, decide_True. Qed.

Lemma condition_summarize c t : t ≠ ReadyCondition → condition_of (summarize c) t = condition_of c t.
Proof. intros Ht. unfold condition_of, summarize. cbv zeta. rewrite conditions_set. by rewrite get_SetSummary. Qed.

(** The cluster is ready, with its metadata unchanged: the load balancer is available, and the endpoint has
    the host that was configured, or the first address of the load balancer,
    and a port. *)
Definition made_ready (before after : LXCCluster) : Prop :=
  lc_Meta after = lc_Meta before ∧ cst_Ready (lc_Status after) = true ∧
  condition_of after LoadBalancerAvailableCondition = Some (TrueCondition LoadBalancerAvailableCondition) ∧
  let ep := cs_ControlPlaneEndpoint (lc_Spec before) in
  let ep' := cs_ControlPlaneEndpoint (lc_Spec after) in
  (ep_Host ep ≠ "" → ep_Host ep' = ep_Host ep) ∧
  (ep_Port ep ≠ 0%Z → ep_Port ep' = ep_Port ep) ∧ (ep_Port ep = 0%Z → ep_Port ep' = 6443%Z).

(** The load balancer could not be created: nothing but its condition changes,
    and the error is returned (so that the cluster is retried) unless it is
    terminal, which the severity of the condition shows. *)
Definition create_failed (before after : LXCCluster) (err : error) (e : option error) : Prop :=
  lc_Meta after = lc_Meta before ∧ lc_Spec after = lc_Spec before ∧
  cst_Ready (lc_Status after) = cst_Ready (lc_Status before) ∧
  if IsTerminalError err then
    e = None ∧ ∃ message, condition_of after LoadBalancerAvailableCondition =
      Some (FalseCondition LoadBalancerAvailableCondition LoadBalancerProvisioningAbortedReason SeverityError message)
  else
    e = Some err ∧ ∃ message, condition_of after LoadBalancerAvailableCondition =
      Some (FalseCondition LoadBalancerAvailableCondition LoadBalancerProvisioningFailedReason SeverityWarning message).

Lemma reconcileNormal_wp `{!EnvTime E} ctx cluster c client s :
  wp (reconcileNormal ctx cluster c client) (λ o s',
    match o with
    | Ok (c', e) =>
        match Create (ManagerForCluster cluster c client) ctx s with
        | (Ok addrs, s'') => s' = s'' ∧ e = None ∧ made_ready c c' ∧
            (ep_Host (cs_ControlPlaneEndpoint (lc_Spec c)) = "" →
             head addrs = Some (ep_Host (cs_ControlPlaneEndpoint (lc_Spec c'))))
        | (Err err, s'') => s' = s'' ∧ create_failed c c' err e
        | _ => False
        end
    | _ => False
    end) s.
Proof.
  unfold reconcileNormal. do 2 wp_step.
  pose proof (Create_ends (ManagerSpec := ManagerForCluster_spec cluster c client) ctx s) as Hc.
  unfold wp in *. destruct (Create _ ctx s) as [[addrs|err|msg|] s'']; try done; cbn beta iota.
  - unfold bind. case_decide as Hh.
    + destruct addrs as [|ip addrs]; [done|]. simpl. unfold made_ready. rewrite condition_MarkTrue. simpl.
      rewrite decide_True by done. split_and!; try done.
      * intros ?. by rewrite decide_False.
      * intros ?. by rewrite decide_True.
    + simpl. unfold made_ready. rewrite condition_MarkTrue. simpl. rewrite decide_False by done.
      split_and!; try done.
      * intros ?. by rewrite decide_False.
      * intros ?. by rewrite decide_True.
  - unfold create_failed. destruct (IsTerminalError err) eqn:Ht; unfold ret; rewrite condition_MarkFalse; eauto 10.
Qed.

(** C8: Reconciling a cluster ends without a panic in one of two ways. Either
    the load balancer was created, and the cluster is ready with an endpoint:
    the configured host, or the first address of the load balancer, and the
    configured port, or 6443. Or creating it failed: the
    specification and the readiness of the cluster are left as they were (a
    cluster that was ready stays marked ready), and the failure is returned
    for a retry exactly when it is not terminal. *)
Theorem cluster_reconcileNormal_outcome `{!EnvTime E} (ctx : context) (cluster : Cluster) (c : LXCCluster)
    (client : Client) (s : state) :
  ∃ c' e s', reconcileNormal ctx cluster c client s = (Ok (c', e), s') ∧
    ((∃ addrs, Create (ManagerForCluster cluster c client) ctx s = (Ok addrs, s') ∧
               e = None ∧ made_ready c c' ∧
               (ep_Host (cs_ControlPlaneEndpoint (lc_Spec c)) = "" →
                head addrs = Some (ep_Host (cs_ControlPlaneEndpoint (lc_Spec c'))))) ∨
     (∃ err, Create (ManagerForCluster cluster c client) ctx s = (Err err, s') ∧ create_failed c c' err e)).
Proof.
  pose proof (reconcileNormal_wp ctx cluster c client s) as Hw. unfold wp in Hw.
  destruct (reconcileNormal ctx cluster c client s) as [[[c' e]|?|?|] s']; try done.
  exists c', e, s'. split; [done|]. destruct (Create _ ctx s) as [[addrs|err|?|] s'']; try done.
  - destruct Hw as (-> & ?). left. eauto.
  - destruct Hw as (-> & ?). right. eauto.
Qed.

(** ** Deletion *)

(** The machines of the cluster were asked for. *)
Definition machines_call (cluster : Cluster) : call (list Machine) :=
  CKube (KListMachines (om_Namespace (cl_Meta cluster)) {[ ClusterNameLabel := om_Name (cl_Meta cluster) ]}).

Lemma traces_GetMachinesForCluster cluster :
  traces (GetMachinesForCluster (key_of (cl_Meta cluster)) []) (λ o evs,
    match o with
    | Ok ms => ∃ ml, evs = [answered (machines_call cluster) (inr ml)] ∧ (size ms = 0%nat ↔ ml = [])
    | Err _ => ∃ err, evs = [answered (machines_call cluster) (inl err)]
    | _ => False
    end).
Proof.
  unfold GetMachinesForCluster. tr_steps; [by exists e|]. exists l. split; [done|]. simpl.
  rewrite map_filter_id by (intros; done). split; [|by intros ->].
  intros Hs%map_size_empty_inv. destruct l as [|m l]; [done|]. exfalso.
  assert (∀ l', list_to_map (map (λ m, (machine_key m, m)) l') =@{gmap string Machine} ∅ → l' = []) as Hl.
  { intros [|m' l'] He; [done|]. simpl in He. by apply insert_non_empty in He. }
  apply Hl in Hs. apply (f_equal length) in Hs. rewrite length_reverse in Hs. done.
Qed.

(** What [reconcileDelete] guarantees of the object it leaves and of the calls
    it made. Either the finalizers stay, and the cluster is looked at again
    (after 5 seconds while machines remain, or with an error); or the finalizer
    goes, after the load balancer was deleted, once the list of the machines
    of the cluster was empty or could not be had. *)
Definition delete_outcome (ctx : context) (cluster : Cluster) (client : Client) (c c' : LXCCluster)
    (r : error + Result) (evs : list event) : Prop :=
  lc_Spec c' = lc_Spec c ∧ cst_Ready (lc_Status c') = cst_Ready (lc_Status c) ∧
  ((lc_Meta c' = lc_Meta c ∧ (∃ err, r = inl err)) ∨
   ∃ obj evs1 evs2 answer,
     evs = evs1 ++ evs2 ++ [answered (machines_call cluster) answer] ∧
     Forall no_incus evs1 ∧ lc_Meta obj = lc_Meta c ∧ lc_Spec obj = lc_Spec c ∧
     ran (Delete (ManagerForCluster cluster obj client) ctx) (Ok tt) evs2 ∧
     match answer with
     | inr (_ :: _) => lc_Meta c' = lc_Meta c ∧ r = inr {| RequeueAfter := 5000 |}
     | inr [] | inl _ =>
         r = inr noResult ∧
         lc_Meta c' = lc_Meta (set_finalizers (RemoveFinalizer (om_Finalizers (lc_Meta c)) ClusterFinalizer) c)
     end).

Lemma traces_reconcileDelete `{!EnvTime E} ctx cluster c client :
  traces (reconcileDelete ctx cluster c client) (λ o evs,
    match o with
    | Ok (c', r) => delete_outcome ctx cluster client c c' r evs
    | _ => False
    end).
Proof.
  unfold reconcileDelete, patchLXCCluster. do 2 tr_step. tr_step; [by tr_step; split_and!; eauto|].
  set (c1 := MarkFalse _ _ _ _ _). do 2 tr_step. tr_step; [by tr_step; split_and!; eauto|]. do 2 tr_step.
  set (obj := summarize c1).
  pose proof (ManagerForCluster_spec cluster obj client) as Hspec.
  eapply traces_mono.
  { apply traces_and; [apply (traces_ran (cluster_lb_footprint obj client)), Delete_calls|].
    eapply traces_safe; [apply Delete_calls|apply Delete_safe]. }
  intros [[]|err|msg|] evs [[Hran Hf] Hs]; try done; [|by tr_step; split_and!; eauto].
  do 2 tr_step. eapply traces_mono; [apply traces_GetMachinesForCluster|].
  intros [ms|err|msg|] evs' Hm; try done.
  - destruct Hm as (ml & -> & Hsz). destruct (0 <? size ms)%nat eqn:Hlt; tr_step; split_and!; try done; right;
      eexists obj, [_; _], evs, (inr ml); (split_and!; [done|by repeat constructor|done|done|done|]).
    + apply Nat.ltb_lt in Hlt. destruct ml; [destruct Hsz as [_ Hsz]; specialize (Hsz eq_refl); lia|done].
    + apply Nat.ltb_ge in Hlt. assert (size ms = 0)%nat as Hz by lia. apply Hsz in Hz as ->. done.
  - destruct Hm as (e & ->). tr_step. split_and!; try done. right.
    eexists obj, [_; _], evs, (inl e). split_and!; [done|by repeat constructor|done..].
Qed.

(** C6: Deleting a cluster removes its finalizer only after the load balancer
    was deleted and the machines of the cluster were asked for after that,
    when the list is empty or the request for it failed; while machines
    remain, the finalizers stay and the cluster is looked at again
    after 5 seconds; when anything before the list fails, the finalizers stay
    and the error is returned. No Incus call precedes the deletion of the load
    balancer. *)
Theorem cluster_reconcileDelete_outcome `{!EnvTime E} (ctx : context) (cluster : Cluster) (c : LXCCluster)
    (client : Client) (s : state) :
  ∃ c' r s' evs, reconcileDelete ctx cluster c client s = (Ok (c', r), s') ∧
    st_log s' = st_log s ++ evs ∧ delete_outcome ctx cluster client c c' r evs.
Proof.
  destruct (traces_reconcileDelete ctx cluster c client s) as (evs & Hl & Ho).
  destruct (reconcileDelete ctx cluster c client s) as [[[c' r]|?|?|] s']; try done.
  by exists c', r, s', evs.
Qed.

(** ** The whole reconciliation *)

Definition patched_last (evs : list event) : Prop :=
  ∃ evs' obj r, evs = evs' ++ [answered (CKube (KPatchCluster obj (infraConditions ++ [ReadyCondition]))) r].

(** A run of Reconcile: first nothing is changed on the server; then, if the
    finalizer was found in place and the cluster is not paused, a handler runs
    and the object is patched at the end. *)
Definition guarded_run (evs : list event) : Prop :=
  ∃ evs1 evs2, evs = evs1 ++ evs2 ∧ Forall no_incus_write evs1 ∧
    (evs2 = [] ∨
     (∃ obj obj', answered (CKube (KEnsureClusterFinalizer obj ClusterFinalizer)) (inr (false, obj')) ∈ evs1 ∧
        ∃ cluster obj'', answered (CKube (KEnsureClusterPaused cluster obj')) (inr (false, false, obj'')) ∈ evs1) ∧
     patched_last evs2).

Lemma traces_finish evs c r :
  traces (finish c r) (λ o evs', match o with Ok _ | Err _ => patched_last (evs ++ evs') | _ => False end).
Proof.
  unfold finish, patchLXCCluster. tr_steps; eexists evs, _, _; reflexivity.
Qed.

Lemma traces_reconcileNormal `{!EnvTime E} ctx cluster c client :
  traces (reconcileNormal ctx cluster c client) (λ o _,
    match o with Ok (c', _) => lc_Meta c' = lc_Meta c | _ => False end).
Proof.
  intros s. pose proof (reconcileNormal_wp ctx cluster c client s) as Hw.
  assert (Hc : calls_only (λ _, True) (reconcileNormal ctx cluster c client)).
  { unfold reconcileNormal. calls_auto. eapply calls_only_mono; [|apply Create_calls]. done. }
  destruct (grows_log _ _ _ (Hc s)) as (evs & Hl & _). exists evs. split; [done|]. unfold wp in Hw.
  destruct (reconcileNormal ctx cluster c client s) as [[[c' e]|?|?|] s']; try done. simpl.
  destruct (Create _ ctx s) as [[addrs|err|?|] s'']; try done; [by destruct Hw as (_ & _ & [Hm _] & _)|by destruct Hw as (_ & Hm & _)].
Qed.

Lemma traces_handler `{!EnvTime E} ctx cluster c client :
  traces (if is_deleted (lc_Meta c) then
            let! r := reconcileDelete ctx cluster c client in finish r.1 r.2
          else let! r := reconcileNormal ctx cluster c client in
               finish r.1 (match r.2 with Some err => inl err | None => inr noResult end))
    (λ o evs, match o with Ok _ | Err _ => patched_last evs | _ => False end).
Proof.
  destruct (is_deleted _); tr_step.
  - eapply traces_mono; [apply traces_reconcileDelete|]. intros [[]|?|?|] evs Hd; try done. apply traces_finish.
  - eapply traces_mono; [apply traces_reconcileNormal|]. intros [[]|?|?|] evs Hd; try done. apply traces_finish.
Qed.

Lemma guarded_run_app pre evs : Forall no_incus_write pre → guarded_run evs → guarded_run (pre ++ evs).
Proof.
  intros Hp (evs1 & evs2 & -> & Hf & Hr). exists (pre ++ evs1), evs2. rewrite app_assoc, Forall_app.
  split_and!; [done|done|done|]. destruct Hr as [?|[(obj & obj' & ? & cluster & obj'' & ?) ?]]; [by left|].
  right. split; [|done]. exists obj, obj'. rewrite elem_of_app. split; [by right|].
  exists cluster, obj''. rewrite elem_of_app. by right.
Qed.

Lemma guarded_run_stop evs : Forall no_incus_write evs → guarded_run evs.
Proof. intros Hf. exists evs, []. rewrite app_nil_r. auto. Qed.

Lemma traces_reconcile_ensured `{!EnvTime E} ctx cluster c client :
  traces (reconcile_ensured ctx cluster c client) (λ o evs,
    match o with Ok _ | Err _ => guarded_run evs | _ => False end).
Proof.
  unfold reconcile_ensured, reconcile_patched.
  do 2 tr_step; [apply guarded_run_stop; by repeat constructor|]. destruct p as [[] obj']; cbn beta iota; [
    tr_step; apply guarded_run_stop; by repeat constructor|].
  do 2 tr_step; [apply guarded_run_stop; by repeat constructor|]. destruct p as [[[] []] obj''];
    cbn beta iota delta [orb]; try (tr_step; apply guarded_run_stop; by repeat constructor).
  do 2 tr_step; [apply guarded_run_stop; by repeat constructor|].
  eapply traces_mono; [apply traces_handler|].
  assert (∀ evs, patched_last evs → guarded_run ([answered (CKube (KEnsureClusterFinalizer c ClusterFinalizer)) (inr (false, obj'));
    answered (CKube (KEnsureClusterPaused cluster obj')) (inr (false, false, obj''));
    answered (CKube (KNewClusterPatchHelper obj'')) (inr u)] ++ evs)) as Hg.
  { intros evs Hp. eexists _, evs. split_and!; [done|by repeat constructor|]. right. split; [|done].
    exists c, obj'. rewrite !elem_of_cons. split; [by left|]. exists cluster, obj''. rewrite !elem_of_cons. tauto. }
  intros [?|?|?|] evs Hp; try done; by apply Hg.
Qed.


End properties.

End LXCClusterController.

(** ** Runs on the sample server *)

#[local] Existing Instance sample_env.
#[local] Existing Instance sample_templates.
#[local] Existing Instance sample_printer.
#[local] Existing Instance sample_paths.
#[local] Existing Instance reference_capi.

(** A cluster to reconcile, with its owner. *)
Definition sample_cluster_objects : sample_world :=
  {| sw_now := 0; sw_instances := ∅; sw_files := []; sw_balancers := ∅;
     sw_lxcCluster := Some sample_lxcCluster; sw_lxcMachine := None; sw_cluster := Some sample_cluster;
     sw_machine := None |}.

Definition sample_key : NamespacedName := {| nn_Namespace := "default"; nn_Name := "c1" |}.

(** Reconciling it launches the load balancer and makes it ready. *)
Example sample_cluster_ready :
  let r := LXCClusterController.Reconcile None sample_key (sample_state sample_cluster_objects) in
  r.1 = Ok noResult ∧
  match sw_lxcCluster (st_world r.2) with
  | Some c => cst_Ready (lc_Status c) = true ∧
              cs_ControlPlaneEndpoint (lc_Spec c) = {| ep_Host := "10.0.0.11"; ep_Port := 6443 |}
  | None => False
  end.
Proof. vm_compute. auto. Qed.

Lemma cluster_reconcileNormal_outcome_witness :
  ∃ c' e s', LXCClusterController.reconcileNormal None sample_cluster sample_lxcCluster sample_client
               (sample_state sample_cluster_objects) = (Ok (c', e), s').
Proof.
  destruct (LXCClusterController.cluster_reconcileNormal_outcome None sample_cluster sample_lxcCluster sample_client
    (sample_state sample_cluster_objects)) as (c' & e & s' & Hr & _).
  exists c', e, s'. exact Hr.
Defined.

Lemma cluster_reconcileDelete_outcome_witness :
  ∃ c' r evs, LXCClusterController.delete_outcome None sample_cluster sample_client sample_lxcCluster c' r evs.
Proof.
  destruct (LXCClusterController.cluster_reconcileDelete_outcome None sample_cluster sample_lxcCluster sample_client
    (sample_state sample_cluster_objects)) as (c' & r & s' & evs & _ & _ & Hd).
  exists c', r, evs. exact Hd.
Defined.

