(* ===== verification/LXCMachine.v ===== *)
(** * The LXCMachine controller: internal/controller/lxcmachine

    As for clusters, a handler gives back the object as it left it, with the
    result or the error it returns. *)

From S2P Require Import Prelude GoStrings Go Api World Images Launch Instances Template Sample Client Config LoadBalancer Capi.

Module LXCMachineController.

(** ** Updates of the object *)

Definition set_conditions (f : list Condition → list Condition) (m : LXCMachine) : LXCMachine :=
  LXCMachine_SetConditions m (f (LXCMachine_GetConditions m)).

Definition set_status (ready lbConfigured : bool) (addresses : list MachineAddress) (m : LXCMachine) : LXCMachine :=
  LXCMachine_with_status m
    {| mst_Ready := ready; mst_LoadBalancerConfigured := lbConfigured; mst_Addresses := addresses;
       mst_Conditions := mst_Conditions (lm_Status m); mst_V1Beta2 := mst_V1Beta2 (lm_Status m) |}.

Definition set_ready (ready : bool) (m : LXCMachine) : LXCMachine :=
  set_status ready (mst_LoadBalancerConfigured (lm_Status m)) (mst_Addresses (lm_Status m)) m.

Definition set_lb_configured (b : bool) (m : LXCMachine) : LXCMachine :=
  set_status (mst_Ready (lm_Status m)) b (mst_Addresses (lm_Status m)) m.

Definition set_provider_id (id : option string) (m : LXCMachine) : LXCMachine :=
  {| lm_Meta := lm_Meta m;
     lm_Spec := {| ms_ProviderID := id; ms_InstanceType := ms_InstanceType (lm_Spec m);
                   ms_Flavor := ms_Flavor (lm_Spec m); ms_Profiles := ms_Profiles (lm_Spec m);
                   ms_Devices := ms_Devices (lm_Spec m); ms_Config := ms_Config (lm_Spec m);
                   ms_Image := ms_Image (lm_Spec m); ms_Target := ms_Target (lm_Spec m) |};
     lm_Status := lm_Status m |}.

Definition set_finalizers (fs : list string) (m : LXCMachine) : LXCMachine :=
  {| lm_Meta := {| om_Name := om_Name (lm_Meta m); om_Namespace := om_Namespace (lm_Meta m);
                   om_Labels := om_Labels (lm_Meta m); om_Finalizers := fs;
                   om_DeletionTimestamp := om_DeletionTimestamp (lm_Meta m) |};
     lm_Spec := lm_Spec m; lm_Status := lm_Status m |}.

Definition is_deleted (m : ObjectMeta) : bool :=
  match om_DeletionTimestamp m with Some _ => true | None => false end.

(** The addresses of the machine: its name, and every address twice. *)
Definition setLXCMachineAddresses (m : LXCMachine) (addrs : list string) : LXCMachine :=
  set_status (mst_Ready (lm_Status m)) (mst_LoadBalancerConfigured (lm_Status m))
    ({| ma_Type := MachineHostName; ma_Address := GetInstanceName m |} ::
     flat_map (λ a, [{| ma_Type := MachineInternalIP; ma_Address := a |};
                     {| ma_Type := MachineExternalIP; ma_Address := a |}]) addrs) m.

Section controller.
Context `{MapRange} `{YAML} `{TextTemplate} `{Printer} `{CliPaths} `{ClusterAPI} `{E : Env}.

Definition MarkTrue (m : LXCMachine) (t : string) : LXCMachine :=
  set_conditions (λ conds, setCondition conds (TrueCondition t)) m.

Definition MarkFalse (m : LXCMachine) (t reason : string) (severity : ConditionSeverity) (message : string) : LXCMachine :=
  set_conditions (λ conds, setCondition conds (FalseCondition t reason severity message)) m.

(** ** patchLXCMachine, getBootstrapData: controller_util.go *)

Definition infraConditions : list string := [InstanceProvisionedCondition].

Definition summarize (m : LXCMachine) : LXCMachine :=
  let hasInfraConditionError := has_error infraConditions (LXCMachine_GetConditions m) in
  let counter := negb (is_deleted (lm_Meta m)) && bool_decide (ms_ProviderID (lm_Spec m) = None) &&
                 negb hasInfraConditionError in
  set_conditions (SetSummary infraConditions counter) m.

(** The summary is set on the object that is patched, and stays in it. *)
Definition patchLXCMachine (m : LXCMachine) : M state unit :=
  kube (KPatchMachine (summarize m) (infraConditions ++ [ReadyCondition])).

Definition getBootstrapData (namespace dataSecretName : string) : M state string :=
  let! s := wrap ("failed to retrieve bootstrap data secret " +s+ quote dataSecretName +s+ ": ")
              (kube (KGetSecret {| nn_Namespace := namespace; nn_Name := dataSecretName |})) in
  match sec_Data s !! "value" with
  | None => throw (errorString ("secret " +s+ quote dataSecretName +s+ " is missing value key"))
  | Some value => ret value
  end.

(** ** Launching: controller_util_launch.go, controller_util_launch_kind.go *)

Definition machine_version (machine : Machine) : string := default "" (mc_Version machine).

Definition machine_role (machine : Machine) : string :=
  if IsControlPlaneMachine machine then "control-plane" else "worker".

(** The image of the machine, with its Kubernetes version for VERSION. *)
Definition image_spec (lxcMachine : LXCMachine) (machine : Machine) : error + LXCMachineImageSource :=
  let imageSpec := ms_Image (lm_Spec lxcMachine) in
  if Contains (im_Name imageSpec) "VERSION" then
    if decide (machine_version machine = "") then
      inl (TerminalError (errorString ("image name " +s+ quote (im_Name imageSpec) +s+ " contains VERSION but Machine " +s+
             quote (om_Name (mc_Meta machine)) +s+ " does not have a Kubernetes version")))
    else
      inr {| im_Name := ReplaceAll (im_Name imageSpec) "VERSION" (machine_version machine);
             im_Fingerprint := im_Fingerprint imageSpec; im_Server := im_Server imageSpec;
             im_Protocol := im_Protocol imageSpec |}
  else inr imageSpec.

(** The image source: a parsed name, the image as specified, or the default
    image when nothing is specified. *)
Definition select_image (imageSpec : LXCMachineImageSource) (default_image : M state ImageFamily) :
    M state (option ImageFamily) :=
  if decide (im_Name imageSpec ≠ "") then
    match ParseImage (im_Name imageSpec) with
    | inl err => throw (Errorf_w ("failed to parse image " +s+ quote (im_Name imageSpec) +s+ ": ") err)
    | inr (Some parsed) => ret (Some parsed)
    | inr None => ret (spec_image imageSpec)
    end
  else if IsZero (Some imageSpec) then let! i := default_image in ret (Some i)
  else ret (spec_image imageSpec).

(** A default image, checked on its server; a terminal failure is explained. *)
Definition default_image (machine : Machine) (image : Image) (instanceType pre post : string) : M state ImageFamily :=
  if decide (machine_version machine = "") then
    throw (TerminalError (errorString ("no image source specified on LXCMachineTemplate and Machine " +s+
             quote (om_Name (mc_Meta machine)) +s+ " does not have a Kubernetes version")))
  else
    let! checked := try (Image_Check image instanceType) in
    match checked with
    | inl err => throw (if IsTerminalError err then wrapError (pre +s+ Error err +s+ post) err else err)
    | inr _ => ret (OfImage image)
    end.

Definition explanation : string :=
  ". Please consider using a different Kubernetes version, or build your own base image and set the image source on the LXCMachineTemplate resource".

(** The options every machine gets: its flavor, profiles, devices and
    configuration, the labels of the cluster, and the image. *)
Definition machine_options (cluster : Cluster) (machine : Machine) (lxcMachine : LXCMachine)
    (devices : gmap string (gmap string string)) (image : option ImageFamily) (launchOpts : LaunchOptions) : LaunchOptions :=
  let o := WithFlavor (ms_Flavor (lm_Spec lxcMachine)) launchOpts in
  let o := WithProfiles (ms_Profiles (lm_Spec lxcMachine)) o in
  let o := WithDevices (Some devices) o in
  let o := LO_WithConfig (ms_Config (lm_Spec lxcMachine)) o in
  let o := LO_WithConfig (Some {[ "user.cluster-name" := om_Name (cl_Meta cluster);
                                  "user.cluster-namespace" := om_Namespace (cl_Meta cluster);
                                  "user.machine-name" := om_Name (mc_Meta machine);
                                  "user.cluster-role" := machine_role machine ]}) o in
  WithImage image o.

(** Apply instance templates from the load balancer manager, and launch. *)
Definition launch_with_templates (ctx : context) (cluster : Cluster) (lxcCluster : LXCCluster) (machine : Machine)
    (lxcMachine : LXCMachine) (lxcClient : Client) (launchOpts : LaunchOptions) : M state (list string) :=
  let! launchOpts :=
    (if IsControlPlaneMachine machine then
       match ControlPlaneInstanceTemplates (ManagerForCluster cluster lxcCluster lxcClient)
               (IsTrue (cl_Conditions cluster) ControlPlaneInitializedCondition) with
       | inl err => throw (Errorf_w "failed to generate load balancer configuration files: " err)
       | inr files => ret (WithInstanceTemplates files launchOpts)
       end
     else ret launchOpts) in
  WaitForLaunchInstance (WithTarget lxcClient (ms_Target (lm_Spec lxcMachine))) ctx (GetInstanceName lxcMachine) launchOpts.

Definition invalid_devices (err : error) : error :=
  TerminalError (Errorf_w "invalid .spec.devices on LXCMachine: " err).

Definition launchKindInstance (ctx : context) (cluster : Cluster) (lxcCluster : LXCCluster) (machine : Machine)
    (lxcMachine : LXCMachine) (lxcClient : Client) (cloudInit : string) : M state (list string) :=
  match SupportsInstanceOCI lxcClient with
  | Some err => throw (TerminalError (Errorf_w "cannot launch kind instance as OCI containers are not supported: " err))
  | None =>
      match ToMap (ms_Devices (lm_Spec lxcMachine)) with
      | inl err => throw (invalid_devices err)
      | inr devices =>
          let! imageSpec := of_result (image_spec lxcMachine machine) in
          let! image := select_image imageSpec
            (default_image machine (KindestNodeImage (machine_version machine)) Container
               ("image not specified and could not find kindest/node:" +s+ machine_version machine +s+
                " image on DockerHub. The error was: ") explanation) in
          let! aptInstallCloudInit :=
            match lookup_opt (ms_Config (lm_Spec lxcMachine)) "user.capn.x-kind-apt-install-cloud-init" with
            | Some v =>
                match ParseBool v with
                | None => throw (TerminalError (Errorf_w ("failed to parse user.capn.x-kind-apt-install-cloud-init=" +s+
                            quote v +s+ " as boolean: ")
                            (errorString ("strconv.ParseBool: parsing " +s+ quote v +s+ ": invalid syntax"))))
                | Some b => ret b
                end
            | None => ret false
            end in
          let! launchOpts := wrap "failed to generate kind instance launch options: "
            (of_result (KindLaunchOptions
               {| din_KubernetesVersion := machine_version machine;
                  din_Privileged := negb (cs_Unprivileged (lc_Spec lxcCluster));
                  din_SkipProfile := cs_SkipDefaultKubeadmProfile (lc_Spec lxcCluster);
                  din_PodNetworkCIDR := ClusterFirstPodNetworkCIDR cluster;
                  din_CloudInit := cloudInit;
                  din_CloudInitAptInstall := aptInstallCloudInit |})) in
          launch_with_templates ctx cluster lxcCluster machine lxcMachine lxcClient
            (machine_options cluster machine lxcMachine devices image launchOpts)
      end
  end.

Definition launchInstance (ctx : context) (cluster : Cluster) (lxcCluster : LXCCluster) (machine : Machine)
    (lxcMachine : LXCMachine) (lxcClient : Client) (cloudInit : string) : M state (list string) :=
  if decide (ms_InstanceType (lm_Spec lxcMachine) = "kind") then
    launchKindInstance ctx cluster lxcCluster machine lxcMachine lxcClient cloudInit
  else
    let instanceType := if decide (ms_InstanceType (lm_Spec lxcMachine) = "") then Container
                        else ms_InstanceType (lm_Spec lxcMachine) in
    match ToMap (ms_Devices (lm_Spec lxcMachine)) with
    | inl err => throw (invalid_devices err)
    | inr devices =>
        let! imageSpec := of_result (image_spec lxcMachine machine) in
        let! image := select_image imageSpec
          (default_image machine (CapnImage ("kubeadm/" +s+ machine_version machine)) instanceType
             ("image not specified and default simplestreams server does not provide images for Kubernetes version " +s+
              quote (machine_version machine) +s+ ". The error was: ") explanation) in
        let launchOpts := KubeadmLaunchOptions
          {| kin_InstanceType := instanceType;
             kin_KubernetesVersion := machine_version machine;
             kin_Privileged := negb (cs_Unprivileged (lc_Spec lxcCluster));
             kin_SkipProfile := cs_SkipDefaultKubeadmProfile (lc_Spec lxcCluster);
             kin_SkipInstallKubeadmScript := false;
             kin_ServerName := GetServerName lxcClient;
             kin_CloudInit := cloudInit |} in
        launch_with_templates ctx cluster lxcCluster machine lxcMachine lxcClient
          (machine_options cluster machine lxcMachine devices image launchOpts)
    end.

(** ** reconcileNormal: controller_normal.go *)

(** The machine was provisioned before: check its instance. *)
Definition check_instance (lxcMachine : LXCMachine) (lxcClient : Client) : M state (LXCMachine * (error + Result)) :=
  let! st := try (incus (cli_Conn lxcClient) (GetInstanceState (GetInstanceName lxcMachine))) in
  match st with
  | inl err =>
      if Contains (Error err) "Instance not found" then
        ret (MarkFalse (set_ready false lxcMachine) InstanceProvisionedCondition InstanceDeletedReason SeverityError
               ("Instance " +s+ GetInstanceName lxcMachine +s+ " does not exist anymore"), inr noResult)
      else ret (lxcMachine, inl err)
  | inr st =>
      ret (setLXCMachineAddresses (MarkTrue (set_ready true lxcMachine) InstanceProvisionedCondition)
             (ParseHostAddresses (Some st)), inr noResult)
  end.

(** The outcome of a failed launch. *)
Definition launch_failed (lxcMachine : LXCMachine) (err : error) : LXCMachine * (error + Result) :=
  if IsTerminalError err then
    (MarkFalse lxcMachine InstanceProvisionedCondition InstanceProvisioningAbortedReason SeverityError
       ("Failed to create instance spec: " +s+ Error err), inr noResult)
  else if HasSuffix (Error err) "context deadline exceeded" then
    (MarkFalse lxcMachine InstanceProvisionedCondition CreatingInstanceReason SeverityWarning
       ("Instance creation still in progress: " +s+ Error err), inr {| RequeueAfter := 10000 |})
  else
    (MarkFalse lxcMachine InstanceProvisionedCondition InstanceProvisioningFailedReason SeverityWarning
       ("Failed to create instance: " +s+ Error err), inl (Errorf_w "failed to create instance: " err)).

(** After a successful launch: update the load balancer, and set the provider ID. *)
Definition finish_launch (ctx : context) (cluster : Cluster) (lxcCluster : LXCCluster) (machine : Machine)
    (lxcMachine : LXCMachine) (lxcClient : Client) : M state (LXCMachine * (error + Result)) :=
  let provisioned := λ m, (set_ready true (set_provider_id (Some (GetExpectedProviderID m)) m), inr noResult) in
  if IsControlPlaneMachine machine && negb (mst_LoadBalancerConfigured (lm_Status lxcMachine)) then
    let! r := try (Reconfigure (ManagerForCluster cluster lxcCluster lxcClient) ctx) in
    match r with
    | inl err => ret (lxcMachine, inl (Errorf_w "failed to update loadbalancer configuration: " err))
    | inr _ => ret (provisioned (set_lb_configured true lxcMachine))
    end
  else ret (provisioned lxcMachine).

Definition reconcileNormal (ctx : context) (cluster : Cluster) (lxcCluster : LXCCluster) (machine : Machine)
    (lxcMachine : LXCMachine) (lxcClient : Client) : M state (LXCMachine * (error + Result)) :=
  if negb (cl_InfrastructureReady cluster) then
    ret (MarkFalse lxcMachine InstanceProvisionedCondition WaitingForClusterInfrastructureReason SeverityInfo "", inr noResult)
  else
  match ms_ProviderID (lm_Spec lxcMachine) with
  | Some _ => check_instance lxcMachine lxcClient
  | None =>
      match mc_DataSecretName machine with
      | None =>
          if negb (IsControlPlaneMachine machine) &&
             negb (IsTrue (cl_Conditions cluster) ControlPlaneInitializedCondition) then
            ret (MarkFalse lxcMachine InstanceProvisionedCondition WaitingForControlPlaneAvailableReason SeverityInfo "",
                 inr noResult)
          else
            ret (MarkFalse lxcMachine InstanceProvisionedCondition WaitingForBootstrapDataReason SeverityInfo "",
                 inr noResult)
      | Some dataSecretName =>
          let! cloudInit := try (getBootstrapData (om_Namespace (lm_Meta lxcMachine)) dataSecretName) in
          match cloudInit with
          | inl err => ret (lxcMachine, inl (Errorf_w "failed to retrieve bootstrap data: " err))
          | inr cloudInit =>
              let! launched := try (launchInstance ctx cluster lxcCluster machine lxcMachine lxcClient cloudInit) in
              match launched with
              | inl err => ret (launch_failed lxcMachine err)
              | inr addresses =>
                  finish_launch ctx cluster lxcCluster machine
                    (MarkTrue (setLXCMachineAddresses lxcMachine addresses) InstanceProvisionedCondition) lxcClient
              end
          end
      end
  end.

(** ** reconcileDelete: controller_delete.go *)

(** After the instance is deleted: reconfigure the load balancer when a control
    plane machine leaves a cluster that stays, and remove the finalizer. *)
Definition finish_delete (ctx : context) (cluster : Cluster) (lxcCluster : LXCCluster) (machine : Machine)
    (lxcMachine : LXCMachine) (lxcClient : Client) : M state (LXCMachine * option error) :=
  let removed := set_finalizers (RemoveFinalizer (om_Finalizers (lm_Meta lxcMachine)) MachineFinalizer) lxcMachine in
  if IsControlPlaneMachine machine && negb (is_deleted (cl_Meta cluster)) then
    let! r := try (Reconfigure (ManagerForCluster cluster lxcCluster lxcClient) ctx) in
    match r with
    | inl err => ret (lxcMachine, Some (Errorf_w "failed to reconfigure load balancer after removing control plane node: " err))
    | inr _ => ret (removed, None)
    end
  else ret (removed, None).

Definition reconcileDelete (ctx : context) (cluster : Cluster) (lxcCluster : LXCCluster) (machine : Machine)
    (lxcMachine : LXCMachine) (lxcClient : Client) : M state (LXCMachine * option error) :=
  let! helper := try (kube (KNewMachinePatchHelper lxcMachine)) in
  match helper with
  | inl err => ret (lxcMachine, Some err)
  | inr _ =>
      let lxcMachine := MarkFalse lxcMachine InstanceProvisionedCondition DeletingReason SeverityInfo "" in
      let! patched := try (patchLXCMachine lxcMachine) in
      match patched with
      | inl err => ret (summarize lxcMachine, Some (Errorf_w "failed to patch LXCMachine: " err))
      | inr _ =>
          let lxcMachine := summarize lxcMachine in
          let! deleted := try (WaitForDeleteInstance lxcClient ctx (om_Name (lm_Meta lxcMachine))) in
          match deleted with
          | inl err => ret (lxcMachine, Some (Errorf_w "failed to delete the instance: " err))
          | inr _ => finish_delete ctx cluster lxcCluster machine lxcMachine lxcClient
          end
      end
  end.

(** ** Reconcile, LXCClusterToLXCMachines: controller.go *)

Definition finish (lxcMachine : LXCMachine) (result : error + Result) : M state Result :=
  let! patched := try (patchLXCMachine lxcMachine) in
  match result, patched with
  | inl err, _ => throw err
  | inr _, inl err => throw err
  | inr res, inr _ => ret res
  end.

(** From the finalizer on. *)
Definition reconcile_ensured (ctx : context) (cluster : Cluster) (lxcCluster : LXCCluster) (machine : Machine)
    (lxcMachine : LXCMachine) (lxcClient : Client) : M state Result :=
  let! ensured := kube (KEnsureMachineFinalizer lxcMachine MachineFinalizer) in
  let (finalizerAdded, lxcMachine) := ensured : bool * LXCMachine in
  if finalizerAdded then ret noResult
  else
    kube (KNewMachinePatchHelper lxcMachine) ;;
    if is_deleted (lm_Meta lxcMachine) then
      let! r := reconcileDelete ctx cluster lxcCluster machine lxcMachine lxcClient in
      finish r.1 (match r.2 with Some err => inl err | None => inr noResult end)
    else
      let! r := reconcileNormal ctx cluster lxcCluster machine lxcMachine lxcClient in
      finish r.1 r.2.

(** From the cluster on. *)
Definition reconcile_in_cluster (ctx : context) (cluster : Cluster) (machine : Machine) (lxcMachine : LXCMachine) :
    M state Result :=
  let! paused := kube (KEnsureMachinePaused cluster lxcMachine) in
  let '(isPaused, conditionChanged, lxcMachine) := paused : bool * bool * LXCMachine in
  if isPaused || conditionChanged then ret noResult
  else
  match cl_InfrastructureRef cluster with
  | None => ret noResult
  | Some ref =>
      let! got := try (kube (KGetLXCCluster {| nn_Namespace := om_Namespace (lm_Meta lxcMachine); nn_Name := ref |})) in
      match got with
      | inl _ => ret noResult
      | inr lxcCluster =>
          let! lxcSecret := wrap "failed to fetch LXC credentials: "
                              (kube (KGetSecret (GetLXCSecretNamespacedName lxcCluster))) in
          let! lxcClient := wrap "failed to create incus client: "
                              (New (ConfigurationFromKubernetesSecret lxcSecret)) in
          reconcile_ensured ctx cluster lxcCluster machine lxcMachine lxcClient
      end
  end.

Definition Reconcile (ctx : context) (req : NamespacedName) : M state Result :=
  let! got := try (kube (KGetLXCMachine req)) in
  match got with
  | inl err => if IsNotFound err then ret noResult else throw err
  | inr lxcMachine =>
      kube (KAddOwners lxcMachine) ;;
      let! owner := kube (KGetOwnerMachine (lm_Meta lxcMachine)) in
      match owner with
      | None => ret noResult
      | Some machine =>
          let! cluster := kube (KGetClusterFromMetadata (mc_Meta machine)) in
          match cluster with
          | None => ret noResult
          | Some cluster => reconcile_in_cluster ctx cluster machine lxcMachine
          end
      end
  end.

(** LXCClusterToLXCMachines maps a cluster to the machines to reconcile. *)
Definition LXCClusterToLXCMachines (c : LXCCluster) : M state (list NamespacedName) :=
  let! owner := try (kube (KGetOwnerCluster (lc_Meta c))) in
  match owner with
  | inl _ | inr None => ret []
  | inr (Some cluster) =>
      let! machines := try (kube (KListMachines (om_Namespace (lc_Meta c)) {[ ClusterNameLabel := om_Name (cl_Meta cluster) ]})) in
      match machines with
      | inl _ => ret []
      | inr ms =>
          ret (flat_map (λ m, if decide (mc_InfrastructureRefName m = "") then []
                              else [{| nn_Namespace := om_Namespace (mc_Meta m); nn_Name := mc_InfrastructureRefName m |}]) ms)
      end
  end.

End controller.

(** ** What a launch asks for *)

Section launch_properties.
Context `{MapRange} `{YAML} `{TextTemplate} `{Printer} `{CliPaths} `{ClusterAPI} `{E : Env}.

(** The labels of the machine in the configuration of its instance. *)
Definition labelled (cluster : Cluster) (machine : Machine) (config : option (gmap string string)) : Prop :=
  lookup_opt config "user.cluster-name" = Some (om_Name (cl_Meta cluster)) ∧
  lookup_opt config "user.cluster-namespace" = Some (om_Namespace (cl_Meta cluster)) ∧
  lookup_opt config "user.machine-name" = Some (om_Name (mc_Meta machine)) ∧
  lookup_opt config "user.cluster-role" = Some (machine_role machine).

Lemma config_WithImage image o : lo_config (WithImage image o) = lo_config o.
Proof. unfold WithImage. repeat split_match; done. Qed.

Lemma machine_options_labelled cluster machine lxcMachine devices image o :
  labelled cluster machine (lo_config (machine_options cluster machine lxcMachine devices image o)).
Proof.
  unfold labelled, machine_options. rewrite config_WithImage. cbn [lo_config LO_WithConfig].
  rewrite !lookup_clone_or_copy. split_and!; done.
Qed.

(** The request creates an instance with these labels. *)
Definition creates_labelled (cluster : Cluster) (machine : Machine) (name : string) (e : event) : Prop :=
  match projT2 e with
  | (CIncus _ (CreateInstance post), _) => ip_Name post = name ∧ labelled cluster machine (ip_Config post)
  | _ => True
  end.

Lemma launch_post_labelled cluster machine srv name opts post :
  labelled cluster machine (lo_config opts) → launch_post srv name opts post →
  ip_Name post = name ∧ labelled cluster machine (ip_Config post).
Proof.
  intros Hl (opts' & Hc & Hn & _ & _ & -> & _). split; [done|].
  apply complete_inv in Hc as (? & ? & _ & _ & _ & _ & _ & _ & _ & _ & _ & -> & _). done.
Qed.

Section calls.
Context (P : event → Prop) (cluster : Cluster) (lxcCluster : LXCCluster) (machine : Machine)
        (lxcMachine : LXCMachine) (c : Client).
Let conn := cli_Conn (WithTarget c (ms_Target (lm_Spec lxcMachine))).
Hypothesis Hhost : ∀ A (call : hcall A) r, P (existT A (CHost call, r)).
Hypothesis Hreads : ∀ A (call : icall A) r, icall_reads call = true → P (existT A (CIncus conn call, r)).
Hypothesis Hcreate : ∀ post r,
  ip_Name post = GetInstanceName lxcMachine → labelled cluster machine (ip_Config post) →
  P (existT _ (CIncus conn (CreateInstance post), r)).
Hypothesis Hwrites : ∀ A (call : icall A) r,
  icall_instance call = Some (GetInstanceName lxcMachine) → is_create call = false →
  P (existT A (CIncus conn call, r)).

Lemma calls_launch_with_templates ctx opts :
  labelled cluster machine (lo_config opts) →
  calls_only P (launch_with_templates ctx cluster lxcCluster machine lxcMachine c opts).
Proof.
  intros Hl.
  assert (Hlaunch : ∀ opts', labelled cluster machine (lo_config opts') →
    calls_only P (WaitForLaunchInstance (WithTarget c (ms_Target (lm_Spec lxcMachine))) ctx (GetInstanceName lxcMachine) opts')).
  { intros opts' Hl'. apply calls_WaitForLaunchInstance; [done| |by intros; apply Hwrites].
    intros post r Hpost. destruct (launch_post_labelled _ _ _ _ _ _ Hl' Hpost). by apply Hcreate. }
  unfold launch_with_templates. destruct (IsControlPlaneMachine machine).
  - destruct (ControlPlaneInstanceTemplates _ _) as [err|files].
    + intros s. apply grows_refl.
    + intros s. unfold bind. simpl. by apply Hlaunch.
  - intros s. unfold bind. simpl. by apply Hlaunch.
Qed.

Lemma calls_select_image imageSpec image instanceType pre post :
  calls_only P (select_image imageSpec (default_image machine image instanceType pre post)).
Proof.
  unfold select_image, default_image, Image_Check, check_simplestreams, check_oci.
  calls_auto; apply Hhost.
Qed.

Lemma calls_launchInstance ctx cloudInit :
  calls_only P (launchInstance ctx cluster lxcCluster machine lxcMachine c cloudInit).
Proof.
  assert (Hl := machine_options_labelled cluster machine lxcMachine).
  assert (Ht := calls_launch_with_templates). assert (Hi := calls_select_image).
  unfold launchInstance, launchKindInstance. case_decide.
  - destruct (SupportsInstanceOCI c); [calls_auto|]. destruct (ToMap _); [calls_auto|].
    apply calls_only_bind; [calls_auto|]. intros imageSpec. apply calls_only_bind; [apply Hi|]. intros image.
    apply calls_only_bind; [calls_auto|]. intros apt. apply calls_only_bind; [calls_auto|]. intros o. apply Ht, Hl.
  - destruct (ToMap _); [calls_auto|]. apply calls_only_bind; [calls_auto|]. intros imageSpec.
    apply calls_only_bind; [apply Hi|]. intros image. apply Ht, Hl.
Qed.

End calls.

(** C11: Every instance a machine is launched as carries the name and namespace
    of its cluster, the name of its machine and its role, whatever the
    configuration of the user says: it is a backend of the load balancer of
    its cluster exactly when the machine is a control plane machine. *)
Theorem launchInstance_joins_cluster (ctx : context) (cluster : Cluster) (lxcCluster : LXCCluster)
    (machine : Machine) (lxcMachine : LXCMachine) (c : Client) (cloudInit : string) :
  calls_only (λ e, match projT2 e with
                   | (CIncus _ (CreateInstance post), _) =>
                       ip_Name post = GetInstanceName lxcMachine ∧
                       ∀ i, default ∅ (ip_Config post) ⊆ if_Config i →
                         filterClusterControlPlaneInstances (om_Name (cl_Meta cluster)) (om_Namespace (cl_Meta cluster)) i =
                           IsControlPlaneMachine machine
                   | _ => True
                   end)
    (launchInstance ctx cluster lxcCluster machine lxcMachine c cloudInit).
Proof.
  apply calls_launchInstance; simpl; try done.
  - intros A call r Hr. by destruct call.
  - intros post r Hn (Hl1 & Hl2 & _ & Hl4). split; [done|]. intros i Hsub.
    assert (Hi : ∀ k v, lookup_opt (ip_Config post) k = Some v → go_index (if_Config i) k = v).
    { intros k v Hk. unfold go_index. by rewrite (lookup_weaken _ _ _ _ Hk Hsub). }
    apply Hi in Hl1, Hl2, Hl4. unfold machine_role in Hl4.
    destruct (IsControlPlaneMachine machine).
    + by apply filter_control_plane.
    + apply not_true_is_false. intros (_ & _ & Hr)%filter_control_plane. congruence.
  - intros A call r _ Hr. by destruct call.
Qed.

(** *** Panics of a launch

    Only the options of kind nodes have text replacements, in two files. *)
Definition kind_files : list string := ["/usr/local/bin/entrypoint"; "/kind/manifests/default-cni.yaml"].

(** In place of one of the two files, the server has a directory. *)
Definition kind_directory (m : LXCMachine) (e : event) : Prop :=
  ms_InstanceType (lm_Spec m) = "kind" ∧ ∃ conn, directory_at conn (GetInstanceName m) kind_files e.

Lemma machine_options_replacements cluster machine m devices image o :
  lo_replacements (machine_options cluster machine m devices image o) = lo_replacements o.
Proof. unfold machine_options, WithImage. by repeat case_match. Qed.

Lemma kubeadm_replacements i : lo_replacements (KubeadmLaunchOptions i) = None.
Proof. unfold KubeadmLaunchOptions. by repeat case_match. Qed.

Lemma kind_replacements i o path : KindLaunchOptions i = inr o → path ∈ replaced_paths o → path ∈ kind_files.
Proof.
  intros Ho Hp. unfold replaced_paths in Hp.
  apply list_elem_of_fmap in Hp as ([p r] & -> & Hin%elem_of_range). simpl.
  assert (Hsub : ∀ k, is_Some (default ∅ (lo_replacements o) !! k) → k ∈ kind_files); [|by apply Hsub].
  clear Hin p r. intros k. unfold KindLaunchOptions, kind_manual_cloud_init in Ho.
  repeat (case_match; simplify_eq/=); rewrite ?lookup_union; simpl;
    repeat (rewrite lookup_singleton; case_decide; subst); simpl; intros [? ?]; try done;
    unfold kind_files; set_solver.
Qed.

Lemma replaced_templates t o : replaced_paths (WithInstanceTemplates t o) = replaced_paths o.
Proof. done. Qed.

Lemma panics_launch_with_templates (D : event → Prop) ctx cluster lxcCluster machine m c o :
  (∀ conn e, directory_at conn (GetInstanceName m) (replaced_paths o) e → D e) →
  panics_only D (launch_with_templates ctx cluster lxcCluster machine m c o).
Proof.
  intros HD. unfold launch_with_templates. destruct (IsControlPlaneMachine machine).
  - destruct (ControlPlaneInstanceTemplates _ _); [by apply traces_bind, traces_throw|].
    apply traces_bind, traces_ret. eapply panics_only_mono; [|apply panics_WaitForLaunchInstance]. intros e. apply HD.
  - apply traces_bind, traces_ret. eapply panics_only_mono; [|apply panics_WaitForLaunchInstance]. intros e. apply HD.
Qed.

Lemma panics_select_image D spec machine image it pre post :
  panics_only D (select_image spec (default_image machine image it pre post)).
Proof. unfold select_image, default_image, Image_Check, check_simplestreams, check_oci. panics_auto. Qed.

Lemma panics_launchInstance ctx cluster lxcCluster machine m c cloudInit :
  panics_only (kind_directory m) (launchInstance ctx cluster lxcCluster machine m c cloudInit).
Proof.
  unfold launchInstance, launchKindInstance. assert (Hi := panics_select_image (kind_directory m)). case_decide as Hk.
  - destruct (SupportsInstanceOCI c); [by apply traces_throw|]. destruct (ToMap _); [by apply traces_throw|].
    apply panics_only_bind; [panics_auto|]. intros spec. apply panics_only_bind; [apply Hi|]. intros image.
    apply panics_only_bind; [panics_auto|]. intros apt.
    destruct (KindLaunchOptions _) as [e|o] eqn:Ho; [by apply traces_bind, traces_wrap, traces_of_result|].
    apply traces_bind, traces_wrap, traces_of_result. apply panics_launch_with_templates.
    intros conn e He. split; [done|]. exists conn. unfold replaced_paths in He. rewrite machine_options_replacements in He.
    destruct e as [A [[B conn' []|B ?|B ?] r]]; try done. destruct r as [?|[[] ?]]; try done. simpl in *.
    destruct He as (-> & -> & Hp). split_and!; [done..|]. by eapply kind_replacements.
  - destruct (ToMap _); [by apply traces_throw|]. apply panics_only_bind; [panics_auto|]. intros spec.
    apply panics_only_bind; [apply Hi|]. intros image. apply panics_launch_with_templates.
    intros conn e He. exfalso. unfold replaced_paths in He. rewrite machine_options_replacements, kubeadm_replacements in He.
    simpl in He. rewrite range_empty in He. destruct e as [A [[B conn' []|B ?|B ?] r]]; try done. destruct r as [?|[[] ?]]; try done.
    destruct He as (_ & _ & He). by apply not_elem_of_nil in He.
Qed.

End launch_properties.

(** ** Provisioning *)

Section properties.
Context `{MapRange} `{YAML} `{TextTemplate} `{Printer} `{CliPaths} `{ClusterAPI} `{E : Env}.

Definition condition_of (m : LXCMachine) (t : string) : option Condition :=
  getCondition (LXCMachine_GetConditions m) t.

Lemma machine_conditions_set f m : LXCMachine_GetConditions (set_conditions f m) = f (LXCMachine_GetConditions m).
Proof. done. Qed.

Lemma machine_condition_MarkFalse m t reason severity message :
  condition_of (MarkFalse m t reason severity message) t = Some (FalseCondition t reason severity message).
Proof. unfold condition_of, MarkFalse. rewrite machine_conditions_set. by rewrite get_setCondition, decide_True. Qed.

Lemma machine_condition_MarkTrue m t : condition_of (MarkTrue m t) t = Some (TrueCondition t).
Proof. unfold condition_of, MarkTrue. rewrite machine_conditions_set. by rewrite get_setCondition, decide_True. Qed.

(** Only conditions of the object may differ. *)
Definition same_but_conditions (m m' : LXCMachine) : Prop :=
  lm_Meta m' = lm_Meta m ∧ lm_Spec m' = lm_Spec m ∧
  mst_Ready (lm_Status m') = mst_Ready (lm_Status m) ∧
  mst_LoadBalancerConfigured (lm_Status m') = mst_LoadBalancerConfigured (lm_Status m) ∧
  mst_Addresses (lm_Status m') = mst_Addresses (lm_Status m).

(** A machine waits, without any call and with nothing changed but its
    condition, until the infrastructure of its cluster is ready and, when it
    is not provisioned yet, its bootstrap data is there. *)
Theorem machine_reconcileNormal_waits (ctx : context) (cluster : Cluster) (lxcCluster : LXCCluster) (machine : Machine)
    (m : LXCMachine) (c : Client) (s : state) :
  cl_InfrastructureReady cluster = false ∨
    (ms_ProviderID (lm_Spec m) = None ∧ mc_DataSecretName machine = None) →
  ∃ m' reason, reconcileNormal ctx cluster lxcCluster machine m c s = (Ok (m', inr noResult), s) ∧
    same_but_conditions m m' ∧
    condition_of m' InstanceProvisionedCondition =
      Some (FalseCondition InstanceProvisionedCondition reason SeverityInfo "") ∧
    reason ∈ [WaitingForClusterInfrastructureReason; WaitingForControlPlaneAvailableReason; WaitingForBootstrapDataReason].
Proof.
  intros Hw. unfold reconcileNormal. destruct (cl_InfrastructureReady cluster) eqn:Hr; cbn [negb].
  - destruct Hw as [?|[-> ->]]; [done|]. destruct (_ && _);
      (eexists _, _; split; [reflexivity|]; rewrite machine_condition_MarkFalse; split_and!; [done..|set_solver]).
  - eexists _, _. split; [reflexivity|]. rewrite machine_condition_MarkFalse. split_and!; [done..|set_solver].
Qed.

(** C21: A machine that has its provider ID is only checked: the one call is the
    question for the state of its instance. It becomes not ready exactly when
    the server says that the instance does not exist, ready when the instance
    is there, and any other failure is returned with the object unchanged; its
    specification is never touched. *)
Theorem machine_reconcileNormal_provisioned (ctx : context) (cluster : Cluster) (lxcCluster : LXCCluster) (machine : Machine)
    (m : LXCMachine) (c : Client) (s : state) (id : string) :
  cl_InfrastructureReady cluster = true → ms_ProviderID (lm_Spec m) = Some id →
  ∃ m' r s' answer, reconcileNormal ctx cluster lxcCluster machine m c s = (Ok (m', r), s') ∧
    st_log s' = st_log s ++ [answered (CIncus (cli_Conn c) (GetInstanceState (GetInstanceName m))) answer] ∧
    lm_Spec m' = lm_Spec m ∧ lm_Meta m' = lm_Meta m ∧
    match answer with
    | inr st => r = inr noResult ∧ mst_Ready (lm_Status m') = true ∧
        condition_of m' InstanceProvisionedCondition = Some (TrueCondition InstanceProvisionedCondition) ∧
        ∀ a, {| ma_Type := MachineInternalIP; ma_Address := a |} ∈ mst_Addresses (lm_Status m') ↔ host_address st a
    | inl err =>
        if Contains (Error err) "Instance not found"
        then r = inr noResult ∧ mst_Ready (lm_Status m') = false
        else r = inl err ∧ m' = m
    end.
Proof.
  intros Hr Hid. unfold reconcileNormal, check_instance. rewrite Hr, Hid. cbn [negb].
  unfold bind, try, incus, perform.
  destruct (handle _ (st_world s)) as [[err|st] w] eqn:Hh; cbn beta iota.
  - destruct (Contains (Error err) "Instance not found") eqn:Hc;
      (eexists _, _, _, (inl err); rewrite ?Hc; split; [reflexivity|]; simpl; rewrite ?Hc; by split_and!).
  - eexists _, _, _, (inr st). split; [reflexivity|]. simpl. split_and!; try done.
    + rewrite <- (machine_condition_MarkTrue (set_ready true m) InstanceProvisionedCondition). done.
    + intros a. rewrite elem_of_cons. rewrite list_elem_of_In, in_flat_map. setoid_rewrite <- list_elem_of_In.
      rewrite <- elem_of_ParseHostAddresses. split.
      * intros [?|(b & Hb & Hin)]; [done|]. rewrite !elem_of_cons in Hin. set_solver.
      * intros Ha. right. exists a. split; [done|]. set_solver.
Qed.

(** *** Failed launches *)

(** An error wrapped any number of times with [fmt.Errorf("...: %w", err)]. *)
Definition wrapped (pres : list string) (err : error) : error := foldr Errorf_w err pres.

Lemma wrapped_terminal pres err : IsTerminalError (wrapped pres err) = IsTerminalError err.
Proof. induction pres as [|pre pres IH]; [done|]. apply IH. Qed.

Lemma wrapped_suffix pres err p : HasSuffix (Error err) p = true → HasSuffix (Error (wrapped pres err)) p = true.
Proof. intros He. induction pres as [|pre pres IH]; [done|]. simpl. by apply HasSuffix_app_r. Qed.

(** C22: How a failed launch is handled depends on the error below its wrapping: a
    terminal error is reported with severity Error and not retried; an error
    that ends in the one of a passed deadline, at whatever depth, is not reported
    as an error but looked at again after 10 seconds; any other error is
    returned, so that the launch is retried. In each case the machine keeps its
    specification and status but for the condition. *)
Theorem launch_failed_classification (m : LXCMachine) (pres : list string) (err : error) :
  let r := launch_failed m (wrapped pres err) in
  same_but_conditions m r.1 ∧
  (∃ reason severity message,
     condition_of r.1 InstanceProvisionedCondition = Some (FalseCondition InstanceProvisionedCondition reason severity message) ∧
     (severity = SeverityError ↔ IsTerminalError err = true)) ∧
  (IsTerminalError err = true → r.2 = inr noResult) ∧
  (err = DeadlineExceeded → r.2 = inr {| RequeueAfter := 10000 |}) ∧
  (IsTerminalError err = false → HasSuffix (Error (wrapped pres err)) (Error DeadlineExceeded) = true →
     r.2 = inr {| RequeueAfter := 10000 |}) ∧
  (IsTerminalError err = false → HasSuffix (Error (wrapped pres err)) (Error DeadlineExceeded) = false →
     r.2 = inl (Errorf_w "failed to create instance: " (wrapped pres err))).
Proof.
  intros r. unfold r, launch_failed. rewrite wrapped_terminal. destruct (IsTerminalError err) eqn:Ht.
  { cbn [fst snd]. rewrite machine_condition_MarkFalse. split_and!; try done; [by eexists _, _, _|].
    intros ->. done. }
  change (Error DeadlineExceeded) with "context deadline exceeded".
  destruct (HasSuffix _ _) eqn:Hs; cbn [fst snd]; rewrite machine_condition_MarkFalse; split_and!; try done;
    try (by eexists _, _, _).
  intros ->. by rewrite wrapped_suffix in Hs.
Qed.

(** *** The footprint of a machine *)

(** The event is a question to the host or to Kubernetes, or a call to the
    server and project of the client that changes nothing but the instance of
    the machine or the load balancer of its cluster. *)
Definition machine_footprint (lxcCluster : LXCCluster) (c : Client) (name : string) (e : event) : Prop :=
  match projT2 e with
  | (CIncus conn call, _) =>
      (cn_Endpoint conn = cn_Endpoint (cli_Conn c) ∧ cn_Project conn = cn_Project (cli_Conn c) ∧
       (icall_reads call = true ∨ icall_instance call = Some name)) ∨
      cluster_lb_footprint lxcCluster c e
  | _ => True
  end.

Lemma machine_footprint_own lxcCluster c name target A (call : icall A) r :
  icall_reads call = true ∨ icall_instance call = Some name →
  machine_footprint lxcCluster c name (existT A (CIncus (cli_Conn (WithTarget c target)) call, r)).
Proof.
  intros Hc. unfold machine_footprint, WithTarget. simpl. left.
  destruct (SupportsInstanceTarget c); simpl; auto.
Qed.

Lemma machine_footprint_same lxcCluster c name A (call : icall A) r :
  icall_reads call = true ∨ icall_instance call = Some name →
  machine_footprint lxcCluster c name (existT A (CIncus (cli_Conn c) call, r)).
Proof. intros Hc. unfold machine_footprint. simpl. left. auto. Qed.

Lemma machine_footprint_lb lxcCluster c name e :
  cluster_lb_footprint lxcCluster c e → machine_footprint lxcCluster c name e.
Proof.
  unfold machine_footprint. destruct e as [T [[A conn call|A call|A call] r]]; simpl; auto.
Qed.

Lemma calls_launch ctx cluster lxcCluster machine m c cloudInit :
  calls_only (machine_footprint lxcCluster c (GetInstanceName m))
    (launchInstance ctx cluster lxcCluster machine m c cloudInit).
Proof.
  apply calls_launchInstance; try done.
  - intros. apply machine_footprint_own. auto.
  - intros post r Hn _. apply machine_footprint_own. right. simpl. by rewrite Hn.
  - intros. apply machine_footprint_own. auto.
Qed.

Lemma calls_lb_reconfigure `{!EnvTime E} ctx cluster lxcCluster c name :
  calls_only (machine_footprint lxcCluster c name) (Reconfigure (ManagerForCluster cluster lxcCluster c) ctx).
Proof. eapply calls_only_mono; [|apply Reconfigure_calls]. intros. by apply machine_footprint_lb. Qed.

Lemma calls_reconcileNormal `{!EnvTime E} ctx cluster lxcCluster machine m c :
  calls_only (machine_footprint lxcCluster c (GetInstanceName m))
    (reconcileNormal ctx cluster lxcCluster machine m c).
Proof.
  assert (Hl := calls_launch). assert (Hr := calls_lb_reconfigure).
  unfold reconcileNormal, check_instance, getBootstrapData, finish_launch.
  calls_auto; first [by apply Hl | by apply Hr | by intros; apply machine_footprint_same; auto].
Qed.

Lemma calls_reconcileDelete `{!EnvTime E} ctx cluster lxcCluster machine m c :
  calls_only (machine_footprint lxcCluster c (GetInstanceName m))
    (reconcileDelete ctx cluster lxcCluster machine m c).
Proof.
  assert (Hr := calls_lb_reconfigure). unfold reconcileDelete, finish_delete, patchLXCMachine.
  calls_auto. apply calls_WaitForDeleteInstance; intros; apply machine_footprint_same; [by left|by right..].
Qed.


(** *** A machine gets its provider ID *)

(** The evidence behind a new provider ID. *)
Definition provisioned_by (ctx : context) (cluster : Cluster) (lxcCluster : LXCCluster) (machine : Machine)
    (m m' : LXCMachine) (c : Client) (r : error + Result) (evs : list event) : Prop :=
  ms_ProviderID (lm_Spec m') = Some (GetExpectedProviderID m) ∧ r = inr noResult ∧
  mst_Ready (lm_Status m') = true ∧
  condition_of m' InstanceProvisionedCondition = Some (TrueCondition InstanceProvisionedCondition) ∧
  ∃ cloudInit addrs evs1 evs2 evs3, evs = evs1 ++ evs2 ++ evs3 ∧ addrs ≠ [] ∧
    ran (launchInstance ctx cluster lxcCluster machine m c cloudInit) (Ok addrs) evs2 ∧
    (IsControlPlaneMachine machine = true → mst_LoadBalancerConfigured (lm_Status m') = true) ∧
    (IsControlPlaneMachine machine = true → mst_LoadBalancerConfigured (lm_Status m) = false →
     ran (Reconfigure (ManagerForCluster cluster lxcCluster c) ctx) (Ok tt) evs3).

Lemma launch_nonempty `{!EnvTime E} ctx cluster lxcCluster machine m c cloudInit :
  gives_or True (λ addrs, addrs ≠ []) (launchInstance ctx cluster lxcCluster machine m c cloudInit).
Proof.
  assert (Ht : ∀ opts, gives_or True (λ addrs, addrs ≠ []) (launch_with_templates ctx cluster lxcCluster machine m c opts)).
  { intros opts. unfold launch_with_templates. apply gives_bind; [safe_auto|]. intros o. apply gives_WaitForLaunchInstance. }
  assert (Hi : ∀ spec image it pre post, ends (λ _ : state, True) (select_image spec (default_image machine image it pre post))).
  { intros. unfold select_image, default_image, Image_Check, check_simplestreams, check_oci. safe_auto. }
  unfold launchInstance, launchKindInstance. case_decide.
  - destruct (SupportsInstanceOCI c); [apply gives_throw|]. destruct (ToMap _); [apply gives_throw|].
    apply gives_bind; [safe_auto|]. intros spec. apply gives_bind; [apply Hi|]. intros image.
    apply gives_bind; [safe_auto|]. intros apt. apply gives_bind; [safe_auto|]. intros o. apply Ht.
  - destruct (ToMap _); [apply gives_throw|]. apply gives_bind; [safe_auto|]. intros spec.
    apply gives_bind; [apply Hi|]. intros image. apply Ht.
Qed.

Lemma machine_traces_reconfigure `{!EnvTime E} ctx cluster lxcCluster c :
  traces (Reconfigure (ManagerForCluster cluster lxcCluster c) ctx) (λ o evs,
    ran (Reconfigure (ManagerForCluster cluster lxcCluster c) ctx) o evs ∧
    match o with Ok _ | Err _ => True | _ => False end).
Proof.
  pose proof (ManagerForCluster_spec cluster lxcCluster c) as Hspec.
  apply traces_and.
  - eapply traces_mono; [eapply traces_ran, Reconfigure_calls|]. by intros o evs [? _].
  - eapply traces_safe; [apply Reconfigure_calls|apply Reconfigure_safe].
Qed.

Lemma machine_traces_reconcileNormal `{!EnvTime E} ctx cluster lxcCluster machine m c :
  traces (reconcileNormal ctx cluster lxcCluster machine m c) (λ o evs,
    match o with
    | Ok (m', r) =>
        lm_Meta m' = lm_Meta m ∧
        (ms_ProviderID (lm_Spec m') = ms_ProviderID (lm_Spec m) ∨
         provisioned_by ctx cluster lxcCluster machine m m' c r evs)
    | Panic _ => Exists (kind_directory m) evs
    | _ => False
    end).
Proof.
  unfold reconcileNormal, check_instance, getBootstrapData.
  destruct (cl_InfrastructureReady cluster); cbn [negb]; [|by tr_step; auto].
  destruct (ms_ProviderID (lm_Spec m)) as [id|] eqn:Hid.
  { tr_steps; simpl; rewrite Hid; auto. }
  destruct (mc_DataSecretName machine) as [name|]; [|tr_steps; simpl; auto].
  do 5 tr_step; [tr_step; simpl; auto|]. destruct (sec_Data s !! "value") as [cloudInit|]; [|tr_steps; simpl; auto].
  tr_step. do 2 tr_step.
  eapply traces_mono.
  { apply traces_and; [eapply traces_ran, calls_launch|apply traces_gives; [apply panics_launchInstance|apply launch_nonempty]]. }
  intros [addrs|err|msg|] evs [[Hran _] Hne]; try done.
  2: { tr_step. unfold launch_failed. repeat split_match; simpl; auto. }
  2: { by apply Exists_cons_tl. }
  unfold finish_launch. set (m1 := MarkTrue _ _).
  assert (Hc : condition_of m1 InstanceProvisionedCondition = Some (TrueCondition InstanceProvisionedCondition))
    by apply machine_condition_MarkTrue.
  destruct (IsControlPlaneMachine machine && negb (mst_LoadBalancerConfigured (lm_Status m1))) eqn:Hlb.
  - do 2 tr_step. eapply traces_mono; [apply machine_traces_reconfigure|].
    intros [[]|err|?|] evs' [Hr Ho]; try done; tr_step; [|auto]. split; [done|]. right.
    split_and!; [done..|]. eexists cloudInit, addrs, [_], evs, evs'.
    split_and!; [rewrite !app_nil_r; reflexivity|done..].
  - tr_step. split; [done|]. right. split_and!; [done..|]. eexists cloudInit, addrs, [_], evs, [].
    split_and!; [done..| |].
    + intros Hcp. rewrite Hcp in Hlb. by apply negb_false_iff in Hlb.
    + intros Hcp Hf. rewrite Hcp in Hlb. apply negb_false_iff in Hlb. simpl in Hlb. congruence.
Qed.

(** C4: Reconciling a machine that is not deleted keeps its metadata, and gives it
    a provider ID only when its instance was launched (at least one address is
    known) and, for a control plane machine that the load balancer does not know
    yet, only after the load balancer was reconfigured; the ID is the expected
    one and the machine is then ready. It always ends; it panics in one case
    only: for a kind node, when the server has a directory in place of one of
    the two files whose text is replaced. *)
Theorem machine_reconcileNormal_provider_id `{!EnvTime E} (ctx : context) (cluster : Cluster) (lxcCluster : LXCCluster)
    (machine : Machine) (m : LXCMachine) (c : Client) (s : state) :
  ∃ o s' evs, reconcileNormal ctx cluster lxcCluster machine m c s = (o, s') ∧ st_log s' = st_log s ++ evs ∧
    match o with
    | Ok (m', r) => lm_Meta m' = lm_Meta m ∧
        (ms_ProviderID (lm_Spec m') = ms_ProviderID (lm_Spec m) ∨
         provisioned_by ctx cluster lxcCluster machine m m' c r evs)
    | Panic _ => Exists (kind_directory m) evs
    | Err _ | OutOfFuel => False
    end.
Proof.
  destruct (machine_traces_reconcileNormal ctx cluster lxcCluster machine m c s) as (evs & Hl & Ho).
  destruct (reconcileNormal ctx cluster lxcCluster machine m c s) as [o s']. exists o, s', evs.
  split_and!; [done|done|]. by destruct o as [[]|?|?|].
Qed.

(** ** Deletion *)

(** Either the metadata (and the finalizers) of the machine stays and an error
    is returned, or the finalizer is removed, with the evidence that it may:
    the instance is gone, and a control plane machine of a cluster that stays
    has left the load balancer. *)
Definition delete_outcome (ctx : context) (cluster : Cluster) (lxcCluster : LXCCluster) (machine : Machine)
    (m m' : LXCMachine) (c : Client) (e : option error) (evs : list event) : Prop :=
  lm_Spec m' = lm_Spec m ∧
  ((lm_Meta m' = lm_Meta m ∧ e ≠ None) ∨
   (e = None ∧
    lm_Meta m' = lm_Meta (set_finalizers (RemoveFinalizer (om_Finalizers (lm_Meta m)) MachineFinalizer) m) ∧
    ∃ evs1 evs2 evs3, evs = evs1 ++ evs2 ++ evs3 ∧ Forall no_incus evs1 ∧
      (reported_missing (cli_Conn c) (GetInstanceName m) evs2 ∨ deleted (cli_Conn c) (GetInstanceName m) evs2) ∧
      (IsControlPlaneMachine machine = true → is_deleted (cl_Meta cluster) = false →
       ran (Reconfigure (ManagerForCluster cluster lxcCluster c) ctx) (Ok tt) evs3))).

Lemma machine_traces_reconcileDelete `{!EnvTime E} ctx cluster lxcCluster machine m c :
  traces (reconcileDelete ctx cluster lxcCluster machine m c) (λ o evs,
    match o with
    | Ok (m', e) => delete_outcome ctx cluster lxcCluster machine m m' c e evs
    | _ => False
    end).
Proof.
  unfold reconcileDelete, patchLXCMachine, delete_outcome. do 2 tr_step. tr_step; [tr_step; simpl; auto|].
  set (m1 := MarkFalse _ _ _ _ _). do 2 tr_step. tr_step; [tr_step; simpl; auto|]. do 2 tr_step.
  eapply traces_mono.
  { apply traces_and; [apply traces_WaitForDeleteInstance|].
    eapply traces_safe; [apply (calls_WaitForDeleteInstance (λ _, True)); done|apply safe_WaitForDeleteInstance; apply _]. }
  intros [[]|err|?|] evs [Hev Hs]; try done; [|tr_step; simpl; auto].
  unfold finish_delete. destruct (IsControlPlaneMachine machine && negb (is_deleted (cl_Meta cluster))) eqn:Hcp.
  - do 2 tr_step. eapply traces_mono; [apply machine_traces_reconfigure|].
    intros [[]|err|?|] evs' [Hr Ho]; try done; tr_step; [|simpl; auto]. split; [done|]. right.
    split_and!; [done..|]. eexists [_; _], evs, evs'. split_and!; [by rewrite app_nil_r|by repeat constructor|done..].
  - tr_step. split; [done|]. right. split_and!; [done..|]. eexists [_; _], evs, [].
    split_and!; [done|by repeat constructor|done|]. intros Hc1 Hc2. by rewrite Hc1, Hc2 in Hcp.
Qed.

(** C5: Deleting a machine ends without a panic, and removes its finalizer only
    after the server said that the instance does not exist, or accepted to
    delete it and the operation was waited for; and, for a control plane
    machine of a cluster that is not being deleted, only after the load
    balancer was reconfigured without it. Otherwise an error is returned. *)
Theorem machine_reconcileDelete_outcome `{!EnvTime E} (ctx : context) (cluster : Cluster) (lxcCluster : LXCCluster)
    (machine : Machine) (m : LXCMachine) (c : Client) (s : state) :
  ∃ m' e s' evs, reconcileDelete ctx cluster lxcCluster machine m c s = (Ok (m', e), s') ∧
    st_log s' = st_log s ++ evs ∧ delete_outcome ctx cluster lxcCluster machine m m' c e evs.
Proof.
  destruct (machine_traces_reconcileDelete ctx cluster lxcCluster machine m c s) as (evs & Hl & Ho).
  destruct (reconcileDelete ctx cluster lxcCluster machine m c s) as [[[m' e]|?|?|] s']; try done.
  by exists m', e, s', evs.
Qed.

(** ** The whole reconciliation *)

Definition patched_last (evs : list event) : Prop :=
  ∃ evs' obj r, evs = evs' ++ [answered (CKube (KPatchMachine obj (infraConditions ++ [ReadyCondition]))) r].

(** First nothing is changed on the server, and the finalizer is found in place;
    then a handler runs, of which [Q] holds. *)
Definition handled_run (Q : list event → Prop) (evs : list event) : Prop :=
  ∃ evs1 evs2, evs = evs1 ++ evs2 ∧ Forall no_incus_write evs1 ∧
    (∃ obj obj', answered (CKube (KEnsureMachineFinalizer obj MachineFinalizer)) (inr (false, obj')) ∈ evs1) ∧ Q evs2.

(** A run of Reconcile: nothing is changed on the server, or a handler runs, at
    the end of which the object is patched. *)
Definition guarded_run (evs : list event) : Prop := Forall no_incus_write evs ∨ handled_run patched_last evs.

(** In place of a file of a kind node, the server has a directory. *)
Definition node_directory (e : event) : Prop := ∃ conn name, directory_at conn name kind_files e.

(** How a reconciliation ends. *)
Definition guarded_outcome {A} (o : outcome A) (evs : list event) : Prop :=
  match o with
  | Ok _ | Err _ => guarded_run evs
  | Panic _ => handled_run (Exists node_directory) evs
  | OutOfFuel => False
  end.

Lemma handled_run_app Q pre evs : Forall no_incus_write pre → handled_run Q evs → handled_run Q (pre ++ evs).
Proof.
  intros Hp (evs1 & evs2 & -> & Hf & (obj & obj' & He) & HQ). exists (pre ++ evs1), evs2. rewrite app_assoc, Forall_app.
  split_and!; [done|done|done| |done]. exists obj, obj'. rewrite elem_of_app. by right.
Qed.

Lemma machine_guarded_run_app {A} (o : outcome A) pre evs :
  Forall no_incus_write pre → guarded_outcome o evs → guarded_outcome o (pre ++ evs).
Proof.
  intros Hp. destruct o; simpl; try done; try (by apply handled_run_app);
    (intros [Hf|Hr]; [left; by apply Forall_app|right; by apply handled_run_app]).
Qed.

Lemma machine_guarded_run_stop evs : Forall no_incus_write evs → guarded_run evs.
Proof. by left. Qed.

Lemma machine_traces_finish evs m r :
  traces (finish m r) (λ o evs', match o with Ok _ | Err _ => patched_last (evs ++ evs') | _ => False end).
Proof. unfold finish, patchLXCMachine. tr_steps; eexists evs, _, _; reflexivity. Qed.

Lemma machine_traces_handler `{!EnvTime E} ctx cluster lxcCluster machine m c :
  traces (if is_deleted (lm_Meta m) then
            let! r := reconcileDelete ctx cluster lxcCluster machine m c in
            finish r.1 (match r.2 with Some err => inl err | None => inr noResult end)
          else
            let! r := reconcileNormal ctx cluster lxcCluster machine m c in
            finish r.1 r.2)
    (λ o evs, match o with Ok _ | Err _ => patched_last evs | Panic _ => Exists node_directory evs | OutOfFuel => False end).
Proof.
  destruct (is_deleted _); tr_step.
  - eapply traces_mono; [apply machine_traces_reconcileDelete|]. intros [[]|?|?|] evs Hd; try done.
    eapply traces_mono; [apply machine_traces_finish|]. by intros [].
  - eapply traces_mono; [apply machine_traces_reconcileNormal|]. intros [[]|?|?|] evs Hd; try done.
    + eapply traces_mono; [apply machine_traces_finish|]. by intros [].
    + eapply Exists_impl; [exact Hd|]. intros e (_ & conn & He). by exists conn, (GetInstanceName m).
Qed.

Lemma machine_traces_reconcile_ensured `{!EnvTime E} ctx cluster lxcCluster machine m c :
  traces (reconcile_ensured ctx cluster lxcCluster machine m c) (λ o evs,
    guarded_outcome o evs).
Proof.
  unfold reconcile_ensured. do 2 tr_step; [apply machine_guarded_run_stop; by repeat constructor|].
  destruct p as [[] obj']; cbn beta iota; [tr_step; apply machine_guarded_run_stop; by repeat constructor|].
  do 2 tr_step; [apply machine_guarded_run_stop; by repeat constructor|].
  eapply traces_mono; [apply machine_traces_handler|].
  assert (∀ (Q : list event → Prop) evs, Q evs → handled_run Q
    ([answered (CKube (KEnsureMachineFinalizer m MachineFinalizer)) (inr (false, obj'));
      answered (CKube (KNewMachinePatchHelper obj')) (inr u)] ++ evs)) as Hg.
  { intros Q evs Hp. eexists _, evs. split_and!; [done|by repeat constructor| |done].
    exists m, obj'. rewrite !elem_of_cons. by left. }
  intros [?|?|?|] evs Hp; try done; simpl; [right|right|]; by apply Hg.
Qed.

Lemma traces_reconcile_in_cluster `{!EnvTime E} ctx cluster machine m :
  traces (reconcile_in_cluster ctx cluster machine m) (λ o evs,
    guarded_outcome o evs).
Proof.
  assert (Hstop := machine_guarded_run_stop). unfold reconcile_in_cluster.
  do 2 tr_step; [apply Hstop; by repeat constructor|]. destruct p as [[[] []] obj'];
    cbn beta iota delta [orb]; try (tr_step; apply Hstop; by repeat constructor).
  destruct (cl_InfrastructureRef cluster) as [ref|]; [|tr_step; apply Hstop; by repeat constructor].
  do 2 tr_step. tr_step; [tr_step; apply Hstop; by repeat constructor|].
  do 3 tr_step; [apply Hstop; by repeat constructor|]. do 2 tr_step.
  eapply traces_mono; [apply traces_and; [apply traces_calls_only, calls_New|
    eapply traces_safe; [apply calls_New|apply safe_New; apply _]]|].
  intros [client|err|msg|] evs [Hf Hs]; try done; [|apply Hstop; by repeat constructor].
  eapply traces_mono; [apply machine_traces_reconcile_ensured|].
  intros o evs' Hg. repeat (apply (machine_guarded_run_app _ [_]); [by repeat constructor|]).
  by apply machine_guarded_run_app.
Qed.


End properties.

End LXCMachineController.

(** ** Runs on the sample server *)

#[local] Existing Instance sample_env.
#[local] Existing Instance sample_templates.
#[local] Existing Instance sample_printer.
#[local] Existing Instance sample_paths.
#[local] Existing Instance reference_capi.
#[local] Instance sample_yaml : YAML := {| UnmarshalStrict := λ _, inl (errorString "yaml") |}.

Definition sample_machine : Machine :=
  {| mc_Meta := {| om_Name := "m1"; om_Namespace := "default"; om_Labels := {[ "cluster.x-k8s.io/control-plane" := "" ]};
                   om_Finalizers := []; om_DeletionTimestamp := None |};
     mc_Version := Some "v1.33.0"; mc_DataSecretName := Some "m1-bootstrap"; mc_InfrastructureRefName := "cp-1" |}.

Definition sample_lxcMachine : LXCMachine :=
  {| lm_Meta := {| om_Name := "cp-1"; om_Namespace := "default"; om_Labels := ∅;
                   om_Finalizers := [MachineFinalizer]; om_DeletionTimestamp := None |};
     lm_Spec := {| ms_ProviderID := None; ms_InstanceType := ""; ms_Flavor := "c2-m4"; ms_Profiles := ["default"];
                   ms_Devices := ["eth0,type=nic,network=n1"];
                   ms_Config := Some {[ "user.cluster-role" := "worker" ]};
                   ms_Image := zeroImageSource; ms_Target := "" |};
     lm_Status := {| mst_Ready := false; mst_LoadBalancerConfigured := false; mst_Addresses := [];
                     mst_Conditions := []; mst_V1Beta2 := None |} |}.

Definition sample_ready_cluster : Cluster :=
  {| cl_Meta := mkMeta "c1" "default"; cl_InfrastructureRef := Some "c1"; cl_PodCIDRs := None;
     cl_InfrastructureReady := true; cl_Conditions := [] |}.

Definition sample_machine_objects : sample_world :=
  {| sw_now := 0; sw_instances := ∅; sw_files := []; sw_balancers := ∅;
     sw_lxcCluster := Some sample_lxcCluster; sw_lxcMachine := Some sample_lxcMachine;
     sw_cluster := Some sample_ready_cluster; sw_machine := Some sample_machine |}.

(** Reconciling the machine launches its instance, with the role the user tried
    to override, tells the load balancer and sets the provider ID. *)
Example sample_machine_ready :
  let r := LXCMachineController.Reconcile None {| nn_Namespace := "default"; nn_Name := "cp-1" |}
             (sample_state sample_machine_objects) in
  r.1 = Ok noResult ∧
  match sw_lxcMachine (st_world r.2), sw_instances (st_world r.2) !! "cp-1" with
  | Some m, Some i => mst_Ready (lm_Status m) = true ∧ ms_ProviderID (lm_Spec m) = Some "lxc:///cp-1" ∧
                      sm_config i !! "user.cluster-role" = Some "control-plane"
  | _, _ => False
  end.
Proof. vm_compute. auto. Qed.

Lemma machine_reconcileNormal_waits_witness :
  ∃ m' reason, LXCMachineController.reconcileNormal None sample_cluster sample_lxcCluster sample_machine sample_lxcMachine
    sample_client (sample_state sample_empty) = (Ok (m', inr noResult), sample_state sample_empty) ∧
    LXCMachineController.condition_of m' InstanceProvisionedCondition =
      Some (FalseCondition InstanceProvisionedCondition reason SeverityInfo "").
Proof.
  destruct (LXCMachineController.machine_reconcileNormal_waits None sample_cluster sample_lxcCluster sample_machine
    sample_lxcMachine sample_client (sample_state sample_empty) (or_introl eq_refl)) as (m' & reason & Hr & _ & Hc & _).
  exists m', reason. split; [exact Hr|exact Hc].
Defined.

Lemma machine_reconcileNormal_provisioned_witness :
  ∃ m' r s', LXCMachineController.reconcileNormal None sample_ready_cluster sample_lxcCluster sample_machine
    (LXCMachineController.set_provider_id (Some "lxc:///cp-1") sample_lxcMachine) sample_client
    (sample_state sample_empty) = (Ok (m', r), s') ∧ lm_Spec m' = lm_Spec (LXCMachineController.set_provider_id (Some "lxc:///cp-1") sample_lxcMachine).
Proof.
  destruct (LXCMachineController.machine_reconcileNormal_provisioned None sample_ready_cluster sample_lxcCluster sample_machine
    (LXCMachineController.set_provider_id (Some "lxc:///cp-1") sample_lxcMachine) sample_client
    (sample_state sample_empty) "lxc:///cp-1" eq_refl eq_refl) as (m' & r & s' & answer & Hr & _ & Hs & _).
  exists m', r, s'. split; [exact Hr|exact Hs].
Defined.


Lemma machine_reconcileNormal_provider_id_witness :
  ∃ m' r s' evs, LXCMachineController.reconcileNormal None sample_ready_cluster sample_lxcCluster sample_machine
    sample_lxcMachine sample_client (sample_state sample_machine_objects) = (Ok (m', r), s') ∧
    LXCMachineController.provisioned_by None sample_ready_cluster sample_lxcCluster sample_machine
      sample_lxcMachine m' sample_client r evs.
Proof.
  destruct (LXCMachineController.machine_reconcileNormal_provider_id None sample_ready_cluster sample_lxcCluster sample_machine
    sample_lxcMachine sample_client (sample_state sample_machine_objects)) as (o & s' & evs & Hr & _ & Ho).
  assert (Hid : match (LXCMachineController.reconcileNormal None sample_ready_cluster sample_lxcCluster sample_machine
    sample_lxcMachine sample_client (sample_state sample_machine_objects)).1 with
    | Ok (m', _) => ms_ProviderID (lm_Spec m') = Some "lxc:///cp-1" | _ => False end) by (vm_compute; reflexivity).
  rewrite Hr in Hid. destruct o as [[m' r]|?|?|]; [|destruct Hid..]. cbn beta iota in *. destruct Ho as [_ [Hs|Hp]].
  - exfalso. rewrite Hid in Hs. discriminate Hs.
  - exists m', r, s', evs. split; [exact Hr|exact Hp].
Defined.

Lemma machine_reconcileDelete_outcome_witness :
  ∃ m' e evs, LXCMachineController.delete_outcome None sample_ready_cluster sample_lxcCluster sample_machine
    sample_lxcMachine m' sample_client e evs.
Proof.
  destruct (LXCMachineController.machine_reconcileDelete_outcome None sample_ready_cluster sample_lxcCluster sample_machine
    sample_lxcMachine sample_client (sample_state sample_machine_objects)) as (m' & e & s' & evs & _ & _ & Hd).
  exists m', e, evs. exact Hd.
Defined.

