(* ===== verification/Readiness.v ===== *)
(** * Clusters and machines become ready

    What the controllers achieve on a server that does its part. The class
    [Responsive] of Progress describes the server as far as launching goes;
    the class [Balancing] describes a running load balancer: that it can be
    reconfigured, and that nothing but a call on it stops it. On such servers a
    cluster becomes ready in one reconciliation, and so does a machine, of the
    workers and of the control plane. *)

From S2P Require Import Prelude GoStrings Go Api World Images Launch Instances Template Sample Client Progress Config LoadBalancer Capi LXCCluster LXCMachine.

(** ** A load balancer that can be reconfigured *)

(** The call could change the instance. *)
Definition touches (n : string) (e : event) : Prop :=
  match (projT2 e).1 with
  | CIncus _ call => icall_reads call = false ∧ icall_instance call = Some n
  | _ => False
  end.

(** What only a call on the instance can change stays over a computation that
    makes no such call. *)
Lemma untouched_kept `{E : Env} {A} (P : world → Prop) (n : string) (m : M state A) (s : state) :
  (∀ B (c : call B) w r w', handle c w = (r, w') → ¬ touches n (existT B (c, r)) → P w → P w') →
  (∀ d w, P w → P (elapse d w)) → calls_only (λ e, ¬ touches n e) m → P (st_world s) → P (st_world (m s).2).
Proof.
  intros Hk He Hc Hs. destruct (Hc s) as (evs & Hp & Hf).
  eapply (path_ind_keeps (λ s, P (st_world s))); [| |exact Hp|exact Hf|exact Hs].
  - intros B call x w s0 Hh Hn Hs0. by eapply Hk.
  - intros d s0. apply He.
Qed.

(** Launching and deleting an instance touch no other. *)
Lemma launch_untouched `{MapRange} `{E : Env} c ctx n n' opts :
  n' ≠ n → calls_only (λ e, ¬ touches n' e) (WaitForLaunchInstance c ctx n opts).
Proof.
  intros Hne. apply calls_WaitForLaunchInstance.
  - intros A call x Hr. unfold touches. simpl. rewrite Hr. by intros [? _].
  - intros post x (opts' & _ & Hname & _). unfold touches. simpl. intros [_ Hx]. congruence.
  - intros A call x Hi _ _. unfold touches. simpl. intros [_ Hx]. congruence.
Qed.

Lemma delete_untouched `{E : Env} c ctx n n' :
  n' ≠ n → calls_only (λ e, ¬ touches n' e) (WaitForDeleteInstance c ctx n).
Proof.
  intros Hne. apply calls_WaitForDeleteInstance.
  - intros A call x Hr. unfold touches. simpl. rewrite Hr. by intros [? _].
  - intros. unfold touches. simpl. intros [_ Hx]. congruence.
  - intros. unfold touches. simpl. intros [_ Hx]. congruence.
Qed.

Class Balancing (E : Env) (conn : Conn) := {
  (** the instance runs, with haproxy in it *)
  serving : world → string → Prop;
  (** the operation of a command in the instance *)
  executing : world → Operation → string → Prop;
  lbLatency : Z;
  commandTime : Z;
  lb_times_nonneg : (0 ≤ lbLatency ∧ 0 ≤ commandTime)%Z;
  serving_elapse : ∀ d w n, serving w n → serving (elapse d w) n;
  serving_kept : ∀ A (c : call A) w r w' n,
    handle c w = (r, w') → ¬ touches n (existT A (c, r)) → serving w n → serving w' n;
  instances_listed : ∀ w n, serving w n →
    ∃ l w', handle (CIncus conn GetInstancesFull) w = (inr l, w') ∧ serving w' n ∧ (now w' ≤ now w + lbLatency)%Z;
  file_written : ∀ w n path args, serving w n →
    ∃ u w', handle (CIncus conn (CreateInstanceFile n path args)) w = (inr u, w') ∧
      serving w' n ∧ (now w' ≤ now w + lbLatency)%Z;
  command_accepted : ∀ w n command, serving w n →
    ∃ op w', handle (CIncus conn (ExecInstance n command None)) w = (inr op, w') ∧
      executing w' op n ∧ (now w' ≤ now w + lbLatency)%Z;
  command_succeeds : ∀ w n op deadline, executing w op n → (now w + commandTime ≤ deadline)%Z →
    ∃ r w', handle (CIncus conn (WaitContext op (Some deadline))) w = (inr r, w') ∧ wr_err r = None ∧
      default 0%Z (wr_return r) = 0%Z ∧ serving w' n ∧ (now w' ≤ now w + commandTime)%Z
}.

Section reconfigure.
Context `{MapRange} `{TextTemplate} `{Printer} `{E : Env} `{!EnvTime E}.

Section haproxy.
Context (l : managerInstance) `{B : !Balancing E (cli_Conn (mi_lxcClient l))}.

Definition lb_serving (s : state) : Prop := serving (st_world s) (mi_name l).

Lemma timely_render s :
  lb_serving s → mi_customHAProxyConfigTemplate l = "" → timely (lb_render l) s lbLatency (λ _, lb_serving).
Proof.
  intros Hs Ht. destruct (instances_listed _ _ Hs) as (insts & w & Hh & Hs' & Hn).
  unfold lb_render, getLoadBalancerConfiguration, ListInstances. rewrite Ht, decide_True by done.
  replace lbLatency with (lbLatency + 0)%Z by lia.
  eapply (timely_bind _ _ _ _ _ (λ _, lb_serving)).
  - apply timely_wrap. replace lbLatency with (lbLatency + 0)%Z by lia. eapply (timely_bind _ _ _ _ _ (λ _, lb_serving)).
    + apply timely_wrap. replace lbLatency with (lbLatency + 0)%Z by lia. eapply (timely_bind _ _ _ _ _ (λ _, lb_serving)).
      * apply timely_wrap. by eapply timely_perform.
      * intros a s' _ Hl. by apply timely_ret.
    + intros a s' _ Hl. by apply timely_ret.
  - intros cfg s' _ Hl. rewrite render_default. by apply timely_wrap, timely_of_result.
Qed.

Lemma timely_command d command s :
  lb_serving s → (now (st_world s) + lbLatency + commandTime ≤ d)%Z →
  timely (run_command (mi_lxcClient l) (Some d) (mi_name l) command) s (lbLatency + commandTime) (λ _, lb_serving).
Proof.
  intros Hs Hd. destruct (command_accepted _ _ command Hs) as (op & w & Hh & Hx & Hn).
  unfold run_command, RunCommand. replace (lbLatency + commandTime)%Z with (lbLatency + commandTime + 0)%Z by lia.
  eapply (timely_bind _ _ _ _ _ (λ r s', cr_err r = None ∧ lb_serving s')).
  - eapply (timely_bind _ _ _ _ _ (λ r s', r = inr op ∧ executing (st_world s') op (mi_name l))).
    + eapply timely_mono; [by eapply timely_try, timely_wrap, (timely_perform _ _ _
        (λ a s', a = op ∧ executing (st_world s') op (mi_name l)))|lia|]. naive_solver.
    + intros r s1 [Ht1 Ht1'] [-> Hx1]. destruct (command_succeeds _ _ _ d Hx1) as (r & w1 & Hh1 & He & Hret & Hs1 & Hn1); [lia|].
      replace commandTime with (commandTime + 0)%Z by lia.
      eapply (timely_bind _ _ _ _ _ (λ r' s', r' = r ∧ lb_serving s')).
      * unfold wait_operation. replace commandTime with (commandTime + 0)%Z by lia.
        eapply timely_bind; [by eapply timely_try, (timely_perform _ _ _ (λ a s', a = r ∧ lb_serving s'))|].
        intros a s' _ (r' & -> & -> & Hs'). by apply timely_ret.
      * intros r' s' _ [-> Hs']. apply timely_ret. split; [|done]. unfold command_result, operation_error. simpl.
        by rewrite He, Hret.
  - intros r s' _ [He Hs']. rewrite He. by apply timely_ret.
Qed.

Definition reconfigureTime : Z := (3 * lbLatency + commandTime)%Z.

(** Both kinds of haproxy load balancers: render, write the file, reload. *)
Lemma timely_haproxy ctx s path command pre1 pre2 :
  lb_serving s → mi_customHAProxyConfigTemplate l = "" →
  (reconfigureTime < loadBalancerReconfigureTimeout)%Z → leaves ctx s reconfigureTime →
  timely (let! ctx := WithTimeout ctx loadBalancerReconfigureTimeout in
          let! haproxyCfg := lb_render l in
          wrap pre1 (incus (cli_Conn (mi_lxcClient l)) (CreateInstanceFile (mi_name l) path (haproxy_file haproxyCfg))) ;;
          wrap pre2 (run_command (mi_lxcClient l) ctx (mi_name l) command)) s reconfigureTime (λ _ _, True).
Proof.
  intros Hs Ht Hlt Hctx. pose proof lb_times_nonneg as [Hl Hc]. unfold reconfigureTime in *.
  replace (3 * lbLatency + commandTime)%Z with (0 + (lbLatency + (lbLatency + (lbLatency + commandTime))))%Z by lia.
  eapply timely_bind; [apply timely_WithTimeout|]. intros ctx' s' _ (-> & d & -> & Hd & Hleaves).
  apply (Hleaves (3 * lbLatency + commandTime)%Z) in Hctx; [|done]. simpl in Hctx. clear Hleaves.
  eapply timely_bind; [by apply timely_render|]. intros cfg s1 [Ht1 Ht1'] Hs1.
  destruct (file_written _ _ path (haproxy_file cfg) Hs1) as (u & w & Hh & Hs2 & Hn2).
  eapply (timely_bind _ _ _ _ _ (λ _, lb_serving)); [apply timely_wrap; by eapply timely_perform|].
  intros _ s2 [Ht2 Ht2'] Hs2'. apply timely_wrap. eapply timely_mono; [apply timely_command; [done|lia]|lia|done].
Qed.

End haproxy.

(** A cluster whose load balancer can be reconfigured: haproxy with the default
    configuration that serves, or one that is not run by the provider. *)
Definition balanced (lxcCluster : LXCCluster) (c : Client) `{B : !Balancing E (cli_Conn c)} (s : state) :
    Prop :=
  let lb := cs_LoadBalancer (lc_Spec lxcCluster) in
  match lb_LXC lb, lb_OCI lb, lb_OVN lb with
  | Some l, _, _ | None, Some l, _ =>
      lbi_CustomHAProxyConfigTemplate l = "" ∧ serving (st_world s) (GetLoadBalancerInstanceName lxcCluster)
  | None, None, Some _ => False
  | None, None, None => True
  end.

Lemma timely_Reconfigure cluster lxcCluster c `{B : !Balancing E (cli_Conn c)} ctx s :
  balanced lxcCluster c s →
  ((3 * lbLatency + commandTime) < loadBalancerReconfigureTimeout)%Z → leaves ctx s (3 * lbLatency + commandTime) →
  timely (Reconfigure (ManagerForCluster cluster lxcCluster c) ctx) s (3 * lbLatency + commandTime) (λ _ _, True).
Proof.
  pose proof lb_times_nonneg as [Hl Hc]. unfold balanced, ManagerForCluster. intros Hb Hlt Hctx.
  destruct (lb_LXC _) as [l|]; [destruct Hb; by apply (timely_haproxy (instance_manager cluster lxcCluster c l))|].
  destruct (lb_OCI _) as [l|]; [destruct Hb; by apply (timely_haproxy (instance_manager cluster lxcCluster c l))|].
  destruct (lb_OVN _); [done|].
  assert (Hret : timely (ret tt) s (3 * lbLatency + commandTime) (λ _ _, True)).
  { eapply timely_mono; [by apply (timely_ret tt s (λ _ _, True))|lia|done]. }
  destruct (lb_External _); [exact Hret|]. by destruct (lb_KubeVIP _).
Qed.

End reconfigure.

(** ** A cluster becomes ready *)

Section cluster.
Import LXCClusterController.
Context `{MapRange} `{TextTemplate} `{Printer} `{CliPaths} `{ClusterAPI} `{E : Env} `{!EnvTime E}.

(** What the provider launches as a haproxy load balancer. *)
Definition haproxy_launch (lxcCluster : LXCCluster) (c : Client) : option (LXCLoadBalancerInstance * LaunchOptions) :=
  let lb := cs_LoadBalancer (lc_Spec lxcCluster) in
  match lb_LXC lb, lb_OCI lb with
  | Some l, _ => Some (l, HaproxyLXCLaunchOptions)
  | None, Some l => match SupportsInstanceOCI c with None => Some (l, HaproxyOCILaunchOptions) | Some _ => None end
  | None, None => None
  end.

(** C15: A cluster with a haproxy load balancer (on a server that supports its
    kind) becomes ready in one reconciliation on a server that does its part:
    the instance of the load balancer is started, and the cluster is ready with
    its endpoint at the configured host, or at the first address that the launch
    returned. *)
Theorem cluster_becomes_ready (ctx : context) (cluster : Cluster) (c : LXCCluster) (client : Client)
    (l : LXCLoadBalancerInstance) (launch opts' : LaunchOptions)
    `{R : !Responsive E (cli_Conn (WithTarget client (lbs_Target (lbi_InstanceSpec l))))} (s : state) :
  let target := WithTarget client (lbs_Target (lbi_InstanceSpec l)) in
  let opts := lb_options (instance_manager cluster c client l) launch in
  haproxy_launch c client = Some (l, launch) →
  complete (GetServerName target) opts = inr opts' → launchable target (GetLoadBalancerInstanceName c) s →
  Forall (λ kv, has_file kv.1) (replacements opts) → (launchTime target opts < instanceCreateTimeout)%Z →
  (startTime target < instanceStartTimeout)%Z → leaves ctx s (launchTime target opts) →
  ∃ c' addrs s', reconcileNormal ctx cluster c client s = (Ok (c', None), s') ∧ made_ready c c' ∧
    WaitForLaunchInstance target ctx (GetLoadBalancerInstanceName c) opts s = (Ok addrs, s') ∧
    (ep_Host (cs_ControlPlaneEndpoint (lc_Spec c)) = "" →
     head addrs = Some (ep_Host (cs_ControlPlaneEndpoint (lc_Spec c')))) ∧
    started target (GetLoadBalancerInstanceName c) s' ∧
    (now (st_world s') ≤ now (st_world s) + launchTime target opts)%Z.
Proof.
  intros target opts Hl Hc Hs Hf Hlt Hst Hctx.
  destruct (timely_launch_run target ctx (GetLoadBalancerInstanceName c) opts opts' s Hs Hc Hf Hlt Hst Hctx)
    as (addrs & s' & Hrun & Hne & Hstarted & Htime).
  assert (Hcreate : Create (ManagerForCluster cluster c client) ctx s = (Ok addrs, s')).
  { unfold haproxy_launch in Hl. unfold ManagerForCluster. destruct (lb_LXC _) as [l'|].
    - injection Hl as -> <-. simpl. unfold managerLXC_Create, lb_launch, wrap. simpl. fold opts target. by rewrite Hrun.
    - destruct (lb_OCI _) as [l'|]; [|done]. destruct (SupportsInstanceOCI client) eqn:Hoci; [done|]. injection Hl as -> <-.
      simpl. unfold managerOCI_Create. simpl. rewrite Hoci. unfold lb_launch, wrap. simpl. fold opts target. by rewrite Hrun. }
  pose proof (reconcileNormal_wp ctx cluster c client s) as Hw. unfold wp in Hw.
  destruct (reconcileNormal ctx cluster c client s) as [[[c' e]|?|?|] s'']; try done. rewrite Hcreate in Hw.
  destruct Hw as (-> & -> & Hready & Hhost). by exists c', addrs, s'.
Qed.

End cluster.

(** ** A machine becomes ready *)

Section machine.
Import LXCMachineController.
Context `{MapRange} `{YAML} `{TextTemplate} `{Printer} `{CliPaths} `{ClusterAPI} `{E : Env} `{!EnvTime E}.

(** The options of a machine whose image is given by name; the files are those
    that the load balancer puts on the machines of the control plane. *)
Definition named_options (cluster : Cluster) (lxcCluster : LXCCluster) (machine : Machine) (m : LXCMachine) (c : Client)
    (cloudInit : string) (spec : LXCMachineImageSource) (devices : gmap string (gmap string string))
    (parsed : option ImageFamily) (files : option (gmap string string)) : LaunchOptions :=
  let opts := machine_options cluster machine m devices (match parsed with Some i => Some i | None => spec_image spec end)
    (KubeadmLaunchOptions
       {| kin_InstanceType := if decide (ms_InstanceType (lm_Spec m) = "") then Container else ms_InstanceType (lm_Spec m);
          kin_KubernetesVersion := machine_version machine;
          kin_Privileged := negb (cs_Unprivileged (lc_Spec lxcCluster));
          kin_SkipProfile := cs_SkipDefaultKubeadmProfile (lc_Spec lxcCluster);
          kin_SkipInstallKubeadmScript := false;
          kin_ServerName := GetServerName c;
          kin_CloudInit := cloudInit |}) in
  if IsControlPlaneMachine machine then WithInstanceTemplates files opts else opts.

Lemma launchInstance_named ctx cluster lxcCluster machine m c cloudInit spec devices parsed files s :
  ms_InstanceType (lm_Spec m) ≠ "kind" →
  ControlPlaneInstanceTemplates (ManagerForCluster cluster lxcCluster c)
    (IsTrue (cl_Conditions cluster) ControlPlaneInitializedCondition) = inr files →
  ToMap (ms_Devices (lm_Spec m)) = inr devices → image_spec m machine = inr spec →
  im_Name spec ≠ "" → ParseImage (im_Name spec) = inr parsed →
  launchInstance ctx cluster lxcCluster machine m c cloudInit s =
    WaitForLaunchInstance (WithTarget c (ms_Target (lm_Spec m))) ctx (GetInstanceName m)
      (named_options cluster lxcCluster machine m c cloudInit spec devices parsed files) s.
Proof.
  intros Hk Hcp Hd Hi Hn Hp. unfold launchInstance. rewrite decide_False, Hd, Hi by done.
  unfold select_image, launch_with_templates, named_options, bind, of_result. cbn beta iota.
  unfold ret at 1. cbn beta iota. rewrite (decide_True (P := im_Name spec ≠ "")), Hp by done. rewrite Hcp.
  by destruct parsed, (IsControlPlaneMachine machine).
Qed.

(** A launch does not touch another instance. *)
Lemma launch_keeps_serving c ctx n opts lb s s' r `{B : !Balancing E conn} :
  lb ≠ n → WaitForLaunchInstance c ctx n opts s = (r, s') → serving (st_world s) lb → serving (st_world s') lb.
Proof.
  intros Hne Hrun Hs. replace s' with (WaitForLaunchInstance c ctx n opts s).2 by (by rewrite Hrun).
  apply (untouched_kept (λ w, serving w lb) lb); [|intros d w; apply serving_elapse|by apply launch_untouched|done].
  intros. by eapply serving_kept.
Qed.

Lemma balanced_kept lxcCluster c `{B : !Balancing E (cli_Conn c)} (s s' : state) :
  (serving (st_world s) (GetLoadBalancerInstanceName lxcCluster) →
   serving (st_world s') (GetLoadBalancerInstanceName lxcCluster)) →
  balanced lxcCluster c s → balanced lxcCluster c s'.
Proof. intros Hk. unfold balanced. repeat split_match; naive_solver. Qed.

(** The load balancer of a control plane machine that it is not yet part of. *)
Definition can_join (lxcCluster : LXCCluster) (machine : Machine) (m : LXCMachine) (c : Client)
    `{B : !Balancing E (cli_Conn c)} (s : state) : Prop :=
  IsControlPlaneMachine machine = true → mst_LoadBalancerConfigured (lm_Status m) = false →
  balanced lxcCluster c s ∧ GetLoadBalancerInstanceName lxcCluster ≠ GetInstanceName m ∧
  (3 * lbLatency + commandTime < loadBalancerReconfigureTimeout)%Z.

(** The machine joins the load balancer: the manager of the cluster reconfigures
    it, from [s] to [s'], and a haproxy that the provider runs is thereby written
    the file that names the control plane instances that are listed now, and
    reloads it. *)
Definition joins (cluster : Cluster) (lxcCluster : LXCCluster) (c : Client) (ctx : context) (s s' : state) : Prop :=
  Reconfigure (ManagerForCluster cluster lxcCluster c) ctx s = (Ok tt, s') ∧
  let lb := cs_LoadBalancer (lc_Spec lxcCluster) in
  match lb_LXC lb, lb_OCI lb with
  | Some l, _ =>
      ∃ evs, st_log s' = st_log s ++ evs ∧
        haproxy_reconfigured (instance_manager cluster lxcCluster c l) "/etc/haproxy/haproxy.cfg"
          ["systemctl"; "reload"; "haproxy.service"] evs
  | None, Some l =>
      ∃ evs, st_log s' = st_log s ++ evs ∧
        haproxy_reconfigured (instance_manager cluster lxcCluster c l) "/usr/local/etc/haproxy/haproxy.cfg"
          ["kill"; "--signal"; "SIGUSR2"; "1"] evs
  | None, None => True
  end.

Lemma Reconfigure_joins cluster lxcCluster c ctx s s' :
  Reconfigure (ManagerForCluster cluster lxcCluster c) ctx s = (Ok tt, s') → joins cluster lxcCluster c ctx s s'.
Proof.
  intros Hrun. split; [exact Hrun|]. unfold ManagerForCluster in Hrun. cbv zeta in *. destruct (lb_LXC _) as [l|].
  - exact (traces_run _ _ _ _ _ (traces_reconfigure (instance_manager cluster lxcCluster c l) ctx _ _ _ _) Hrun).
  - destruct (lb_OCI _) as [l|]; [|done].
    exact (traces_run _ _ _ _ _ (traces_reconfigure (instance_manager cluster lxcCluster c l) ctx _ _ _ _) Hrun).
Qed.

(** Finishing the launch of a machine that can join the load balancer. *)
Lemma finish_launch_ready ctx cluster lxcCluster machine m c `{B : !Balancing E (cli_Conn c)} s :
  can_join lxcCluster machine m c s → leaves ctx s (3 * lbLatency + commandTime) →
  ∃ m' s', finish_launch ctx cluster lxcCluster machine m c s = (Ok (m', inr noResult), s') ∧
    mst_Ready (lm_Status m') = true ∧ ms_ProviderID (lm_Spec m') = Some (GetExpectedProviderID m) ∧
    LXCMachine_GetConditions m' = LXCMachine_GetConditions m ∧
    mst_Addresses (lm_Status m') = mst_Addresses (lm_Status m) ∧
    (IsControlPlaneMachine machine = true → mst_LoadBalancerConfigured (lm_Status m') = true) ∧
    (IsControlPlaneMachine machine = true → mst_LoadBalancerConfigured (lm_Status m) = false →
     joins cluster lxcCluster c ctx s s').
Proof.
  intros Hj Hctx. unfold finish_launch. destruct (IsControlPlaneMachine machine) eqn:Hcp; cbn [andb].
  2: { by eexists _, s. }
  destruct (mst_LoadBalancerConfigured (lm_Status m)) eqn:Hlb; cbn [negb]; [by eexists _, s|].
  destruct (Hj Hcp Hlb) as (Hb & _ & Hlt). pose proof (timely_Reconfigure cluster lxcCluster c ctx s Hb Hlt Hctx) as Ht.
  unfold timely, wp in Ht. unfold bind, try.
  destruct (Reconfigure _ ctx s) as [[[]|?|?|] s'] eqn:Hrun; try done.
  eexists _, s'. split_and!; try done. intros _ _. by apply Reconfigure_joins.
Qed.

(** C14: A machine of the workers or of the control plane, whose cluster and
    bootstrap data are there, with valid devices and an image given by name,
    becomes ready in one reconciliation on a server that does its part: its
    instance is launched, and the machine has its provider ID, its addresses
    and a true InstanceProvisioned condition. After the launch a machine of the
    control plane that was not yet part of the load balancer has it reconfigured:
    a haproxy that the provider runs is written the configuration file with the
    control plane instances that are listed then, and reloads it. Machines of the
    type kind, OVN load balancers and custom haproxy templates are left out. *)
Theorem machine_becomes_ready (ctx : context) (cluster : Cluster) (lxcCluster : LXCCluster) (machine : Machine)
    (m : LXCMachine) (c : Client) `{R : !Responsive E (cli_Conn (WithTarget c (ms_Target (lm_Spec m))))}
    `{B : !Balancing E (cli_Conn c)} (s : state)
    (dataSecret cloudInit : string) (secret : Secret) (w : world) (spec : LXCMachineImageSource)
    (devices : gmap string (gmap string string)) (parsed : option ImageFamily) (files : option (gmap string string))
    (opts' : LaunchOptions) :
  let target := WithTarget c (ms_Target (lm_Spec m)) in
  let s1 := after (CKube (KGetSecret {| nn_Namespace := om_Namespace (lm_Meta m); nn_Name := dataSecret |})) (inr secret) w s in
  let opts := named_options cluster lxcCluster machine m c cloudInit spec devices parsed files in
  cl_InfrastructureReady cluster = true → ms_ProviderID (lm_Spec m) = None →
  mc_DataSecretName machine = Some dataSecret →
  handle (CKube (KGetSecret {| nn_Namespace := om_Namespace (lm_Meta m); nn_Name := dataSecret |})) (st_world s) =
    (inr secret, w) → sec_Data secret !! "value" = Some cloudInit →
  ms_InstanceType (lm_Spec m) ≠ "kind" →
  ControlPlaneInstanceTemplates (ManagerForCluster cluster lxcCluster c)
    (IsTrue (cl_Conditions cluster) ControlPlaneInitializedCondition) = inr files →
  ToMap (ms_Devices (lm_Spec m)) = inr devices → image_spec m machine = inr spec →
  im_Name spec ≠ "" → ParseImage (im_Name spec) = inr parsed →
  complete (GetServerName target) opts = inr opts' → launchable target (GetInstanceName m) s1 →
  Forall (λ kv, has_file kv.1) (replacements opts) →
  (launchTime target opts < instanceCreateTimeout)%Z → (startTime target < instanceStartTimeout)%Z →
  can_join lxcCluster machine m c s → leaves ctx s1 (launchTime target opts + (3 * lbLatency + commandTime)) →
  ∃ m' addrs s2 s', reconcileNormal ctx cluster lxcCluster machine m c s = (Ok (m', inr noResult), s') ∧
    WaitForLaunchInstance target ctx (GetInstanceName m) opts s1 = (Ok addrs, s2) ∧ addrs ≠ [] ∧
    started target (GetInstanceName m) s2 ∧
    mst_Ready (lm_Status m') = true ∧ ms_ProviderID (lm_Spec m') = Some (GetExpectedProviderID m) ∧
    condition_of m' InstanceProvisionedCondition = Some (TrueCondition InstanceProvisionedCondition) ∧
    (∀ a, a ∈ addrs → {| ma_Type := MachineInternalIP; ma_Address := a |} ∈ mst_Addresses (lm_Status m')) ∧
    (IsControlPlaneMachine machine = true → mst_LoadBalancerConfigured (lm_Status m') = true) ∧
    (IsControlPlaneMachine machine = true → mst_LoadBalancerConfigured (lm_Status m) = false →
     joins cluster lxcCluster c ctx s2 s').
Proof.
  intros target s1 opts Hready Hid Hsec Hh Hval Hk Hcp Hd Hi Hn Hp Hc Hs Hf Hlt Hst Hj Hctx.
  pose proof lb_times_nonneg as [Hl0 Hc0].
  assert (Hctx1 : leaves ctx s1 (launchTime target opts)) by (destruct ctx; simpl in *; lia).
  destruct (timely_launch_run target ctx (GetInstanceName m) opts opts' s1 Hs Hc Hf Hlt Hst Hctx1)
    as (addrs & s2 & Hrun & Hne & Hstarted & Htime).
  set (m1 := MarkTrue (setLXCMachineAddresses m addrs) InstanceProvisionedCondition).
  unfold reconcileNormal, getBootstrapData. rewrite Hready, Hid, Hsec. cbn [negb].
  unfold bind at 1, try at 1, bind at 1, wrap at 1, kube, perform. rewrite Hh. cbn beta iota. rewrite Hval.
  unfold ret at 1. cbn beta iota. unfold bind at 1, try at 1. fold s1.
  rewrite (launchInstance_named _ _ _ _ _ _ _ spec devices parsed files) by done. fold opts target. rewrite Hrun.
  cbn beta iota. fold m1.
  assert (Hj1 : can_join lxcCluster machine m1 c s2).
  { intros Hcpm Hlb. destruct (Hj Hcpm Hlb) as (Hb & Hne' & Hrt). split_and!; [|done|done].
    eapply balanced_kept; [|exact Hb]. intros Hserve. eapply launch_keeps_serving; [exact Hne'|exact Hrun|].
    eapply serving_kept; [exact Hh|intros []|exact Hserve]. }
  destruct (finish_launch_ready ctx cluster lxcCluster machine m1 c s2 Hj1) as (m' & s' & Hfin & Hr & Hid' & Hconds & Haddrs & Hlb & Hjoin).
  { destruct ctx; simpl in *; lia. }
  exists m', addrs, s2, s'. split_and!; try done.
  - unfold condition_of. rewrite Hconds. apply machine_condition_MarkTrue.
  - intros a Ha. rewrite Haddrs. simpl. right. apply list_elem_of_In, in_flat_map. exists a.
    split; [by apply list_elem_of_In|by left].
Qed.

End machine.

(** ** On the server where instances boot for three seconds *)

#[local] Existing Instance sample_templates.
#[local] Existing Instance sample_printer.
#[local] Existing Instance sample_paths.
#[local] Existing Instance sample_yaml.
#[local] Existing Instance reference_capi.
#[local] Existing Instance booting_responsive.

Definition booting_serving (w : booting_world) (n : string) : Prop :=
  match booting_lookup w n with Some (Some _) => True | _ => False end.

Lemma booting_serving_kept A (c : call A) w r w' n :
  booting_handle c w = (r, w') → ¬ touches n (existT A (c, r)) → booting_serving w n → booting_serving w' n.
Proof.
  unfold booting_serving, booting_lookup.
  destruct c as [A conn c|A c|A c]; simpl; destruct c; simpl; try (by intros [= <- <-]).
  - intros [= <- <-] Ht. simpl. rewrite lookup_insert_ne; [done|]. intros Heq. apply Ht. split; [done|]. simpl. by rewrite Heq.
  - intros [= <- <-] Ht. simpl. rewrite lookup_insert_ne; [done|]. intros ->. apply Ht. by split.
  - intros [= <- <-] Ht. simpl. rewrite lookup_delete_ne; [done|]. intros ->. apply Ht. by split.
Qed.

#[local] Instance booting_balancing : Balancing booting_env sample_conn.
Proof.
  refine {| serving := (booting_serving : @world booting_env → _); lbLatency := 0; commandTime := 0;
            executing := (λ w _ n, booting_serving w n) : @world booting_env → _;
            serving_kept := booting_serving_kept |}; try done.
  - intros w n Hs. eexists _, w. split_and!; [done|done|simpl; lia].
  - intros w n path args Hs. eexists _, w. split_and!; [done|done|simpl; lia].
  - intros w n command Hs. eexists _, w. split_and!; [done|done|simpl; lia].
  - intros w n op d Hs _. eexists _, w. split_and!; [done|done|done|done|simpl; lia].
Defined.

(** A world where the load balancer of the cluster serves. *)
Definition balanced_world : booting_world :=
  {| bw_now := 5; bw_instances := {[ GetLoadBalancerInstanceName sample_lxcCluster := Some 0%nat ]};
     bw_configs := ∅ |}.

Definition named_machine : LXCMachine :=
  {| lm_Meta := lm_Meta sample_lxcMachine;
     lm_Spec := {| ms_ProviderID := None; ms_InstanceType := ""; ms_Flavor := "c2-m4"; ms_Profiles := ["default"];
                   ms_Devices := ["eth0,type=nic,network=n1"]; ms_Config := None;
                   ms_Image := {| im_Name := "ubuntu:24.04"; im_Fingerprint := ""; im_Server := ""; im_Protocol := "" |};
                   ms_Target := "" |};
     lm_Status := lm_Status sample_lxcMachine |}.

Definition named_devices : gmap string (gmap string string) := {[ "eth0" := {[ "type" := "nic"; "network" := "n1" ]} ]}.

Definition named_image : option ImageFamily := match ParseImage "ubuntu:24.04" with inr p => p | inl _ => None end.

(** The configuration that a call writes for haproxy. *)
Definition haproxy_written (e : event) : option string :=
  match (projT2 e).1 with
  | CIncus _ (CreateInstanceFile _ path args) =>
      if decide (path = "/etc/haproxy/haproxy.cfg") then Some (fa_Content args) else None
  | _ => None
  end.

(** A machine of the control plane becomes ready, and joins the load balancer:
    it is a server of the one configuration that is written. *)
Lemma machine_becomes_ready_witness :
  ∃ m' s', LXCMachineController.reconcileNormal (E := booting_env) None sample_ready_cluster sample_lxcCluster sample_machine
    named_machine sample_client (@Build_state booting_env balanced_world []) = (Ok (m', inr noResult), s') ∧
    mst_Ready (lm_Status m') = true ∧ mst_LoadBalancerConfigured (lm_Status m') = true ∧
    (∃ s2, joins (E := booting_env) sample_ready_cluster sample_lxcCluster sample_client None s2 s') ∧
    map (λ cfg, Contains cfg ("server " +s+ GetInstanceName named_machine +s+ " 10.0.0.2:6443 weight 100"))
      (omap haproxy_written (@st_log booting_env s')) = [true].
Proof.
  destruct (machine_becomes_ready (E := booting_env) None sample_ready_cluster sample_lxcCluster sample_machine named_machine
    sample_client (@Build_state booting_env balanced_world []) "m1-bootstrap" "#cloud-config"
    (sample_secret {| nn_Namespace := "default"; nn_Name := "m1-bootstrap" |})
    balanced_world (ms_Image (lm_Spec named_machine)) named_devices named_image None
    (match complete "incus" (named_options sample_ready_cluster sample_lxcCluster sample_machine named_machine
       sample_client "#cloud-config" (ms_Image (lm_Spec named_machine)) named_devices named_image None)
     with inr o => o | inl _ => sample_options end))
    as (m' & addrs & s2 & s' & Hr & _ & _ & _ & Hready & _ & _ & _ & Hlb & Hj);
    [first [discriminate|left; reflexivity|exact I|apply Forall_true; intros; exact I|vm_compute; reflexivity
           |intros _ _; split_and!; [split; [reflexivity|vm_compute; exact I]|vm_compute; discriminate|vm_compute; reflexivity]] ..|].
  exists m', s'. split_and!; [exact Hr|exact Hready|apply Hlb; reflexivity| |].
  - exists s2. apply Hj; reflexivity.
  - apply (f_equal snd) in Hr. cbn [snd] in Hr. rewrite <- Hr. vm_compute. reflexivity.
Defined.

Lemma cluster_becomes_ready_witness :
  ∃ c' s', LXCClusterController.reconcileNormal (E := booting_env) None sample_cluster sample_lxcCluster sample_client
    (@Build_state booting_env {| bw_now := 5; bw_instances := ∅; bw_configs := ∅ |} []) = (Ok (c', None), s') ∧
    cst_Ready (lc_Status c') = true.
Proof.
  destruct (cluster_becomes_ready (E := booting_env) None sample_cluster sample_lxcCluster sample_client
    {| lbi_InstanceSpec := mi_spec sample_managerInstance; lbi_CustomHAProxyConfigTemplate := "" |} HaproxyLXCLaunchOptions
    (match complete "incus" (lb_options (instance_manager sample_cluster sample_lxcCluster sample_client
       {| lbi_InstanceSpec := mi_spec sample_managerInstance; lbi_CustomHAProxyConfigTemplate := "" |}) HaproxyLXCLaunchOptions)
     with inr o => o | inl _ => sample_options end)
    (@Build_state booting_env {| bw_now := 5; bw_instances := ∅; bw_configs := ∅ |} []))
    as (c' & addrs & s' & Hr & (_ & Hready & _) & _);
    [first [left; reflexivity|exact I|apply Forall_true; intros; exact I|vm_compute; reflexivity] ..|].
  exists c', s'. split; [exact Hr|exact Hready].
Defined.
