(* ===== verification/Removal.v ===== *)
(** * Machines and clusters go away

    The counterpart of Readiness for deletion. The class [Removing] describes a
    server that stops and deletes instances, the class [Answering] an API
    server that accepts patches. On such servers a machine that is deleted, and
    a cluster without machines that is deleted, lose their finalizer in one
    reconciliation, and nothing of them is left on the server. *)

From S2P Require Import Prelude GoStrings Go Api World Images Launch Instances Template Sample Client Progress Config LoadBalancer Capi LXCCluster LXCMachine Readiness.

(** ** Deleting an instance *)

Inductive holding := Gone | Halted | Live.

(** What an operation that removes is over for. *)
Inductive removal := Stops (name : string) | Deletes (name : string).

Definition removal_done (held : string → holding) (e : removal) : Prop :=
  match e with
  | Stops n => held n = Halted
  | Deletes n => held n = Gone
  end.

Class Removing (E : Env) (conn : Conn) := {
  held : world → string → holding;
  (** the operation is pending, and has this effect *)
  removing : world → Operation → removal → Prop;
  removeLatency : Z;
  removeTime : Z;
  remove_times_nonneg : (0 ≤ removeLatency ∧ 0 ≤ removeTime)%Z;
  (** only a call on the instance brings it back *)
  gone_elapse : ∀ d w n, held w n = Gone → held (elapse d w) n = Gone;
  gone_kept : ∀ A (c : call A) w r w' n,
    handle c w = (r, w') → ¬ touches n (existT A (c, r)) → held w n = Gone → held w' n = Gone;
  gone_reported : ∀ w n, held w n = Gone →
    ∃ e w', handle (CIncus conn (GetInstanceState n)) w = (inl e, w') ∧ held w' n = Gone ∧
      Contains (Error e) "Instance not found" = true ∧ (now w' ≤ now w + removeLatency)%Z;
  state_reported : ∀ w n, held w n ≠ Gone →
    ∃ st w', handle (CIncus conn (GetInstanceState n)) w = (inr st, w') ∧ held w' n = held w n ∧
      (is_Pid st = 0%Z ↔ held w n = Halted) ∧ (now w' ≤ now w + removeLatency)%Z;
  stop_accepted : ∀ w n, held w n = Live →
    ∃ op w', handle (CIncus conn (UpdateInstanceState n "stop" true)) w = (inr op, w') ∧
      removing w' op (Stops n) ∧ (now w' ≤ now w + removeLatency)%Z;
  delete_accepted : ∀ w n, held w n = Halted →
    ∃ op w', handle (CIncus conn (DeleteInstance n)) w = (inr op, w') ∧
      removing w' op (Deletes n) ∧ (now w' ≤ now w + removeLatency)%Z;
  removal_completes : ∀ w op e deadline, removing w op e → (now w + removeTime ≤ deadline)%Z →
    ∃ r w', handle (CIncus conn (WaitContext op (Some deadline))) w = (inr r, w') ∧ wr_err r = None ∧
      removal_done (held w') e ∧ (now w' ≤ now w + removeTime)%Z;
  (** a network load balancer is deleted, or there was none *)
  network_lb_deleted : ∀ w network address,
    ∃ r w', handle (CIncus conn (DeleteNetworkLoadBalancer network address)) w = (r, w') ∧
      match r with inr _ => True | inl e => Contains (Error e) "not found" = true end ∧ (now w' ≤ now w + removeLatency)%Z
}.

Section delete.
Context `{E : Env} `{!EnvTime E} (c : Client) `{R : !Removing E (cli_Conn c)}.

Definition holds (n : string) (h : holding) (s : state) : Prop := held (st_world s) n = h.

Lemma timely_removal d n f s k e :
  timely f s k (λ op s', removing (st_world s') op e) → (now (st_world s) + k + removeTime ≤ d)%Z →
  timely (WaitForOperation c (Some d) n f) s (k + removeTime) (λ _ s', removal_done (held (st_world s')) e).
Proof.
  intros Hf Hd. apply (timely_waited c d n f s k removeTime (λ op w, removing w op e) (λ w, removal_done (held w) e)); [done|].
  intros op w Hw Hp. apply removal_completes; [done|lia].
Qed.

Definition stopTime : Z := (2 * removeLatency + removeTime)%Z.

(** Stopping an instance that is there, running or not. *)
Lemma timely_stop ctx n s :
  ¬ holds n Gone s → (stopTime < instanceStopTimeout)%Z → leaves ctx s stopTime →
  timely (WaitForStopInstance c ctx n) s stopTime (λ _, holds n Halted).
Proof.
  intros Hs Hst Hctx. pose proof remove_times_nonneg as [Hl Ht]. unfold WaitForStopInstance, stopTime in *.
  replace (2 * removeLatency + removeTime)%Z with (0 + (removeLatency + (removeLatency + removeTime)))%Z by lia.
  eapply timely_bind; [apply timely_WithTimeout|]. intros ctx' s' _ (-> & d & -> & Hd & Hleaves).
  apply (Hleaves (2 * removeLatency + removeTime)%Z) in Hctx; [|done]. simpl in Hctx. clear Hleaves.
  destruct (state_reported _ _ Hs) as (st & w & Hh & Hp & Hpid & Hn).
  eapply (timely_bind _ _ _ _ _ (λ st' s', st' = st ∧ held (st_world s') n = held (st_world s) n));
    [apply timely_wrap; by eapply timely_perform|].
  intros st' s1 [Ht1 Ht1'] [-> Hp1]. unfold holds. case_decide as Hz.
  - eapply timely_mono; [apply (timely_ret tt s1 (λ _ s2, s2 = s1)); done|lia|]. intros ? ? ->. rewrite Hp1. by apply Hpid.
  - assert (Hlive : held (st_world s1) n = Live).
    { rewrite Hp1. unfold holds in Hs. destruct (held (st_world s) n) eqn:Hheld; [done| |done]. destruct Hz. by apply Hpid. }
    destruct (stop_accepted _ _ Hlive) as (op & w' & Hh' & Hr & Hn').
    replace (removeLatency + removeTime)%Z with (removeLatency + removeTime + 0)%Z by lia.
    eapply timely_bind; [eapply timely_removal; [by eapply timely_perform|lia]|]. intros r s2 _ Hdone. by apply timely_ret.
Qed.

Definition deletionTime : Z := (stopTime + (removeLatency + removeTime))%Z.

(** Deleting an instance, whether it runs, is stopped or is not there. *)
Lemma timely_delete ctx n s :
  (stopTime < instanceStopTimeout)%Z → (deletionTime < instanceDeleteTimeout)%Z → leaves ctx s deletionTime →
  timely (WaitForDeleteInstance c ctx n) s deletionTime (λ _, holds n Gone).
Proof.
  intros Hst Hdt Hctx. pose proof remove_times_nonneg as [Hl Ht]. unfold WaitForDeleteInstance.
  replace deletionTime with (0 + (stopTime + (removeLatency + removeTime)))%Z by (unfold deletionTime; lia).
  eapply timely_bind; [apply timely_WithTimeout|]. intros ctx' s' _ (-> & d & -> & Hd & Hleaves).
  apply (Hleaves deletionTime) in Hctx; [|done]. simpl in Hctx. unfold deletionTime, stopTime in *. clear Hleaves.
  eapply (timely_bind _ _ _ _ _ (λ r s', match r with
    | inl e => Contains (Error e) "Instance not found" = true ∧ holds n Gone s'
    | inr _ => holds n Halted s' end)).
  - destruct (held (st_world s) n) eqn:Hheld.
    2, 3: eapply timely_mono; [apply timely_try, (timely_stop (Some d) n s); [unfold holds; congruence|unfold stopTime; lia|unfold leaves, stopTime; lia]
      |unfold stopTime; lia|]; by intros r s1 ([] & -> & ?).
    destruct (gone_reported _ _ Hheld) as (e & w & Hh & Hg & Hmsg & Hn).
    unfold WaitForStopInstance, WithTimeout, timely. do 3 wp_step. apply wp_clock. cbn beta iota. apply wp_ret. do 2 wp_step.
    apply wp_perform. intros r w' Hh'. rewrite Hh in Hh'. injection Hh' as <- <-. cbn beta iota.
    pose proof (now_handle _ (CIncus (cli_Conn c) (GetInstanceState n)) (st_world s)) as Hmono. rewrite Hh in Hmono.
    unfold elapsed. cbn [snd st_world after] in *. split_and!; [lia|lia|by apply (Contains_app_r "failed to GetInstanceState: ")|exact Hg].
  - intros [e|u] s1 [Ht1 Ht1'] Hr.
    + destruct Hr as [-> Hg]. eapply timely_mono; [by apply (timely_ret tt s1 (λ _, holds n Gone))|lia|done].
    + destruct (delete_accepted _ _ Hr) as (op & w & Hh & Hrem & Hn).
      replace (removeLatency + removeTime)%Z with (removeLatency + removeTime + 0)%Z by lia.
      eapply timely_bind; [eapply timely_removal; [by eapply timely_perform|lia]|]. intros r s2 _ Hdone. by apply timely_ret.
Qed.

End delete.

(** ** An API server that accepts patches *)

Class Answering (E : Env) := {
  apiLatency : Z;
  api_nonneg : (0 ≤ apiLatency)%Z;
  machine_helper_made : ∀ obj w,
    ∃ u w', handle (CKube (KNewMachinePatchHelper obj)) w = (inr u, w') ∧ (now w' ≤ now w + apiLatency)%Z;
  machine_patch_accepted : ∀ obj owned w,
    ∃ u w', handle (CKube (KPatchMachine obj owned)) w = (inr u, w') ∧ (now w' ≤ now w + apiLatency)%Z;
  cluster_helper_made : ∀ obj w,
    ∃ u w', handle (CKube (KNewClusterPatchHelper obj)) w = (inr u, w') ∧ (now w' ≤ now w + apiLatency)%Z;
  cluster_patch_accepted : ∀ obj owned w,
    ∃ u w', handle (CKube (KPatchCluster obj owned)) w = (inr u, w') ∧ (now w' ≤ now w + apiLatency)%Z;
  (** the cluster of this key has no machines, and gets none while it is deleted *)
  childless : world → NamespacedName → Prop;
  childless_elapse : ∀ d w k, childless w k → childless (elapse d w) k;
  childless_kept : ∀ A (c : call A) w r w' k, handle c w = (r, w') → childless w k → childless w' k;
  childless_listed : ∀ w k, childless w k →
    ∃ w', handle (CKube (KListMachines (nn_Namespace k) {[ ClusterNameLabel := nn_Name k ]})) w = (inr [], w') ∧
      (now w' ≤ now w + apiLatency)%Z
}.

(** A call of Kubernetes that is answered, and what such calls leave alone. *)
Lemma timely_kube `{E : Env} `{!EnvTime E} {A} (c : kcall A) s k (P : world → Prop) :
  (∃ u w', handle (CKube c) (st_world s) = (inr u, w') ∧ (now w' ≤ now (st_world s) + k)%Z) →
  (∀ r w', handle (CKube c) (st_world s) = (r, w') → P w') →
  timely (try (kube c)) s k (λ r s', (∃ u, r = inr u) ∧ P (st_world s')).
Proof.
  intros (u & w & Hh & Hn) HP. eapply (timely_mono _ _ k k); [|lia|].
  - apply timely_try. apply (timely_perform _ _ _ (λ _ s', P (st_world s')) u w); [done|done|]. simpl. by eapply HP.
  - intros r s' (a & -> & ?). eauto.
Qed.

(** ** A machine goes away *)

Section machine.
Import LXCMachineController.
Context `{MapRange} `{TextTemplate} `{Printer} `{ClusterAPI} `{E : Env} `{!EnvTime E} `{A : !Answering E}.
Context (ctx : context) (cluster : Cluster) (lxcCluster : LXCCluster) (machine : Machine) (c : Client).
Context `{R : !Removing E (cli_Conn c)} `{B : !Balancing E (cli_Conn c)}.

(** The load balancer, if any, serves: what [balanced] asks of the world. *)
Definition lb_up (w : world) : Prop :=
  balanced lxcCluster c {| st_world := w; st_log := [] |}.

Lemma lb_up_kept w w' :
  (serving w (GetLoadBalancerInstanceName lxcCluster) → serving w' (GetLoadBalancerInstanceName lxcCluster)) →
  lb_up w → lb_up w'.
Proof. intros Hk. by apply (balanced_kept lxcCluster c {| st_world := w; st_log := [] |} {| st_world := w'; st_log := [] |}). Qed.

(** Reconfiguring the load balancer touches no instance of another name. *)
Lemma reconfigure_untouched n :
  n ≠ GetLoadBalancerInstanceName lxcCluster →
  calls_only (λ e, ¬ touches n e) (Reconfigure (ManagerForCluster cluster lxcCluster c) ctx).
Proof.
  intros Hne. pose proof (ManagerForCluster_spec cluster lxcCluster c) as Hspec.
  eapply calls_only_mono; [|apply Reconfigure_calls]. intros [X [[Y conn call|Y call|Y call] r]]; unfold lb_footprint, touches; simpl; try tauto.
  intros (_ & _ & Hcase) [Hr Hi]. destruct Hcase as [?|[?|Hnet]]; [congruence|congruence|]. by destruct call.
Qed.

(** A machine of the control plane leaves the load balancer of a cluster that stays. *)
Definition leaves_lb : bool := IsControlPlaneMachine machine && negb (is_deleted (cl_Meta cluster)).

Definition leaveTime : Z := if leaves_lb then (3 * lbLatency + commandTime)%Z else 0%Z.

#[local] Notation lb_name := (GetLoadBalancerInstanceName lxcCluster).

Lemma lb_up_untouched {X} (x : M state X) s :
  calls_only (λ e, ¬ touches lb_name e) x → lb_up (st_world s) → lb_up (st_world (x s).2).
Proof.
  apply untouched_kept.
  - intros Y call w r w' Hh Hn. apply lb_up_kept. by eapply serving_kept.
  - intros d w. apply lb_up_kept, serving_elapse.
Qed.

Lemma timely_finish_delete m s :
  om_Name (lm_Meta m) ≠ lb_name → held (st_world s) (om_Name (lm_Meta m)) = Gone → (leaves_lb = true → lb_up (st_world s)) →
  (3 * lbLatency + commandTime < loadBalancerReconfigureTimeout)%Z → leaves ctx s leaveTime →
  timely (finish_delete ctx cluster lxcCluster machine m c) s leaveTime (λ r s',
    r.2 = None ∧ om_Finalizers (lm_Meta r.1) = RemoveFinalizer (om_Finalizers (lm_Meta m)) MachineFinalizer ∧
    held (st_world s') (om_Name (lm_Meta m)) = Gone).
Proof.
  intros Hne Hg Hup Hlt Hctx. unfold finish_delete, leaveTime, leaves_lb in *. destruct (_ && _) eqn:Hcp; [|by apply timely_ret].
  replace (3 * lbLatency + commandTime)%Z with (3 * lbLatency + commandTime + 0)%Z by lia.
  eapply timely_bind.
  - apply timely_try. apply (timely_and _ _ _ (λ _ _, True) (λ w, held w (om_Name (lm_Meta m)) = Gone)).
    + apply timely_Reconfigure; [by eapply (balanced_kept lxcCluster c _ s), Hup|done|done].
    + apply (untouched_kept (λ w, held w (om_Name (lm_Meta m)) = Gone) (om_Name (lm_Meta m)));
        [intros; by eapply gone_kept|intros d w; apply gone_elapse|by apply reconfigure_untouched|done].
  - intros r s1 _ (u & -> & _ & Hg1). by apply timely_ret.
Qed.


End machine.

(** ** A cluster goes away *)

Section cluster.
Import LXCClusterController.
Context `{MapRange} `{TextTemplate} `{Printer} `{ClusterAPI} `{E : Env} `{!EnvTime E} `{A : !Answering E}.
Context (ctx : context) (cluster : Cluster) (client : Client) `{R : !Removing E (cli_Conn client)}.

(** Whether the load balancer is an instance of the provider. *)
Definition runs_haproxy (c : LXCCluster) : bool :=
  let lb := cs_LoadBalancer (lc_Spec c) in bool_decide (is_Some (lb_LXC lb)) || bool_decide (is_Some (lb_OCI lb)).

Lemma timely_lb_delete c s :
  (stopTime client < instanceStopTimeout)%Z → (deletionTime client < instanceDeleteTimeout)%Z →
  leaves ctx s (deletionTime client) →
  timely (Delete (ManagerForCluster cluster c client) ctx) s (deletionTime client) (λ _ s',
    runs_haproxy c = true → held (st_world s') (GetLoadBalancerInstanceName c) = Gone).
Proof.
  intros Hst Hdt Hctx. pose proof remove_times_nonneg as [Hl Ht]. unfold ManagerForCluster, runs_haproxy.
  assert (Hret : timely (ret tt) s (deletionTime client) (λ _ _, True)).
  { eapply timely_mono; [by apply (timely_ret tt s (λ _ _, True))|unfold deletionTime, stopTime; lia|done]. }
  assert (Hdel : ∀ pre, timely (wrap pre (WaitForDeleteInstance client ctx (GetLoadBalancerInstanceName c))) s (deletionTime client)
    (λ _ s', held (st_world s') (GetLoadBalancerInstanceName c) = Gone)) by (intros pre; by apply timely_wrap, timely_delete).
  destruct (lb_LXC _) as [l|]; [eapply timely_mono; [apply Hdel|done|by auto]|].
  destruct (lb_OCI _) as [l|]; [eapply timely_mono; [apply Hdel|done|by auto]|].
  destruct (lb_OVN _) as [l|].
  - destruct (network_lb_deleted (st_world s) (ovn_NetworkName l) (ep_Host (cs_ControlPlaneEndpoint (lc_Spec c)))) as (r & w & Hh & Hr & Hn).
    simpl. unfold managerOVN_Delete, timely. do 2 wp_step. apply wp_perform. simpl. intros r' w' Hh'. rewrite Hh in Hh'. injection Hh' as <- <-.
    pose proof (now_handle _ (CIncus (cli_Conn client) (DeleteNetworkLoadBalancer (ovn_NetworkName l) (ep_Host (cs_ControlPlaneEndpoint (lc_Spec c))))) (st_world s)) as Hm.
    rewrite Hh in Hm. unfold elapsed, deletionTime, stopTime. destruct r as [e|u]; simpl in *; [rewrite Hr; simpl|]; apply wp_ret; (split; [simpl; lia|done]).
  - destruct (lb_External _); [eapply timely_mono; [exact Hret|done|done]|]. destruct (lb_KubeVIP _); (eapply timely_mono; [exact Hret|done|done]).
Qed.

(** The cluster has no machine left, over any computation. *)
Lemma childless_run {X} (x : M state X) s k :
  calls_only (λ _, True) x → childless (st_world s) k → childless (st_world (x s).2) k.
Proof.
  intros Hc Hs. destruct (Hc s) as (evs & Hp & Hf).
  eapply (path_ind_keeps (λ s, childless (st_world s) k)); [| |exact Hp|exact Hf|exact Hs].
  - intros Y call y w s0 Hh _ Hs0. by eapply childless_kept.
  - intros d s0. apply childless_elapse.
Qed.

Lemma timely_no_machines s k :
  childless (st_world s) k →
  timely (GetMachinesForCluster k []) s apiLatency
    (λ ms s', ms = ∅ ∧ ∀ n, held (st_world s) n = Gone → held (st_world s') n = Gone).
Proof.
  intros Hc. destruct (childless_listed _ _ Hc) as (w & Hh & Hn). unfold GetMachinesForCluster.
  replace apiLatency with (apiLatency + 0)%Z by lia.
  eapply (timely_bind _ _ _ _ _ (λ ml s', ml = [] ∧ ∀ n, held (st_world s) n = Gone → held (st_world s') n = Gone)).
  - apply timely_wrap. eapply timely_perform; [exact Hh|exact Hn|]. split; [done|]. intros n. eapply gone_kept; [exact Hh|intros []].
  - intros ml s' _ [-> Hk]. by apply timely_ret.
Qed.

Definition goneTime : Z := (2 * apiLatency + deletionTime client + apiLatency)%Z.

(** C17: A cluster that is deleted goes away in one reconciliation on servers that do
    their part, once its machines are gone, whatever its load balancer is: an
    instance of a load balancer, running, stopped or never made, is gone from the
    server, and the finalizer of the provider is taken off the object. *)
Theorem cluster_goes_away (c : LXCCluster) (s : state) :
  childless (st_world s) (key_of (cl_Meta cluster)) →
  (stopTime client < instanceStopTimeout)%Z → (deletionTime client < instanceDeleteTimeout)%Z →
  leaves ctx s (2 * apiLatency + deletionTime client) →
  ∃ c' s', reconcileDelete ctx cluster c client s = (Ok (c', inr noResult), s') ∧
    (runs_haproxy c = true → held (st_world s') (GetLoadBalancerInstanceName c) = Gone) ∧
    (∀ f, f ∈ om_Finalizers (lc_Meta c') ↔ f ∈ om_Finalizers (lc_Meta c) ∧ f ≠ ClusterFinalizer) ∧
    (now (st_world s') ≤ now (st_world s) + goneTime)%Z.
Proof.
  intros Hc Hst Hdt Hctx. set (k := key_of (cl_Meta cluster)) in *. pose proof api_nonneg as Ha.
  destruct (timely_run (reconcileDelete ctx cluster c client) s (apiLatency + (apiLatency + (deletionTime client + (apiLatency + 0))))
    (λ r s', r.2 = inr noResult ∧ om_Finalizers (lc_Meta r.1) = RemoveFinalizer (om_Finalizers (lc_Meta c)) ClusterFinalizer ∧
      (runs_haproxy c = true → held (st_world s') (GetLoadBalancerInstanceName c) = Gone)))
    as ([c' res] & s' & Hrun & (Hres & Hfin & Hg) & Hn); [|simpl in *; subst res; exists c', s'; split_and!;
      [done|done|intros f; rewrite Hfin; apply RemoveFinalizer_spec|unfold goneTime; lia]].
  unfold reconcileDelete.
  eapply timely_bind; [apply (timely_kube _ _ _ (λ w, childless w k)); [apply cluster_helper_made|intros r w' Hh; by eapply childless_kept]|].
  intros r s1 [Ht1 Ht1'] [[u ->] Hc1]. cbn beta iota.
  eapply timely_bind; [apply (timely_kube _ _ _ (λ w, childless w k)); [apply cluster_patch_accepted|intros r w' Hh; by eapply childless_kept]|].
  intros r s2 [Ht2 Ht2'] [[u' ->] Hc2]. cbn beta iota. set (c1 := summarize _).
  eapply timely_bind.
  - apply timely_try. apply (timely_and _ _ _ (λ _ s', runs_haproxy c1 = true → held (st_world s') (GetLoadBalancerInstanceName c1) = Gone)
      (λ w, childless w k)).
    + apply timely_lb_delete; [done|done|]. destruct ctx; simpl in *; lia.
    + apply childless_run; [|done]. pose proof (ManagerForCluster_spec cluster c1 client) as Hspec.
      eapply calls_only_mono; [|apply Delete_calls]. done.
  - intros r s3 _ (u3 & -> & Hg3 & Hc3). cbn beta iota.
    eapply timely_bind; [by apply timely_try, timely_no_machines|]. intros r s4 _ (ms & -> & -> & Hk). cbn beta iota.
    apply timely_ret. split_and!; [done|done|]. intros Hh. by apply Hk, Hg3.
Qed.

End cluster.

(** ** On the server where instances boot for three seconds *)

#[local] Existing Instance sample_templates.
#[local] Existing Instance sample_printer.
#[local] Existing Instance reference_capi.
#[local] Existing Instance booting_balancing.

Definition booting_held (w : booting_world) (n : string) : holding :=
  match booting_lookup w n with None => Gone | Some None => Halted | Some (Some _) => Live end.

Lemma booting_gone w n : booting_held w n = Gone ↔ booting_lookup w n = None.
Proof. unfold booting_held. by destruct (booting_lookup w n) as [[]|]. Qed.

Lemma booting_gone_kept A (c : call A) w r w' n :
  booting_handle c w = (r, w') → ¬ touches n (existT A (c, r)) → booting_held w n = Gone → booting_held w' n = Gone.
Proof.
  rewrite !booting_gone. unfold booting_lookup.
  destruct c as [A conn c|A c|A c]; simpl; destruct c; simpl; try (by intros [= <- <-]).
  - intros [= <- <-] Ht. simpl. rewrite lookup_insert_ne; [done|]. intros Heq. apply Ht. split; [done|]. simpl. by rewrite Heq.
  - intros [= <- <-] Ht. simpl. rewrite lookup_insert_ne; [done|]. intros ->. apply Ht. by split.
  - intros [= <- <-] Ht. simpl. intros Hn. by apply lookup_delete_None; right.
Qed.

#[local] Instance booting_removing : Removing booting_env sample_conn.
Proof.
  refine {| held := (booting_held : @world booting_env → _); removeLatency := 0; removeTime := 0;
            removing := (λ w _ e, removal_done (booting_held w) e) : @world booting_env → _;
            gone_kept := booting_gone_kept |}; try done.
  - intros w n Hg. pose proof (proj1 (booting_gone w n) Hg) as Hn. exists (not_found "Instance"), w. simpl. rewrite Hn.
    split_and!; [done|done|vm_compute; reflexivity|lia].
  - intros w n Hg. simpl in *. unfold booting_held in *. destruct (booting_lookup w n) as [[r|]|] eqn:Hn; [| |done]; eexists _, w;
      rewrite Hn; (split_and!; [done|done|unfold booting_state; by split; try case_bool_decide|simpl; lia]).
  - intros w n Hl. eexists _, _. split_and!; [done| |simpl; lia]. simpl. unfold booting_held, booting_lookup. simpl.
    by rewrite lookup_insert_eq.
  - intros w n Hh. eexists _, _. split_and!; [done| |simpl; lia]. simpl. unfold booting_held, booting_lookup. simpl.
    by rewrite lookup_delete_eq.
  - intros w op e d Hr _. eexists _, w. split_and!; [done|done|exact Hr|simpl; lia].
  - intros w n a. eexists _, w. split_and!; [done|vm_compute; reflexivity|simpl; lia].
Defined.

#[local] Instance booting_answering : Answering booting_env.
Proof.
  refine {| apiLatency := 0; childless := λ _ _, True |}; try done;
    intros; eexists _, _ || eexists _; (split; [done|simpl; lia]).
Defined.

(** The machine of the control plane leaves the cluster while it runs. *)
Definition leaving_world : booting_world :=
  {| bw_now := 9000;
     bw_instances := <[om_Name (lm_Meta sample_lxcMachine) := Some 3000%nat]> (bw_instances balanced_world);
     bw_configs := ∅ |}.


Lemma cluster_goes_away_witness :
  ∃ c' s', LXCClusterController.reconcileDelete (E := booting_env) None sample_cluster sample_lxcCluster sample_client
    (@Build_state booting_env balanced_world []) = (Ok (c', inr noResult), s') ∧
    booting_held (@st_world booting_env s') (GetLoadBalancerInstanceName sample_lxcCluster) = Gone.
Proof.
  destruct (cluster_goes_away (E := booting_env) None sample_cluster sample_client sample_lxcCluster
    (@Build_state booting_env balanced_world [])) as (c' & s' & Hrun & Hg & _);
    [exact I|vm_compute; reflexivity|vm_compute; reflexivity|exact I|].
  exists c', s'. split; [exact Hrun|apply Hg; reflexivity].
Defined.
