(* ===== verification/Histories.v ===== *)
(** * Histories of reconciliations

    What the controllers of machines and of clusters have in common: one run
    of [Reconcile] is a step in a longer history, in which the manager runs it
    again and again for the same object while users and other controllers
    change the cluster in between. A run is classified by its calls: the
    patches it makes of objects of its kind, the things it asks the Incus
    server for, and whether it has seen that they are gone. From this
    classification of one run the theorem [history_guarded] says what holds
    along every history. *)

From S2P Require Import Prelude GoStrings Go Api World Images Launch Client.

(** ** The calls of one run *)

Section runs.
Context `{E : Env}.

(** The metadata of the object of this kind that a call writes; the calls that
    ask the server for something; the finalizer of the kind; and the calls
    that show that what was asked for is gone. *)
Context (patched : event → option ObjectMeta) (asks : event → bool) (finalizer : string).
Context (gone : ObjectMeta → list event → Prop).
Context (gone_app : ∀ m pre evs post, gone m evs → gone m (pre ++ evs ++ post)).

(** A patch of an object that satisfies [P], or another call. *)
Definition patching (P : ObjectMeta → Prop) (e : event) : Prop :=
  match patched e with Some m => P m | None => True end.

(** Neither a patch nor a request. *)
Definition quiet (e : event) : Prop := patched e = None ∧ asks e = false.

(** The call writes the object [k] without the finalizer. *)
Definition drops (k : NamespacedName) (e : event) : Prop :=
  match patched e with Some m => object_key m = k ∧ finalizer ∉ om_Finalizers m | None => False end.

Lemma patching_mono (P Q : ObjectMeta → Prop) e : (∀ m, P m → Q m) → patching P e → patching Q e.
Proof. intros HPQ. unfold patching. destruct (patched e); auto. Qed.

Lemma patchings_mono (P Q : ObjectMeta → Prop) evs :
  (∀ m, P m → Q m) → Forall (patching P) evs → Forall (patching Q) evs.
Proof. intros HPQ Hf. eapply Forall_impl; [exact Hf|]. intros e. by apply patching_mono. Qed.

Lemma quiet_patches P evs : Forall quiet evs → Forall (patching P) evs.
Proof. intros Hq. eapply Forall_impl; [exact Hq|]. intros e [He _]. unfold patching. by rewrite He. Qed.

Lemma quiet_asks evs : Forall quiet evs → Forall (λ e, asks e = false) evs.
Proof. by intros [_ Hn]%Forall_and. Qed.

Lemma none_dropped (P : ObjectMeta → Prop) k evs :
  Forall (patching P) evs → (∀ m, P m → object_key m = k → finalizer ∈ om_Finalizers m) →
  Forall (λ e, ¬ drops k e) evs.
Proof.
  intros Hf Hk. eapply Forall_impl; [exact Hf|]. intros e. unfold patching, drops.
  destruct (patched e) as [m|]; [|tauto]. intros HP [Hkey Hnot]. by apply Hnot, Hk.
Qed.

(** What a run does with an object of this metadata: it patches nothing else;
    without the finalizer it asks for nothing; with it, it keeps it, or asks
    for nothing and has seen that what was asked for is gone. *)
Definition run_class (m : ObjectMeta) (evs : list event) : Prop :=
  Forall (patching (λ m', object_key m' = object_key m)) evs ∧
  if decide (finalizer ∈ om_Finalizers m) then
    Forall (patching (λ m', finalizer ∈ om_Finalizers m')) evs ∨ (Forall (λ e, asks e = false) evs ∧ gone m evs)
  else Forall (λ e, asks e = false) evs.

Lemma run_class_quiet m evs : Forall quiet evs → run_class m evs.
Proof.
  intros Hq. split; [by apply quiet_patches|]. case_decide; [left; by apply quiet_patches|by apply quiet_asks].
Qed.

Lemma run_class_app m pre evs : Forall quiet pre → run_class m evs → run_class m (pre ++ evs).
Proof.
  intros Hq [Hk Hc]. split; [apply Forall_app; split; [by apply quiet_patches|done]|].
  case_decide; [destruct Hc as [Hc|[Hn Hg]]; [left|right; split]|].
  - apply Forall_app. split; [by apply quiet_patches|done].
  - apply Forall_app. split; [by apply quiet_asks|done].
  - replace evs with (evs ++ []) by apply app_nil_r. by apply gone_app.
  - apply Forall_app. split; [by apply quiet_asks|done].
Qed.

(** A property of the events, if the answers are [lawful]. *)
Section lawful.
Context (lawful : event → Prop).

Definition if_lawful (Q : list event → Prop) (evs : list event) : Prop := Forall lawful evs → Q evs.

Lemma if_lawful_quiet m evs : Forall quiet evs → if_lawful (run_class m) evs.
Proof. intros Hq _. by apply run_class_quiet. Qed.

Lemma if_lawful_app m pre evs :
  Forall quiet pre → if_lawful (run_class m) evs → if_lawful (run_class m) (pre ++ evs).
Proof. intros Hq Hc [_ Hl]%Forall_app. apply run_class_app; auto. Qed.

End lawful.

(** ** Histories *)

Section histories.
Context {R : Type} (run : context → M state R) (k : NamespacedName) (stored : world → option ObjectMeta).

(** The object is stored, and has the finalizer. *)
Definition has_finalizer (w : world) : Prop :=
  match stored w with Some m => finalizer ∈ om_Finalizers m | None => False end.

Definition guarded (s : state) : Prop := has_finalizer (st_world s).

(** [history h s]: from some state the manager ran the reconciliations of [h]
    for the object [k], one after the other, each with the calls it made, and
    the world is now in [s]. Between two runs anything may happen that leaves
    the finalizer of the provider where it is. *)
Inductive history : list (list event) → state → Prop :=
| history_start s : history [] s
| history_run h s ctx evs :
    history h s → st_log (run ctx s).2 = st_log s ++ evs → history (h ++ [evs]) (run ctx s).2
| history_others h s s' : history h s → (guarded s → guarded s') → history h s'.

(** What holds of the calls of every run holds of every entry of a history. *)
Lemma history_runs (P : list event → Prop) h s :
  (∀ ctx, traces (run ctx) (λ _, P)) → history h s → Forall P h.
Proof.
  intros HP. induction 1 as [s|h s ctx evs _ IH Hlog|]; [by apply Forall_nil| |done].
  apply Forall_app. split; [done|]. apply Forall_singleton. destruct (HP ctx s) as (evs' & Hlog' & HQ).
  rewrite Hlog in Hlog'. by apply app_inv_head in Hlog' as ->.
Qed.

(** What the API server does with finalizers. *)
Context (finalizer_stays : ∀ A (c : call A) w r w',
  handle c w = (r, w') → ¬ drops k (existT A (c, r)) → has_finalizer w → has_finalizer w').
Context (finalizer_elapse : ∀ d w, has_finalizer w → has_finalizer (elapse d w)).

(** A run is quiet, or starts with a call by which it knows the object that is
    stored, and goes on with what [run_class] allows for it. *)
Definition classified (s : state) (evs : list event) (s' : state) : Prop :=
  Forall quiet evs ∨
  ∃ ev evs' m s1, evs = ev :: evs' ∧ quiet ev ∧ path s [ev] s1 ∧ stored (st_world s1) = Some m ∧ object_key m = k ∧
    path s1 evs' s' ∧ run_class m evs'.

(** A call that asks for the thing the history is about. *)
Context (wants : event → Prop) (wants_asks : ∀ e, wants e → asks e = true).

(** The runs of the history that ask for it are the ones that [admitted]
    speaks of: a condition on the calls of the run. *)
Context (admitted : list event → Prop).
Context (run_classified : ∀ ctx s, ∃ evs, path s evs (run ctx s).2 ∧ (admitted evs → classified s evs (run ctx s).2)).

Lemma path_guarded s evs s' : path s evs s' → Forall (λ e, ¬ drops k e) evs → guarded s → guarded s'.
Proof.
  apply (path_ind_keeps guarded).
  - intros A c r w s0 Hh Hd Hg. by eapply finalizer_stays.
  - intros d s0 Hg. by apply finalizer_elapse.
Qed.

Lemma quiet_none_dropped k' evs : Forall quiet evs → Forall (λ e, ¬ drops k' e) evs.
Proof. intros Hq. by apply (none_dropped (λ _, False)); [apply quiet_patches|]. Qed.

(** What one run does to the finalizer, what it asked for, and that it takes no
    other object's finalizer. *)
Lemma run_step ctx s evs :
  st_log (run ctx s).2 = st_log s ++ evs → admitted evs →
  (guarded s → guarded (run ctx s).2 ∨ ∃ m, object_key m = k ∧ gone m evs) ∧
  (Exists wants evs → guarded (run ctx s).2) ∧
  (∀ k', k' ≠ k → Forall (λ e, ¬ drops k' e) evs).
Proof.
  intros Hlog Had. destruct (run_classified ctx s) as (evs' & Hp & Hcl).
  pose proof (path_log _ _ _ Hp) as Hlog'. rewrite Hlog in Hlog'. apply app_inv_head in Hlog' as <-.
  assert (Hwant : ∀ l, Forall (λ e, asks e = false) l → ¬ Exists wants l).
  { intros l Hn (e & He & Hw%wants_asks)%Exists_exists. eapply Forall_forall in Hn; [|done]. simpl in Hn. congruence. }
  destruct (Hcl Had) as [Hq|(ev & evs' & m & s1 & -> & Hev & Hp1 & Hs & Hk & Hp' & Hkey & Hc)].
  { split_and!; [left; eapply path_guarded; [exact Hp|by apply quiet_none_dropped|done]
      |intros Hcr; by apply Hwant in Hcr; [|apply quiet_asks]|intros k' _; by apply quiet_none_dropped]. }
  assert (Hkeep : Forall (patching (λ m', finalizer ∈ om_Finalizers m')) evs' → guarded s1 → guarded (run ctx s).2).
  { intros Hf. eapply path_guarded; [exact Hp'|]. by eapply none_dropped. }
  assert (Hq1 : Forall quiet [ev]) by (by apply Forall_singleton).
  split_and!.
  - intros Hg. assert (Hg1 : guarded s1) by (eapply path_guarded; [exact Hp1|by apply quiet_none_dropped|done]).
    pose proof Hg1 as Hfin. unfold guarded, has_finalizer in Hfin. rewrite Hs in Hfin.
    rewrite decide_True in Hc by done. destruct Hc as [Hf|[_ Hgone]]; [left; by apply Hkeep|right].
    exists m. split; [done|]. rewrite <- (app_nil_r evs'). by apply (gone_app _ [_]).
  - intros Hcr. apply Exists_cons in Hcr as [Hcr|Hcr]; [apply wants_asks in Hcr; destruct Hev; congruence|].
    case_decide as Hfin; [|by apply Hwant in Hcr].
    destruct Hc as [Hf|[Hn _]]; [|by apply Hwant in Hcr]. apply Hkeep; [done|]. unfold guarded, has_finalizer. by rewrite Hs.
  - intros k' Hne. apply (Forall_app_2 _ [ev]); [by apply quiet_none_dropped|].
    eapply none_dropped; [exact Hkey|]. congruence.
Qed.

(** Along every history of admitted runs: when a run asked for the thing, then
    the object is still stored with its finalizer, or a later run has seen that
    the thing is gone; and no run takes the finalizer of another object. *)
Lemma history_guarded h s :
  history h s → Forall admitted h →
  (∀ i evs, h !! i = Some evs → Exists wants evs →
     guarded s ∨ ∃ j evs' m, i < j ∧ h !! j = Some evs' ∧ object_key m = k ∧ gone m evs') ∧
  (∀ k' evs, k' ≠ k → evs ∈ h → Forall (λ e, ¬ drops k' e) evs).
Proof.
  induction 1 as [s|h s ctx evs0 Hh IH Hlog|h s s' Hh IH Hw]; intros Had.
  - split; [done|]. intros k' evs _ Hin. by apply not_elem_of_nil in Hin.
  - apply Forall_app in Had as [Had [Had0 _]%Forall_cons]. destruct (IH Had) as [IH1 IH2].
    destruct (run_step _ _ _ Hlog Had0) as (Hkeep & Hcreate & Hothers). split.
    + intros i evs Hi Hcr. apply lookup_snoc_Some in Hi as [[Hlt Hi]|[-> ->]]; [|left; auto].
      destruct (IH1 _ _ Hi Hcr) as [Hg|(j & evs' & m & Hj & Hj' & Hgone)].
      * destruct (Hkeep Hg) as [?|(m & Hm & Hgone)]; [by left|right]. exists (length h), evs0, m.
        split_and!; [done|by rewrite lookup_app_r, Nat.sub_diag by lia|done|done].
      * right. exists j, evs', m. split_and!; [done|by apply lookup_app_l_Some|apply Hgone..].
    + intros k' evs Hne [Hin|Hin%list_elem_of_singleton]%elem_of_app; [by eapply IH2|]. subst. auto.
  - destruct (IH Had) as [IH1 IH2]. split; [|done]. intros i evs Hi Hcr.
    destruct (IH1 _ _ Hi Hcr) as [Hg|Hex]; [left; by apply Hw|by right].
Qed.

End histories.

End runs.
