(* ===== verification/Lifecycle.v ===== *)
(** * The life of a machine, over many reconciliations

    This file states what the API server promises about the finalizers of
    machines (the class [Kubernetes]), classifies the runs of [Reconcile] of
    the machine controller, and concludes with [no_orphans]: along every
    history the finalizer that the controller puts on a machine before it asks
    for an instance is still there, or the instance was seen to be gone. *)

From S2P Require Import Prelude GoStrings Go Api World Images Launch Instances Template Sample Client Config LoadBalancer Capi Histories LXCMachine.

Import LXCMachineController.

(** ** What the API server promises *)

(** The metadata of the machine that a call writes. *)
Definition machine_patched (e : event) : option ObjectMeta :=
  match (projT2 e).1 with CKube (KPatchMachine obj _) => Some (lm_Meta obj) | _ => None end.

#[local] Notation machine_drops := (drops machine_patched MachineFinalizer).

(** The API server, as the runs for the machine [k] see it: [stored w] is the
    machine stored under that key. Whatever else happens in the cluster while
    the program waits for an answer, the runs for other machines that go on at
    the same time included, is part of the step of the world, so the laws also
    say what the others do: they do not take the finalizer of the provider off
    the machine [k], and an object with a finalizer stays. A read is answered
    from what is stored at that time. *)
Class Kubernetes (E : Env) (k : NamespacedName) := {
  stored : world → option LXCMachine;
  (** [client.Get] *)
  get_stored : ∀ w m w', handle (CKube (KGetLXCMachine k)) w = (inr m, w') →
    object_key (lm_Meta m) = k ∧ stored w' = Some m;
  (** [finalizers.EnsureFinalizer] adds nothing to an object that is deleted or
      has the finalizer *)
  ensure_unchanged : ∀ obj w obj' w',
    handle (CKube (KEnsureMachineFinalizer obj MachineFinalizer)) w = (inr (false, obj'), w') →
    lm_Meta obj' = lm_Meta obj ∧
    (is_deleted (lm_Meta obj) = true ∨ MachineFinalizer ∈ om_Finalizers (lm_Meta obj));
  (** [paused.EnsurePausedCondition] *)
  paused_unchanged : ∀ cluster obj w obj' w',
    handle (CKube (KEnsureMachinePaused cluster obj)) w = (inr (false, false, obj'), w') →
    lm_Meta obj' = lm_Meta obj;
  (** finalizers *)
  finalizer_stays : ∀ A (c : call A) w r w',
    handle c w = (r, w') → ¬ machine_drops k (existT A (c, r)) →
    has_finalizer MachineFinalizer (λ w, lm_Meta <$> stored w) w →
    has_finalizer MachineFinalizer (λ w, lm_Meta <$> stored w) w';
  finalizer_elapse : ∀ d w,
    has_finalizer MachineFinalizer (λ w, lm_Meta <$> stored w) w →
    has_finalizer MachineFinalizer (λ w, lm_Meta <$> stored w) (elapse d w)
}.

(** ** The calls of one reconciliation *)

(** The call asks for an instance; for one with this name. *)
Definition asks_instance (e : event) : bool :=
  match (projT2 e).1 with CIncus _ (CreateInstance _) => true | _ => false end.

Definition ev_creates (name : string) (e : event) : Prop :=
  match (projT2 e).1 with CIncus _ (CreateInstance post) => ip_Name post = name | _ => False end.

#[export] Instance ev_creates_dec name e : Decision (ev_creates name e).
Proof. destruct e as [A [c r]]. destruct c as [B conn c|B c|B c]; [destruct c|..]; unfold ev_creates; simpl; apply _. Defined.

(** The server at this place reported that the project has no such instance, or
    deleted it. *)
Definition instance_gone (p : place) (name : string) (evs : list event) : Prop :=
  ∃ conn evs1 evs2 evs3, place_of conn = p ∧ evs = evs1 ++ evs2 ++ evs3 ∧
    (reported_missing conn name evs2 ∨ deleted conn name evs2).

Lemma instance_gone_app p name pre evs post : instance_gone p name evs → instance_gone p name (pre ++ evs ++ post).
Proof.
  intros (conn & e1 & e2 & e3 & Hp & -> & He). exists conn, (pre ++ e1), e2, (e3 ++ post). by rewrite <- !app_assoc.
Qed.

(** With [None], nothing is asked: of the place where a run works, and of what
    was seen. *)
Definition located (x : option place) (c : Client) : Prop :=
  match x with Some p => place_of (cli_Conn c) = p | None => True end.

#[export] Instance located_dec x c : Decision (located x c).
Proof. destruct x; simpl; apply _. Defined.

Definition expected (x : option place) (evs : list event) : Prop :=
  match x with Some p => credentials p evs | None => True end.

Definition machine_gone (x : option place) (m : ObjectMeta) (evs : list event) : Prop :=
  match x with Some p => instance_gone p (om_Name m) evs | None => True end.

Lemma machine_gone_app x m pre evs post : machine_gone x m evs → machine_gone x m (pre ++ evs ++ post).
Proof. destruct x; [apply instance_gone_app|done]. Qed.

#[local] Notation patching := (patching machine_patched).
#[local] Notation quiet := (quiet machine_patched asks_instance).

Lemma not_create_asks_not e : not_create e → asks_instance e = false.
Proof. unfold not_create, incus_event, asks_instance. destruct (projT2 e) as [[A conn c|A c|A c] r]; try done. by destruct c. Qed.

Lemma creates_asks name e : ev_creates name e → asks_instance e = true.
Proof. unfold ev_creates, asks_instance. destruct (projT2 e).1 as [A conn c|A c|A c]; try done. by destruct c. Qed.

Section runs.
Context `{MapRange} `{YAML} `{TextTemplate} `{Printer} `{CliPaths} `{ClusterAPI} `{E : Env}.

(** *** Connecting *)

(** After a secret and the connection made with it, the client is where the
    credentials of the run say, and the calls so far were made there. *)
Lemma traces_New_located secret :
  traces (New (ConfigurationFromKubernetesSecret secret)) (λ o evs, ∀ x pre key rest,
    omap secret_of pre = [] → omap connection_of pre = [] →
    expected x (pre ++ answered (CKube (KGetSecret key)) (inr secret) :: evs ++ rest) →
    (∀ p, x = Some p → Forall (at_place p) evs) ∧ match o with Ok c => located x c | _ => True end).
Proof.
  eapply traces_mono; [apply traces_New_place|]. intros o evs Ho x pre key rest Hs Hc. destruct x as [p|]; simpl.
  - intros Hp%credentials_opened; [|done..]. destruct (Ho p Hp). split; [by intros ? [= <-]|done].
  - intros _. split; [done|]. by destruct o.
Qed.

(** The calls of a run before it connects: none reads a secret. *)
Definition opening (pre : list event) : Prop := omap secret_of pre = [] ∧ omap connection_of pre = [].

Lemma opening_app pre pre' : opening pre → opening pre' → opening (pre ++ pre').
Proof. intros [Hs Hc] [Hs' Hc']. split; by rewrite omap_app, ?Hs, ?Hc. Qed.

(** What is done with a client goes where the credentials say, when it goes
    where the client is. *)
Lemma placed_connect {A} p pre0 secret (f : Client → M state A) :
  (∀ c, place_of (cli_Conn c) = p → calls_only (at_place p) (f c)) → (∀ c, calls_only (λ _, True) (f c)) →
  traces (let! c := wrap pre0 (New (ConfigurationFromKubernetesSecret secret)) in f c) (λ _ evs, ∀ pre key, opening pre →
    credentials p (pre ++ answered (CKube (KGetSecret key)) (inr secret) :: evs) → Forall (at_place p) evs).
Proof.
  intros Hf Hany. do 2 tr_step. eapply traces_mono; [apply traces_New_located|]. intros o evs Hl.
  assert (Hnew : ∀ pre key rest, opening pre →
    credentials p (pre ++ answered (CKube (KGetSecret key)) (inr secret) :: evs ++ rest) →
    Forall (at_place p) evs ∧ match o with Ok c => place_of (cli_Conn c) = p | _ => True end).
  { intros pre key rest [Hs Hc] Hexp. destruct (Hl (Some p) pre key rest) as [Hp Ho]; try done. split; [by apply Hp|done]. }
  assert (Hstop : ∀ pre key, opening pre →
    credentials p (pre ++ answered (CKube (KGetSecret key)) (inr secret) :: evs) → Forall (at_place p) evs)
    by (intros pre key Hpre Hexp; apply (Hnew pre key []); [done|by rewrite app_nil_r]).
  destruct o as [c|err|msg|]; try done. destruct (decide (place_of (cli_Conn c) = p)) as [Hp|Hp].
  - eapply traces_mono; [by apply traces_calls_only, Hf|]. intros o evs' Hf' pre key Hpre Hexp.
    apply Forall_app. split; [by eapply Hnew|done].
  - eapply traces_mono; [by apply (traces_calls_only (λ _, True))|]. intros o evs' _ pre key Hpre Hexp.
    destruct Hp. by eapply Hnew.
Qed.

(** *** Handlers *)

Context (x : option place).

#[local] Notation run_class := (run_class machine_patched asks_instance MachineFinalizer (machine_gone x)).

Lemma quiet_New config : calls_only quiet (New config).
Proof. by apply calls_New_within. Qed.

Lemma patches_reconfigure `{!EnvTime E} P ctx cluster lxcCluster c :
  calls_only (λ e, patching P e ∧ asks_instance e = false) (Reconfigure (ManagerForCluster cluster lxcCluster c) ctx).
Proof.
  pose proof (ManagerForCluster_spec cluster lxcCluster c) as Hspec. apply calls_only_and.
  - eapply calls_only_mono; [|apply Reconfigure_calls].
    intros [A [[B conn call|B call|B call] r]]; done.
  - eapply calls_only_mono; [|apply Reconfigure_creates_nothing]. apply not_create_asks_not.
Qed.

Lemma patches_launchInstance ctx cluster lxcCluster machine m c cloudInit P :
  calls_only (patching P) (launchInstance ctx cluster lxcCluster machine m c cloudInit).
Proof. by apply calls_launchInstance. Qed.

Lemma patches_reconcileNormal `{!EnvTime E} P ctx cluster lxcCluster machine m c :
  calls_only (patching P) (reconcileNormal ctx cluster lxcCluster machine m c).
Proof.
  assert (Hl := patches_launchInstance).
  assert (Hr : calls_only (patching P) (Reconfigure (ManagerForCluster cluster lxcCluster c) ctx))
    by (eapply calls_only_mono; [|apply (patches_reconfigure P)]; by intros e [? _]).
  unfold reconcileNormal, check_instance, getBootstrapData, finish_launch. calls_auto; apply Hl.
Qed.

Lemma patches_reconcileDelete `{!EnvTime E} ctx cluster lxcCluster machine m c :
  calls_only (λ e, patching (λ m', m' = lm_Meta m) e ∧ asks_instance e = false)
    (reconcileDelete ctx cluster lxcCluster machine m c).
Proof.
  assert (Hr := λ ctx, patches_reconfigure (λ m', m' = lm_Meta m) ctx cluster lxcCluster c).
  unfold reconcileDelete, finish_delete, patchLXCMachine. calls_auto.
  apply calls_WaitForDeleteInstance; [|done..]. intros A call r Hcall. by destruct call.
Qed.

Lemma traces_normal `{!EnvTime E} ctx cluster lxcCluster machine m c :
  traces (let! r := reconcileNormal ctx cluster lxcCluster machine m c in finish r.1 r.2)
    (λ _ evs, MachineFinalizer ∈ om_Finalizers (lm_Meta m) → run_class (lm_Meta m) evs).
Proof.
  assert (Hcl : ∀ evs, Forall (patching (λ m', m' = lm_Meta m)) evs →
    MachineFinalizer ∈ om_Finalizers (lm_Meta m) → run_class (lm_Meta m) evs).
  { intros evs Hf Hm. split; [eapply patchings_mono, Hf; by intros ? ->|].
    rewrite decide_True by done. left. eapply patchings_mono, Hf. by intros ? ->. }
  tr_step. eapply traces_mono; [apply traces_and; [apply machine_traces_reconcileNormal|
    apply traces_calls_only, (patches_reconcileNormal (λ m', m' = lm_Meta m))]|].
  intros [[m' r]|?|?|] evs [Ho Hf]; [|by apply Hcl..]. destruct Ho as [Hmeta _].
  eapply traces_mono; [|intros o evs' Hf'; apply Hcl, Forall_app; split; [exact Hf|exact Hf']].
  apply (traces_calls_only (patching (λ m', m' = lm_Meta m))). unfold finish, patchLXCMachine. calls_auto.
Qed.

Lemma traces_delete `{!EnvTime E} ctx cluster lxcCluster machine m c :
  located x c →
  traces (let! r := reconcileDelete ctx cluster lxcCluster machine m c in
          finish r.1 (match r.2 with Some err => inl err | None => inr noResult end))
    (λ _ evs, run_class (lm_Meta m) evs).
Proof.
  intros Hx. tr_step. eapply traces_mono; [apply traces_and; [apply machine_traces_reconcileDelete|
    apply traces_calls_only, patches_reconcileDelete]|].
  intros [[m' e]|?|?|] evs [Ho Hf]; try done. apply Forall_and in Hf as [Hf Hn].
  eapply traces_mono; [apply (traces_calls_only
    (λ ev, patching (λ m1, m1 = lm_Meta m') ev ∧ asks_instance ev = false)); unfold finish, patchLXCMachine; calls_auto|].
  intros oo evs' [Hf' Hn']%Forall_and.
  assert (Hkey : object_key (lm_Meta m') = object_key (lm_Meta m))
    by (destruct Ho as (_ & [[-> _]|(_ & -> & _)]); done).
  assert (Hnc : Forall (λ e, asks_instance e = false) (evs ++ evs')) by (by apply Forall_app).
  split.
  { apply Forall_app. split; [eapply patchings_mono, Hf|eapply patchings_mono, Hf']; by intros ? ->. }
  case_decide as Hm; [|done]. destruct Ho as (_ & [[Hmeta _]|(_ & _ & e1 & e2 & e3 & -> & _ & Hg & _)]).
  - left. apply Forall_app. split; [eapply patchings_mono, Hf|eapply patchings_mono, Hf'];
      intros ? ->; [done|by rewrite Hmeta].
  - right. split; [done|]. rewrite <- !app_assoc. destruct x as [p|]; [|done].
    exists (cli_Conn c), e1, e2, (e3 ++ evs'). done.
Qed.

(** *** Reconcile *)

(** The answers that the laws allow, in a run for [key]. *)
Definition lawful (key : NamespacedName) (e : event) : Prop :=
  match e with
  | existT A (CKube (KGetLXCMachine k), inr m) => k = key → object_key (lm_Meta m) = k
  | existT A (CKube (KEnsureMachineFinalizer obj f), inr (false, obj')) =>
      f = MachineFinalizer → lm_Meta obj' = lm_Meta obj ∧
        (is_deleted (lm_Meta obj) = true ∨ MachineFinalizer ∈ om_Finalizers (lm_Meta obj))
  | existT A (CKube (KEnsureMachinePaused _ obj), inr (false, false, obj')) => lm_Meta obj' = lm_Meta obj
  | _ => True
  end.

Section lawful.
Context (key : NamespacedName).

#[local] Notation if_lawful := (if_lawful (lawful key)).

Lemma machine_quiet m evs : Forall quiet evs → if_lawful (run_class m) evs.
Proof. apply if_lawful_quiet. Qed.

Lemma machine_app m pre evs :
  Forall quiet pre → if_lawful (run_class m) evs → if_lawful (run_class m) (pre ++ evs).
Proof. apply if_lawful_app, machine_gone_app. Qed.

Lemma traces_run_ensured `{!EnvTime E} ctx cluster lxcCluster machine m c :
  located x c →
  traces (reconcile_ensured ctx cluster lxcCluster machine m c) (λ _, if_lawful (run_class (lm_Meta m))).
Proof.
  intros Hx. unfold reconcile_ensured. do 2 tr_step; [apply machine_quiet; by repeat constructor|].
  destruct p as [[] obj']; cbn beta iota; [tr_step; apply machine_quiet; by repeat constructor|].
  do 2 tr_step; [apply machine_quiet; by repeat constructor|].
  assert (Hcase : ∀ evs, (is_deleted (lm_Meta obj') = true ∨ MachineFinalizer ∈ om_Finalizers (lm_Meta obj') →
      run_class (lm_Meta obj') evs) → if_lawful (run_class (lm_Meta m))
    ([answered (CKube (KEnsureMachineFinalizer m MachineFinalizer)) (inr (false, obj'));
      answered (CKube (KNewMachinePatchHelper obj')) (inr u)] ++ evs)).
  { intros evs Hc Hl. apply Forall_app in Hl as [Hpre Hl]. apply Forall_cons in Hpre as [He Hpre]. destruct (He eq_refl) as [Hm Hok].
    rewrite Hm in Hc. apply run_class_app; [apply machine_gone_app|by repeat constructor|auto]. }
  destruct (is_deleted (lm_Meta obj')) eqn:Hd.
  - eapply traces_mono; [by apply traces_delete|]. intros o evs Hc. by apply Hcase.
  - eapply traces_mono; [apply traces_normal|]. intros o evs Hc. apply Hcase. intros [?|?]; [done|auto].
Qed.

Lemma calls_any_ensured `{!EnvTime E} ctx cluster lxcCluster machine m c :
  calls_only (λ _, True) (reconcile_ensured ctx cluster lxcCluster machine m c).
Proof.
  assert (Hn := λ m, calls_only_mono _ (λ _, True) _ (λ _ _, I)
    (patches_reconcileNormal (λ _, True) ctx cluster lxcCluster machine m c)).
  assert (Hd := λ m, calls_only_mono _ (λ _, True) _ (λ _ _, I) (patches_reconcileDelete ctx cluster lxcCluster machine m c)).
  unfold reconcile_ensured, finish, patchLXCMachine. calls_auto.
Qed.

Lemma traces_run_in_cluster `{!EnvTime E} ctx cluster machine m :
  traces (reconcile_in_cluster ctx cluster machine m)
    (λ _ evs, ∀ pre, opening pre → expected x (pre ++ evs) → if_lawful (run_class (lm_Meta m)) evs).
Proof.
  assert (Hstop := λ evs Hf pre (_ : opening pre) (_ : expected x (pre ++ evs)), machine_quiet (lm_Meta m) evs Hf).
  unfold reconcile_in_cluster.
  do 2 tr_step; [apply Hstop; by repeat constructor|]. destruct p as [[[] []] obj'];
    cbn beta iota delta [orb]; try (tr_step; apply Hstop; by repeat constructor).
  destruct (cl_InfrastructureRef cluster) as [ref|]; [|tr_step; apply Hstop; by repeat constructor].
  do 2 tr_step. tr_step; [tr_step; apply Hstop; by repeat constructor|].
  do 3 tr_step; [apply Hstop; by repeat constructor|]. do 2 tr_step.
  eapply traces_mono; [apply traces_and; [apply traces_calls_only, quiet_New|apply traces_New_located]|].
  intros [client|err|msg|] evs [Hf Hl]; try (apply Hstop; by repeat constructor).
  destruct (decide (located x client)) as [Hx|Hx].
  - eapply traces_mono; [by apply traces_run_ensured|].
    intros oo evs' Hg pre _ _ Hlaw. apply Forall_cons in Hlaw as Hl'. destruct Hl' as [Hp _]. simpl in Hp.
    rewrite Hp in Hg. revert Hlaw.
    refine (machine_app _ [_] _ _ (machine_app _ [_] _ _ (machine_app _ [_] _ _ (machine_app _ evs _ Hf Hg))));
      by repeat constructor.
  - eapply traces_mono; [apply (traces_calls_only (λ _, True)), calls_any_ensured|].
    intros oo evs' _ pre [Hs Hc] Hexp. destruct Hx.
    eapply (λ a b key Hs Hc He, proj2 (Hl x (pre ++ [a; b]) key evs' Hs Hc He)); [| |rewrite <- app_assoc; exact Hexp]; by rewrite omap_app, ?Hs, ?Hc.
Qed.

(** A run reads the machine first, and then acts on what it read. *)
Lemma traces_run_Reconcile `{!EnvTime E} ctx k :
  traces (Reconcile ctx k) (λ _ evs, expected x evs → if_lawful (λ evs, Forall quiet evs ∨
    ∃ m evs', evs = answered (CKube (KGetLXCMachine k)) (inr m) :: evs' ∧ run_class (lm_Meta m) evs') evs).
Proof.
  unfold Reconcile. do 2 tr_step. tr_step.
  { destruct (IsNotFound e); tr_step; intros _ _; left; by repeat constructor. }
  assert (Hcase : ∀ evs, if_lawful (run_class (lm_Meta l)) evs → if_lawful (λ evs, Forall quiet evs ∨
    ∃ m evs', evs = answered (CKube (KGetLXCMachine k)) (inr m) :: evs' ∧ run_class (lm_Meta m) evs')
    ([answered (CKube (KGetLXCMachine k)) (inr l)] ++ evs)).
  { intros evs Hc [_ Hl]%Forall_app. right. eexists _, _. split; [done|auto]. }
  assert (Hstop := λ evs Hq, λ _ : expected x ([answered (CKube (KGetLXCMachine k)) (inr l)] ++ evs),
    Hcase evs (machine_quiet (lm_Meta l) evs Hq)).
  do 2 tr_step; [apply Hstop; by repeat constructor|].
  do 2 tr_step; [apply Hstop; by repeat constructor|]. destruct o as [machine|]; [|tr_step; apply Hstop; by repeat constructor].
  do 2 tr_step; [apply Hstop; by repeat constructor|]. destruct o as [cluster|]; [|tr_step; apply Hstop; by repeat constructor].
  eapply traces_mono; [apply traces_run_in_cluster|].
  intros oo evs' Hg Hexp. apply Hcase. do 3 (apply (machine_app _ [_]); [by repeat constructor|]).
  eapply (Hg [_; _; _; _]); [|exact Hexp]; by split.
Qed.

End lawful.

(** *** Every call of a run goes where its credentials say *)

Lemma footprint_placed p lxcCluster c name e :
  place_of (cli_Conn c) = p → machine_footprint lxcCluster c name e → at_place p e.
Proof.
  intros <-. unfold machine_footprint, cluster_lb_footprint, lb_footprint, at_place, place_of.
  destruct e as [A [[B conn call|B call|B call] r]]; simpl; [|done..]. intros [(-> & -> & _)|(-> & -> & _)]; done.
Qed.

Lemma placed_ensured `{!EnvTime E} p ctx cluster lxcCluster machine m c :
  place_of (cli_Conn c) = p → calls_only (at_place p) (reconcile_ensured ctx cluster lxcCluster machine m c).
Proof.
  intros Hp.
  assert (Hn := λ m, calls_only_mono _ _ _ (λ e, footprint_placed p lxcCluster c _ e Hp) (calls_reconcileNormal ctx cluster lxcCluster machine m c)).
  assert (Hd := λ m, calls_only_mono _ _ _ (λ e, footprint_placed p lxcCluster c _ e Hp) (calls_reconcileDelete ctx cluster lxcCluster machine m c)).
  unfold reconcile_ensured, finish, patchLXCMachine. calls_auto.
Qed.

Lemma placed_in_cluster `{!EnvTime E} p ctx cluster machine m :
  traces (reconcile_in_cluster ctx cluster machine m)
    (λ _ evs, ∀ pre, opening pre → credentials p (pre ++ evs) → Forall (at_place p) evs).
Proof.
  unfold reconcile_in_cluster.
  do 2 tr_step; [by repeat constructor|]. destruct p0 as [[[] []] obj'];
    cbn beta iota delta [orb]; try (tr_step; by repeat constructor).
  destruct (cl_InfrastructureRef cluster) as [ref|]; [|tr_step; by repeat constructor].
  do 2 tr_step. tr_step; [tr_step; by repeat constructor|].
  do 3 tr_step; [by repeat constructor|].
  eapply traces_mono; [apply placed_connect; [intros; by apply placed_ensured|intros; apply calls_any_ensured]|].
  intros o evs Hl pre Hpre Hexp. do 3 (apply (Forall_app_2 _ [_]); [by repeat constructor|]).
  eapply (λ a b key, Hl (pre ++ [a] ++ [b]) key); [|rewrite <- !app_assoc; exact Hexp]. by apply opening_app.
Qed.

Lemma placed_Reconcile `{!EnvTime E} p ctx k :
  traces (Reconcile ctx k) (λ _ evs, credentials p evs → Forall (at_place p) evs).
Proof.
  unfold Reconcile. do 2 tr_step. tr_step; [destruct (IsNotFound e); tr_step; by repeat constructor|].
  do 2 tr_step; [by repeat constructor|].
  do 2 tr_step; [by repeat constructor|]. destruct o as [machine|]; [|tr_step; by repeat constructor].
  do 2 tr_step; [by repeat constructor|]. destruct o as [cluster|]; [|tr_step; by repeat constructor].
  eapply traces_mono; [apply placed_in_cluster|]. intros o evs Hl Hexp.
  do 4 (apply (Forall_app_2 _ [_]); [by repeat constructor|]). eapply (Hl [_; _; _; _]); [|exact Hexp]; by split.
Qed.

Lemma calls_any_Reconcile `{!EnvTime E} ctx k : calls_only (λ _, True) (Reconcile ctx k).
Proof.
  assert (Hn := λ m c cl lc mc, calls_only_mono _ (λ _, True) _ (λ _ _, I)
    (patches_reconcileNormal (λ _, True) ctx cl lc mc m c)).
  assert (Hd := λ m c cl lc mc, calls_only_mono _ (λ _, True) _ (λ _ _, I)
    (patches_reconcileDelete ctx cl lc mc m c)).
  assert (Hc := λ config, calls_only_mono _ (λ _, True) _ (λ _ _, I) (quiet_New config)).
  unfold Reconcile, reconcile_in_cluster, reconcile_ensured, finish, patchLXCMachine. calls_auto.
Qed.

End runs.

(** ** Histories *)

Section histories.
Context `{MapRange} `{YAML} `{TextTemplate} `{Printer} `{CliPaths} `{ClusterAPI}.
Context `{E : Env} `{!EnvTime E} (k : NamespacedName) `{K : !Kubernetes E k}.

(** The stored metadata of the machine, and the histories of its runs. *)
Definition machine_stored (w : world) : option ObjectMeta := lm_Meta <$> stored w.

#[local] Notation machine_guarded := (guarded MachineFinalizer machine_stored).
#[local] Notation machine_history := (history MachineFinalizer (λ ctx, Reconcile ctx k) machine_stored).

(** *** One step of a history *)

Lemma path_lawful s evs s' : path s evs s' → Forall (lawful k) evs.
Proof.
  apply path_events. intros A c r w w' Hh. destruct c as [A conn c|A c|A c]; try done.
  destruct c; try done; destruct r as [err|a]; try done; simpl.
  - intros ->. by eapply get_stored.
  - destruct a as [[] obj']; [done|]. intros ->. by eapply ensure_unchanged.
  - destruct a as [[[] []] obj']; try done. by eapply paused_unchanged.
Qed.

(** After a read, the machine is stored as it was read. *)
Lemma path_read m s evs s' :
  path s (answered (CKube (KGetLXCMachine k)) (inr m) :: evs) s' →
  ∃ s1, path s [answered (CKube (KGetLXCMachine k)) (inr m)] s1 ∧
    object_key (lm_Meta m) = k ∧ stored (st_world s1) = Some m ∧ path s1 evs s'.
Proof.
  intros Hp.
  apply (path_head (λ e w, match e with
    | existT A (CKube (KGetLXCMachine k'), inr m) => k' = k → object_key (lm_Meta m) = k ∧ stored w = Some m
    | _ => True end)) in Hp as (s1 & Hp1 & Hm & Hp); [destruct (Hm eq_refl); by exists s1|].
  intros A c r w w' Hh. destruct c as [A conn c|A c|A c]; try done.
  destruct c; try done; destruct r as [err|a]; try done. intros ->. by eapply get_stored.
Qed.

Lemma machine_classified x ctx s :
  ∃ evs, path s evs (Reconcile ctx k s).2 ∧
    (expected x evs →
     classified machine_patched asks_instance MachineFinalizer (machine_gone x) k machine_stored s evs (Reconcile ctx k s).2).
Proof.
  destruct (traces_path (Reconcile ctx k) _ s (calls_any_Reconcile ctx k) (traces_run_Reconcile x k ctx k))
    as (evs & Hp & Hcl). exists evs. split; [done|]. intros Hexp.
  destruct (Hcl Hexp (path_lawful _ _ _ Hp)) as [Hq|(m & evs' & -> & Hc)]; [by left|right].
  destruct (path_read _ _ _ _ Hp) as (s1 & Hp1 & Hk & Hs & Hp').
  eexists _, evs', (lm_Meta m), s1. split_and!; try done. unfold machine_stored. by rewrite Hs.
Qed.

Lemma machine_history_guarded (p : place) h s :
  machine_history h s → Forall (credentials p) h →
  (∀ evs, evs ∈ h → Forall (at_place p) evs) ∧
  (∀ i evs, h !! i = Some evs → Exists (ev_creates (nn_Name k)) evs →
     machine_guarded s ∨ ∃ j evs', i < j ∧ h !! j = Some evs' ∧ instance_gone p (nn_Name k) evs') ∧
  (∀ k' evs, k' ≠ k → evs ∈ h → Forall (λ e, ¬ machine_drops k' e) evs).
Proof.
  intros Hh Hcred.
  destruct (history_guarded machine_patched asks_instance MachineFinalizer (machine_gone (Some p)) (machine_gone_app (Some p))
    (λ ctx, Reconcile ctx k) k machine_stored finalizer_stays finalizer_elapse
    (ev_creates (nn_Name k)) (creates_asks _) (credentials p) (machine_classified (Some p)) h s Hh Hcred) as [Hg Hd].
  split_and!; [| |done].
  - pose proof (history_runs _ _ _ _ h s (λ ctx, placed_Reconcile p ctx k) Hh) as Hp. intros evs Hin.
    rewrite Forall_forall in Hp, Hcred. by apply Hp, Hcred.
  - intros i evs Hi Hcr. destruct (Hg i evs Hi Hcr) as [?|(j & evs' & m & Hj & Hj' & Hk & Hgone)]; [by left|].
    right. exists j, evs'. split_and!; [done|done|]. apply (f_equal nn_Name) in Hk. simpl in Hk. by rewrite <- Hk.
Qed.

(** C2: Over any number of reconciliations of a machine, with anything that
    respects its finalizer happening meanwhile, as long as the credentials of
    every run (its secret, and the connection that is opened) lead to the same
    server and project: every call of the runs goes to that server and project;
    and when a run asked for the instance of the machine, then the object is
    still stored with the finalizer of the provider, or a later run had that
    server report that the project has no such instance, or delete it. So no
    machine leaves an instance behind. And the runs respect the finalizers of all
    other machines in turn, so that the runs of different machines can go on side
    by side. *)
Theorem no_orphans (p : place) (h : list (list event)) (s : state) :
  machine_history h s → Forall (credentials p) h →
  (∀ evs, evs ∈ h → Forall (at_place p) evs) ∧
  (∀ i evs, h !! i = Some evs → Exists (ev_creates (nn_Name k)) evs →
     machine_guarded s ∨ ∃ j evs', i < j ∧ h !! j = Some evs' ∧ instance_gone p (nn_Name k) evs') ∧
  (∀ k' evs, k' ≠ k → evs ∈ h → Forall (λ e, ¬ machine_drops k' e) evs).
Proof. apply machine_history_guarded. Qed.

End histories.

(** ** A history on the sample server *)

#[local] Existing Instance sample_env.
#[local] Existing Instance sample_templates.
#[local] Existing Instance sample_printer.
#[local] Existing Instance sample_paths.
#[local] Existing Instance sample_yaml.
#[local] Existing Instance reference_capi.

Lemma sample_finalizer_stays A (c : call A) k w r w' :
  sample_handle c w = (r, w') → ¬ machine_drops k (existT A (c, r)) →
  has_finalizer (E := sample_env) MachineFinalizer (λ w, lm_Meta <$> sample_stored w k) w →
  has_finalizer (E := sample_env) MachineFinalizer (λ w, lm_Meta <$> sample_stored w k) w'.
Proof.
  unfold has_finalizer.
  destruct c as [A conn c|A c|A c]; simpl; destruct c; simpl; try (by intros [= <- <-]).
  - unfold sample_ensure_cluster. case_decide; [destruct (sample_cluster_stored _ _)|]; by intros [= <- <-].
  - unfold sample_ensure, sample_stored. case_decide; [|by intros [= <- <-]].
    destruct (sw_lxcMachine w) as [m|] eqn:Hm; [|by intros [= <- <-]; simpl; rewrite Hm].
    case_decide; intros [= <- <-] _; simpl; [|by rewrite Hm]. unfold object_key. simpl. case_decide; [|done].
    simpl. rewrite elem_of_app. auto.
  - unfold sample_store_cluster. destruct (sample_cluster_stored _ _); by intros [= <- <-].
  - unfold sample_store, sample_stored. destruct (sw_lxcMachine w) as [m|] eqn:Hm; [|by intros [= <- <-]; simpl; rewrite Hm].
    case_decide as Hk; intros [= <- <-] Hd; simpl; [|by rewrite Hm]. case_decide as Hk'; [|done]. intros _.
    destruct (decide (MachineFinalizer ∈ om_Finalizers (lm_Meta obj))) as [Hin|Hin];
      [|exfalso; apply Hd; split; [congruence|done]].
    assert (Hne : om_Finalizers (lm_Meta obj) ≠ []) by (intros Hnil; rewrite Hnil in Hin; by apply not_elem_of_nil in Hin).
    destruct (om_DeletionTimestamp _), (om_Finalizers (lm_Meta obj)) as [|f l] eqn:Hf; simpl; try done;
      rewrite decide_True by congruence; simpl; by rewrite Hf.
Qed.

#[local] Instance sample_kubernetes k : Kubernetes sample_env k.
Proof.
  refine {| stored := (λ w, sample_stored w k) : @world sample_env → _;
            finalizer_stays := λ A c, sample_finalizer_stays A c k |}.
  - intros w m w'. simpl. unfold sample_stored. destruct (sw_lxcMachine w) as [m0|] eqn:Hm; [|done]. simpl.
    case_decide; [|done]. intros [= <- <-]. by rewrite Hm, decide_True.
  - intros obj w obj' w'. simpl. unfold sample_ensure. case_decide as Hd.
    + by destruct (sample_stored _ _).
    + intros [= <- <-]. split; [done|]. unfold is_deleted.
      destruct (om_DeletionTimestamp _); [by left|right].
      destruct (decide (MachineFinalizer ∈ om_Finalizers (lm_Meta obj))); [done|]. by exfalso; apply Hd.
  - by intros cluster obj w obj' w' [= <- <-].
  - done.
Defined.

(** The machine of the sample is provisioned; then it is deleted by its owner,
    and the next run removes its instance and its finalizer. *)
Definition sample_key : NamespacedName := {| nn_Namespace := "default"; nn_Name := "cp-1" |}.

Definition sample_run (s : @state sample_env) : outcome Result * @state sample_env := Reconcile None sample_key s.

Definition mark_deleted (w : sample_world) : sample_world :=
  set_objects (sw_lxcCluster w)
    (option_map (λ m, {| lm_Meta := {| om_Name := om_Name (lm_Meta m); om_Namespace := om_Namespace (lm_Meta m);
                                        om_Labels := om_Labels (lm_Meta m); om_Finalizers := om_Finalizers (lm_Meta m);
                                        om_DeletionTimestamp := Some 1%Z |};
                         lm_Spec := lm_Spec m; lm_Status := lm_Status m |}) (sw_lxcMachine w)) w.

Definition sample_s1 : @state sample_env := (sample_run (sample_state sample_machine_objects)).2.
Definition sample_s2 : @state sample_env :=
  @Build_state sample_env (mark_deleted (@st_world sample_env sample_s1)) (st_log sample_s1).
Definition sample_s3 : @state sample_env := (sample_run sample_s2).2.
Definition sample_history : list (list event) :=
  [st_log sample_s1; drop (length (st_log sample_s2)) (st_log sample_s3)].

Definition sample_place : place := place_of sample_conn.

Lemma no_orphans_witness :
  ¬ guarded MachineFinalizer (machine_stored sample_key) sample_s3 ∧
  ∃ j evs', 0 < j ∧ sample_history !! j = Some evs' ∧ instance_gone sample_place "cp-1" evs'.
Proof.
  assert (Hg : ¬ guarded MachineFinalizer (machine_stored sample_key) sample_s3) by (vm_compute; tauto).
  split; [exact Hg|].
  destruct (no_orphans sample_key sample_place sample_history sample_s3) as (_ & Hall & _).
  - change sample_history with ([st_log sample_s1] ++ [drop (length (st_log sample_s2)) (st_log sample_s3)]).
    change sample_s3 with ((λ ctx, Reconcile ctx sample_key) None sample_s2).2 at 2.
    apply history_run.
    + apply (history_others MachineFinalizer _ _ _ sample_s1 sample_s2).
      * apply (history_run MachineFinalizer (λ ctx, Reconcile ctx sample_key) _ [] (sample_state sample_machine_objects) None); [apply history_start|reflexivity].
      * unfold guarded, has_finalizer, machine_stored, stored. simpl. unfold sample_stored, mark_deleted. simpl.
        destruct (sw_lxcMachine _) as [m|]; [|done]. simpl. unfold object_key. simpl. by case_decide.
    + vm_compute. reflexivity.
  - apply (bool_decide_unpack _). vm_compute. exact I.
  - destruct (Hall 0 (st_log sample_s1)) as [Hg'|Hgone]; [reflexivity| |destruct (Hg Hg')|exact Hgone].
    apply (bool_decide_unpack _). vm_compute. exact I.
Defined.
