(* ===== verification/ClusterLifecycle.v ===== *)
(** * The life of a cluster, over many reconciliations

    The counterpart of Lifecycle for the load balancers: what the API server
    promises about the finalizers of clusters, the classification of the runs
    of the cluster controller, and [no_orphan_balancers]: along every history
    in which the kind and address of the load balancer are not changed, the
    finalizer of the cluster is still there, or the load balancer was seen to
    be gone. [switched_balancer_stays] shows that the condition is needed. *)

From S2P Require Import Prelude GoStrings Go Api World Images Launch Instances Template Sample Client Config LoadBalancer Capi Histories LXCCluster LXCMachine Lifecycle.

Import LXCClusterController.

(** ** What a cluster has on the server *)

(** An instance with this name, or a network load balancer. *)
Inductive lb_resource :=
| LBInstance (name : string)
| LBNetwork (network address : string).

#[export] Instance lb_resource_eq_dec : EqDecision lb_resource.
Proof. solve_decision. Defined.

(** What [ManagerForCluster] creates and deletes for the cluster. *)
Definition resource_of (c : LXCCluster) : option lb_resource :=
  let lb := cs_LoadBalancer (lc_Spec c) in
  match lb_LXC lb, lb_OCI lb, lb_OVN lb with
  | Some _, _, _ | None, Some _, _ => Some (LBInstance (GetLoadBalancerInstanceName c))
  | None, None, Some o => Some (LBNetwork (ovn_NetworkName o) (ep_Host (cs_ControlPlaneEndpoint (lc_Spec c))))
  | None, None, None => None
  end.

(** The call asks the server for it. *)
Definition wants (r : lb_resource) (e : event) : Prop :=
  match (projT2 e).1 with
  | CIncus _ (CreateInstance post) => r = LBInstance (ip_Name post)
  | CIncus _ (CreateNetworkLoadBalancer network address _) => r = LBNetwork network address
  | _ => False
  end.

#[export] Instance wants_dec r e : Decision (wants r e).
Proof. destruct e as [A [c x]]. destruct c as [B conn c|B c|B c]; [destruct c|..]; unfold wants; simpl; apply _. Defined.

(** The server at this place said that there is no such load balancer, or deleted
    it. *)
Definition network_lb_gone (p : place) (network address : string) (e : event) : Prop :=
  match e with
  | existT A (CIncus conn (DeleteNetworkLoadBalancer n a), r) =>
      place_of conn = p ∧ n = network ∧ a = address ∧
      match r with inr _ => True | inl err => Contains (Error err) "not found" = true end
  | _ => False
  end.

Definition lb_gone (p : place) (r : lb_resource) (evs : list event) : Prop :=
  match r with
  | LBInstance name => instance_gone p name evs
  | LBNetwork network address => Exists (network_lb_gone p network address) evs
  end.

Lemma lb_gone_app p r pre evs post : lb_gone p r evs → lb_gone p r (pre ++ evs ++ post).
Proof.
  destruct r; simpl; [apply instance_gone_app|]. intros Hg. rewrite !Exists_app. auto.
Qed.

(** What a history is about: a load balancer at a place. With [None], nothing is
    asked: of which load balancer a cluster has, of the place where the runs work,
    and of what was seen. *)
Definition subject : Type := option (place * lb_resource).

Definition may_be (r : subject) (c : LXCCluster) : Prop :=
  match r with Some x => resource_of c = Some x.2 | None => True end.

#[export] Instance may_be_dec r c : Decision (may_be r c).
Proof. destruct r; simpl; apply _. Defined.

Definition seen_gone (r : subject) (evs : list event) : Prop :=
  match r with Some x => lb_gone x.1 x.2 evs | None => True end.

(** Where the runs work. *)
Definition site (r : subject) : option place := option_map fst r.

Lemma seen_gone_app r pre evs post : seen_gone r evs → seen_gone r (pre ++ evs ++ post).
Proof. destruct r; [apply lb_gone_app|done]. Qed.

Lemma may_be_same r c c' : lc_Meta c' = lc_Meta c → lc_Spec c' = lc_Spec c → may_be r c → may_be r c'.
Proof.
  intros Hm Hs. destruct r; simpl; [|done]. unfold resource_of, GetLoadBalancerInstanceName. by rewrite Hm, Hs.
Qed.

(** ** What the API server promises *)

Definition cluster_patched (e : event) : option ObjectMeta :=
  match (projT2 e).1 with CKube (KPatchCluster obj _) => Some (lc_Meta obj) | _ => None end.

#[local] Notation cluster_drops := (drops cluster_patched ClusterFinalizer).

(** As for machines; that a call with the answer "nothing to do" leaves the
    specification alone matters here, since it says which load balancer to delete. *)
Class KubernetesClusters (E : Env) (k : NamespacedName) := {
  cluster_stored : world → option LXCCluster;
  get_cluster_stored : ∀ w c w', handle (CKube (KGetLXCCluster k)) w = (inr c, w') →
    object_key (lc_Meta c) = k ∧ cluster_stored w' = Some c;
  ensure_cluster_unchanged : ∀ obj w obj' w',
    handle (CKube (KEnsureClusterFinalizer obj ClusterFinalizer)) w = (inr (false, obj'), w') →
    lc_Meta obj' = lc_Meta obj ∧ lc_Spec obj' = lc_Spec obj ∧
    (is_deleted (lc_Meta obj) = true ∨ ClusterFinalizer ∈ om_Finalizers (lc_Meta obj));
  paused_cluster_unchanged : ∀ cluster obj w obj' w',
    handle (CKube (KEnsureClusterPaused cluster obj)) w = (inr (false, false, obj'), w') →
    lc_Meta obj' = lc_Meta obj ∧ lc_Spec obj' = lc_Spec obj;
  cluster_finalizer_stays : ∀ A (c : call A) w r w',
    handle c w = (r, w') → ¬ cluster_drops k (existT A (c, r)) →
    has_finalizer ClusterFinalizer (λ w, lc_Meta <$> cluster_stored w) w →
    has_finalizer ClusterFinalizer (λ w, lc_Meta <$> cluster_stored w) w';
  cluster_finalizer_elapse : ∀ d w,
    has_finalizer ClusterFinalizer (λ w, lc_Meta <$> cluster_stored w) w →
    has_finalizer ClusterFinalizer (λ w, lc_Meta <$> cluster_stored w) (elapse d w)
}.

(** ** The calls of one reconciliation *)

Definition asks_balancer (e : event) : bool :=
  match (projT2 e).1 with
  | CIncus _ (CreateInstance _) | CIncus _ (CreateNetworkLoadBalancer _ _ _) => true
  | _ => false
  end.

Lemma wants_asks r e : wants r e → asks_balancer e = true.
Proof. unfold wants, asks_balancer. destruct (projT2 e).1 as [A conn c|A c|A c]; try done. by destruct c. Qed.

Lemma not_create_asks_nothing e : not_create e → asks_balancer e = false.
Proof. unfold not_create, incus_event, asks_balancer. destruct (projT2 e) as [[A conn c|A c|A c] r]; try done. by destruct c. Qed.

#[local] Notation patching := (patching cluster_patched).
#[local] Notation quiet := (quiet cluster_patched asks_balancer).

Section runs.
Context `{MapRange} `{TextTemplate} `{Printer} `{CliPaths} `{ClusterAPI} `{E : Env}.
Context (r : subject).

#[local] Notation run_class := (run_class cluster_patched asks_balancer ClusterFinalizer (λ _, seen_gone r)).

(** *** Handlers *)

(** A deletion that succeeds has seen the load balancer of the cluster gone. *)
Lemma traces_Delete `{!EnvTime E} ctx cluster obj client :
  may_be r obj → located (site r) client →
  traces (Delete (ManagerForCluster cluster obj client) ctx)
    (λ o evs, match o with Ok _ => seen_gone r evs | _ => True end).
Proof.
  pose proof (ManagerForCluster_spec cluster obj client) as Hspec. intros Hr Hx.
  destruct r as [[p x]|]; simpl in *; [clear Hspec|eapply traces_mono; [apply traces_calls_only, Delete_calls|by intros []]].
  revert Hr. unfold resource_of, ManagerForCluster. intros Hr.
  assert (Hinst : ∀ name pre, x = LBInstance name →
    traces (wrap pre (WaitForDeleteInstance client ctx name)) (λ o evs, match o with Ok _ => lb_gone p x evs | _ => True end)).
  { intros name pre ->. tr_step. eapply traces_mono; [apply traces_WaitForDeleteInstance|].
    intros [[]|err|msg|] evs Hg; try done. exists (cli_Conn client), [], evs, []. by rewrite app_nil_r. }
  destruct (lb_LXC _) as [l|]; [by apply Hinst; simplify_eq|].
  destruct (lb_OCI _) as [l|]; [by apply Hinst; simplify_eq|].
  destruct (lb_OVN _) as [l|]; [|done]. simplify_eq. simpl. unfold managerOVN_Delete. simpl.
  do 2 tr_step. tr_step; [|tr_step; by apply Exists_cons_hd].
  destruct (Contains (Error e) "not found") eqn:Hc; simpl; [tr_step; by apply Exists_cons_hd|by tr_step].
Qed.

Lemma patches_lb P obj client A (m : M state A) :
  calls_only (cluster_lb_footprint obj client) m → calls_only (patching P) m.
Proof. apply calls_only_mono. by intros [B [[C conn call|C call|C call] x]]. Qed.

Lemma cluster_patches_Delete `{!EnvTime E} P ctx cluster obj client :
  calls_only (λ e, patching P e ∧ asks_balancer e = false) (Delete (ManagerForCluster cluster obj client) ctx).
Proof.
  pose proof (ManagerForCluster_spec cluster obj client) as Hspec. apply calls_only_and.
  - by eapply (patches_lb P obj client), Delete_calls.
  - eapply calls_only_mono; [|apply Delete_creates_nothing]. apply not_create_asks_nothing.
Qed.

Lemma patches_cluster_normal `{!EnvTime E} P ctx cluster c client :
  calls_only (patching P) (reconcileNormal ctx cluster c client).
Proof.
  assert (Hc : calls_only (patching P) (Create (ManagerForCluster cluster c client) ctx))
    by (by eapply (patches_lb P c client), Create_calls).
  unfold reconcileNormal. calls_auto.
Qed.

Lemma patches_cluster_delete `{!EnvTime E} ctx cluster c client :
  calls_only (λ e, patching (λ m', m' = lc_Meta c) e ∧ asks_balancer e = false) (reconcileDelete ctx cluster c client).
Proof.
  assert (Hd := λ obj, cluster_patches_Delete (λ m', m' = lc_Meta c) ctx cluster obj client).
  unfold reconcileDelete, patchLXCCluster, GetMachinesForCluster. calls_auto.
Qed.

Lemma traces_cluster_normal `{!EnvTime E} ctx cluster c client :
  traces (let! x := reconcileNormal ctx cluster c client in
          finish x.1 (match x.2 with Some err => inl err | None => inr noResult end))
    (λ _ evs, ClusterFinalizer ∈ om_Finalizers (lc_Meta c) → run_class (lc_Meta c) evs).
Proof.
  assert (Hcl : ∀ evs, Forall (patching (λ m', m' = lc_Meta c)) evs →
    ClusterFinalizer ∈ om_Finalizers (lc_Meta c) → run_class (lc_Meta c) evs).
  { intros evs Hf Hm. split; [eapply patchings_mono, Hf; by intros ? ->|].
    rewrite decide_True by done. left. eapply patchings_mono, Hf. by intros ? ->. }
  tr_step. eapply traces_mono; [apply traces_and; [apply traces_reconcileNormal|
    apply traces_calls_only, (patches_cluster_normal (λ m', m' = lc_Meta c))]|].
  intros [[c' e]|?|?|] evs [Hmeta Hf]; try done.
  eapply traces_mono; [|intros o evs' Hf'; apply Hcl, Forall_app; split; [exact Hf|exact Hf']].
  apply (traces_calls_only (patching (λ m', m' = lc_Meta c))). unfold finish, patchLXCCluster. calls_auto.
Qed.

Lemma traces_cluster_delete `{!EnvTime E} ctx cluster c client :
  may_be r c → located (site r) client →
  traces (let! x := reconcileDelete ctx cluster c client in finish x.1 x.2) (λ _ evs, run_class (lc_Meta c) evs).
Proof.
  intros Hr Hx. tr_step. eapply traces_mono; [apply traces_and; [apply traces_reconcileDelete|
    apply traces_calls_only, patches_cluster_delete]|].
  intros [[c' e]|?|?|] evs [Ho Hf]; try done. apply Forall_and in Hf as [Hf Hn].
  eapply traces_mono; [apply (traces_calls_only
    (λ ev, patching (λ m1, m1 = lc_Meta c') ev ∧ asks_balancer ev = false)); unfold finish, patchLXCCluster; calls_auto|].
  intros oo evs' [Hf' Hn']%Forall_and.
  assert (Hna : Forall (λ e, asks_balancer e = false) (evs ++ evs')) by (by apply Forall_app).
  destruct Ho as (_ & _ & Ho).
  assert (Hend : lc_Meta c' = lc_Meta c ∨ object_key (lc_Meta c') = object_key (lc_Meta c) ∧ seen_gone r (evs ++ evs')).
  { destruct Ho as [[? _]|(obj & evs1 & evs2 & answer & -> & _ & Hom & Hos & Hran & Ha)]; [by left|].
    assert (Hro : may_be r obj) by (by eapply may_be_same).
    pose proof (ran_traces _ _ _ _ (traces_Delete ctx cluster obj client Hro Hx) Hran) as Hg. simpl in Hg.
    assert (Hg' : seen_gone r ((evs1 ++ evs2 ++ [answered (machines_call cluster) answer]) ++ evs'))
      by (rewrite <- !app_assoc; by apply seen_gone_app).
    destruct answer as [err|[|m ms]]; [right|right|left; by apply Ha]; destruct Ha as [_ ->]; done. }
  assert (Hkey : object_key (lc_Meta c') = object_key (lc_Meta c)) by (destruct Hend as [->|[? _]]; done).
  split.
  { apply Forall_app. split; [eapply patchings_mono, Hf|eapply patchings_mono, Hf']; by intros ? ->. }
  case_decide as Hm; [|done]. destruct Hend as [Hmeta|[_ Hg]]; [left|by right].
  apply Forall_app. split; [eapply patchings_mono, Hf|eapply patchings_mono, Hf']; intros ? ->; [done|by rewrite Hmeta].
Qed.

(** *** Reconcile *)

(** The answers that the laws allow, in a run for [key] whose reads say that the
    load balancer is [r]. *)
Definition cluster_lawful (key : NamespacedName) (e : event) : Prop :=
  match e with
  | existT A (CKube (KGetLXCCluster k), inr c) => k = key → object_key (lc_Meta c) = k
  | existT A (CKube (KEnsureClusterFinalizer obj f), inr (false, obj')) =>
      f = ClusterFinalizer → lc_Meta obj' = lc_Meta obj ∧ lc_Spec obj' = lc_Spec obj ∧
        (is_deleted (lc_Meta obj) = true ∨ ClusterFinalizer ∈ om_Finalizers (lc_Meta obj))
  | existT A (CKube (KEnsureClusterPaused _ obj), inr (false, false, obj')) =>
      lc_Meta obj' = lc_Meta obj ∧ lc_Spec obj' = lc_Spec obj
  | _ => True
  end.

(** Whenever the run reads the cluster [key], its load balancer may be [r]. *)
Definition reads_resource (key : NamespacedName) (e : event) : Prop :=
  match e with
  | existT A (CKube (KGetLXCCluster k), inr c) => k = key → may_be r c
  | _ => True
  end.

#[export] Instance reads_resource_dec key e : Decision (reads_resource key e).
Proof.
  destruct e as [A [c x]]. destruct c as [B conn c|B c|B c]; simpl; [apply _| |apply _].
  destruct c; simpl; try apply _. destruct x; simpl; apply _.
Defined.

Section lawful.
Context (key : NamespacedName).

#[local] Notation if_lawful := (if_lawful (cluster_lawful key)).

Lemma cluster_quiet m evs : Forall quiet evs → if_lawful (run_class m) evs.
Proof. apply if_lawful_quiet. Qed.

Lemma cluster_app m pre evs :
  Forall quiet pre → if_lawful (run_class m) evs → if_lawful (run_class m) (pre ++ evs).
Proof. apply if_lawful_app. intros _. apply seen_gone_app. Qed.

Lemma traces_cluster_ensured `{!EnvTime E} ctx cluster c client :
  may_be r c → located (site r) client →
  traces (reconcile_ensured ctx cluster c client) (λ _, if_lawful (run_class (lc_Meta c))).
Proof.
  intros Hr Hx. assert (Hstop := cluster_quiet (lc_Meta c)). unfold reconcile_ensured, reconcile_patched.
  do 2 tr_step; [apply Hstop; by repeat constructor|]. destruct p as [[] obj']; cbn beta iota;
    [tr_step; apply Hstop; by repeat constructor|].
  do 2 tr_step; [apply Hstop; by repeat constructor|]. destruct p as [[[] []] obj''];
    cbn beta iota delta [orb]; try (tr_step; apply Hstop; by repeat constructor).
  do 2 tr_step; [apply Hstop; by repeat constructor|].
  assert (Hcase : ∀ evs,
    (lc_Meta obj'' = lc_Meta c → lc_Spec obj'' = lc_Spec c →
     is_deleted (lc_Meta c) = true ∨ ClusterFinalizer ∈ om_Finalizers (lc_Meta c) → run_class (lc_Meta c) evs) →
    if_lawful (run_class (lc_Meta c))
      ([answered (CKube (KEnsureClusterFinalizer c ClusterFinalizer)) (inr (false, obj'));
        answered (CKube (KEnsureClusterPaused cluster obj')) (inr (false, false, obj''));
        answered (CKube (KNewClusterPatchHelper obj'')) (inr u)] ++ evs)).
  { intros evs Hc Hl. apply Forall_app in Hl as [Hpre _]. apply Forall_cons in Hpre as [He Hpre].
    apply Forall_cons in Hpre as [Hp _]. destruct (He eq_refl) as (Hm & Hs & Hok). destruct Hp as [Hm' Hs'].
    apply run_class_app; [intros _; apply seen_gone_app|by repeat constructor|]. apply Hc; congruence || done. }
  destruct (is_deleted (lc_Meta obj'')) eqn:Hd.
  - destruct (decide (may_be r obj'')) as [Hr''|Hr''].
    + eapply traces_mono; [by apply traces_cluster_delete|]. intros o evs Hc. apply Hcase. by intros <- _ _.
    + eapply traces_mono; [apply (traces_calls_only (λ _, True))|].
      2: { intros o evs _. apply Hcase. intros Hm Hs _. exfalso. apply Hr''. by eapply may_be_same. }
      assert (Hany := calls_only_mono _ (λ _, True) _ (λ _ _, I) (patches_cluster_delete ctx cluster obj'' client)).
      unfold finish, patchLXCCluster. calls_auto.
  - eapply traces_mono; [apply traces_cluster_normal|]. intros o evs Hc. apply Hcase. intros <- _ [?|?]; [congruence|auto].
Qed.

Lemma calls_cluster_ensured `{!EnvTime E} ctx cluster c client :
  calls_only (λ _, True) (reconcile_ensured ctx cluster c client).
Proof.
  assert (Hn := λ c, calls_only_mono _ (λ _, True) _ (λ _ _, I) (patches_cluster_normal (λ _, True) ctx cluster c client)).
  assert (Hd := λ c, calls_only_mono _ (λ _, True) _ (λ _ _, I) (patches_cluster_delete ctx cluster c client)).
  unfold reconcile_ensured, reconcile_patched, finish, patchLXCCluster. calls_auto.
Qed.

(** A run reads the cluster first, and then acts on what it read. *)
Lemma traces_cluster_Reconcile `{!EnvTime E} ctx k :
  traces (Reconcile ctx k) (λ _ evs, expected (site r) evs →
    if_lawful (λ evs, Forall (reads_resource k) evs → Forall quiet evs ∨
    ∃ c evs', evs = answered (CKube (KGetLXCCluster k)) (inr c) :: evs' ∧ run_class (lc_Meta c) evs') evs).
Proof.
  unfold Reconcile. do 2 tr_step. tr_step.
  { destruct (IsNotFound e); tr_step; intros _ _; left; by repeat constructor. }
  assert (Hcase : ∀ evs, (may_be r l → if_lawful (run_class (lc_Meta l)) evs) →
    if_lawful (λ evs, Forall (reads_resource k) evs → Forall quiet evs ∨
      ∃ c evs', evs = answered (CKube (KGetLXCCluster k)) (inr c) :: evs' ∧ run_class (lc_Meta c) evs')
    ([answered (CKube (KGetLXCCluster k)) (inr l)] ++ evs)).
  { intros evs Hc [_ Hl]%Forall_app [Hr _]%Forall_cons. right. eexists _, _. split; [done|]. apply Hc; auto. }
  assert (Hstop := λ evs Hq, λ _ : expected (site r) ([answered (CKube (KGetLXCCluster k)) (inr l)] ++ evs),
    Hcase evs (λ _, cluster_quiet (lc_Meta l) evs Hq)).
  do 2 tr_step; [apply Hstop; by repeat constructor|]. destruct o as [cluster|]; [|tr_step; apply Hstop; by repeat constructor].
  do 3 tr_step; [apply Hstop; by repeat constructor|]. do 2 tr_step.
  eapply traces_mono; [apply traces_and; [apply traces_calls_only, (calls_New_within quiet); by repeat constructor
    |apply traces_New_located]|].
  intros [client|err|msg|] evs [Hf Hl]; try (apply Hstop; by repeat constructor).
  destruct (decide (may_be r l ∧ located (site r) client)) as [[Hr Hx]|Hr].
  - eapply traces_mono; [by apply traces_cluster_ensured|]. intros oo evs' Hg _. apply Hcase. intros _.
    do 2 (apply (cluster_app _ [_]); [by repeat constructor|]). by apply cluster_app.
  - eapply traces_mono; [apply (traces_calls_only (λ _, True)), calls_cluster_ensured|]. intros oo evs' _ Hexp.
    apply Hcase. intros Hmay. destruct Hr. split; [done|].
    eapply (λ a b key Hs Hc He, proj2 (Hl (site r) [a; b] key evs' Hs Hc He)); [| |exact Hexp]; done.
Qed.

End lawful.

(** *** Every call of a run goes where its credentials say *)

Lemma placed_cluster_ensured `{!EnvTime E} p ctx cluster c client :
  place_of (cli_Conn client) = p → calls_only (at_place p) (reconcile_ensured ctx cluster c client).
Proof.
  intros Hp.
  assert (Hlb : ∀ c A (m : M state A), calls_only (cluster_lb_footprint c client) m → calls_only (at_place p) m).
  { intros c' A m. apply calls_only_mono. intros e He. by apply (footprint_placed p c' client ""), LXCMachineController.machine_footprint_lb. }
  assert (Hc := λ c, Hlb c _ _ (Create_calls (ManagerSpec := ManagerForCluster_spec cluster c client) ctx)).
  assert (Hd := λ c, Hlb c _ _ (Delete_calls (ManagerSpec := ManagerForCluster_spec cluster c client) ctx)).
  unfold reconcile_ensured, reconcile_patched, reconcileNormal, reconcileDelete, GetMachinesForCluster, finish, patchLXCCluster.
  calls_auto.
Qed.

Lemma placed_cluster_Reconcile `{!EnvTime E} p ctx k :
  traces (Reconcile ctx k) (λ _ evs, credentials p evs → Forall (at_place p) evs).
Proof.
  unfold Reconcile. do 2 tr_step. tr_step; [destruct (IsNotFound e); tr_step; by repeat constructor|].
  do 2 tr_step; [by repeat constructor|]. destruct o as [cluster|]; [|tr_step; by repeat constructor].
  do 3 tr_step; [by repeat constructor|].
  eapply traces_mono; [apply placed_connect; [intros; by apply placed_cluster_ensured|intros; apply calls_cluster_ensured]|].
  intros o evs Hl Hexp. do 3 (apply (Forall_app_2 _ [_]); [by repeat constructor|]).
  eapply (λ a b key, Hl [a; b] key); [|exact Hexp]. by split.
Qed.

End runs.

(** ** Histories *)

Section histories.
Context `{MapRange} `{TextTemplate} `{Printer} `{CliPaths} `{ClusterAPI}.
Context `{E : Env} `{!EnvTime E} (k : NamespacedName) `{K : !KubernetesClusters E k}.

Definition cluster_meta (w : world) : option ObjectMeta := lc_Meta <$> cluster_stored w.

#[local] Notation cluster_guarded := (guarded ClusterFinalizer cluster_meta).
#[local] Notation cluster_history := (history ClusterFinalizer (λ ctx, Reconcile ctx k) cluster_meta).

Lemma path_cluster_lawful s evs s' : path s evs s' → Forall (cluster_lawful k) evs.
Proof.
  apply path_events. intros A c x w w' Hh. destruct c as [A conn c|A c|A c]; try done.
  destruct c; try done; destruct x as [err|a]; try done; simpl.
  - intros ->. by eapply get_cluster_stored.
  - destruct a as [[] obj']; [done|]. intros ->. by eapply ensure_cluster_unchanged.
  - destruct a as [[[] []] obj']; try done. by eapply paused_cluster_unchanged.
Qed.

(** After a read, the cluster is stored as it was read. *)
Lemma path_cluster_read c s evs s' :
  path s (answered (CKube (KGetLXCCluster k)) (inr c) :: evs) s' →
  ∃ s1, path s [answered (CKube (KGetLXCCluster k)) (inr c)] s1 ∧
    object_key (lc_Meta c) = k ∧ cluster_stored (st_world s1) = Some c ∧ path s1 evs s'.
Proof.
  intros Hp.
  apply (path_head (λ e w, match e with
    | existT A (CKube (KGetLXCCluster k'), inr c) => k' = k → object_key (lc_Meta c) = k ∧ cluster_stored w = Some c
    | _ => True end)) in Hp as (s1 & Hp1 & Hm & Hp); [destruct (Hm eq_refl); by exists s1|].
  intros A cl x w w' Hh. destruct cl as [A conn cl|A cl|A cl]; try done.
  destruct cl; try done; destruct x as [err|a]; try done. intros ->. by eapply get_cluster_stored.
Qed.

Lemma calls_cluster_Reconcile ctx : calls_only (λ _, True) (Reconcile ctx k).
Proof.
  assert (Hn := λ cl c client, calls_only_mono _ (λ _, True) _ (λ _ _, I) (patches_cluster_normal (λ _, True) ctx cl c client)).
  assert (Hd := λ cl c client, calls_only_mono _ (λ _, True) _ (λ _ _, I) (patches_cluster_delete ctx cl c client)).
  assert (Hc := λ config, calls_New_within (λ _, True) config (λ _ _ _, I) (λ _ _, I)).
  unfold Reconcile, reconcile_ensured, reconcile_patched, finish, patchLXCCluster. calls_auto.
Qed.

Lemma cluster_classified r ctx s :
  ∃ evs, path s evs (Reconcile ctx k s).2 ∧
    (expected (site r) evs ∧ Forall (reads_resource r k) evs →
     classified cluster_patched asks_balancer ClusterFinalizer (λ _, seen_gone r) k cluster_meta s evs (Reconcile ctx k s).2).
Proof.
  destruct (traces_path (Reconcile ctx k) _ s (calls_cluster_Reconcile ctx) (traces_cluster_Reconcile r k ctx k))
    as (evs & Hp & Hcl). exists evs. split; [done|]. intros [Hexp Hreads].
  destruct (Hcl Hexp (path_cluster_lawful _ _ _ Hp) Hreads) as [Hq|(c & evs' & -> & Hc)]; [by left|right].
  destruct (path_cluster_read _ _ _ _ Hp) as (s1 & Hp1 & Hk & Hs & Hp').
  eexists _, evs', (lc_Meta c), s1. split_and!; try done. unfold cluster_meta. by rewrite Hs.
Qed.

Lemma cluster_history_guarded (p : place) (r : lb_resource) h s :
  cluster_history h s → Forall (credentials p) h → Forall (Forall (reads_resource (Some (p, r)) k)) h →
  (∀ evs, evs ∈ h → Forall (at_place p) evs) ∧
  (∀ i evs, h !! i = Some evs → Exists (wants r) evs →
     cluster_guarded s ∨ ∃ j evs', i < j ∧ h !! j = Some evs' ∧ lb_gone p r evs') ∧
  (∀ k' evs, k' ≠ k → evs ∈ h → Forall (λ e, ¬ cluster_drops k' e) evs).
Proof.
  intros Hh Hcred Hreads.
  destruct (history_guarded cluster_patched asks_balancer ClusterFinalizer (λ _, lb_gone p r) (λ _, seen_gone_app (Some (p, r)))
    (λ ctx, Reconcile ctx k) k cluster_meta cluster_finalizer_stays cluster_finalizer_elapse
    (wants r) (wants_asks r) (λ evs, credentials p evs ∧ Forall (reads_resource (Some (p, r)) k) evs)
    (cluster_classified (Some (p, r))) h s Hh) as [Hg Hd]; [by apply Forall_and|].
  split_and!; [| |done].
  - pose proof (history_runs _ _ _ _ h s (λ ctx, placed_cluster_Reconcile p ctx k) Hh) as Hp. intros evs Hin.
    rewrite Forall_forall in Hp, Hcred. by apply Hp, Hcred.
  - intros i evs Hi Hw. destruct (Hg i evs Hi Hw) as [?|(j & evs' & m & Hj & Hj' & _ & Hgone)]; [by left|].
    right. by exists j, evs'.
Qed.

(** C3: Over any number of reconciliations of a cluster, with anything that
    respects its finalizer happening meanwhile, as long as the credentials of
    every run lead to the same server and project, and every run reads that the
    load balancer of the cluster is [r] (its instance, or the network load
    balancer at its address): every call of the runs goes to that server and
    project; and when a run asked for [r], then the object is still stored with
    the finalizer of the provider, or a later run had that server report that [r]
    does not exist in the project, or delete it. And the runs respect the
    finalizers of all other clusters. *)
Theorem no_orphan_balancers (p : place) (r : lb_resource) (h : list (list event)) (s : state) :
  cluster_history h s → Forall (credentials p) h → Forall (Forall (reads_resource (Some (p, r)) k)) h →
  (∀ evs, evs ∈ h → Forall (at_place p) evs) ∧
  (∀ i evs, h !! i = Some evs → Exists (wants r) evs →
     cluster_guarded s ∨ ∃ j evs', i < j ∧ h !! j = Some evs' ∧ lb_gone p r evs') ∧
  (∀ k' evs, k' ≠ k → evs ∈ h → Forall (λ e, ¬ cluster_drops k' e) evs).
Proof. apply cluster_history_guarded. Qed.

End histories.

(** ** A history on the sample server *)

#[local] Existing Instance sample_env.
#[local] Existing Instance sample_templates.
#[local] Existing Instance sample_printer.
#[local] Existing Instance sample_paths.
#[local] Existing Instance reference_capi.

Lemma sample_cluster_finalizer_stays A (c : call A) k w x w' :
  sample_handle c w = (x, w') → ¬ cluster_drops k (existT A (c, x)) →
  has_finalizer (E := sample_env) ClusterFinalizer (λ w, lc_Meta <$> sample_cluster_stored w k) w →
  has_finalizer (E := sample_env) ClusterFinalizer (λ w, lc_Meta <$> sample_cluster_stored w k) w'.
Proof.
  unfold has_finalizer. destruct c as [A conn c|A c|A c]; simpl; destruct c; simpl; try (by intros [= <- <-]).
  - unfold sample_ensure_cluster, sample_cluster_stored. case_decide; [|by intros [= <- <-]].
    destruct (sw_lxcCluster w) as [c|] eqn:Hc; [|by intros [= <- <-]; simpl; rewrite Hc].
    case_decide; intros [= <- <-] _; simpl; [|by rewrite Hc]. unfold object_key. simpl. case_decide; [|done].
    simpl. rewrite elem_of_app. auto.
  - unfold sample_ensure. case_decide; [destruct (sample_stored _ _)|]; by intros [= <- <-].
  - unfold sample_store_cluster, sample_cluster_stored.
    destruct (sw_lxcCluster w) as [c|] eqn:Hc; [|by intros [= <- <-]; simpl; rewrite Hc].
    case_decide as Hk; intros [= <- <-] Hd; simpl; [|by rewrite Hc]. case_decide as Hk'; [|done]. intros _.
    destruct (decide (ClusterFinalizer ∈ om_Finalizers (lc_Meta obj))) as [Hin|Hin];
      [|exfalso; apply Hd; split; [congruence|done]].
    assert (Hne : om_Finalizers (lc_Meta obj) ≠ []) by (intros Hnil; rewrite Hnil in Hin; by apply not_elem_of_nil in Hin).
    destruct (om_DeletionTimestamp _), (om_Finalizers (lc_Meta obj)) as [|f l] eqn:Hf; simpl; try done;
      rewrite decide_True by congruence; simpl; by rewrite Hf.
  - unfold sample_store. destruct (sample_stored _ _); by intros [= <- <-].
Qed.

#[local] Instance sample_kubernetes_clusters k : KubernetesClusters sample_env k.
Proof.
  refine {| cluster_stored := (λ w, sample_cluster_stored w k) : @world sample_env → _;
            cluster_finalizer_stays := λ A c, sample_cluster_finalizer_stays A c k |}.
  - intros w c w'. simpl. unfold sample_cluster_stored. destruct (sw_lxcCluster w) as [c0|] eqn:Hc; [|done]. simpl.
    case_decide; [|done]. intros [= <- <-]. by rewrite Hc, decide_True.
  - intros obj w obj' w'. simpl. unfold sample_ensure_cluster. case_decide as Hd.
    + by destruct (sample_cluster_stored _ _).
    + intros [= <- <-]. split_and!; [done|done|]. unfold is_deleted.
      destruct (om_DeletionTimestamp _); [by left|right].
      destruct (decide (ClusterFinalizer ∈ om_Finalizers (lc_Meta obj))); [done|]. by exfalso; apply Hd.
  - by intros cluster obj w obj' w' [= <- <-].
  - done.
Defined.

Definition cluster_run (s : @state sample_env) : outcome Result * @state sample_env := Reconcile None LXCCluster.sample_key s.

(** The user changes the specification, and deletes the cluster. *)
Definition delete_with_spec (f : LXCClusterSpec → LXCClusterSpec) (w : sample_world) : sample_world :=
  set_objects
    (option_map (λ c, {| lc_Meta := {| om_Name := om_Name (lc_Meta c); om_Namespace := om_Namespace (lc_Meta c);
                                        om_Labels := om_Labels (lc_Meta c); om_Finalizers := om_Finalizers (lc_Meta c);
                                        om_DeletionTimestamp := Some 1%Z |};
                         lc_Spec := f (lc_Spec c); lc_Status := lc_Status c |}) (sw_lxcCluster w)) (sw_lxcMachine w) w.

Definition cluster_s1 : @state sample_env := (cluster_run (sample_state sample_cluster_objects)).2.
Definition cluster_s2 : @state sample_env :=
  @Build_state sample_env (delete_with_spec id (@st_world sample_env cluster_s1)) (st_log cluster_s1).
Definition cluster_s3 : @state sample_env := (cluster_run cluster_s2).2.
Definition cluster_runs : list (list event) :=
  [st_log cluster_s1; drop (length (st_log cluster_s2)) (st_log cluster_s3)].

Definition sample_balancer : lb_resource := LBInstance (GetLoadBalancerInstanceName sample_lxcCluster).

Lemma no_orphan_balancers_witness :
  ¬ guarded ClusterFinalizer (cluster_meta LXCCluster.sample_key) cluster_s3 ∧
  ∃ j evs', 0 < j ∧ cluster_runs !! j = Some evs' ∧ lb_gone sample_place sample_balancer evs'.
Proof.
  assert (Hg : ¬ guarded ClusterFinalizer (cluster_meta LXCCluster.sample_key) cluster_s3) by (vm_compute; tauto).
  split; [exact Hg|].
  destruct (no_orphan_balancers LXCCluster.sample_key sample_place sample_balancer cluster_runs cluster_s3) as (_ & Hall & _).
  - change cluster_runs with ([st_log cluster_s1] ++ [drop (length (st_log cluster_s2)) (st_log cluster_s3)]).
    change cluster_s3 with ((λ ctx, Reconcile ctx LXCCluster.sample_key) None cluster_s2).2 at 2.
    apply history_run.
    + apply (history_others ClusterFinalizer _ _ _ cluster_s1 cluster_s2).
      * apply (history_run ClusterFinalizer (λ ctx, Reconcile ctx LXCCluster.sample_key) _ []
          (sample_state sample_cluster_objects) None); [apply history_start|reflexivity].
      * unfold guarded, has_finalizer, cluster_meta, cluster_stored. simpl. unfold sample_cluster_stored, delete_with_spec. simpl.
        destruct (sw_lxcCluster _) as [c|]; [|done]. simpl. unfold object_key. simpl. by case_decide.
    + vm_compute. reflexivity.
  - apply (bool_decide_unpack _). vm_compute. exact I.
  - apply (bool_decide_unpack _). vm_compute. exact I.
  - destruct (Hall 0 (st_log cluster_s1)) as [Hg'|Hgone]; [reflexivity| |destruct (Hg Hg')|exact Hgone].
    apply (bool_decide_unpack _). vm_compute. exact I.
Defined.

(** Why the specification must not change: the controller deletes the load
    balancer that the specification selects at that time. When the cluster gets
    an external load balancer after it was provisioned, and is then deleted, the
    finalizer goes and the instance of the old load balancer stays. *)
Definition to_external (spec : LXCClusterSpec) : LXCClusterSpec :=
  {| cs_ControlPlaneEndpoint := cs_ControlPlaneEndpoint spec; cs_SecretRef := cs_SecretRef spec;
     cs_LoadBalancer := {| lb_LXC := None; lb_OCI := None; lb_OVN := None; lb_KubeVIP := None; lb_External := Some ExternalLB |};
     cs_Unprivileged := cs_Unprivileged spec; cs_SkipDefaultKubeadmProfile := cs_SkipDefaultKubeadmProfile spec |}.

Example switched_balancer_stays :
  let s := cluster_run (@Build_state sample_env (delete_with_spec to_external (@st_world sample_env cluster_s1)) []) in
  s.1 = Ok noResult ∧ sw_lxcCluster (@st_world sample_env s.2) = None ∧
  is_Some (sw_instances (@st_world sample_env s.2) !! GetLoadBalancerInstanceName sample_lxcCluster).
Proof. vm_compute. split_and!; [reflexivity|reflexivity|by eexists]. Qed.
