(* ===== verification/System.v ===== *)
(** * Both controllers at work

    A manager reconciles many machines and clusters, in any order, while users
    and other controllers change the cluster. This file puts the histories of
    Lifecycle and ClusterLifecycle together: what those theorems take as "what
    the others do" is here, for the two controllers themselves, shown instead:
    a run for one object leaves the finalizers of all others where they are. *)

From S2P Require Import Prelude GoStrings Go Api World Images Launch Instances Template Sample Client Config LoadBalancer Capi Histories LXCCluster LXCMachine Lifecycle ClusterLifecycle.

(** The object that a run is for. *)
Inductive job := RunMachine (k : NamespacedName) | RunCluster (k : NamespacedName).

#[export] Instance job_eq_dec : EqDecision job.
Proof. solve_decision. Defined.

(** The runs for one object, in the order of a history. *)
Definition runs_of (j : job) (h : list (job * list event)) : list (list event) :=
  omap (λ x, if decide (x.1 = j) then Some x.2 else None) h.

Lemma runs_of_app j h h' : runs_of j (h ++ h') = runs_of j h ++ runs_of j h'.
Proof. apply omap_app. Qed.

Lemma runs_of_own j evs : runs_of j [(j, evs)] = [evs].
Proof. unfold runs_of. simpl. by rewrite decide_True. Qed.

Lemma runs_of_other j j' evs : j' ≠ j → runs_of j [(j', evs)] = [].
Proof. intros Hne. unfold runs_of. simpl. by rewrite decide_False. Qed.

Lemma elem_of_runs_of j h evs : evs ∈ runs_of j h ↔ (j, evs) ∈ h.
Proof.
  unfold runs_of. rewrite list_elem_of_omap. split.
  - intros ([j' evs'] & Hin & Hx). simpl in Hx. case_decide; simplify_eq. done.
  - intros Hin. exists (j, evs). simpl. by rewrite decide_True.
Qed.

Section system.
Context `{MapRange} `{YAML} `{TextTemplate} `{Printer} `{CliPaths} `{ClusterAPI} `{E : Env} `{!EnvTime E}.
Context `{KM : ∀ k, Kubernetes E k} `{KC : ∀ k, KubernetesClusters E k}.

Definition machine_safe (k : NamespacedName) : state → Prop := guarded MachineFinalizer (machine_stored k).
Definition cluster_safe (k : NamespacedName) : state → Prop := guarded ClusterFinalizer (cluster_meta k).

(** What a run leaves behind. *)
Definition run_job (ctx : context) (j : job) (s : state) : state :=
  match j with
  | RunMachine k => (LXCMachineController.Reconcile ctx k s).2
  | RunCluster k => (LXCClusterController.Reconcile ctx k s).2
  end.

(** [system h s]: from some state the manager made the runs of [h], one after
    the other, each with the calls it made, and the world is now in [s]. Between
    two runs anything may happen that takes no finalizer of the provider off an
    object. *)
Inductive system : list (job * list event) → state → Prop :=
| system_start s : system [] s
| system_run h s ctx j evs :
    system h s → st_log (run_job ctx j s) = st_log s ++ evs → system (h ++ [(j, evs)]) (run_job ctx j s)
| system_others h s s' :
    system h s → (∀ k, machine_safe k s → machine_safe k s') → (∀ k, cluster_safe k s → cluster_safe k s') → system h s'.

(** ** A run leaves the other objects alone *)

(** The calls of a run for a machine patch no other machine; those of a run for
    a cluster patch no other cluster. *)
Lemma machine_run_path ctx k s :
  ∃ evs, path s evs (run_job ctx (RunMachine k) s) ∧
    ∀ k', k' ≠ k → Forall (λ e, ¬ drops machine_patched MachineFinalizer k' e) evs.
Proof.
  destruct (machine_classified k None ctx s) as (evs & Hp & Hc). exists evs. split; [done|]. intros k' Hne.
  destruct (Hc I) as [Hq|(ev & evs' & m & s1 & -> & Hev & _ & _ & Hk & _ & Hkey & _)].
  - by eapply quiet_none_dropped.
  - apply (Forall_app_2 _ [ev]); [eapply quiet_none_dropped; by apply Forall_singleton|].
    apply (none_dropped machine_patched (λ _, false) MachineFinalizer (λ m', object_key m' = object_key m)); [exact Hkey|congruence].
Qed.

Lemma cluster_run_path ctx k s :
  ∃ evs, path s evs (run_job ctx (RunCluster k) s) ∧
    ∀ k', k' ≠ k → Forall (λ e, ¬ drops cluster_patched ClusterFinalizer k' e) evs.
Proof.
  destruct (cluster_classified k None ctx s) as (evs & Hp & Hc). exists evs. split; [done|]. intros k' Hne.
  destruct Hc as [Hq|(ev & evs' & m & s1 & -> & Hev & _ & _ & Hk & _ & Hkey & _)].
  - split; [done|]. apply Forall_true. intros [X [[Y conn c|Y c|Y c] x]]; try done. by destruct c, x.
  - by eapply quiet_none_dropped.
  - apply (Forall_app_2 _ [ev]); [eapply quiet_none_dropped; by apply Forall_singleton|].
    apply (none_dropped cluster_patched (λ _, false) ClusterFinalizer (λ m', object_key m' = object_key m)); [exact Hkey|congruence].
Qed.

(** A run of one kind patches no object of the other kind. *)
Lemma cluster_patches_no_machine ctx k : calls_only (λ e, machine_patched e = None) (LXCClusterController.Reconcile ctx k).
Proof.
  assert (Hlb : ∀ c client A (m : M state A), calls_only (cluster_lb_footprint c client) m → calls_only (λ e, machine_patched e = None) m).
  { intros c client A m. apply calls_only_mono. by intros [B [[C conn call|C call|C call] x]]. }
  assert (Hc := λ cl c client, Hlb c client _ _ (Create_calls (ManagerSpec := ManagerForCluster_spec cl c client) ctx)).
  assert (Hd := λ cl c client, Hlb c client _ _ (Delete_calls (ManagerSpec := ManagerForCluster_spec cl c client) ctx)).
  assert (Hn := λ config, calls_New_within (λ e, machine_patched e = None) config (λ _ _ _, eq_refl) (λ _ _, eq_refl)).
  unfold LXCClusterController.Reconcile, LXCClusterController.reconcile_ensured, LXCClusterController.reconcile_patched,
    LXCClusterController.reconcileNormal, LXCClusterController.reconcileDelete, LXCClusterController.finish,
    LXCClusterController.patchLXCCluster, GetMachinesForCluster. calls_auto.
Qed.

Lemma machine_patches_no_cluster ctx k : calls_only (λ e, cluster_patched e = None) (LXCMachineController.Reconcile ctx k).
Proof.
  assert (Hr : ∀ cl c client, calls_only (λ e, cluster_patched e = None) (Reconfigure (ManagerForCluster cl c client) ctx)).
  { intros cl c client. eapply calls_only_mono; [|apply (Reconfigure_calls (ManagerSpec := ManagerForCluster_spec cl c client))].
    by intros [B [[C conn call|C call|C call] x]]. }
  assert (Hl : ∀ cl c mc m client cloudInit, calls_only (λ e, cluster_patched e = None)
    (LXCMachineController.launchInstance ctx cl c mc m client cloudInit)) by (intros; by apply LXCMachineController.calls_launchInstance).
  assert (Hd : ∀ client name, calls_only (λ e, cluster_patched e = None) (WaitForDeleteInstance client ctx name)).
  { intros client name. apply calls_WaitForDeleteInstance; [|done..]. by intros A call r Hcall. }
  assert (Hn := λ config, calls_New_within (λ e, cluster_patched e = None) config (λ _ _ _, eq_refl) (λ _ _, eq_refl)).
  unfold LXCMachineController.Reconcile, LXCMachineController.reconcile_in_cluster, LXCMachineController.reconcile_ensured,
    LXCMachineController.reconcileNormal, LXCMachineController.check_instance, LXCMachineController.getBootstrapData,
    LXCMachineController.finish_launch, LXCMachineController.reconcileDelete, LXCMachineController.finish_delete,
    LXCMachineController.finish, LXCMachineController.patchLXCMachine. calls_auto.
Qed.

(** So a run for another object leaves the finalizer of a machine, and of a
    cluster, where it is. *)
Lemma job_keeps_machine ctx j k s : j ≠ RunMachine k → machine_safe k s → machine_safe k (run_job ctx j s).
Proof.
  intros Hne. unfold machine_safe. destruct j as [k'|k'].
  - destruct (machine_run_path ctx k' s) as (evs & Hp & Hd).
    eapply (path_guarded machine_patched MachineFinalizer k (machine_stored k) finalizer_stays finalizer_elapse _ _ _ Hp).
    apply Hd. congruence.
  - destruct (cluster_patches_no_machine ctx k' s) as (evs & Hp & Hf).
    eapply (path_guarded machine_patched MachineFinalizer k (machine_stored k) finalizer_stays finalizer_elapse _ _ _ Hp).
    eapply Forall_impl; [exact Hf|]. intros e He. unfold drops. rewrite He. tauto.
Qed.

Lemma job_keeps_cluster ctx j k s : j ≠ RunCluster k → cluster_safe k s → cluster_safe k (run_job ctx j s).
Proof.
  intros Hne. unfold cluster_safe. destruct j as [k'|k'].
  - destruct (machine_patches_no_cluster ctx k' s) as (evs & Hp & Hf).
    eapply (path_guarded cluster_patched ClusterFinalizer k (cluster_meta k) cluster_finalizer_stays cluster_finalizer_elapse _ _ _ Hp).
    eapply Forall_impl; [exact Hf|]. intros e He. unfold drops. rewrite He. tauto.
  - destruct (cluster_run_path ctx k' s) as (evs & Hp & Hd).
    eapply (path_guarded cluster_patched ClusterFinalizer k (cluster_meta k) cluster_finalizer_stays cluster_finalizer_elapse _ _ _ Hp).
    apply Hd. congruence.
Qed.

(** ** The runs for one object are a history of it *)

Lemma machine_projection k h s :
  system h s → history MachineFinalizer (λ ctx, LXCMachineController.Reconcile ctx k) (machine_stored k) (runs_of (RunMachine k) h) s.
Proof.
  induction 1 as [s|h s ctx j evs Hh IH Hlog|h s s' Hh IH Hm Hc]; [apply history_start| |].
  - rewrite runs_of_app. destruct (decide (j = RunMachine k)) as [->|Hne].
    + rewrite runs_of_own. by apply (history_run _ (λ ctx, LXCMachineController.Reconcile ctx k)).
    + rewrite runs_of_other, app_nil_r by done. eapply history_others; [exact IH|by apply job_keeps_machine].
  - eapply history_others; [exact IH|apply Hm].
Qed.

Lemma cluster_projection k h s :
  system h s → history ClusterFinalizer (λ ctx, LXCClusterController.Reconcile ctx k) (cluster_meta k) (runs_of (RunCluster k) h) s.
Proof.
  induction 1 as [s|h s ctx j evs Hh IH Hlog|h s s' Hh IH Hm Hc]; [apply history_start| |].
  - rewrite runs_of_app. destruct (decide (j = RunCluster k)) as [->|Hne].
    + rewrite runs_of_own. by apply (history_run _ (λ ctx, LXCClusterController.Reconcile ctx k)).
    + rewrite runs_of_other, app_nil_r by done. eapply history_others; [exact IH|by apply job_keeps_cluster].
  - eapply history_others; [exact IH|apply Hc].
Qed.

(** A later run for the object, read back in the whole history. *)
Lemma later_run j h1 evs h2 i evs' :
  length (runs_of j h1) < i → runs_of j (h1 ++ (j, evs) :: h2) !! i = Some evs' → (j, evs') ∈ h2.
Proof.
  intros Hi Hl. change ((j, evs) :: h2) with ([(j, evs)] ++ h2) in Hl. rewrite !runs_of_app, runs_of_own in Hl.
  rewrite lookup_app_r in Hl by lia. destruct (i - length (runs_of j h1)) as [|n] eqn:Hn; [lia|]. simpl in Hl.
  apply elem_of_runs_of. by eapply list_elem_of_lookup_2.
Qed.

Lemma own_run j h1 evs h2 : runs_of j (h1 ++ (j, evs) :: h2) !! length (runs_of j h1) = Some evs.
Proof.
  change ((j, evs) :: h2) with ([(j, evs)] ++ h2). by rewrite !runs_of_app, runs_of_own, lookup_app_r, Nat.sub_diag by lia.
Qed.

(** ** Nothing is left behind *)

(** The credentials of every run for the object lead to the place. *)
Definition working_at (p : place) (j : job) (h : list (job * list event)) : Prop :=
  ∀ evs, (j, evs) ∈ h → credentials p evs.

Lemma working_at_runs p j h : working_at p j h → Forall (credentials p) (runs_of j h).
Proof. intros Hw. apply Forall_forall. intros evs Hin%elem_of_runs_of. by apply Hw. Qed.

(** C1: Whatever the manager reconciles, in whatever order, and whatever others do
    in between that respects the finalizers of the provider. For every machine
    whose runs have credentials for one server and project: all calls of its runs
    go there; and when a run asked for its instance, then the machine is still
    stored with its finalizer, or a later run for it had that server say that the
    instance is not in the project, or delete it. For every cluster whose runs
    have credentials for one server and project and all read the same load
    balancer: all calls of its runs go there; and when a run asked for the load
    balancer, then the cluster is still stored with its finalizer, or a later run
    for it had that server say that the load balancer is not there, or delete it.
    No assumption is made on what the runs for other objects do. *)
Theorem system_leaves_nothing (h : list (job * list event)) (s : state) :
  system h s →
  (∀ k p, working_at p (RunMachine k) h →
     (∀ evs, (RunMachine k, evs) ∈ h → Forall (at_place p) evs) ∧
     ∀ h1 evs h2, h = h1 ++ (RunMachine k, evs) :: h2 → Exists (ev_creates (nn_Name k)) evs →
       machine_safe k s ∨ ∃ evs', (RunMachine k, evs') ∈ h2 ∧ instance_gone p (nn_Name k) evs') ∧
  (∀ k p r, working_at p (RunCluster k) h →
     (∀ evs, (RunCluster k, evs) ∈ h → Forall (reads_resource (Some (p, r)) k) evs) →
     (∀ evs, (RunCluster k, evs) ∈ h → Forall (at_place p) evs) ∧
     ∀ h1 evs h2, h = h1 ++ (RunCluster k, evs) :: h2 → Exists (wants r) evs →
       cluster_safe k s ∨ ∃ evs', (RunCluster k, evs') ∈ h2 ∧ lb_gone p r evs').
Proof.
  intros Hh. split.
  - intros k p Hw%working_at_runs. destruct (machine_history_guarded k p _ _ (machine_projection k _ _ Hh) Hw) as (Hp & Hg & _).
    split; [intros evs Hin%elem_of_runs_of; by apply Hp|]. intros h1 evs h2 -> Hcr.
    destruct (Hg _ _ (own_run _ _ _ _) Hcr) as [?|(j & evs' & Hj & Hl & Hgone)]; [by left|right].
    exists evs'. split; [by eapply later_run|done].
  - intros k p r Hw%working_at_runs Hreads.
    destruct (cluster_history_guarded k p r _ _ (cluster_projection k _ _ Hh) Hw) as (Hp & Hg & _).
    { apply Forall_forall. intros evs' Hin%elem_of_runs_of. by apply Hreads. }
    split; [intros evs Hin%elem_of_runs_of; by apply Hp|]. intros h1 evs h2 -> Hwants.
    destruct (Hg _ _ (own_run _ _ _ _) Hwants) as [?|(j & evs' & Hj & Hl & Hgone)]; [by left|right].
    exists evs'. split; [by eapply later_run|done].
Qed.

End system.

(** ** A cluster and its machine on the sample server *)

#[local] Existing Instance sample_env.
#[local] Existing Instance sample_templates.
#[local] Existing Instance sample_printer.
#[local] Existing Instance sample_paths.
#[local] Existing Instance sample_yaml.
#[local] Existing Instance reference_capi.
#[local] Existing Instance sample_kubernetes.
#[local] Existing Instance sample_kubernetes_clusters.

Definition machine_job : job := RunMachine Lifecycle.sample_key.
Definition cluster_job : job := RunCluster LXCCluster.sample_key.

(** The machine is provisioned, the cluster is reconciled, the machine is deleted
    by its owner, and the next run removes it. *)
Definition system_s1 : @state sample_env := run_job None machine_job (sample_state sample_machine_objects).
Definition system_s2 : @state sample_env := run_job None cluster_job system_s1.
Definition system_s3 : @state sample_env :=
  @Build_state sample_env (mark_deleted (@st_world sample_env system_s2)) (st_log system_s2).
Definition system_s4 : @state sample_env := run_job None machine_job system_s3.

Definition system_runs : list (job * list event) :=
  [(machine_job, st_log system_s1); (cluster_job, drop (length (st_log system_s1)) (st_log system_s2));
   (machine_job, drop (length (st_log system_s3)) (st_log system_s4))].

(** The owner's mark takes no finalizer off. *)
Lemma mark_deleted_keeps (w : sample_world) l k :
  (machine_safe k (@Build_state sample_env w l) → machine_safe k (@Build_state sample_env (mark_deleted w) l)) ∧
  (cluster_safe k (@Build_state sample_env w l) → cluster_safe k (@Build_state sample_env (mark_deleted w) l)).
Proof.
  split; [|exact id].
  unfold machine_safe, guarded, has_finalizer, machine_stored, stored. simpl. unfold sample_stored, mark_deleted. simpl.
  destruct (sw_lxcMachine _) as [m|]; [|done]. simpl. unfold object_key. simpl. by case_decide.
Qed.

Lemma sample_system : system system_runs system_s4.
Proof.
  apply (system_run [_; _] system_s3 None machine_job); [|vm_compute; reflexivity].
  apply (system_others _ system_s2).
  - apply (system_run [_] system_s1 None cluster_job); [|vm_compute; reflexivity].
    apply (system_run [] (sample_state sample_machine_objects) None machine_job); [apply system_start|reflexivity].
  - intros k. unfold system_s3. destruct system_s2 as [w l]. apply (mark_deleted_keeps w l k).
  - intros k. unfold system_s3. destruct system_s2 as [w l]. apply (mark_deleted_keeps w l k).
Qed.

(** The machine is gone from the cluster, and the last run saw that its instance
    is gone. *)
Lemma system_leaves_nothing_witness :
  ¬ machine_safe Lifecycle.sample_key system_s4 ∧
  ∃ evs, (machine_job, evs) ∈ drop 1 system_runs ∧ instance_gone sample_place (nn_Name Lifecycle.sample_key) evs.
Proof.
  assert (Hno : ¬ machine_safe Lifecycle.sample_key system_s4) by (vm_compute; tauto).
  split; [exact Hno|].
  destruct (system_leaves_nothing system_runs system_s4 sample_system) as [Hm _].
  destruct (Hm Lifecycle.sample_key sample_place) as [_ Hgone].
  { intros evs Hin. assert (Hall : Forall (λ x, credentials sample_place x.2) system_runs)
      by (apply (bool_decide_unpack _); vm_compute; exact I).
    rewrite Forall_forall in Hall. exact (Hall _ Hin). }
  destruct (Hgone [] (st_log system_s1) (drop 1 system_runs)) as [Hs|Hlast];
    [reflexivity|apply (bool_decide_unpack _); vm_compute; exact I|destruct (Hno Hs)|exact Hlast].
Defined.
