(* ===== verification/Simplestreams.v ===== *)
(** * Simplestreams indexes: internal/exp/simplestreams/index

    A simplestreams index is a directory with image files and two JSON files:
    streams/v1/index.json lists the products, streams/v1/images.json their
    versions and files. This file models opening such an index and importing
    container and virtual machine images into it. The archive, YAML and JSON
    libraries are parameters. The commands are in SimplestreamsCmd. *)

From S2P Require Import Prelude GoStrings Go Sha256 Files Images.

(** ** Data: shared/simplestreams of Incus

    The fields the program never looks at are kept as they are, in [_Other]. *)

Record StreamIndex := {
  sx_DataType : string; sx_Path : string; sx_Format : string; sx_Products : list string; sx_Other : string
}.

Record Stream := { str_Format : string; str_Index : option (gmap string StreamIndex); str_Other : string }.

Record ProductVersionItem := {
  it_FileType : string; it_HashSha256 : string; it_Size : Z; it_Path : string;
  it_CombinedSha256DiskImg : string; it_CombinedSha256DiskKvmImg : string; it_Other : string
}.

Record ProductVersion := { pv_Items : option (gmap string ProductVersionItem); pv_Other : string }.

Record Product := {
  pr_Aliases : string; pr_Architecture : string; pr_OperatingSystem : string; pr_Release : string;
  pr_ReleaseTitle : string; pr_Variant : string; pr_Versions : option (gmap string ProductVersion); pr_Other : string
}.

Record Products := {
  ps_ContentID : string; ps_DataType : string; ps_Format : string; ps_Products : option (gmap string Product);
  ps_Other : string
}.

Definition zeroStreamIndex : StreamIndex :=
  {| sx_DataType := ""; sx_Path := ""; sx_Format := ""; sx_Products := []; sx_Other := "" |}.
Definition zeroProductVersion : ProductVersion := {| pv_Items := None; pv_Other := "" |}.

(** The metadata of an image: what metadata.yaml says. *)
Record Metadata := { md_Architecture : string; md_CreationDate : Z; md_Properties : gmap string string }.

Definition zeroMetadata : Metadata := {| md_Architecture := ""; md_CreationDate := 0; md_Properties := ∅ |}.

Definition property (md : Metadata) (k : string) : string := default "" (md_Properties md !! k).

(** Index manages a simplestreams index from a local directory. *)
Record Index := { ix_Index : Stream; ix_Products : Products; ix_rootDir : string }.

(** ** The libraries: archives, YAML, JSON, time *)

Record zip_file := { zf_Name : string; zf_Open : error + (error + string) }.

Class Archives := {
  gunzip : string → error + tar_stream;
  unzip : string → error + list zip_file;
  tar_WriteHeader : tar_header → option error;
  tar_Write : tar_header → string → option error;
  tar_Close : list (tar_header * string) → option error;
  gzip_Close : list (tar_header * string) → error + string
}.

Class Codecs := {
  (** Decoding into a value keeps the fields that the text does not set. *)
  Unmarshal_Metadata : string → Metadata → error + Metadata;
  Marshal_Stream : Stream → error + string;
  Unmarshal_Stream : string → error + Stream;
  Marshal_Products : Products → error + string;
  Unmarshal_Products : string → error + Products;
  (** [time.Unix(sec, 0).Format("200601021504")], in the local time zone. *)
  FormatMinute : Z → string
}.

(** ** Constants: consts.go *)

Definition containerFTypeIncus : string := "incus_combined.tar.gz".
Definition containerFTypeLXD : string := "lxd_combined.tar.gz".
Definition vmMetadataFTypeIncus : string := "incus.tar.xz".
Definition vmMetadataFTypeLXD : string := "lxd.tar.xz".
Definition vmRootfsFTypeIncus : string := "disk-kvm.img".
Definition vmRootfsFTypeLXD : string := "disk1.img".

Definition fail_if {St} (pre : string) (err : option error) : M St unit :=
  match err with Some err => throw (Errorf_w pre err) | None => ret tt end.

Section index.
Context `{Disk} `{Archives} `{Codecs}.

(** ** Opening an index: index.go *)

Definition index_json (rootDir : string) : string := filepath_Join [rootDir; "streams"; "v1"; "index.json"].
Definition images_json (rootDir : string) : string := filepath_Join [rootDir; "streams"; "v1"; "images.json"].

Definition newStream : Stream :=
  {| str_Format := "index:1.0";
     str_Index := Some {[ "images" := {| sx_DataType := "image-downloads"; sx_Path := "streams/v1/images.json";
                                         sx_Format := "products:1.0"; sx_Products := []; sx_Other := "" |} ]};
     str_Other := "" |}.

Definition newProducts : Products :=
  {| ps_ContentID := "images"; ps_DataType := "image-downloads"; ps_Format := "products:1.0";
     ps_Products := Some ∅; ps_Other := "" |}.

(** A JSON file of the index, or a new value if there is no such file. *)
Definition read_json {A} (path name : string) (new : A) (unmarshal : string → error + A) : M disk A :=
  let! r := try (os_ReadFile path) in
  match r with
  | inl err => if negb (IsNotExist err) then throw (Errorf_w ("failed to read " +s+ name +s+ ": ") err) else ret new
  | inr b => wrap ("failed to parse " +s+ name +s+ ": ") (of_result (unmarshal b))
  end.

(** GetOrCreateIndex opens a simplestreams index given a local root directory. *)
Definition GetOrCreateIndex (rootDir : string) : M disk Index :=
  let! rootDir := if decide (rootDir = "") then wrap "failed to retrieve current directory: " os_Getwd
                  else ret rootDir in
  wrap "failed to create streams/v1 directory: " (os_MkdirAll (filepath_Join [rootDir; "streams"; "v1"])) ;;
  wrap "failed to create images directory: " (os_MkdirAll (filepath_Join [rootDir; "images"])) ;;
  let! index := read_json (index_json rootDir) "streams/v1/index.json" newStream Unmarshal_Stream in
  let! products := read_json (images_json rootDir) "streams/v1/images.json" newProducts Unmarshal_Products in
  ret {| ix_Index := index; ix_Products := products; ix_rootDir := rootDir |}.

(** ** Hashes, sizes and copies: util.go *)

Definition sha256_hex (s : string) : string := hex_encode (Sum256 (bytes_of_string s)).
Definition size_of (s : string) : Z := Z.of_nat (String.length s).

Record containerImageInfo := { ci_Sha256 : string; ci_Size : Z }.

Definition getContainerImageInfo (path : string) : M disk containerImageInfo :=
  let! size := wrap "failed to stat: " (os_Stat path) in
  wrap "failed to open: " (os_Open path) ;;
  let! contents := wrap "failed to calculate sha256 sum: " (io_ReadAll path) in
  ret {| ci_Sha256 := sha256_hex contents; ci_Size := size |}.

Record virtualMachineImageInfo := {
  vi_MetaSize : Z; vi_MetaSha256 : string; vi_RootSize : Z; vi_RootSha256 : string; vi_CombinedSha256 : string
}.

(** Writing to a hash does not fail. *)
Definition getVirtualMachineImageInfo (metadata rootfs : string) : virtualMachineImageInfo :=
  {| vi_MetaSize := size_of metadata; vi_RootSize := size_of rootfs;
     vi_MetaSha256 := sha256_hex metadata; vi_CombinedSha256 := sha256_hex (metadata +s+ rootfs);
     vi_RootSha256 := sha256_hex rootfs |}.

(** The source is open while the destination is created (and truncated); its
    contents are only read after that. *)
Definition copyFile (source destination : string) : M disk unit :=
  wrap "failed to open source: " (os_Open source) ;;
  wrap "failed to create directory for destination: " (os_MkdirAll (filepath_Dir destination)) ;;
  wrap "failed to open destination: " (os_Create destination) ;;
  let! data := wrap "failed to copy file data: " (io_ReadAll source) in
  wrap "failed to copy file data: " (write destination data) ;;
  wrap "failed to truncate output file: " (os_Truncate destination (String.length data)) ;;
  wrap "failed to flush file: " (os_Close destination).

(** ** Updating the index: import_container.go, import_virtual_machine.go *)

Definition productName (md : Metadata) : string :=
  property md "os" +s+ ":" +s+ property md "release" +s+ ":" +s+ property md "variant" +s+ ":" +s+
  property md "architecture".

(** A file of the image in the index, below the root directory. *)
Definition image_target (md : Metadata) (file : string) : string :=
  filepath_Join ["images"; property md "os"; property md "release"; property md "architecture"; file].

(** Adds the product to the products of index.json, which stay sorted. *)
Definition add_product_name (stream : Stream) (name : string) : M disk Stream :=
  let images := default zeroStreamIndex (default ∅ (str_Index stream) !! "images") in
  if decide (name ∈ sx_Products images) then ret stream
  else
    match str_Index stream with
    | None => panic "assignment to entry in nil map"
    | Some m =>
        ret {| str_Format := str_Format stream; str_Other := str_Other stream;
               str_Index := Some (<["images" :=
                 {| sx_DataType := sx_DataType images; sx_Path := sx_Path images; sx_Format := sx_Format images;
                    sx_Other := sx_Other images;
                    sx_Products := sort_strings (sx_Products images ++ [name]) |}]> m) |}
    end.

(** The product to update: the existing one, or a new one. *)
Definition get_product (products : Products) (md : Metadata) (versionName : string) : Product :=
  match default ∅ (ps_Products products) !! productName md with
  | Some existingProduct => existingProduct
  | None =>
      {| pr_Aliases := ""; pr_Architecture := property md "architecture"; pr_OperatingSystem := property md "os";
         pr_Release := property md "release"; pr_ReleaseTitle := property md "release";
         pr_Variant := property md "variant"; pr_Versions := Some {[ versionName := zeroProductVersion ]};
         pr_Other := "" |}
  end.

(** The product with new aliases (when there are any) and with the items in the
    version. *)
Definition update_product (product : Product) (versionName : string) (aliases : list string)
    (items : list ProductVersionItem) : Product :=
  let versions := default ∅ (pr_Versions product) in
  let newProductVersions := default zeroProductVersion (versions !! versionName) in
  {| pr_Aliases := if (0 <? length aliases)%nat then Join aliases "," else pr_Aliases product;
     pr_Architecture := pr_Architecture product; pr_OperatingSystem := pr_OperatingSystem product;
     pr_Release := pr_Release product; pr_ReleaseTitle := pr_ReleaseTitle product; pr_Variant := pr_Variant product;
     pr_Versions := Some (<[versionName :=
       {| pv_Items := Some (foldl (λ m item, <[it_FileType item := item]> m)
                              (default ∅ (pv_Items newProductVersions)) items);
          pv_Other := pv_Other newProductVersions |}]> versions);
     pr_Other := pr_Other product |}.

Definition add_version (i : Index) (md : Metadata) (versionName : string) (aliases : list string)
    (items : list ProductVersionItem) : M disk Index :=
  let! stream := add_product_name (ix_Index i) (productName md) in
  let product := update_product (get_product (ix_Products i) md versionName) versionName aliases items in
  match ps_Products (ix_Products i) with
  | None => panic "assignment to entry in nil map"
  | Some m =>
      ret {| ix_Index := stream; ix_rootDir := ix_rootDir i;
             ix_Products := {| ps_ContentID := ps_ContentID (ix_Products i); ps_DataType := ps_DataType (ix_Products i);
                               ps_Format := ps_Format (ix_Products i); ps_Other := ps_Other (ix_Products i);
                               ps_Products := Some (<[productName md := product]> m) |} |}
  end.

(** Writes index.json, then images.json. *)
Definition write_index (i : Index) : M disk unit :=
  let! indexJSON := wrap "failed to encode new streams/v1/index.json: " (of_result (Marshal_Stream (ix_Index i))) in
  wrap "failed to write streams/v1/index.json: " (os_WriteFile (index_json (ix_rootDir i)) indexJSON) ;;
  let! productsJSON := wrap "failed to encode new streams/v1/images.json: " (of_result (Marshal_Products (ix_Products i))) in
  wrap "failed to write streams/v1/images.json: " (os_WriteFile (images_json (ix_rootDir i)) productsJSON).

(** Opens an archive. A read error of the file shows when it is opened. *)
Definition open_archive (imagePath : string) : M disk tar_stream :=
  wrap "failed to open: " (os_Open imagePath) ;;
  wrap "failed to open tar.gz archive: " (let! contents := io_ReadAll imagePath in of_result (gunzip contents)).

(** ** Container images: import_container.go *)

(** The metadata of the first metadata.yaml of the archive. *)
Fixpoint find_metadata (entries : list tar_entry) (last : option error) : error + Metadata :=
  match entries with
  | [] => match last with
          | Some err => inl (Errorf_w "failed to read tar.gz archive: " err)
          | None => inr zeroMetadata
          end
  | e :: entries =>
      if decide (hd_Name (te_Header e) = "metadata.yaml") then
        match te_Body e with
        | inl err => inl (Errorf_w "failed to read metadata.yaml from image: " err)
        | inr b => match Unmarshal_Metadata b zeroMetadata with
                   | inl err => inl (Errorf_w "failed to parse metadata.yaml from image: " err)
                   | inr md => inr md
                   end
        end
      else find_metadata entries last
  end.

Definition container_item (ftype target : string) (info : containerImageInfo) : ProductVersionItem :=
  {| it_FileType := ftype; it_HashSha256 := ci_Sha256 info; it_Size := ci_Size info; it_Path := target;
     it_CombinedSha256DiskImg := ""; it_CombinedSha256DiskKvmImg := ""; it_Other := "" |}.

Definition container_items (incus lxd : bool) (target : string) (info : containerImageInfo) : list ProductVersionItem :=
  (if incus then [container_item containerFTypeIncus target info] else []) ++
  (if lxd then [container_item containerFTypeLXD target info] else []).

Definition importContainerUnifiedTarball (i : Index) (imagePath : string) (aliases : list string) (incus lxd : bool) :
    M disk Index :=
  let! archive := open_archive imagePath in
  let! metadata := of_result (find_metadata (ts_Entries archive) (ts_End archive)) in
  if decide (md_Architecture metadata = "") then throw (errorString "no metadata.yaml found for image")
  else
    let! info := wrap "failed to retrieve image information: " (getContainerImageInfo imagePath) in
    let versionName := FormatMinute (md_CreationDate metadata) in
    let target := image_target metadata (ci_Sha256 info +s+ ".incus_combined.tar.gz") in
    let! i := add_version i metadata versionName aliases (container_items incus lxd target info) in
    wrap "failed to copy image file: " (copyFile imagePath (filepath_Join [ix_rootDir i; target])) ;;
    write_index i ;;
    ret i.

(** ** Virtual machine images: import_virtual_machine.go *)

(** What is collected from the archive: the metadata, the files of the new
    metadata archive, and the root file system. *)
Record vm_parts := { vp_Metadata : Metadata; vp_Files : list (tar_header * string); vp_Rootfs : string }.

Fixpoint read_vm (entries : list tar_entry) (last : option error) (parts : vm_parts) : error + vm_parts :=
  match entries with
  | [] => match last with
          | Some err => inl (Errorf_w "failed to read tar.gz archive: " err)
          | None => inr parts
          end
  | e :: entries =>
      let hdr := te_Header e in
      if decide (hd_Name hdr = "metadata.yaml") then
        match te_Body e with
        | inl err => inl (Errorf_w "failed to read metadata.yaml from image: " err)
        | inr b =>
            match Unmarshal_Metadata b (vp_Metadata parts), tar_WriteHeader hdr, tar_Write hdr b with
            | inl err, _, _ => inl (Errorf_w "failed to parse metadata.yaml from image: " err)
            | inr _, Some err, _ => inl (Errorf_w "failed to write header for metadata.yaml: " err)
            | inr _, None, Some err => inl (Errorf_w "failed to write metadata.yaml: " err)
            | inr md, None, None =>
                read_vm entries last {| vp_Metadata := md; vp_Files := vp_Files parts ++ [(hdr, b)];
                                        vp_Rootfs := vp_Rootfs parts |}
            end
        end
      else if HasPrefix (hd_Name hdr) "templates/" then
        match tar_WriteHeader hdr, te_Body e with
        | Some err, _ => inl (Errorf_w ("failed to write header for " +s+ quote (hd_Name hdr) +s+ ": ") err)
        | None, inl err => inl (Errorf_w ("failed to write " +s+ quote (hd_Name hdr) +s+ ": ") err)
        | None, inr b =>
            match tar_Write hdr b with
            | Some err => inl (Errorf_w ("failed to write " +s+ quote (hd_Name hdr) +s+ ": ") err)
            | None => read_vm entries last {| vp_Metadata := vp_Metadata parts; vp_Files := vp_Files parts ++ [(hdr, b)];
                                              vp_Rootfs := vp_Rootfs parts |}
            end
        end
      else if decide (hd_Name hdr = "rootfs.img") then
        match te_Body e with
        | inl err => inl (Errorf_w "failed to read rootfs.img from image: " err)
        | inr b => read_vm entries last {| vp_Metadata := vp_Metadata parts; vp_Files := vp_Files parts; vp_Rootfs := b |}
        end
      else read_vm entries last parts
  end.

Definition vm_items (incus lxd : bool) (metadataTarget rootfsTarget : string) (info : virtualMachineImageInfo) :
    list ProductVersionItem :=
  let rootfs ftype :=
    {| it_FileType := ftype; it_HashSha256 := vi_RootSha256 info; it_Size := vi_RootSize info; it_Path := rootfsTarget;
       it_CombinedSha256DiskImg := ""; it_CombinedSha256DiskKvmImg := ""; it_Other := "" |} in
  let metadata ftype diskImg kvmImg :=
    {| it_FileType := ftype; it_HashSha256 := vi_MetaSha256 info; it_Size := vi_MetaSize info; it_Path := metadataTarget;
       it_CombinedSha256DiskImg := diskImg; it_CombinedSha256DiskKvmImg := kvmImg; it_Other := "" |} in
  (if incus then [rootfs vmRootfsFTypeIncus; metadata vmMetadataFTypeIncus "" (vi_CombinedSha256 info)] else []) ++
  (if lxd then [rootfs vmRootfsFTypeLXD; metadata vmMetadataFTypeLXD (vi_CombinedSha256 info) ""] else []).

Definition importVirtualMachineUnifiedTarball (i : Index) (imagePath : string) (aliases : list string)
    (incus lxd : bool) : M disk Index :=
  let! archive := open_archive imagePath in
  let! parts := of_result (read_vm (ts_Entries archive) (ts_End archive)
                             {| vp_Metadata := zeroMetadata; vp_Files := []; vp_Rootfs := "" |}) in
  let metadata := vp_Metadata parts in
  fail_if "failed to generate metadata.tar: " (tar_Close (vp_Files parts)) ;;
  let! outMetadata := wrap "failed to generate metadata.tar.gz: " (of_result (gzip_Close (vp_Files parts))) in
  if decide (outMetadata = "") then throw (errorString "no metadata found in image")
  else if decide (vp_Rootfs parts = "") then throw (errorString "no rootfs.img found in image")
  else if decide (md_Architecture metadata = "") then throw (errorString "no metadata.yaml found in image")
  else
    let info := getVirtualMachineImageInfo outMetadata (vp_Rootfs parts) in
    let versionName := FormatMinute (md_CreationDate metadata) in
    let metadataTarget := image_target metadata (vi_MetaSha256 info +s+ ".incus.tar.xz") in
    let rootfsTarget := image_target metadata (vi_MetaSha256 info +s+ ".disk-kvm.img") in
    wrap "failed to create images directory: "
      (os_MkdirAll (filepath_Join [ix_rootDir i; filepath_Dir rootfsTarget])) ;;
    let! i := add_version i metadata versionName aliases (vm_items incus lxd metadataTarget rootfsTarget info) in
    wrap "failed to write rootfs: " (os_WriteFile (filepath_Join [ix_rootDir i; rootfsTarget]) (vp_Rootfs parts)) ;;
    wrap "failed to write metadata: " (os_WriteFile (filepath_Join [ix_rootDir i; metadataTarget]) outMetadata) ;;
    write_index i ;;
    ret i.

(** ** Importing: import.go *)

(** A zip archive with one unified tarball is extracted to a temporary
    directory: the tarball and the directory, or [None]. *)
Definition maybeExtractUnifiedTarballFromZIP (path : string) : M disk (option (string * string)) :=
  if negb (HasSuffix path ".zip") then ret None
  else
    let! zipReader := try (let! contents := os_ReadFile path in of_result (unzip contents)) in
    match zipReader with
    | inr [file] =>
        if negb (HasSuffix (zf_Name file) ".tar.gz") then ret None
        else
          let! f := wrap "failed to read unified tarball from zip file: " (of_result (zf_Open file)) in
          let! tmpDir := wrap "failed to create temporary directory: " os_MkdirTemp in
          let ofName := filepath_Join [tmpDir; "image.tar.gz"] in
          wrap "failed to create temporary file: " (os_Create ofName) ;;
          wrap "failed to extract unified tarball: " (let! contents := of_result f in write ofName contents) ;;
          ret (Some (ofName, tmpDir))
    | _ => ret None
    end.

Definition import_tarball (i : Index) (imageType imagePath : string) (aliases : list string) (incus lxd : bool) :
    M disk Index :=
  if decide (imageType = Container) then importContainerUnifiedTarball i imagePath aliases incus lxd
  else if decide (imageType = VirtualMachine) then importVirtualMachineUnifiedTarball i imagePath aliases incus lxd
  else throw (errorString ("unknown image type " +s+ quote imageType)).

(** ImportImage imports a container or a virtual machine image into the
    simplestreams index. The temporary directory is removed when it returns. *)
Definition ImportImage (i : Index) (imageType imagePath : string) (aliases : list string) (incus lxd : bool) :
    M disk Index :=
  let! extracted := wrap "failed to extract unified tarball from archive: "
                      (maybeExtractUnifiedTarballFromZIP imagePath) in
  match extracted with
  | None => import_tarball i imageType imagePath aliases incus lxd
  | Some (tarballPath, tmpDir) =>
      let! r := try (import_tarball i imageType tarballPath aliases incus lxd) in
      let! _ := try (os_RemoveAll tmpDir) in
      of_result r
  end.

End index.

(** ** Properties *)

Section properties.
Context {HD : Disk} {HA : Archives} {HC : Codecs}.

Definition same_except (P : string → Prop) (s s' : disk) : Prop :=
  ∀ p, ¬ P p → dk_files s' !! p = dk_files s !! p.

(** *** Copying *)

(** A copy changes the destination only. When it succeeds, the destination has
    the contents of the source, unless the two are one file: that is empty
    then. *)
Lemma copyFile_wp source destination Q s :
  (∀ o s', same_except (λ p, p = abs destination) s s' →
     ((∃ c, o = Ok tt ∧ dk_files s !! abs source = Some c ∧
            dk_files s' !! abs destination =
              Some (if decide (abs source = abs destination) then "" else c)) ∨
      ∃ e, o = Err e) → Q o s') →
  wp (copyFile source destination) Q s.
Proof.
  intros HQ. unfold copyFile. wp_steps. apply wp_os_Open; [intros e s1 H1; apply HQ; [by intros p _; rewrite H1|eauto]|].
  intros c s1 H1 Hc. wp_steps. apply wp_os_MkdirAll. intros o s2 H2 Ho. rewrite H1 in H2.
  destruct Ho as [->|[e ->]]; [|apply HQ; [by intros p _; rewrite H2|eauto]].
  wp_steps. apply wp_os_Create; [intros e s3 H3; apply HQ; [by intros p _; rewrite H3, H2|eauto]|].
  intros s3 H3. rewrite H2 in H3. assert (same_except (λ p, p = abs destination) s s3) as Hs3.
  { intros p Hp. rewrite H3. by rewrite lookup_insert_ne. }
  wp_steps. apply wp_io_ReadAll; [intros e s4 H4; apply HQ; [|eauto]; intros p Hp; rewrite H4; by apply Hs3|].
  intros s4 H4. wp_steps. apply wp_write.
  { intros e s5 H5. apply HQ; [|eauto]. intros p Hp. rewrite H5, H4 by done. by apply Hs3. }
  intros s5 H5. rewrite H4, H3 in H5. rewrite insert_insert_eq in H5.
  set (data := default "" (dk_files s3 !! abs source)) in *.
  assert (same_except (λ p, p = abs destination) s s5) as Hs5.
  { intros p Hp. rewrite H5. by rewrite lookup_insert_ne. }
  wp_steps. apply wp_os_Truncate; [intros e s6 H6; apply HQ; [|eauto]; intros p Hp; rewrite H6; by apply Hs5|].
  intros s6 H6. wp_steps. apply wp_os_Close. intros o s7 H7 Ho. rewrite H6 in H7.
  assert (same_except (λ p, p = abs destination) s s7) as Hs7.
  { intros p Hp. rewrite H7, lookup_alter_ne by done. by apply Hs5. }
  destruct Ho as [->|[e ->]]; [|apply HQ; eauto]. apply HQ; [done|]. left. exists c. repeat split; [done|].
  rewrite H7, lookup_alter_eq, H5, lookup_insert_eq. simpl. f_equal. unfold data. rewrite H3.
  rewrite substring_all.
  case_decide as Hd; [by rewrite Hd, lookup_insert_eq|]. by rewrite lookup_insert_ne, Hc.
Qed.

(** *** The index files *)

(** The JSON files of the index hold it. *)
Definition index_written (i : Index) (files : gmap string string) : Prop :=
  ∃ index images, Marshal_Stream (ix_Index i) = inr index ∧ files !! abs (index_json (ix_rootDir i)) = Some index ∧
    Marshal_Products (ix_Products i) = inr images ∧ files !! abs (images_json (ix_rootDir i)) = Some images.

(** After a failure the JSON files are what they were, unless writing one of
    them is what failed. *)
Definition index_kept (rootDir : string) (err : error) (files files' : gmap string string) : Prop :=
  (files' !! abs (images_json rootDir) = files !! abs (images_json rootDir) ∨
   HasPrefix (Error err) "failed to write streams/v1/images.json: " = true) ∧
  (files' !! abs (index_json rootDir) = files !! abs (index_json rootDir) ∨
   HasPrefix (Error err) "failed to write streams/v1/index.json: " = true ∨
   HasPrefix (Error err) "failed to write streams/v1/images.json: " = true ∨
   HasPrefix (Error err) "failed to encode new streams/v1/images.json: " = true).

Definition json_file (rootDir p : string) : Prop := p = abs (index_json rootDir) ∨ p = abs (images_json rootDir).

Lemma plain_index : plain "index.json".
Proof. done. Qed.
Lemma plain_images : plain "images.json".
Proof. done. Qed.

Lemma named_index_json rootDir : named (index_json rootDir) "index.json".
Proof.
  apply (named_filepath_Join [rootDir; "streams"; "v1"]); [apply plain_index|]. apply named_self.
  apply (bool_decide_unpack _). vm_compute. exact I.
Qed.

Lemma named_images_json rootDir : named (images_json rootDir) "images.json".
Proof.
  apply (named_filepath_Join [rootDir; "streams"; "v1"]); [apply plain_images|]. apply named_self.
  apply (bool_decide_unpack _). vm_compute. exact I.
Qed.

Lemma json_files_ne rootDir : abs (index_json rootDir) ≠ abs (images_json rootDir).
Proof. eapply abs_named_ne; [apply plain_index|apply plain_images|apply named_index_json|apply named_images_json|done]. Qed.

Lemma write_index_wp i Q s :
  (∀ o s', same_except (json_file (ix_rootDir i)) s s' →
     (o = Ok tt ∧ index_written i (dk_files s') ∨
      ∃ e, o = Err e ∧ index_kept (ix_rootDir i) e (dk_files s) (dk_files s')) → Q o s') →
  wp (write_index i) Q s.
Proof.
  intros HQ. pose proof (json_files_ne (ix_rootDir i)) as Hne. unfold write_index. wp_steps.
  destruct (Marshal_Stream _) as [err|index] eqn:Hi; simpl.
  { apply HQ; [by intros p _|]. right. eexists. split; [done|]. split; by left. }
  wp_steps. apply wp_os_WriteFile. intros o s1 H1 Ho.
  assert (same_except (json_file (ix_rootDir i)) s s1) as Hs1.
  { intros p Hp. apply H1. intros ->. apply Hp. by left. }
  destruct Ho as [[-> Hw]|[e ->]].
  2: { apply HQ; [done|]. right. eexists. split; [done|]. split; [left; by rewrite H1|]. right. left. apply (HasPrefix_app "failed to write streams/v1/index.json: "). }
  wp_steps. destruct (Marshal_Products _) as [err|images] eqn:Hp; simpl.
  { apply HQ; [done|]. right. eexists. split; [done|]. split; [left; by rewrite H1|]. right. right. right.
    apply (HasPrefix_app "failed to encode new streams/v1/images.json: "). }
  wp_steps. apply wp_os_WriteFile. intros o s2 H2 Ho.
  assert (same_except (json_file (ix_rootDir i)) s s2) as Hs2.
  { intros p Hp'. rewrite H2; [by apply Hs1|]. intros ->. apply Hp'. by right. }
  destruct Ho as [[-> Hw2]|[e ->]].
  - apply HQ; [done|]. left. split; [done|]. exists index, images. rewrite H2 by done. auto.
  - apply HQ; [done|]. right. eexists. split; [done|].
    pose proof (HasPrefix_app "failed to write streams/v1/images.json: " (Error e)). split; right; auto.
Qed.

(** *** Adding a version *)

(** The item of a file type, in a version of a product. *)
Definition lookup_item (i : Index) (name version ftype : string) : option ProductVersionItem :=
  default ∅ (ps_Products (ix_Products i)) !! name ≫= λ p,
  default ∅ (pr_Versions p) !! version ≫= λ v, default ∅ (pv_Items v) !! ftype.

(** The products that index.json lists. *)
Definition listed (i : Index) : list string :=
  sx_Products (default zeroStreamIndex (default ∅ (str_Index (ix_Index i)) !! "images")).

(** A well-formed index: no map of it is nil, the products are listed in order
    and once, and every product is listed. *)
Definition index_wf (i : Index) : Prop :=
  is_Some (str_Index (ix_Index i)) ∧ is_Some (ps_Products (ix_Products i)) ∧
  StronglySorted String.le (listed i) ∧ NoDup (listed i) ∧
  ∀ name, is_Some (default ∅ (ps_Products (ix_Products i)) !! name) → name ∈ listed i.

Lemma items_notin (m : gmap string ProductVersionItem) items ft :
  ft ∉ map it_FileType items → foldl (λ m item, <[it_FileType item := item]> m) m items !! ft = m !! ft.
Proof.
  revert m. induction items as [|x items IH]; intros m Hn; simpl in *; [done|].
  apply not_elem_of_cons in Hn as [? ?]. rewrite IH by done. by rewrite lookup_insert_ne.
Qed.

Lemma items_in (m : gmap string ProductVersionItem) items item :
  NoDup (map it_FileType items) → item ∈ items →
  foldl (λ m item, <[it_FileType item := item]> m) m items !! it_FileType item = Some item.
Proof.
  revert m. induction items as [|x items IH]; intros m Hd Hi; simpl in *; [by apply elem_of_nil in Hi|].
  apply NoDup_cons in Hd as [Hx Hd]. apply elem_of_cons in Hi as [->|Hi]; [|by apply IH].
  rewrite items_notin by done. by rewrite lookup_insert_eq.
Qed.

(** What adding items to a version of a product does to the index. *)
Definition added (i i' : Index) (name version : string) (items : list ProductVersionItem) : Prop :=
  ix_rootDir i' = ix_rootDir i ∧ (index_wf i → index_wf i') ∧ name ∈ listed i' ∧
  (NoDup (map it_FileType items) → ∀ item, item ∈ items → lookup_item i' name version (it_FileType item) = Some item) ∧
  (∀ name' version' ft, ¬ (name' = name ∧ version' = version ∧ ft ∈ map it_FileType items) →
     lookup_item i' name' version' ft = lookup_item i name' version' ft).

#[local] Arguments update_product : simpl never.
#[local] Arguments get_product : simpl never.

(** The items of a product that was updated. *)
Lemma update_product_lookup products md version aliases items version' ft :
  let look p := default ∅ (pr_Versions p) !! version' ≫= λ v : ProductVersion, default ∅ (pv_Items v) !! ft in
  look (update_product (get_product products md version) version aliases items) =
    if decide (version' = version) then
      foldl (λ m item, <[it_FileType item := item]> m)
        (default ∅ (default ∅ (default ∅ (ps_Products products) !! productName md ≫= pr_Versions) !! version ≫= pv_Items))
        items !! ft
    else default ∅ (ps_Products products) !! productName md ≫= look.
Proof.
  unfold update_product, get_product. simpl. case_decide as Hv.
  - subst. rewrite lookup_insert_eq. simpl. f_equal. f_equal.
    destruct (default ∅ (ps_Products products) !! productName md) as [p|]; simpl.
    + by destruct (default ∅ (pr_Versions p) !! version) as [v|].
    + by rewrite lookup_singleton_eq.
  - rewrite lookup_insert_ne by done. destruct (default ∅ (ps_Products products) !! productName md) as [p|]; simpl; [done|].
    by rewrite lookup_singleton_ne.
Qed.

Lemma update_product_added i md version aliases items m stream :
  ps_Products (ix_Products i) = Some m →
  let i' := {| ix_Index := stream; ix_rootDir := ix_rootDir i;
               ix_Products := {| ps_ContentID := ps_ContentID (ix_Products i); ps_DataType := ps_DataType (ix_Products i);
                                 ps_Format := ps_Format (ix_Products i); ps_Other := ps_Other (ix_Products i);
                                 ps_Products := Some (<[productName md :=
                                   update_product (get_product (ix_Products i) md version) version aliases items]> m) |} |} in
  (NoDup (map it_FileType items) →
     ∀ item, item ∈ items → lookup_item i' (productName md) version (it_FileType item) = Some item) ∧
  (∀ name' version' ft, ¬ (name' = productName md ∧ version' = version ∧ ft ∈ map it_FileType items) →
     lookup_item i' name' version' ft = lookup_item i name' version' ft).
Proof.
  intros Hm. simpl. unfold lookup_item. simpl. split.
  - intros Hd item Hi. rewrite lookup_insert_eq. etransitivity; [apply update_product_lookup|].
    rewrite decide_True by done. by apply items_in.
  - intros name' version' ft Hn. rewrite Hm. simpl.
    destruct (decide (name' = productName md)) as [->|]; [|by rewrite lookup_insert_ne].
    rewrite lookup_insert_eq. etransitivity; [apply update_product_lookup|]. rewrite Hm. simpl.
    case_decide as Hv; [subst|done].
    rewrite items_notin by (intros ?; apply Hn; auto). destruct (m !! productName md) as [p|]; simpl; [|by rewrite lookup_empty].
    by destruct (default ∅ (pr_Versions p) !! version) as [v|]; simpl; rewrite ?lookup_empty.
Qed.

Lemma add_product_name_spec stream name s :
  let images st := sx_Products (default zeroStreamIndex (default ∅ (str_Index st) !! "images")) in
  (∃ stream', add_product_name stream name s = (Ok stream', s) ∧
     (is_Some (str_Index stream) → is_Some (str_Index stream')) ∧
     (∀ n, n ∈ images stream' ↔ n = name ∨ n ∈ images stream) ∧
     (StronglySorted String.le (images stream) → StronglySorted String.le (images stream')) ∧
     (NoDup (images stream) → NoDup (images stream'))) ∨
  (str_Index stream = None ∧ ∃ msg, add_product_name stream name s = (Panic msg, s)).
Proof.
  simpl. unfold add_product_name. case_decide as Hin.
  { left. exists stream. repeat split; auto. intros [->|]; auto. }
  destruct (str_Index stream) as [m|] eqn:Hm; [left|right; eauto]. eexists. split; [done|]. simpl.
  rewrite lookup_insert_eq. simpl. repeat split.
  - eauto.
  - rewrite sort_strings_perm, elem_of_app, list_elem_of_singleton. tauto.
  - rewrite sort_strings_perm, elem_of_app, list_elem_of_singleton. tauto.
  - intros _. apply sort_strings_sorted.
  - intros Hd. rewrite sort_strings_perm. apply NoDup_app. repeat split; [done| |apply NoDup_singleton].
    intros x Hx ->%list_elem_of_singleton. done.
Qed.

Lemma add_version_wp i md version aliases items Q s :
  (∀ i', added i i' (productName md) version items → Q (Ok i') s) →
  (∀ msg, ¬ index_wf i → Q (Panic msg) s) →
  wp (add_version i md version aliases items) Q s.
Proof.
  intros HQ HP. unfold add_version, wp, bind.
  destruct (add_product_name_spec (ix_Index i) (productName md) s) as [(stream & -> & Hn & Hl & Hs & Hd)|(Hnil & msg & ->)].
  2: { apply HP. intros [[? Hi] _]. congruence. }
  destruct (ps_Products (ix_Products i)) as [m|] eqn:Hm; simpl.
  2: { apply HP. intros (_ & [? Hi] & _). congruence. }
  apply HQ. destruct (update_product_added i md version aliases items m stream Hm) as [H1 H2].
  split; [done|]. split; [|split; [unfold listed; simpl; apply Hl; by left|split; [exact H1|exact H2]]].
  intros (Hi & _ & Hsort & Hnd & Hall). split; [auto|]. split; [by eexists|]. unfold listed in *. simpl in *.
  split; [auto|]. split; [auto|]. intros name [p Hp]. apply Hl.
  destruct (decide (name = productName md)); [by left|right]. apply Hall. rewrite Hm. simpl.
  rewrite lookup_insert_ne in Hp by done. eauto.
Qed.

(** *** Importing *)

(** A file name of the index: a hash and a suffix. *)
Lemma hashed_name contents suffix :
  "/"%char ∉ chars suffix →
  let f := sha256_hex contents +s+ suffix in plain f ∧ named f f ∧ f ≠ "index.json" ∧ f ≠ "images.json".
Proof.
  intros Hs f. assert (64 <= String.length f)%nat as Hlen.
  { unfold f, sha256_hex. rewrite string_app_length, hex_encode_length, Sum256_length. lia. }
  assert (∀ x, (String.length x < 64)%nat → f ≠ x) as Hne by (intros x Hx ->; lia).
  repeat split; try (apply Hne; simpl; lia).
  apply named_self. unfold f. rewrite chars_app. apply not_elem_of_app. split; [|done].
  apply hex_encode_no_slash, Sum256_range.
Qed.

(** The path of a stored file. *)
Definition stored (i : Index) (target : string) : string := abs (filepath_Join [ix_rootDir i; target]).

Lemma named_stored root md contents suffix :
  "/"%char ∉ chars suffix →
  named (filepath_Join [root; image_target md (sha256_hex contents +s+ suffix)]) (sha256_hex contents +s+ suffix).
Proof.
  intros Hs. destruct (hashed_name contents suffix Hs) as (Hp & Hn & _).
  apply (named_filepath_Join [root]); [done|]. apply (named_filepath_Join ["images"; _; _; _]); done.
Qed.

Lemma stored_not_json i md contents suffix :
  "/"%char ∉ chars suffix → ¬ json_file (ix_rootDir i) (stored i (image_target md (sha256_hex contents +s+ suffix))).
Proof.
  intros Hs. destruct (hashed_name contents suffix Hs) as (Hp & _ & H1 & H2).
  intros [Hj|Hj]; revert Hj; (eapply abs_named_ne; [done| |by apply named_stored|apply named_index_json || apply named_images_json|done]); done.
Qed.

(** The file of an item is in the index, with the size and the hash of the item. *)
Definition item_stored (i : Index) (files : gmap string string) (item : ProductVersionItem) (contents : string) : Prop :=
  it_HashSha256 item = sha256_hex contents ∧ it_Size item = size_of contents ∧
  files !! stored i (it_Path item) = Some contents.

(** The file of the item is the one that was imported, by whatever name, and is
    empty now. *)
Definition item_emptied (i : Index) (files : gmap string string) (path : string) (item : ProductVersionItem) : Prop :=
  abs path = stored i (it_Path item) ∧ files !! stored i (it_Path item) = Some "".

(** The result of an import: the items were added to one version of one
    product, the JSON files hold the new index, and the files are stored, but
    for a container image that was imported from its own place in the index. *)
Definition imported (i i' : Index) (imageType path : string) (ftypes : list string) (files' : gmap string string) : Prop :=
  ∃ name version items, added i i' name version items ∧ map it_FileType items = ftypes ∧
    index_written i' files' ∧
    ∀ item, item ∈ items →
      imageType = Container ∧ item_emptied i' files' path item ∨ ∃ contents, item_stored i' files' item contents.

Definition import_post (i : Index) (imageType path : string) (ftypes : list string) (s : disk) (o : outcome Index) (s' : disk) : Prop :=
  match o with
  | Ok i' => imported i i' imageType path ftypes (dk_files s')
  | Err e => index_kept (ix_rootDir i) e (dk_files s) (dk_files s')
  | Panic _ => ¬ index_wf i
  | OutOfFuel => False
  end.

Lemma index_kept_same root e s s' : dk_files s' = dk_files s → index_kept root e (dk_files s) (dk_files s').
Proof. intros ->. split; by left. Qed.

Lemma index_kept_except root P e s s' :
  same_except P s s' → ¬ P (abs (index_json root)) → ¬ P (abs (images_json root)) →
  index_kept root e (dk_files s) (dk_files s').
Proof. intros Hs H1 H2. split; left; by apply Hs. Qed.

Lemma open_archive_wp path Q s :
  (∀ e s', dk_files s' = dk_files s → Q (Err e) s') →
  (∀ a s', dk_files s' = dk_files s → Q (Ok a) s') →
  wp (open_archive path) Q s.
Proof.
  intros HE HQ. unfold open_archive. wp_steps. apply wp_os_Open; [by intros; apply HE|]. intros c s1 H1 Hc.
  wp_steps. apply wp_io_ReadAll; [intros; apply HE; congruence|]. intros s2 H2. simpl. wp_steps.
  destruct (gunzip _); simpl; [apply HE|apply HQ]; congruence.
Qed.

Definition container_types (incus lxd : bool) : list string :=
  (if incus then [containerFTypeIncus] else []) ++ (if lxd then [containerFTypeLXD] else []).

Lemma import_container_wp i path aliases incus lxd s :
  wp (importContainerUnifiedTarball i path aliases incus lxd) (import_post i Container path (container_types incus lxd) s) s.
Proof.
  unfold importContainerUnifiedTarball. wp_steps. apply open_archive_wp; [intros; by apply index_kept_same|].
  intros a s1 H1. wp_steps. destruct (find_metadata _ _) as [e|md]; simpl; [by apply index_kept_same|].
  case_decide; [by apply index_kept_same|]. unfold getContainerImageInfo. wp_steps.
  apply wp_os_Stat; [intros; apply index_kept_same; congruence|]. intros c s2 H2 Hc. simpl. wp_steps.
  apply wp_os_Open; [intros; apply index_kept_same; congruence|]. intros c' s3 H3 Hc'.
  assert (c' = c) as -> by congruence. wp_steps. apply wp_io_ReadAll; [intros; apply index_kept_same; congruence|].
  intros s4 H4. rewrite H3, Hc'. simpl. wp_steps.
  set (target := image_target md _). set (items := container_items _ _ _ _).
  apply add_version_wp; [|by intros]. intros i' Hadd. pose proof Hadd as (Hroot & _). wp_steps. apply copyFile_wp.
  assert (dk_files s4 = dk_files s) as Hs4 by congruence.
  assert (¬ json_file (ix_rootDir i') (stored i' target)) as Hj.
  { apply stored_not_json. apply (bool_decide_unpack _). vm_compute. exact I. }
  intros o s5 H5 Ho. destruct Ho as [(c2 & -> & Hc2 & Hw)|[e ->]].
  2: { simpl. eapply index_kept_except; [intros p Hp; rewrite <- Hs4; by apply H5|..]; rewrite <- Hroot; intros Heq;
         apply Hj; [left|right]; by symmetry. }
  assert (c2 = c) as -> by congruence. wp_steps. apply write_index_wp. intros o s6 H6 Ho.
  destruct Ho as [[-> Hwr]|(e & -> & Hk)].
  - wp_steps. exists (productName md), (FormatMinute (md_CreationDate md)), items. split; [done|].
    split; [by destruct incus, lxd|]. split; [done|]. intros item Hi.
    assert (it_Path item = target ∧ it_HashSha256 item = sha256_hex c ∧ it_Size item = size_of c) as (Hp & Hh & Hz).
    { unfold items, container_items in Hi. destruct incus, lxd; simpl in Hi;
        repeat (apply elem_of_cons in Hi as [->|Hi]; [done|]); by apply elem_of_nil in Hi. }
    unfold item_emptied, item_stored. rewrite Hp, H6 by done. unfold stored in *. rewrite Hw.
    case_decide as Hself; [left|right; by exists c]. done.
  - simpl. rewrite <- Hroot. destruct Hk as [Hk1 Hk2].
    rewrite (H5 (abs (images_json _))) in Hk1 by (intros Heq; apply Hj; right; by symmetry).
    rewrite (H5 (abs (index_json _))) in Hk2 by (intros Heq; apply Hj; left; by symmetry).
    rewrite Hs4 in Hk1, Hk2. by split.
Qed.

Definition vm_types (incus lxd : bool) : list string :=
  (if incus then [vmRootfsFTypeIncus; vmMetadataFTypeIncus] else []) ++
  (if lxd then [vmRootfsFTypeLXD; vmMetadataFTypeLXD] else []).

(** The two files of a virtual machine image are different files. *)
Lemma vm_targets_ne i md contents :
  stored i (image_target md (sha256_hex contents +s+ ".disk-kvm.img")) ≠
  stored i (image_target md (sha256_hex contents +s+ ".incus.tar.xz")).
Proof.
  assert ("/"%char ∉ chars ".disk-kvm.img") as H1 by (apply (bool_decide_unpack _); vm_compute; exact I).
  assert ("/"%char ∉ chars ".incus.tar.xz") as H2 by (apply (bool_decide_unpack _); vm_compute; exact I).
  destruct (hashed_name contents _ H1) as (Hp1 & _). destruct (hashed_name contents _ H2) as (Hp2 & _).
  eapply abs_named_ne; [exact Hp1|exact Hp2|by apply named_stored|by apply named_stored|].
  by intros ?%string_app_inj_l.
Qed.

Lemma import_vm_wp i path aliases incus lxd s :
  wp (importVirtualMachineUnifiedTarball i path aliases incus lxd) (import_post i VirtualMachine path (vm_types incus lxd) s) s.
Proof.
  unfold importVirtualMachineUnifiedTarball. wp_steps. apply open_archive_wp; [intros; by apply index_kept_same|].
  intros a s1 H1. wp_steps. destruct (read_vm _ _ _) as [e|parts]; simpl; [by apply index_kept_same|].
  wp_steps. unfold fail_if. destruct (tar_Close _); [wp_steps; by apply index_kept_same|]. wp_steps.
  destruct (gzip_Close _) as [e|out]; simpl; [by apply index_kept_same|].
  do 3 (case_decide as Hdec; [by apply index_kept_same|clear Hdec]). wp_steps.
  set (md := vp_Metadata parts). set (mt := image_target md (_ +s+ ".incus.tar.xz")).
  set (rt := image_target md (_ +s+ ".disk-kvm.img")). set (info := getVirtualMachineImageInfo _ _).
  apply wp_os_MkdirAll. intros o s2 H2 [->|[e ->]]; [|apply index_kept_same; congruence]. wp_steps.
  apply add_version_wp; [|by intros]. intros i' Hadd. pose proof Hadd as (Hroot & _).
  assert (dk_files s2 = dk_files s) as Hs2 by congruence. clear H1 H2.
  assert (¬ json_file (ix_rootDir i') (stored i' mt)) as Hjm.
  { apply stored_not_json. apply (bool_decide_unpack _). vm_compute. exact I. }
  assert (¬ json_file (ix_rootDir i') (stored i' rt)) as Hjr.
  { apply stored_not_json. apply (bool_decide_unpack _). vm_compute. exact I. }
  assert (stored i' rt ≠ stored i' mt) as Hne by apply vm_targets_ne.
  set (P p := p = stored i' rt ∨ p = stored i' mt).
  assert (∀ p, json_file (ix_rootDir i') p → ¬ P p) as HP by (intros p Hp [-> | ->]; auto).
  assert (∀ e s', same_except P s s' → index_kept (ix_rootDir i) e (dk_files s) (dk_files s')) as HK.
  { intros e s' Hs. rewrite <- Hroot. eapply index_kept_except; [exact Hs|apply HP; by left|apply HP; by right]. }
  wp_steps. apply wp_os_WriteFile. intros o s3 H3 Ho.
  assert (same_except P s s3) as Hs3. { intros p Hp. rewrite H3, Hs2; [done|]. intros ->. apply Hp. by left. }
  destruct Ho as [[-> Hw3]|[e ->]]; [|by apply HK]. wp_steps. apply wp_os_WriteFile. intros o s4 H4 Ho.
  assert (same_except P s s4) as Hs4. { intros p Hp. rewrite H4; [by apply Hs3|]. intros ->. apply Hp. by right. }
  destruct Ho as [[-> Hw4]|[e ->]]; [|by apply HK]. wp_steps. apply write_index_wp. intros o s5 H5 Ho.
  destruct Ho as [[-> Hwr]|(e & -> & Hk1 & Hk2)].
  2: { simpl. rewrite <- Hroot. rewrite (Hs4 (abs (images_json _))) in Hk1 by (apply HP; by right).
       rewrite (Hs4 (abs (index_json _))) in Hk2 by (apply HP; by left). by split. }
  wp_steps. exists (productName md), (FormatMinute (md_CreationDate md)), (vm_items incus lxd mt rt info).
  split; [done|]. split; [by destruct incus, lxd|]. split; [done|]. intros item Hi. right.
  assert ((it_Path item = rt ∧ it_HashSha256 item = sha256_hex (vp_Rootfs parts) ∧ it_Size item = size_of (vp_Rootfs parts)) ∨
          (it_Path item = mt ∧ it_HashSha256 item = sha256_hex out ∧ it_Size item = size_of out)) as Hcase.
  { unfold vm_items in Hi. destruct incus, lxd; simpl in Hi;
      repeat (apply elem_of_cons in Hi as [->|Hi]; [auto|]); by apply elem_of_nil in Hi. }
  destruct Hcase as [(Hp & Hh & Hz)|(Hp & Hh & Hz)]; eexists; (split; [exact Hh|split; [exact Hz|]]); rewrite Hp.
  - rewrite H5 by done. rewrite H4 by done. exact Hw3.
  - rewrite H5 by done. exact Hw4.
Qed.

(** The file types that an import adds. *)
Definition import_types (imageType : string) (incus lxd : bool) : list string :=
  if decide (imageType = Container) then container_types incus lxd else vm_types incus lxd.

Lemma import_tarball_wp i imageType path aliases incus lxd s :
  wp (import_tarball i imageType path aliases incus lxd) (import_post i imageType path (import_types imageType incus lxd) s) s.
Proof.
  unfold import_tarball, import_types. case_decide as Hc; [subst; apply import_container_wp|].
  case_decide as Hv; [subst; apply import_vm_wp|].
  wp_steps. by apply index_kept_same.
Qed.

Lemma import_types_NoDup imageType incus lxd : NoDup (import_types imageType incus lxd).
Proof.
  unfold import_types. case_decide; destruct incus, lxd; apply (bool_decide_unpack _); vm_compute; exact I.
Qed.

(** C32: A successful import of an image leaves a consistent index: for every file
    type that was asked for, the index has an item whose file is stored in the
    index directory with the recorded SHA-256 hash and size, and the two JSON
    files hold the new index. The one exception is a container image that is
    imported from its own place in the index, named in whatever way: its file is
    empty afterwards. *)
Theorem import_integrity (i i' : Index) (imageType path : string) (aliases : list string) (incus lxd : bool) (s s' : disk) :
  import_tarball i imageType path aliases incus lxd s = (Ok i', s') →
  index_written i' (dk_files s') ∧
  ∃ name version, ∀ ftype, ftype ∈ import_types imageType incus lxd →
    ∃ item, lookup_item i' name version ftype = Some item ∧
      (imageType = Container ∧ item_emptied i' (dk_files s') path item ∨
       ∃ contents, item_stored i' (dk_files s') item contents).
Proof.
  intros Hrun. pose proof (wp_run _ _ _ _ _ (import_tarball_wp i imageType path aliases incus lxd s) Hrun) as Hpost.
  destruct Hpost as (name & version & items & (_ & _ & _ & Hin & _) & Hft & Hw & Hst). split; [done|].
  exists name, version. intros ftype Hf. rewrite <- Hft in Hf. apply list_elem_of_fmap in Hf as (item & -> & Hi).
  exists item. split; [|by apply Hst]. apply Hin; [|done]. rewrite Hft. apply import_types_NoDup.
Qed.

(** C33: An import keeps the index well-formed (the products sorted, listed once,
    and all listed) and loses nothing: only items of one version of one product,
    of the imported file types, may change. On a well-formed index it never
    panics. *)
Theorem import_keeps (i : Index) (imageType path : string) (aliases : list string) (incus lxd : bool) (s : disk) :
  index_wf i →
  match import_tarball i imageType path aliases incus lxd s with
  | (Ok i', _) =>
      index_wf i' ∧
      ∃ name version, name ∈ listed i' ∧
        ∀ name' version' ftype,
          ¬ (name' = name ∧ version' = version ∧ ftype ∈ import_types imageType incus lxd) →
          lookup_item i' name' version' ftype = lookup_item i name' version' ftype
  | (Err _, _) => True
  | _ => False
  end.
Proof.
  intros Hwf. pose proof (import_tarball_wp i imageType path aliases incus lxd s) as Hpost. unfold wp in Hpost.
  destruct (import_tarball _ _ _ _ _ _ s) as [[i'|e|msg|] s']; simpl in Hpost; [|done..].
  destruct Hpost as (name & version & items & (_ & Hk & Hl & _ & Hrest) & Hft & _). split; [by apply Hk|].
  exists name, version. split; [done|]. rewrite <- Hft. exact Hrest.
Qed.

(** C35: A failed import leaves the index on disk as it was, unless writing one of
    its JSON files is what failed: images.json only changes when writing it
    failed, index.json only when writing it failed or images.json could not
    follow. *)
Theorem import_failure_keeps_index (i : Index) (imageType path : string) (aliases : list string) (incus lxd : bool)
    (s s' : disk) (e : error) :
  import_tarball i imageType path aliases incus lxd s = (Err e, s') →
  index_kept (ix_rootDir i) e (dk_files s) (dk_files s').
Proof. intros Hrun. exact (wp_run _ _ _ _ _ (import_tarball_wp i imageType path aliases incus lxd s) Hrun). Qed.

(** Copying a file onto itself destroys it: the destination is truncated
    before the source is read. Copied anywhere else it arrives whole, and no
    other file changes. *)
Theorem copyFile_outcome (source destination : string) (s s' : disk) :
  copyFile source destination s = (Ok tt, s') →
  same_except (λ p, p = abs destination) s s' ∧
  ∃ c, dk_files s !! abs source = Some c ∧
    dk_files s' !! abs destination = Some (if decide (abs source = abs destination) then "" else c).
Proof.
  intros Hrun. refine (wp_run _ (λ o s', o = Ok tt → _) _ _ _ _ Hrun eq_refl). apply copyFile_wp.
  intros o s1 Hs [(c & -> & Hc & Hw)|[e ->]] Ho; [|done]. split; [done|]. eauto.
Qed.

(** *** Opening an index again *)

(** Codecs that read what they wrote. *)
Class CodecLaws : Prop := {
  Stream_roundtrip : ∀ x b, Marshal_Stream x = inr b → Unmarshal_Stream b = inr x;
  Products_roundtrip : ∀ x b, Marshal_Products x = inr b → Unmarshal_Products b = inr x
}.

Lemma read_json_runs `{!Faultless} {A} path name (new : A) unmarshal s b x :
  dk_files s !! abs path = Some b → unmarshal b = inr x →
  ∃ s', read_json path name new unmarshal s = (Ok x, s') ∧ dk_files s' = dk_files s.
Proof.
  intros Hb Hx. unfold read_json, os_ReadFile, os_Open, io_ReadAll, bind, try.
  match goal with |- context [disk_op OpOpen path ?k s] => destruct (disk_op_runs OpOpen path k s tt) as (s1 & -> & H1) end;
    [by rewrite Hb|].
  match goal with |- context [disk_op OpRead path ?k s1] => destruct (disk_op_runs OpRead path k s1 b) as (s2 & -> & H2) end;
    [by rewrite H1, Hb|].
  unfold wrap, of_result. rewrite Hx. exists s2. split; [done|congruence].
Qed.

(** The directory of an index: the working directory, unless one is given. *)
Definition root_of (rootDir : string) : string := if decide (rootDir = "") then workdir else rootDir.

(** Opening an index that was written gives that index, and changes no file. *)
Lemma open_written `{!Faultless, !CodecLaws} (i : Index) (rootDir : string) (s : disk) :
  ix_rootDir i = root_of rootDir → index_written i (dk_files s) →
  ∃ s', GetOrCreateIndex rootDir s = (Ok i, s') ∧ dk_files s' = dk_files s.
Proof.
  intros Hr (b1 & b2 & Hm1 & Hf1 & Hm2 & Hf2). rewrite Hr in Hf1, Hf2. unfold GetOrCreateIndex, bind, wrap, ret.
  assert (∃ s0, (if decide (rootDir = "") then wrap "failed to retrieve current directory: " os_Getwd else ret rootDir) s =
            (Ok (root_of rootDir), s0) ∧ dk_files s0 = dk_files s) as (s0 & Hs0 & Hd0).
  { unfold root_of. case_decide; [|by eexists]. unfold wrap, os_Getwd.
    match goal with |- context [disk_op OpGetwd ?p ?k s] => destruct (disk_op_runs OpGetwd p k s workdir) as (s0 & -> & Hd0) end;
      [done|]. by exists s0. }
  unfold wrap, ret in Hs0. rewrite Hs0. clear Hs0. unfold os_MkdirAll.
  match goal with |- context [disk_op OpMkdirAll ?p ?k s0] => destruct (disk_op_runs OpMkdirAll p k s0 tt) as (s1 & -> & H1) end;
    [done|].
  match goal with |- context [disk_op OpMkdirAll ?p ?k s1] => destruct (disk_op_runs OpMkdirAll p k s1 tt) as (s2 & -> & H2) end;
    [done|].
  destruct (read_json_runs (index_json (root_of rootDir)) "streams/v1/index.json" newStream Unmarshal_Stream s2 b1 (ix_Index i))
    as (s3 & -> & H3); [congruence|by apply Stream_roundtrip|].
  destruct (read_json_runs (images_json (root_of rootDir)) "streams/v1/images.json" newProducts Unmarshal_Products s3 b2 (ix_Products i))
    as (s4 & -> & H4); [congruence|by apply Products_roundtrip|].
  exists s4. split; [|congruence]. destruct i; simpl in *. by subst.
Qed.

(** What an import wrote is what opening the index again reads: an index
    opened after a successful import is the index that the import returned. *)
Theorem reopen_after_import `{!Faultless, !CodecLaws} (i i' : Index) (imageType path : string) (aliases : list string)
    (incus lxd : bool) (s s' : disk) :
  ix_rootDir i ≠ "" →
  import_tarball i imageType path aliases incus lxd s = (Ok i', s') →
  ∃ s'', GetOrCreateIndex (ix_rootDir i) s' = (Ok i', s'') ∧ dk_files s'' = dk_files s'.
Proof.
  intros Hr Hrun. pose proof (wp_run _ _ _ _ _ (import_tarball_wp i imageType path aliases incus lxd s) Hrun) as Hpost.
  destruct Hpost as (name & version & items & (Hroot & _) & _ & Hw & _). apply open_written; [|done].
  unfold root_of. by rewrite decide_False.
Qed.

End properties.

(** ** A sample disk and sample codecs *)

#[local] Instance StreamIndex_eq_dec : EqDecision StreamIndex.
Proof. solve_decision. Defined.
#[local] Instance Stream_eq_dec : EqDecision Stream.
Proof. solve_decision. Defined.
#[local] Instance ProductVersionItem_eq_dec : EqDecision ProductVersionItem.
Proof. solve_decision. Defined.
#[local] Instance ProductVersion_eq_dec : EqDecision ProductVersion.
Proof. solve_decision. Defined.
#[local] Instance Product_eq_dec : EqDecision Product.
Proof. solve_decision. Defined.
#[local] Instance Products_eq_dec : EqDecision Products.
Proof. solve_decision. Defined.

Definition sample_metadata : Metadata :=
  {| md_Architecture := "x86_64"; md_CreationDate := 0;
     md_Properties := {[ "os" := "ubuntu"; "release" := "noble"; "variant" := "kubeadm"; "architecture" := "amd64" ]} |}.

Definition sample_index : Index := {| ix_Index := newStream; ix_Products := newProducts; ix_rootDir := "/srv/images" |}.

(** The index after the import of a container image. *)
Definition sample_imported : Index :=
  let target := image_target sample_metadata (sha256_hex "tarball" +s+ ".incus_combined.tar.gz") in
  match add_version sample_index sample_metadata "197001010000" ["kubeadm/v1.33.0"]
          (container_items true true target {| ci_Sha256 := sha256_hex "tarball"; ci_Size := 7 |})
          {| dk_files := ∅; dk_ops := 0 |} with
  | (Ok i, _) => i
  | _ => sample_index
  end.

(** A codec that knows one value, and its text. *)
Definition marshal_one {A} `{EqDecision A} (text : string) (known x : A) : error + string :=
  if decide (x = known) then inr text else inl (errorString "unknown value").
Definition unmarshal_one {A} (text : string) (known : A) (b : string) : error + A :=
  if decide (b = text) then inr known else inl (errorString "invalid text").

Lemma marshal_one_roundtrip {A} `{EqDecision A} text (known x : A) b :
  marshal_one text known x = inr b → unmarshal_one text known b = inr x.
Proof. unfold marshal_one, unmarshal_one. case_decide; [|done]. intros [= <-]. rewrite decide_True by done. congruence. Qed.

#[local] Instance sample_codecs : Codecs :=
  {| Unmarshal_Metadata := λ _ _, inr sample_metadata;
     Marshal_Stream := marshal_one "index" (ix_Index sample_imported);
     Unmarshal_Stream := unmarshal_one "index" (ix_Index sample_imported);
     Marshal_Products := marshal_one "images" (ix_Products sample_imported);
     Unmarshal_Products := unmarshal_one "images" (ix_Products sample_imported);
     FormatMinute := λ _, "197001010000" |}.
#[local] Instance sample_codec_laws : CodecLaws.
Proof. split; intros x b; apply marshal_one_roundtrip. Defined.
#[local] Instance sample_archives : Archives :=
  {| gunzip := λ c, inr {| ts_Entries := [{| te_Header := {| hd_Name := "metadata.yaml"; hd_Size := 2; hd_Attrs := "" |}; te_Body := inr "md" |};
                                          {| te_Header := {| hd_Name := "rootfs.img"; hd_Size := 4; hd_Attrs := "" |}; te_Body := inr "disk" |}];
                           ts_End := None |};
     unzip := λ _, inl (errorString "not a zip archive");
     tar_WriteHeader := λ _, None; tar_Write := λ _ _, None; tar_Close := λ _, None; gzip_Close := λ _, inr "metadata" |}.
#[local] Instance sample_disk : Disk :=
  {| fault := λ _ _ _, None; workdir := "/srv"; tempdir := λ _, "/tmp/x" |}.
#[local] Instance sample_faultless : Faultless.
Proof. done. Defined.

Definition sample_files : disk := {| dk_files := {[ "/home/u/image.tar.gz" := "tarball" ]}; dk_ops := 0 |}.
Definition sample_import : outcome Index * disk :=
  import_tarball sample_index Container "/home/u/image.tar.gz" ["kubeadm/v1.33.0"] true true sample_files.

Lemma import_integrity_witness :
  index_written sample_imported (dk_files sample_import.2) ∧
  ∃ name version, ∀ ftype, ftype ∈ import_types Container true true →
    ∃ item, lookup_item sample_imported name version ftype = Some item ∧
      (Container = Container ∧ item_emptied sample_imported (dk_files sample_import.2) "/home/u/image.tar.gz" item ∨
       ∃ contents, item_stored sample_imported (dk_files sample_import.2) item contents).
Proof.
  apply (import_integrity sample_index sample_imported Container "/home/u/image.tar.gz" ["kubeadm/v1.33.0"] true true
           sample_files sample_import.2).
  vm_compute. reflexivity.
Defined.

(** What was stored there. *)
Example sample_stored :
  dk_files sample_import.2 !!
    ("/srv/images/images/ubuntu/noble/amd64/" +s+ sha256_hex "tarball" +s+ ".incus_combined.tar.gz") = Some "tarball" ∧
  listed sample_imported = ["ubuntu:noble:kubeadm:amd64"].
Proof. vm_compute. auto. Qed.

(** Importing an image from its own place, under a relative name, empties it. *)
Definition sample_place_in_index : string :=
  "images/images/ubuntu/noble/amd64/" +s+ sha256_hex "tarball" +s+ ".incus_combined.tar.gz".

Example self_import_empties :
  let r := import_tarball sample_index Container sample_place_in_index ["kubeadm/v1.33.0"] true true
             {| dk_files := {[ "/srv/" +s+ sample_place_in_index := "tarball" ]}; dk_ops := 0 |} in
  r.1 = Ok sample_imported ∧ dk_files r.2 !! ("/srv/" +s+ sample_place_in_index) = Some "".
Proof. vm_compute. auto. Qed.

Lemma sample_index_wf : index_wf sample_index.
Proof.
  split; [by eexists|]. split; [by eexists|]. split; [constructor|]. split; [constructor|].
  intros name [p Hp]. simpl in Hp. by rewrite lookup_empty in Hp.
Qed.

Lemma import_keeps_witness :
  match import_tarball sample_index VirtualMachine "/home/u/image.tar.gz" [] true false sample_files with
  | (Ok i', _) =>
      index_wf i' ∧
      ∃ name version, name ∈ listed i' ∧
        ∀ name' version' ftype,
          ¬ (name' = name ∧ version' = version ∧ ftype ∈ import_types VirtualMachine true false) →
          lookup_item i' name' version' ftype = lookup_item sample_index name' version' ftype
  | (Err _, _) => True
  | _ => False
  end.
Proof. exact (import_keeps sample_index VirtualMachine "/home/u/image.tar.gz" [] true false sample_files sample_index_wf). Defined.

Lemma import_failure_keeps_index_witness :
  ∃ e s', index_kept (ix_rootDir sample_index) e (dk_files sample_files) (dk_files s').
Proof.
  eexists _, _. apply (import_failure_keeps_index sample_index Container "/missing.tar.gz" [] true true sample_files).
  vm_compute. reflexivity.
Defined.

Lemma copyFile_outcome_witness :
  ∃ c, dk_files sample_files !! abs "/home/u/image.tar.gz" = Some c ∧
       dk_files (copyFile "/home/u/image.tar.gz" "../home/u/image.tar.gz" sample_files).2 !! abs "../home/u/image.tar.gz" = Some "".
Proof.
  destruct (copyFile_outcome "/home/u/image.tar.gz" "../home/u/image.tar.gz" sample_files
    (copyFile "/home/u/image.tar.gz" "../home/u/image.tar.gz" sample_files).2
    (run_outcome _ _ _ ltac:(vm_compute; reflexivity))) as (_ & c & Hc & Hd).
  exists c. split; [exact Hc|]. rewrite decide_True in Hd by (vm_compute; reflexivity). exact Hd.
Defined.

Lemma reopen_after_import_witness :
  ∃ s'', GetOrCreateIndex (ix_rootDir sample_index) sample_import.2 = (Ok sample_imported, s'') ∧
         dk_files s'' = dk_files sample_import.2.
Proof.
  apply (reopen_after_import sample_index sample_imported Container "/home/u/image.tar.gz" ["kubeadm/v1.33.0"] true true
           sample_files sample_import.2); [discriminate|].
  vm_compute. reflexivity.
Defined.
