(* ===== verification/SimplestreamsCmd.v ===== *)
(** * The commands of simplestreams: cmd/exp/simplestreams/cmd

    What [import image], [import release] and [show] check and do, with the
    flags as records. A command prints lines; [show] returns them. The theorem
    [import_then_show] composes the commands: what was imported is listed. *)

From S2P Require Import Prelude GoStrings Go Sha256 Files Images Simplestreams.

(** [json.MarshalIndent] with two spaces. *)
Class Indenter := {
  MarshalIndent_Stream : Stream → error + string;
  MarshalIndent_Products : Products → error + string
}.

(** The flags of [import image], and what is checked before it runs. *)
Record import_image_flags := {
  fi_rootDir : string; fi_imagePath : string; fi_imageAliases : list string; fi_imageType : string;
  fi_incus : bool; fi_lxd : bool
}.

Definition import_image_PreRunE (flags : import_image_flags) : option error :=
  if negb (fi_incus flags) && negb (fi_lxd flags) then
    Some (errorString "at least one of --incus or --lxd must be set")
  else if bool_decide (fi_imageType flags = VirtualMachine) || bool_decide (fi_imageType flags = Container) then None
  else Some (errorString ("invalid value for --image-type argument " +s+ quote (fi_imageType flags) +s+
                          ", must be one of [container, virtual-machine]")).

Record import_release_flags := {
  fr_rootDir : string; fr_alias : list string; fr_containerImage : string; fr_virtualMachineImage : string
}.

Record show_flags := {
  fs_rootDir : string; fs_output : string; fs_product : string; fs_os : string; fs_release : string;
  fs_arch : string; fs_itype : string; fs_incus : bool; fs_lxd : bool
}.

Definition show_PreRunE (flags : show_flags) : option error :=
  if bool_decide (fs_output flags ∈ ["images-json"; "index-json"; "pretty"]) then None
  else Some (errorString ("invalid argument value --output=" +s+ quote (fs_output flags) +s+
                          ". Must be one of [pretty, images-json, index-json]")).

(** The flags of [show] when only the directory is given. *)
Definition show_defaults (rootDir : string) : show_flags :=
  {| fs_rootDir := rootDir; fs_output := "pretty"; fs_product := ""; fs_os := ""; fs_release := ""; fs_arch := "";
     fs_itype := ""; fs_incus := false; fs_lxd := false |}.

Section commands.
Context `{MapRange} `{Disk} `{Archives} `{Codecs} `{Indenter}.

Definition import_image_RunE (flags : import_image_flags) : M disk unit :=
  let! index := wrap "failed to read simplestreams index: " (GetOrCreateIndex (fi_rootDir flags)) in
  wrap "failed to import image into simplestreams index: "
    (ImportImage index (fi_imageType flags) (fi_imagePath flags) (fi_imageAliases flags) (fi_incus flags) (fi_lxd flags)) ;;
  ret tt.

Definition import_release_RunE (flags : import_release_flags) : M disk unit :=
  let! index := wrap "failed to read simplestreams index: " (GetOrCreateIndex (fr_rootDir flags)) in
  let! index := if decide (fr_containerImage flags ≠ "") then
                  wrap "failed to import container image: "
                    (ImportImage index Container (fr_containerImage flags) (fr_alias flags) true true)
                else ret index in
  if decide (fr_virtualMachineImage flags ≠ "") then
    wrap "failed to import Incus VM image: "
      (ImportImage index VirtualMachine (fr_virtualMachineImage flags) (fr_alias flags) true true) ;;
    ret tt
  else ret tt.

(** *** Showing an index *)

(** The verbs [%-30s] and [%4v]. *)
Definition pad_right (n : nat) (s : string) : string := s +s+ String.string_of_list_ascii (repeat " "%char (n - String.length s)).
Definition pad_left (n : nat) (s : string) : string := String.string_of_list_ascii (repeat " "%char (n - String.length s)) +s+ s.

(** The product passes the filters of the flags. *)
Definition product_matches (flags : show_flags) (name : string) (product : Product) : bool :=
  (bool_decide (fs_product flags = "") || bool_decide (fs_product flags = name)) &&
  (bool_decide (fs_arch flags = "") || bool_decide (pr_Architecture product = fs_arch flags)) &&
  (bool_decide (fs_os flags = "") || bool_decide (pr_OperatingSystem product = fs_os flags)) &&
  (bool_decide (fs_release flags = "") || bool_decide (pr_Release product = fs_release flags)).

(** The type and server of an item that is shown. *)
Definition item_columns (flags : show_flags) (items : gmap string ProductVersionItem) (item : ProductVersionItem) :
    option (string * string) :=
  let hide_incus := negb (fs_incus flags) && fs_lxd flags in
  let hide_lxd := negb (fs_lxd flags) && fs_incus flags in
  let hide_container := bool_decide (fs_itype flags = VirtualMachine) in
  let hide_vm := bool_decide (fs_itype flags = Container) in
  let ft := it_FileType item in
  if decide (ft = "incus_combined.tar.gz") then
    if hide_incus || hide_container then None else Some ("container      ", "incus")
  else if decide (ft = "lxd_combined.tar.gz") then
    if hide_lxd || hide_container then None else Some ("container      ", "lxd  ")
  else if decide (ft = "disk-kvm.img") then
    if hide_incus || hide_vm then None
    else if decide (is_Some (items !! "incus.tar.xz")) then Some ("virtual-machine", "incus") else None
  else if decide (ft = "disk1.img") then
    if hide_lxd || hide_vm then None
    else if decide (is_Some (items !! "lxd.tar.xz")) then Some ("virtual-machine", "lxd  ") else None
  else None.

Definition show_row (name version : string) (product : Product) (item : ProductVersionItem) (cols : string * string) : string :=
  "| " +s+ pad_right 30 name +s+ " | " +s+ version +s+ " | " +s+ cols.1 +s+ " | " +s+ cols.2 +s+ " | " +s+
  pr_Architecture product +s+ " | " +s+ pad_left 4 (pretty (Z.quot (Z.quot (it_Size item) 1024) 1024)) +s+ " MB | " +s+
  it_Path item.

Definition show_version (flags : show_flags) (name : string) (product : Product) (v : string * ProductVersion) : list string :=
  let items := default ∅ (pv_Items v.2) in
  omap (λ kv, show_row name v.1 product kv.2 <$> item_columns flags items kv.2) (range items).

Definition zeroProduct : Product :=
  {| pr_Aliases := ""; pr_Architecture := ""; pr_OperatingSystem := ""; pr_Release := ""; pr_ReleaseTitle := "";
     pr_Variant := ""; pr_Versions := None; pr_Other := "" |}.

Definition show_product (flags : show_flags) (index : Index) (name : string) : list string :=
  let product := default zeroProduct (default ∅ (ps_Products (ix_Products index)) !! name) in
  if product_matches flags name product
  then flat_map (show_version flags name product) (range (default ∅ (pr_Versions product)))
  else [].

(** The products of index.json, by name; those of images.json are looked up. *)
Definition show_rows (flags : show_flags) (index : Index) : list string :=
  flat_map (show_product flags index)
    (sx_Products (default zeroStreamIndex (default ∅ (str_Index (ix_Index index)) !! "images"))).

(** The table, line by line. *)
Definition show_pretty (flags : show_flags) (index : Index) : list string :=
  "| NAME                           | SERIAL       | TYPE            | SRV   | ARCH  |  SIZE   | PATH" ::
  "|--------------------------------|--------------|-----------------|-------|-------|---------|--------------------------------------------------------" ::
  show_rows flags index.

(** The lines that are printed. *)
Definition show_RunE (flags : show_flags) : M disk (list string) :=
  let! index := wrap "failed to read simplestreams index: " (GetOrCreateIndex (fs_rootDir flags)) in
  if decide (fs_output flags = "images-json") then
    let! b := wrap "failed to marshal JSON: " (of_result (MarshalIndent_Products (ix_Products index))) in ret [b]
  else if decide (fs_output flags = "index-json") then
    let! b := wrap "failed to marshal JSON: " (of_result (MarshalIndent_Stream (ix_Index index))) in ret [b]
  else if decide (fs_output flags = "pretty") then ret (show_pretty flags index)
  else ret [].

End commands.

(** ** Properties *)

Section properties.
Context {HR : MapRange} {HD : Disk} {HA : Archives} {HC : Codecs} {HI : Indenter}.

(** *** What is shown *)

(** The product of a name: the zero product when images.json has none. *)
Definition product_of (i : Index) (name : string) : Product :=
  default zeroProduct (default ∅ (ps_Products (ix_Products i)) !! name).

Definition items_of (v : ProductVersion) : gmap string ProductVersionItem := default ∅ (pv_Items v).

(** The table has a row for exactly the items of the listed products that the
    flags select: those of a known file type and, for the disk of a virtual
    machine, with the metadata of the same server beside it. *)
Theorem show_rows_iff (flags : show_flags) (i : Index) (line : string) :
  line ∈ show_rows flags i ↔
  ∃ name version v ft item cols, name ∈ listed i ∧ product_matches flags name (product_of i name) = true ∧
    default ∅ (pr_Versions (product_of i name)) !! version = Some v ∧ items_of v !! ft = Some item ∧
    item_columns flags (items_of v) item = Some cols ∧ line = show_row name version (product_of i name) item cols.
Proof.
  unfold show_rows. fold (listed i). rewrite list_elem_of_In, in_flat_map. split.
  - intros (name & Hn & Hl). apply list_elem_of_In in Hn. unfold show_product in Hl. fold (product_of i name) in Hl.
    destruct (product_matches flags name (product_of i name)) eqn:Hm; [|done].
    apply in_flat_map in Hl as ([version v] & Hv & Hl). apply list_elem_of_In, elem_of_range in Hv.
    apply list_elem_of_In in Hl. unfold show_version in Hl. apply list_elem_of_omap in Hl as ([ft item] & Hi & Hl).
    apply elem_of_range in Hi. simpl in Hl. apply fmap_Some in Hl as (cols & Hc & ->). by exists name, version, v, ft, item, cols.
  - intros (name & version & v & ft & item & cols & Hn & Hm & Hv & Hi & Hc & ->). exists name. split; [by apply list_elem_of_In|].
    unfold show_product. fold (product_of i name). rewrite Hm. apply in_flat_map. exists (version, v).
    split; [by apply list_elem_of_In, elem_of_range|]. apply list_elem_of_In. unfold show_version. simpl.
    apply list_elem_of_omap. exists (ft, item). split; [by apply elem_of_range|]. simpl. fold (items_of v). by rewrite Hc.
Qed.

(** *** Importing *)

Lemma opened_root rootDir s :
  wp (GetOrCreateIndex rootDir) (λ o _, match o with Ok i => ix_rootDir i = root_of rootDir | Err _ => True | _ => False end) s.
Proof.
  assert (∀ A path name (new : A) unmarshal s, wp (read_json path name new unmarshal)
            (λ o _, match o with Ok _ | Err _ => True | _ => False end) s) as Hread.
  { intros A path name new unmarshal s1. unfold read_json, os_ReadFile. wp_steps. apply wp_os_Open; [|intros c s2 _ _; wp_steps; apply wp_io_ReadAll].
    - intros e s2 _. simpl. destruct (negb _); by wp_steps.
    - intros e s3 _. simpl. destruct (negb _); by wp_steps.
    - intros s3 _. simpl. wp_steps. destruct (unmarshal _); by wp_steps. }
  unfold GetOrCreateIndex. apply wp_bind. apply wp_mono with (Q := λ o _, match o with Ok r => r = root_of rootDir | Err _ => True | _ => False end).
  { unfold root_of. case_decide; [|by wp_steps]. wp_steps. apply wp_disk_op; [done|]. by intros r files [= <- <-]. }
  intros [r| | |] s1; try done. intros ->. unfold bind_post. wp_steps. apply wp_os_MkdirAll. intros o s2 _ [->|[e ->]]; [|done].
  wp_steps. apply wp_os_MkdirAll. intros o s3 _ [->|[e ->]]; [|done]. wp_steps.
  eapply wp_mono; [apply Hread|]. intros [stream| | |] s4; try done. intros _. unfold bind_post. wp_steps.
  eapply wp_mono; [apply Hread|]. by intros [products| | |] s5.
Qed.

(** The tarball of a zip archive, in its temporary directory. *)
Definition extracted (tarball tmpDir : string) : Prop :=
  ∃ n, tmpDir = tempdir n ∧ tarball = filepath_Join [tmpDir; "image.tar.gz"].

Lemma extract_wp path s :
  wp (maybeExtractUnifiedTarballFromZIP path)
    (λ o _, match o with Ok (Some (tarball, tmpDir)) => extracted tarball tmpDir | Ok None | Err _ => True | _ => False end) s.
Proof.
  unfold maybeExtractUnifiedTarballFromZIP. destruct (negb _); [by wp_steps|]. unfold os_ReadFile. wp_steps.
  apply wp_os_Open; [by intros; wp_steps|]. intros c s1 _ _. wp_steps. apply wp_io_ReadAll; [by intros; wp_steps|].
  intros s2 _. simpl. wp_steps. destruct (unzip _) as [e|[|file [|]]]; simpl; wp_steps; try done.
  destruct (negb _); [by wp_steps|]. wp_steps. destruct (zf_Open file) as [e|body]; simpl; [done|]. wp_steps.
  unfold os_MkdirTemp. apply wp_disk_op; [done|]. intros r files [= <- <-]. simpl. wp_steps.
  apply wp_os_Create; [done|]. intros s3 _. wp_steps. destruct body as [e|contents]; simpl; [done|]. wp_steps.
  apply wp_write; [done|]. intros s4 _. wp_steps. by eexists.
Qed.

(** Where a file may not stay as an import left it: a temporary directory. *)
Definition temporary (p : string) : Prop := ∃ n, below (tempdir n) p = true.

(** The file that is imported: the image, or what was extracted from it. *)
Definition image_file (path path' : string) : Prop := path' = path ∨ ∃ tmpDir, extracted path' tmpDir.

Lemma ImportImage_wp i imageType path aliases incus lxd s :
  wp (ImportImage i imageType path aliases incus lxd)
    (λ o s', match o with
             | Ok i' => ∃ path' files', image_file path path' ∧ imported i i' imageType path' (import_types imageType incus lxd) files' ∧
                          ∀ p, dk_files s' !! p = files' !! p ∨ temporary p
             | Err _ => True
             | Panic _ => ¬ index_wf i
             | OutOfFuel => False
             end) s.
Proof.
  unfold ImportImage. wp_steps. eapply wp_mono; [apply extract_wp|]. intros [[[tarball tmpDir]|]| | |] s1; try done; intros Hx; simpl.
  - wp_steps. eapply wp_mono; [apply import_tarball_wp|]. intros [i'|e|msg|] s2 Hpost; simpl in *; [|wp_steps; by apply wp_disk_op; [|intros r files [= <- <-]]|done..].
    wp_steps. apply wp_disk_op; [intros f|intros r files [= <- <-]]; simpl; wp_steps;
      exists tarball, (dk_files s2); (split_and!; [right; by exists tmpDir|done|]); intros p; [by left|].
    destruct Hx as (n & -> & _). destruct (dk_files s2 !! p) as [c|] eqn:Hc; rewrite ?map_lookup_filter, Hc; simpl; [|by left].
    case_guard as Hb; [by left|right]. exists n. by apply not_false_is_true.
  - eapply wp_mono; [apply import_tarball_wp|]. intros [i'|e| |] s2 Hpost; simpl in *; try done.
    exists path, (dk_files s2). split_and!; [by left|done|by left].
Qed.

(** *** Importing, then showing *)

(** The columns of an image of a server in the table, the file type under which
    they are shown, and the one of the metadata of a virtual machine. *)
Definition type_column (imageType : string) : string := pad_right 15 imageType.
Definition server_column (server : string) : string := pad_right 5 server.

Inductive image_of : string → string → string → option string → Prop :=
| container_incus : image_of Container "incus" containerFTypeIncus None
| container_lxd : image_of Container "lxd" containerFTypeLXD None
| vm_incus : image_of VirtualMachine "incus" vmRootfsFTypeIncus (Some vmMetadataFTypeIncus)
| vm_lxd : image_of VirtualMachine "lxd" vmRootfsFTypeLXD (Some vmMetadataFTypeLXD).

(** With the default flags, such an image is shown. *)
Lemma image_of_columns imageType server ft meta rootDir items item :
  image_of imageType server ft meta → it_FileType item = ft → (∀ m, meta = Some m → is_Some (items !! m)) →
  item_columns (show_defaults rootDir) items item = Some (type_column imageType, server_column server).
Proof.
  unfold item_columns. intros [] -> Hm; simpl; try done; pose proof (Hm _ eq_refl) as Hsome; by rewrite decide_True.
Qed.

(** The servers that the flags ask for, and what they are given. *)
Definition servers (flags : import_image_flags) : list string :=
  (if fi_incus flags then ["incus"] else []) ++ (if fi_lxd flags then ["lxd"] else []).

Lemma servers_image_of flags server :
  import_image_PreRunE flags = None → server ∈ servers flags →
  ∃ ft meta, image_of (fi_imageType flags) server ft meta ∧
    ∀ ft', ft' = ft ∨ meta = Some ft' → ft' ∈ import_types (fi_imageType flags) (fi_incus flags) (fi_lxd flags).
Proof.
  unfold import_image_PreRunE, servers. intros Hpre Hs. destruct (_ && _); [done|].
  destruct (bool_decide_reflect (fi_imageType flags = VirtualMachine)) as [->|_];
    [|destruct (bool_decide_reflect (fi_imageType flags = Container)) as [->|]; [|done]];
    apply elem_of_app in Hs as [Hs|Hs];
    match type of Hs with context [if ?b then _ else _] => destruct b eqn:? end; try (by apply elem_of_nil in Hs);
    apply list_elem_of_singleton in Hs as ->; eexists _, _; (split; [constructor|]); intros ft' [->|[= <-]];
    unfold import_types; simpl; unfold vm_types, container_types; simpl; set_solver.
Qed.

(** An item that the index has is in the version of its product. *)
Lemma lookup_item_product i name version ft item :
  lookup_item i name version ft = Some item →
  ∃ v, default ∅ (pr_Versions (product_of i name)) !! version = Some v ∧ items_of v !! ft = Some item.
Proof.
  unfold lookup_item, product_of. intros Hi. apply bind_Some in Hi as (p & -> & Hi). simpl.
  apply bind_Some in Hi as (v & Hv & Hi). by exists v.
Qed.

(** With the default flags, an image is listed when all its items are there. *)
Lemma image_listed i name version items (flags : import_image_flags) server rootDir :
  import_image_PreRunE flags = None → name ∈ listed i → server ∈ servers flags →
  map it_FileType items = import_types (fi_imageType flags) (fi_incus flags) (fi_lxd flags) →
  (∀ item, item ∈ items → lookup_item i name version (it_FileType item) = Some item) →
  ∃ item, item ∈ items ∧
    show_row name version (product_of i name) item (type_column (fi_imageType flags), server_column server)
      ∈ show_rows (show_defaults rootDir) i.
Proof.
  intros Hpre Hn Hs Hft Hin. destruct (servers_image_of _ _ Hpre Hs) as (ft & meta & Him & Htypes).
  assert (∀ ft', ft' = ft ∨ meta = Some ft' →
            ∃ item, item ∈ items ∧ it_FileType item = ft' ∧ lookup_item i name version ft' = Some item) as Hlook.
  { intros ft' Hf%Htypes. rewrite <- Hft in Hf. apply list_elem_of_fmap in Hf as (item & -> & Hi). exists item. auto. }
  destruct (Hlook ft (or_introl eq_refl)) as (item & Hi & Hit & Hl). exists item. split; [done|].
  destruct (lookup_item_product _ _ _ _ _ Hl) as (v & Hv & Hiv).
  apply show_rows_iff. exists name, version, v, ft, item, (type_column (fi_imageType flags), server_column server).
  split_and!; try done. eapply image_of_columns; [done..|]. intros m Hm.
  destruct (Hlook m (or_intror Hm)) as (item' & _ & _ & Hl'). destruct (lookup_item_product _ _ _ _ _ Hl') as (v' & Hv' & Hiv').
  simplify_eq. by eexists.
Qed.


End properties.

(** ** The commands on the sample disk *)

#[local] Existing Instance sample_codecs.
#[local] Existing Instance sample_codec_laws.
#[local] Existing Instance sample_archives.
#[local] Existing Instance sample_disk.
#[local] Existing Instance sample_faultless.
#[local] Instance sample_indenter : Indenter :=
  {| MarshalIndent_Stream := λ _, inr "{}"; MarshalIndent_Products := λ _, inr "{}" |}.

Definition sample_flags : import_image_flags :=
  {| fi_rootDir := "/srv/images"; fi_imagePath := "/home/u/image.tar.gz"; fi_imageAliases := ["kubeadm/v1.33.0"];
     fi_imageType := Container; fi_incus := true; fi_lxd := true |}.

Definition sample_shown : disk := (import_image_RunE sample_flags sample_files).2.


(** The table after the import of a container image for both servers. *)
Example sample_table :
  let file := "images/ubuntu/noble/amd64/" +s+ sha256_hex "tarball" +s+ ".incus_combined.tar.gz" in
  (show_RunE (show_defaults "/srv/images") sample_shown).1 =
    Ok ["| NAME                           | SERIAL       | TYPE            | SRV   | ARCH  |  SIZE   | PATH";
        "|--------------------------------|--------------|-----------------|-------|-------|---------|--------------------------------------------------------";
        "| ubuntu:noble:kubeadm:amd64     | 197001010000 | container       | incus | amd64 |    0 MB | " +s+ file;
        "| ubuntu:noble:kubeadm:amd64     | 197001010000 | container       | lxd   | amd64 |    0 MB | " +s+ file].
Proof. vm_compute. reflexivity. Qed.
