(* ===== verification/Docker.v ===== *)
(** * The docker shim of kini: cmd/exp/kini/docker, internal/utils/oci_image.go

    kini runs kind with a [docker] command that talks to Incus. This file models
    the commands of that shim: each is a computation that returns what it prints
    on the standard output when it succeeds. The flags that the commands accept
    and ignore are left out; the standard input of a command that is run in an
    instance is read before the command starts. *)

From S2P Require Import Prelude GoStrings Go Static Api World Images Launch Instances Sample Client Config LoadBalancer Files Simplestreams.

(** ** OCI image names: internal/utils/oci_image.go *)

(** A parsed reference of the containerregistry library: [Context().RegistryStr()],
    [Context().Scheme()] and [Name()]. *)
Record Reference := { ref_RegistryStr : string; ref_Scheme : string; ref_Name : string }.

Class References := { ParseReference : string → error + Reference }.

Record OCIImage := { oci_raw : string; oci_ref : Reference }.

Definition ParseOCIImage `{References} (image : string) : error + OCIImage :=
  match ParseReference image with
  | inl err => inl (Errorf_w "failed to parse reference: " err)
  | inr ref => inr {| oci_raw := image; oci_ref := ref |}
  end.

(** Server returns the HTTPS server endpoint of the image registry. *)
Definition Server (i : OCIImage) : string :=
  let registry := ref_RegistryStr (oci_ref i) in
  let registry := if decide (registry = "index.docker.io") then "docker.io" else registry in
  ref_Scheme (oci_ref i) +s+ "://" +s+ registry.

(** Alias returns the alias to use in Incus for pulling the image. *)
Definition Alias (i : OCIImage) : string :=
  (CutPrefix (ref_Name (oci_ref i)) (ref_RegistryStr (oci_ref i) +s+ "/")).1.

Definition Tag (i : OCIImage) : string :=
  let tag := (Cut (oci_raw i) ":").1.2 in (Cut tag "@").1.1.

Definition Digest (i : OCIImage) : string := (Cut (oci_raw i) "@").1.2.

(** The tag of a plain name; the port of a registry and a digest are taken for
    one. *)
Example Tag_first_colon :
  let tag raw := Tag {| oci_raw := raw; oci_ref := {| ref_RegistryStr := ""; ref_Scheme := ""; ref_Name := "" |} |} in
  tag "kindest/node:v1.33.0@sha256:18fb" = "v1.33.0" ∧ tag "localhost:5000/kindest/node" = "5000/kindest/node" ∧
  tag "kindest/node@sha256:18fb" = "18fb".
Proof. auto. Qed.

(** The image source for Incus. *)
Definition oci_image (i : OCIImage) : option ImageFamily :=
  Some (OfImage {| img_Fingerprint := ""; img_Protocol := OCI; img_Server := Server i; img_Alias := Alias i |}).

(** ** Devices of a new instance: docker_run.go *)

(** The proxy device of a published port. *)
Definition proxy_device (publishPort : string) : error + gmap string string :=
  match Cut (ToLower publishPort) "/" with
  | (publishPort, _, false) => inl (errorString ("publish port " +s+ quote publishPort +s+ " does not specify protocol"))
  | (publishPort, protocol, true) =>
      let device listen connect : gmap string string :=
        {[ "type" := "proxy"; "bind" := "host"; "listen" := listen; "connect" := connect ]} in
      match Split publishPort ":" with
      | [a; b] => inr (device (protocol +s+ "::" +s+ a) (protocol +s+ "::" +s+ b))
      | [a; b; c] => inr (device (protocol +s+ ":" +s+ a +s+ ":" +s+ b) (protocol +s+ "::" +s+ c))
      | _ => inl (errorString ("publish port " +s+ quote publishPort +s+ " does not specify listen and connect"))
      end
  end.

Fixpoint proxy_devices (idx : nat) (ports : list string) (devices : gmap string (gmap string string)) :
    error + gmap string (gmap string string) :=
  match ports with
  | [] => inr devices
  | port :: ports =>
      match proxy_device port with
      | inl err => inl err
      | inr device => proxy_devices (S idx) ports (<["docker-proxy-" +s+ decimal idx := device]> devices)
      end
  end.

(** The devices for a list of arguments, named by their position; some
    arguments have none. *)
Fixpoint indexed_devices (prefix : string) (device : string → option (gmap string string)) (idx : nat)
    (args : list string) (devices : gmap string (gmap string string)) : gmap string (gmap string string) :=
  match args with
  | [] => devices
  | arg :: args =>
      indexed_devices prefix device (S idx) args
        (match device arg with Some d => <[prefix +s+ decimal idx := d]> devices | None => devices end)
  end.

Definition tmpfs_device (path : string) : option (gmap string string) :=
  Some {[ "type" := "disk"; "path" := path; "source" := "tmpfs:" ]}.

Definition unix_device (device : string) : option (gmap string string) :=
  Some {[ "type" := "unix-char"; "source" := device; "path" := device ]}.

Definition volume_device (volume : string) : option (gmap string string) :=
  if bool_decide (volume = "/var") || bool_decide (volume = "/lib/modules:/lib/modules:ro") then None
  else
    let '(hostPath, containerPath, readOnly, propagation) :=
      match Split volume ":" with
      | [_] => (volume, volume, false, "")
      | [h; c] => (h, c, false, "")
      | [h; c; opts] =>
          (h, c, Contains opts "ro",
           if Contains opts "rslave" then "rslave" else if Contains opts "rshared" then "rshared" else "")
      | _ => ("", "", false, "")
      end in
    Some {[ "type" := "disk"; "source" := hostPath; "path" := containerPath;
            "readonly" := FormatBool readOnly; "propagation" := propagation ]}.

(** Every key of the map with a prefix. *)
Definition prefix_keys (prefix : string) (m : gmap string string) : gmap string string :=
  kmap (String.append prefix) m.

(** The flags of [docker run] that matter. *)
Record run_flags := {
  rf_Name : string; rf_Environment : list string; rf_Labels : gmap string string; rf_PublishPorts : list string;
  rf_Volumes : list string; rf_Devices : list string; rf_Tmpfs : list string; rf_Sysctl : gmap string string
}.

(** ** IP addresses: [netip.ParseAddr] *)

Definition digit (c : ascii) : option nat :=
  let n := Ascii.nat_of_ascii c in if (48 <=? n)%nat && (n <=? 57)%nat then Some (n - 48)%nat else None.

Definition hex_value (c : ascii) : bool :=
  let n := Ascii.nat_of_ascii c in
  ((48 <=? n) && (n <=? 57) || (97 <=? n) && (n <=? 102) || (65 <=? n) && (n <=? 70))%nat.

Fixpoint number (acc : nat) (s : string) : option nat :=
  match s with
  | EmptyString => Some acc
  | String c s => match digit c with Some d => number (10 * acc + d) s | None => None end
  end.

(** A field of an IPv4 address: one to three digits, no leading zero, at most 255. *)
Definition v4_field (s : string) : bool :=
  (1 <=? String.length s)%nat && (String.length s <=? 3)%nat &&
  (bool_decide (s = "0") || negb (HasPrefix s "0")) &&
  match number 0 s with Some n => (n <=? 255)%nat | None => false end.

Definition is_v4 (s : string) : bool :=
  let fields := Split s "." in (length fields =? 4)%nat && forallb v4_field fields.

Definition v6_group (s : string) : bool :=
  (1 <=? String.length s)%nat && (String.length s <=? 4)%nat && forallb hex_value (chars s).

(** The number of 16 bit groups of a part of an IPv6 address; its last group
    may be an IPv4 address, where [v4] allows it. *)
Fixpoint v6_groups (v4 : bool) (groups : list string) : option nat :=
  match groups with
  | [] => Some 0%nat
  | [g] => if v6_group g then Some 1%nat else if v4 && is_v4 g then Some 2%nat else None
  | g :: groups => if v6_group g then S <$> v6_groups v4 groups else None
  end.

Definition v6_part (v4 : bool) (s : string) : option nat :=
  if decide (s = "") then Some 0%nat else v6_groups v4 (Split s ":").

Definition is_v6 (s : string) : bool :=
  let '(s, zone, zoned) := Cut s "%" in
  negb (zoned && bool_decide (zone = "")) &&
  match Cut s "::" with
  | (s, _, false) => match v6_groups true (Split s ":") with Some n => (n =? 8)%nat | None => false end
  | (l, r, true) =>
      match v6_part false l, v6_part true r with
      | Some m, Some n => (m + n <=? 7)%nat
      | _, _ => false
      end
  end.

(** The last IPv4 and the last IPv6 address of a list. *)
Definition pick_addresses (addrs : list string) : string * string :=
  foldl (λ '(ipv4, ipv6) addr, if is_v4 addr then (addr, ipv6) else if is_v6 addr then (ipv4, addr) else (ipv4, ipv6))
    ("", "") addrs.

(** ** Parsing an image tarball: docker_image_load.go *)

(** What [tarReader.Next] gives, call after call: the entries, then EOF or the
    same error for ever. *)
Definition tar_next (stream : tar_stream) (n : nat) : option error + tar_entry :=
  match ts_Entries stream !! n with
  | Some e => inr e
  | None => inl (ts_End stream)
  end.

(** The decoded manifest, a [[]struct { RepoTags []string }]: [None] is a nil
    slice. *)
Definition manifest : Type := option (list (option (list string))).

(** What the [%#v] verb prints for it. *)
Definition slice_syntax {A} (type : string) (element : A → string) (s : option (list A)) : string :=
  match s with
  | None => type +s+ "(nil)"
  | Some l => type +s+ "{" +s+ Join (map element l) ", " +s+ "}"
  end.

Definition manifest_syntax (m : manifest) : string :=
  slice_syntax "[]struct { RepoTags []string }"
    (λ tags, "struct { RepoTags []string }{RepoTags:" +s+ slice_syntax "[]string" quote tags +s+ "}") m.

(** The first tag of the manifest; [decode] is the JSON decoder, which reads the
    body of the entry. *)
Definition first_tag (decode : error + string → error + manifest) (body : error + string) : error + string :=
  match decode body with
  | inl err => inl (Errorf_w "failed to parse manifest.json: " err)
  | inr (Some (Some (tag :: _) :: _)) => inr tag
  | inr m => inl (errorString ("no image tags found in manifest " +s+ manifest_syntax m))
  end.

(** The loop of [parseImageTag], from the [n]-th call of [tarReader.Next];
    [None] when the fuel runs out. An error that is not EOF does not leave the
    loop. *)
Fixpoint parseImageTag_loop (fuel : nat) (decode : error + string → error + manifest) (stream : tar_stream) (n : nat) :
    option (error + string) :=
  match fuel with
  | O => None
  | S fuel =>
      match tar_next stream n with
      | inl None => Some (inl (errorString "no manifest.json found in image tarball"))
      | inl (Some _) => parseImageTag_loop fuel decode stream (S n)
      | inr e =>
          if decide (hd_Name (te_Header e) = "manifest.json") then Some (first_tag decode (te_Body e))
          else parseImageTag_loop fuel decode stream (S n)
      end
  end.

(** The file of a loaded image in the cache. *)
Definition loadedFileName (cacheDir tag : string) : string :=
  filepath_Join [cacheDir; "loaded--" +s+ ReplaceAll tag "/" "--" +s+ ".tar"].

Section docker.
Context `{MapRange} `{YAML} `{TextTemplate} `{Printer} `{CliPaths} `{References} `{E : Env}.

(** ** The environment: env.go, root.go *)

Definition Getenv (name : string) : M state string :=
  let! r := try (host (OSGetenv name)) in
  ret (match r with inr v => v | inl _ => "" end).

(** The client for the local configuration. *)
Definition docker_Client : M state Client :=
  let! config := Getenv "KINI_CONFIG" in
  let! remote := Getenv "KINI_REMOTE" in
  let! (opts, _) := wrap "failed to retrieve local configuration: " (ConfigurationFromLocal config remote false) in
  let! project := Getenv "KINI_PROJECT" in
  New {| cfg_ServerURL := cfg_ServerURL opts; cfg_ServerCrt := cfg_ServerCrt opts; cfg_ClientCrt := cfg_ClientCrt opts;
         cfg_ClientKey := cfg_ClientKey opts; cfg_Project := project; cfg_InsecureSkipVerify := cfg_InsecureSkipVerify opts |}.

(** Privileged returns true if user wants to launch privileged containers. *)
Definition Privileged : M state bool :=
  let! v := Getenv "KINI_UNPRIVILEGED" in
  ret (match ParseBool v with Some v => negb v | None => true end).

(** KindInstances returns true if we must launch kind instances. *)
Definition KindInstances : M state bool :=
  let! mode := Getenv "KINI_MODE" in
  if decide (mode = "lxc") then ret false
  else if decide (mode = "oci") then ret true
  else
    let! client := try docker_Client in
    ret (match client with
         | inl _ => false
         | inr c => match SupportsInstanceOCI c with None => true | Some _ => false end
         end).

(** WithUnixSocket returns true if we must pass the Incus unix socket into the
    instance under /run-unix.socket. *)
Definition env_WithUnixSocket : M state bool :=
  let! v := Getenv "KINI_MOUNT_UNIX_SOCKET" in
  ret (match ParseBool v with Some v => v | None => false end).

Definition with_client {A} (k : Client → M state A) : M state A :=
  let! c := wrap "failed to initialize client: " docker_Client in k c.

(** ** docker run: docker_run.go *)

(** launchOptionsForImage initializes LaunchOptions for node or haproxy
    instances. *)
Definition launchOptionsForImage (rawImage serverName : string) : M state LaunchOptions :=
  let! image := wrap ("failed to parse " +s+ quote rawImage +s+ ": ") (of_result (ParseOCIImage rawImage)) in
  if Contains (Alias image) "kindest/haproxy" then
    let! kind := KindInstances in
    if negb kind then throw (errorString ("haproxy instances (" +s+ quote rawImage +s+ ") not supported in LXC mode"))
    else ret (WithImage (oci_image image) HaproxyOCILaunchOptions)
  else if Contains (Alias image) "kindest/base" then
    let! kind := KindInstances in
    if negb kind then throw (errorString ("kindest/base instances (" +s+ quote rawImage +s+ ") not supported in LXC mode"))
    else ret (WithImage (oci_image image)
                (LO_WithConfig (Some {[ "oci.entrypoint" := "sleep infinity" ]}) emptyLaunchOptions))
  else
    let! kind := KindInstances in
    let! privileged := Privileged in
    if kind then
      let! opts := of_result (KindLaunchOptions
        {| din_KubernetesVersion := ""; din_Privileged := privileged; din_SkipProfile := false; din_PodNetworkCIDR := "";
           din_CloudInit := ""; din_CloudInitAptInstall := false |}) in
      let! socket := env_WithUnixSocket in
      ret (WithUnixSocket socket (WithImage (oci_image image) opts))
    else
      let opts := KubeadmLaunchOptions
        {| kin_KubernetesVersion := Tag image; kin_InstanceType := Container; kin_Privileged := privileged;
           kin_SkipProfile := false; kin_SkipInstallKubeadmScript := true; kin_ServerName := serverName;
           kin_CloudInit := "" |} in
      let opts := WithInstanceTemplates (Some
        {[ "/etc/sysconfig/kubelet" := "KUBELET_EXTRA_ARGS='--cgroup-root='";
           "/kind/product_name" := "kind"; "/kind/product_uuid" := "kind"; "/kind/version" := Tag image;
           "/kind/manifests/default-storage.yaml" := KindDefaultStorageManifestYAML;
           "/kind/manifests/default-cni.yaml" := KubeFlannelManifestYAML ]}) opts in
      let! socket := env_WithUnixSocket in
      ret (WithUnixSocket socket opts).

(** The lines of the environment; a variable without a value has the value of
    this process. *)
Fixpoint run_environment (vars : list string) : M state string :=
  match vars with
  | [] => ret ""
  | v :: vars =>
      let! v := if negb (Contains v "=") then let! value := Getenv v in ret (v +s+ "=" +s+ value) else ret v in
      let! rest := run_environment vars in
      ret (v +s+ newline +s+ rest)
  end.

(** What the flags add to the launch options of the image. *)
Definition run_options (flags : run_flags) (c : Client) (environment : string)
    (proxyDevices : gmap string (gmap string string)) (opts : LaunchOptions) : LaunchOptions :=
  let volumeDevices := indexed_devices "docker-volume-" volume_device 0 (rf_Volumes flags) ∅ in
  let tmpfsDevices := match SupportsContainerDiskTmpfs c with
                      | None => Some (indexed_devices "docker-tmpfs-" tmpfs_device 0 (rf_Tmpfs flags) ∅)
                      | Some _ => None
                      end in
  let unixDevices := indexed_devices "docker-device-" unix_device 0 (rf_Devices flags) ∅ in
  let opts := LO_WithConfig (Some (prefix_keys "user." (rf_Labels flags))) opts in
  let opts := LO_WithConfig (Some (prefix_keys "linux.sysctl." (rf_Sysctl flags))) opts in
  let opts := WithDevices (Some proxyDevices) opts in
  let opts := WithDevices (Some volumeDevices) opts in
  let opts := WithDevices tmpfsDevices opts in
  let opts := WithDevices (Some unixDevices) opts in
  WithAppendToFiles {[ "/etc/environment" := newline +s+ "# added by kini" +s+ newline +s+ environment ]} opts.

Definition docker_run (ctx : context) (flags : run_flags) (image : string) : M state unit :=
  with_client (λ c,
    let! environment := run_environment (rf_Environment flags) in
    let! proxyDevices := of_result (proxy_devices 0 (rf_PublishPorts flags) ∅) in
    let! launchOpts := wrap "failed to generate launch options: " (launchOptionsForImage image (GetServerName c)) in
    WaitForLaunchInstance c ctx (rf_Name flags) (run_options flags c environment proxyDevices launchOpts) ;;
    ret tt).

(** ** docker exec: docker_exec.go *)

(** The arguments without the flags before the instance name. *)
Fixpoint exec_args (args : list string) : error + list string :=
  match args with
  | [] => inr []
  | arg :: rest =>
      if bool_decide (arg = "--privileged") || bool_decide (arg = "-i") then
        match rest with [] => inl (errorString "instance name not specified") | _ => exec_args rest end
      else inr args
  end.

(** Writes the standard input to a file of the instance; the configuration of
    haproxy is generated instead. *)
Definition exec_copy (c : Client) (instanceName path : string) : M state unit :=
  let! b := wrap "failed to read stdin: " (host OSReadStdin) in
  let! b := if decide (path = "/usr/local/etc/haproxy/haproxy.cfg") then
              wrap "failed to generate hack haproxy configuration: "
                (GenerateHaproxyLoadBalancerConfiguration c
                   [WithConfig {[ "user.io.x-k8s.kind.cluster" := TrimSuffix instanceName "-external-load-balancer";
                                  "user.io.x-k8s.kind.role" := "control-plane" ]}])
            else ret b in
  wrap ("failed to create file " +s+ quote path +s+ " on instance " +s+ quote instanceName +s+ ": ")
    (incus (cli_Conn c) (CreateInstanceFile instanceName path
       {| fa_Content := b; fa_Type := "file"; fa_Mode := 420; fa_UID := 0; fa_GID := 0; fa_WriteMode := "" |})).

(** Runs a command with the standard input, and returns its output. *)
Definition run_printing (c : Client) (ctx : context) (instanceName : string) (command : list string) : M state string :=
  let! stdin := try (host OSReadStdin) in
  let! r := RunCommand c ctx instanceName command (Some (match stdin with inr b => b | inl _ => "" end)) in
  match cr_err r with Some err => throw err | None => ret (cr_stdout r) end.

Definition docker_exec (ctx : context) (args : list string) : M state string :=
  let! args := match args with
               | [] => panic "index out of range [0] with length 0"
               | _ => of_result (exec_args args)
               end in
  with_client (λ c,
    match args with
    | [instanceName; "cp"; "/dev/stdin"; path] => exec_copy c instanceName path ;; ret ""
    | instanceName :: command => run_printing c ctx instanceName command
    | [] => panic "index out of range [0] with length 0"
    end).

(** ** docker cp: docker_cp.go *)

Definition docker_cp (src dst : string) : M state unit :=
  let '(_, _, srcOk) := Cut src ":" in
  let '(dstInstance, dstPath, dstOk) := Cut dst ":" in
  if srcOk : bool then throw (errorString ("source " +s+ quote src +s+ " not supported"))
  else if negb dstOk then throw (errorString ("destination " +s+ quote dst +s+ " not supported"))
  else
    let! mode := wrap "failed to stat source: " (host (OSStatPerm src)) in
    with_client (λ c,
      let! contents := wrap "failed to read source: " (host (OSReadFile src)) in
      wrap "failed to copy file to instance: "
        (incus (cli_Conn c) (CreateInstanceFile dstInstance dstPath
           {| fa_Content := contents; fa_Type := ""; fa_Mode := mode; fa_UID := 0; fa_GID := 0; fa_WriteMode := "" |}))).

(** ** docker rm, docker logs: docker_rm.go, docker_logs.go *)

Definition docker_rm (ctx : context) (names : list string) : M state unit :=
  with_client (λ c, for_each names (λ name,
    wrap ("failed to delete instance " +s+ quote name +s+ ": ") (WaitForDeleteInstance c ctx name))).

Definition docker_logs (ctx : context) (follow : bool) (name : string) : M state string :=
  with_client (λ c,
    run_printing c ctx name (["journalctl"; "--boot"; "--no-tail"] ++ if follow then ["--follow"] else [])).

(** ** docker ps: docker_ps.go *)

Definition ps_filter (filter : string) : error + ListInstanceFilter :=
  match CutPrefix filter "label=io.x-k8s.kind.cluster=" with
  | (clusterName, true) => inr (WithConfig {[ "user.io.x-k8s.kind.cluster" := clusterName ]})
  | (_, false) =>
      if decide (filter = "label=io.x-k8s.kind.cluster") then inr (WithConfigKeys ["user.io.x-k8s.kind.cluster"])
      else inl (errorString ("unknown filter " +s+ quote filter))
  end.

Definition label_format : string := "{{.Label " +s+ String dquote ("io.x-k8s.kind.cluster" +s+ String dquote "}}").

(** What is printed; the names of the clusters are a set, in no particular
    order. *)
Definition ps_output (format : string) (instances : list InstanceFull) : error + string :=
  if decide (format = "{{.Names}}") then inr (Join (map (λ i, if_Name i +s+ newline) instances) "")
  else if decide (format = label_format) then
    let clusterNames : gmap string unit :=
      foldl (λ names i, let v := go_index (if_Config i) "user.io.x-k8s.kind.cluster" in
                        if (0 <? String.length v)%nat then <[v := tt]> names else names) ∅ instances in
    inr (Join (map fst (range clusterNames)) newline +s+ newline)
  else inl (errorString ("unknown format " +s+ quote format)).

Definition docker_ps (format filter : string) : M state string :=
  with_client (λ c,
    let! filter := of_result (ps_filter filter) in
    let! instances := wrap "failed to list instances: " (ListInstances c [filter]) in
    of_result (ps_output format instances)).

(** ** docker inspect: docker_inspect.go *)

Definition role_format : string :=
  "{{ index .Config.Labels " +s+ String dquote ("io.x-k8s.kind.role" +s+ String dquote "}}").
Definition desktop_format : string :=
  "{{ index .Config.Labels " +s+ String dquote ("desktop.docker.io/ports/6443/tcp" +s+ String dquote " }}").
Definition ports_format : string :=
  "{{ with (index (index .NetworkSettings.Ports " +s+ String dquote ("6443/tcp" +s+ String dquote
  (") 0) }}{{ printf " +s+ String dquote ("%s" +s+ tab +s+ "%s" +s+ String dquote " .HostIp .HostPort }}{{ end }}"))).
Definition networks_format : string :=
  "{{range .NetworkSettings.Networks}}{{.IPAddress}},{{.GlobalIPv6Address}}{{end}}".

(** The host address and port of a device that forwards to the API server. *)
Definition api_server_port (device : gmap string string) : option string :=
  if bool_decide (go_index device "type" = "proxy") && bool_decide (go_index device "bind" = "host") &&
     bool_decide (go_index device "connect" = "tcp::6443")
  then match Split (go_index device "listen") ":" with
       | ["tcp"; ip; port] => Some (ip +s+ tab +s+ port +s+ newline)
       | _ => None
       end
  else None.

Definition inspect_output (format : string) (instance : InstanceFull) : error + string :=
  if decide (format = "") then
    match yaml_Marshal (ObjInstance instance) with
    | inl err => inl (Errorf_w "failed to marshal YAML: " err)
    | inr b => inr (b +s+ newline)
    end
  else if decide (format = role_format) then inr (go_index (if_Config instance) "user.io.x-k8s.kind.role" +s+ newline)
  else if decide (format = desktop_format) then inr ""
  else if bool_decide (format = ports_format) || bool_decide (format = "test") then
    inr (default "" (head (omap (λ kv, api_server_port kv.2) (range (if_Devices instance)))))
  else if bool_decide (format = networks_format) || bool_decide (format = "t2") then
    let '(ipv4, ipv6) := pick_addresses (ParseHostAddresses (if_State instance)) in
    inr (ipv4 +s+ "," +s+ ipv6 +s+ newline)
  else inl (errorString ("unknown format " +s+ quote format)).

Definition docker_inspect (format name : string) : M state string :=
  with_client (λ c,
    let! instance := wrap ("failed to retrieve instance " +s+ quote name +s+ ": ")
                       (incus (cli_Conn c) (GetInstanceFull name)) in
    of_result (inspect_output format instance)).

(** ** docker info: docker_info.go *)

Definition securityOptionsByFormatAndPrivileged (format : string) : option (bool → string) :=
  if decide (format = "{{json .}}") then Some (λ privileged, unquote (
    "{~CgroupDriver~:~systemd~,~CGroupVersion~:~2~,~MemoryLimit~:true,~CPUShares~:true,~PidsLimit~:true,~SecurityOptions~:" +s+
    if privileged : bool then "[]}" else "[~name=userns~,~name=rootless~]}"))
  else if decide (format = "'{{json .SecurityOptions}}'") then Some (λ privileged,
    if privileged : bool then "[]" else unquote "[~name=userns~,~name=rootless~]")
  else None.

Definition docker_info (format : string) : M state string :=
  if decide (format = "") then
    with_client (λ c,
      let! info := wrap "failed to get server info: " (incus (cli_Conn c) GetServer) in
      let! b := wrap "failed to marshal YAML: " (of_result (yaml_Marshal (ObjServer info))) in
      ret (b +s+ newline))
  else
    match securityOptionsByFormatAndPrivileged format with
    | None => throw (errorString ("unknown format " +s+ quote format))
    | Some opts => let! privileged := Privileged in ret (opts privileged +s+ newline)
    end.

(** ** docker pull: docker_image_pull.go *)

Definition docker_pull (ctx : context) (imageName : string) : M state unit :=
  if negb (Contains imageName "kindest/node") then ret tt
  else
    with_client (λ c,
      let! image := wrap ("failed to parse OCI image " +s+ quote imageName +s+ ": ") (of_result (ParseOCIImage imageName)) in
      let! kind := KindInstances in
      if kind then
        wrap ("failed to pull " +s+ quote imageName +s+ ": ")
          (PullImage c ctx (OfImage {| img_Fingerprint := ""; img_Protocol := OCI; img_Server := Server image;
                                       img_Alias := Alias image |}))
      else
        wrap ("failed to pull kubeadm image for version " +s+ quote (Tag image) +s+ ": ")
          (PullImage c ctx (OfImage (CapnImage ("kubeadm/" +s+ Tag image))))).

(** ** docker network ls: docker_network_ls.go *)

Definition docker_network_ls (filter format : string) : M state string :=
  if decide (filter = "name=^kind$") then
    if decide (format = "{{.ID}}") then ret ("kind" +s+ newline)
    else throw (errorString ("invalid format " +s+ quote format))
  else throw (errorString ("invalid filter " +s+ quote filter)).

End docker.

(** ** Properties *)

(** *** Image tarballs *)

Definition has_manifest (stream : tar_stream) : Prop :=
  ∃ e, e ∈ ts_Entries stream ∧ hd_Name (te_Header e) = "manifest.json".

Lemma parseImageTag_stuck decode stream fuel n :
  ¬ has_manifest stream → is_Some (ts_End stream) → parseImageTag_loop fuel decode stream n = None.
Proof.
  intros Hm [err He]. revert n. induction fuel as [|fuel IH]; intros n; simpl; [done|]. unfold tar_next.
  destruct (ts_Entries stream !! n) as [e|] eqn:Hn; [|by rewrite He]. case_decide; [|done].
  exfalso. apply Hm. exists e. split; [by eapply list_elem_of_lookup_2|done].
Qed.

Lemma parseImageTag_runs decode stream n :
  has_manifest {| ts_Entries := drop n (ts_Entries stream); ts_End := ts_End stream |} ∨ ts_End stream = None →
  ∃ r, parseImageTag_loop (S (length (ts_Entries stream) - n)) decode stream n = Some r.
Proof.
  remember (length (ts_Entries stream) - n)%nat as k eqn:Hk. revert n Hk.
  induction k as [|k IH]; intros n Hk Hor; simpl; unfold tar_next.
  - rewrite lookup_ge_None_2 by lia. destruct Hor as [(e & He & _)|He]; [|rewrite He; eauto].
    simpl in He. rewrite drop_ge in He by lia. by apply elem_of_nil in He.
  - destruct (lookup_lt_is_Some_2 (ts_Entries stream) n) as [e He]; [lia|]. rewrite He. case_decide as Hd; [eauto|].
    apply (IH (S n)); [lia|]. destruct Hor as [(e' & He' & Hn)|]; [left|by right]. simpl in He'.
    rewrite (drop_S _ e) in He' by done. apply elem_of_cons in He' as [->|He']; [done|]. by exists e'.
Qed.

(** C39: Reading the tag of an image tarball ends exactly when the tarball has a
    manifest.json, or can be read to its end: a tarball that is damaged before
    its manifest keeps the program in the loop for ever. *)
Theorem parseImageTag_ends_iff (decode : error + string → error + manifest) (stream : tar_stream) :
  (∃ fuel r, parseImageTag_loop fuel decode stream 0 = Some r) ↔ has_manifest stream ∨ ts_End stream = None.
Proof.
  split.
  - intros (fuel & r & Hr). destruct (ts_End stream) as [err|] eqn:He; [left|by right].
    destruct (existsb (λ e, bool_decide (hd_Name (te_Header e) = "manifest.json")) (ts_Entries stream)) eqn:Hex.
    + apply existsb_In in Hex as (e & Hin & Hd). exists e. by apply bool_decide_eq_true in Hd.
    + rewrite parseImageTag_stuck in Hr; [done| |by rewrite He]. intros (e & Hin & Hn).
      assert (existsb (λ e, bool_decide (hd_Name (te_Header e) = "manifest.json")) (ts_Entries stream) = true) as Ht;
        [|congruence]. apply existsb_In. exists e. by rewrite bool_decide_eq_true.
  - intros Hor. destruct (parseImageTag_runs decode stream 0) as [r Hr]; [by destruct stream|eauto].
Qed.

(** *** Published ports *)

Definition clean_arg (s : string) : Prop := ":"%char ∉ chars s ∧ "/"%char ∉ chars s ∧ ToLower s = s.

Lemma ToLower_app a b : ToLower (a +s+ b) = ToLower a +s+ ToLower b.
Proof. induction a as [|c a IH]; simpl; [done|]. by rewrite IH. Qed.

(** The device of the port that kind publishes for the API server. *)
Lemma proxy_device_api ip port :
  clean_arg ip → clean_arg port →
  ∃ d, proxy_device (ip +s+ ":" +s+ port +s+ ":6443/TCP") = inr d ∧
       api_server_port d = Some (ip +s+ tab +s+ port +s+ newline).
Proof.
  intros (Hi1 & Hi2 & Hi3) (Hp1 & Hp2 & Hp3). unfold proxy_device.
  rewrite !ToLower_app, Hi3, Hp3. change (ToLower ":6443/TCP") with (":6443" +s+ "/tcp"). change (ToLower ":") with ":".
  replace (ip +s+ ":" +s+ port +s+ ":6443" +s+ "/tcp") with ((ip +s+ ":" +s+ port +s+ ":6443") +s+ "/tcp")
    by (rewrite !string_app_assoc; done).
  rewrite (Cut_char (ip +s+ ":" +s+ port +s+ ":6443") "/" "tcp").
  2: { rewrite !chars_app, !not_elem_of_app. repeat split; try done; apply (bool_decide_unpack _); vm_compute; exact I. }
  change (ip +s+ ":" +s+ port +s+ ":6443") with (Join [ip; port; "6443"] ":").
  rewrite Split_Join; [|done|].
  2: { repeat constructor; try done. apply (bool_decide_unpack _). vm_compute. exact I. }
  eexists. split; [reflexivity|]. unfold api_server_port, go_index. cbv zeta.
  repeat (rewrite ?lookup_insert_eq, ?lookup_singleton_eq, ?lookup_insert_ne by done). cbn [default from_option id].
  rewrite !bool_decide_true by done. cbn [andb].
  change ("tcp" +s+ ":" +s+ ip +s+ ":" +s+ port) with (Join ["tcp"; ip; port] ":").
  rewrite Split_Join; [done|done|]. repeat constructor; try done. apply (bool_decide_unpack _). vm_compute. exact I.
Qed.

Definition not_proxy (d : gmap string string) : Prop := go_index d "type" ≠ "proxy".

Lemma not_proxy_hidden d : not_proxy d → api_server_port d = None.
Proof. intros Hd. unfold api_server_port. by rewrite bool_decide_false. Qed.

(** Devices made of arguments have the prefix of their kind in their name. *)
Lemma indexed_devices_inv prefix device idx args m k d :
  indexed_devices prefix device idx args m !! k = Some d →
  m !! k = Some d ∨ (HasPrefix k prefix = true ∧ ∃ arg, device arg = Some d).
Proof.
  revert idx m. induction args as [|arg args IH]; intros idx m Hk; simpl in Hk; [by left|].
  destruct (IH _ _ Hk) as [Hm|]; [|by right]. destruct (device arg) as [d'|] eqn:Ha; [|by left].
  apply lookup_insert_Some in Hm as [[<- ->]|[_ Hm]]; [right|by left]. split; [apply HasPrefix_app|eauto].
Qed.

Lemma volume_device_not_proxy v d : volume_device v = Some d → not_proxy d.
Proof.
  unfold volume_device, not_proxy, go_index. intros Hv.
  assert (d !! "type" = Some "disk") as ->; [|done]. repeat (split_match; try done); simplify_eq; done.
Qed.

Lemma tmpfs_device_not_proxy v d : tmpfs_device v = Some d → not_proxy d.
Proof. intros [= <-]. done. Qed.

Lemma unix_device_not_proxy v d : unix_device v = Some d → not_proxy d.
Proof. intros [= <-]. done. Qed.

Lemma head_omap {A B} (f : A → option B) l x b :
  x ∈ l → f x = Some b → (∀ y b', y ∈ l → f y = Some b' → b' = b) → head (omap f l) = Some b.
Proof.
  intros Hx Hf Hall. induction l as [|y l IH]; [by apply elem_of_nil in Hx|]. simpl.
  destruct (f y) as [b'|] eqn:Hy; simpl; [f_equal; eapply Hall; [left|done]|].
  apply IH; [apply elem_of_cons in Hx as [->|]; [congruence|done]|]. intros z b' Hz. apply Hall. by right.
Qed.

(** Devices that are no proxies, named with a prefix. *)
Definition tagged (prefix : string) (m : option (gmap string (gmap string string))) : Prop :=
  ∀ k d, lookup_opt m k = Some d → not_proxy d ∧ HasPrefix k prefix = true.

Lemma tagged_indexed prefix device args :
  (∀ a d, device a = Some d → not_proxy d) → tagged prefix (Some (indexed_devices prefix device 0 args ∅)).
Proof.
  intros Hdev k d Hk. unfold lookup_opt in Hk. simpl in Hk.
  apply indexed_devices_inv in Hk as [Hk|(Hp & arg & Ha)]; [by rewrite lookup_empty in Hk|eauto].
Qed.

Lemma tagged_absent prefix m k : tagged prefix m → HasPrefix k prefix = false → lookup_opt m k = None.
Proof. intros Hm Hk. destruct (lookup_opt m k) as [d|] eqn:Hd; [|done]. apply Hm in Hd as [_ Hd]. congruence. Qed.

Lemma tagged_not_proxy prefix m k d : tagged prefix m → lookup_opt m k = Some d → not_proxy d.
Proof. intros Hm Hd. by apply Hm in Hd as [? _]. Qed.

Section run_properties.
Context {HM : MapRange} {HY : YAML} {HT : TextTemplate} {HP : Printer} {HC : CliPaths} {HR : References} {E : Env}.

(** The proxies of the published ports, by position. *)
Lemma proxy_name_inj i j : "docker-proxy-" +s+ decimal i = "docker-proxy-" +s+ decimal j → i = j.
Proof. intros Hn%string_app_inj_l. unfold decimal in Hn. apply (inj pretty) in Hn. lia. Qed.

Lemma proxy_devices_spec idx ports m devices :
  proxy_devices idx ports m = inr devices →
  (∀ k d, devices !! k = Some d → m !! k = Some d ∨ HasPrefix k "docker-proxy-" = true ∧ ∃ p, p ∈ ports ∧ proxy_device p = inr d) ∧
  (∀ k d, m !! k = Some d → (∀ j, (idx ≤ j)%nat → k ≠ "docker-proxy-" +s+ decimal j) → devices !! k = Some d) ∧
  (∀ p, p ∈ ports → ∃ k d, HasPrefix k "docker-proxy-" = true ∧ devices !! k = Some d ∧ proxy_device p = inr d).
Proof.
  revert idx m. induction ports as [|q ports IH]; intros idx m Hp; cbn [proxy_devices] in Hp.
  { injection Hp as ->. split_and!; [by left|done|]. intros p Hin. by apply not_elem_of_nil in Hin. }
  destruct (proxy_device q) as [err|d0] eqn:Hd; [done|]. destruct (IH _ _ Hp) as (Hinv & Hkeep & Hall). split_and!.
  - intros k d Hk. destruct (Hinv k d Hk) as [Hm|(Hpre & p & Hin & Hpd)].
    + apply lookup_insert_Some in Hm as [[<- <-]|[_ Hm]]; [|by left]. right. split; [apply HasPrefix_app|].
      exists q. split; [left|done].
    + right. split; [done|]. exists p. split; [by right|done].
  - intros k d Hm Hne. apply Hkeep; [|intros j Hj; apply Hne; lia]. by rewrite lookup_insert_ne by (by apply not_eq_sym, Hne).
  - intros p [->|Hin]%elem_of_cons; [|by apply Hall]. exists ("docker-proxy-" +s+ decimal idx), d0.
    split_and!; [apply HasPrefix_app| |done]. apply Hkeep; [by rewrite lookup_insert_eq|].
    intros j Hj Heq%proxy_name_inj. lia.
Qed.

(** The devices of a run instance: those of the published ports, those of the
    image, and what is no proxy. *)
Lemma run_options_devices flags c environment ports opts :
  let devices := lo_devices (run_options flags c environment ports opts) in
  (∀ k d, HasPrefix k "docker-proxy-" = true → ports !! k = Some d → lookup_opt devices k = Some d) ∧
  (∀ k d, lookup_opt devices k = Some d → not_proxy d ∨ ports !! k = Some d ∨ lookup_opt (lo_devices opts) k = Some d).
Proof.
  cbn [run_options lo_devices WithAppendToFiles with_files WithDevices LO_WithConfig].
  pose proof (tagged_indexed "docker-device-" unix_device (rf_Devices flags) unix_device_not_proxy) as Hu.
  pose proof (tagged_indexed "docker-volume-" volume_device (rf_Volumes flags) volume_device_not_proxy) as Hv.
  assert (tagged "docker-tmpfs-" (match SupportsContainerDiskTmpfs c with
            | None => Some (indexed_devices "docker-tmpfs-" tmpfs_device 0 (rf_Tmpfs flags) ∅) | Some _ => None end)) as Ht.
  { destruct (SupportsContainerDiskTmpfs c); [intros ? ?; unfold lookup_opt; simpl; by rewrite lookup_empty|].
    apply tagged_indexed, tmpfs_device_not_proxy. }
  revert Hu Hv Ht. generalize (Some (indexed_devices "docker-device-" unix_device 0 (rf_Devices flags) ∅)).
  generalize (Some (indexed_devices "docker-volume-" volume_device 0 (rf_Volumes flags) ∅)).
  generalize (match SupportsContainerDiskTmpfs c with
            | None => Some (indexed_devices "docker-tmpfs-" tmpfs_device 0 (rf_Tmpfs flags) ∅) | Some _ => None end).
  intros mt mv mu Hu Hv Ht. cbv zeta. split.
  - intros k d Hk Hd. rewrite !lookup_clone_or_copy.
    assert (Hpre : ∀ pre, pre ∈ ["docker-device-"; "docker-volume-"; "docker-tmpfs-"] → HasPrefix k pre = false).
    { apply HasPrefix_spec in Hk. rewrite Hk. intros pre Hin.
      repeat (apply elem_of_cons in Hin as [->|Hin]; [done|]). by apply not_elem_of_nil in Hin. }
    rewrite (tagged_absent _ _ _ Hu), (tagged_absent _ _ _ Hv), (tagged_absent _ _ _ Ht) by (apply Hpre; set_solver).
    unfold lookup_opt at 1. simpl. by rewrite Hd.
  - intros k d. rewrite !lookup_clone_or_copy.
    destruct (lookup_opt mu k) eqn:H1; [intros [= <-]; left; exact (tagged_not_proxy _ _ _ _ Hu H1)|].
    destruct (lookup_opt mt k) eqn:H2; [intros [= <-]; left; exact (tagged_not_proxy _ _ _ _ Ht H2)|].
    destruct (lookup_opt mv k) eqn:H3; [intros [= <-]; left; exact (tagged_not_proxy _ _ _ _ Hv H3)|].
    unfold lookup_opt at 1. simpl. destruct (ports !! k) eqn:Hd; auto.
Qed.

Lemma inspect_ports i :
  inspect_output ports_format i = inr (default "" (head (omap (λ kv, api_server_port kv.2) (range (if_Devices i))))).
Proof.
  unfold inspect_output. rewrite !decide_False by (vm_compute; discriminate). rewrite bool_decide_true by done. done.
Qed.

(** C38: What kind publishes with [docker run] it reads back with [docker inspect]:
    an instance that was run with the published port IP:PORT:6443/TCP, among any
    other published ports, shows IP and PORT as the endpoint of its API server,
    whatever volumes, devices and file systems it was given besides. IP and PORT
    are in lower case and without colons and slashes (so no IPv6 address), no
    other published port leads to 6443/TCP, and the devices of the image do not
    either. *)
Theorem run_inspect_roundtrip (flags : run_flags) (c : Client) (environment ip port : string)
    (devices : gmap string (gmap string string)) (opts : LaunchOptions) (i : InstanceFull) :
  clean_arg ip → clean_arg port →
  (ip +s+ ":" +s+ port +s+ ":6443/TCP") ∈ rf_PublishPorts flags →
  (∀ p d, p ∈ rf_PublishPorts flags → p ≠ ip +s+ ":" +s+ port +s+ ":6443/TCP" → proxy_device p = inr d → api_server_port d = None) →
  (∀ k d, lookup_opt (lo_devices opts) k = Some d → api_server_port d = None) →
  proxy_devices 0 (rf_PublishPorts flags) ∅ = inr devices →
  Some (if_Devices i) = lo_devices (run_options flags c environment devices opts) →
  inspect_output ports_format i = inr (ip +s+ tab +s+ port +s+ newline).
Proof.
  intros Hip Hport Hin Hothers Hopts Hdev Hi. rewrite inspect_ports.
  destruct (proxy_device_api ip port Hip Hport) as (d & Hd & Hapi).
  destruct (proxy_devices_spec _ _ _ _ Hdev) as (Hinv & _ & Hall).
  destruct (Hall _ Hin) as (k & d' & Hk & Hkd & Hpd). assert (d' = d) as -> by congruence.
  destruct (run_options_devices flags c environment devices opts) as [Hget Honly].
  rewrite <- Hi in Hget, Honly. unfold lookup_opt in Hget, Honly. simpl in Hget, Honly.
  erewrite head_omap; [done|apply elem_of_range, (Hget k d Hk Hkd)|exact Hapi|].
  intros [k' d'] b Hk' Hb. apply elem_of_range in Hk'. simpl in Hb.
  destruct (Honly _ _ Hk') as [Hn|[Hp|Ho]]; [by rewrite not_proxy_hidden in Hb| |by erewrite Hopts in Hb].
  destruct (Hinv _ _ Hp) as [He|(_ & p & Hpin & Hpd')]; [by rewrite lookup_empty in He|].
  destruct (decide (p = ip +s+ ":" +s+ port +s+ ":6443/TCP")) as [->|Hne]; [congruence|]. by erewrite Hothers in Hb.
Qed.

(** *** Labels *)

#[local] Instance append_inj p : Inj (=) (=) (String.append p).
Proof. intros a b. apply string_app_inj_l. Qed.

Lemma prefix_keys_lookup p m k : prefix_keys p m !! (p +s+ k) = m !! k.
Proof. unfold prefix_keys. by rewrite (lookup_kmap (String.append p)). Qed.

Lemma prefix_keys_other p m k : HasPrefix k p = false → prefix_keys p m !! k = None.
Proof.
  intros Hp. destruct (prefix_keys p m !! k) as [v|] eqn:Hk; [|done].
  apply (lookup_kmap_Some (String.append p)) in Hk as (j & -> & _). by rewrite HasPrefix_app in Hp.
Qed.

Lemma launch_post_config srv name opts post :
  launch_post srv name opts post → ip_Name post = name ∧ ip_Config post = lo_config opts.
Proof.
  intros (opts' & Hc & Hn & _ & _ & -> & _). split; [done|].
  by apply complete_inv in Hc as (? & ? & _ & _ & _ & _ & _ & _ & _ & _ & _ & -> & _).
Qed.

Lemma run_options_label flags c environment devices opts k v :
  rf_Labels flags !! k = Some v → lookup_opt (lo_config (run_options flags c environment devices opts)) ("user." +s+ k) = Some v.
Proof.
  intros Hk. cbn [run_options lo_config WithAppendToFiles with_files WithDevices LO_WithConfig].
  rewrite !lookup_clone_or_copy. unfold lookup_opt at 1. cbn [default from_option id].
  rewrite prefix_keys_other by done. unfold lookup_opt at 1. cbn [default from_option id]. by rewrite prefix_keys_lookup, Hk.
Qed.

Lemma calls_docker_Client : calls_only no_incus_write docker_Client.
Proof. unfold docker_Client, Getenv. calls_auto; [apply calls_ConfigurationFromLocal|apply calls_New]. Qed.

(** The request creates an instance with all the labels of the flags. *)
Definition creates_with_labels (flags : run_flags) (e : event) : Prop :=
  match projT2 e with
  | (CIncus _ (CreateInstance post), _) =>
      ip_Name post = rf_Name flags ∧
      ∀ k v, rf_Labels flags !! k = Some v → lookup_opt (ip_Config post) ("user." +s+ k) = Some v
  | _ => True
  end.

Lemma no_write_labels flags e : no_incus_write e → creates_with_labels flags e.
Proof. unfold no_incus_write, creates_with_labels. destruct e as [A [[] r]]; simpl; try done. by destruct c. Qed.

Lemma calls_docker_run ctx flags image : calls_only (creates_with_labels flags) (docker_run ctx flags image).
Proof.
  assert (∀ A (m : M state A), calls_only no_incus_write m → calls_only (creates_with_labels flags) m) as Hno.
  { intros A m. apply calls_only_mono. apply no_write_labels. }
  apply calls_only_bind; [apply calls_only_wrap, Hno, calls_docker_Client|]. intros c.
  apply calls_only_bind.
  { apply Hno. induction (rf_Environment flags) as [|v vars IH]; cbn [run_environment]; unfold Getenv; calls_auto. }
  intros environment. apply calls_only_bind; [calls_auto|]. intros devices. apply calls_only_bind.
  { apply Hno. unfold launchOptionsForImage, KindInstances, Privileged, env_WithUnixSocket, Getenv.
    calls_auto; apply calls_docker_Client. }
  intros opts. apply calls_only_bind; [|calls_auto]. apply calls_WaitForLaunchInstance.
  - intros A call r Hr. by destruct call.
  - intros post r Hp. apply launch_post_config in Hp as [Hn Hc]. split; [done|]. intros k v Hk. rewrite Hc.
    by apply run_options_label.
  - intros A call r _ Hr. by destruct call.
Qed.

(** Every instance that [docker run] creates has the given name, and is listed
    by [docker ps] with the filter for the cluster it was labelled with: kind
    finds the nodes of a cluster again. *)
Theorem docker_run_listed (ctx : context) (flags : run_flags) (image : string) :
  calls_only (λ e, match projT2 e with
                   | (CIncus _ (CreateInstance post), _) =>
                       ip_Name post = rf_Name flags ∧
                       ∀ i cluster, default ∅ (ip_Config post) ⊆ if_Config i →
                         rf_Labels flags !! "io.x-k8s.kind.cluster" = Some cluster →
                         match ps_filter ("label=io.x-k8s.kind.cluster=" +s+ cluster) with
                         | inr filter => filter i = true
                         | inl _ => False
                         end
                   | _ => True
                   end)
    (docker_run ctx flags image).
Proof.
  eapply calls_only_mono; [|apply calls_docker_run]. intros [A [[] r]]; cbn [projT2]; try done.
  destruct c; try done. unfold creates_with_labels. cbn [projT2]. intros [Hn Hl]. split; [done|]. intros i cluster Hsub Hc.
  specialize (Hl _ _ Hc). unfold ps_filter. rewrite CutPrefix_app. unfold WithConfig.
  apply forallb_In. intros [k v] Hk. apply elem_of_range in Hk. apply lookup_singleton_Some in Hk as [<- <-]. simpl.
  apply String.eqb_eq. unfold go_index. change ("user.io.x-k8s.kind.cluster") with ("user." +s+ "io.x-k8s.kind.cluster").
  by rewrite (lookup_weaken _ _ _ _ Hl Hsub).
Qed.

(** *** Removing *)

Lemma traces_docker_rm ctx names :
  traces (docker_rm ctx names) (λ o evs,
    match o with
    | Ok _ => ∃ conn setup chunks, evs = setup ++ concat chunks ∧
                Forall2 (λ name evs, reported_missing conn name evs ∨ deleted conn name evs) names chunks
    | _ => True
    end).
Proof.
  unfold docker_rm, with_client. tr_step. tr_step. eapply traces_mono; [apply traces_calls_only, calls_docker_Client|].
  intros [c|err|msg|] setup _; try done.
  eapply (traces_for_each (λ left evs, ∃ gone chunks, names = gone ++ left ∧ evs = concat chunks ∧
            Forall2 (λ name evs, reported_missing (cli_Conn c) name evs ∨ deleted (cli_Conn c) name evs) gone chunks)).
  - by exists [], [].
  - intros name left _ (gone & chunks & -> & -> & Hall). tr_step.
    eapply traces_mono; [apply traces_WaitForDeleteInstance|]. intros [?|err|msg|] evs Hev; try done.
    exists (gone ++ [name]), (chunks ++ [evs]). split; [by rewrite <- app_assoc|].
    rewrite concat_app. simpl. rewrite app_nil_r. split; [done|]. apply Forall2_app; [done|]. constructor; [done|constructor].
  - intros _ (gone & chunks & -> & -> & Hall). exists (cli_Conn c), setup, chunks. by rewrite app_nil_r.
Qed.

(** [docker rm] succeeds only when, one after the other and in the order of
    the arguments, every instance was reported missing by the server or its
    deletion was accepted and waited for. *)
Theorem docker_rm_evidence (ctx : context) (names : list string) (s s' : state) :
  docker_rm ctx names s = (Ok tt, s') →
  ∃ conn setup chunks, st_log s' = st_log s ++ setup ++ concat chunks ∧
    Forall2 (λ name evs, reported_missing conn name evs ∨ deleted conn name evs) names chunks.
Proof.
  intros Hrm. eapply traces_run in Hrm; [|apply traces_docker_rm]. destruct Hrm as (evs & Hlog & conn & setup & chunks & -> & Hall).
  by exists conn, setup, chunks.
Qed.

End run_properties.

(** ** Runs on the sample server *)

#[local] Existing Instance sample_env.
#[local] Existing Instance sample_templates.
#[local] Existing Instance sample_printer.
#[local] Existing Instance sample_paths.
#[local] Instance sample_yaml : YAML := {| UnmarshalStrict := λ _, inl (errorString "yaml") |}.
#[local] Instance sample_references : References :=
  {| ParseReference := λ image, inr {| ref_RegistryStr := "index.docker.io"; ref_Scheme := "https";
                                       ref_Name := "index.docker.io/" +s+ image |} |}.

(** What kind gives for a control plane node. *)
Definition sample_run_flags : run_flags :=
  {| rf_Name := "kind-control-plane"; rf_Environment := ["KUBECONFIG=/etc/kubernetes/admin.conf"];
     rf_Labels := {[ "io.x-k8s.kind.cluster" := "kind"; "io.x-k8s.kind.role" := "control-plane" ]};
     rf_PublishPorts := ["0.0.0.0:8080:80/TCP"; "127.0.0.1:42000:6443/TCP"]; rf_Volumes := ["/var"; "/dev/mapper:/dev/mapper"];
     rf_Devices := ["/dev/fuse"]; rf_Tmpfs := ["/tmp"; "/run"]; rf_Sysctl := ∅ |}.

Definition sample_run : outcome unit * @state sample_env :=
  docker_run None sample_run_flags "kindest/node:v1.33.0" (sample_state sample_empty).

(** The node is created, and [docker ps] shows it. *)
Example sample_run_ok :
  sample_run.1 = Ok tt ∧
  (docker_ps "{{.Names}}" "label=io.x-k8s.kind.cluster=kind" sample_run.2).1 = Ok ("kind-control-plane" +s+ newline).
Proof. vm_compute. auto. Qed.

(** The node as the server shows it. *)
Definition sample_ports : gmap string (gmap string string) :=
  match proxy_devices 0 (rf_PublishPorts sample_run_flags) ∅ with inr devices => devices | inl _ => ∅ end.

Definition sample_node : InstanceFull :=
  {| if_Name := "kind-control-plane"; if_Type := "container"; if_Config := ∅;
     if_Devices := default ∅ (lo_devices (run_options sample_run_flags sample_client "" sample_ports emptyLaunchOptions));
     if_State := None |}.

Lemma run_inspect_roundtrip_witness :
  inspect_output ports_format sample_node = inr ("127.0.0.1" +s+ tab +s+ "42000" +s+ newline).
Proof.
  assert (∀ ip, bool_decide (":"%char ∉ chars ip) && bool_decide ("/"%char ∉ chars ip) && bool_decide (ToLower ip = ip) = true →
            clean_arg ip) as Hclean.
  { intros ip [[H1%bool_decide_eq_true H2%bool_decide_eq_true]%andb_prop H3%bool_decide_eq_true]%andb_prop. done. }
  apply (run_inspect_roundtrip sample_run_flags sample_client "" "127.0.0.1" "42000" sample_ports emptyLaunchOptions sample_node).
  - apply Hclean. vm_compute. reflexivity.
  - apply Hclean. vm_compute. reflexivity.
  - apply (bool_decide_unpack _). vm_compute. exact I.
  - intros p d Hp Hne Hd.
    apply elem_of_cons in Hp as [->|Hp]; [injection Hd as <-; vm_compute; reflexivity|].
    apply list_elem_of_singleton in Hp as ->. destruct Hne. reflexivity.
  - intros k d Hk. unfold lookup_opt in Hk. simpl in Hk. by rewrite lookup_empty in Hk.
  - reflexivity.
  - reflexivity.
Defined.

Lemma docker_rm_evidence_witness :
  ∃ conn chunks, Forall2 (λ name evs, reported_missing conn name evs ∨ deleted conn name evs) ["n1"; "n2"] chunks.
Proof.
  destruct (docker_rm_evidence None ["n1"; "n2"] (sample_state sample_running)
    (docker_rm None ["n1"; "n2"] (sample_state sample_running)).2
    (run_outcome _ _ _ ltac:(vm_compute; reflexivity))) as (conn & setup & chunks & _ & Hall).
  exists conn, chunks. exact Hall.
Defined.
