(* ===== verification/DockerImages.v ===== *)
(** * Image tarballs of the docker shim: load, save and image inspect

    cmd/exp/kini/docker: docker_image_load.go, docker_image_save.go,
    docker_image_inspect.go and the cache directory of env.go. The commands work
    on the disk (Files.v); the registry and the tarball format belong to the
    containerregistry library, the operations of the class [Crane]. Loading a
    tarball reads what describes the image; its layers are read from the path when
    they are used, so a file that changes meanwhile gives other layers, or none.
    The files that the layer cache keeps below the cache directory are left
    out. *)

From S2P Require Import Prelude GoStrings Go Files Docker.

(** The process: its environment variables, and what reading its standard input
    to the end gives. *)
Class Process := { getenv : string → string; Stdin : error + string }.

(** github.com/google/go-containerregistry, archive/tar and encoding/json *)
Class Crane := {
  image : Type;
  platform : Type;
  (** [tar.NewReader] on the contents of a file *)
  untar : string → tar_stream;
  (** [json.Decoder.Decode] of a manifest *)
  decode_manifest : error + string → error + manifest;
  (** [crane.Load], on the contents of the file *)
  tarball : string → error + image;
  (** the image, with its layers read from these contents of its file *)
  layers_of : image → string → error + image;
  (** [name.NewTag] on the tags that are saved *)
  NewTags : list string → option error;
  ParsePlatform : string → error + platform;
  (** [name.ParseReference], then [remote.Image] *)
  reference : string → error + string;
  remote_Image : string → option platform → error + image;
  (** [crane.Pull] *)
  crane_Pull : string → error + image;
  (** [cache.Image] with a cache in this directory *)
  cached : string → image → image;
  (** what [tarball.MultiRefWrite] writes *)
  bundle : gmap string image → error + string;
  (** [img.Manifest().Config.Digest] *)
  config_digest : image → error + string
}.

Section commands.
Context `{Process} `{Crane} `{Disk}.

(** ** The cache directory: env.go *)

(** CacheDir is a local directory for caching image tarballs. *)
Definition CacheDir : M disk string :=
  let cache := getenv "KINI_CACHE" in
  match ParseBool cache with
  | Some false => ret ""
  | _ =>
      let cache := if decide (cache = "") then getenv "HOME" +s+ "/.cache/kini" else cache in
      let! r := try (os_MkdirAll cache) in
      ret (match r with inl _ => "" | inr _ => cache end)
  end.

(** ** docker load: docker_image_load.go *)

(** The stream of a file; an error of reading is an error of the tar reader. *)
Definition tar_reader (path : string) : M disk tar_stream :=
  let! r := try (io_ReadAll path) in
  ret (match r with
       | inr contents => untar contents
       | inl err => {| ts_Entries := []; ts_End := Some err |}
       end).

Definition parseImageTag (path : string) : M disk string :=
  wrap "failed to open file: " (os_Open path) ;;
  deferring (os_Close path) (
    let! stream := tar_reader path in
    match parseImageTag_loop (S (length (ts_Entries stream))) decode_manifest stream 0 with
    | None => out_of_fuel
    | Some r => of_result r
    end).

(** From the tag on: the tarball is copied into the cache. *)
Definition store_image (cacheDir input : string) : M disk unit :=
  let! imageTag := wrap ("no image tag found in " +s+ quote input +s+ ": ") (parseImageTag input) in
  let outFileName := loadedFileName cacheDir imageTag in
  wrap ("failed to open " +s+ quote input +s+ ": ") (os_Open input) ;;
  deferring (os_Close input) (
    wrap ("failed to create output file " +s+ quote outFileName +s+ ": ") (os_Create outFileName) ;;
    deferring (os_Close outFileName)
      (wrap ("failed to save tarball in " +s+ quote outFileName +s+ ": ") (io_Copy outFileName input))).

Definition docker_load (input : string) : M disk unit :=
  let! cacheDir := CacheDir in
  if decide (cacheDir = "") then throw (errorString "load command requires KINI_CACHE to be set")
  else if decide (input = "") then
    let! f := wrap "failed to create a temporary file: " os_CreateTemp in
    deferring (os_Remove f) (
      wrap "failed to write stdin to temporary file: " (let! data := of_result Stdin in write f data) ;;
      wrap "failed to sync stdin to temporary file: " (os_Sync f) ;;
      store_image cacheDir f)
  else store_image cacheDir input.

(** ** docker save: docker_image_save.go *)

(** An image of a registry, or of a tarball at a path. *)
Inductive crane_image :=
| OfRegistry (img : image)
| OfTarball (path : string) (img : image).

Definition crane_Load (path : string) : M disk crane_image :=
  let! contents := os_ReadFile path in
  let! img := of_result (tarball contents) in
  ret (OfTarball path img).

(** Using the layers of an image: those of a tarball are read from its path. *)
Definition read_layers (i : crane_image) : M disk image :=
  match i with
  | OfRegistry img => ret img
  | OfTarball path img => let! contents := os_ReadFile path in of_result (layers_of img contents)
  end.

(** The image of one argument: a loaded one, or the remote one. *)
Definition save_image (cacheDir : string) (platform : option platform) (arg : string) : M disk crane_image :=
  let! loaded := try (crane_Load (loadedFileName cacheDir arg)) in
  match loaded with
  | inr img => ret img
  | inl _ =>
      let! ref := wrap ("failed to parse image " +s+ quote arg +s+ ": ") (of_result (reference arg)) in
      let! img := wrap ("failed to get image " +s+ quote arg +s+ ": ") (of_result (remote_Image ref platform)) in
      ret (OfRegistry (if decide (cacheDir ≠ "") then cached cacheDir img else img))
  end.

Fixpoint save_images (cacheDir : string) (platform : option platform) (args : list string) (imgMap : gmap string crane_image) :
    M disk (gmap string crane_image) :=
  match args with
  | [] => ret imgMap
  | arg :: args =>
      let! img := save_image cacheDir platform arg in
      save_images cacheDir platform args (<[arg := img]> imgMap)
  end.

Fixpoint read_all_layers (images : list (string * crane_image)) (imgMap : gmap string image) : M disk (gmap string image) :=
  match images with
  | [] => ret imgMap
  | (tag, i) :: images =>
      let! img := read_layers i in
      read_all_layers images (<[tag := img]> imgMap)
  end.

(** [crane.MultiSave]: the file is created, and truncated, before the layers are
    read. *)
Definition MultiSave (imgMap : gmap string crane_image) (path : string) : M disk unit :=
  match NewTags (map_to_list imgMap).*1 with
  | Some err => throw err
  | None =>
      os_Create path ;;
      deferring (os_Close path) (
        let! images := read_all_layers (map_to_list imgMap) ∅ in
        let! contents := of_result (bundle images) in
        write path contents)
  end.

Definition docker_save (output platform : string) (args : list string) : M disk unit :=
  let! cacheDir := CacheDir in
  let! p := (if decide (platform ≠ "") then
               let! p := wrap ("invalid platform " +s+ quote platform +s+ ": ") (of_result (ParsePlatform platform)) in
               ret (Some p)
             else ret None) in
  let! imgMap := save_images cacheDir p args ∅ in
  if decide (output = "") then throw (errorString "--output flag is required")
  else wrap "failed to save image: " (MultiSave imgMap output).

(** ** docker image inspect: docker_image_inspect.go

    What is printed. *)
Definition docker_image_inspect (format tag : string) : M disk string :=
  if decide (format ≠ "{{ .Id }}") then throw (errorString ("invalid format " +s+ quote format))
  else
    let! cacheDir := CacheDir in
    let! loaded := try (crane_Load (loadedFileName cacheDir tag)) in
    let! img := match loaded with
                | inr img => ret img
                | inl _ =>
                    let! img := wrap ("could not pull image " +s+ quote tag +s+ ": ") (of_result (crane_Pull tag)) in
                    ret (OfRegistry img)
                end in
    let! digest := wrap "could not get manifest of image: "
                     (let! img := read_layers img in of_result (config_digest img)) in
    ret (digest +s+ newline).

End commands.

(** ** Properties *)

(** The disk [s] after a computation that changed no file. *)
Ltac same s := let Hs := fresh "Hsame" in intros s Hs; rewrite <- Hs in *; clear Hs.

Section properties.
Context `{Process} `{Crane} `{Disk}.

(** The first tag of a tarball; [None] when reading it does not end. *)
Definition tag_of (contents : string) : option (error + string) :=
  parseImageTag_loop (S (length (ts_Entries (untar contents)))) decode_manifest (untar contents) 0.

(** Closing a file changes nothing. *)
Lemma wp_deferring_Close {A} path (m : M disk A) (Q : outcome A → disk → Prop) s :
  wp m (λ o s', ∀ s'', dk_files s'' = dk_files s' → Q o s'') s → wp (deferring (os_Close path) m) Q s.
Proof.
  intros Hm. apply wp_deferring. eapply wp_mono; [exact Hm|].
  intros [a|e|msg|] s' Hq; try (by apply Hq); apply wp_os_Close; intros o s'' Hs [->|[? ->]]; by apply Hq.
Qed.

Lemma wp_CacheDir (Q : outcome string → disk → Prop) s :
  (∀ dir s', dk_files s' = dk_files s → Q (Ok dir) s') → wp CacheDir Q s.
Proof.
  intros HQ. unfold CacheDir. destruct (ParseBool _) as [[]|]; [|by apply wp_ret, HQ|];
    do 2 wp_step; apply wp_os_MkdirAll; intros o s' Hs [->|[e ->]]; apply wp_ret; by apply HQ.
Qed.

Lemma parseImageTag_wp path s :
  wp (parseImageTag path) (λ o s', dk_files s' = dk_files s ∧
    match o with
    | Ok tag => ∃ c, dk_files s !! abs path = Some c ∧ tag_of c = Some (inr tag)
    | _ => True
    end) s.
Proof.
  unfold parseImageTag. do 2 wp_step. apply wp_os_Open; [done|]. intros c s1 Hs1 Hc.
  apply wp_deferring_Close. wp_step. unfold tar_reader. do 2 wp_step. apply wp_io_ReadAll.
  - intros e s2 Hs2. cbn beta iota. apply wp_ret. simpl. split; [congruence|done].
  - intros s2 Hs2. cbn beta iota. apply wp_ret. rewrite Hs1, Hc. cbn beta iota. change (default "" (Some c)) with c.
    fold (tag_of c). destruct (tag_of c) as [[err|tag]|] eqn:Ht; intros s3 Hs3; (split; [congruence|done || eauto]).
Qed.

(** What storing a tarball does to the disk. *)
Definition stored_image (cacheDir input : string) (o : outcome unit) (s s' : disk) : Prop :=
  match o with
  | Ok _ => ∃ c tag, dk_files s !! abs input = Some c ∧ tag_of c = Some (inr tag) ∧
      dk_files s' = <[abs (loadedFileName cacheDir tag) :=
        if decide (abs input = abs (loadedFileName cacheDir tag)) then "" else c]> (dk_files s)
  | _ => ∃ tag, ∀ p, p ≠ abs (loadedFileName cacheDir tag) → dk_files s' !! p = dk_files s !! p
  end.

Lemma store_image_wp cacheDir input s :
  wp (store_image cacheDir input) (λ o s', stored_image cacheDir input o s s') s.
Proof.
  assert (Hsame : ∀ s', dk_files s' = dk_files s →
    ∃ tag, ∀ p, p ≠ abs (loadedFileName cacheDir tag) → dk_files s' !! p = dk_files s !! p)
    by (intros s' ->; by exists "").
  unfold store_image. do 2 wp_step. eapply wp_mono; [apply parseImageTag_wp|].
  intros [tag|e|msg|] s1 [Hs1 Ht]; try (by apply Hsame). destruct Ht as (c & Hc & Ht).
  do 2 wp_step. apply wp_os_Open; [intros; apply Hsame; congruence|]. intros c' s2 Hs2 _.
  apply wp_deferring_Close. set (out := loadedFileName cacheDir tag).
  do 2 wp_step. apply wp_os_Create; [intros; apply Hsame; congruence|]. intros s3 Hs3. rewrite Hs2, Hs1 in Hs3.
  assert (Hfail : ∀ s', (∀ p, p ≠ abs out → dk_files s' !! p = dk_files s3 !! p) →
    ∃ tag, ∀ p, p ≠ abs (loadedFileName cacheDir tag) → dk_files s' !! p = dk_files s !! p).
  { intros s' Hs'. exists tag. intros p Hp. rewrite Hs', Hs3 by done. by rewrite lookup_insert_ne. }
  apply wp_deferring_Close. wp_step. unfold io_Copy. wp_step.
  apply wp_io_ReadAll; [intros e s4 Hs4; simpl; intros; apply Hfail; intros; congruence|]. intros s4 Hs4.
  apply wp_write; [intros e s5 Hs5; simpl; intros s6 Hs6 s7 Hs7; apply Hfail; intros p Hp; by rewrite Hs7, Hs6, Hs5, Hs4 by done|].
  intros s5 Hs5 s6 Hs6 s7 Hs7. exists c, tag. split_and!; [done|done|]. rewrite Hs7, Hs6, Hs5, Hs4, Hs3, insert_insert_eq.
  f_equal. fold out. case_decide as Hd; [by rewrite Hd, lookup_insert_eq|]. by rewrite lookup_insert_ne, Hc.
Qed.

(** A docker load that returns without an error stored the tarball, with its
    contents, in the cache under the first tag of its manifest, and changed no
    other file; but when the input is that very file of the cache, it is empty
    afterwards. *)
Theorem docker_load_outcome (input : string) (s s' : disk) :
  input ≠ "" → docker_load input s = (Ok tt, s') →
  ∃ cacheDir c tag, dk_files s !! abs input = Some c ∧ tag_of c = Some (inr tag) ∧
    dk_files s' = <[abs (loadedFileName cacheDir tag) :=
      if decide (abs input = abs (loadedFileName cacheDir tag)) then "" else c]> (dk_files s).
Proof.
  intros Hi Hrun. refine (wp_run _ (λ o s', o = Ok tt → _) _ _ _ _ Hrun eq_refl). unfold docker_load. wp_step.
  apply wp_CacheDir. intros dir s1 Hs1. case_decide; [done|]. rewrite decide_False by done.
  eapply wp_mono; [apply store_image_wp|]. intros o s2 Hst ->. destruct Hst as (c & tag & Hc & Ht & Hf).
  exists dir, c, tag. by rewrite <- Hs1.
Qed.

(** A docker load without a cache fails, and does not touch the disk. *)
Theorem docker_load_no_cache (input : string) (s : disk) :
  ParseBool (getenv "KINI_CACHE") = Some false →
  docker_load input s = (Err (errorString "load command requires KINI_CACHE to be set"), s).
Proof. intros Hc. unfold docker_load, CacheDir, bind. by rewrite Hc. Qed.

(** *** On a disk where nothing fails *)

Section faultless.
Context `{!Faultless}.

(** [m] returns [a] and leaves these files. *)
Definition yields {A} (m : M disk A) (s : disk) (a : A) (files : gmap string string) : Prop :=
  wp m (λ o s', o = Ok a ∧ dk_files s' = files) s.

Lemma yields_bind {A B} (m : M disk A) (k : A → M disk B) s a files b files' :
  yields m s a files → (∀ s', dk_files s' = files → yields (k a) s' b files') → yields (bind m k) s b files'.
Proof.
  intros Hm Hk. unfold yields. wp_step. eapply wp_mono; [exact Hm|]. intros o s' [-> Hf]. by apply Hk.
Qed.

Lemma yields_wrap {A} pre (m : M disk A) s a files : yields m s a files → yields (wrap pre m) s a files.
Proof. intros Hm. unfold yields. wp_step. eapply wp_mono; [exact Hm|]. by intros o s' [-> ?]. Qed.

Lemma yields_try {A} (m : M disk A) s a files : yields m s a files → yields (try m) s (inr a) files.
Proof. intros Hm. unfold yields. wp_step. eapply wp_mono; [exact Hm|]. by intros o s' [-> ?]. Qed.

Lemma yields_ret {A} (a : A) s : yields (ret a) s a (dk_files s).
Proof. by apply wp_ret. Qed.

Lemma yields_op {A} op path (k : gmap string string → (error + A) * gmap string string) s a files :
  k (dk_files s) = (inr a, files) → yields (disk_op op path k) s a files.
Proof. intros Hk. apply wp_disk_ok. intros s' Hs'. by rewrite Hk in *. Qed.

Lemma yields_deferring {A} path (m : M disk A) s a files :
  yields m s a files → yields (deferring (os_Close path) m) s a files.
Proof.
  intros Hm. apply wp_deferring_Close. eapply wp_mono; [exact Hm|]. intros o s' [-> Hf] s'' Hs. split; [done|congruence].
Qed.

Definition cache_dir : string :=
  if decide (getenv "KINI_CACHE" = "") then getenv "HOME" +s+ "/.cache/kini" else getenv "KINI_CACHE".

Lemma cache_dir_set : cache_dir ≠ "".
Proof. unfold cache_dir. case_decide; [by destruct (getenv "HOME")|done]. Qed.

Lemma yields_CacheDir s : ParseBool (getenv "KINI_CACHE") ≠ Some false → yields CacheDir s cache_dir (dk_files s).
Proof.
  intros Hc. unfold CacheDir. destruct (ParseBool _) as [[]|]; [|done|];
    (eapply yields_bind; [by apply yields_try, yields_op|]; same s1; apply yields_ret).
Qed.

Lemma yields_ReadFile path s c : dk_files s !! abs path = Some c → yields (os_ReadFile path) s c (dk_files s).
Proof.
  intros Hc. unfold os_ReadFile. eapply yields_bind; [apply yields_op; by rewrite Hc|]. intros s1 Hs1.
  apply yields_op. by rewrite Hs1, Hc.
Qed.

Lemma yields_Load path s c img :
  dk_files s !! abs path = Some c → tarball c = inr img → yields (crane_Load path) s (OfTarball path img) (dk_files s).
Proof.
  intros Hc Hi. unfold crane_Load. eapply yields_bind; [by apply yields_ReadFile|]. same s1. rewrite Hi.
  eapply yields_bind; [apply yields_ret|]. same s2. apply yields_ret.
Qed.

Lemma yields_layers path s c img :
  dk_files s !! abs path = Some c → layers_of img c = inr img → yields (read_layers (OfTarball path img)) s img (dk_files s).
Proof.
  intros Hc Hi. unfold read_layers. eapply yields_bind; [by apply yields_ReadFile|]. same s1. rewrite Hi. apply yields_ret.
Qed.

Lemma yields_Load_missing path s :
  dk_files s !! abs path = None → yields (try (crane_Load path)) s (inl (NotExist path)) (dk_files s).
Proof.
  intros Hc. unfold yields, crane_Load, os_ReadFile. do 3 wp_step. apply wp_disk_ok. intros s1 Hs1. by rewrite Hc.
Qed.

Lemma yields_tar_reader path s c :
  dk_files s !! abs path = Some c → yields (tar_reader path) s (untar c) (dk_files s).
Proof.
  intros Hc. unfold tar_reader. eapply yields_bind; [by apply yields_try, yields_op|]. same s1. rewrite Hc. apply yields_ret.
Qed.

Lemma yields_parseImageTag path s c tag :
  dk_files s !! abs path = Some c → tag_of c = Some (inr tag) → yields (parseImageTag path) s tag (dk_files s).
Proof.
  intros Hc Ht. unfold parseImageTag. eapply yields_bind; [apply yields_wrap, yields_op; by rewrite Hc|]. same s1.
  apply yields_deferring. eapply yields_bind; [by apply yields_tar_reader|]. same s2.
  fold (tag_of c). rewrite Ht. apply yields_ret.
Qed.

Lemma yields_load input s c tag :
  ParseBool (getenv "KINI_CACHE") ≠ Some false → input ≠ "" →
  dk_files s !! abs input = Some c → tag_of c = Some (inr tag) → abs input ≠ abs (loadedFileName cache_dir tag) →
  yields (docker_load input) s tt (<[abs (loadedFileName cache_dir tag) := c]> (dk_files s)).
Proof.
  intros Hcache Hi Hc Ht Hne. unfold docker_load. eapply yields_bind; [by apply yields_CacheDir|]. same s1.
  rewrite !decide_False by (done || apply cache_dir_set). unfold store_image.
  eapply yields_bind; [by eapply yields_wrap, yields_parseImageTag|]. same s2.
  eapply yields_bind; [apply yields_wrap, yields_op; by rewrite Hc|]. same s3. apply yields_deferring.
  eapply yields_bind; [by apply yields_wrap, yields_op|]. intros s4 Hs4. apply yields_deferring, yields_wrap. unfold io_Copy.
  eapply yields_bind; [by apply yields_op|]. intros s5 Hs5. rewrite Hs4 in Hs5. apply yields_op.
  by rewrite Hs4, Hs5, lookup_insert_ne, Hc, insert_insert_eq by done.
Qed.

(** *** Round trips *)

(** A bundle of one image under a tag loads as that image, its manifest names the
    tag, and its layers are the ones of the file. *)
Class BundleLaws := {
  tag_reference : string → Prop;
  tags_accepted : ∀ tag, tag_reference tag → NewTags [tag] = None;
  layers_unchanged : ∀ c img, tarball c = inr img → layers_of img c = inr img;
  bundle_loads : ∀ tag img c, tag_reference tag → bundle {[tag := img]} = inr c →
    tag_of c = Some (inr tag) ∧ tarball c = inr img
}.

(** The image of an argument: from its registry when it is not in the cache,
    from the cache when it is. *)
Lemma yields_remote q tag ref img s s' :
  dk_files s' = dk_files s → dk_files s !! abs (loadedFileName cache_dir tag) = None →
  reference tag = inr ref → remote_Image ref q = inr img →
  yields (save_image cache_dir q tag) s' (OfRegistry (cached cache_dir img)) (dk_files s).
Proof.
  intros <- Hn Hr Hi. unfold save_image. eapply yields_bind; [by apply yields_Load_missing|]. same s1. rewrite Hr.
  eapply yields_bind; [apply yields_wrap, yields_ret|]. same s2. rewrite Hi.
  eapply yields_bind; [apply yields_wrap, yields_ret|]. same s3. rewrite decide_True by apply cache_dir_set. apply yields_ret.
Qed.

Lemma yields_loaded q tag c img s s' :
  dk_files s' = dk_files s → dk_files s !! abs (loadedFileName cache_dir tag) = Some c → tarball c = inr img →
  yields (save_image cache_dir q tag) s' (OfTarball (loadedFileName cache_dir tag) img) (dk_files s).
Proof.
  intros <- Hc Hi. unfold save_image. eapply yields_bind; [by eapply yields_try, yields_Load|]. same s1. apply yields_ret.
Qed.

(** The platform that a flag asks for. *)
Definition platform_flag (p : string) (q : option platform) : Prop :=
  match q with None => p = "" | Some q => p ≠ "" ∧ ParsePlatform p = inr q end.

(** Up to the point where the file is written. *)
Lemma save_reaches output p q tag s i (Q : outcome unit → disk → Prop) :
  ParseBool (getenv "KINI_CACHE") ≠ Some false → output ≠ "" → platform_flag p q →
  (∀ s', dk_files s' = dk_files s → yields (save_image cache_dir q tag) s' i (dk_files s)) →
  (∀ s', dk_files s' = dk_files s → wp (wrap "failed to save image: " (MultiSave {[tag := i]} output)) Q s') →
  wp (docker_save output p [tag]) Q s.
Proof.
  intros Hcache Ho Hp Hs Hm. unfold docker_save.
  assert (Hbind : ∀ A B (m : M disk A) (k : A → M disk B) s a files Q, yields m s a files →
    (∀ s', dk_files s' = files → wp (k a) Q s') → wp (bind m k) Q s).
  { intros A B m k s0 a files Q' Hy Hk. wp_step. eapply wp_mono; [exact Hy|]. intros o s' [-> Hf]. by apply Hk. }
  eapply Hbind; [by apply yields_CacheDir|]. intros s1 Hs1. eapply (Hbind _ _ _ _ _ q (dk_files s1)).
  { destruct q as [q|]; simpl in Hp; [|by rewrite decide_False by tauto; apply yields_ret].
    destruct Hp as [Hp Hq]. rewrite decide_True, Hq by done. eapply yields_bind; [by apply yields_wrap, yields_ret|].
    same s2. apply yields_ret. }
  intros s2 Hs2. eapply (Hbind _ _ _ _ _ {[tag := i]} (dk_files s)).
  - simpl. eapply yields_bind; [apply Hs; congruence|]. same s3. apply yields_ret.
  - intros s3 Hs3. rewrite decide_False by done. by apply Hm.
Qed.

Lemma yields_save output p q tag s i img c :
  ParseBool (getenv "KINI_CACHE") ≠ Some false → output ≠ "" → platform_flag p q →
  (∀ s', dk_files s' = dk_files s → yields (save_image cache_dir q tag) s' i (dk_files s)) →
  NewTags [tag] = None →
  (∀ s', dk_files s' = <[abs output := ""]> (dk_files s) → yields (read_layers i) s' img (dk_files s')) →
  bundle {[tag := img]} = inr c →
  yields (docker_save output p [tag]) s tt (<[abs output := c]> (dk_files s)).
Proof.
  intros Hcache Ho Hp Hs Ht Hl Hb. eapply save_reaches; [done..|]. intros s3 Hs3. apply yields_wrap.
  unfold MultiSave. rewrite map_to_list_singleton. cbn [fmap list_fmap fst]. rewrite Ht.
  eapply yields_bind; [by apply yields_op|]. intros s4 Hs4. apply yields_deferring.
  eapply (yields_bind _ _ _ {[tag := img]} (dk_files s4)).
  { cbn [read_all_layers]. eapply yields_bind; [apply Hl; congruence|]. same s5. apply yields_ret. }
  intros s5 Hs5. rewrite Hb. eapply yields_bind; [apply yields_ret|]. intros s6 Hs6. apply yields_op.
  by rewrite Hs6, Hs5, Hs4, Hs3, insert_insert_eq.
Qed.

Lemma yields_inspect tag s c img d :
  ParseBool (getenv "KINI_CACHE") ≠ Some false → dk_files s !! abs (loadedFileName cache_dir tag) = Some c →
  tarball c = inr img → layers_of img c = inr img → config_digest img = inr d →
  yields (docker_image_inspect "{{ .Id }}" tag) s (d +s+ newline) (dk_files s).
Proof.
  intros Hcache Hc Hi Hl Hd. unfold docker_image_inspect. rewrite decide_False by tauto.
  eapply yields_bind; [by apply yields_CacheDir|]. same s1.
  eapply yields_bind; [by eapply yields_try, yields_Load|]. same s2.
  eapply yields_bind; [apply yields_ret|]. same s3.
  eapply (yields_bind _ _ _ d (dk_files s3)); [|same s5; apply yields_ret].
  apply yields_wrap. eapply yields_bind; [by eapply yields_layers|]. same s4. rewrite Hd. apply yields_ret.
Qed.


(** Saving an image of the cache over its own file destroys it: the file is
    truncated before the layers are read from it, and the command fails when they
    cannot be read from an empty file. *)
Theorem docker_save_over_cache (output tag p : string) (q : option platform) (img : image) (c : string) (e : error) (s : disk) :
  ParseBool (getenv "KINI_CACHE") ≠ Some false → output ≠ "" → platform_flag p q → NewTags [tag] = None →
  abs output = abs (loadedFileName cache_dir tag) → dk_files s !! abs output = Some c → tarball c = inr img →
  layers_of img "" = inl e →
  ∃ err s', docker_save output p [tag] s = (Err err, s') ∧ dk_files s' = <[abs output := ""]> (dk_files s).
Proof.
  intros Hcache Ho Hp Ht Heq Hc Hi He.
  assert (Hw : wp (docker_save output p [tag]) (λ o s', (∃ err, o = Err err) ∧ dk_files s' = <[abs output := ""]> (dk_files s)) s).
  { eapply save_reaches; [done..|intros s' Hs'; eapply yields_loaded; [done|by rewrite <- Heq|done]|]. intros s3 Hs3.
    unfold MultiSave. rewrite map_to_list_singleton. cbn [fmap list_fmap fst]. rewrite Ht. wp_step. wp_step.
    apply wp_disk_ok. intros s4 Hs4. cbn beta iota in *. cbn [fst snd] in *. apply wp_deferring_Close.
    wp_step. cbn [read_all_layers read_layers]. do 2 wp_step. eapply wp_mono; [eapply yields_ReadFile|].
    { rewrite Hs4, Heq. apply lookup_insert_eq. }
    intros o s5 [-> Hs5]. rewrite He. simpl. intros s6 Hs6. split; [by eexists|]. congruence. }
  unfold wp in Hw. destruct (docker_save output p [tag] s) as [o s'] eqn:Hrun. destruct Hw as [[err ->] Hf]. by exists err, s'.
Qed.

End faultless.

End properties.

(** Tags whose repositories differ in slashes and double dashes share a file. *)
Example loadedFileName_shared : loadedFileName "/cache" "ghcr.io/a/b:v1" = loadedFileName "/cache" "ghcr.io/a--b:v1".
Proof. vm_compute. reflexivity. Qed.

(** ** A sample registry *)

#[local] Instance sample_process : Process := {| getenv := λ n, if String.eqb n "HOME" then "/root" else ""; Stdin := inr "" |}.

Definition sample_bundle (m : gmap string string) : error + string :=
  match map_to_list m with
  | [(tag, img)] => inr (tag +s+ "|" +s+ img)
  | _ => inl (errorString "one image only")
  end.

#[local] Instance sample_crane : Crane :=
  {| image := string; platform := string;
     untar := λ c, {| ts_Entries := [{| te_Header := {| hd_Name := "manifest.json"; hd_Size := 1; hd_Attrs := "" |};
                                        te_Body := inr ((Cut c "|").1.1) |}]; ts_End := None |};
     decode_manifest := λ body, match body with inl e => inl e | inr b => inr (Some [Some [b]]) end;
     tarball := λ c, if decide (c = "") then inl (errorString "EOF") else inr ((Cut c "|").1.2);
     layers_of := λ i c, if decide (c = "") then inl (errorString "EOF") else inr ((Cut c "|").1.2);
     NewTags := λ _, None;
     ParsePlatform := λ p, inr p;
     reference := λ r, inr r;
     remote_Image := λ r _, inr ("image of " +s+ r);
     crane_Pull := λ _, inl (errorString "offline");
     cached := λ _ i, i;
     bundle := sample_bundle;
     config_digest := λ i, inr ("digest of " +s+ i) |}.

#[local] Instance sample_image_disk : Disk :=
  {| fault := λ _ _ _, None; workdir := "/root"; tempdir := λ _, "/tmp/x" |}.
#[local] Instance sample_image_faultless : Faultless.
Proof. done. Defined.

#[local] Instance sample_bundle_laws : BundleLaws.
Proof.
  refine {| tag_reference := λ tag, "|"%char ∉ chars tag |}; [done|done|]. intros tag img c Htag. simpl. unfold sample_bundle.
  rewrite map_to_list_singleton. intros [= <-]. rewrite decide_False by (by destruct tag). unfold tag_of. cbn [untar sample_crane ts_Entries length parseImageTag_loop].
  unfold tar_next. simpl. rewrite (Cut_char tag "|" img) by done. done.
Defined.

Definition sample_tag : string := "kindest/node:v1.33.0".
Definition empty_disk : disk := {| dk_files := ∅; dk_ops := 0 |}.

Lemma docker_load_outcome_witness :
  ∃ s', docker_load "/tmp/in.tar" {| dk_files := {[ "/tmp/in.tar" := sample_tag +s+ "|img" ]}; dk_ops := 0 |} = (Ok tt, s') ∧
    ∃ cacheDir c tag, dk_files s' !! abs (loadedFileName cacheDir tag) = Some c.
Proof.
  destruct (docker_load "/tmp/in.tar" {| dk_files := {[ "/tmp/in.tar" := sample_tag +s+ "|img" ]}; dk_ops := 0 |})
    as [o s'] eqn:Hr.
  assert (o = Ok tt) as -> by (vm_compute in Hr; congruence).
  exists s'. split; [reflexivity|].
  destruct (docker_load_outcome "/tmp/in.tar" _ s' ltac:(discriminate) Hr) as (dir & c & tag & _ & _ & Hf).
  eexists dir, _, tag. rewrite Hf. apply lookup_insert_eq.
Defined.


(** Saving over the file of the cache: the image is lost. *)
Lemma docker_save_over_cache_witness :
  ∃ err s', docker_save "/root/.cache/kini/loaded--kindest--node:v1.33.0.tar" "" [sample_tag]
    {| dk_files := {[ "/root/.cache/kini/loaded--kindest--node:v1.33.0.tar" := sample_tag +s+ "|img" ]}; dk_ops := 0 |} = (Err err, s').
Proof.
  destruct (@docker_save_over_cache sample_process sample_crane sample_image_disk sample_image_faultless
    "/root/.cache/kini/loaded--kindest--node:v1.33.0.tar" sample_tag "" None "img" (sample_tag +s+ "|img") (errorString "EOF")
    {| dk_files := {[ "/root/.cache/kini/loaded--kindest--node:v1.33.0.tar" := sample_tag +s+ "|img" ]}; dk_ops := 0 |})
    as (err & s' & Hrun & _); [discriminate|discriminate|reflexivity|reflexivity|vm_compute; reflexivity..|].
  by exists err, s'.
Defined.
