(* ===== verification/Kini.v ===== *)
(** * kini: internal/exp/kini, cmd/exp/kini

    The program around the docker shim (Docker.v, DockerImages.v): the
    environment in which [docker] and [kind] are kini itself, the commands that
    set up the local configuration, and the choice of the command by the name
    the program was called with. Commands return what they print. *)

From S2P Require Import Prelude GoStrings Go Files Api World Images Launch Instances Sample Client Config LoadBalancer Docker.

(** The serializers of Kubernetes objects: the one for YAML, if there is one, with
    what it makes of a secret of a group and version. *)
Class Serializer := { SerializerInfoForYAML : option (string → Secret → error + string) }.

Section kini.
Context `{CliPaths} `{Serializer} `{E : Env}.

(** ** The environment: internal/exp/kini/setup.go *)

(** [filepath.Abs] *)
Definition filepath_Abs (path : string) : M state string :=
  if HasPrefix path "/" then ret (Clean path)
  else let! wd := host OSGetwd in ret (filepath_Join [wd; path]).

Definition cleanup (dir : string) : M state unit :=
  wrap "failed to clean up temporary directory: " (host (OSRemoveAll dir)).

(** [if err := ...; err != nil { _ = cleanup(); return ... }] *)
Definition or_cleanup {A} (dir pre : string) (m : M state A) : M state A :=
  let! r := try m in
  match r with
  | inl err => try (cleanup dir) ;; throw (Errorf_w pre err)
  | inr a => ret a
  end.

(** SetupEnvironment returns the directory; its cleanup function is [cleanup]
    of it. [argv0] is [os.Args[0]]. *)
Definition SetupEnvironment (argv0 : string) (docker kind : bool) : M state string :=
  let! dir := wrap "failed to create temporary directory: " (host OSMkdirTemp) in
  let! self := or_cleanup dir ("failed to identity absolute path to " +s+ quote argv0 +s+ ": ") (filepath_Abs argv0) in
  (if docker then or_cleanup dir "failed to create symlink as docker for self: "
                    (host (OSSymlink self (filepath_Join [dir; "docker"])))
   else ret tt) ;;
  (if kind then or_cleanup dir "failed to create symlink as kind for self: "
                  (host (OSSymlink self (filepath_Join [dir; "kind"])))
   else ret tt) ;;
  let! currentPath := Getenv "PATH" in
  or_cleanup dir "failed to set PATH: " (host (OSSetenv "PATH" (dir +s+ ":" +s+ currentPath))) ;;
  ret dir.

(** ** The local configuration: config/config.go *)

Record ConfigManager := { mg_config : CliConfig; mg_path : string; mg_mustUpdate : bool }.

Definition NewManager (configFile : string) : M state ConfigManager :=
  let! (_, path) := wrap "failed to read local configuration: " (ConfigurationFromLocal configFile "" false) in
  let! cfg := wrap "failed to read config file: " (host (LoadConfig path)) in
  ret {| mg_config := cfg; mg_path := path; mg_mustUpdate := false |}.

Definition with_remotes (f : gmap string Remote → gmap string Remote) (c : CliConfig) : CliConfig :=
  {| cc_DefaultRemote := cc_DefaultRemote c; cc_Remotes := f (cc_Remotes c);
     cc_HasClientCertificate := cc_HasClientCertificate c; cc_ConfigDir := cc_ConfigDir c |}.

Definition simplestreams_remote (server : string) : Remote :=
  {| rm_Addr := server; rm_Project := ""; rm_Protocol := Simplestreams; rm_Public := true |}.

Definition AddSimplestreamsRemoteIfNotExist (name server : string) (m : ConfigManager) : ConfigManager :=
  match cc_Remotes (mg_config m) !! name with
  | Some _ => m
  | None => {| mg_config := with_remotes <[name := simplestreams_remote server]> (mg_config m);
               mg_path := mg_path m; mg_mustUpdate := true |}
  end.

Definition Commit (m : ConfigManager) : M state ConfigManager :=
  if negb (mg_mustUpdate m) then ret m
  else
    wrap "failed to update config file on disk: " (host (SaveConfig (mg_path m) (mg_config m))) ;;
    ret {| mg_config := mg_config m; mg_path := mg_path m; mg_mustUpdate := false |}.

(** ** The setup commands: kini_setup_remotes.go, kini_setup_generate_secret.go,
       kini_setup_activate_environment.go *)

Definition setup_remotes (configFile : string) (dryRun : bool) : M state unit :=
  let! manager := wrap "failed to initialize config manager: " (NewManager configFile) in
  let manager := AddSimplestreamsRemoteIfNotExist "capi" DefaultSimplestreamsServer manager in
  let manager := AddSimplestreamsRemoteIfNotExist "capi-stg" DefaultStagingSimplestreamsServer manager in
  if dryRun then ret tt
  else wrap "failed to commit changes: " (Commit manager) ;; ret tt.

Definition serializeRuntimeObject (gv : string) (obj : Secret) : error + string :=
  match SerializerInfoForYAML with
  | None => inl (errorString "failed to initialize serializer")
  | Some encode => encode gv obj
  end.

Definition setup_generate_secret (configFile remoteName namespace name : string) : M state string :=
  let! (opts, _) := wrap "failed to read local configuration: " (ConfigurationFromLocal configFile remoteName true) in
  wrap "failed to encode secret: " (of_result (serializeRuntimeObject "v1" (ToSecret opts name namespace))).

Definition setup_activate_environment (argv0 : string) (docker kind : bool) : M state string :=
  let! path := wrap "failed to setup environment: " (SetupEnvironment argv0 docker kind) in
  ret ("export PATH=" +s+ path +s+ ":$PATH" +s+ newline).

(** ** Running a command: root.go of kini and of kind

    The pre-run function makes the environment; the post-run function removes
    the directory, and is not called when the command fails. *)
Definition in_environment {A} (pre argv0 : string) (run : M state A) : M state A :=
  let! dir := wrap pre (SetupEnvironment argv0 true false) in
  let! a := run in
  cleanup dir ;;
  ret a.

Definition kini_command {A} (argv0 : string) (run : M state A) : M state A :=
  in_environment "failed to setup environment: " argv0 run.

(** [kindPreRunE] is the pre-run function of kind. *)
Definition kind_command {A} (argv0 : string) (kindPreRunE : M state unit) (run : M state A) : M state A :=
  kindPreRunE ;; in_environment "failed to configure self as docker: " argv0 run.

(** ** The choice of the command: main.go *)

Inductive tool := ToolKini | ToolDocker | ToolKind.

Definition tool_of (argv0 : string) : tool :=
  let base := filepath_Base argv0 in
  if decide (base = "kini") then ToolKini
  else if decide (base = "docker") then ToolDocker
  else if decide (base = "kind") then ToolKind
  else ToolKini.

(** The exit code. *)
Definition kini_main (argv0 : string) (execute : tool → M state unit) : M state Z :=
  let! r := try (execute (tool_of argv0)) in
  ret (match r with inl _ => 1%Z | inr _ => 0%Z end).

End kini.

(** ** Properties *)

Section properties.
Context `{CliPaths} `{Serializer} `{E : Env}.

(** *** The environment *)

(** The calls that find the program: none, or the working directory. *)
Definition finds_self (argv0 self : string) (evs : list event) : Prop :=
  if HasPrefix argv0 "/" then evs = [] ∧ self = Clean argv0
  else ∃ wd, evs = [host_accepted OSGetwd wd] ∧ self = filepath_Join [wd; argv0].

(** The links that were made. *)
Definition links (docker kind : bool) (self dir : string) : list event :=
  (if docker then [host_accepted (OSSymlink self (filepath_Join [dir; "docker"])) tt] else []) ++
  (if kind then [host_accepted (OSSymlink self (filepath_Join [dir; "kind"])) tt] else []).

Definition sets_path (e : event) : Prop :=
  match projT2 e with (CHost (OSSetenv _ _), inr _) => True | _ => False end.

(** The temporary directory that the call made, and the request to remove it. *)
Definition made_dir (e : event) : option string :=
  match e with existT A (CHost OSMkdirTemp, inr dir) => Some dir | _ => None end.

Definition removal (dir : string) (evs : list event) : Prop := ∃ r, answered (CHost (OSRemoveAll dir)) r ∈ evs.

(** What SetupEnvironment did: the directory, the links in it and then the new
    PATH; or, when it fails, no change of PATH and no directory left unremoved. *)
Definition setup_outcome (argv0 : string) (docker kind : bool) (o : outcome string) (evs : list event) : Prop :=
  match o with
  | Ok dir => ∃ self path finds r,
      evs = host_accepted OSMkdirTemp dir :: finds ++ links docker kind self dir ++
            [answered (CHost (OSGetenv "PATH")) r; host_accepted (OSSetenv "PATH" (dir +s+ ":" +s+ path)) tt] ∧
      finds_self argv0 self finds ∧ path = match r with inr v => v | inl _ => "" end
  | Err _ => Forall (λ e, ¬ sets_path e) evs ∧ Forall (λ e, ∀ dir, made_dir e = Some dir → removal dir evs) evs
  | _ => False
  end.

Lemma traces_or_cleanup {A} dir pre (m : M state A) (Q : outcome A → list event → Prop) :
  traces m (λ o evs, match o with
                     | Ok a => Q (Ok a) evs
                     | Err e => ∀ r, Q (Err (Errorf_w pre e)) (evs ++ [answered (CHost (OSRemoveAll dir)) r])
                     | _ => False
                     end) →
  traces (or_cleanup dir pre m) Q.
Proof.
  intros Hm. unfold or_cleanup, cleanup. do 2 tr_step. eapply traces_mono; [exact Hm|].
  intros [a|e|msg|] evs HQ; try done.
  - tr_step. by rewrite app_nil_r.
  - do 4 tr_step; tr_step; rewrite app_nil_r; apply HQ.
Qed.

(** The setup failed at some step after the directory was made. *)
Lemma setup_failed argv0 docker kind err dir evs r all :
  Forall (λ e, ¬ sets_path e ∧ made_dir e = None) evs →
  all = host_accepted OSMkdirTemp dir :: evs ++ [answered (CHost (OSRemoveAll dir)) r] →
  setup_outcome argv0 docker kind (Err err) all.
Proof.
  intros [Hs Hm]%Forall_and ->. split.
  - constructor; [tauto|]. apply Forall_app. split; [done|]. repeat constructor. tauto.
  - constructor.
    + intros ? [= <-]. exists r. rewrite elem_of_cons, elem_of_app. do 2 right. apply list_elem_of_singleton. done.
    + apply Forall_app. split; [|by repeat constructor]. eapply Forall_impl; [exact Hm|]. simpl. intros e ->. done.
Qed.

Lemma traces_Getenv name :
  traces (Getenv name) (λ o evs, ∃ r, evs = [answered (CHost (OSGetenv name)) r] ∧
    o = Ok (match r with inr v => v | inl _ => "" end)).
Proof. unfold Getenv. do 2 tr_step. tr_step; tr_step; eauto. Qed.

Lemma traces_filepath_Abs argv0 :
  traces (filepath_Abs argv0) (λ o evs,
    match o with
    | Ok self => finds_self argv0 self evs
    | Err _ => ∃ e, evs = [answered (CHost OSGetwd) (inl e)]
    | _ => False
    end).
Proof. unfold filepath_Abs, finds_self. destruct (HasPrefix argv0 "/"); tr_steps; eauto. Qed.

Lemma finds_self_quiet argv0 self evs : finds_self argv0 self evs → Forall (λ e, ¬ sets_path e ∧ made_dir e = None) evs.
Proof. unfold finds_self. destruct (HasPrefix argv0 "/"); [by intros [-> _]|]. intros (wd & -> & _). repeat constructor. tauto. Qed.

(** Making one of the links. *)
Lemma traces_link (b : bool) dir pre self name :
  traces (if b then or_cleanup dir pre (host (OSSymlink self (filepath_Join [dir; name]))) else ret tt) (λ o evs,
    match o with
    | Ok _ => evs = if b then [host_accepted (OSSymlink self (filepath_Join [dir; name])) tt] else []
    | Err _ => ∃ e r, evs = [answered (CHost (OSSymlink self (filepath_Join [dir; name]))) (inl e);
                             answered (CHost (OSRemoveAll dir)) r]
    | _ => False
    end).
Proof.
  destruct b; [|by tr_step]. apply traces_or_cleanup. tr_step; [|by destruct u]. intros r. by exists e, r.
Qed.

Lemma traces_SetupEnvironment argv0 docker kind :
  traces (SetupEnvironment argv0 docker kind) (setup_outcome argv0 docker kind).
Proof.
  assert (Hadd : ∀ evs evs', Forall (λ e, ¬ sets_path e ∧ made_dir e = None) evs →
    Forall (λ e, ¬ sets_path e ∧ made_dir e = None) evs' → Forall (λ e, ¬ sets_path e ∧ made_dir e = None) (evs ++ evs'))
    by (intros; by apply Forall_app).
  unfold SetupEnvironment. do 3 tr_step; [split; repeat constructor; tauto || done|]. rename s into dir.
  tr_step. apply traces_or_cleanup. eapply traces_mono; [apply traces_filepath_Abs|].
  intros [self|e|?|] finds Hf; try done.
  2: { destruct Hf as [? ->]. intros r. eapply (setup_failed _ _ _ _ _ [_]); [|done]. repeat constructor. tauto. }
  apply finds_self_quiet in Hf as Hq. tr_step. eapply traces_mono; [apply traces_link|].
  intros [[]|e|?|] evs1 H1; try done.
  2: { destruct H1 as (e' & r & ->). eapply (setup_failed _ _ _ _ _ (finds ++ [_])); [|by rewrite <- app_assoc].
       apply Hadd; [done|]. repeat constructor. tauto. }
  assert (Forall (λ e, ¬ sets_path e ∧ made_dir e = None) evs1) as Hq1 by (subst; destruct docker; repeat constructor; tauto).
  tr_step. eapply traces_mono; [apply traces_link|]. intros [[]|e|?|] evs2 H2; try done.
  2: { destruct H2 as (e' & r & ->). eapply (setup_failed _ _ _ _ _ (finds ++ evs1 ++ [_])); [|by rewrite <- !app_assoc].
       apply Hadd; [done|]. apply Hadd; [done|]. repeat constructor. tauto. }
  assert (Forall (λ e, ¬ sets_path e ∧ made_dir e = None) evs2) as Hq2 by (subst; destruct kind; repeat constructor; tauto).
  tr_step. eapply traces_mono; [apply traces_Getenv|]. intros o evs3 (r & -> & ->). tr_step.
  apply traces_or_cleanup. tr_step.
  - intros r'. eapply (setup_failed _ _ _ _ _ (finds ++ evs1 ++ evs2 ++ [_; _])); [|by rewrite <- !app_assoc].
    apply Hadd; [done|]. apply Hadd; [done|]. apply Hadd; [done|]. repeat constructor; tauto.
  - tr_step. destruct u. exists self, (match r with inr v => v | inl _ => "" end), finds, r.
    split_and!; [|done|done]. subst. unfold links. by rewrite <- !app_assoc.
Qed.

(** Setting up the environment ends without a panic. When it succeeds it has
    made a new directory, linked the requested names in it to the absolute path
    of the program, and only then put the directory at the front of PATH; and
    the program run through such a link is the docker shim or kind. When it
    fails, PATH is what it was, and every directory it made was asked to be
    removed. *)
Theorem SetupEnvironment_outcome (argv0 : string) (docker kind : bool) (s : state) :
  ∃ evs, st_log (SetupEnvironment argv0 docker kind s).2 = st_log s ++ evs ∧
    setup_outcome argv0 docker kind (SetupEnvironment argv0 docker kind s).1 evs ∧
    ∀ dir, tool_of (filepath_Join [dir; "docker"]) = ToolDocker ∧ tool_of (filepath_Join [dir; "kind"]) = ToolKind.
Proof.
  destruct (traces_SetupEnvironment argv0 docker kind s) as (evs & Hl & Ho). exists evs. split_and!; [done|done|].
  intros dir. unfold tool_of. rewrite !filepath_Base_Join by (by split_and! || by apply (bool_decide_unpack _)). done.
Qed.

(** *** Running a command *)

(** A run: the setup failed, or the command failed, or it succeeded and the
    directory was asked to be removed after it. *)
Definition environment_run {A} (argv0 : string) (run : M state A) (o : outcome A) (evs : list event) : Prop :=
  (∃ err, setup_outcome argv0 true false (Err err) evs ∧ ∀ a, o ≠ Ok a) ∨
  ∃ dir evs1 evs2, setup_outcome argv0 true false (Ok dir) evs1 ∧
    match o with
    | Ok a => evs = evs1 ++ evs2 ++ [host_accepted (OSRemoveAll dir) tt] ∧ ran run (Ok a) evs2
    | _ => (evs = evs1 ++ evs2 ∧ ran run o evs2) ∨
           ∃ a e, evs = evs1 ++ evs2 ++ [answered (CHost (OSRemoveAll dir)) (inl e)] ∧ ran run (Ok a) evs2
    end.

(** A command that kini runs in its environment: the directory with the links is
    removed when the command succeeds, and only then. *)
Theorem in_environment_outcome {A} (P : event → Prop) (pre argv0 : string) (run : M state A) (s : state) :
  calls_only P run →
  ∃ evs, st_log (in_environment pre argv0 run s).2 = st_log s ++ evs ∧
    environment_run argv0 run (in_environment pre argv0 run s).1 evs.
Proof.
  intros Hrun. enough (traces (in_environment pre argv0 run) (environment_run argv0 run)) as Ht by apply Ht.
  unfold in_environment, cleanup. do 2 tr_step. eapply traces_mono; [apply traces_SetupEnvironment|].
  intros [dir|err|?|] evs1 H1; try done; [|left; by exists err].
  tr_step. eapply traces_mono; [by eapply traces_ran|]. intros o evs2 [Hr _].
  assert (Hfail : (∀ a, o ≠ Ok a) → environment_run argv0 run o (evs1 ++ evs2)).
  { intros Hne. right. exists dir, evs1, evs2. split; [done|]. destruct o; [by destruct (Hne a)|auto..]. }
  destruct o as [a|e|msg|]; [|by apply Hfail..].
  do 3 tr_step.
  - right. exists dir, evs1, evs2. split; [done|]. right. eauto.
  - tr_step. right. exists dir, evs1, evs2. split; [done|]. by destruct u.
Qed.

(** *** The remotes *)

Definition capi_remotes : gmap string Remote :=
  {[ "capi" := simplestreams_remote DefaultSimplestreamsServer;
     "capi-stg" := simplestreams_remote DefaultStagingSimplestreamsServer ]}.

(** Adding a remote: one that is there wins. *)
Lemma remote_added name server m :
  AddSimplestreamsRemoteIfNotExist name server m =
    {| mg_config := with_remotes (λ r, r ∪ {[name := simplestreams_remote server]}) (mg_config m); mg_path := mg_path m;
       mg_mustUpdate := mg_mustUpdate m || bool_decide (cc_Remotes (mg_config m) !! name = None) |}.
Proof.
  unfold AddSimplestreamsRemoteIfNotExist, with_remotes. destruct m as [[d r h dir] path u]. simpl.
  destruct (r !! name) as [x|] eqn:Hr.
  - rewrite bool_decide_false by done. rewrite orb_false_r. do 2 f_equal. symmetry. apply map_eq. intros k.
    rewrite lookup_union. destruct (decide (k = name)) as [->|Hk].
    + rewrite Hr, lookup_singleton_eq. done.
    + rewrite lookup_singleton_ne by done. by destruct (r !! k).
  - rewrite bool_decide_true, orb_true_r by done. by rewrite insert_union_singleton_r.
Qed.

(** The manager of the command, from what was loaded. *)
Definition capi_manager (path : string) (cfg : CliConfig) : ConfigManager :=
  AddSimplestreamsRemoteIfNotExist "capi-stg" DefaultStagingSimplestreamsServer
    (AddSimplestreamsRemoteIfNotExist "capi" DefaultSimplestreamsServer
       {| mg_config := cfg; mg_path := path; mg_mustUpdate := false |}).

Lemma capi_manager_spec path cfg :
  mg_config (capi_manager path cfg) = with_remotes (λ r, r ∪ capi_remotes) cfg ∧ mg_path (capi_manager path cfg) = path ∧
  (mg_mustUpdate (capi_manager path cfg) = true ↔ ¬ dom capi_remotes ⊆ dom (cc_Remotes cfg)).
Proof.
  unfold capi_manager. rewrite !remote_added. cbn [mg_config mg_path mg_mustUpdate]. split_and!; [|done|].
  - unfold with_remotes. simpl. f_equal. rewrite <- map_union_assoc. f_equal.
  - unfold with_remotes. cbn [cc_Remotes orb]. rewrite orb_true_iff, !bool_decide_eq_true, lookup_union_None, lookup_singleton_None.
    change (dom capi_remotes) with (dom ({[ "capi" := simplestreams_remote DefaultSimplestreamsServer ]} ∪
      {[ "capi-stg" := simplestreams_remote DefaultStagingSimplestreamsServer ]} : gmap string Remote)).
    rewrite dom_union, !dom_singleton. rewrite union_subseteq, !singleton_subseteq_l, !elem_of_dom, <- !not_eq_None_Some.
    split; [tauto|]. intros Hn. destruct (decide (cc_Remotes cfg !! "capi" = None)) as [|H1]; [by left|].
    destruct (decide (cc_Remotes cfg !! "capi-stg" = None)) as [|H2]; [by right|]. exfalso. apply Hn. auto.
Qed.

Definition saves (e : event) : option (string * CliConfig) :=
  match e with existT A (CHost (SaveConfig path cfg), r) => Some (path, cfg) | _ => None end.

(** Reading the local configuration saves none. *)
Lemma ConfigurationFromLocal_saves_nothing configFile remote https :
  calls_only (λ e, saves e = None) (ConfigurationFromLocal configFile remote https).
Proof.
  assert (He : ∀ files, calls_only (λ e, saves e = None) (existing_files files))
    by (induction files; cbn [existing_files]; calls_auto).
  assert (Hf : ∀ files errs, calls_only (λ e, saves e = None) (try_config_files files errs remote https)).
  { induction files as [|f files IH]; intros errs; cbn [try_config_files]; [calls_auto|].
    unfold configuration_from_file. calls_auto. }
  unfold ConfigurationFromLocal, getDefaultConfigFiles. calls_auto.
Qed.

(** What setting up the remotes does to configuration files. *)
Definition remotes_outcome (dryRun : bool) (o : outcome unit) (evs : list event) : Prop :=
  (∀ e path cfg, e ∈ evs → saves e = Some (path, cfg) →
     dryRun = false ∧ ∃ cfg0, host_accepted (LoadConfig path) cfg0 ∈ evs ∧
       ¬ dom capi_remotes ⊆ dom (cc_Remotes cfg0) ∧ cfg = with_remotes (λ r, r ∪ capi_remotes) cfg0) ∧
  (o = Ok tt → dryRun = false → ∃ path cfg0, host_accepted (LoadConfig path) cfg0 ∈ evs ∧
     (dom capi_remotes ⊆ dom (cc_Remotes cfg0) ∨
      host_accepted (SaveConfig path (with_remotes (λ r, r ∪ capi_remotes) cfg0)) tt ∈ evs)).

Lemma remotes_outcome_quiet dryRun o evs :
  Forall (λ e, saves e = None) evs → (o = Ok tt → dryRun = true) → remotes_outcome dryRun o evs.
Proof.
  intros Hq Ho. split.
  - intros e path cfg He Hs. eapply Forall_forall in Hq; [|exact He]. simpl in Hq. congruence.
  - intros Hok ->. by apply Ho in Hok.
Qed.

Lemma remotes_outcome_saved path cfg0 evs :
  Forall (λ e, saves e = None) evs → ¬ dom capi_remotes ⊆ dom (cc_Remotes cfg0) →
  ∀ r o, (o = Ok tt → r = inr tt) → remotes_outcome false o ((evs ++ [host_accepted (LoadConfig path) cfg0]) ++
    [answered (CHost (SaveConfig path (with_remotes (λ r, r ∪ capi_remotes) cfg0))) r]).
Proof.
  intros Hq Hmiss r o Ho. split.
  - intros e path' cfg He Hs. apply elem_of_app in He as [He|He%list_elem_of_singleton].
    + assert (saves e = None); [|congruence]. apply elem_of_app in He as [He|He%list_elem_of_singleton]; [|by subst].
      by eapply Forall_forall in Hq.
    + subst e. injection Hs as <- <-. split; [done|]. exists cfg0. split_and!; [|done|done].
      rewrite !elem_of_app, !list_elem_of_singleton. auto.
  - intros Hok _. rewrite (Ho Hok). exists path, cfg0. rewrite !elem_of_app, !list_elem_of_singleton. auto.
Qed.

(** Setting up the image remotes adds those that are missing and never
    changes a remote that is there: a configuration file is written only when
    it is not a dry run and the file that was read lacks one of the remotes,
    and then with exactly the missing ones added; when both are there, or were
    added by an earlier run, nothing is written. *)
Theorem setup_remotes_outcome (configFile : string) (dryRun : bool) (s : state) :
  ∃ evs, st_log (setup_remotes configFile dryRun s).2 = st_log s ++ evs ∧
    remotes_outcome dryRun (setup_remotes configFile dryRun s).1 evs.
Proof.
  enough (traces (setup_remotes configFile dryRun) (remotes_outcome dryRun)) as Ht by apply Ht.
  unfold setup_remotes, NewManager. do 3 tr_step. tr_step.
  eapply traces_mono; [apply traces_calls_only, ConfigurationFromLocal_saves_nothing|].
  intros [[opts path]|err|msg|] evs Hq; try (by apply remotes_outcome_quiet).
  do 3 tr_step; [apply remotes_outcome_quiet; [|done]; apply Forall_app; split; [done|by repeat constructor]|].
  rename c into cfg0. tr_step. fold (capi_manager path cfg0).
  destruct (capi_manager_spec path cfg0) as (Hcfg & Hpath & Hup).
  assert (Hq' : Forall (λ e, saves e = None) (evs ++ [host_accepted (LoadConfig path) cfg0]))
    by (apply Forall_app; split; [done|by repeat constructor]).
  assert (Hin : host_accepted (LoadConfig path) cfg0 ∈ evs ++ [host_accepted (LoadConfig path) cfg0])
    by (apply elem_of_app; right; left).
  destruct dryRun; [tr_step; rewrite !app_nil_r; by apply remotes_outcome_quiet|].
  do 2 tr_step. unfold Commit. destruct (mg_mustUpdate (capi_manager path cfg0)) eqn:Hu; cbn [negb].
  - rewrite Hcfg, Hpath. assert (Hsaved := remotes_outcome_saved path cfg0 evs Hq (proj1 Hup eq_refl)).
    do 3 tr_step; [apply (Hsaved (inl e)); done|]. do 2 tr_step. rewrite !app_nil_r. destruct u. by apply (Hsaved (inr tt)).
  - do 2 tr_step. rewrite !app_nil_r. split.
    + intros e path' cfg He Hs. eapply Forall_forall in Hq'; [|exact He]. simpl in Hq'. congruence.
    + intros _ _. exists path, cfg0. split; [done|]. left. destruct (decide (dom capi_remotes ⊆ dom (cc_Remotes cfg0))); [done|].
      exfalso. by assert (false = true) by (by apply Hup).
Qed.

End properties.
