(* ===== verification/ImageBuilder.v ===== *)
(** * The image builder: internal/exp/image-builder, cmd/exp/image-builder

    An image is built in stages: an instance is launched, scripts run in it, it
    is stopped and published as an image, and the image is exported and tried.
    A stage runs an action; the actions are in the module [action]. The local
    files and processes are host calls, the writers of a tarball known by the
    file they were created on. *)

From S2P Require Import Prelude GoStrings Go Files Static Api World Images Launch Sample Client Config.

(** The platform: [runtime.GOARCH], calendar arithmetic (milliseconds to year,
    month, day, hour and minute of the local time; adding years), and the check
    of the semver library. *)
Class Platform := {
  GOARCH : string;
  Date : Z → Z * Z * Z * Z * Z;
  AddYears : Z → Z → Z;
  ParseTolerant : string → option error
}.

(** The [%02d] verb. *)
Definition pad2 (n : Z) : string := if (n <? 10)%Z then "0" +s+ pretty n else pretty n.

Section builder.
Context `{E : Env}.

Definition Action : Type := context → Client → M state unit.

End builder.

Module action.

Section actions.
Context `{MapRange} `{Platform} `{E : Env}.

(** Chain is a meta Action that runs multiple Action one after the other. *)
Definition Chain (actions : list Action) : Action := λ ctx c,
  for_each (imap pair actions) (λ '(idx, a),
    wrap ("action " +s+ decimal idx +s+ "/" +s+ decimal (length actions) +s+ " failed: ") (a ctx c)).

(** Wait is an Action that blocks for the specified amount of time. *)
Definition Wait (duration : Z) : Action := λ ctx _,
  let! t := clock in
  match ctx with
  | Some deadline =>
      if (deadline <=? t + duration)%Z then sleep (Z.max 0 (deadline - t)) ;; throw DeadlineExceeded
      else sleep (Z.max 0 duration)
  | None => sleep (Z.max 0 duration)
  end.

(** StopInstance is an Action that stops the instance with specified name. *)
Definition StopInstance (name : string) : Action := λ ctx c,
  wrap "failed to stop instance: " (WaitForStopInstance c ctx name).

(** DeleteInstance is an Action that deletes the instance with specified name. *)
Definition DeleteInstance (name : string) : Action := λ ctx c,
  wrap "failed to delete instance: " (WaitForDeleteInstance c ctx name).

(** ExecInstance is an Action that executes a bash script on the instance, with
    an optional list of arguments. *)
Definition ExecInstance (name bashScript : string) (args : list string) : Action := λ ctx c,
  let! r := RunCommand c ctx name (["bash"; "-s"; "--"] ++ args) (Some bashScript) in
  match cr_err r with
  | Some err => throw (Errorf_w "failed to run script: " err)
  | None => ret tt
  end.

(** CopyInstanceFile is an Action that copies the contents of an instance file
    on the local disk. *)
Definition CopyInstanceFile (name instanceFile outputFile : string) : Action := λ _ c,
  wrap "failed to create output file: " (host (OSCreate outputFile)) ;;
  let! (reader, _) := wrap ("failed to read file " +s+ quote instanceFile +s+ " from instance " +s+ quote name +s+ ": ")
                        (incus (cli_Conn c) (GetInstanceFile name instanceFile)) in
  match reader with
  | None => panic "invalid memory address or nil pointer dereference"
  | Some reader =>
      let! b := wrap "failed to copy file: " (of_result (rd_ReadAll reader)) in
      wrap "failed to copy file: " (host (OSWrite outputFile b))
  end.

(** ** Launching: action_instance_launch.go *)

(** The root disk of 5 GiB, on the last of the created pools. *)
Definition with_root_disk (pools : list StoragePool) (launchOpts : LaunchOptions) : LaunchOptions :=
  foldl (λ opts pool,
    if decide (sp_Status pool = "Created") then
      WithDevices (Some {[ "root" := {[ "type" := "disk"; "pool" := sp_Name pool; "path" := "/"; "size" := "5GiB" ]} ]}) opts
    else opts) launchOpts pools.

(** The error that the timer of five minutes, or the context, has sent by the
    time [t]. *)
Definition timer_error (ctx : context) (deadline t : Z) : option error :=
  match ctx with
  | Some dl => if (dl <=? Z.min t deadline)%Z then Some DeadlineExceeded
               else if (deadline <=? t)%Z then Some (errorString "timed out after 5 minutes") else None
  | None => if (deadline <=? t)%Z then Some (errorString "timed out after 5 minutes") else None
  end.

(** Runs a command every second until it succeeds. The timer runs beside this
    loop: whichever of the two writes to the channel first decides. *)
Fixpoint wait_agent (fuel : nat) (c : Client) (ctx : context) (name : string) (deadline : Z) : M state unit :=
  match fuel with
  | O => out_of_fuel
  | S fuel =>
      let! t := clock in
      match timer_error ctx deadline t with
      | Some err => throw err
      | None =>
          let! r := RunCommand c ctx name ["echo"; "hi"] None in
          let! t := clock in
          match timer_error ctx deadline t, cr_err r with
          | Some err, _ => throw err
          | None, None => ret tt
          | None, Some _ => sleep 1000 ;; wait_agent fuel c ctx name deadline
          end
      end
  end.

(** One poll per second for five minutes, and the one that finds the time
    over. *)
Definition agent_fuel : nat := 301.

(** LaunchInstance is an Action that launches an instance and waits for its
    agent to come up. *)
Definition LaunchInstance (name : string) (launchOpts : LaunchOptions) : Action := λ ctx c,
  let! pools := wrap "failed to list storage pools: " (incus (cli_Conn c) GetStoragePools) in
  wrap "failed to launch instance: " (WaitForLaunchInstance c ctx name (with_root_disk pools launchOpts)) ;;
  let! t := clock in
  wrap "failed to wait for instance agent to come up: " (wait_agent agent_fuel c ctx name (t + 300000)).

(** ** Publishing: action_image_publish.go *)

Record PublishImageInfo := {
  pi_Name : string; pi_OperatingSystem : string; pi_Release : string; pi_Variant : string;
  pi_LXCRequireCgroupv2 : bool
}.

Definition serial_of (t : Z) : string :=
  let '(year, month, day, hour, minute) := Date t in
  pretty year +s+ pad2 month +s+ pad2 day +s+ pad2 hour +s+ pad2 minute.

Definition image_properties (info : PublishImageInfo) (serial instanceType : string) : gmap string string :=
  let properties : gmap string string :=
    {[ "architecture" := GOARCH; "name" := pi_Name info;
       "description" := pi_Name info +s+ " (" +s+ serial +s+ ")"; "os" := pi_OperatingSystem info;
       "release" := pi_Release info; "variant" := pi_Variant info; "serial" := serial ]} in
  if pi_LXCRequireCgroupv2 info && bool_decide (instanceType = Container)
  then <["requirements.cgroupv2" := "true"]> properties else properties.

(** Makes an image of the instance, with the alias. *)
Definition publish_instance (c : Client) (ctx : context) (instanceName imageAliasName : string) (info : PublishImageInfo)
    (instance : Instance) : M state unit :=
  let! now := clock in
  WaitForOperation c ctx "PublishImage"
    (let! t := clock in
     incus (cli_Conn c) (CreateImageFrom
       {| imp_Properties := image_properties info (serial_of now) (in_Type instance); imp_Public := true;
          imp_ExpiresAt := AddYears 10 t; imp_SourceType := "instance"; imp_SourceName := instanceName;
          imp_Aliases := [imageAliasName] |})) ;;
  ret tt.

(** PublishImage is an Action that publishes an image from an existing
    instance. *)
Definition PublishImage (instanceName imageAliasName : string) (info : PublishImageInfo) : Action := λ ctx c,
  let! instance := wrap "failed to get instance: " (incus (cli_Conn c) (GetInstance instanceName)) in
  let! alias := try (incus (cli_Conn c) (GetImageAlias imageAliasName)) in
  match alias with
  | inl _ => publish_instance c ctx instanceName imageAliasName info instance
  | inr alias =>
      let! image := try (incus (cli_Conn c) (GetImage (ia_Target alias))) in
      if match image with inr image => (in_LastUsedAt instance <? im_CreatedAt image)%Z | inl _ => false end then ret tt
      else
        wrap ("failed to delete existing image alias " +s+ quote imageAliasName +s+ ": ")
          (incus (cli_Conn c) (DeleteImageAlias imageAliasName)) ;;
        publish_instance c ctx instanceName imageAliasName info instance
  end.

(** ** Compressing: action_image_export_compress.go *)

(** qemuCompressImage accepts raw bytes of a qcow2 image, compresses with
    qemu-img convert -c and returns the raw bytes of the compressed image. *)
Definition qemuCompressImage (ctx : context) (raw : string) : M state string :=
  let! tmpDir := wrap "failed to create temporary directory: " (host OSMkdirTemp) in
  deferring (host (OSRemoveAll tmpDir)) (
    let uncompressed := filepath_Join [tmpDir; "uncompressed.qcow2"] in
    let compressed := filepath_Join [tmpDir; "compressed.qcow2"] in
    wrap "failed to write uncompressed rootfs to temporary file: " (host (OSWriteFile uncompressed raw)) ;;
    let! path := try (host (ExecLookPath "qemu-img")) in
    let '(qemuImg, extraEnv) := match path with
                                | inr path => (path, [])
                                | inl _ => ("/opt/incus/bin/qemu-img", ["LD_LIBRARY_PATH=/opt/incus/lib"])
                                end in
    let! r := try (host (ExecRun [qemuImg; "convert"; "-O"; "qcow2"; "-c"; uncompressed; compressed] extraEnv ctx)) in
    let '(err, stderr) := match r with inr r => r | inl err => (Some err, "") end in
    match err with
    | Some err => throw (Errorf_w ("qemu-img convert -c command failed with stderr=" +s+ quote stderr +s+ ": ") err)
    | None => wrap "failed to read rootfs after compression: " (host (OSReadFile compressed))
    end).

Definition copy_entry (ctx : context) (tmpFile : string) (e : tar_entry) : M state unit :=
  let hdr := te_Header e in
  if decide (hd_Name hdr = "rootfs.img") then
    let! raw := wrap "failed to read rootfs.img: " (of_result (te_Body e)) in
    let! compressed := wrap "failed to compress rootfs.img from tarball: " (qemuCompressImage ctx raw) in
    let hdr := {| hd_Name := hd_Name hdr; hd_Size := Z.of_nat (String.length compressed); hd_Attrs := hd_Attrs hdr |} in
    wrap "failed to write header for compressed rootfs.img: " (host (TarWriteHeader tmpFile hdr)) ;;
    wrap "failed to copy compressed rootfs.img: " (host (TarWrite tmpFile compressed))
  else
    wrap ("failed to write header for " +s+ quote (hd_Name hdr) +s+ ": ") (host (TarWriteHeader tmpFile hdr)) ;;
    let! b := wrap ("failed to copy file " +s+ quote (hd_Name hdr) +s+ ": ") (of_result (te_Body e)) in
    wrap ("failed to copy file " +s+ quote (hd_Name hdr) +s+ ": ") (host (TarWrite tmpFile b)).

(** The loop over the archive, and the rename. *)
Definition copy_archive (ctx : context) (stream : tar_stream) (tmpFile path : string) : M state unit :=
  for_each (ts_Entries stream) (copy_entry ctx tmpFile) ;;
  match ts_End stream with
  | Some err => throw (Errorf_w "failed to read tar.gz archive: " err)
  | None => wrap "failed to move temporary file: " (host (OSRename tmpFile path))
  end.

Definition compressUnifiedImageTarballRootfs (ctx : context) (path : string) : M state unit :=
  let! tmpDir := wrap "failed to create a temporary directory: " (host OSMkdirTemp) in
  deferring (host (OSRemoveAll tmpDir)) (
    wrap "failed to open: " (host (OSOpen path)) ;;
    deferring (host (OSClose path)) (
      let! stream := wrap "failed to open tar.gz archive: " (host (ReadTarGz path)) in
      let tmpFile := filepath_Join [tmpDir; "image.tar.gz"] in
      wrap "failed to open: " (host (OSCreate tmpFile)) ;;
      deferring (host (OSClose tmpFile)) (deferring (host (GzipClose tmpFile)) (deferring (host (TarClose tmpFile))
        (copy_archive ctx stream tmpFile path))))).

(** ** Exporting: action_image_export.go *)

Definition download_image (c : Client) (ctx : context) (image : ImageAliasesEntry) (outputFile : string) : M state unit :=
  let! size := wrap "failed to download image: " (incus (cli_Conn c) (GetImageFile (ia_Target image) outputFile)) in
  wrap "failed to truncate output file: " (host (OSTruncate outputFile size)) ;;
  if bool_decide (GetServerName c = Incus) && bool_decide (ia_Type image = VirtualMachine) then
    wrap "failed to compress rootfs.img in unified tarball: " (compressUnifiedImageTarballRootfs ctx outputFile)
  else ret tt.

(** ExportImage is an Action that downloads a unified image tarball and saves to
    a local file. *)
Definition ExportImage (imageAliasName outputFile : string) : Action := λ ctx c,
  let! image := wrap ("failed to find image for alias " +s+ quote imageAliasName +s+ ": ")
                  (incus (cli_Conn c) (GetImageAlias imageAliasName)) in
  wrap "failed to create output file: " (host (OSCreate outputFile)) ;;
  let! r := try (download_image c ctx image outputFile) in
  try (host (OSClose outputFile)) ;;
  match r with
  | inl err => try (host (OSRemove outputFile)) ;; throw err
  | inr _ => ret tt
  end.

End actions.

End action.

(** ** Stages: stage/stage.go, stage/run.go *)

Section stages.
Context `{MapRange} `{Platform} `{CliPaths} `{E : Env}.

Record Stage := { stg_Name : string; stg_Action : Action }.

Definition Contains_name (names : list string) (name : string) : bool := existsb (String.eqb name) names.

(** Run runs a list of stages, with optional filtering criteria. *)
Definition Run (ctx : context) (c : Client) (skipStages onlyStages : list string) (dryRun : bool)
    (stages : list Stage) : M state unit :=
  for_each stages (λ stage,
    if dryRun then ret tt
    else if Contains_name skipStages (stg_Name stage) then ret tt
    else if (0 <? length onlyStages)%nat && negb (Contains_name onlyStages (stg_Name stage)) then ret tt
    else wrap ("failure during stage " +s+ quote (stg_Name stage) +s+ ": ") (stg_Action stage ctx c)).

(** ** Base images, defaults: cmd/base_images.go, cmd/default.go *)

Record baseImageInfo := { fullName : string; releaseName : string; variantName : string }.

Definition wellKnownBaseImages : gmap string baseImageInfo :=
  {[ "ubuntu:20.04" := {| fullName := "ubuntu focal"; releaseName := "focal"; variantName := "ubuntu" |};
     "ubuntu:22.04" := {| fullName := "ubuntu jammy"; releaseName := "jammy"; variantName := "ubuntu" |};
     "ubuntu:24.04" := {| fullName := "ubuntu noble"; releaseName := "noble"; variantName := "ubuntu" |};
     "debian:12" := {| fullName := "debian bookworm"; releaseName := "bookworm"; variantName := "debian" |};
     "debian:13" := {| fullName := "debian trixie"; releaseName := "trixie"; variantName := "debian" |} ]}.

(** A key that is missing gives the zero value. *)
Definition base_image_info (baseImage : string) : baseImageInfo :=
  default {| fullName := ""; releaseName := ""; variantName := "" |} (wellKnownBaseImages !! baseImage).

Definition defaultBaseImage : string := "ubuntu:24.04".
Definition defaultInstanceName : string := "capn-builder".
Definition defaultInstanceType : string := Container.
Definition defaultInstanceProfiles : list string := ["default"].
Definition defaultValidationInstanceName : string := "capn-validator".
Definition defaultInstanceStopGracePeriod : Z := 120000.
Definition defaultPullExtraImages : list string :=
  ["ghcr.io/flannel-io/flannel-cni-plugin:v1.7.1-flannel1"; "ghcr.io/flannel-io/flannel:v0.27.3"].

(** The base image that a value of --base-image names. *)
Definition base_image (baseImage : string) : error + string :=
  if decide (baseImage = "debian") then inr "debian:13"
  else if decide (baseImage = "ubuntu") then inr "ubuntu:24.04"
  else if decide (baseImage ∈ ["debian:12"; "debian:13"; "ubuntu:22.04"; "ubuntu:24.04"]) then inr baseImage
  else inl (errorString ("invalid value for --base-image argument " +s+ quote baseImage +s+
              ", must be one of [ubuntu:22.04, ubuntu:24.04, debian:12, debian:13]")).

(** ** The haproxy command: cmd/cmd_haproxy.go *)

Record haproxy_flags := {
  hf_configFile : string; hf_configRemoteName : string; hf_baseImage : string; hf_instanceName : string;
  hf_instanceProfiles : list string; hf_imageAlias : string; hf_skipStages : list string; hf_onlyStages : list string;
  hf_dryRun : bool; hf_outputFile : string
}.

(** The flags when none is given. *)
Definition haproxy_defaults : haproxy_flags :=
  {| hf_configFile := ""; hf_configRemoteName := ""; hf_baseImage := defaultBaseImage; hf_instanceName := defaultInstanceName;
     hf_instanceProfiles := defaultInstanceProfiles; hf_imageAlias := ""; hf_skipStages := []; hf_onlyStages := [];
     hf_dryRun := false; hf_outputFile := "image.tar.gz" |}.

Definition haproxy_PreRunE (f : haproxy_flags) : error + haproxy_flags :=
  match base_image (hf_baseImage f) with
  | inl err => inl err
  | inr baseImage =>
      inr {| hf_configFile := hf_configFile f; hf_configRemoteName := hf_configRemoteName f; hf_baseImage := baseImage;
             hf_instanceName := hf_instanceName f; hf_instanceProfiles := hf_instanceProfiles f;
             hf_imageAlias := if decide (hf_imageAlias f = "") then "haproxy-" +s+ variantName (base_image_info baseImage)
                              else hf_imageAlias f;
             hf_skipStages := hf_skipStages f; hf_onlyStages := hf_onlyStages f; hf_dryRun := hf_dryRun f;
             hf_outputFile := hf_outputFile f |}
  end.

Definition haproxy_stages (f : haproxy_flags) (image : option ImageFamily) : list Stage :=
  let info := base_image_info (hf_baseImage f) in
  [{| stg_Name := "create-instance";
      stg_Action := action.LaunchInstance (hf_instanceName f)
        (WithImage image (WithProfiles (hf_instanceProfiles f) (WithInstanceType Container emptyLaunchOptions))) |};
   {| stg_Name := "install-haproxy"; stg_Action := action.ExecInstance (hf_instanceName f) InstallHaproxyScript [] |};
   {| stg_Name := "prepare-instance"; stg_Action := action.ExecInstance (hf_instanceName f) CleanupInstanceScript [] |};
   {| stg_Name := "stop-instance"; stg_Action := action.StopInstance (hf_instanceName f) |};
   {| stg_Name := "publish-image";
      stg_Action := action.PublishImage (hf_instanceName f) (hf_imageAlias f)
        {| action.pi_Name := "haproxy " +s+ fullName info +s+ " " +s+ GOARCH; action.pi_OperatingSystem := "haproxy";
           action.pi_Release := releaseName info; action.pi_Variant := variantName info;
           action.pi_LXCRequireCgroupv2 := false |} |};
   {| stg_Name := "export-image"; stg_Action := action.ExportImage (hf_imageAlias f) (hf_outputFile f) |};
   {| stg_Name := "delete-instance"; stg_Action := action.DeleteInstance (hf_instanceName f) |}].

(** The client and the base image of a build. *)
Definition builder_client (configFile configRemoteName baseImage : string) :
    M state (Client * option ImageFamily) :=
  let! (opts, _) := wrap "failed to read client credentials: " (ConfigurationFromLocal configFile configRemoteName false) in
  let! c := wrap "failed to create incus client: " (New opts) in
  let! image := wrap "failed to parse base image: " (of_result (ParseImage baseImage)) in
  ret (c, image).

Definition haproxy_RunE (ctx : context) (f : haproxy_flags) : M state unit :=
  let! (c, image) := builder_client (hf_configFile f) (hf_configRemoteName f) (hf_baseImage f) in
  wrap "failed to run kubeadm stages: "
    (Run ctx c (hf_skipStages f) (hf_onlyStages f) (hf_dryRun f) (haproxy_stages f image)).

(** ** The kubeadm command: cmd/cmd_kubeadm.go *)

Record kubeadm_flags := {
  kf_configFile : string; kf_configRemoteName : string; kf_baseImage : string; kf_instanceName : string;
  kf_instanceProfiles : list string; kf_instanceType : string; kf_validationInstanceName : string;
  kf_imageAlias : string; kf_skipStages : list string; kf_onlyStages : list string; kf_dryRun : bool;
  kf_instanceStopGracePeriod : Z; kf_outputFile : string; kf_outputManifestFile : string;
  kf_kubernetesVersion : string; kf_pullExtraImages : list string
}.

(** The flags when only the required one is given. *)
Definition kubeadm_defaults (kubernetesVersion : string) : kubeadm_flags :=
  {| kf_configFile := ""; kf_configRemoteName := ""; kf_baseImage := defaultBaseImage; kf_instanceName := defaultInstanceName;
     kf_instanceProfiles := defaultInstanceProfiles; kf_instanceType := defaultInstanceType;
     kf_validationInstanceName := defaultValidationInstanceName; kf_imageAlias := ""; kf_skipStages := [];
     kf_onlyStages := []; kf_dryRun := false; kf_instanceStopGracePeriod := defaultInstanceStopGracePeriod;
     kf_outputFile := "image.tar.gz"; kf_outputManifestFile := "image.txt"; kf_kubernetesVersion := kubernetesVersion;
     kf_pullExtraImages := defaultPullExtraImages |}.

Definition kubeadm_PreRunE (f : kubeadm_flags) : error + kubeadm_flags :=
  if negb (bool_decide (kf_instanceType f = Container) || bool_decide (kf_instanceType f = VirtualMachine)) then
    inl (errorString ("invalid value for --instance-type argument " +s+ quote (kf_instanceType f) +s+
           ", must be one of [container, virtual-machine]"))
  else
    match base_image (kf_baseImage f) with
    | inl err => inl err
    | inr baseImage =>
        inr {| kf_configFile := kf_configFile f; kf_configRemoteName := kf_configRemoteName f; kf_baseImage := baseImage;
               kf_instanceName := kf_instanceName f; kf_instanceProfiles := kf_instanceProfiles f;
               kf_instanceType := kf_instanceType f; kf_validationInstanceName := kf_validationInstanceName f;
               kf_imageAlias := if decide (kf_imageAlias f = "")
                                then "kubeadm-" +s+ kf_kubernetesVersion f +s+ "-" +s+ kf_instanceType f
                                else kf_imageAlias f;
               kf_skipStages := kf_skipStages f; kf_onlyStages := kf_onlyStages f; kf_dryRun := kf_dryRun f;
               kf_instanceStopGracePeriod := kf_instanceStopGracePeriod f; kf_outputFile := kf_outputFile f;
               kf_outputManifestFile := kf_outputManifestFile f; kf_kubernetesVersion := kf_kubernetesVersion f;
               kf_pullExtraImages := kf_pullExtraImages f |}
    end.

Definition kubeadm_options (f : kubeadm_flags) (image : option ImageFamily) : LaunchOptions :=
  WithImage image (WithProfiles (kf_instanceProfiles f) (WithInstanceType (kf_instanceType f) emptyLaunchOptions)).

Definition kubeadm_info (f : kubeadm_flags) : action.PublishImageInfo :=
  let info := base_image_info (kf_baseImage f) in
  {| action.pi_Name := "kubeadm " +s+ kf_kubernetesVersion f +s+ " " +s+ fullName info +s+ " " +s+ GOARCH;
     action.pi_OperatingSystem := "kubeadm"; action.pi_Release := kf_kubernetesVersion f;
     action.pi_Variant := variantName info; action.pi_LXCRequireCgroupv2 := true |}.

Definition kubeadm_stages (f : kubeadm_flags) (image : option ImageFamily) : list Stage :=
  let name := kf_instanceName f in
  let validator := kf_validationInstanceName f in
  [{| stg_Name := "create-instance"; stg_Action := action.LaunchInstance name (kubeadm_options f image) |};
   {| stg_Name := "install-kubeadm";
      stg_Action := action.ExecInstance name InstallKubeadmScript [kf_kubernetesVersion f] |};
   {| stg_Name := "pull-extra-images"; stg_Action := action.ExecInstance name PullImagesScript (kf_pullExtraImages f) |};
   {| stg_Name := "generate-manifest"; stg_Action := action.ExecInstance name GenerateManifestScript [] |};
   {| stg_Name := "export-manifest";
      stg_Action := action.CopyInstanceFile name "/opt/manifest.txt" (kf_outputManifestFile f) |};
   {| stg_Name := "prepare-instance"; stg_Action := action.ExecInstance name CleanupInstanceScript [] |};
   {| stg_Name := "stop-grace-period"; stg_Action := action.Wait (kf_instanceStopGracePeriod f) |};
   {| stg_Name := "stop-instance"; stg_Action := action.StopInstance name |};
   {| stg_Name := "publish-image"; stg_Action := action.PublishImage name (kf_imageAlias f) (kubeadm_info f) |};
   {| stg_Name := "export-image"; stg_Action := action.ExportImage (kf_imageAlias f) (kf_outputFile f) |};
   {| stg_Name := "delete-instance"; stg_Action := action.DeleteInstance name |};
   {| stg_Name := "validate-image";
      stg_Action := action.Chain
        [action.LaunchInstance validator (kubeadm_options f (Some (OfImage
           {| img_Fingerprint := ""; img_Protocol := ""; img_Server := ""; img_Alias := kf_imageAlias f |})));
         action.ExecInstance validator ValidateKubeadmImageScript [];
         action.DeleteInstance validator] |}].

Definition kubeadm_RunE (ctx : context) (f : kubeadm_flags) : M state unit :=
  match ParseTolerant (kf_kubernetesVersion f) with
  | Some err => throw (Errorf_w ("--kubernetes-version " +s+ quote (kf_kubernetesVersion f) +s+ " is not valid semver: ") err)
  | None =>
      let! (c, image) := builder_client (kf_configFile f) (kf_configRemoteName f) (kf_baseImage f) in
      wrap "failed to run kubeadm stages: "
        (Run ctx c (kf_skipStages f) (kf_onlyStages f) (kf_dryRun f) (kubeadm_stages f image))
  end.

End stages.

(** ** Properties *)

(** *** The checks *)

(** What the checks of the base image accept can be built from: it is a known
    base image, so that the name and the properties of the image are not empty,
    and it is an image that the client can resolve. *)
Theorem base_image_usable (b baseImage : string) :
  base_image b = inr baseImage →
  is_Some (wellKnownBaseImages !! baseImage) ∧ ∃ image, ParseImage baseImage = inr (Some image).
Proof.
  unfold base_image. intros Hb.
  assert (baseImage ∈ ["debian:12"; "debian:13"; "ubuntu:22.04"; "ubuntu:24.04"]) as Hin.
  { repeat case_decide; simplify_eq; [..|done]; compute_done. }
  repeat (apply elem_of_cons in Hin as [->|Hin]; [split; [by eexists|]; eexists; vm_compute; reflexivity|]).
  by apply elem_of_nil in Hin.
Qed.

(** The default flags pass the checks. *)
Lemma defaults_pass version :
  (∃ f, kubeadm_PreRunE (kubeadm_defaults version) = inr f ∧ kf_imageAlias f = "kubeadm-" +s+ version +s+ "-container") ∧
  ∃ f, haproxy_PreRunE haproxy_defaults = inr f ∧ hf_imageAlias f = "haproxy-ubuntu".
Proof. split; eexists; split; reflexivity. Qed.

(** *** Builds end *)

Section ends.
Context `{MapRange} `{Platform} `{CliPaths} `{E : Env} `{!EnvTime E}.

Lemma safe_sleep d : safe (λ _, True) (sleep d).
Proof. done. Qed.

Lemma safe_deferring {A} after (m : M state A) :
  safe (λ _, True) after → safe (λ _, True) m → safe (λ _, True) (deferring after m).
Proof. intros Ha Hm. unfold deferring. safe_auto. Qed.
Hint Resolve safe_sleep safe_deferring : capn.

(** The poll ends: every round but the last takes a second. *)
Lemma wait_agent_ends fuel c ctx name deadline s :
  within deadline (1000 * Z.of_nat fuel - 1000) s → (0 < fuel)%nat →
  wp (action.wait_agent fuel c ctx name deadline) (λ o _, match o with Ok _ | Err _ => True | _ => False end) s.
Proof.
  revert s. induction fuel as [|fuel IH]; intros s Hd Hf; [lia|]. cbn [action.wait_agent].
  wp_step. apply wp_clock. cbn beta iota. destruct (action.timer_error ctx deadline _) as [err|] eqn:Ht; [done|].
  wp_step. eapply wp_mono; [apply (wp_safe (within deadline (1000 * Z.of_nat (S fuel) - 1000))); [|done]; apply safe_RunCommand, _|].
  intros [r|err|msg|] s1 Hs1; try done. wp_step. apply wp_clock. cbn beta iota.
  destruct (action.timer_error ctx deadline (now (st_world s1))); [done|]. destruct (cr_err r); [|done].
  wp_step. unfold sleep. unfold wp at 1, modify. apply IH; unfold within in *; cbn [st_world] in *.
  - rewrite now_elapse by lia. lia.
  - destruct fuel; [|lia]. exfalso. unfold action.timer_error in Ht. destruct ctx; repeat (split_match; try done); lia.
Qed.

Lemma root_disk_replacements pools opts : lo_replacements (action.with_root_disk pools opts) = lo_replacements opts.
Proof.
  unfold action.with_root_disk. revert opts. induction pools as [|pool pools IH]; intros opts; [done|]. simpl.
  rewrite IH. by case_decide.
Qed.

(** Launching an instance without replacements. *)
Lemma safe_LaunchInstance name opts ctx c :
  default ∅ (lo_replacements opts) = ∅ → safe (λ _, True) (action.LaunchInstance name opts ctx c).
Proof.
  intros Hr. unfold action.LaunchInstance. apply safe_bind; [safe_auto|]. intros pools.
  apply safe_bind; [apply safe_wrap, safe_WaitForLaunchInstance; by rewrite root_disk_replacements|].
  intros _ s _. pose proof (wait_agent_ends action.agent_fuel c ctx name (now (st_world s) + 300000) s) as Hw.
  unfold bind, clock, wrap. unfold wp in Hw.
  destruct (action.wait_agent _ _ _ _ _ s) as [[] s']; try done; apply Hw; unfold within, action.agent_fuel; lia.
Qed.

Lemma safe_PublishImage name alias info ctx c : safe (λ _, True) (action.PublishImage name alias info ctx c).
Proof. unfold action.PublishImage, action.publish_instance. safe_auto; apply safe_WaitForOperation; safe_auto. Qed.

Lemma safe_qemuCompressImage ctx raw : safe (λ _, True) (action.qemuCompressImage ctx raw).
Proof. unfold action.qemuCompressImage. safe_auto; apply safe_deferring; safe_auto. Qed.
Hint Resolve safe_qemuCompressImage : capn.

Lemma safe_compress ctx path : safe (λ _, True) (action.compressUnifiedImageTarballRootfs ctx path).
Proof.
  unfold action.compressUnifiedImageTarballRootfs, action.copy_archive, action.copy_entry.
  repeat first [apply safe_deferring | safe_step].
Qed.

Lemma safe_ExportImage alias file ctx c : safe (λ _, True) (action.ExportImage alias file ctx c).
Proof. unfold action.ExportImage, action.download_image. safe_auto; apply safe_compress. Qed.

End ends.

(** *** What the actions leave in the log *)

(** The host did what it was asked. *)
Definition host_done {A} (c : hcall A) (a : A) : event := existT A (CHost c, inr a).

Definition waited (conn : Conn) (op : Operation) (dl : option Z) (r : error + WaitResult) : event :=
  existT _ (CIncus conn (WaitContext op dl), r).

(** The operation of a command ended, with the exit code 0. *)
Definition exited (r : error + WaitResult) : bool :=
  wait_done r && bool_decide (default 0%Z (wr_return (wait_result r)) = 0%Z).

Definition command_ran (conn : Conn) (name : string) (command : list string) (stdin : option string)
    (evs : list event) : Prop :=
  ∃ op dl r, evs = [accepted conn (ExecInstance name command stdin) op; waited conn op dl r] ∧ exited r = true.

Definition script_ran (conn : Conn) (name script : string) (args : list string) : list event → Prop :=
  command_ran conn name (["bash"; "-s"; "--"] ++ args) (Some script).

(** The last thing that happened is that the agent of the instance answered. *)
Definition agent_answered (conn : Conn) (name : string) (evs : list event) : Prop :=
  ∃ before ran, evs = before ++ ran ∧ command_ran conn name ["echo"; "hi"] None ran.

Definition stopped (conn : Conn) (name : string) (evs : list event) : Prop :=
  (∃ st, accepted conn (GetInstanceState name) st ∈ evs ∧ is_Pid st = 0%Z) ∨
  ∃ op dl r, accepted conn (UpdateInstanceState name "stop" true) op ∈ evs ∧ waited conn op dl r ∈ evs ∧
    wait_done r = true.

Definition gone (conn : Conn) (name : string) (evs : list event) : Prop :=
  reported_missing conn name evs ∨ deleted conn name evs.

(** The file has the contents of the file of the instance. *)
Definition file_copied (conn : Conn) (name source file : string) (evs : list event) : Prop :=
  ∃ reader resp contents, accepted conn (GetInstanceFile name source) (Some reader, resp) ∈ evs ∧
    rd_ReadAll reader = inr contents ∧ host_done (OSWrite file contents) tt ∈ evs.

(** The alias names an image that is newer than the last use of the instance,
    or a public image with this alias was made of the instance. *)
Definition published (conn : Conn) (name alias os release : string) (evs : list event) : Prop :=
  (∃ i a im, accepted conn (GetInstance name) i ∈ evs ∧ accepted conn (GetImageAlias alias) a ∈ evs ∧
     accepted conn (GetImage (ia_Target a)) im ∈ evs ∧ (in_LastUsedAt i < im_CreatedAt im)%Z) ∨
  ∃ post op dl r, accepted conn (CreateImageFrom post) op ∈ evs ∧ waited conn op dl r ∈ evs ∧ wait_done r = true ∧
    imp_SourceType post = "instance" ∧ imp_SourceName post = name ∧ imp_Aliases post = [alias] ∧
    imp_Public post = true ∧ imp_Properties post !! "os" = Some os ∧ imp_Properties post !! "release" = Some release.

(** The host created the file. *)
Definition creates (file : string) (e : event) : bool :=
  match e with
  | existT _ (CHost (OSCreate path), inr _) => bool_decide (path = file)
  | _ => false
  end.

(** qemu-img made the compressed image of the raw one, in a temporary directory. *)
Definition qemu_compressed (raw compressed : string) (evs : list event) : Prop :=
  ∃ dir look qemuImg extraEnv dl stderr removed,
    let uncompressedFile := filepath_Join [dir; "uncompressed.qcow2"] in
    let compressedFile := filepath_Join [dir; "compressed.qcow2"] in
    evs = [host_done OSMkdirTemp dir; host_done (OSWriteFile uncompressedFile raw) tt;
           existT _ (CHost (ExecLookPath "qemu-img"), look);
           host_done (ExecRun [qemuImg; "convert"; "-O"; "qcow2"; "-c"; uncompressedFile; compressedFile] extraEnv dl)
             (None, stderr);
           host_done (OSReadFile compressedFile) compressed;
           existT _ (CHost (OSRemoveAll dir), removed)] ∧
    (qemuImg = "/opt/incus/bin/qemu-img" ∨ look = inr qemuImg).

(** An entry of the archive went through the tar writer: the file system of the
    virtual machine compressed, under a header with the new size, anything else
    as it is. *)
Definition entry_copied (tmpFile : string) (e : tar_entry) (evs : list event) : Prop :=
  let hdr := te_Header e in
  if decide (hd_Name hdr = "rootfs.img") then
    ∃ raw compressed evs', te_Body e = inr raw ∧ qemu_compressed raw compressed evs' ∧
      evs = evs' ++
        [host_done (TarWriteHeader tmpFile {| hd_Name := hd_Name hdr; hd_Size := Z.of_nat (String.length compressed);
                                              hd_Attrs := hd_Attrs hdr |}) tt;
         host_done (TarWrite tmpFile compressed) tt]
  else
    ∃ body, te_Body e = inr body ∧
      evs = [host_done (TarWriteHeader tmpFile hdr) tt; host_done (TarWrite tmpFile body) tt].

(** Every entry of the archive in the file was copied, in order, to a new archive
    that was then moved over the file; after that the writers were closed, with
    whatever result. *)
Definition recompressed (file : string) (evs : list event) : Prop :=
  ∃ dir stream chunks r1 r2 r3 r4 r5,
    let tmpFile := filepath_Join [dir; "image.tar.gz"] in
    evs = [host_done OSMkdirTemp dir; host_done (OSOpen file) tt; host_done (ReadTarGz file) stream;
           host_done (OSCreate tmpFile) tt] ++ concat chunks ++
          [host_done (OSRename tmpFile file) tt;
           existT _ (CHost (TarClose tmpFile), r1); existT _ (CHost (GzipClose tmpFile), r2);
           existT _ (CHost (OSClose tmpFile), r3); existT _ (CHost (OSClose file), r4);
           existT _ (CHost (OSRemoveAll dir), r5)] ∧
    Forall2 (entry_copied tmpFile) (ts_Entries stream) chunks ∧ ts_End stream = None.

(** The image of the alias was downloaded into the file and cut to its size; the
    image of a virtual machine of an Incus server was then compressed. Nothing
    else happened. *)
Definition exported (c : Client) (alias file : string) (evs : list event) : Prop :=
  ∃ a size evs' closed,
    evs = [accepted (cli_Conn c) (GetImageAlias alias) a; host_done (OSCreate file) tt;
           accepted (cli_Conn c) (GetImageFile (ia_Target a) file) size; host_done (OSTruncate file size) tt] ++ evs' ++
          [existT _ (CHost (OSClose file), closed)] ∧
    if decide (GetServerName c = Incus ∧ ia_Type a = VirtualMachine) then recompressed file evs' else evs' = [].

(** Finds an event in a log. *)
Ltac in_log :=
  unfold accepted, waited, host_done; cbn [app];
  repeat first [apply list_elem_of_here | apply list_elem_of_further
               | apply elem_of_app; first [left; solve [in_log] | right; solve [in_log]]].

Section evidence.
Context `{MapRange} `{Platform} `{E : Env}.

Lemma traces_command c ctx name command stdin :
  traces (RunCommand c ctx name command stdin) (λ o evs,
    match o with Ok r => cr_err r = None → command_ran (cli_Conn c) name command stdin evs | _ => True end).
Proof.
  unfold RunCommand, wait_operation. tr_steps; [done|..]; unfold command_ran; cbn [app];
    unfold command_result, operation_error; simpl; intros Hr; eexists _, _, _; (split; [reflexivity|]);
    unfold exited, wait_done; simpl; repeat (split_match; simplify_eq/=; try done); by apply bool_decide_eq_true.
Qed.

Lemma traces_ExecInstance c ctx name script args :
  traces (action.ExecInstance name script args ctx c) (λ o evs,
    match o with Ok _ => script_ran (cli_Conn c) name script args evs | _ => True end).
Proof.
  unfold action.ExecInstance. tr_step. eapply traces_mono; [apply traces_command|]. intros [r|?|?|] evs Hr; try done.
  tr_step; tr_step; [done|]. rewrite app_nil_r. by apply Hr.
Qed.

Lemma traces_wait_agent fuel c ctx name deadline :
  traces (action.wait_agent fuel c ctx name deadline) (λ o evs,
    match o with Ok _ => agent_answered (cli_Conn c) name evs | _ => True end).
Proof.
  induction fuel as [|fuel IH]; cbn [action.wait_agent]; [by tr_step|]. do 2 tr_step. tr_step; [by tr_step|].
  tr_step. eapply traces_mono; [apply traces_command|]. intros [r|?|?|] evs Hr; try done.
  do 2 tr_step. tr_step; [by tr_step|]. tr_step.
  - do 2 tr_step. eapply traces_mono; [exact IH|]. intros [[]|?|?|] evs' Ha; try done.
    destruct Ha as (before & ran & -> & Hran). exists (evs ++ before), ran. cbn [app]. by rewrite app_assoc.
  - tr_step. exists [], evs. rewrite app_nil_r. auto.
Qed.

Lemma calls_WaitForLaunchInstance_any c ctx name opts : calls_only (λ _, True) (WaitForLaunchInstance c ctx name opts).
Proof. by apply calls_WaitForLaunchInstance. Qed.

Lemma traces_LaunchInstance c ctx name opts :
  traces (action.LaunchInstance name opts ctx c) (λ o evs,
    match o with Ok _ => agent_answered (cli_Conn c) name evs | _ => True end).
Proof.
  unfold action.LaunchInstance. do 3 tr_step; [done|]. do 2 tr_step.
  eapply traces_mono; [apply traces_calls_only, calls_WaitForLaunchInstance_any|].
  intros [?|?|?|] evs _; try done. do 3 tr_step. eapply traces_mono; [apply traces_wait_agent|].
  intros [[]|?|?|] evs' Ha; try done. destruct Ha as (before & ran & -> & Hran).
  eexists _, ran. split; [|done]. by rewrite !app_assoc.
Qed.

Lemma traces_StopInstance c ctx name :
  traces (action.StopInstance name ctx c) (λ o evs, match o with Ok _ => stopped (cli_Conn c) name evs | _ => True end).
Proof.
  unfold action.StopInstance, WaitForStopInstance, WithTimeout. do 3 tr_step. do 2 tr_step. do 3 tr_step; [done|].
  tr_step; [tr_step; left; eexists; split; [in_log|done]|].
  tr_step. apply traces_WaitForOperation. tr_step; [done|]. intros r. destruct (wait_done r) eqn:Hr; [|done].
  tr_step. right. eexists _, _, r. split_and!; [in_log|in_log|done].
Qed.

Lemma traces_DeleteInstance c ctx name :
  traces (action.DeleteInstance name ctx c) (λ o evs, match o with Ok _ => gone (cli_Conn c) name evs | _ => True end).
Proof.
  unfold action.DeleteInstance. tr_step. eapply traces_mono; [apply traces_WaitForDeleteInstance|]. by intros [].
Qed.

Lemma traces_CopyInstanceFile c ctx name source file :
  traces (action.CopyInstanceFile name source file ctx c) (λ o evs,
    match o with
    | Ok _ => file_copied (cli_Conn c) name source file evs
    | _ => ended (directory_at (cli_Conn c) name [source]) o evs
    end).
Proof.
  unfold action.CopyInstanceFile. do 3 tr_step; [done|]. do 3 tr_step; [done|]. destruct p as [[reader|] resp]; cbn beta iota.
  - do 3 tr_step. destruct (rd_ReadAll reader) as [e|b] eqn:Hb; [done|]. do 2 tr_step; [done|].
    eexists reader, resp, b. destruct u0. split_and!; [in_log|exact Hb|in_log].
  - tr_step. right. left. simpl. split_and!; [done|done|]. apply list_elem_of_here.
Qed.

Lemma image_properties_os info serial instanceType :
  action.image_properties info serial instanceType !! "os" = Some (action.pi_OperatingSystem info) ∧
  action.image_properties info serial instanceType !! "release" = Some (action.pi_Release info).
Proof. unfold action.image_properties. by destruct (_ && _). Qed.

Lemma traces_publish_instance c ctx name alias info instance :
  traces (action.publish_instance c ctx name alias info instance) (λ o evs,
    match o with
    | Ok _ => published (cli_Conn c) name alias (action.pi_OperatingSystem info) (action.pi_Release info) evs
    | _ => True
    end).
Proof.
  unfold action.publish_instance. do 3 tr_step. apply traces_WaitForOperation. do 3 tr_step; [done|].
  intros r. destruct (wait_done r) eqn:Hr; [|done]. tr_step. right. eexists _, _, _, r.
  split_and!; [in_log|in_log|done|done|done|done|done|apply image_properties_os..].
Qed.

Lemma published_app conn name alias os release evs evs' :
  published conn name alias os release evs' → published conn name alias os release (evs ++ evs').
Proof.
  intros [(i & a & im & H1 & H2 & H3 & Hl)|(post & op & dl & r & H1 & H2 & Hr)]; [left; exists i, a, im|right; exists post, op, dl, r];
    rewrite !elem_of_app; auto.
Qed.

Lemma traces_PublishImage c ctx name alias info :
  traces (action.PublishImage name alias info ctx c) (λ o evs,
    match o with
    | Ok _ => published (cli_Conn c) name alias (action.pi_OperatingSystem info) (action.pi_Release info) evs
    | _ => True
    end).
Proof.
  assert (∀ instance pre, traces (action.publish_instance c ctx name alias info instance) (λ o evs,
    match o with
    | Ok _ => published (cli_Conn c) name alias (action.pi_OperatingSystem info) (action.pi_Release info) (pre ++ evs)
    | _ => True
    end)) as Hp.
  { intros instance pre. eapply traces_mono; [apply traces_publish_instance|]. intros [] evs; [apply published_app|done..]. }
  unfold action.PublishImage. do 3 tr_step; [done|]. do 3 tr_step; [apply (Hp _ [_; _])|].
  do 3 tr_step; [|tr_step; [tr_step; left; eexists _, _, _; split_and!; [in_log..|by apply Z.ltb_lt]|]].
  all: do 3 tr_step; [done|apply (Hp _ [_; _; _; _])].
Qed.

(** Exporting. *)
Lemma traces_deferring {A} (c : hcall unit) (m : M state A) (Q : A → list event → Prop) :
  traces m (λ o evs, match o with Ok a => Q a evs | _ => True end) →
  traces (deferring (host c) m) (λ o evs, match o with
    | Ok a => ∃ evs' r, evs = evs' ++ [existT _ (CHost c, r)] ∧ Q a evs'
    | _ => True end).
Proof.
  intros Hm. unfold deferring. do 2 tr_step. eapply traces_mono; [exact Hm|].
  intros [a|err|msg|] evs He; try done; cbn beta iota.
  - do 4 tr_step; eauto.
  - do 4 tr_step; done.
Qed.

Lemma traces_qemuCompressImage ctx raw :
  traces (action.qemuCompressImage ctx raw) (λ o evs, match o with Ok b => qemu_compressed raw b evs | _ => True end).
Proof.
  unfold action.qemuCompressImage. do 3 tr_step; [done|]. set (uncompressed := filepath_Join _). set (compressed := filepath_Join _).
  eapply traces_mono.
  { apply (traces_deferring _ _ (λ b evs, ∃ look qemuImg extraEnv stderr,
      evs = [host_done (OSWriteFile uncompressed raw) tt; existT _ (CHost (ExecLookPath "qemu-img"), look);
             host_done (ExecRun [qemuImg; "convert"; "-O"; "qcow2"; "-c"; uncompressed; compressed] extraEnv ctx) (None, stderr);
             host_done (OSReadFile compressed) b] ∧ (qemuImg = "/opt/incus/bin/qemu-img" ∨ look = inr qemuImg))).
    do 3 tr_step; [done|]. destruct u. do 3 tr_step; cbn beta iota.
    all: do 3 tr_step; [by tr_step|]. all: destruct p as [[err|] stderr]; cbn beta iota; [by tr_step|].
    all: do 2 tr_step; [done|]. all: eexists _, _, _, stderr; split; [done|auto]. }
  intros [b|?|?|] evs Hq; try done. destruct Hq as (evs' & r & -> & look & qemuImg & extraEnv & stderr & -> & Hw).
  by exists s, look, qemuImg, extraEnv, ctx, stderr, r.
Qed.

Lemma traces_copy_entry ctx tmpFile e :
  traces (action.copy_entry ctx tmpFile e) (λ o evs, match o with Ok _ => entry_copied tmpFile e evs | _ => True end).
Proof.
  unfold action.copy_entry, entry_copied. cbv zeta. destruct (decide (hd_Name (te_Header e) = "rootfs.img")).
  - do 3 tr_step. destruct (te_Body e) as [err|raw]; [done|]. do 2 tr_step.
    eapply traces_mono; [apply traces_qemuCompressImage|]. intros [b|?|?|] evs Hq; try done.
    do 3 tr_step; [done|]. do 2 tr_step; [done|]. destruct u, u0. exists raw, b, evs. done.
  - do 3 tr_step; [done|]. do 3 tr_step. destruct (te_Body e) as [err|body]; [done|]. do 2 tr_step; [done|].
    destruct u, u0. by exists body.
Qed.

Lemma traces_copy_archive ctx stream tmpFile path :
  traces (action.copy_archive ctx stream tmpFile path) (λ o evs, match o with
    | Ok _ => ∃ chunks, evs = concat chunks ++ [host_done (OSRename tmpFile path) tt] ∧
        Forall2 (entry_copied tmpFile) (ts_Entries stream) chunks ∧ ts_End stream = None
    | _ => True end).
Proof.
  unfold action.copy_archive. tr_step.
  assert (Hloop : ∀ l, traces (for_each l (action.copy_entry ctx tmpFile)) (λ o evs, match o with
    | Ok _ => ∃ chunks, evs = concat chunks ∧ Forall2 (entry_copied tmpFile) l chunks | _ => True end)).
  { induction l as [|e l IH]; cbn [for_each]; [tr_step; by exists []|]. tr_step.
    eapply traces_mono; [apply traces_copy_entry|]. intros [?|?|?|] evs He; try done.
    eapply traces_mono; [exact IH|]. intros [?|?|?|] evs' Hl; try done. destruct Hl as (chunks & -> & Hl).
    exists (evs :: chunks). split; [done|by constructor]. }
  eapply traces_mono; [apply Hloop|]. intros [?|?|?|] evs Hl; try done. destruct Hl as (chunks & -> & Hl).
  destruct (ts_End stream); [by tr_step|]. do 2 tr_step; [done|]. destruct u. by exists chunks.
Qed.

(** The archive is written, moved, and then the writers are closed. *)
Definition archive_written (tmpFile path : string) (stream : tar_stream) (evs : list event) : Prop :=
  ∃ chunks r1 r2 r3,
    evs = concat chunks ++ [host_done (OSRename tmpFile path) tt; existT _ (CHost (TarClose tmpFile), r1);
                            existT _ (CHost (GzipClose tmpFile), r2); existT _ (CHost (OSClose tmpFile), r3)] ∧
    Forall2 (entry_copied tmpFile) (ts_Entries stream) chunks ∧ ts_End stream = None.

Lemma traces_write_archive ctx stream tmpFile path :
  traces (deferring (host (OSClose tmpFile)) (deferring (host (GzipClose tmpFile)) (deferring (host (TarClose tmpFile))
    (action.copy_archive ctx stream tmpFile path))))
    (λ o evs, match o with Ok _ => archive_written tmpFile path stream evs | _ => True end).
Proof.
  eapply traces_mono; [do 3 eapply traces_deferring; apply traces_copy_archive|].
  intros [u|?|?|] evs Hw; try done.
  destruct Hw as (? & r3 & -> & ? & r2 & -> & ? & r1 & -> & chunks & -> & Hl & He).
  exists chunks, r1, r2, r3. by rewrite <- !app_assoc.
Qed.

Lemma traces_compress ctx path :
  traces (action.compressUnifiedImageTarballRootfs ctx path) (λ o evs, match o with Ok _ => recompressed path evs | _ => True end).
Proof.
  unfold action.compressUnifiedImageTarballRootfs. do 3 tr_step; [done|]. set (tmpFile := filepath_Join _).
  eapply traces_mono.
  { apply (traces_deferring _ _ (λ _ evs, ∃ evs' r, evs = host_done (OSOpen path) tt :: evs' ++ [existT _ (CHost (OSClose path), r)] ∧
      ∃ stream evs0, evs' = [host_done (ReadTarGz path) stream; host_done (OSCreate tmpFile) tt] ++ evs0 ∧
        archive_written tmpFile path stream evs0)).
    do 3 tr_step; [done|]. destruct u. eapply traces_mono.
    { apply (traces_deferring _ _ (λ _ evs', ∃ stream evs0, evs' = [host_done (ReadTarGz path) stream;
        host_done (OSCreate tmpFile) tt] ++ evs0 ∧ archive_written tmpFile path stream evs0)).
      do 3 tr_step; [done|]. do 3 tr_step; [done|]. destruct u. eapply traces_mono; [apply traces_write_archive|].
      intros [?|?|?|] evs Hw; try done. by eexists _, evs. }
    intros [?|?|?|] evs Hw; try done. destruct Hw as (evs' & r & -> & Hw). by exists evs', r. }
  intros [?|?|?|] evs Hw; try done.
  destruct Hw as (? & r5 & -> & ? & r4 & -> & stream & ? & -> & chunks & r1 & r2 & r3 & -> & Hl & He).
  exists s, stream, chunks, r1, r2, r3, r4, r5. split_and!; [|done|done]. cbn [app]. by rewrite <- !app_assoc.
Qed.

Lemma traces_download_image c ctx image file :
  traces (action.download_image c ctx image file) (λ o evs,
    match o with
    | Ok _ => ∃ size evs', evs = [accepted (cli_Conn c) (GetImageFile (ia_Target image) file) size;
                                  host_done (OSTruncate file size) tt] ++ evs' ∧
                if decide (GetServerName c = Incus ∧ ia_Type image = VirtualMachine) then recompressed file evs' else evs' = []
    | _ => True
    end).
Proof.
  unfold action.download_image. do 3 tr_step; [done|]. do 3 tr_step; [done|]. destruct u. tr_step.
  - apply andb_true_iff in Heqb as [H1%bool_decide_eq_true H2%bool_decide_eq_true].
    tr_step. eapply traces_mono; [apply traces_compress|]. intros [?|?|?|] evs Hr; try done.
    exists z, evs. by rewrite decide_True.
  - tr_step. exists z, []. rewrite decide_False; [done|]. intros [H1 H2]. by rewrite !bool_decide_true in Heqb by done.
Qed.

Lemma traces_ExportImage c ctx alias file :
  traces (action.ExportImage alias file ctx c) (λ o evs,
    match o with
    | Ok _ => exported c alias file evs
    | Err _ => Forall (λ e, creates file e = false) evs ∨ ∃ r, last evs = Some (existT _ (CHost (OSRemove file), r))
    | _ => True
    end).
Proof.
  unfold action.ExportImage. do 3 tr_step; [left; repeat constructor|]. do 3 tr_step; [left; repeat constructor|].
  do 2 tr_step. eapply traces_mono; [apply traces_download_image|]. intros [[]|err|msg|] evs Hd; try done.
  - destruct Hd as (size & evs' & -> & Hr). destruct u. tr_steps; eexists i, size, evs', _; (split; [|exact Hr]);
      cbn [app]; done.
  - tr_steps; right; eexists; rewrite ?app_assoc, ?app_nil_r; apply last_snoc.
Qed.

(** *** Stages *)

(** The stages that are run: all of them without a filter. *)
Definition selected (skipStages onlyStages : list string) (dryRun : bool) (name : string) : bool :=
  negb dryRun && negb (Contains_name skipStages name) &&
  (bool_decide (onlyStages = []) || Contains_name onlyStages name).

Lemma run_selected skip only (dry : bool) name (m : M state unit) :
  (if dry then ret tt
   else if Contains_name skip name then ret tt
   else if (0 <? length only)%nat && negb (Contains_name only name) then ret tt
   else m) = if selected skip only dry name then m else ret tt.
Proof.
  unfold selected. destruct dry, (Contains_name skip name); try done. destruct only; [done|]. simpl.
  by destruct (_ || _).
Qed.

(** A computation that leaves evidence when it succeeds, and panics only after an
    answer such as [D]. *)
Definition evidenced (D : event → Prop) (Q : list event → Prop) (m : M state unit) : Prop :=
  traces m (λ o evs, match o with Ok _ => Q evs | _ => ended D o evs end).

Lemma safe_evidenced D Q m :
  safe (λ _, True) m → traces m (λ o evs, match o with Ok _ => Q evs | _ => True end) → evidenced D Q m.
Proof.
  intros Hs Ht s. destruct (Ht s) as (evs & Hl & HQ). exists evs. split; [exact Hl|].
  specialize (Hs s I). by destruct (m s) as [[] s'].
Qed.

Lemma ended_app {A B} D (o : outcome A) (o' : outcome B) evs evs' :
  match o' with Ok _ | Err _ => True | Panic _ => ∃ msg, o = Panic msg | OutOfFuel => o = OutOfFuel end →
  ended D o evs → ended D o' (evs' ++ evs).
Proof. unfold ended. destruct o', o; rewrite ?Exists_app; naive_solver. Qed.

Lemma evidenced_bind D (Q1 Q2 : list event → Prop) (m : M state unit) (k : unit → M state unit) :
  evidenced D Q1 m → (∀ u, evidenced D Q2 (k u)) →
  evidenced D (λ evs, ∃ e1 e2, evs = e1 ++ e2 ∧ Q1 e1 ∧ Q2 e2) (bind m k).
Proof.
  intros Hm Hk. apply traces_bind. eapply traces_mono; [exact Hm|]. intros [u|?|?|] evs He; try done.
  eapply traces_mono; [apply Hk|]. intros [u'|?|?|] evs' He'; [by exists evs, evs'|..]; (eapply ended_app; [|exact He']); eauto.
Qed.

Lemma evidenced_wrap D Q pre m : evidenced D Q m → evidenced D Q (wrap pre m).
Proof. intros Hm. apply traces_wrap. eapply traces_mono; [exact Hm|]. by intros []. Qed.

Lemma evidenced_mono D (Q Q' : list event → Prop) m : (∀ evs, Q evs → Q' evs) → evidenced D Q m → evidenced D Q' m.
Proof. intros HQ Hm. eapply traces_mono; [exact Hm|]. intros [] evs; auto. Qed.

(** Running stages whose actions leave evidence: the selected ones do, in their
    order, and nothing else is in the log. *)
Lemma evidenced_Run D ctx c skip only dry stages (evidence : list (string * (list event → Prop))) :
  Forall2 (λ stage ev, stg_Name stage = ev.1 ∧ evidenced D ev.2 (stg_Action stage ctx c)) stages evidence →
  evidenced D (λ evs, ∃ chunks, evs = concat chunks ∧
                 Forall2 (λ ev evs, ev.2 evs) (List.filter (λ ev, selected skip only dry ev.1) evidence) chunks)
    (Run ctx c skip only dry stages).
Proof.
  unfold Run. induction 1 as [|stage ev stages evidence [Hn Hs] _ IH]; cbn [for_each List.filter].
  { apply traces_ret. by exists []. }
  rewrite run_selected, <- Hn. destruct (selected skip only dry (stg_Name stage)).
  - eapply evidenced_mono; [|apply evidenced_bind; [by apply evidenced_wrap|intros _; exact IH]].
    intros evs (evs1 & evs2 & -> & Hev & chunks & -> & Hall). exists (evs1 :: chunks). split; [done|by constructor].
  - apply traces_bind, traces_ret. exact IH.
Qed.

Lemma traces_Wait d ctx c :
  traces (action.Wait d ctx c) (λ o evs, match o with Ok _ => evs = [] | _ => True end).
Proof. unfold action.Wait. tr_steps; done. Qed.

End evidence.

(** *** Builds *)

Section builds.
Context `{MapRange} `{Platform} `{CliPaths} `{E : Env} `{!EnvTime E}.

Lemma safe_builder_client file remote image : safe (λ _, True) (builder_client file remote image).
Proof. unfold builder_client. safe_auto; [apply safe_ConfigurationFromLocal|apply safe_New, _]. Qed.

Lemma calls_builder_client file remote image : calls_only no_incus_write (builder_client file remote image).
Proof. unfold builder_client. calls_auto; [apply calls_ConfigurationFromLocal|apply calls_New]. Qed.

(** What every stage of a build leaves in the log. *)
Definition kubeadm_evidence (c : Client) (f : kubeadm_flags) : list (string * (list event → Prop)) :=
  let conn := cli_Conn c in
  let name := kf_instanceName f in
  let validator := kf_validationInstanceName f in
  [("create-instance", agent_answered conn name);
   ("install-kubeadm", script_ran conn name InstallKubeadmScript [kf_kubernetesVersion f]);
   ("pull-extra-images", script_ran conn name PullImagesScript (kf_pullExtraImages f));
   ("generate-manifest", script_ran conn name GenerateManifestScript []);
   ("export-manifest", file_copied conn name "/opt/manifest.txt" (kf_outputManifestFile f));
   ("prepare-instance", script_ran conn name CleanupInstanceScript []);
   ("stop-grace-period", λ evs, evs = []);
   ("stop-instance", stopped conn name);
   ("publish-image", published conn name (kf_imageAlias f) "kubeadm" (kf_kubernetesVersion f));
   ("export-image", exported c (kf_imageAlias f) (kf_outputFile f));
   ("delete-instance", gone conn name);
   ("validate-image", λ evs, ∃ launch validate delete, evs = launch ++ validate ++ delete ∧
      agent_answered conn validator launch ∧ script_ran conn validator ValidateKubeadmImageScript [] validate ∧
      gone conn validator delete)].

Definition haproxy_evidence (c : Client) (f : haproxy_flags) : list (string * (list event → Prop)) :=
  let conn := cli_Conn c in
  let name := hf_instanceName f in
  [("create-instance", agent_answered conn name);
   ("install-haproxy", script_ran conn name InstallHaproxyScript []);
   ("prepare-instance", script_ran conn name CleanupInstanceScript []);
   ("stop-instance", stopped conn name);
   ("publish-image", published conn name (hf_imageAlias f) "haproxy" (releaseName (base_image_info (hf_baseImage f))));
   ("export-image", exported c (hf_imageAlias f) (hf_outputFile f));
   ("delete-instance", gone conn name)].

(** The build connected, and then left the evidence of the selected stages. *)
Definition built (skip only : list string) (dry : bool) (evidence : Client → list (string * (list event → Prop)))
    (evs : list event) : Prop :=
  ∃ c setup chunks, evs = setup ++ concat chunks ∧ Forall no_incus_write setup ∧
    Forall2 (λ ev evs, ev.2 evs) (List.filter (λ ev, selected skip only dry ev.1) (evidence c)) chunks.

Lemma evidenced_Chain3 D ctx c a1 a2 a3 (Q1 Q2 Q3 : list event → Prop) :
  evidenced D Q1 (a1 ctx c) → evidenced D Q2 (a2 ctx c) → evidenced D Q3 (a3 ctx c) →
  evidenced D (λ evs, ∃ e1 e2 e3, evs = e1 ++ e2 ++ e3 ∧ Q1 e1 ∧ Q2 e2 ∧ Q3 e3) (action.Chain [a1; a2; a3] ctx c).
Proof.
  intros Ha1 Ha2 Ha3. unfold action.Chain.
  change (imap pair [a1; a2; a3]) with [(0%nat, a1); (1%nat, a2); (2%nat, a3)]. cbn [for_each].
  eapply evidenced_mono; [|apply evidenced_bind; [by apply evidenced_wrap|intros _; apply evidenced_bind;
    [by apply evidenced_wrap|intros _; apply (evidenced_bind D Q3 (λ evs, evs = [])); [by apply evidenced_wrap|intros _; by apply traces_ret]]]].
  intros evs (e1 & ? & -> & H1' & e2 & ? & -> & H2' & e3 & ? & -> & H3' & ->). exists e1, e2, e3. by rewrite app_nil_r.
Qed.

(** The actions, one by one. *)
Lemma evidenced_LaunchInstance D c ctx name opts :
  default ∅ (lo_replacements opts) = ∅ →
  evidenced D (agent_answered (cli_Conn c) name) (action.LaunchInstance name opts ctx c).
Proof. intros Hr. apply safe_evidenced; [by apply safe_LaunchInstance|apply traces_LaunchInstance]. Qed.

Lemma evidenced_ExecInstance D c ctx name script args :
  evidenced D (script_ran (cli_Conn c) name script args) (action.ExecInstance name script args ctx c).
Proof. apply safe_evidenced; [unfold action.ExecInstance; safe_auto|apply traces_ExecInstance]. Qed.

Lemma evidenced_Wait D d ctx c : evidenced D (λ evs, evs = []) (action.Wait d ctx c).
Proof. apply safe_evidenced; [unfold action.Wait; safe_auto; apply safe_sleep|apply traces_Wait]. Qed.

Lemma evidenced_StopInstance D c ctx name : evidenced D (stopped (cli_Conn c) name) (action.StopInstance name ctx c).
Proof. apply safe_evidenced; [unfold action.StopInstance; safe_auto|apply traces_StopInstance]. Qed.

Lemma evidenced_DeleteInstance D c ctx name : evidenced D (gone (cli_Conn c) name) (action.DeleteInstance name ctx c).
Proof. apply safe_evidenced; [unfold action.DeleteInstance; safe_auto|apply traces_DeleteInstance]. Qed.

Lemma evidenced_PublishImage D c ctx name alias info :
  evidenced D (published (cli_Conn c) name alias (action.pi_OperatingSystem info) (action.pi_Release info))
    (action.PublishImage name alias info ctx c).
Proof. apply safe_evidenced; [apply safe_PublishImage|apply traces_PublishImage]. Qed.

Lemma evidenced_ExportImage D c ctx alias file :
  evidenced D (exported c alias file) (action.ExportImage alias file ctx c).
Proof.
  apply safe_evidenced; [apply safe_ExportImage|]. eapply traces_mono; [apply traces_ExportImage|]. by intros [].
Qed.

(** The manifest that the builder is asked for is a directory. *)
Definition manifest_directory (f : kubeadm_flags) (c : Client) : event → Prop :=
  directory_at (cli_Conn c) (kf_instanceName f) ["/opt/manifest.txt"].

Lemma WithImage_replacements image opts : lo_replacements (WithImage image opts) = lo_replacements opts.
Proof. unfold WithImage. by repeat case_match. Qed.

Lemma kubeadm_stages_evidence ctx c f image :
  Forall2 (λ stage ev, stg_Name stage = ev.1 ∧ evidenced (manifest_directory f c) ev.2 (stg_Action stage ctx c))
    (kubeadm_stages f image) (kubeadm_evidence c f).
Proof.
  unfold kubeadm_stages, kubeadm_evidence, kubeadm_options. cbv zeta.
  repeat (constructor; [split; [reflexivity|]; cbn [stg_Action snd]|]); [..|constructor].
  all: try first [apply evidenced_LaunchInstance; by rewrite ?WithImage_replacements | apply evidenced_ExecInstance | apply traces_CopyInstanceFile
                 | apply evidenced_Wait | apply evidenced_StopInstance | apply evidenced_DeleteInstance | apply evidenced_ExportImage].
  - apply (evidenced_PublishImage _ c ctx _ _ (kubeadm_info f)).
  - apply evidenced_Chain3; [apply evidenced_LaunchInstance; by rewrite ?WithImage_replacements|apply evidenced_ExecInstance|apply evidenced_DeleteInstance].
Qed.

Lemma haproxy_stages_evidence ctx c f image :
  Forall2 (λ stage ev, stg_Name stage = ev.1 ∧ evidenced (λ _, False) ev.2 (stg_Action stage ctx c))
    (haproxy_stages f image) (haproxy_evidence c f).
Proof.
  unfold haproxy_stages, haproxy_evidence. cbv zeta.
  repeat (constructor; [split; [reflexivity|]; cbn [stg_Action snd]|]); [..|constructor].
  all: first [apply evidenced_LaunchInstance; by rewrite ?WithImage_replacements | apply evidenced_ExecInstance | apply evidenced_StopInstance
             | apply evidenced_DeleteInstance | apply evidenced_PublishImage | apply evidenced_ExportImage].
Qed.

(** A build is a client, then stages. *)
Lemma build_outcome file remote base ctx pre skip only dry (stages : option ImageFamily → list Stage) evidence D s :
  (∀ c image, Forall2 (λ stage ev, stg_Name stage = ev.1 ∧ evidenced (D c) ev.2 (stg_Action stage ctx c))
     (stages image) (evidence c)) →
  let r := (let! (c, image) := builder_client file remote base in wrap pre (Run ctx c skip only dry (stages image))) s in
  ∃ evs, st_log r.2 = st_log s ++ evs ∧
    match r.1 with
    | Ok _ => built skip only dry evidence evs
    | Err _ => True
    | Panic _ => ∃ c, Exists (D c) evs
    | OutOfFuel => False
    end.
Proof.
  intros Hev. cbv zeta. set (m := bind _ _).
  assert (traces m (λ o evs, match o with
    | Ok _ => built skip only dry evidence evs
    | Err _ => True
    | Panic _ => ∃ c, Exists (D c) evs
    | OutOfFuel => False end)) as Ht; [|exact (Ht s)].
  apply traces_bind. eapply traces_mono; [apply traces_and; [apply traces_calls_only, calls_builder_client|]|].
  { intros s0. destruct (traces_calls_only _ _ (calls_builder_client file remote base) s0) as (evs & Hl & _).
    exists evs. split; [exact Hl|]. instantiate (1 := λ o _, match o with Ok _ | Err _ => True | _ => False end).
    pose proof (safe_builder_client file remote base s0 I) as Hsafe. by destruct (builder_client file remote base s0) as [[] ?]. }
  intros [[c image]|?|?|] setup [Hsetup Hends]; try done.
  eapply traces_mono; [apply evidenced_wrap, evidenced_Run, Hev|].
  intros [[]|?|?|] evs Hc; try done.
  - destruct Hc as (chunks & -> & Hall). by exists c, setup, chunks.
  - exists c. apply Exists_app. by right.
Qed.


(** A haproxy image is built without a panic. *)
Theorem haproxy_build_outcome (ctx : context) (f : haproxy_flags) (s : state) :
  let r := haproxy_RunE ctx f s in
  ∃ evs, st_log r.2 = st_log s ++ evs ∧
    match r.1 with
    | Ok _ => built (hf_skipStages f) (hf_onlyStages f) (hf_dryRun f) (λ c, haproxy_evidence c f) evs
    | Err _ => True
    | _ => False
    end.
Proof.
  destruct (build_outcome (hf_configFile f) (hf_configRemoteName f) (hf_baseImage f) ctx "failed to run kubeadm stages: "
    (hf_skipStages f) (hf_onlyStages f) (hf_dryRun f) (haproxy_stages f) (λ c, haproxy_evidence c f) (λ _ _, False) s)
    as (evs & Hl & Ho); [intros c image; apply haproxy_stages_evidence|].
  exists evs. split; [exact Hl|]. revert Ho. unfold haproxy_RunE. destruct (bind _ _ s).1; try done.
  intros (c & (e & _ & [])%Exists_exists).
Qed.

(** C37: Exporting an image ends without a panic. When it succeeds, the image of
    the alias was downloaded into the file and cut to its size; for a virtual
    machine of an Incus server every entry of the archive was then written, in
    order, to a new archive, the file system as qemu-img compressed it and the
    others unchanged, and the new archive was moved over the file. Only after that
    are its writers closed, and whether that succeeds is not looked at. When the
    export fails, the file was never created, or the last thing that happens is
    its removal. *)
Theorem ExportImage_outcome (c : Client) (ctx : context) (alias file : string) (s : state) :
  let r := action.ExportImage alias file ctx c s in
  ∃ evs, st_log r.2 = st_log s ++ evs ∧
    match r.1 with
    | Ok _ => exported c alias file evs
    | Err _ => Forall (λ e, creates file e = false) evs ∨ ∃ r, last evs = Some (existT _ (CHost (OSRemove file), r))
    | _ => False
    end.
Proof.
  pose proof (safe_ExportImage alias file ctx c s I) as Hs. destruct (traces_ExportImage c ctx alias file s) as (evs & Hl & He).
  exists evs. split; [exact Hl|]. by destruct (action.ExportImage alias file ctx c s) as [[] s'].
Qed.

End builds.

(** ** Runs on the sample server *)

#[local] Existing Instance sample_env.
#[local] Existing Instance sample_paths.
#[local] Instance sample_platform : Platform :=
  {| GOARCH := "amd64"; Date := λ _, (1970, 1, 1, 0, 0)%Z; AddYears := λ n t, (t + n * 31556952000)%Z;
     ParseTolerant := λ v, if HasPrefix v "v" then None else Some (errorString "no version") |}.

(** The flags after the checks. *)
Definition sample_checked_flags : kubeadm_flags :=
  match kubeadm_PreRunE (kubeadm_defaults "v1.33.0") with inr f => f | inl _ => kubeadm_defaults "" end.

Example sample_checked :
  kf_baseImage sample_checked_flags = "ubuntu:24.04" ∧ kf_imageAlias sample_checked_flags = "kubeadm-v1.33.0-container".
Proof. vm_compute. auto. Qed.


(** The archive of the sample host has two entries; both are copied. *)
Example sample_recompressed :
  (action.compressUnifiedImageTarballRootfs None "image.tar.gz" (sample_state sample_empty)).1 = Ok tt ∧
  length (st_log (action.compressUnifiedImageTarballRootfs None "image.tar.gz" (sample_state sample_empty)).2) = 20%nat.
Proof. vm_compute. auto. Qed.
