(* ===== verification/Scheme.v ===== *)
(** * Registration of the API types: groupversion_info.go, the init functions of
      the *_types.go files, and init of cmd/main.go

    The types of the API register themselves with a builder when the program is
    loaded, and the manager adds what is registered to the scheme that its
    client uses. The scheme and the builder are libraries (k8s.io/apimachinery
    and controller-runtime), parameters here. *)

From S2P Require Import Prelude GoStrings Go.

Record GroupVersionT := { gv_Group : string; gv_Version : string }.

Definition GroupVersion : GroupVersionT :=
  {| gv_Group := "infrastructure.cluster.x-k8s.io"; gv_Version := "v1alpha2" |}.

(** The root types of the package. *)
Inductive APIType :=
| TLXCCluster | TLXCClusterList | TLXCClusterTemplate | TLXCClusterTemplateList
| TLXCMachine | TLXCMachineList | TLXCMachineTemplate | TLXCMachineTemplateList.

(** The kind of a type is the name of its Go type. *)
Definition kind_of (t : APIType) : string :=
  match t with
  | TLXCCluster => "LXCCluster" | TLXCClusterList => "LXCClusterList"
  | TLXCClusterTemplate => "LXCClusterTemplate" | TLXCClusterTemplateList => "LXCClusterTemplateList"
  | TLXCMachine => "LXCMachine" | TLXCMachineList => "LXCMachineList"
  | TLXCMachineTemplate => "LXCMachineTemplate" | TLXCMachineTemplateList => "LXCMachineTemplateList"
  end.

#[export] Instance kind_of_inj : Inj (=) (=) kind_of.
Proof. by intros [] []. Qed.

(** The libraries: a scheme and what it knows by group, version and kind; a
    builder for a group and version, and what was registered with it; the
    functions that add the types of Kubernetes and of Cluster API. *)
Class Schemes := {
  Scheme : Type;
  NewScheme : Scheme;
  knows : Scheme → GroupVersionT → string → Prop;
  Builder : Type;
  NewBuilder : GroupVersionT → Builder;
  Register : Builder → list APIType → Builder;
  AddToScheme : Builder → M Scheme unit;
  clientgo_AddToScheme : M Scheme unit;
  clusterv1_AddToScheme : M Scheme unit
}.

(** What is documented: a builder adds the types that were registered with it,
    under its group and version; what a scheme knows stays known. *)
Class SchemesSpec `(S : Schemes) := {
  builder_types : Builder → GroupVersionT → list APIType → Prop;
  NewBuilder_types : ∀ gv, builder_types (NewBuilder gv) gv [];
  Register_types : ∀ b gv l l', builder_types b gv l → builder_types (Register b l') gv (l ++ l');
  AddToScheme_knows : ∀ b gv l s, builder_types b gv l →
    ∃ s', AddToScheme b s = (Ok tt, s') ∧ (∀ t, t ∈ l → knows s' gv (kind_of t)) ∧
      ∀ gv' k, knows s gv' k → knows s' gv' k;
  clientgo_keeps : ∀ s r s' gv k, clientgo_AddToScheme s = (r, s') → knows s gv k → knows s' gv k;
  clusterv1_keeps : ∀ s r s' gv k, clusterv1_AddToScheme s = (r, s') → knows s gv k → knows s' gv k
}.

Section scheme.
Context `{Schemes}.

(** The init functions of the package, in the order of its files. *)
Definition init_lxccluster_types (b : Builder) : Builder := Register b [TLXCCluster; TLXCClusterList].
Definition init_lxcclustertemplate_types (b : Builder) : Builder := Register b [TLXCClusterTemplate; TLXCClusterTemplateList].
Definition init_lxcmachine_types (b : Builder) : Builder := Register b [TLXCMachine; TLXCMachineList].
Definition init_lxcmachinetemplate_types (b : Builder) : Builder := Register b [TLXCMachineTemplate; TLXCMachineTemplateList].

(** [SchemeBuilder] once the package is loaded. *)
Definition SchemeBuilder : Builder :=
  init_lxcmachinetemplate_types (init_lxcmachine_types (init_lxcclustertemplate_types (init_lxccluster_types (NewBuilder GroupVersion)))).

(** [utilruntime.Must]: an error is a panic. *)
Definition Must (m : M Scheme unit) : M Scheme unit :=
  let! r := try m in match r with inl err => panic (Error err) | inr _ => ret tt end.

(** [init] of cmd/main.go *)
Definition init_scheme : M Scheme unit :=
  Must clientgo_AddToScheme ;;
  Must clusterv1_AddToScheme ;;
  Must (AddToScheme SchemeBuilder).

Context `{!SchemesSpec _}.

(** Every root type is registered, once. *)
Lemma SchemeBuilder_types : ∃ l, builder_types SchemeBuilder GroupVersion l ∧ NoDup l ∧ ∀ t, t ∈ l.
Proof.
  eexists. split; [unfold SchemeBuilder; do 4 apply Register_types; apply NewBuilder_types|].
  split; [repeat constructor; set_solver|intros []; set_solver].
Qed.

Lemma Must_Ok m s s' : m s = (Ok tt, s') → Must m s = (Ok tt, s').
Proof. intros Hm. unfold Must, bind, try. by rewrite Hm. Qed.

(** When the types of Kubernetes and of Cluster API can be added, then so can
    those of the provider, and the scheme knows all of them and what it knew. *)
Theorem init_scheme_knows s s1 s2 :
  clientgo_AddToScheme s = (Ok tt, s1) → clusterv1_AddToScheme s1 = (Ok tt, s2) →
  ∃ s', init_scheme s = (Ok tt, s') ∧ (∀ t, knows s' GroupVersion (kind_of t)) ∧ ∀ gv k, knows s gv k → knows s' gv k.
Proof.
  intros H1 H2. destruct SchemeBuilder_types as (l & Hl & _ & Hall).
  destruct (AddToScheme_knows _ _ _ s2 Hl) as (s' & H3 & Hk & Hkeep). exists s'. split; [|split].
  - unfold init_scheme, bind. by rewrite (Must_Ok _ _ _ H1), (Must_Ok _ _ _ H2), (Must_Ok _ _ _ H3).
  - intros t. by apply Hk.
  - intros gv k Hs. eapply Hkeep, clusterv1_keeps, clientgo_keeps; done.
Qed.

End scheme.

(** A scheme as a list of kinds, and a builder as the list of its types. *)
Definition list_schemes : Schemes :=
  {| Scheme := list (GroupVersionT * string); NewScheme := []; knows := λ s gv k, (gv, k) ∈ s;
     Builder := GroupVersionT * list APIType; NewBuilder := λ gv, (gv, []); Register := λ b l, (b.1, b.2 ++ l);
     AddToScheme := λ b, modify (λ s, s ++ ((λ t, (b.1, kind_of t)) <$> b.2));
     clientgo_AddToScheme := modify (λ s, s ++ [({| gv_Group := ""; gv_Version := "v1" |}, "Secret")]);
     clusterv1_AddToScheme := modify (λ s, s ++ [({| gv_Group := "cluster.x-k8s.io"; gv_Version := "v1beta1" |}, "Cluster")]) |}.

#[export] Instance list_schemes_spec : SchemesSpec list_schemes.
Proof.
  refine {| builder_types := λ b gv l, (b : @Builder list_schemes) = (gv, l) |}.
  - done.
  - by intros ?? l l' ->.
  - intros ? gv l s ->. eexists. split; [reflexivity|]. simpl. split; [|set_solver].
    intros t Ht. apply elem_of_app. right. apply list_elem_of_fmap. by exists t.
  - intros s r s' gv k. simpl. unfold modify. intros [= <- <-] Hk. set_solver.
  - intros s r s' gv k. simpl. unfold modify. intros [= <- <-] Hk. set_solver.
Qed.

Lemma init_scheme_knows_witness : ∃ s', @init_scheme list_schemes [] = (Ok tt, s') ∧ ∀ t, @knows list_schemes s' GroupVersion (kind_of t).
Proof.
  destruct (@init_scheme_knows list_schemes list_schemes_spec [] _ _ eq_refl eq_refl) as (s' & Hs & Hk & _).
  exists s'. split; [exact Hs|exact Hk].
Defined.
