(* ===== verification/Manager.v ===== *)
(** * The controller manager: cmd/main.go, SetupWithManager of the controllers

    The program that runs the controllers: its flags, the options it gives to
    the manager, what the controllers watch, and the order in which everything
    is set up before the manager starts. A failed step is logged and ends the
    process with exit code 1. *)

From S2P Require Import Prelude GoStrings Go Api World Images Launch Instances Sample Client Config LoadBalancer Capi.

(** ** Flags: InitFlags *)

Record Flags := {
  enableLeaderElection : bool;
  leaderElectionLeaseDuration : Z;
  leaderElectionRenewDeadline : Z;
  leaderElectionRetryPeriod : Z;
  watchNamespace : string;
  watchFilterValue : string;
  profilerAddress : string;
  enableContentionProfiling : bool;
  concurrency : Z;
  syncPeriod : Z;
  restConfigQPS : Z;
  restConfigBurst : Z;
  webhookPort : Z;
  webhookCertDir : string;
  webhookCertName : string;
  webhookKeyName : string;
  healthAddr : string
}.

(** The flags with their defaults; durations are in milliseconds. *)
Definition InitFlags : Flags :=
  {| enableLeaderElection := false; leaderElectionLeaseDuration := 15000; leaderElectionRenewDeadline := 10000;
     leaderElectionRetryPeriod := 2000; watchNamespace := ""; watchFilterValue := ""; profilerAddress := "";
     enableContentionProfiling := false; concurrency := 10; syncPeriod := 600000; restConfigQPS := 20;
     restConfigBurst := 30; webhookPort := 9443; webhookCertDir := "/tmp/k8s-webhook-server/serving-certs/";
     webhookCertName := "tls.crt"; webhookKeyName := "tls.key"; healthAddr := ":9440" |}.

(** The options of the manager. *)
Definition ctrlOptions (f : Flags) : ManagerOptions :=
  {| mo_LeaderElection := enableLeaderElection f; mo_LeaderElectionID := "controller-leader-election-capn";
     mo_LeaseDuration := leaderElectionLeaseDuration f; mo_RenewDeadline := leaderElectionRenewDeadline f;
     mo_RetryPeriod := leaderElectionRetryPeriod f; mo_LeaderElectionResourceLock := "leases";
     mo_HealthProbeBindAddress := healthAddr f; mo_PprofBindAddress := profilerAddress f;
     mo_DefaultNamespaces := if decide (watchNamespace f ≠ "") then Some [watchNamespace f] else None;
     mo_SyncPeriod := syncPeriod f; mo_SecretCacheLabel := ClusterNameLabel;
     mo_DisableCacheFor := ["ConfigMap"; "Secret"]; mo_UnstructuredCache := true;
     mo_WebhookPort := webhookPort f; mo_WebhookCertDir := webhookCertDir f;
     mo_WebhookCertName := webhookCertName f; mo_WebhookKeyName := webhookKeyName f |}.

Definition restOptions (userAgent : string) (f : Flags) : RestOptions :=
  {| ro_QPS := restConfigQPS f; ro_Burst := restConfigBurst f; ro_UserAgent := userAgent |}.

Section manager.
Context `{E : Env}.

(** ** The controllers: SetupWithManager

    [hasClient] is whether the Client field of the reconciler is set. *)

Definition lxccluster_controller (watchFilterValue : string) (maxConcurrent : Z) : ControllerSpec :=
  {| ct_For := "LXCCluster"; ct_MaxConcurrentReconciles := maxConcurrent;
     ct_EventFilter := ResourceHasFilterLabel watchFilterValue;
     ct_Watches := [{| wt_Object := "Cluster"; wt_Map := ClusterToInfrastructureMapFunc "LXCCluster";
                       wt_Predicates := [ClusterPausedTransitions] |}] |}.

Definition lxccluster_SetupWithManager (hasClient : bool) (watchFilterValue : string) (maxConcurrent : Z) : M state unit :=
  if negb hasClient then throw (errorString "required field Client must not be nil")
  else wrap "failed setting up with a controller manager: "
         (host (CompleteController (lxccluster_controller watchFilterValue maxConcurrent))).

Definition lxcmachine_controller (watchFilterValue : string) (maxConcurrent : Z) : ControllerSpec :=
  {| ct_For := "LXCMachine"; ct_MaxConcurrentReconciles := maxConcurrent;
     ct_EventFilter := ResourceHasFilterLabel watchFilterValue;
     ct_Watches := [{| wt_Object := "Machine"; wt_Map := MachineToInfrastructureMapFunc "LXCMachine"; wt_Predicates := [] |};
                    {| wt_Object := "LXCCluster"; wt_Map := LXCClusterToLXCMachinesMap; wt_Predicates := [] |};
                    {| wt_Object := "Cluster"; wt_Map := ClusterToTypedObjectsMapper "LXCMachineList";
                       wt_Predicates := [ClusterPausedTransitionsOrInfrastructureReady] |}] |}.

Definition lxcmachine_SetupWithManager (hasClient : bool) (watchFilterValue : string) (maxConcurrent : Z) : M state unit :=
  if negb hasClient then throw (errorString "required field Client must not be nil")
  else
    host (NewTypedObjectsMapper "LXCMachineList") ;;
    wrap "failed setting up with a controller manager: "
      (host (CompleteController (lxcmachine_controller watchFilterValue maxConcurrent))).

(** ** main *)

(** The manager always has a client. *)
Definition setupReconcilers (f : Flags) : M state unit :=
  lxccluster_SetupWithManager true (watchFilterValue f) 0 ;;
  lxcmachine_SetupWithManager true (watchFilterValue f) (concurrency f).

Definition setupChecks : M state unit :=
  host (AddHealthzCheck "healthz") ;;
  host (AddReadyzCheck "readyz").

(** The body of main: an error is a call of [os.Exit(1)]. [f] are the flags
    after parsing the command line. *)
Definition run_manager (userAgent : string) (f : Flags) : M state unit :=
  host (OSReadDir "/tmp/") ;;
  host (SetFlag "v" "2") ;;
  host GetRestConfig ;;
  host GetManagerOptions ;;
  host (NewManagerWith (restOptions userAgent f) (ctrlOptions f)) ;;
  setupReconcilers f ;;
  setupChecks ;;
  host StartManager.

(** The exit code. *)
Definition main (userAgent : string) (f : Flags) : M state Z :=
  let! r := try (run_manager userAgent f) in
  ret (match r with inl _ => 1%Z | inr _ => 0%Z end).

End manager.

(** ** Properties *)

Section properties.
Context `{E : Env}.

(** The calls of a complete start, in their order. *)
Definition startup (userAgent : string) (f : Flags) : list (hcall unit) :=
  [OSReadDir "/tmp/"; SetFlag "v" "2"; GetRestConfig; GetManagerOptions;
   NewManagerWith (restOptions userAgent f) (ctrlOptions f);
   CompleteController (lxccluster_controller (watchFilterValue f) 0);
   NewTypedObjectsMapper "LXCMachineList";
   CompleteController (lxcmachine_controller (watchFilterValue f) (concurrency f));
   AddHealthzCheck "healthz"; AddReadyzCheck "readyz"; StartManager].

Definition succeeded (c : hcall unit) : event := host_accepted c tt.
Definition failed (c : hcall unit) (e : error) : event := answered (CHost c) (inl e).

(** Making a list of calls, each wrapped or not: they are made in order, up to
    the first that fails. *)
Definition steps_outcome (calls : list (hcall unit)) (o : outcome unit) (evs : list event) : Prop :=
  match o with
  | Ok _ => evs = map succeeded calls
  | Err _ => ∃ done c rest e, calls = done ++ c :: rest ∧ evs = map succeeded done ++ [failed c e]
  | _ => False
  end.

Lemma traces_step (c : hcall unit) : traces (host c) (steps_outcome [c]).
Proof. tr_step; [by exists [], c, [], e|by destruct u]. Qed.

Lemma traces_wrap_steps pre (m : M state unit) calls : traces m (steps_outcome calls) → traces (wrap pre m) (steps_outcome calls).
Proof. intros Hm. tr_step. eapply traces_mono; [exact Hm|]. by intros []. Qed.

Lemma traces_then (m1 m2 : M state unit) calls1 calls2 :
  traces m1 (steps_outcome calls1) → traces m2 (steps_outcome calls2) → traces (m1 ;; m2) (steps_outcome (calls1 ++ calls2)).
Proof.
  intros H1 H2. tr_step. eapply traces_mono; [exact H1|]. intros [[]|e|?|] evs1 Ho1; try done.
  - eapply traces_mono; [exact H2|]. simpl in Ho1. subst. intros [[]|e|?|] evs2 Ho2; try done; simpl in *.
    + by rewrite map_app, Ho2.
    + destruct Ho2 as (done2 & c & rest & e' & -> & ->). exists (calls1 ++ done2), c, rest, e'. by rewrite map_app, <- !app_assoc.
  - destruct Ho1 as (done1 & c & rest & e' & -> & ->). exists done1, c, (rest ++ calls2), e'. by rewrite <- app_assoc.
Qed.

Lemma traces_run_manager userAgent f : traces (run_manager userAgent f) (steps_outcome (startup userAgent f)).
Proof.
  assert (Hs := traces_step). unfold run_manager, setupReconcilers, setupChecks. cbn [negb].
  unfold lxccluster_SetupWithManager, lxcmachine_SetupWithManager. cbn [negb].
  do 5 (apply (traces_then _ _ [_]); [apply Hs|]).
  apply (traces_then _ _ [_; _; _]).
  { apply (traces_then _ _ [_]); [apply traces_wrap_steps, Hs|]. apply (traces_then _ _ [_]); [apply Hs|apply traces_wrap_steps, Hs]. }
  apply (traces_then _ _ [_; _]); [apply (traces_then _ _ [_]); apply Hs|apply Hs].
Qed.

(** C18: The manager exits with 0 only when everything was set up, in order, and
    the manager ran to its end: both controllers and both checks before it
    starts. At the first step that fails it exits with 1, without any of the
    later steps; so it never serves with a controller or a check missing. *)
Theorem main_outcome (userAgent : string) (f : Flags) (s : state) :
  ∃ code evs, main userAgent f s = (Ok code, (main userAgent f s).2) ∧
    st_log (main userAgent f s).2 = st_log s ++ evs ∧
    ((code = 0%Z ∧ evs = map succeeded (startup userAgent f)) ∨
     (code = 1%Z ∧ ∃ done c rest e, startup userAgent f = done ++ c :: rest ∧ evs = map succeeded done ++ [failed c e])).
Proof.
  enough (traces (main userAgent f) (λ o evs, ∃ code, o = Ok code ∧
    ((code = 0%Z ∧ evs = map succeeded (startup userAgent f)) ∨
     (code = 1%Z ∧ ∃ done c rest e, startup userAgent f = done ++ c :: rest ∧ evs = map succeeded done ++ [failed c e])))) as Ht.
  { destruct (Ht s) as (evs & Hl & code & Ho & Hc). exists code, evs. split_and!; [|done|done].
    rewrite <- Ho. apply surjective_pairing. }
  unfold main. do 2 tr_step. eapply traces_mono; [apply traces_run_manager|].
  intros [[]|e|?|] evs Ho; try done; tr_step; rewrite app_nil_r; [exists 0%Z|exists 1%Z]; auto.
Qed.

End properties.
